(* ===== verification/_CoqProject ===== *)
-Q . S2P
Prelude.v
GoStrings.v
Paths.v
GoRuntime.v
Core.v
Registry.v
Config.v
Store.v
Proxy.v
Ddns.v
Scheduler.v
Discovery.v
Sys.v
Agent.v
Routes.v
Certs.v
Mutations.v
Main.v
Api.v
Program.v
Providers.v
AgentMain.v
System.v
Lifecycle.v
