(* ===== verification/Prelude.v ===== *)
(** * domux: a verification library

    domux is a home-lab gateway written in Go.  A server program
    ([src/cmd/domux]) reads a YAML configuration of managed domains (zones),
    discovers containers on a local runtime and, through agents, on remote
    ones, routes HTTP requests for their host names to them, keeps DNS records
    and certificates of the zones up to date, and has an HTTP API through which
    the configuration is changed while it runs.  An agent program
    ([src/cmd/domux-agent]) gives the server access to another machine's
    container runtime, file system and network.  This library models both
    programs and proves what makes them correct.

    ** How the parts interact

    The server holds a [MemoryStore] with the tables of the configuration and
    of everything observed.  Start-up and every reload seed it from a
    [Config]; discovery fills it with routes and applications and swaps the
    table of the reverse proxy; DDNS and certificate jobs read zones and
    providers from it and record what they did; the API reads it and changes
    it only through the configuration file: it updates the file, then reloads.
    Jobs of a scheduler, tasks at start-up, events of the runtimes and requests
    of the API all work on this one state.

    ** The files, in order

    Foundations:
    - [Prelude] (this file): results, notations, tactics, the hint database
      [domux], generic lemmas.
    - [GoStrings], [Paths]: strings as bytes and the functions of [strings],
      [strconv] and [path/filepath] that the programs call; 64-bit [int]; what
      JSON makes of a string that is not UTF-8 ([json_text]).
    - [GoRuntime]: what Go leaves open (map order, an unstable sort, Unicode
      tables) as the class [GoRuntime]; error values; URLs as [NetURL], with
      what [NetURLLaws] says of plain ones.  The theorems hold for every
      instance, so for every map order and sort.
    - [Sys]: the host (files with the process's mask, commands, clock, HTTP,
      JSON) as classes over an abstract world, [OSLaws] and [JSONLaws] for what
      the code relies on, the program's replacement of a file through a
      temporary one, and a simulated host whose calls fail on a schedule.

    Components (each file names the source files it models):
    - [Core] ([internal/core]): the data model, validation, defaults, plans.
    - [Registry], [Providers] ([internal/ddns/provider]): provider types and
      options; the clients of the four providers and the AliDNS signature.
    - [Config] ([internal/platform/config]): loading, validating and rewriting
      the configuration file.
    - [Store] ([internal/platform/store]): the store; [store_step] is its
      transition relation.
    - [Proxy] ([internal/proxy]): route table, proxy decision, certificates.
    - [Ddns] ([internal/ddns/service], [ddns/ipdetect], [dns/authzone]).
    - [Scheduler] ([internal/platform/job]): one firing of a job, and the
      goroutines as a transition system [sched_step].
    - [Discovery] ([internal/discovery/docker]): labels, targets, snapshots.
    - [Agent] ([internal/agent], [internal/discovery/remote]): the agent's
      server, its client, the pool of agents, remote discovery.
    - [Routes] ([cmd/domux/main.go]): discoverers, custom routes, merging,
      applications, one refresh; [moved] is what becomes of a route that gives
      up its host.
    - [Certs] ([internal/certs]): bundle store, deployers, ACME manager.
    - [Mutations], [Api] ([internal/platform/api]): decoders, the changes of
      the configuration ([api_change] lists them), every handler, the routes and
      their dispatch.
    - [Main] ([cmd/domux/main.go]): start-up, the runtime manager, reload, the
      actions and jobs, certificate synchronisation, access control.  A task
      of start-up or of a reload works on the pool of agents it was started
      with, which a later reload retires ([ss_retired]).
    - [Program]: the API over the running server, with jobs, tasks and events,
      as the transition system [program_step].
    - [AgentMain] ([cmd/domux-agent]): command lines, what the agent serves,
      its registration with the server, installation.
    - [System] ([internal/system]): the load of the host.
    - [Lifecycle]: the watch on runtime events with the loop that refreshes on
      them ([watch_step]), and how the server program ends.

    ** State and operations

    A Go struct is a Record with a field prefix, a handler or method a
    Definition of the same name, mutation explicit state passing.  A call that
    can fail and change the world is an [IO]; [do!] sequences two of them, and
    [let?] two results.  Go's [(T, error)] is a [result] where callers look at
    the error first, a pair where they use both.  Locks make a store method or
    a swap of the route table one atomic step; the goroutines of the scheduler
    and of the watch interleave in their transition systems.

    Interfaces stand for code that is not the program's: [GoRuntime],
    [NetURL], [OS], [HTTP], [JSON], [YAML], [Lego], [AcmeClient], [Crypto],
    [Challenges], [Nat], [World], [Signing].  Laws about them state documented
    behaviour, and each is discharged by a concrete instance in the witnesses.
    The clients of the container engines are functions that may fail: nothing
    assumes that a client can be created.  [clients_ok] says that those of one
    configuration can.

    ** What is proved

    - The whole server ([Program]): what runs is at all times one valid
      configuration, the stored one or the one it started with; every request
      of the API succeeds with its change stored and running, or reports a
      failure and changes neither.  The one exception is a valid configuration
      whose container clients cannot be created: it is stored and not run, and
      the request fails ([refused_runtime_is_stored]).
    - Start-up and reload ([Main]): a configuration that loads starts exactly
      when its clients can be created; a reload leaves what a restart would, or
      nothing changed; the store is seeded with exactly the configuration.
    - Configuration ([Config], [Mutations]): validation is sound and complete;
      the file is replaced as a whole or not at all; from a file in the current
      form, what any handler of the API stores is loaded again, and the file
      stays in that form; the changes of the API and the normal form of what it
      decodes.
    - Routes ([Discovery], [Routes], [Proxy]): which routes a set of containers
      has, at which address each is reached, what one refresh makes of them,
      which containers the list of applications shows and how, what the table
      answers; no event of a runtime is lost between the watch
      and the refresh loop ([Lifecycle]).
    - DNS ([Ddns], [Registry], [Providers]): only the zone's own names are
      written, with the detected address; the authoritative zone is the closest
      one; a client talks to its own interface only, signs what it sends, ends
      its paging loop, and leaves the records of other names alone.
    - Certificates ([Core], [Certs], [Main]): plans, renewal, replacement of a
      pair of files under failures, the DNS challenge guarded when it is
      presented and when it is cleaned up, and what a synchronisation touches.
    - Scheduler, store, agent: at most one firing of a job at a time and a
      bounded number of retries; which listings do not depend on map order, and
      when; deploying through an agent is running its deployer; its proxy
      reaches the target only; an agent that registers becomes pending at the
      server, through the URL it writes and the names of the fields both
      programs use; the load of a host is always a percentage.

    Where the code does not do what it means to, a lemma or example of the
    component shows it.

    ** Bounds and fuel

    [int] and [time.Duration] are [Z] with [wrap64] where they can overflow,
    [uint64] has its own wrap-around in [System].  Recursion is structural but
    for one loop: [Providers.listRecords] takes fuel, and
    [listRecords_terminates] shows that one more than the number of records a
    server can announce is always enough.  The retries of the scheduler and of
    the agent's registration count down their own bounds.

    ** Not modelled

    - Listening, TLS handshakes, HTTP transport and proxying of bodies, which
      are [net/http]'s; signals, and cancellation inside a call except where it
      decides the result.
    - Interleaving inside an action or a reload: [program_step] runs requests,
      jobs and tasks one after the other, although the server only serialises
      route refreshes and changes of the file.
    - The text of YAML and JSON, the container engine's client, the ACME
      protocol and X.509, which are libraries; logging.
    - The shell script served to install an agent (a constant but for the URL
      of the server), and the embedded web interface ([web/ui.go]).
    - [validateZone], [validateDeployTarget] and [zoneReferencedDeployTargets]
      of the API, which nothing calls. *)

From Stdlib Require Export Ascii String ZArith Lia Permutation Sorted.
From stdpp Require Export base tactics list gmap strings pretty sorting.

#[global] Open Scope list_scope.

(** ** Results of fallible Go functions

    A Go function with result type [(T, error)] returns [Ok v] when its error
    is nil and [Err e] when the caller only looks at the error.  Functions
    whose callers use both components return a pair instead. *)
Inductive result (E A : Type) : Type :=
  | Ok (a : A)
  | Err (e : E).
Arguments Ok {E A} a.
Arguments Err {E A} e.

#[export] Instance result_ret E : MRet (result E) := fun A a => Ok a.
#[export] Instance result_bind E : MBind (result E) := fun A B f r =>
  match r with Ok a => f a | Err e => Err e end.
#[export] Instance result_fmap E : FMap (result E) := fun A B f r =>
  match r with Ok a => Ok (f a) | Err e => Err e end.

Definition is_ok {E A} (r : result E A) : bool :=
  match r with Ok _ => true | Err _ => false end.

(** Notations of the development. *)
Declare Scope domux_scope.
Delimit Scope domux_scope with domux.
Notation "'let?' x ':=' e 'in' k" :=
  (match e with Ok x => k | Err err => Err err end)
  (at level 10, x pattern, e at level 100, k at level 200)
  : domux_scope.
#[global] Open Scope domux_scope.

(** ** Tactics *)

(** Case analysis on the scrutinee of an [if] or [match] of the goal or of a
    hypothesis, keeping the equation. *)
Ltac case_split :=
  match goal with
  | |- context [if ?b then _ else _] => destruct b eqn:?
  | |- context [match ?x with _ => _ end] => destruct x eqn:?
  | H : context [if ?b then _ else _] |- _ => destruct b eqn:?
  | H : context [match ?x with _ => _ end] |- _ => destruct x eqn:?
  end.

(** Turns boolean tests on strings into (dis)equalities. *)
Ltac beq :=
  repeat match goal with
  | H : String.eqb _ _ = true |- _ => apply String.eqb_eq in H
  | H : String.eqb _ _ = false |- _ => apply String.eqb_neq in H
  | H : bool_decide _ = true |- _ => apply bool_decide_eq_true_1 in H
  | H : bool_decide _ = false |- _ => apply bool_decide_eq_false_1 in H
  | H : (_ && _)%bool = true |- _ => apply andb_true_iff in H; destruct H
  | H : (_ || _)%bool = false |- _ => apply orb_false_iff in H; destruct H
  | H : negb _ = true |- _ => apply negb_true_iff in H
  | H : negb _ = false |- _ => apply negb_false_iff in H
  end.

Create Rewrite HintDb gostr.
Create HintDb domux discriminated.
#[export] Hint Constants Opaque : domux.

(** ** Lists *)

Lemma NoDup_snoc {A} (x : A) l : NoDup (l ++ [x]) ↔ (x ∉ l) ∧ NoDup l.
Proof.
  rewrite NoDup_app. split.
  - intros (Hl & Hd & _). split; [|done]. intros Hx. apply (Hd x Hx). constructor.
  - intros [Hx Hl]. split; [done|]. split; [|apply NoDup_singleton].
    by intros y Hy ->%list_elem_of_singleton.
Qed.

(** The last element of a list satisfying a boolean test: what a Go map built
    by a loop of assignments holds at a key. *)
Fixpoint find_last {A} (p : A -> bool) (l : list A) : option A :=
  match l with
  | [] => None
  | x :: l' => match find_last p l' with
               | Some y => Some y
               | None => if p x then Some x else None
               end
  end.

Lemma find_last_Some {A} (p : A -> bool) l x :
  find_last p l = Some x -> x ∈ l /\ p x = true.
Proof.
  induction l as [|y l IH]; simpl; [done|].
  destruct (find_last p l) eqn:E.
  - intros [= ->]. destruct IH; [done|]. split; [|done]. by constructor.
  - destruct (p y) eqn:Ep; [|done]. intros [= ->]. split; [|done]. constructor.
Qed.

Lemma find_last_None {A} (p : A -> bool) l :
  find_last p l = None <-> forall x, x ∈ l -> p x = false.
Proof.
  induction l as [|y l IH]; simpl.
  - split; [|done]. intros _ x Hx. by apply elem_of_nil in Hx.
  - destruct (find_last p l) eqn:E.
    + split; [done|]. intros H. exfalso.
      apply find_last_Some in E as [Hin Hp]. rewrite H in Hp; [done|]. by constructor.
    + destruct (p y) eqn:Ep.
      * split; [done|]. intros H. rewrite H in Ep; [done|constructor].
      * split; [|done]. intros _ x Hx. apply elem_of_cons in Hx as [->|Hx]; [done|].
        by apply IH.
Qed.

(** The first index at which a test holds (the [index := -1] loops). *)
Fixpoint find_index {A} (p : A -> bool) (l : list A) : option nat :=
  match l with
  | [] => None
  | x :: l' => if p x then Some 0 else S <$> find_index p l'
  end.

Lemma find_index_Some {A} (p : A -> bool) l i :
  find_index p l = Some i -> exists x, l !! i = Some x /\ p x = true.
Proof.
  revert i. induction l as [|y l IH]; intros i; simpl; [done|].
  destruct (p y) eqn:E; [intros [= <-]; eauto|].
  destruct (find_index p l) eqn:F; simpl; [|done]. intros [= <-]. by apply IH.
Qed.

Lemma find_index_None {A} (p : A -> bool) l :
  find_index p l = None <-> forall x, x ∈ l -> p x = false.
Proof.
  induction l as [|y l IH]; simpl.
  - split; [|done]. intros _ x Hx. by apply elem_of_nil in Hx.
  - destruct (p y) eqn:E.
    + split; [done|]. intros H. rewrite H in E; [done|constructor].
    + destruct (find_index p l) eqn:F; simpl.
      * split; [done|]. intros H.
        assert (find_index p l = None) as G; [|congruence].
        rewrite F. apply IH. intros x Hx. apply H. by constructor.
      * split; [|done]. intros _ x Hx. apply elem_of_cons in Hx as [->|Hx]; [done|].
        by apply IH.
Qed.

(** [append(l[:i], l[i+1:]...)] *)
Definition delete_at {A} (i : nat) (l : list A) : list A := take i l ++ drop (S i) l.

Lemma elem_of_delete_at {A} (i : nat) (l : list A) x : x ∈ delete_at i l -> x ∈ l.
Proof.
  unfold delete_at. rewrite elem_of_app, !list_elem_of_In. intros [H|H].
  - rewrite <-(take_drop i l). apply in_or_app. by left.
  - rewrite <-(take_drop (S i) l). apply in_or_app. by right.
Qed.

Lemma delete_at_sublist {A} (i : nat) (l : list A) : delete_at i l `sublist_of` l.
Proof.
  unfold delete_at. rewrite <-(take_drop i l) at 3. apply sublist_app; [done|].
  rewrite <-Nat.add_1_r, <-drop_drop. apply sublist_drop.
Qed.

(** ** Maps built by a loop over a slice *)
Section keyed.
Context {A : Type} (key : A -> string).

Definition insert_keyed (m : gmap string A) (x : A) : gmap string A := <[key x := x]> m.
Definition keyed_from (m : gmap string A) (l : list A) : gmap string A :=
  foldl insert_keyed m l.

Lemma keyed_from_lookup m l k :
  keyed_from m l !! k =
  match find_last (fun x => String.eqb (key x) k) l with
  | Some x => Some x
  | None => m !! k
  end.
Proof.
  unfold keyed_from. revert m. induction l as [|x l IH]; intros m; simpl; [done|].
  rewrite IH. destruct (find_last _ l); [done|]. unfold insert_keyed.
  destruct (String.eqb (key x) k) eqn:E; beq.
  - subst. by rewrite lookup_insert_eq.
  - by rewrite lookup_insert_ne.
Qed.
End keyed.

#[export] Hint Resolve elem_of_delete_at delete_at_sublist : domux.
