(* ===== verification/GoStrings.v ===== *)
(** Byte strings as Go has them: a Go string is a sequence of bytes, here a
    [string] (each [ascii] is one byte).  The functions of the packages
    [strings], [strconv] and [path/filepath] that domux calls, with the lemmas
    the components share.  [TrimSpace] knows the UTF-8 encodings of the
    Unicode white space, as Go's does. *)

From S2P Require Import Prelude.

#[local] Arguments String.append : simpl nomatch.

Definition byte_of (c : ascii) : N := N_of_ascii c.
Definition ch (n : nat) : ascii := ascii_of_nat n.

(** ** Prefixes, suffixes, substrings *)

Fixpoint str_drop (n : nat) (s : string) : string :=
  match n, s with
  | O, _ => s
  | S _, EmptyString => EmptyString
  | S n', String _ s' => str_drop n' s'
  end.

Fixpoint str_take (n : nat) (s : string) : string :=
  match n, s with
  | O, _ | S _, EmptyString => EmptyString
  | S n', String c s' => String c (str_take n' s')
  end.

Fixpoint HasPrefix (s p : string) : bool :=
  match p, s with
  | EmptyString, _ => true
  | String _ _, EmptyString => false
  | String a p', String b s' => Ascii.eqb a b && HasPrefix s' p'
  end.

Definition HasSuffix (s suf : string) : bool :=
  (String.length suf <=? String.length s)%nat &&
  String.eqb (str_drop (String.length s - String.length suf) s) suf.

Definition TrimPrefix (s p : string) : string :=
  if HasPrefix s p then str_drop (String.length p) s else s.

Definition TrimSuffix (s suf : string) : string :=
  if HasSuffix s suf then str_take (String.length s - String.length suf) s else s.

Fixpoint Contains (s sub : string) : bool :=
  HasPrefix s sub ||
  match s with EmptyString => false | String _ s' => Contains s' sub end.

(** [strings.Cut(s, sep)] for a one-byte separator. *)
Fixpoint Cut (sep : ascii) (s : string) : option (string * string) :=
  match s with
  | EmptyString => None
  | String c s' =>
      if Ascii.eqb c sep then Some (EmptyString, s')
      else match Cut sep s' with
           | Some (a, b) => Some (String c a, b)
           | None => None
           end
  end.

(** [strings.Split(s, sep)] for a one-byte separator: never empty. *)
Fixpoint Split (sep : ascii) (s : string) : list string :=
  match s with
  | EmptyString => [EmptyString]
  | String c s' =>
      if Ascii.eqb c sep then EmptyString :: Split sep s'
      else match Split sep s' with
           | x :: xs => String c x :: xs
           | [] => [String c EmptyString]
           end
  end.

Fixpoint Join (sep : string) (l : list string) : string :=
  match l with
  | [] => EmptyString
  | [x] => x
  | x :: l' => x +:+ sep +:+ Join sep l'
  end.

(** ** Trimming *)

(** The number of bytes of the white-space code point at the head of [s]
    ([unicode.IsSpace] through the UTF-8 decoder), 0 if there is none. *)
Definition ascii_space (c : ascii) : bool :=
  ((9 <=? byte_of c) && (byte_of c <=? 13) || (byte_of c =? 32))%N.

Definition wide_space2 (a b : ascii) : bool :=
  ((byte_of a =? 194) && ((byte_of b =? 133) || (byte_of b =? 160)))%N.

Definition wide_space3 (a b c : ascii) : bool :=
  (((byte_of a =? 225) && (byte_of b =? 154) && (byte_of c =? 128)) ||
   ((byte_of a =? 226) && (byte_of b =? 128) &&
      (((128 <=? byte_of c) && (byte_of c <=? 138)) ||
       (byte_of c =? 168) || (byte_of c =? 169) || (byte_of c =? 175))) ||
   ((byte_of a =? 226) && (byte_of b =? 129) && (byte_of c =? 159)) ||
   ((byte_of a =? 227) && (byte_of b =? 128) && (byte_of c =? 128)))%N.

Definition space_width (s : string) : nat :=
  match s with
  | EmptyString => 0
  | String a s1 =>
      if ascii_space a then 1 else
      match s1 with
      | EmptyString => 0
      | String b s2 =>
          if wide_space2 a b then 2 else
          match s2 with
          | EmptyString => 0
          | String c _ => if wide_space3 a b c then 3 else 0
          end
      end
  end.

(** [skip] counts the bytes left of the code point being removed. *)
Fixpoint trim_left_from (skip : nat) (s : string) : string :=
  match s with
  | EmptyString => EmptyString
  | String _ s' =>
      match skip with
      | S k => trim_left_from k s'
      | O => match space_width s with
             | O => s
             | S k => trim_left_from k s'
             end
      end
  end.
Definition TrimLeftSpace (s : string) : string := trim_left_from 0 s.

Definition all_space (s : string) : bool := String.eqb (TrimLeftSpace s) EmptyString.

Fixpoint TrimRightSpace (s : string) : string :=
  match s with
  | EmptyString => EmptyString
  | String c s' => if all_space s then EmptyString else String c (TrimRightSpace s')
  end.

Definition TrimSpace (s : string) : string := TrimRightSpace (TrimLeftSpace s).

(** [strings.TrimRight], [strings.Trim] with a set of bytes. *)
Fixpoint TrimLeftSet (p : ascii -> bool) (s : string) : string :=
  match s with
  | EmptyString => EmptyString
  | String c s' => if p c then TrimLeftSet p s' else s
  end.
Fixpoint TrimRightSet (p : ascii -> bool) (s : string) : string :=
  match s with
  | EmptyString => EmptyString
  | String c s' =>
      match TrimRightSet p s' with
      | EmptyString => if p c then EmptyString else String c EmptyString
      | t => String c t
      end
  end.
Definition TrimSet (p : ascii -> bool) (s : string) : string :=
  TrimRightSet p (TrimLeftSet p s).
Definition is_char (c : ascii) : ascii -> bool := Ascii.eqb c.
Definition slash : ascii := "/".
Definition dash : ascii := "-".
Definition dot : ascii := ".".
Definition colon : ascii := ":".

(** ** Characters *)

Definition is_ascii_char (c : ascii) : bool := (byte_of c <? 128)%N.
Definition is_upper (c : ascii) : bool := ((65 <=? byte_of c) && (byte_of c <=? 90))%N.
Definition is_lower (c : ascii) : bool := ((97 <=? byte_of c) && (byte_of c <=? 122))%N.
Definition is_digit (c : ascii) : bool := ((48 <=? byte_of c) && (byte_of c <=? 57))%N.
Definition lower_char (c : ascii) : ascii :=
  if is_upper c then ascii_of_N (byte_of c + 32) else c.

Fixpoint str_forall (p : ascii -> bool) (s : string) : bool :=
  match s with EmptyString => true | String c s' => p c && str_forall p s' end.
Fixpoint str_map (f : ascii -> ascii) (s : string) : string :=
  match s with EmptyString => EmptyString | String c s' => String (f c) (str_map f s') end.

Definition is_ascii (s : string) : bool := str_forall is_ascii_char s.

(** ** UTF-8 *)

(** A byte in a range; a continuation byte of a code point. *)
Definition byte_in (low high : N) (c : ascii) : bool :=
  ((low <=? byte_of c) && (byte_of c <=? high))%N.
Definition continuation (c : ascii) : bool := byte_in 128 191 c.

(** [utf8.DecodeRuneInString]: the number of bytes of the code point at the
    head of [s], 0 if the encoding is invalid. *)
Definition rune_width (s : string) : nat :=
  match s with
  | EmptyString => 0
  | String a s1 =>
      if is_ascii_char a then 1 else
      match s1 with
      | EmptyString => 0
      | String b s2 =>
          if byte_in 194 223 a && continuation b then 2 else
          match s2 with
          | EmptyString => 0
          | String c s3 =>
              if ((byte_in 224 224 a && byte_in 160 191 b) || (byte_in 237 237 a && byte_in 128 159 b)
                  || ((byte_in 225 236 a || byte_in 238 239 a) && continuation b))
                 && continuation c then 3 else
              match s3 with
              | EmptyString => 0
              | String d _ =>
                  if ((byte_in 240 240 a && byte_in 144 191 b) || (byte_in 244 244 a && byte_in 128 143 b)
                      || (byte_in 241 243 a && continuation b)) && continuation c && continuation d
                  then 4 else 0
              end
          end
      end
  end.

(** U+FFFD, the replacement character. *)
Definition replacement : string :=
  String (ascii_of_N 239) (String (ascii_of_N 191) (String (ascii_of_N 189) "")).

(** What a string is after [encoding/json] has written and read it: every byte
    that is not part of a valid encoding becomes the replacement character.
    [skip] counts the bytes left of a valid code point. *)
Fixpoint json_text_from (skip : nat) (s : string) : string :=
  match s with
  | EmptyString => EmptyString
  | String c s' =>
      match skip with
      | S k => String c (json_text_from k s')
      | O => match rune_width s with
             | O => replacement +:+ json_text_from 0 s'
             | S k => String c (json_text_from k s')
             end
      end
  end.
Definition json_text (s : string) : string := json_text_from 0 s.
Definition valid_utf8 (s : string) : bool := String.eqb (json_text s) s.

Lemma json_text_ascii s : is_ascii s = true → json_text s = s.
Proof.
  unfold json_text, is_ascii. induction s as [|c s IH]; [done|]. cbn [str_forall].
  intros [Hc Hs]%andb_true_iff. cbn [json_text_from rune_width]. rewrite Hc. by rewrite IH.
Qed.

Lemma json_text_empty s : json_text s = "" ↔ s = "".
Proof.
  unfold json_text. split; [|by intros ->]. destruct s as [|c s]; [done|].
  cbn [json_text_from]. by destruct (rune_width (String c s)).
Qed.

Example json_text_examples :
  json_text "a§漢😀" = "a§漢😀" ∧
  json_text (String (ascii_of_N 233) "t") = replacement +:+ "t" ∧
  json_text (String (ascii_of_N 237) (String (ascii_of_N 160) "x")) =
    replacement +:+ replacement +:+ "x".
Proof. by vm_compute. Qed.

(** ** Lexicographic order (Go's [<] on strings) *)

Fixpoint str_ltb (a b : string) : bool :=
  match a, b with
  | _, EmptyString => false
  | EmptyString, String _ _ => true
  | String x a', String y b' =>
      if (byte_of x <? byte_of y)%N then true
      else if (byte_of y <? byte_of x)%N then false
      else str_ltb a' b'
  end.
Definition str_le (a b : string) : Prop := str_ltb b a = false.

(** ** Numbers *)

Definition int_min : Z := (-2 ^ 63)%Z.
Definition int_max : Z := (2 ^ 63 - 1)%Z.

(** Two's-complement wrap-around of 64-bit signed arithmetic. *)
Definition wrap64 (z : Z) : Z := ((z + 2 ^ 63) mod 2 ^ 64 - 2 ^ 63)%Z.

Definition in_int64 (z : Z) : bool := ((int_min <=? z) && (z <=? int_max))%Z.

Fixpoint digits_value (acc : Z) (s : string) : option Z :=
  match s with
  | EmptyString => Some acc
  | String c s' =>
      if is_digit c then digits_value (acc * 10 + Z.of_N (byte_of c - 48)) s' else None
  end%Z.

(** [strconv.Atoi]: an optional sign, at least one decimal digit, 64-bit
    range; [None] is its error. *)
Definition Atoi (s : string) : option Z :=
  let parse (neg : bool) (d : string) :=
    match d with
    | EmptyString => None
    | _ => v ← digits_value 0 d;
           let v := if neg then (- v)%Z else v in
           if in_int64 v then Some v else None
    end in
  match s with
  | EmptyString => None
  | String c s' =>
      if Ascii.eqb c "-" then parse true s'
      else if Ascii.eqb c "+" then parse false s'
      else parse false s
  end.

(** [strconv.Itoa], [%d] *)
Definition Itoa (z : Z) : string := pretty z.

(** ** [strconv.Quote] on ASCII bytes *)

Definition hex_digit (n : N) : ascii :=
  if (n <? 10)%N then ascii_of_N (48 + n) else ascii_of_N (87 + n).

Definition backslash : ascii := ch 92.
Definition dquote : ascii := ch 34.

Definition quote_char (c : ascii) : string :=
  let esc (x : ascii) := String backslash (String x EmptyString) in
  let n := byte_of c in
  if (n =? 34)%N then esc dquote
  else if (n =? 92)%N then esc backslash
  else if (n =? 7)%N then esc "a"%char
  else if (n =? 8)%N then esc "b"%char
  else if (n =? 9)%N then esc "t"%char
  else if (n =? 10)%N then esc "n"%char
  else if (n =? 11)%N then esc "v"%char
  else if (n =? 12)%N then esc "f"%char
  else if (n =? 13)%N then esc "r"%char
  else if ((n <? 32) || (n =? 127))%N
       then String backslash (String "x"%char (String (hex_digit (n / 16))
              (String (hex_digit (n mod 16)) EmptyString)))
  else String c EmptyString.

Fixpoint quote_body (s : string) : string :=
  match s with
  | EmptyString => EmptyString
  | String c s' => quote_char c +:+ quote_body s'
  end.
Definition quote_ascii (s : string) : string :=
  String dquote (quote_body s +:+ String dquote EmptyString).

(** ** [path/filepath] (Unix) *)

Definition rooted (p : string) : bool := HasPrefix p "/".

(** The components kept so far, last one first. *)
Definition clean_step (root : bool) (stack : list string) (c : string) : list string :=
  if String.eqb c "" || String.eqb c "." then stack
  else if String.eqb c ".." then
    match stack with
    | [] => if root then [] else [".."]
    | top :: rest => if String.eqb top ".." then c :: stack else rest
    end
  else c :: stack.

Definition Clean (p : string) : string :=
  let root := rooted p in
  let body := Join "/" (rev (foldl (clean_step root) [] (Split slash p))) in
  if root then "/" +:+ body
  else if String.eqb body "" then "." else body.

(** [filepath.Join]: empty elements are dropped, the rest joined and cleaned. *)
Definition PathJoin (elems : list string) : string :=
  match filter (fun e => e ≠ "") elems with
  | [] => ""
  | l => Clean (Join "/" l)
  end.

Definition Base (p : string) : string :=
  if String.eqb p "" then "."
  else let t := TrimRightSet (is_char slash) p in
       if String.eqb t "" then "/" else List.last (Split slash t) "".

(** [filepath.Dir]: everything up to the last separator, cleaned. *)
Definition Dir (p : string) : string :=
  match rev (Split slash p) with
  | [] => Clean ""
  | _ :: pre => match pre with
                | [] => Clean ""
                | _ => Clean (Join "/" (rev pre) +:+ "/")
                end
  end.

Definition IsAbs (p : string) : bool := rooted p.

(** * Lemmas *)

(** ** Concatenation, prefixes and suffixes *)

Lemma app_nil_str (s : string) : s +:+ "" = s.
Proof. induction s as [|c s IH]; simpl; [done|]. by rewrite IH. Qed.

Lemma app_assoc_str (a b c : string) : (a +:+ b) +:+ c = a +:+ b +:+ c.
Proof. induction a as [|x a IH]; simpl; [done|]. by rewrite IH. Qed.

Lemma length_app_str (a b : string) :
  String.length (a +:+ b) = String.length a + String.length b.
Proof. induction a as [|x a IH]; simpl; [done|]. by rewrite IH. Qed.

Lemma app_inj_l_str (a b c : string) : a +:+ b = a +:+ c → b = c.
Proof. induction a as [|x a IH]; simpl; [done|]. intros [= H]. by apply IH. Qed.

Lemma str_drop_app (a b : string) : str_drop (String.length a) (a +:+ b) = b.
Proof. by induction a as [|x a IH]. Qed.

Lemma str_take_app (a b : string) : str_take (String.length a) (a +:+ b) = a.
Proof. induction a as [|x a IH]; simpl; [by destruct b|]. by rewrite IH. Qed.

Lemma str_take_drop (n : nat) (s : string) : str_take n s +:+ str_drop n s = s.
Proof.
  revert s. induction n as [|n IH]; intros [|c s]; simpl; try done. by rewrite IH.
Qed.

Lemma length_str_take (n : nat) (s : string) :
  n ≤ String.length s → String.length (str_take n s) = n.
Proof.
  revert s. induction n as [|n IH]; intros [|c s]; simpl; try lia.
  intros H. rewrite IH; lia.
Qed.

Lemma HasPrefix_spec (s p : string) : HasPrefix s p = true ↔ ∃ t, s = p +:+ t.
Proof.
  split.
  - revert s. induction p as [|a p IH]; intros [|b s]; simpl; eauto; [done|].
    intros H. beq. apply Ascii.eqb_eq in H as ->.
    destruct (IH s) as [t ->]; eauto.
  - intros [t ->]. induction p as [|a p IH]; simpl; [by destruct t|].
    by rewrite Ascii.eqb_refl.
Qed.

Lemma HasPrefix_app (p t : string) : HasPrefix (p +:+ t) p = true.
Proof. apply HasPrefix_spec. eauto. Qed.

Lemma TrimPrefix_app (p t : string) : TrimPrefix (p +:+ t) p = t.
Proof. unfold TrimPrefix. by rewrite HasPrefix_app, str_drop_app. Qed.

Lemma HasSuffix_spec (s suf : string) : HasSuffix s suf = true ↔ ∃ t, s = t +:+ suf.
Proof.
  unfold HasSuffix. split.
  - intros H. beq. apply Nat.leb_le in H.
    exists (str_take (String.length s - String.length suf) s).
    match goal with H : str_drop _ _ = suf |- _ => rewrite <-H at 2 end.
    by rewrite str_take_drop.
  - intros [t ->]. rewrite length_app_str, Nat.add_sub, str_drop_app.
    rewrite String.eqb_refl, andb_true_r. apply Nat.leb_le. lia.
Qed.

Lemma HasSuffix_app (t suf : string) : HasSuffix (t +:+ suf) suf = true.
Proof. apply HasSuffix_spec. eauto. Qed.

Lemma TrimSuffix_app (t suf : string) : TrimSuffix (t +:+ suf) suf = t.
Proof.
  unfold TrimSuffix. rewrite HasSuffix_app, length_app_str, Nat.add_sub.
  apply str_take_app.
Qed.

Lemma TrimSuffix_false (s suf : string) : HasSuffix s suf = false → TrimSuffix s suf = s.
Proof. unfold TrimSuffix. by intros ->. Qed.

Lemma app_last_char (a b : string) (c d : ascii) :
  a +:+ String c "" = b +:+ String d "" → a = b ∧ c = d.
Proof.
  revert b. induction a as [|x a IH]; intros [|y b]; simpl; intros H; injection H.
  - intros ->. done.
  - destruct b; done.
  - destruct a; done.
  - intros Ha ->. apply IH in Ha as [-> ->]. done.
Qed.

(** ** The order on strings *)

Lemma byte_of_inj (a b : ascii) : byte_of a = byte_of b → a = b.
Proof.
  unfold byte_of. intros H. by rewrite <-(ascii_N_embedding a), H, ascii_N_embedding.
Qed.

Ltac byte_cases :=
  repeat match goal with
  | H : context [(byte_of ?x <? byte_of ?y)%N] |- _ =>
      destruct (N.ltb_spec (byte_of x) (byte_of y))
  | |- context [(byte_of ?x <? byte_of ?y)%N] =>
      destruct (N.ltb_spec (byte_of x) (byte_of y))
  end.

Lemma str_ltb_irrefl (a : string) : str_ltb a a = false.
Proof. induction a as [|x a IH]; simpl; [done|]. byte_cases; try lia. done. Qed.

Lemma str_ltb_trans (a b c : string) :
  str_ltb a b = true → str_ltb b c = true → str_ltb a c = true.
Proof.
  revert b c. induction a as [|x a IH]; intros [|y b] [|z c]; simpl; try done.
  intros H1 H2. byte_cases; try lia; try done. by eapply IH.
Qed.

Lemma str_ltb_total (a b : string) :
  str_ltb a b = false → str_ltb b a = false → a = b.
Proof.
  revert b. induction a as [|x a IH]; intros [|y b]; simpl; try done.
  intros H1 H2. byte_cases; try lia; try done.
  rewrite (byte_of_inj x y) by lia. f_equal. by apply IH.
Qed.

Lemma str_ltb_asym (a b : string) : str_ltb a b = true → str_ltb b a = false.
Proof.
  intros H. destruct (str_ltb b a) eqn:E; [|done].
  rewrite <-(str_ltb_irrefl a). symmetry. by eapply str_ltb_trans.
Qed.

Lemma str_ltb_negtrans (a b c : string) :
  str_ltb a b = false → str_ltb b c = false → str_ltb a c = false.
Proof.
  intros H1 H2. destruct (str_ltb a c) eqn:E; [|done].
  destruct (str_ltb b a) eqn:F.
  - rewrite (str_ltb_trans _ _ _ F E) in H2. done.
  - rewrite (str_ltb_total _ _ H1 F) in E. congruence.
Qed.

#[export] Instance str_le_trans : Transitive str_le.
Proof. intros a b c H1 H2. unfold str_le in *. by eapply str_ltb_negtrans. Qed.

#[export] Instance str_le_antisymm : AntiSymm (=) str_le.
Proof. intros a b H1 H2. by apply str_ltb_total. Qed.

#[export] Instance str_le_refl : Reflexive str_le.
Proof. intros a. apply str_ltb_irrefl. Qed.

(** ** [Split] and [Join] *)

Lemma Split_nonempty (sep : ascii) (s : string) : Split sep s ≠ [].
Proof. destruct s; simpl; [done|]. repeat case_split; done. Qed.

Lemma Join_cons (sep x : string) (l : list string) :
  l ≠ [] → Join sep (x :: l) = x +:+ sep +:+ Join sep l.
Proof. by destruct l. Qed.

Lemma Join_Split (sep : ascii) (s : string) : Join (String sep "") (Split sep s) = s.
Proof.
  induction s as [|c s IH]; simpl; [done|].
  destruct (Ascii.eqb c sep) eqn:E.
  - apply Ascii.eqb_eq in E as ->.
    rewrite Join_cons by apply Split_nonempty. by rewrite IH.
  - destruct (Split sep s) as [|x xs] eqn:F; [by apply Split_nonempty in F|].
    destruct xs; simpl in *; by rewrite IH.
Qed.

Lemma Cut_Some (sep : ascii) (s a b : string) :
  Cut sep s = Some (a, b) → s = a +:+ String sep b.
Proof.
  revert a b. induction s as [|c s IH]; intros a b; simpl; [done|].
  destruct (Ascii.eqb c sep) eqn:E.
  - apply Ascii.eqb_eq in E as ->. by intros [= <- <-].
  - destruct (Cut sep s) as [[a' b']|]; [|done]. intros [= <- <-].
    simpl. f_equal. by apply IH.
Qed.

(** ** [TrimSpace] *)

Lemma space_width_app (a b : string) :
  space_width a ≠ 0 → space_width (a +:+ b) = space_width a.
Proof.
  destruct a as [|x [|y [|z a]]]; simpl; try done.
  - by destruct (ascii_space x).
  - by destruct (ascii_space x), (wide_space2 x y).
Qed.

Lemma space_width_le (a : string) : space_width a ≤ String.length a.
Proof. destruct a as [|x [|y [|z a]]]; simpl; repeat case_split; simpl; lia. Qed.

#[local] Arguments space_width : simpl never.

Lemma trim_left_from_app (k : nat) (a b : string) :
  k ≤ String.length a → trim_left_from k a = "" →
  trim_left_from k (a +:+ b) = TrimLeftSpace b.
Proof.
  unfold TrimLeftSpace. revert k. induction a as [|c a IH]; intros k Hk H.
  - simpl in Hk. replace k with 0 by lia. done.
  - change (String c a +:+ b) with (String c (a +:+ b)). cbn [trim_left_from] in *.
    simpl in Hk. destruct k as [|k]; [|apply IH; [lia|done]].
    destruct (space_width (String c a)) as [|w] eqn:E; [done|].
    pose proof (space_width_le (String c a)) as Hw. rewrite E in Hw. simpl in Hw.
    change (String c (a +:+ b)) with (String c a +:+ b).
    rewrite space_width_app, E by lia. apply IH; [lia|done].
Qed.

Lemma TrimLeftSpace_fix (s : string) : space_width s = 0 → TrimLeftSpace s = s.
Proof. destruct s; unfold TrimLeftSpace; simpl; [done|]. by intros ->. Qed.

Lemma trim_left_from_width (k : nat) (s : string) :
  space_width (trim_left_from k s) = 0.
Proof.
  revert k. induction s as [|c s IH]; intros k; [done|]. cbn [trim_left_from].
  destruct k as [|k]; [|apply IH].
  destruct (space_width (String c s)) as [|w] eqn:E; [exact E|apply IH].
Qed.

Lemma TrimLeftSpace_idemp (s : string) :
  TrimLeftSpace (TrimLeftSpace s) = TrimLeftSpace s.
Proof. apply TrimLeftSpace_fix, trim_left_from_width. Qed.

Lemma TrimRightSpace_split (s : string) :
  ∃ t, s = TrimRightSpace s +:+ t ∧ TrimLeftSpace t = "".
Proof.
  induction s as [|c s IH]; [by exists ""|]. cbn [TrimRightSpace].
  destruct (all_space (String c s)) eqn:E; unfold all_space in E; beq; [eauto|].
  destruct IH as (t & Hs & Ht). exists t. split; [|done]. simpl. by rewrite <-Hs.
Qed.

Lemma TrimRightSpace_idemp (s : string) :
  TrimRightSpace (TrimRightSpace s) = TrimRightSpace s.
Proof.
  induction s as [|c s IH]; [done|]. cbn [TrimRightSpace].
  destruct (all_space (String c s)) eqn:E; [done|]. cbn [TrimRightSpace]. rewrite IH.
  destruct (all_space (String c (TrimRightSpace s))) eqn:F; [exfalso|done].
  destruct (TrimRightSpace_split s) as (t & Hs & Ht). unfold all_space in *. beq.
  apply E. rewrite Hs.
  change (String c (TrimRightSpace s +:+ t)) with (String c (TrimRightSpace s) +:+ t).
  unfold TrimLeftSpace at 1. rewrite trim_left_from_app; [done|simpl; lia|done].
Qed.

Lemma TrimLeftSpace_TrimRightSpace (s : string) :
  space_width s = 0 → TrimLeftSpace (TrimRightSpace s) = TrimRightSpace s.
Proof.
  intros H. apply TrimLeftSpace_fix.
  destruct (TrimRightSpace_split s) as (t & Hs & _).
  destruct (decide (space_width (TrimRightSpace s) = 0)) as [|Hn]; [done|].
  rewrite <-(space_width_app _ t Hn), <-Hs in Hn. done.
Qed.

Lemma TrimSpace_idemp (s : string) : TrimSpace (TrimSpace s) = TrimSpace s.
Proof.
  unfold TrimSpace at 1 2.
  rewrite TrimLeftSpace_TrimRightSpace by apply trim_left_from_width.
  apply TrimRightSpace_idemp.
Qed.

(** [trimmed s]: [s] has no white space at either end. *)
Definition trimmed (s : string) : Prop := TrimSpace s = s.

Lemma trimmed_TrimSpace (s : string) : trimmed (TrimSpace s).
Proof. apply TrimSpace_idemp. Qed.

Lemma trimmed_empty : trimmed "".
Proof. done. Qed.

#[export] Instance trimmed_dec s : Decision (trimmed s).
Proof. unfold trimmed. apply _. Defined.

(** An ASCII byte that is not white space is no part of a white-space code
    point, so trimming on the right stops at it. *)
Definition solid (c : ascii) : Prop := is_ascii_char c = true ∧ ascii_space c = false.

Ltac solid_solve :=
  unfold solid, is_ascii_char, wide_space2, wide_space3;
  intros [H _]; apply N.ltb_lt in H;
  repeat match goal with
  | |- context [(byte_of ?c =? ?n)%N] =>
      is_var c; match goal with H : (byte_of c < 128)%N |- _ =>
        rewrite (proj2 (N.eqb_neq (byte_of c) n)) by lia end
  | |- context [(?n <=? byte_of ?c)%N] =>
      is_var c; match goal with H : (byte_of c < 128)%N |- _ =>
        rewrite (proj2 (N.leb_gt n (byte_of c))) by lia end
  end; simpl; by rewrite ?andb_false_r.

Lemma solid_wide2 (a c : ascii) : solid c → wide_space2 a c = false.
Proof. solid_solve. Qed.
Lemma solid_wide2_first (a c : ascii) : solid c → wide_space2 c a = false.
Proof. solid_solve. Qed.
Lemma solid_wide3 (a b c : ascii) : solid c → wide_space3 a b c = false.
Proof. solid_solve. Qed.
Lemma solid_wide3_mid (a b c : ascii) : solid c → wide_space3 a c b = false.
Proof. solid_solve. Qed.
Lemma solid_wide3_first (a b c : ascii) : solid c → wide_space3 c a b = false.
Proof. solid_solve. Qed.

Lemma space_width_solid (q : string) (c : ascii) (s : string) :
  solid c → space_width (q +:+ String c s) ≤ String.length q.
Proof.
  intros Hc. destruct q as [|x [|y [|z q]]]; unfold space_width; simpl.
  - rewrite (proj2 Hc). destruct s as [|d [|e s]]; rewrite ?solid_wide2_first by done; [lia..|].
    by rewrite solid_wide3_first.
  - destruct (ascii_space x); [lia|]. rewrite solid_wide2 by done.
    destruct s as [|d s]; [lia|]. rewrite solid_wide3_mid by done. lia.
  - destruct (ascii_space x), (wide_space2 x y); rewrite ?solid_wide3 by done; lia.
  - repeat case_split; lia.
Qed.

#[local] Arguments space_width : simpl never.
Lemma trim_left_from_solid (k : nat) (q : string) (c : ascii) (s : string) :
  solid c → k ≤ String.length q → trim_left_from k (q +:+ String c s) ≠ "".
Proof.
  intros Hc. revert k. induction q as [|x q IH]; intros k Hk; simpl in *.
  - replace k with 0 by lia.
    pose proof (space_width_solid "" c s Hc) as H. simpl in H.
    destruct (space_width (String c s)); [done|lia].
  - destruct k as [|k]; [|apply IH; lia].
    pose proof (space_width_solid (String x q) c s Hc) as H. simpl in H.
    destruct (space_width (String x (q +:+ String c s))); [done|apply IH; lia].
Qed.

Lemma TrimRightSpace_solid (q : string) (c : ascii) (s : string) :
  solid c → TrimRightSpace (q +:+ String c s) = q +:+ TrimRightSpace (String c s).
Proof.
  intros Hc. induction q as [|x q IH]; [done|]. simpl.
  unfold all_space, TrimLeftSpace.
  change (String x (q +:+ String c s)) with (String x q +:+ String c s).
  rewrite (proj2 (String.eqb_neq _ _)); [by rewrite IH|].
  apply trim_left_from_solid; [done|simpl; lia].
Qed.

(** Prefixing a trimmed string that starts with a solid byte by a string that
    starts with one keeps it trimmed. *)
Lemma trimmed_app_solid (x c : ascii) (q s : string) :
  solid x → solid c → trimmed (String c s) → trimmed (String x q +:+ String c s).
Proof.
  unfold trimmed, TrimSpace. intros Hx Hc H.
  rewrite TrimLeftSpace_fix in H.
  2:{ pose proof (space_width_solid "" c s Hc) as H'. simpl in *. lia. }
  rewrite TrimLeftSpace_fix.
  - rewrite TrimRightSpace_solid by done. by rewrite H.
  - pose proof (space_width_solid "" x (q +:+ String c s) Hx) as H'. simpl in *. lia.
Qed.

Lemma HasPrefix_slash (s : string) :
  HasPrefix s "/" = true → ∃ t, s = String slash t.
Proof. intros [t ->]%HasPrefix_spec. by exists t. Qed.

#[export] Hint Resolve trimmed_TrimSpace trimmed_empty : domux.
#[export] Hint Rewrite TrimSpace_idemp TrimSuffix_app TrimPrefix_app HasSuffix_app
  HasPrefix_app app_nil_str app_assoc_str str_ltb_irrefl : gostr.

(** ** Solid bytes at the front *)

Lemma TrimRightSpace_cons_solid (c : ascii) (s : string) :
  solid c → TrimRightSpace (String c s) = String c (TrimRightSpace s).
Proof.
  intros Hc. cbn [TrimRightSpace]. unfold all_space, TrimLeftSpace.
  rewrite (proj2 (String.eqb_neq _ _)); [done|].
  apply (trim_left_from_solid 0 "" c s Hc). simpl. lia.
Qed.

Lemma space_width_app_solid (q : string) (c : ascii) (s : string) :
  solid c → space_width q = 0 → q ≠ "" → space_width (q +:+ String c s) = 0.
Proof.
  intros Hc. destruct q as [|x [|y [|z q]]]; unfold space_width; simpl; try done.
  - intros. destruct (ascii_space x); [done|]. rewrite solid_wide2 by done.
    destruct s as [|d s]; [done|]. by rewrite solid_wide3_mid.
  - intros. destruct (ascii_space x); [done|]. destruct (wide_space2 x y); [done|].
    by rewrite solid_wide3.
Qed.

Lemma trimmed_left (s : string) : trimmed s → space_width s = 0.
Proof.
  unfold trimmed, TrimSpace. intros H.
  pose proof (TrimLeftSpace_TrimRightSpace (TrimLeftSpace s) (trim_left_from_width 0 s)) as E.
  rewrite H in E. rewrite <-E. apply trim_left_from_width.
Qed.

Lemma trimmed_right (s : string) : trimmed s → TrimRightSpace s = s.
Proof. unfold trimmed, TrimSpace. intros <-. apply TrimRightSpace_idemp. Qed.

Lemma trimmed_intro (s : string) : space_width s = 0 → TrimRightSpace s = s → trimmed s.
Proof. intros H1 H2. unfold trimmed, TrimSpace. by rewrite TrimLeftSpace_fix. Qed.

(** [a.b] is trimmed when its two sides are. *)
Lemma trimmed_join_solid (a b : string) (c : ascii) :
  solid c → trimmed a → trimmed b → trimmed (a +:+ String c b).
Proof.
  intros Hc Ha Hb. apply trimmed_intro.
  - destruct a as [|x a].
    +
      pose proof (space_width_solid "" c b Hc) as H. simpl in *. lia.
    + apply space_width_app_solid; [done| |done]. by apply trimmed_left.
  - rewrite TrimRightSpace_solid, TrimRightSpace_cons_solid by done.
    by rewrite (trimmed_right b).
Qed.

Lemma solid_dot : solid dot.
Proof. done. Qed.

Lemma HasSuffix_trans (a b c : string) :
  HasSuffix a b = true → HasSuffix b c = true → HasSuffix a c = true.
Proof.
  rewrite !HasSuffix_spec. intros [t ->] [u ->]. exists (t +:+ u).
  by rewrite app_assoc_str.
Qed.

(** Removing a prefix of at most [length a] bytes keeps the suffix. *)
Lemma TrimPrefix_keep_suffix (a b p : string) :
  String.length p ≤ String.length a → TrimPrefix (a +:+ b) p = TrimPrefix a p +:+ b.
Proof.
  intros Hlen. unfold TrimPrefix.
  assert (HasPrefix (a +:+ b) p = HasPrefix a p) as ->.
  { revert p Hlen. induction a as [|x a IH]; intros [|y p] Hlen; simpl in *;
      try done; [by destruct b|lia|]. by rewrite IH by lia. }
  destruct (HasPrefix a p); [|done].
  revert p Hlen. induction a as [|x a IH]; intros [|y p] Hlen; simpl in *; try done; [lia|].
  apply IH. lia.
Qed.

Lemma string_last (s : string) : s = "" ∨ ∃ t c, s = t +:+ String c "".
Proof.
  induction s as [|x s IH]; [by left|right].
  destruct IH as [->|(t & c & ->)]; [by exists "", x|by exists (String x t), c].
Qed.

Lemma HasSuffix_last (t : string) (c d : ascii) :
  HasSuffix (t +:+ String c "") (String d "") = Ascii.eqb c d.
Proof.
  apply eq_true_iff_eq. rewrite HasSuffix_spec, Ascii.eqb_eq. split.
  - intros [u Hu]. by apply app_last_char in Hu as [_ ->].
  - intros ->. eauto.
Qed.

Lemma HasSuffix_app_char (a b : string) (c : ascii) :
  b ≠ "" → HasSuffix (a +:+ b) (String c "") = HasSuffix b (String c "").
Proof.
  intros Hb. destruct (string_last b) as [->|(t & d & ->)]; [done|].
  by rewrite <-app_assoc_str, !HasSuffix_last.
Qed.

(** A temporary name is another name. *)
Lemma tmp_ne (p : string) : p +:+ ".tmp" ≠ p.
Proof.
  intros E. apply (f_equal String.length) in E. rewrite length_app_str in E. simpl in E. lia.
Qed.
