(* ===== verification/Paths.v ===== *)
(** Lemmas on [path/filepath]: cleaning a path twice, joining in several
    steps, and the last element of a joined path. *)

From S2P Require Import Prelude GoStrings.

#[local] Arguments String.append : simpl nomatch.

Definition no_slash (s : string) : bool := str_forall (λ c, negb (Ascii.eqb c slash)) s.

Lemma Split_no_slash s : Forall (λ c, no_slash c = true) (Split slash s).
Proof.
  induction s as [|c s IH]; simpl; [by repeat constructor|].
  destruct (Ascii.eqb c slash) eqn:E; [by constructor|].
  destruct (Split slash s) as [|x xs]; [constructor; [|constructor]|].
  - unfold no_slash. simpl. by rewrite E.
  - inversion IH as [|?? Hx Hxs]; subst. constructor; [|done].
    unfold no_slash. simpl. by rewrite E.
Qed.

Lemma Split_app a b : Split slash (a +:+ "/" +:+ b) = Split slash a ++ Split slash b.
Proof.
  induction a as [|c a IH]; [done|].
  change (String c a +:+ "/" +:+ b) with (String c (a +:+ "/" +:+ b)). cbn [Split].
  destruct (Ascii.eqb c slash); [by rewrite IH|]. rewrite IH.
  destruct (Split slash a) eqn:E; [by apply Split_nonempty in E|done].
Qed.

Lemma Split_one s : no_slash s = true → Split slash s = [s].
Proof.
  induction s as [|c s IH]; [done|]. unfold no_slash. cbn [str_forall].
  intros [Hc Hs]%andb_true_iff. apply negb_true_iff in Hc. cbn [Split].
  rewrite Hc. by rewrite (IH Hs).
Qed.

Lemma Split_Join l :
  Forall (λ c, no_slash c = true) l → l ≠ [] → Split slash (Join "/" l) = l.
Proof.
  induction 1 as [|x l Hx Hl IH]; [done|]. intros _.
  destruct l as [|y l]; [by apply Split_one|].
  rewrite Join_cons by done. rewrite Split_app, IH by done. by rewrite Split_one.
Qed.

(** ** The stack of components of a cleaned path *)

(** A component that [Clean] keeps. *)
Definition plain_component (c : string) : Prop :=
  no_slash c = true ∧ c ≠ "" ∧ c ≠ "." ∧ c ≠ "..".

(** Plain components on top of [".."]s; no [".."] below the root. *)
Fixpoint clean_stack (root : bool) (stack : list string) : Prop :=
  match stack with
  | [] => True
  | c :: rest =>
      (plain_component c ∧ clean_stack root rest) ∨
      (c = ".." ∧ root = false ∧ Forall (λ d, d = "..") rest)
  end.

Lemma clean_stack_dots rest : Forall (λ d, d = "..") rest → clean_stack false rest.
Proof. destruct 1; simpl; [done|]. by right. Qed.

Lemma clean_step_stack root stack c :
  no_slash c = true → clean_stack root stack → clean_stack root (clean_step root stack c).
Proof.
  intros Hc Hs. unfold clean_step.
  destruct (String.eqb c "") eqn:E1; [done|]. destruct (String.eqb c ".") eqn:E2; [done|]. simpl.
  destruct (String.eqb c "..") eqn:E3; beq.
  - destruct stack as [|top rest].
    + destruct root; simpl; [done|]. by right.
    + destruct (String.eqb top "..") eqn:E4; beq; subst.
      * destruct Hs as [[[_ (_ & _ & ?)] _]|(_ & -> & Hr)]; [done|]. simpl. right. by repeat constructor.
      * destruct Hs as [[_ Hr]|(-> & _)]; done.
  - simpl. left. split; [|done]. by split_and!.
Qed.

Lemma clean_fold_stack root l stack :
  Forall (λ c, no_slash c = true) l → clean_stack root stack →
  clean_stack root (foldl (clean_step root) stack l).
Proof.
  intros Hl. revert stack. induction Hl; intros stack Hs; simpl; [done|].
  apply IHHl. by apply clean_step_stack.
Qed.

(** Reading a clean stack again gives it back. *)
Lemma clean_stack_again root stack :
  clean_stack root stack → foldl (clean_step root) [] (rev stack) = stack.
Proof.
  induction stack as [|c rest IH]; [done|]. cbn [rev clean_stack]. intros Hs.
  rewrite foldl_app. cbn [foldl]. destruct Hs as [[(_ & H1 & H2 & H3) Hr]|(-> & -> & Hr)].
  - rewrite IH by done. unfold clean_step.
    apply String.eqb_neq in H1, H2, H3. by rewrite H1, H2, H3.
  - rewrite IH by (by apply clean_stack_dots). unfold clean_step. simpl.
    destruct Hr as [|d rest Hd Hr]; [done|]. by subst.
Qed.

Lemma clean_stack_no_slash root stack :
  clean_stack root stack → Forall (λ c, no_slash c = true) (rev stack).
Proof.
  intros Hs. apply List.Forall_rev. revert Hs. induction stack as [|c rest IH]; [constructor|].
  intros [[(? & _) Hr]|(-> & -> & Hr)]; (constructor; [done|apply IH]);
    [done|by apply clean_stack_dots].
Qed.

Definition components (p : string) : list string :=
  foldl (clean_step (rooted p)) [] (Split slash p).
Definition render (root : bool) (stack : list string) : string :=
  let body := Join "/" (rev stack) in
  if root then "/" +:+ body else if String.eqb body "" then "." else body.

Lemma Clean_render p : Clean p = render (rooted p) (components p).
Proof. done. Qed.

Lemma components_stack p : clean_stack (rooted p) (components p).
Proof. apply clean_fold_stack; [apply Split_no_slash|done]. Qed.

Lemma rooted_cons c s : Ascii.eqb c slash = false → rooted (String c s) = false.
Proof.
  intros Hc. unfold rooted. cbn [HasPrefix]. rewrite Ascii.eqb_sym. unfold slash in Hc.
  by rewrite Hc.
Qed.

Lemma rooted_Join l : Forall (λ c, no_slash c = true) l → rooted (Join "/" l) = false ∨ ∃ k, l = "" :: k.
Proof.
  destruct 1 as [|x l Hx Hl]; [by left|]. destruct x as [|c x]; [right; eauto|left].
  unfold no_slash in Hx. cbn [str_forall] in Hx. apply andb_true_iff in Hx as [Hc _].
  apply negb_true_iff in Hc. unfold rooted.
  assert (∃ t, Join "/" (String c x :: l) = String c t) as [t ->].
  { destruct l; [by exists x|]. rewrite Join_cons by done. by eexists. }
  by apply rooted_cons.
Qed.

Lemma clean_stack_head root stack k : clean_stack root stack → rev stack ≠ "" :: k.
Proof.
  intros Hs E. assert ("" ∈ stack) as Hin.
  { apply list_elem_of_In, in_rev. rewrite E. by left. }
  clear E. induction stack as [|c rest IH]; [by apply elem_of_nil in Hin|].
  destruct Hs as [[(_ & ? & _) Hr]|(-> & -> & Hr)]; apply elem_of_cons in Hin as [Heq|Hin];
    try done.
  - by apply IH.
  - apply IH; [by apply clean_stack_dots|done].
Qed.

Lemma rooted_render root stack : clean_stack root stack → rooted (render root stack) = root.
Proof.
  intros Hs. unfold render. destruct root; [apply (HasPrefix_app "/")|].
  case_split; [done|].
  destruct (rooted_Join (rev stack)) as [?|[k Hk]]; [by eapply clean_stack_no_slash|done|].
  by apply (clean_stack_head _ _ _ Hs) in Hk.
Qed.

Lemma Split_render root stack :
  clean_stack root stack →
  foldl (clean_step root) [] (Split slash (render root stack)) = stack.
Proof.
  intros Hs. pose proof (clean_stack_no_slash _ _ Hs) as Hns.
  pose proof (clean_stack_again _ _ Hs) as Hag.
  destruct (decide (stack = [])) as [->|Hne]; [destruct root; by vm_compute|].
  assert (rev stack ≠ []) as Hne'.
  { intros E. apply Hne. by rewrite <-(rev_involutive stack), E. }
  unfold render. destruct root.
  - change ("/" +:+ Join "/" (rev stack)) with ("" +:+ "/" +:+ Join "/" (rev stack)).
    rewrite Split_app, foldl_app, Split_Join by done. exact Hag.
  - destruct (String.eqb (Join "/" (rev stack)) "") eqn:E; beq.
    + exfalso. pose proof (Split_Join _ Hns Hne') as Hsp. rewrite E in Hsp. simpl in Hsp.
      by eapply clean_stack_head.
    + by rewrite Split_Join.
Qed.

Lemma rooted_app a b : a ≠ "" → rooted (a +:+ b) = rooted a.
Proof.
  assert (∀ s, HasPrefix s "" = true) as Hn by (by destruct s).
  destruct a as [|c a]; [done|]. intros _. change (String c a +:+ b) with (String c (a +:+ b)).
  unfold rooted. cbn [HasPrefix]. by rewrite !Hn.
Qed.

Lemma render_nonempty root stack : render root stack ≠ "".
Proof. unfold render. destruct root; [done|]. case_split; [done|]. by beq. Qed.

Lemma Clean_nonempty p : Clean p ≠ "".
Proof. rewrite Clean_render. apply render_nonempty. Qed.

Lemma Clean_app_Clean a b :
  a ≠ "" → Clean (Clean a +:+ "/" +:+ b) = Clean (a +:+ "/" +:+ b).
Proof.
  intros Ha. rewrite (Clean_render a). pose proof (components_stack a) as Hs.
  unfold Clean. rewrite !rooted_app by (done || apply render_nonempty).
  rewrite rooted_render by done. rewrite !Split_app, !foldl_app.
  rewrite Split_render by done. done.
Qed.

Lemma Clean_idemp a : a ≠ "" → Clean (Clean a) = Clean a.
Proof.
  intros Ha. rewrite (Clean_render a). pose proof (components_stack a) as Hs.
  unfold Clean. rewrite rooted_render, Split_render by done. done.
Qed.

(** ** Joining in several steps *)
Definition nonempty_elems (l : list string) : list string := filter (λ e, e ≠ "") l.

Lemma PathJoin_elems l :
  PathJoin l = match nonempty_elems l with [] => "" | k => Clean (Join "/" k) end.
Proof. done. Qed.

Lemma Join_app l k : l ≠ [] → k ≠ [] → Join "/" (l ++ k) = Join "/" l +:+ "/" +:+ Join "/" k.
Proof.
  intros Hl Hk. induction l as [|x l IH]; [done|].
  destruct l as [|y l].
  - change ([x] ++ k) with (x :: k). by rewrite Join_cons.
  - change ((x :: y :: l) ++ k) with (x :: ((y :: l) ++ k)).
    rewrite !Join_cons by (by destruct l). rewrite IH by done. by rewrite !app_assoc_str.
Qed.

Lemma Join_nonempty l : nonempty_elems l ≠ [] → Join "/" (nonempty_elems l) ≠ "".
Proof.
  intros Hne. assert (Forall (λ e, e ≠ "") (nonempty_elems l)) as Hall.
  { unfold nonempty_elems. rewrite Forall_forall. intros e He.
    by apply list_elem_of_filter in He as [? _]. }
  destruct (nonempty_elems l) as [|x k]; [done|]. inversion Hall; subst.
  destruct k; [done|]. rewrite Join_cons by done. by destruct x.
Qed.

Lemma PathJoin_app l k : PathJoin (PathJoin l :: k) = PathJoin (l ++ k).
Proof.
  rewrite (PathJoin_elems (l ++ k)), (PathJoin_elems (PathJoin l :: k)).
  unfold nonempty_elems. rewrite filter_app. fold (nonempty_elems l) (nonempty_elems k).
  rewrite (PathJoin_elems l). pose proof (Join_nonempty l) as Hj.
  destruct (nonempty_elems l) as [|x xs] eqn:El.
  { rewrite filter_cons_False by auto. done. }
  assert (Clean (Join "/" (x :: xs)) ≠ "") as Hc by apply Clean_nonempty.
  rewrite filter_cons_True by done. fold (nonempty_elems k).
  destruct (nonempty_elems k) as [|y ys].
  - rewrite app_nil_r. cbn [Join]. apply Clean_idemp. by apply Hj.
  - rewrite Join_cons by done. cbn [app].
    change (x :: xs ++ y :: ys) with ((x :: xs) ++ (y :: ys)).
    rewrite (Join_app (x :: xs) (y :: ys)) by done.
    apply Clean_app_Clean. by apply Hj.
Qed.

(** ** The last element of a joined path *)
Lemma Join_last l x : Join "/" (l ++ [x]) = (if decide (l = []) then "" else Join "/" l +:+ "/") +:+ x.
Proof.
  case_decide as E; [by subst|]. rewrite Join_app by done. by rewrite app_assoc_str.
Qed.

Lemma clean_step_plain root stack c :
  plain_component c → clean_step root stack c = c :: stack.
Proof.
  intros (_ & H1 & H2 & H3). unfold clean_step. apply String.eqb_neq in H1, H2, H3.
  by rewrite H1, H2, H3.
Qed.

Lemma PathJoin_suffix base f :
  plain_component f → ∃ t, PathJoin [base; f] = t +:+ f.
Proof.
  intros Hplain. pose proof Hplain as (Hns & Hne & H1 & H2).
  rewrite PathJoin_elems. unfold nonempty_elems.
  assert (∀ s, ∃ t, render (rooted s) (f :: components s) = t +:+ f) as Hr.
  { intros s. unfold render. cbn [rev]. rewrite Join_last.
    set (pre := if decide (rev (components s) = []) then "" else _).
    destruct (rooted s); [exists ("/" +:+ pre); by rewrite app_assoc_str|].
    destruct (String.eqb (pre +:+ f) "") eqn:E; [|by exists pre].
    beq. by destruct pre. }
  apply String.eqb_neq in Hne as E0. apply String.eqb_neq in H1 as E1.
  apply String.eqb_neq in H2 as E2.
  destruct (decide (base = "")) as [->|Hb].
  - rewrite filter_cons_False by auto. rewrite filter_cons_True by done. simpl.
    exists "". unfold Clean. rewrite Split_one by done. cbn [foldl]. unfold clean_step.
    assert (rooted f = false) as ->.
    { destruct f as [|c f']; [done|]. unfold no_slash in Hns. cbn [str_forall] in Hns.
      apply andb_true_iff in Hns as [Hc _]. apply negb_true_iff in Hc. by apply rooted_cons. }
    rewrite E0, E1, E2. simpl. by rewrite E0.
  - rewrite !filter_cons_True by done.
    change (∃ t, Clean (base +:+ "/" +:+ f) = t +:+ f). destruct (Hr base) as [t Ht]. exists t.
    rewrite <-Ht, Clean_render. unfold components. rewrite rooted_app by done.
    rewrite Split_app, foldl_app, (Split_one f) by done. cbn [foldl].
    by rewrite clean_step_plain.
Qed.
