(* ===== verification/GoRuntime.v ===== *)
(** What the Go language and its standard library leave open, as an
    interface, and Go's error values.

    - [GoRuntime] gives [sort.Slice] (which is not stable), the iteration order
      of a map, and the Unicode tables behind [strings.ToLower],
      [strconv.Quote] and [strings.EqualFold] on non-ASCII strings.  Only what
      the documentation promises is a law, so a theorem proved for every
      [GoRuntime] does not depend on the sorting algorithm or on the order in
      which a map is ranged over.
    - [reference_runtime] is an instance that computes: it shows the laws can
      hold, and the witnesses run on it. *)

From S2P Require Import Prelude GoStrings.

(** ** Strict weak orders: what [sort.Slice] asks of its [less] argument *)
Record strict_weak {A} (less : A → A → bool) : Prop := {
  less_irrefl : ∀ x, less x x = false;
  less_trans : ∀ x y z, less x y = true → less y z = true → less x z = true;
  less_negtrans : ∀ x y z, less x y = false → less y z = false → less x z = false
}.

Class GoRuntime := {
  sort_slice {A : Type} (less : A → A → bool) (l : list A) : list A;
  sort_slice_perm {A} (less : A → A → bool) (l : list A) : sort_slice less l ≡ₚ l;
  sort_slice_sorted {A} (less : A → A → bool) (l : list A) :
    strict_weak less → Sorted (λ x y, less y x = false) (sort_slice less l);
  map_range {A : Type} (m : gmap string A) : list (string * A);
  map_range_perm {A} (m : gmap string A) : map_range m ≡ₚ map_to_list m;
  unicode_lower : string → string;
  unicode_quote : string → string;
  unicode_fold_eq : string → string → bool
}.

(** ** Case mapping and quoting *)
Section unicode.
Context `{GoRuntime}.

(** [strings.ToLower] *)
Definition ToLower (s : string) : string :=
  if is_ascii s then str_map lower_char s else unicode_lower s.

(** [%q] *)
Definition quote (s : string) : string :=
  if is_ascii s then quote_ascii s else unicode_quote s.

(** [strings.EqualFold] *)
Definition EqualFold (a b : string) : bool :=
  if is_ascii a && is_ascii b
  then String.eqb (str_map lower_char a) (str_map lower_char b)
  else unicode_fold_eq a b.
End unicode.

(** ** Sorting by a string key *)
Section sort_by.
Context {A : Type} (key : A → string).

Definition less_by (x y : A) : bool := str_ltb (key x) (key y).

Lemma less_by_strict_weak : strict_weak less_by.
Proof.
  split; unfold less_by; intros.
  - apply str_ltb_irrefl.
  - by eapply str_ltb_trans.
  - by eapply str_ltb_negtrans.
Qed.

Definition le_by (x y : A) : Prop := str_le (key x) (key y).

#[export] Instance le_by_trans : Transitive le_by.
Proof. intros x y z. unfold le_by. apply transitivity. Qed.

Context `{GoRuntime}.

Definition sort_by (l : list A) : list A := sort_slice less_by l.

Lemma sort_by_perm l : sort_by l ≡ₚ l.
Proof. apply sort_slice_perm. Qed.

Lemma sort_by_sorted l : Sorted le_by (sort_by l).
Proof. exact (sort_slice_sorted less_by l less_by_strict_weak). Qed.

Lemma elem_of_sort_by x l : x ∈ sort_by l ↔ x ∈ l.
Proof. by rewrite sort_by_perm. Qed.

Lemma length_sort_by l : length (sort_by l) = length l.
Proof. apply Permutation_length, sort_by_perm. Qed.

Lemma map_key_sort_by l : map key (sort_by l) ≡ₚ map key l.
Proof. by rewrite sort_by_perm. Qed.
End sort_by.

(** A sorted list with pairwise distinct keys is determined by its elements:
    the result of a sort then depends neither on the algorithm nor on the
    order of its input. *)
Lemma sorted_by_unique {A} (key : A → string) (l k : list A) :
  NoDup (map key l) → l ≡ₚ k →
  Sorted (le_by key) l → Sorted (le_by key) k → l = k.
Proof.
  intros Hnd Hp Hl Hk.
  apply Sorted_StronglySorted in Hl; [|apply le_by_trans].
  apply Sorted_StronglySorted in Hk; [|apply le_by_trans].
  revert k Hp Hk. induction Hl as [|x l Hl IH Hx]; intros k Hp Hk.
  { by apply Permutation_nil_l in Hp as ->. }
  destruct Hk as [|y k Hk Hy]; [by apply Permutation_nil_r in Hp|].
  assert (x = y) as ->.
  { assert (x ∈ y :: k) as Hxk by (rewrite <-Hp; constructor).
    assert (y ∈ x :: l) as Hyl by (rewrite Hp; constructor).
    apply elem_of_cons in Hxk as [|Hxk]; [done|].
    apply elem_of_cons in Hyl as [|Hyl]; [done|]. exfalso.
    rewrite List.Forall_forall in Hx, Hy.
    assert (key x = key y) as Hkey.
    { apply (anti_symm str_le); [apply Hx|apply Hy]; by apply list_elem_of_In. }
    apply NoDup_cons in Hnd as [Hnin _]. apply Hnin. rewrite Hkey.
    apply list_elem_of_In, in_map. by apply list_elem_of_In. }
  f_equal. apply IH; [|by apply Permutation_cons_inv in Hp|done].
  by apply NoDup_cons in Hnd as [_ ?].
Qed.

(** The same for any [less] argument that tells the elements apart. *)
Lemma sorted_less_unique {A} (less : A → A → bool) (l k : list A) :
  strict_weak less →
  (∀ x y, x ∈ l → y ∈ l → less x y = false → less y x = false → x = y) →
  l ≡ₚ k →
  Sorted (λ x y, less y x = false) l → Sorted (λ x y, less y x = false) k → l = k.
Proof.
  intros Hsw Hanti Hp Hl Hk.
  assert (Relations_1.Transitive (λ x y, less y x = false)) as Htr
    by (intros x y z H1 H2; exact (less_negtrans _ Hsw _ _ _ H2 H1)).
  apply Sorted_StronglySorted in Hl; [|exact Htr].
  apply Sorted_StronglySorted in Hk; [|exact Htr].
  revert k Hp Hk. induction Hl as [|x l Hl IH Hx]; intros k Hp Hk.
  { by apply Permutation_nil_l in Hp as ->. }
  destruct Hk as [|y k Hk Hy]; [by apply Permutation_nil_r in Hp|].
  assert (y ∈ x :: l) as Hyl by (rewrite Hp; constructor).
  assert (x = y) as <-.
  { assert (x ∈ y :: k) as Hxk by (rewrite <-Hp; constructor).
    apply elem_of_cons in Hxk as [|Hxk]; [done|].
    apply elem_of_cons in Hyl as [|Hyl]; [done|].
    rewrite List.Forall_forall in Hx, Hy.
    apply Hanti; [constructor|by constructor|apply Hy|apply Hx]; by apply list_elem_of_In. }
  f_equal. apply IH; [|by apply Permutation_cons_inv in Hp|done].
  intros a b Ha Hb. apply Hanti; by constructor.
Qed.

(** ** Iterating over a map *)
Section map_values.
Context `{GoRuntime} {A : Type}.

(** [for _, v := range m] *)
Definition map_values (m : gmap string A) : list A := (map_range m).*2.
(** [for k := range m] *)
Definition map_keys (m : gmap string A) : list string := (map_range m).*1.

Lemma elem_of_map_range (m : gmap string A) k v : (k, v) ∈ map_range m ↔ m !! k = Some v.
Proof. by rewrite map_range_perm, elem_of_map_to_list. Qed.

Lemma elem_of_map_keys (m : gmap string A) k : k ∈ map_keys m ↔ is_Some (m !! k).
Proof.
  unfold map_keys. rewrite list_elem_of_fmap. split.
  - intros ([k' v] & -> & Hin). apply elem_of_map_range in Hin. eauto.
  - intros [v Hv]. exists (k, v). split; [done|]. by apply elem_of_map_range.
Qed.

Lemma elem_of_map_values (m : gmap string A) v :
  v ∈ map_values m ↔ ∃ k, m !! k = Some v.
Proof.
  unfold map_values. rewrite list_elem_of_fmap. split.
  - intros ([k v'] & -> & Hin). exists k. by apply elem_of_map_range.
  - intros [k Hk]. exists (k, v). split; [done|]. by apply elem_of_map_range.
Qed.

Lemma NoDup_map_keys (m : gmap string A) : NoDup (map_keys m).
Proof. unfold map_keys. rewrite map_range_perm. apply NoDup_fst_map_to_list. Qed.

Lemma length_map_values (m : gmap string A) : length (map_values m) = size m.
Proof.
  unfold map_values. rewrite length_fmap, map_range_perm. apply length_map_to_list.
Qed.
End map_values.

(** A map that stores every value under its own key. *)
Definition keyed {A} (key : A → string) (m : gmap string A) : Prop :=
  ∀ k v, m !! k = Some v → key v = k.

Section keyed.
Context {A : Type} (key : A → string).

Lemma keyed_empty : keyed key ∅.
Proof. intros k v. by rewrite lookup_empty. Qed.
Lemma keyed_insert m v : keyed key m → keyed key (<[key v := v]> m).
Proof. intros Hm k w. rewrite lookup_insert. case_decide; naive_solver. Qed.
Lemma keyed_delete m k : keyed key m → keyed key (delete k m).
Proof. intros Hm j w. rewrite lookup_delete. case_decide; naive_solver. Qed.
Lemma keyed_keyed_from m l : keyed key m → keyed key (keyed_from key m l).
Proof.
  unfold keyed_from. revert m. induction l as [|x l IH]; intros m Hm; simpl; [done|].
  apply IH. by apply keyed_insert.
Qed.

Lemma keyed_values_keys `{GoRuntime} m :
  keyed key m → map key (map_values m) = map_keys m.
Proof.
  intros Hm. unfold map_values, map_keys.
  assert (∀ p, p ∈ map_range m → key p.2 = p.1) as Hall.
  { intros [k v] Hin. apply elem_of_map_range in Hin. by apply Hm. }
  induction (map_range m) as [|p l IH]; simpl; [done|].
  rewrite Hall by constructor. f_equal. apply IH. intros q Hq. apply Hall. by constructor.
Qed.

Lemma keyed_values_NoDup `{GoRuntime} m : keyed key m → NoDup (map key (map_values m)).
Proof. intros Hm. rewrite keyed_values_keys by done. apply NoDup_map_keys. Qed.
End keyed.

(** Listing a keyed map by its key does not depend on the runtime. *)
Lemma sorted_values_deterministic {A} (key : A → string) (m : gmap string A) (R1 R2 : GoRuntime) :
  keyed key m →
  @sort_by A key R1 (@map_values R1 A m) = @sort_by A key R2 (@map_values R2 A m).
Proof.
  intros Hm. apply (sorted_by_unique key); try apply sort_by_sorted.
  - rewrite map_key_sort_by. by apply keyed_values_NoDup.
  - rewrite !sort_by_perm. unfold map_values. by rewrite !map_range_perm.
Qed.

(** ** A computing instance *)

Fixpoint insert_sorted {A} (less : A → A → bool) (x : A) (l : list A) : list A :=
  match l with
  | [] => [x]
  | y :: l' => if less x y then x :: l else y :: insert_sorted less x l'
  end.
Definition insertion_sort {A} (less : A → A → bool) (l : list A) : list A :=
  foldr (insert_sorted less) [] l.

Lemma insert_sorted_perm {A} (less : A → A → bool) x l :
  insert_sorted less x l ≡ₚ x :: l.
Proof.
  induction l as [|y l IH]; simpl; [done|]. destruct (less x y); [done|].
  rewrite IH. constructor.
Qed.

Lemma insertion_sort_perm {A} (less : A → A → bool) l : insertion_sort less l ≡ₚ l.
Proof. induction l as [|x l IH]; simpl; [done|]. by rewrite insert_sorted_perm, IH. Qed.

Lemma insert_sorted_sorted {A} (less : A → A → bool) x l :
  strict_weak less → Sorted (λ x y, less y x = false) l →
  Sorted (λ x y, less y x = false) (insert_sorted less x l).
Proof.
  intros Hsw. induction 1 as [|y l Hl IH Hy]; simpl; [by repeat constructor|].
  destruct (less x y) eqn:E.
  - constructor; [by constructor|]. constructor.
    destruct (less y x) eqn:F; [|done].
    rewrite <-(less_irrefl _ Hsw x). symmetry. by eapply less_trans.
  - constructor; [done|]. destruct Hy as [|z l Hz]; simpl; [by constructor|].
    destruct (less x z); by constructor.
Qed.

Lemma insertion_sort_sorted {A} (less : A → A → bool) l :
  strict_weak less → Sorted (λ x y, less y x = false) (insertion_sort less l).
Proof.
  intros Hsw. induction l as [|x l IH]; simpl; [constructor|].
  by apply insert_sorted_sorted.
Qed.

(** The ASCII fallback of the Unicode functions serves the witnesses only:
    no law mentions it. *)
Definition reference_runtime : GoRuntime := {|
  sort_slice A less l := insertion_sort less l;
  sort_slice_perm A less l := insertion_sort_perm less l;
  sort_slice_sorted A less l Hsw := insertion_sort_sorted less l Hsw;
  map_range A m := map_to_list m;
  map_range_perm A m := reflexivity (map_to_list m);
  unicode_lower s := str_map lower_char s;
  unicode_quote s := quote_ascii s;
  unicode_fold_eq a b := String.eqb a b
|}.

(** A runtime that ranges over maps and breaks ties the other way round. *)
Lemma insertion_sort_rev_perm {A} (less : A → A → bool) l : insertion_sort less (rev l) ≡ₚ l.
Proof. rewrite insertion_sort_perm. symmetry. apply Permutation_rev. Qed.
Lemma map_range_rev_perm {A} (m : gmap string A) : rev (map_to_list m) ≡ₚ map_to_list m.
Proof. symmetry. apply Permutation_rev. Qed.

Definition reversed_runtime : GoRuntime := {|
  sort_slice A less l := insertion_sort less (rev l);
  sort_slice_perm A less l := insertion_sort_rev_perm less l;
  sort_slice_sorted A less l Hsw := insertion_sort_sorted less (rev l) Hsw;
  map_range A m := rev (map_to_list m);
  map_range_perm A m := map_range_rev_perm m;
  unicode_lower s := str_map lower_char s;
  unicode_quote s := quote_ascii s;
  unicode_fold_eq a b := String.eqb a b
|}.

(** One that only ranges the other way round. *)
Definition ranges_reversed : GoRuntime := {|
  sort_slice A less l := insertion_sort less l;
  sort_slice_perm A less l := insertion_sort_perm less l;
  sort_slice_sorted A less l Hsw := insertion_sort_sorted less l Hsw;
  map_range A m := rev (map_to_list m);
  map_range_perm A m := map_range_rev_perm m;
  unicode_lower s := str_map lower_char s;
  unicode_quote s := quote_ascii s;
  unicode_fold_eq a b := String.eqb a b
|}.

(** ** Error values

    [error_text] is [Error()].  [Ewrap] is [fmt.Errorf] with one [%w] (the
    text is the whole message), [Ejoin] is [errors.Join], [Esentinel] a
    package-level error that the code recognises with [errors.Is], and
    [Etyped] one of the program's error types, recognised with [errors.As]. *)
Inductive sentinel :=
  | ErrNotExist
  | ContextCanceled
  | ErrServerClosed
  | ErrDNSZoneResolutionFailed
  | ErrDNSZoneAccessDenied
  | ErrTargetOutsideManagedDomain.

Inductive error_type := RequestError | ConflictError | NotFoundError | ValidationError.

#[export] Instance sentinel_eq_dec : EqDecision sentinel.
Proof. solve_decision. Defined.
#[export] Instance error_type_eq_dec : EqDecision error_type.
Proof. solve_decision. Defined.

Inductive error : Type :=
  | Enew (msg : string)
  | Esentinel (s : sentinel) (msg : string)
  | Ewrap (msg : string) (inner : error)
  | Ejoin (errs : list error)
  | Etyped (t : error_type) (msg : string) (inner : option error).

Definition newline : string := String (ch 10) EmptyString.

Fixpoint error_text (e : error) : string :=
  match e with
  | Enew msg | Esentinel _ msg | Ewrap msg _ | Etyped _ msg _ => msg
  | Ejoin errs => Join newline ((fix texts l := match l with
                                                | [] => []
                                                | e :: l' => error_text e :: texts l'
                                                end) errs)
  end.

(** [errors.Is] for a sentinel, [errors.As] for one of the error types. *)
Fixpoint errors_is (s : sentinel) (e : error) : bool :=
  match e with
  | Enew _ => false
  | Esentinel s' _ => bool_decide (s = s')
  | Ewrap _ inner => errors_is s inner
  | Ejoin errs => existsb (errors_is s) errs
  | Etyped _ _ inner => match inner with Some i => errors_is s i | None => false end
  end.

Fixpoint errors_as (t : error_type) (e : error) : bool :=
  match e with
  | Enew _ | Esentinel _ _ => false
  | Ewrap _ inner => errors_as t inner
  | Ejoin errs => existsb (errors_as t) errs
  | Etyped t' _ inner =>
      bool_decide (t = t') || match inner with Some i => errors_as t i | None => false end
  end.

(** The text of the first error of the given type ([errors.As] then
    [Error()]). *)
Fixpoint errors_as_text (t : error_type) (e : error) : option string :=
  match e with
  | Enew _ | Esentinel _ _ => None
  | Ewrap _ inner => errors_as_text t inner
  | Ejoin errs => (fix first l := match l with
                                  | [] => None
                                  | e :: l' => match errors_as_text t e with
                                               | Some m => Some m
                                               | None => first l'
                                               end
                                  end) errs
  | Etyped t' msg inner =>
      if bool_decide (t = t') then Some msg
      else match inner with Some i => errors_as_text t i | None => None end
  end.

(** [errors.Join]: nil errors are dropped, nil when none is left. *)
Definition errors_join (errs : list (option error)) : option error :=
  match omap id errs with [] => None | l => Some (Ejoin l) end.

(** [errors.Join(errs...)] on a slice that holds only non-nil errors. *)
Definition join_errs (errs : list error) : option error :=
  match errs with [] => None | l => Some (Ejoin l) end.

Lemma join_errs_None errs : join_errs errs = None ↔ errs = [].
Proof. by destruct errs. Qed.

Lemma errors_join_None errs : errors_join errs = None ↔ ∀ e, e ∈ errs → e = None.
Proof.
  unfold errors_join. induction errs as [|[e|] errs IH]; simpl.
  - split; [|done]. intros _ e He. by apply elem_of_nil in He.
  - split; [done|]. intros H. by specialize (H (Some e) ltac:(constructor)).
  - rewrite IH. split; intros H e' He'.
    + apply elem_of_cons in He' as [->|He']; [done|]. by apply H.
    + apply H. by constructor.
Qed.

(** ** [net/url], as an interface

    URLs are only parsed, asked for their scheme, host and path, given a query
    parameter or a whole query, and printed back. *)
Class NetURL := {
  url : Type;
  url_Parse : string → result error url;
  url_Scheme : url → string;
  url_Host : url → string;
  url_Path : url → string;
  url_set_query : string → string → url → url;
  url_set_RawQuery : string → url → url;
  url_String : url → string
}.

(** What is used of [url.Parse]'s behaviour: an absolute HTTP URL of a host
    name or address, a port and an unescaped path is split at these places. *)
Definition alnum (c : ascii) : bool := is_lower c || is_upper c || is_digit c.
Definition name_char (c : ascii) : bool := alnum c || Ascii.eqb c dash || Ascii.eqb c dot.
Definition path_char (c : ascii) : bool := name_char c || Ascii.eqb c slash.
Definition plain_host (host : string) : bool :=
  match Cut colon host with
  | None => negb (String.eqb host "") && str_forall name_char host
  | Some (name, port) =>
      negb (String.eqb name "") && str_forall name_char name && str_forall is_digit port
  end.
Definition plain_path (path : string) : bool :=
  str_forall path_char path && (String.eqb path "" || HasPrefix path "/").

Class NetURLLaws `{NetURL} := {
  url_Parse_http scheme host path :
    scheme ∈ ["http"; "https"] → plain_host host = true → plain_path path = true →
    ∃ u, url_Parse (scheme +:+ "://" +:+ host +:+ path) = Ok u ∧
         url_Scheme u = scheme ∧ url_Host u = host ∧ url_Path u = path
}.

(** A computing instance for the witnesses: [scheme://host/rest]. *)
Record simple_url := { su_scheme : string; su_host : string; su_rest : string }.

Fixpoint split_at_sep (sep s : string) : option (string * string) :=
  if HasPrefix s sep then Some (EmptyString, str_drop (String.length sep) s)
  else match s with
       | EmptyString => None
       | String c s' => match split_at_sep sep s' with
                        | Some (a, b) => Some (String c a, b)
                        | None => None
                        end
       end.

Definition simple_parse (s : string) : result error simple_url :=
  match split_at_sep "://" s with
  | None => Ok {| su_scheme := ""; su_host := ""; su_rest := s |}
  | Some (sch, rest) =>
      match Cut slash rest with
      | Some (h, p) => Ok {| su_scheme := sch; su_host := h; su_rest := String slash p |}
      | None => Ok {| su_scheme := sch; su_host := rest; su_rest := "" |}
      end
  end.

Definition reference_url : NetURL := {|
  url := simple_url;
  url_Parse := simple_parse;
  url_Scheme := su_scheme;
  url_Host := su_host;
  url_Path u := match Cut (ch 63) (su_rest u) with Some (p, _) => p | None => su_rest u end;
  url_set_query k v u :=
    {| su_scheme := su_scheme u; su_host := su_host u;
       su_rest := su_rest u +:+ "?" +:+ k +:+ "=" +:+ v |};
  url_set_RawQuery q u :=
    {| su_scheme := su_scheme u; su_host := su_host u;
       su_rest := match Cut (ch 63) (su_rest u) with Some (p, _) => p | None => su_rest u end
                  +:+ "?" +:+ q |};
  url_String u := su_scheme u +:+ "://" +:+ su_host u +:+ su_rest u
|}.

Lemma Cut_none (sep : ascii) (s : string) :
  str_forall (λ c, negb (Ascii.eqb c sep)) s = true → Cut sep s = None.
Proof.
  induction s as [|c s IH]; [done|]. cbn [str_forall Cut]. intros [Hc Hs]%andb_true_iff.
  apply negb_true_iff in Hc. by rewrite Hc, IH.
Qed.

Lemma Cut_append (sep : ascii) (s t : string) :
  str_forall (λ c, negb (Ascii.eqb c sep)) s = true →
  Cut sep (s +:+ String sep t) = Some (s, t).
Proof.
  induction s as [|c s IH]; intros Hs.
  - change (EmptyString +:+ String sep t) with (String sep t). cbn [Cut].
    by rewrite Ascii.eqb_refl.
  - cbn [str_forall] in Hs. apply andb_true_iff in Hs as [Hc Hs]. apply negb_true_iff in Hc.
    change (String c s +:+ String sep t) with (String c (s +:+ String sep t)).
    cbn [Cut]. by rewrite Hc, IH.
Qed.

Lemma str_forall_impl (p q : ascii → bool) s :
  (∀ c, p c = true → q c = true) → str_forall p s = true → str_forall q s = true.
Proof.
  intros Hpq. induction s as [|c s IH]; [done|]. cbn [str_forall].
  rewrite !andb_true_iff. naive_solver.
Qed.

Lemma str_forall_app (p : ascii → bool) a b :
  str_forall p (a +:+ b) = str_forall p a && str_forall p b.
Proof.
  induction a as [|c a IH]; [done|].
  change (String c a +:+ b) with (String c (a +:+ b)). cbn [str_forall].
  by rewrite IH, andb_assoc.
Qed.

Lemma not_char (p : ascii → bool) d :
  p d = false → ∀ c, p c = true → negb (Ascii.eqb c d) = true.
Proof. intros Hd c Hc. destruct (Ascii.eqb_spec c d); [congruence|done]. Qed.

Lemma split_at_sep_head sep t : split_at_sep sep (sep +:+ t) = Some ("", t).
Proof.
  assert (∀ s, split_at_sep sep s =
    if HasPrefix s sep then Some (EmptyString, str_drop (String.length sep) s)
    else match s with
         | EmptyString => None
         | String c s' => match split_at_sep sep s' with
                          | Some (a, b) => Some (String c a, b)
                          | None => None
                          end
         end) as -> by (by intros []).
  by rewrite HasPrefix_app, str_drop_app.
Qed.

Lemma plain_host_no_slash host :
  plain_host host = true → str_forall (λ c, negb (Ascii.eqb c slash)) host = true.
Proof.
  unfold plain_host. destruct (Cut colon host) as [[name port]|] eqn:E.
  - apply Cut_Some in E as ->. rewrite !andb_true_iff. intros [[_ Hn] Hp].
    change (name +:+ String colon port) with (name +:+ ":" +:+ port).
    rewrite !str_forall_app. rewrite !andb_true_iff. split_and!; [|done|];
      eapply str_forall_impl; eauto; by apply not_char.
  - rewrite andb_true_iff. intros [_ Hn]. eapply str_forall_impl; [|done]. by apply not_char.
Qed.

#[export] Instance reference_url_laws : NetURLLaws (H := reference_url).
Proof.
  split. intros scheme host path Hs Hh [Hp Hslash]%andb_true_iff.
  apply plain_host_no_slash in Hh.
  assert (url_Path (NetURL := reference_url)
            {| su_scheme := scheme; su_host := host; su_rest := path |} = path) as Hpath.
  { cbn. rewrite Cut_none; [done|]. eapply str_forall_impl; [|done]. by apply not_char. }
  exists {| su_scheme := scheme; su_host := host; su_rest := path |}.
  split_and!; [|done|done|done]. cbn [url_Parse reference_url]. unfold simple_parse.
  assert (split_at_sep "://" (scheme +:+ "://" +:+ host +:+ path) = Some (scheme, host +:+ path)) as ->.
  { rewrite !elem_of_cons in Hs. destruct Hs as [->|[->|Hs]].
    - change ("http" +:+ ?t) with (String "h" (String "t" (String "t" (String "p" t)))).
      cbn [split_at_sep HasPrefix Ascii.eqb Bool.eqb andb]. by rewrite split_at_sep_head.
    - change ("https" +:+ ?t) with (String "h" (String "t" (String "t" (String "p" (String "s" t))))).
      cbn [split_at_sep HasPrefix Ascii.eqb Bool.eqb andb]. by rewrite split_at_sep_head.
    - by apply elem_of_nil in Hs. }
  destruct path as [|c path]; [by rewrite app_nil_str, Cut_none|].
  apply orb_true_iff in Hslash as [Hc|Hc]; [done|].
  apply HasPrefix_spec in Hc as [t E]. injection E as -> ->. by rewrite Cut_append.
Qed.
