(* ===== verification/Core.v ===== *)
(** The data model of domux ([src/internal/core/types.go]): zones and their
    certificate plans, providers, custom applications, container runtimes,
    agents, deploy targets; their [Validate] methods and defaults.

    A Go struct is a Record whose fields carry a short prefix; [time.Time] is
    a number of nanoseconds with 0 for the zero time, [time.Duration] a 64-bit
    number of nanoseconds, a [float64] its 64 bits.  The environment that the
    runtime defaults read is an [Env]. *)

From S2P Require Import Prelude GoStrings GoRuntime.

(** ** Data *)

Definition ContainerRuntime := string.
Definition ContainerRuntimeDocker : ContainerRuntime := "docker".
Definition ContainerRuntimePodman : ContainerRuntime := "podman".

Definition RouteOrigin := string.
Definition RouteOriginLocalDocker : RouteOrigin := "local_docker".
Definition RouteOriginRemoteAgent : RouteOrigin := "remote_agent".
Definition RouteOriginCustomApp : RouteOrigin := "custom_app".

Definition DeployTransport := string.
Definition DeployTransportLocal : DeployTransport := "local".
Definition DeployTransportAgent : DeployTransport := "agent".
Definition DeployTransportSSH : DeployTransport := "ssh".

Definition Time := Z.
Definition Duration := Z.
Definition float64 := Z.
Definition second : Duration := 1000000000%Z.
Definition hour : Duration := (3600 * second)%Z.

Definition DefaultDDNSTTL : Z := 300%Z.
Definition DefaultCertificateRenewBefore : Duration := (20 * 24 * hour)%Z.

Record DDNSZoneConfig := {
  ddns_Enabled : bool;
  ddns_ProviderRefs : list string;
  ddns_IPv4 : bool;
  ddns_IPv6 : bool;
  ddns_Wildcard : bool;
  ddns_TTL : Z
}.

Record CertificateBundlePolicy := {
  bp_Name : string;
  bp_Domains : list string;
  bp_RenewBefore : Duration;
  bp_DeployTargets : list string
}.

Record CertificatePolicy := {
  cp_Enabled : bool;
  cp_Email : string;
  cp_DNSProvider : string;
  cp_RenewBefore : Duration;
  cp_DeployTargets : list string;
  cp_Bundles : list CertificateBundlePolicy
}.

Record ManagedZone := {
  z_Name : string;
  z_Domain : string;
  z_Default : bool;
  z_Wildcard : bool;
  z_DDNS : DDNSZoneConfig;
  z_Certificate : CertificatePolicy
}.

Record CertificatePlan := {
  plan_Name : string;
  plan_Domains : list string;
  plan_RenewBefore : Duration;
  plan_DeployTargets : list string
}.

Record DDNSProviderConfig := {
  prov_Ref : string;
  prov_Type : string;
  prov_Options : gmap string string
}.

Record CustomApp := {
  app_Name : string;
  app_Icon : string;
  app_Domain : string;
  app_Zone : string;
  app_Subdomain : string;
  app_ExitNode : string;
  app_TargetURL : string
}.

Record RuntimeSource := {
  rs_DisplayName : string;
  rs_Runtime : ContainerRuntime;
  rs_Endpoint : string;
  rs_Network : string
}.

Record SystemResources := {
  res_CPUPercent : float64;
  res_MemoryPercent : float64;
  res_DiskPercent : float64;
  res_CheckedAt : Time
}.

Record AgentNode := {
  an_Name : string;
  an_DisplayName : string;
  an_Addr : string;
  an_Runtime : ContainerRuntime;
  an_SocketPath : string;
  an_Version : string;
  an_Status : string;
  an_LastError : string;
  an_LastCheckedAt : Time;
  an_Resources : SystemResources
}.

Record ContainerSnapshot := {
  cs_ID : string;
  cs_Name : string;
  cs_Image : string;
  cs_Runtime : ContainerRuntime;
  cs_Running : bool;
  cs_State : string;
  cs_HostNetwork : bool;
  cs_Labels : gmap string string;
  cs_Networks : gmap string string;
  cs_ExposedPorts : list Z;
  cs_PublishedPorts : gmap Z Z
}.

Record ContainerRef := {
  cr_ID : string;
  cr_Name : string;
  cr_Image : string;
  cr_Source : string;
  cr_Runtime : ContainerRuntime
}.

Record DiscoveredRoute := {
  r_ID : string;
  r_Name : string;
  r_Icon : string;
  r_Domain : string;
  r_Zone : string;
  r_Subdomain : string;
  r_Host : string;
  r_Source : string;
  r_ExitNode : string;
  r_Origin : RouteOrigin;
  r_Runtime : ContainerRuntime;
  r_TargetURL : string;
  r_ProxyURL : string;
  r_Network : string;
  r_Container : ContainerRef
}.

Record Application := {
  ap_ID : string;
  ap_Name : string;
  ap_Icon : string;
  ap_Domain : string;
  ap_Zone : string;
  ap_Subdomain : string;
  ap_Host : string;
  ap_EntryURL : string;
  ap_Source : string;
  ap_ExitNode : string;
  ap_Origin : RouteOrigin;
  ap_Runtime : ContainerRuntime;
  ap_TargetURL : string;
  ap_Status : string;
  ap_Reason : string;
  ap_Container : ContainerRef
}.

Definition ApplicationStatusProxied : string := "proxied".
Definition ApplicationStatusUnproxied : string := "unproxied".
Definition NodeStatusOnline : string := "online".
Definition NodeStatusOffline : string := "offline".
Definition NodeStatusPending : string := "pending".

Record DDNSSyncState := {
  ds_Domain : string;
  ds_Zone : string;
  ds_Provider : string;
  ds_Host : string;
  ds_RecordType : string;
  ds_Value : string;
  ds_Status : string;
  ds_Error : string;
  ds_SyncedAt : Time
}.

Record CertificateBundle := {
  cb_Name : string;
  cb_Domain : string;
  cb_Zone : string;
  cb_Domains : list string;
  cb_DeployTargets : list string;
  cb_CertPath : string;
  cb_KeyPath : string;
  cb_NotAfter : Time
}.

Record LocalDeployTargetConfig := mkLocalDeployTargetConfig {}.

Record AgentDeployBinding := { adb_Node : string }.

Record SSHDeployTargetConfig := {
  ssh_Addr : string;
  ssh_User : string;
  ssh_Port : Z;
  ssh_PrivateKeyPath : string
}.

Record DeployTarget := {
  dt_Name : string;
  dt_Transport : DeployTransport;
  dt_Local : LocalDeployTargetConfig;
  dt_Agent : AgentDeployBinding;
  dt_SSH : SSHDeployTargetConfig;
  dt_CertPath : string;
  dt_KeyPath : string;
  dt_ReloadCommand : string
}.

Record DeployRun := {
  dr_Target : string;
  dr_Bundle : string;
  dr_Status : string;
  dr_Message : string;
  dr_StartedAt : Time;
  dr_FinishedAt : Time
}.

Record JobRun := {
  jr_Name : string;
  jr_Status : string;
  jr_Message : string;
  jr_StartedAt : Time;
  jr_FinishedAt : Time
}.

(** Decidable equality. *)
#[export] Instance DDNSZoneConfig_eq_dec : EqDecision DDNSZoneConfig.
Proof. solve_decision. Defined.
#[export] Instance CertificateBundlePolicy_eq_dec : EqDecision CertificateBundlePolicy.
Proof. solve_decision. Defined.
#[export] Instance CertificatePolicy_eq_dec : EqDecision CertificatePolicy.
Proof. solve_decision. Defined.
#[export] Instance ManagedZone_eq_dec : EqDecision ManagedZone.
Proof. solve_decision. Defined.
#[export] Instance DDNSProviderConfig_eq_dec : EqDecision DDNSProviderConfig.
Proof. solve_decision. Defined.
#[export] Instance CustomApp_eq_dec : EqDecision CustomApp.
Proof. solve_decision. Defined.
#[export] Instance RuntimeSource_eq_dec : EqDecision RuntimeSource.
Proof. solve_decision. Defined.
#[export] Instance SystemResources_eq_dec : EqDecision SystemResources.
Proof. solve_decision. Defined.
#[export] Instance AgentNode_eq_dec : EqDecision AgentNode.
Proof. solve_decision. Defined.
#[export] Instance LocalDeployTargetConfig_eq_dec : EqDecision LocalDeployTargetConfig.
Proof. solve_decision. Defined.
#[export] Instance AgentDeployBinding_eq_dec : EqDecision AgentDeployBinding.
Proof. solve_decision. Defined.
#[export] Instance SSHDeployTargetConfig_eq_dec : EqDecision SSHDeployTargetConfig.
Proof. solve_decision. Defined.
#[export] Instance DeployTarget_eq_dec : EqDecision DeployTarget.
Proof. solve_decision. Defined.
#[export] Instance ContainerRef_eq_dec : EqDecision ContainerRef.
Proof. solve_decision. Defined.
#[export] Instance DiscoveredRoute_eq_dec : EqDecision DiscoveredRoute.
Proof. solve_decision. Defined.
#[export] Instance CertificateBundle_eq_dec : EqDecision CertificateBundle.
Proof. solve_decision. Defined.
#[export] Instance DDNSSyncState_eq_dec : EqDecision DDNSSyncState.
Proof. solve_decision. Defined.

(** ** Zero values *)

Definition zero_DDNSZoneConfig : DDNSZoneConfig :=
  {| ddns_Enabled := false; ddns_ProviderRefs := []; ddns_IPv4 := false;
     ddns_IPv6 := false; ddns_Wildcard := false; ddns_TTL := 0%Z |}.
Definition zero_CertificatePolicy : CertificatePolicy :=
  {| cp_Enabled := false; cp_Email := ""; cp_DNSProvider := ""; cp_RenewBefore := 0%Z;
     cp_DeployTargets := []; cp_Bundles := [] |}.
Definition zero_ManagedZone : ManagedZone :=
  {| z_Name := ""; z_Domain := ""; z_Default := false; z_Wildcard := false;
     z_DDNS := zero_DDNSZoneConfig; z_Certificate := zero_CertificatePolicy |}.
Definition zero_SystemResources : SystemResources :=
  {| res_CPUPercent := 0%Z; res_MemoryPercent := 0%Z; res_DiskPercent := 0%Z; res_CheckedAt := 0%Z |}.
Definition zero_AgentNode : AgentNode :=
  {| an_Name := ""; an_DisplayName := ""; an_Addr := ""; an_Runtime := "";
     an_SocketPath := ""; an_Version := ""; an_Status := ""; an_LastError := "";
     an_LastCheckedAt := 0%Z; an_Resources := zero_SystemResources |}.
Definition zero_RuntimeSource : RuntimeSource :=
  {| rs_DisplayName := ""; rs_Runtime := ""; rs_Endpoint := ""; rs_Network := "" |}.
Definition zero_CustomApp : CustomApp :=
  {| app_Name := ""; app_Icon := ""; app_Domain := ""; app_Zone := "";
     app_Subdomain := ""; app_ExitNode := ""; app_TargetURL := "" |}.
Definition zero_ContainerRef : ContainerRef :=
  {| cr_ID := ""; cr_Name := ""; cr_Image := ""; cr_Source := ""; cr_Runtime := "" |}.
Definition zero_SSHDeployTargetConfig : SSHDeployTargetConfig :=
  {| ssh_Addr := ""; ssh_User := ""; ssh_Port := 0%Z; ssh_PrivateKeyPath := "" |}.
Definition zero_CertificateBundle : CertificateBundle :=
  {| cb_Name := ""; cb_Domain := ""; cb_Zone := ""; cb_Domains := [];
     cb_DeployTargets := []; cb_CertPath := ""; cb_KeyPath := ""; cb_NotAfter := 0%Z |}.
Definition zero_DDNSSyncState : DDNSSyncState :=
  {| ds_Domain := ""; ds_Zone := ""; ds_Provider := ""; ds_Host := "";
     ds_RecordType := ""; ds_Value := ""; ds_Status := ""; ds_Error := ""; ds_SyncedAt := 0%Z |}.

(** ** Field updates *)

Definition z_with_Name (n : string) (z : ManagedZone) : ManagedZone :=
  {| z_Name := n; z_Domain := z_Domain z; z_Default := z_Default z;
     z_Wildcard := z_Wildcard z; z_DDNS := z_DDNS z; z_Certificate := z_Certificate z |}.
Definition z_with_DDNS (d : DDNSZoneConfig) (z : ManagedZone) : ManagedZone :=
  {| z_Name := z_Name z; z_Domain := z_Domain z; z_Default := z_Default z;
     z_Wildcard := z_Wildcard z; z_DDNS := d; z_Certificate := z_Certificate z |}.
Definition z_with_Certificate (c : CertificatePolicy) (z : ManagedZone) : ManagedZone :=
  {| z_Name := z_Name z; z_Domain := z_Domain z; z_Default := z_Default z;
     z_Wildcard := z_Wildcard z; z_DDNS := z_DDNS z; z_Certificate := c |}.
Definition ddns_with_TTL (t : Z) (d : DDNSZoneConfig) : DDNSZoneConfig :=
  {| ddns_Enabled := ddns_Enabled d; ddns_ProviderRefs := ddns_ProviderRefs d;
     ddns_IPv4 := ddns_IPv4 d; ddns_IPv6 := ddns_IPv6 d;
     ddns_Wildcard := ddns_Wildcard d; ddns_TTL := t |}.
Definition cp_with_RenewBefore (t : Duration) (c : CertificatePolicy) : CertificatePolicy :=
  {| cp_Enabled := cp_Enabled c; cp_Email := cp_Email c; cp_DNSProvider := cp_DNSProvider c;
     cp_RenewBefore := t; cp_DeployTargets := cp_DeployTargets c; cp_Bundles := cp_Bundles c |}.
Definition cp_with_Bundles (b : list CertificateBundlePolicy) (c : CertificatePolicy)
  : CertificatePolicy :=
  {| cp_Enabled := cp_Enabled c; cp_Email := cp_Email c; cp_DNSProvider := cp_DNSProvider c;
     cp_RenewBefore := cp_RenewBefore c; cp_DeployTargets := cp_DeployTargets c;
     cp_Bundles := b |}.
Definition app_with_Domain (d : string) (a : CustomApp) : CustomApp :=
  {| app_Name := app_Name a; app_Icon := app_Icon a; app_Domain := d;
     app_Zone := app_Zone a; app_Subdomain := app_Subdomain a;
     app_ExitNode := app_ExitNode a; app_TargetURL := app_TargetURL a |}.
Definition cb_with_DeployTargets (l : list string) (b : CertificateBundle)
  : CertificateBundle :=
  {| cb_Name := cb_Name b; cb_Domain := cb_Domain b; cb_Zone := cb_Zone b;
     cb_Domains := cb_Domains b; cb_DeployTargets := l; cb_CertPath := cb_CertPath b;
     cb_KeyPath := cb_KeyPath b; cb_NotAfter := cb_NotAfter b |}.

(** What [os] tells the program: environment variables, the user id and
    symbolic links. *)
Record Env := {
  Getenv : string → string;
  Getuid : Z;
  EvalSymlinks : string → result error string
}.

(** ** Zones and certificate plans *)
Section zones.
Context `{GoRuntime}.

Definition ContainerRuntime_Validate (r : ContainerRuntime) : option error :=
  if String.eqb r ContainerRuntimeDocker || String.eqb r ContainerRuntimePodman
  then None
  else Some (Enew ("unsupported runtime " +:+ quote r)).

Definition Hostname (z : ManagedZone) (subdomain : string) : string :=
  let subdomain := TrimSpace subdomain in
  if String.eqb subdomain "" then z_Domain z
  else subdomain +:+ "." +:+ z_Domain z.

Definition DefaultManagedZone (zones : list ManagedZone) : option ManagedZone :=
  match find_index z_Default zones with
  | Some i => zones !! i
  | None => match zones with [z] => Some z | _ => None end
  end.

Definition DefaultManagedZoneName (zones : list ManagedZone) : string :=
  match DefaultManagedZone zones with Some z => z_Domain z | None => "" end.

Fixpoint compactNames_loop (seen : gset string) (values : list string) : list string :=
  match values with
  | [] => []
  | value :: values' =>
      let trimmed := TrimSpace value in
      if String.eqb trimmed "" then compactNames_loop seen values'
      else if bool_decide (trimmed ∈ seen) then compactNames_loop seen values'
      else trimmed :: compactNames_loop ({[trimmed]} ∪ seen) values'
  end.
Definition compactNames (values : list string) : list string :=
  compactNames_loop ∅ values.

Definition QualifiedBundleName (zoneName bundleName : string) : string :=
  let bundleName := TrimSpace bundleName in
  if String.eqb bundleName "" || String.eqb bundleName zoneName then zoneName
  else zoneName +:+ ":" +:+ bundleName.

Definition DomainWithinManagedDomain (managedDomain domain : string) : bool :=
  let managedDomain := TrimSuffix (TrimSpace managedDomain) "." in
  let domain := TrimSuffix (TrimSpace domain) "." in
  let domain := TrimPrefix domain "*." in
  if String.eqb domain managedDomain then true
  else HasSuffix domain ("." +:+ managedDomain).

Definition domainBelongsToZone (zoneDomain domain : string) : bool :=
  DomainWithinManagedDomain zoneDomain domain.

Definition domainsForManagedZone (zone : ManagedZone) : list string :=
  let domains := [z_Domain zone] in
  let domains := if z_Wildcard zone then domains ++ ["*." +:+ z_Domain zone]
                 else domains in
  compactNames domains.

Definition bundle_plan (z : ManagedZone) (name : string) (b : CertificateBundlePolicy)
    (defaultRenewBefore : Duration) (defaultDomains defaultTargets : list string)
  : result error CertificatePlan :=
  let domains := compactNames (bp_Domains b) in
  let domains := match domains with [] => defaultDomains | _ => domains end in
  match filter (fun d => domainBelongsToZone (z_Domain z) d = false) domains with
  | d :: _ => Err (Enew ("zone " +:+ quote (z_Name z) +:+ " certificate bundle " +:+ quote name
                   +:+ " domain " +:+ quote d +:+ " is outside the managed zone"))
  | [] =>
      let renewBefore := if (bp_RenewBefore b =? 0)%Z then defaultRenewBefore
                         else bp_RenewBefore b in
      let targets := compactNames (bp_DeployTargets b) in
      let targets := match targets with [] => defaultTargets | _ => targets end in
      Ok {| plan_Name := name; plan_Domains := domains;
            plan_RenewBefore := renewBefore; plan_DeployTargets := targets |}
  end.

Fixpoint bundle_plans (z : ManagedZone) (rb : Duration) (dd dt : list string)
    (seen : gset string) (bundles : list CertificateBundlePolicy)
  : result error (list CertificatePlan) :=
  match bundles with
  | [] => Ok []
  | b :: bundles' =>
      let name := QualifiedBundleName (z_Name z) (bp_Name b) in
      if String.eqb name (z_Name z) && String.eqb (TrimSpace (bp_Name b)) "" then
        Err (Enew ("zone " +:+ quote (z_Name z) +:+
          " certificate bundle name is required when bundles are explicitly configured"))
      else if bool_decide (name ∈ seen) then
        Err (Enew ("zone " +:+ quote (z_Name z) +:+ " has duplicate certificate bundle "
                   +:+ quote name))
      else
        let? p := bundle_plan z name b rb dd dt in
        let? ps := bundle_plans z rb dd dt ({[name]} ∪ seen) bundles' in
        Ok (p :: ps)
  end.

Definition CertificatePlans (z : ManagedZone) : result error (list CertificatePlan) :=
  let c := z_Certificate z in
  if negb (cp_Enabled c) then Ok []
  else
    let rb := if (cp_RenewBefore c =? 0)%Z then DefaultCertificateRenewBefore
              else cp_RenewBefore c in
    let dd := domainsForManagedZone z in
    let dt := compactNames (cp_DeployTargets c) in
    match cp_Bundles c with
    | [] => Ok [{| plan_Name := z_Name z; plan_Domains := dd;
                   plan_RenewBefore := rb; plan_DeployTargets := dt |}]
    | bundles => bundle_plans z rb dd dt ∅ bundles
    end.

(** The pointer receiver fills in defaults: the result carries the zone as
    it is left, also when validation stops with an error. *)
Definition ManagedZone_Validate (z : ManagedZone) : ManagedZone * option error :=
  if String.eqb (z_Domain z) "" then (z, Some (Enew "domain is required"))
  else
    let z := if String.eqb (z_Name z) "" then z_with_Name (TrimSpace (z_Domain z)) z
             else z in
    let check_certificate (z : ManagedZone) : ManagedZone * option error :=
      let c := z_Certificate z in
      if negb (cp_Enabled c) then (z, None)
      else if String.eqb (cp_Email c) "" then
        (z, Some (Enew ("domain " +:+ quote (z_Domain z)
                        +:+ " certificate email is required")))
      else if String.eqb (cp_DNSProvider c) "" then
        (z, Some (Enew ("domain " +:+ quote (z_Domain z)
                        +:+ " certificate dns_provider is required")))
      else
        let z := if (cp_RenewBefore c =? 0)%Z
                 then z_with_Certificate
                        (cp_with_RenewBefore DefaultCertificateRenewBefore c) z
                 else z in
        match CertificatePlans z with
        | Err e => (z, Some e)
        | Ok _ => (z, None)
        end in
    let d := z_DDNS z in
    if ddns_Enabled d then
      match ddns_ProviderRefs d with
      | [] => (z, Some (Enew ("domain " +:+ quote (z_Domain z)
                              +:+ " ddns provider_refs is required")))
      | _ => check_certificate
               (if (ddns_TTL d =? 0)%Z then z_with_DDNS (ddns_with_TTL DefaultDDNSTTL d) z
                else z)
      end
    else check_certificate z.

(** The plan names of all enabled zones with their targets; a later plan of
    the same name replaces an earlier one. *)
Definition certificatePlanTargets (zones : list ManagedZone) : gmap string (list string) :=
  foldl (λ m z,
    if negb (cp_Enabled (z_Certificate z)) then m
    else match CertificatePlans z with
         | Err _ => m
         | Ok plans => foldl (λ m p, <[plan_Name p := plan_DeployTargets p]> m) m plans
         end) ∅ zones.

Definition ApplyCertificatePlanTargets (zones : list ManagedZone)
    (bundles : list CertificateBundle) : list CertificateBundle :=
  let targetsByBundle := certificatePlanTargets zones in
  map (λ b, match targetsByBundle !! cb_Name b with
            | Some targets => cb_with_DeployTargets targets b
            | None => b
            end) bundles.

Definition CurrentCertificateBundles (zones : list ManagedZone)
    (bundles : list CertificateBundle) : list CertificateBundle :=
  let targetsByBundle := certificatePlanTargets zones in
  omap (λ b, match targetsByBundle !! cb_Name b with
             | Some targets => Some (cb_with_DeployTargets targets b)
             | None => None
             end) bundles.
End zones.

(** ** Container runtimes *)
Section runtimes.
Context `{GoRuntime} (env : Env).

Definition normalizeEndpoint (endpoint : string) : string :=
  let endpoint := TrimSpace endpoint in
  if String.eqb endpoint "" then ""
  else if HasPrefix endpoint "unix://" || Contains endpoint "://" then endpoint
  else if HasPrefix endpoint "/" then "unix://" +:+ endpoint
  else endpoint.

Definition inferRuntimeFromPath (value : string) : ContainerRuntime :=
  let value := ToLower (TrimSpace value) in
  if String.eqb value "" then ""
  else if Contains value "podman.sock" || Contains value "/podman/"
       then ContainerRuntimePodman else "".

Definition inferRuntimeFromEndpoint (endpoint : string) : ContainerRuntime :=
  let endpoint := normalizeEndpoint endpoint in
  let from_endpoint := inferRuntimeFromPath (ToLower (TrimSpace endpoint)) in
  if HasPrefix endpoint "unix://" then
    match EvalSymlinks env (TrimPrefix endpoint "unix://") with
    | Ok resolved =>
        let runtime := inferRuntimeFromPath resolved in
        if String.eqb runtime "" then from_endpoint else runtime
    | Err _ => from_endpoint
    end
  else from_endpoint.

Definition RuntimeOrDefault (s : RuntimeSource) : ContainerRuntime :=
  let runtime := TrimSpace (rs_Runtime s) in
  if negb (String.eqb runtime "") then runtime
  else
    let inferred := inferRuntimeFromEndpoint (rs_Endpoint s) in
    if negb (String.eqb inferred "") then inferred
    else if negb (String.eqb (Getenv env "PODMAN_SOCKET") "") then ContainerRuntimePodman
    else
      let inferred := inferRuntimeFromEndpoint (Getenv env "CONTAINER_HOST") in
      if negb (String.eqb inferred "") then inferred
      else
        let inferred := inferRuntimeFromEndpoint (Getenv env "DOCKER_HOST") in
        if negb (String.eqb inferred "") then inferred else ContainerRuntimeDocker.

Definition defaultRuntime (runtime : ContainerRuntime) : ContainerRuntime :=
  if String.eqb runtime "" then ContainerRuntimeDocker else runtime.

Definition podmanUserSocketPath : string :=
  let runtimeDir := TrimSpace (Getenv env "XDG_RUNTIME_DIR") in
  if negb (String.eqb runtimeDir "") then PathJoin [runtimeDir; "podman"; "podman.sock"]
  else if (0 <? Getuid env)%Z
       then PathJoin ["/run/user"; Itoa (Getuid env); "podman"; "podman.sock"]
       else "".

Definition runtimeEndpointCandidates (runtime : ContainerRuntime) : list string :=
  let runtime := defaultRuntime runtime in
  let getenv k := TrimSpace (Getenv env k) in
  if String.eqb runtime ContainerRuntimePodman then
    compactNames [getenv "PODMAN_SOCKET"; getenv "CONTAINER_HOST"; getenv "DOCKER_HOST";
                  getenv "DOCKER_SOCKET"; podmanUserSocketPath;
                  "/run/podman/podman.sock"; "/var/run/docker.sock"]
  else compactNames [getenv "DOCKER_HOST"; getenv "DOCKER_SOCKET"; "/var/run/docker.sock"].

(** The first candidate that normalises to a non-empty endpoint. *)
Fixpoint first_endpoint (candidates : list string) : string :=
  match candidates with
  | [] => ""
  | c :: candidates' =>
      let endpoint := normalizeEndpoint c in
      if negb (String.eqb endpoint "") then endpoint else first_endpoint candidates'
  end.

Definition DefaultRuntimeEndpoint (runtime : ContainerRuntime) : string :=
  first_endpoint (runtimeEndpointCandidates (defaultRuntime runtime)).

Definition DefaultRuntimeSocketPath (runtime : ContainerRuntime) : string :=
  let endpoint := DefaultRuntimeEndpoint runtime in
  if HasPrefix endpoint "unix://" then TrimPrefix endpoint "unix://" else "".

Definition EndpointOrDefault (s : RuntimeSource) : string :=
  let endpoint := normalizeEndpoint (TrimSpace (rs_Endpoint s)) in
  if negb (String.eqb endpoint "") then endpoint
  else DefaultRuntimeEndpoint (RuntimeOrDefault s).

(** [EndpointOrDefault] sees the runtime assigned on the line before it. *)
Definition Normalized (s : RuntimeSource) : RuntimeSource :=
  let s1 := {| rs_DisplayName := rs_DisplayName s; rs_Runtime := RuntimeOrDefault s;
               rs_Endpoint := rs_Endpoint s; rs_Network := rs_Network s |} in
  {| rs_DisplayName := TrimSpace (rs_DisplayName s); rs_Runtime := rs_Runtime s1;
     rs_Endpoint := EndpointOrDefault s1; rs_Network := TrimSpace (rs_Network s) |}.

Definition RuntimeSource_Validate (s : RuntimeSource) : option error :=
  match ContainerRuntime_Validate (RuntimeOrDefault s) with
  | Some e => Some (Ewrap ("runtime: " +:+ error_text e) e)
  | None => if String.eqb (EndpointOrDefault s) ""
            then Some (Enew "runtime endpoint is required") else None
  end.
End runtimes.

(** ** The other [Validate] methods *)
Section validate.
Context `{GoRuntime} `{NetURL}.

Definition DDNSProviderConfig_Validate (p : DDNSProviderConfig) : option error :=
  if String.eqb (prov_Ref p) "" then Some (Enew "ddns provider ref is required")
  else if String.eqb (prov_Type p) "" then
    Some (Enew ("ddns provider " +:+ quote (prov_Ref p) +:+ " type is required"))
  else None.

Definition CustomApp_Validate (a : CustomApp) : option error :=
  let a := if String.eqb (TrimSpace (app_Domain a)) ""
           then app_with_Domain (TrimSpace (app_Zone a)) a else a in
  let err (m : string) := Some (Enew ("custom app " +:+ quote (app_Name a) +:+ m)) in
  if String.eqb (TrimSpace (app_Name a)) "" then Some (Enew "custom app name is required")
  else if String.eqb (TrimSpace (app_Domain a)) "" then err " domain is required"
  else if String.eqb (TrimSpace (app_Subdomain a)) "" then err " subdomain is required"
  else if String.eqb (TrimSpace (app_TargetURL a)) "" then err " target_url is required"
  else match url_Parse (TrimSpace (app_TargetURL a)) with
       | Err e => Some (Ewrap ("custom app " +:+ quote (app_Name a)
                          +:+ " target_url is invalid: " +:+ error_text e) e)
       | Ok target =>
           if String.eqb (url_Scheme target) "" || String.eqb (url_Host target) ""
           then err " target_url must include scheme and host" else None
       end.

Definition CustomApp_Host (a : CustomApp) (zone : ManagedZone) : string :=
  Hostname zone (app_Subdomain a).

Definition AgentNode_Validate (n : AgentNode) : option error :=
  if String.eqb (an_Name n) "" then Some (Enew "agent node name is required")
  else if String.eqb (an_Addr n) "" then
    Some (Enew ("agent node " +:+ quote (an_Name n) +:+ " addr is required"))
  else match ContainerRuntime_Validate (an_Runtime n) with
       | Some e => Some (Ewrap ("agent node " +:+ quote (an_Name n) +:+ ": "
                                +:+ error_text e) e)
       | None => None
       end.

Definition DefaultSubdomain (c : ContainerSnapshot) : string :=
  TrimPrefix (TrimSpace (cs_Name c)) "/".

Definition CertificateBundle_Validate (b : CertificateBundle) : option error :=
  let domain := if String.eqb (TrimSpace (cb_Domain b)) "" then TrimSpace (cb_Zone b)
                else cb_Domain b in
  let err (m : string) := Some (Enew ("certificate bundle " +:+ quote (cb_Name b) +:+ m)) in
  if String.eqb (cb_Name b) "" then Some (Enew "certificate bundle name is required")
  else if String.eqb domain "" then err " domain is required"
  else if String.eqb (cb_CertPath b) "" || String.eqb (cb_KeyPath b) ""
       then err " paths are required"
  else match cb_Domains b with [] => err " domains are required" | _ => None end.

Definition DeployTarget_Validate (t : DeployTarget) : option error :=
  let err (m : string) := Some (Enew ("deploy target " +:+ quote (dt_Name t) +:+ m)) in
  if String.eqb (dt_Name t) "" then Some (Enew "deploy target name is required")
  else if String.eqb (dt_CertPath t) "" || String.eqb (dt_KeyPath t) ""
       then err " cert_path and key_path are required"
  else if String.eqb (dt_Transport t) DeployTransportLocal then None
  else if String.eqb (dt_Transport t) DeployTransportAgent then
    if String.eqb (adb_Node (dt_Agent t)) "" then err " agent node is required" else None
  else if String.eqb (dt_Transport t) DeployTransportSSH then
    if String.eqb (ssh_Addr (dt_SSH t)) "" || String.eqb (ssh_User (dt_SSH t)) ""
    then err " ssh addr and user are required" else None
  else err (" has unsupported transport " +:+ quote (dt_Transport t)).
End validate.

(** * Properties *)

(** ** [compactNames] *)

Lemma compactNames_loop_elem (seen : gset string) values x :
  x ∈ compactNames_loop seen values ↔
  x ≠ "" ∧ x ∉ seen ∧ ∃ v, v ∈ values ∧ TrimSpace v = x.
Proof.
  revert seen. induction values as [|v values IH]; intros seen; simpl.
  - rewrite elem_of_nil. split; [done|]. intros (_ & _ & v & Hv & _). by apply elem_of_nil in Hv.
  - destruct (String.eqb (TrimSpace v) "") eqn:E; beq;
      [|destruct (bool_decide (TrimSpace v ∈ seen)) eqn:F; beq].
    1,2: rewrite IH; set_unfold; naive_solver.
    rewrite elem_of_cons, IH. set_unfold.
    destruct (decide (x = TrimSpace v)); naive_solver.
Qed.

Lemma compactNames_elem values x :
  x ∈ compactNames values ↔ x ≠ "" ∧ ∃ v, v ∈ values ∧ TrimSpace v = x.
Proof. unfold compactNames. rewrite compactNames_loop_elem. set_solver. Qed.

Lemma compactNames_loop_NoDup (seen : gset string) values :
  NoDup (compactNames_loop seen values).
Proof.
  revert seen. induction values as [|v values IH]; intros seen; simpl; [constructor|].
  repeat case_split; try apply IH. constructor; [|apply IH].
  rewrite compactNames_loop_elem. set_solver.
Qed.

Lemma compactNames_NoDup values : NoDup (compactNames values).
Proof. apply compactNames_loop_NoDup. Qed.

(** Names that are already trimmed, non-empty and distinct are kept as is. *)
Lemma compactNames_loop_id (seen : gset string) values :
  NoDup values → (∀ x, x ∈ values → trimmed x ∧ x ≠ "" ∧ x ∉ seen) →
  compactNames_loop seen values = values.
Proof.
  revert seen. induction values as [|v values IH]; intros seen Hnd Hall; simpl; [done|].
  destruct (Hall v) as (Ht & Hne & Hs); [constructor|].
  apply NoDup_cons in Hnd as [Hv Hnd]. rewrite Ht.
  rewrite (proj2 (String.eqb_neq _ _)), bool_decide_eq_false_2 by done.
  f_equal. apply IH; [done|]. intros x Hx. destruct (Hall x) as (? & ? & ?); [by constructor|].
  split_and!; [done|done|]. rewrite elem_of_union, elem_of_singleton. naive_solver.
Qed.

Lemma compactNames_idemp values : compactNames (compactNames values) = compactNames values.
Proof.
  apply compactNames_loop_id; [apply compactNames_NoDup|].
  intros x Hx. apply compactNames_elem in Hx as (Hne & v & _ & <-).
  split_and!; [apply trimmed_TrimSpace|done|set_solver].
Qed.

#[export] Hint Resolve compactNames_NoDup : domux.

(** ** Domains *)

(** What domux expects of a managed domain: no surrounding white space, no
    trailing dot, no wildcard label. *)
Definition plain_domain (d : string) : Prop :=
  trimmed d ∧ d ≠ "" ∧ HasSuffix d "." = false ∧ HasPrefix d "*." = false.

#[export] Instance plain_domain_dec d : Decision (plain_domain d).
Proof. unfold plain_domain. apply _. Defined.

Lemma plain_domain_canonical d :
  plain_domain d → TrimSuffix (TrimSpace d) "." = d ∧ TrimPrefix d "*." = d.
Proof.
  intros (Ht & _ & Hs & Hp). rewrite Ht, TrimSuffix_false by done. split; [done|].
  unfold TrimPrefix. by rewrite Hp.
Qed.

Lemma DomainWithinManagedDomain_plain m d :
  plain_domain m → plain_domain d →
  DomainWithinManagedDomain m d = String.eqb d m || HasSuffix d ("." +:+ m).
Proof.
  intros Hm Hd. unfold DomainWithinManagedDomain.
  destruct (plain_domain_canonical m Hm) as [-> _].
  destruct (plain_domain_canonical d Hd) as [-> ->]. by destruct (String.eqb d m).
Qed.

(** A name as it is compared: without blanks, a final dot and a wildcard
    label; it is inside a domain when it is the domain or ends with it after a
    dot. *)
Definition bare_name (s : string) : string := TrimSuffix (TrimSpace s) ".".
Definition within_domain (managed name : string) : Prop :=
  let d := TrimPrefix (bare_name name) "*." in
  d = bare_name managed ∨ ∃ labels, d = labels +:+ "." +:+ bare_name managed.

Lemma DomainWithinManagedDomain_spec m d :
  DomainWithinManagedDomain m d = true ↔ within_domain m d.
Proof.
  unfold DomainWithinManagedDomain, within_domain, bare_name.
  rewrite <-HasSuffix_spec. case_split; beq; naive_solver.
Qed.

(** A name made of any non-empty label string in front of a managed domain. *)
Lemma subdomain_within m s :
  plain_domain m → trimmed s → s ≠ "" →
  DomainWithinManagedDomain m (s +:+ "." +:+ m) = true.
Proof.
  intros Hm Hs Hne. pose proof Hm as (Ht & Hmne & Hsuf & _).
  unfold DomainWithinManagedDomain.
  destruct (plain_domain_canonical m Hm) as [-> _].
  assert (trimmed (s +:+ "." +:+ m)) as -> by (by apply (trimmed_join_solid s m dot)).
  rewrite TrimSuffix_false by (by rewrite <-app_assoc_str, HasSuffix_app_char).
  rewrite <-app_assoc_str, TrimPrefix_keep_suffix.
  2:{ rewrite length_app_str. destruct s; [done|]. simpl. lia. }
  case_split; [done|]. beq.
  destruct (string_last (TrimPrefix (s +:+ ".") "*.")) as [E|(t & c & E)];
    rewrite E in *; [done|].
  assert (c = dot) as ->.
  { unfold TrimPrefix in E. destruct (HasPrefix (s +:+ ".") "*.") eqn:F.
    - apply HasPrefix_spec in F as [u Hu]. rewrite Hu in E.
      rewrite (str_drop_app "*." u) in E. subst u. rewrite <-app_assoc_str in Hu.
      symmetry. by apply app_last_char in Hu as [_ ?].
    - by apply app_last_char in E as [_ ?]. }
  rewrite app_assoc_str. apply HasSuffix_app.
Qed.

(** ** Certificate plans *)

Lemma QualifiedBundleName_zone zn b :
  ∃ suffix, QualifiedBundleName zn b = zn +:+ suffix.
Proof.
  unfold QualifiedBundleName. case_split; [exists ""; by rewrite app_nil_str|eauto].
Qed.

(** What the rest of the program relies on in one plan of a zone. *)
Record plan_ok (z : ManagedZone) (p : CertificatePlan) : Prop := {
  plan_ok_name : ∃ suffix, plan_Name p = z_Name z +:+ suffix;
  plan_ok_domains : ∀ d, d ∈ plan_Domains p → DomainWithinManagedDomain (z_Domain z) d = true;
  plan_ok_nonempty : plan_Domains p ≠ [];
  plan_ok_domains_nodup : NoDup (plan_Domains p);
  plan_ok_targets : NoDup (plan_DeployTargets p);
  plan_ok_renew : plan_RenewBefore p ≠ 0%Z
}.

Lemma star_dot_trimmed m : plain_domain m → trimmed ("*." +:+ m).
Proof. intros (Ht & _). by apply (trimmed_join_solid "*" m dot). Qed.

Lemma domainsForManagedZone_eq z :
  plain_domain (z_Domain z) →
  domainsForManagedZone z =
  z_Domain z :: (if z_Wildcard z then ["*." +:+ z_Domain z] else []).
Proof.
  intros Hd. pose proof Hd as (Ht & Hne & _ & Hp). unfold domainsForManagedZone.
  assert (z_Domain z ≠ "*." +:+ z_Domain z) as Hneq.
  { intros E. rewrite E, HasPrefix_app in Hp. done. }
  destruct (z_Wildcard z); simpl; apply compactNames_loop_id.
  - repeat constructor; rewrite ?list_elem_of_singleton, ?elem_of_nil; naive_solver.
  - intros x Hx. rewrite elem_of_cons, list_elem_of_singleton in Hx.
    destruct Hx as [->| ->]; (split_and!; [|done|set_solver]); [done|].
    by apply star_dot_trimmed.
  - apply NoDup_singleton.
  - intros x ->%list_elem_of_singleton. split_and!; [done|done|set_solver].
Qed.

Lemma domainsForManagedZone_within z d :
  plain_domain (z_Domain z) → d ∈ domainsForManagedZone z →
  DomainWithinManagedDomain (z_Domain z) d = true.
Proof.
  intros Hz. rewrite domainsForManagedZone_eq by done. rewrite elem_of_cons.
  intros [->|Hd].
  - by rewrite DomainWithinManagedDomain_plain, String.eqb_refl.
  - destruct (z_Wildcard z); [|by apply elem_of_nil in Hd].
    apply list_elem_of_singleton in Hd as ->. by apply (subdomain_within _ "*").
Qed.

Lemma domainsForManagedZone_nonempty z :
  plain_domain (z_Domain z) → domainsForManagedZone z ≠ [].
Proof. intros Hz. by rewrite domainsForManagedZone_eq. Qed.

#[global] Arguments CertificatePlans : simpl never.

Section plans.
Context `{GoRuntime}.

Lemma bundle_plan_ok z name b rb dd dt p :
  (∃ suffix, name = z_Name z +:+ suffix) →
  (∀ d, d ∈ dd → DomainWithinManagedDomain (z_Domain z) d = true) →
  dd ≠ [] → NoDup dd → NoDup dt → rb ≠ 0%Z →
  bundle_plan z name b rb dd dt = Ok p → plan_ok z p ∧ plan_Name p = name.
Proof.
  intros Hname Hdd Hne Hnd Hdt Hrb. unfold bundle_plan.
  set (domains := match compactNames (bp_Domains b) with [] => dd | _ => _ end).
  destruct (filter _ domains) as [|d l] eqn:E; [|done]. intros [= <-].
  split; [|done]. split; simpl; try done.
  - intros d Hd. destruct (DomainWithinManagedDomain (z_Domain z) d) eqn:F; [done|].
    exfalso. assert (d ∈ filter (λ d, domainBelongsToZone (z_Domain z) d = false) domains)
      as Hin by (by apply list_elem_of_filter).
    rewrite E in Hin. by apply elem_of_nil in Hin.
  - subst domains. by destruct (compactNames (bp_Domains b)).
  - subst domains. pose proof (compactNames_NoDup (bp_Domains b)).
    by destruct (compactNames (bp_Domains b)).
  - pose proof (compactNames_NoDup (bp_DeployTargets b)).
    by destruct (compactNames (bp_DeployTargets b)).
  - destruct (Z.eqb_spec (bp_RenewBefore b) 0); lia.
Qed.

Lemma bundle_plans_ok z rb dd dt seen bundles plans :
  (∀ d, d ∈ dd → DomainWithinManagedDomain (z_Domain z) d = true) →
  dd ≠ [] → NoDup dd → NoDup dt → rb ≠ 0%Z →
  bundle_plans z rb dd dt seen bundles = Ok plans →
  Forall (plan_ok z) plans ∧
  map plan_Name plans = map (λ b, QualifiedBundleName (z_Name z) (bp_Name b)) bundles ∧
  NoDup (map plan_Name plans) ∧ (∀ n, n ∈ map plan_Name plans → n ∉ seen).
Proof.
  intros Hdd Hne Hnd Hdt Hrb. revert seen plans.
  induction bundles as [|b bundles IH]; intros seen plans; simpl.
  { intros [= <-]. split_and!; try constructor. intros n Hn. by apply elem_of_nil in Hn. }
  case_split; [done|]. case_split; [done|]. beq.
  destruct (bundle_plan z _ b rb dd dt) as [p|] eqn:Ep; [|done].
  destruct (bundle_plans z rb dd dt _ bundles) as [ps|] eqn:Eps; [|done].
  intros [= <-]. simpl.
  eapply bundle_plan_ok in Ep as [Hok Hname]; try done; [|apply QualifiedBundleName_zone].
  apply IH in Eps as (Hall & Hnames & Hnodup & Hfresh). rewrite Hname, Hnames.
  split_and!; [by constructor|done| |].
  - constructor; [|by rewrite <-Hnames]. rewrite <-Hnames. intros Hin.
    apply Hfresh in Hin. set_solver.
  - intros n Hn. apply elem_of_cons in Hn as [->|Hn]; [done|].
    rewrite <-Hnames in Hn. apply Hfresh in Hn. set_solver.
Qed.

Lemma CertificatePlans_ok z plans :
  plain_domain (z_Domain z) → CertificatePlans z = Ok plans →
  Forall (plan_ok z) plans ∧ NoDup (map plan_Name plans).
Proof.
  intros Hz. unfold CertificatePlans.
  set (rb := if (cp_RenewBefore _ =? 0)%Z then _ else _).
  assert (rb ≠ 0%Z) as Hrb.
  { subst rb. destruct (Z.eqb_spec (cp_RenewBefore (z_Certificate z)) 0); [done|lia]. }
  case_split; [intros [= <-]; split; constructor|].
  destruct (cp_Bundles _) as [|b bs] eqn:E.
  - intros [= <-]. split; [|simpl; apply NoDup_singleton].
    constructor; [|constructor]. split; simpl; try done.
    + exists "". by rewrite app_nil_str.
    + intros d Hd. by apply domainsForManagedZone_within.
    + by apply domainsForManagedZone_nonempty.
    + apply compactNames_NoDup.
    + apply compactNames_NoDup.
  - intros Hp. apply bundle_plans_ok in Hp as (? & _ & ? & _); try done.
    + intros d Hd. by apply domainsForManagedZone_within.
    + by apply domainsForManagedZone_nonempty.
    + apply compactNames_NoDup.
    + apply compactNames_NoDup.
Qed.

(** C27. The certificate plans of an enabled zone with a plain domain are
    those the rest of domux may rely on: one plan per configured bundle (or
    the default one), with pairwise distinct names that start with the zone's
    name, at least one domain each, no domain outside the managed domain, no
    duplicate domain or target, and a renewal margin that is not zero. *)
Theorem CertificatePlans_sound z plans :
  plain_domain (z_Domain z) → cp_Enabled (z_Certificate z) = true →
  CertificatePlans z = Ok plans →
  length plans = max 1 (length (cp_Bundles (z_Certificate z))) ∧
  NoDup (map plan_Name plans) ∧
  ∀ p, p ∈ plans →
    (∃ suffix, plan_Name p = z_Name z +:+ suffix) ∧
    plan_Domains p ≠ [] ∧ NoDup (plan_Domains p) ∧ NoDup (plan_DeployTargets p) ∧
    plan_RenewBefore p ≠ 0%Z ∧
    ∀ d, d ∈ plan_Domains p → DomainWithinManagedDomain (z_Domain z) d = true.
Proof.
  intros Hz He Hp. pose proof Hp as Hp'.
  apply CertificatePlans_ok in Hp as [Hall Hnd]; [|done]. split_and!; [|done|].
  - unfold CertificatePlans in Hp'. rewrite He in Hp'. cbn [negb] in Hp'.
    destruct (cp_Bundles _) as [|b bs] eqn:E; [by injection Hp' as <-|].
    apply bundle_plans_ok in Hp' as (_ & Hn & _); try apply compactNames_NoDup.
    + rewrite <-(length_map plan_Name), Hn, length_map. simpl. lia.
    + intros d Hd. by apply domainsForManagedZone_within.
    + by apply domainsForManagedZone_nonempty.
    + destruct (Z.eqb_spec (cp_RenewBefore (z_Certificate z)) 0); [done|lia].
  - intros p Hin. rewrite List.Forall_forall in Hall.
    destruct (Hall p) as []; [by apply list_elem_of_In|]. split_and!; done.
Qed.

(** ** [ManagedZone.Validate] *)

(** The zone a successful validation leaves behind, as the code fills it. *)
Definition zone_defaults (z : ManagedZone) : ManagedZone :=
  let z := if String.eqb (z_Name z) "" then z_with_Name (TrimSpace (z_Domain z)) z else z in
  let z := if ddns_Enabled (z_DDNS z) && (ddns_TTL (z_DDNS z) =? 0)%Z
           then z_with_DDNS (ddns_with_TTL DefaultDDNSTTL (z_DDNS z)) z else z in
  if cp_Enabled (z_Certificate z) && (cp_RenewBefore (z_Certificate z) =? 0)%Z
  then z_with_Certificate
         (cp_with_RenewBefore DefaultCertificateRenewBefore (z_Certificate z)) z
  else z.

(** What validation checks of a zone (no defaults involved). *)
Record zone_ok (z : ManagedZone) : Prop := {
  zone_ok_domain : z_Domain z ≠ "";
  zone_ok_refs : ddns_Enabled (z_DDNS z) = true → ddns_ProviderRefs (z_DDNS z) ≠ [];
  zone_ok_email : cp_Enabled (z_Certificate z) = true → cp_Email (z_Certificate z) ≠ "";
  zone_ok_dns : cp_Enabled (z_Certificate z) = true → cp_DNSProvider (z_Certificate z) ≠ "";
  zone_ok_plans : is_ok (CertificatePlans (zone_defaults z)) = true
}.

Lemma CertificatePlans_disabled z :
  cp_Enabled (z_Certificate z) = false → CertificatePlans z = Ok [].
Proof. unfold CertificatePlans. by intros ->. Qed.

Lemma ManagedZone_Validate_spec z :
  match ManagedZone_Validate z with
  | (z', None) => zone_ok z ∧ z' = zone_defaults z
  | (_, Some _) => ¬ zone_ok z
  end.
Proof.
  destruct z as [n d def w [en refs v4 v6 wc ttl] [cen em dp rb dts bs]].
  unfold ManagedZone_Validate, zone_defaults.
  unfold z_with_Name, z_with_DDNS, ddns_with_TTL, z_with_Certificate, cp_with_RenewBefore.
  simpl.
  destruct (String.eqb d "") eqn:Ed; [apply String.eqb_eq in Ed; by intros []|].
  apply String.eqb_neq in Ed.
  destruct (String.eqb n "") eqn:En; simpl;
  (destruct en; [destruct refs as [|r refs]; [by intros [_ Hr _ _ _]; apply Hr|]|]);
  simpl; destruct (Z.eqb ttl 0) eqn:Ettl; simpl;
  (destruct cen; simpl;
   [destruct (String.eqb em "") eqn:Eem;
      [apply String.eqb_eq in Eem; by intros [_ _ Hr _ _]; apply Hr
      |apply String.eqb_neq in Eem];
    destruct (String.eqb dp "") eqn:Edp;
      [apply String.eqb_eq in Edp; by intros [_ _ _ Hr _]; apply Hr
      |apply String.eqb_neq in Edp];
    destruct (Z.eqb rb 0) eqn:Erb; simpl;
    match goal with
    | |- context [match CertificatePlans ?z with _ => _ end] =>
        destruct (CertificatePlans z) eqn:Epl
    end|]);
  try (split; [split|]); try (intros [_ _ _ _ Hpl]; revert Hpl);
  unfold zone_defaults, z_with_Name, z_with_DDNS, ddns_with_TTL, z_with_Certificate,
    cp_with_RenewBefore; simpl; rewrite ?En; simpl; rewrite ?Ettl; simpl;
  rewrite ?Erb; simpl; rewrite ?Epl; done.
Qed.

Definition name_default (n d : string) : string :=
  if String.eqb n "" then TrimSpace d else n.
Definition ddns_default (d : DDNSZoneConfig) : DDNSZoneConfig :=
  if ddns_Enabled d && (ddns_TTL d =? 0)%Z then ddns_with_TTL DefaultDDNSTTL d else d.
Definition cert_default (c : CertificatePolicy) : CertificatePolicy :=
  if cp_Enabled c && (cp_RenewBefore c =? 0)%Z
  then cp_with_RenewBefore DefaultCertificateRenewBefore c else c.

Lemma zone_defaults_eq z :
  zone_defaults z =
  {| z_Name := name_default (z_Name z) (z_Domain z); z_Domain := z_Domain z;
     z_Default := z_Default z; z_Wildcard := z_Wildcard z;
     z_DDNS := ddns_default (z_DDNS z); z_Certificate := cert_default (z_Certificate z) |}.
Proof.
  destruct z as [n d def w dd c].
  unfold zone_defaults, name_default, ddns_default, cert_default. cbn [z_Name].
  destruct (String.eqb n ""); unfold z_with_Name; cbn [z_DDNS];
  destruct (ddns_Enabled dd && _); unfold z_with_DDNS; cbn [z_Certificate];
  by destruct (cp_Enabled c && _).
Qed.

Lemma name_default_idemp n d : name_default (name_default n d) d = name_default n d.
Proof.
  unfold name_default. destruct (String.eqb n "") eqn:E; [|by rewrite E].
  by destruct (String.eqb (TrimSpace d) "").
Qed.
Lemma ddns_default_idemp d : ddns_default (ddns_default d) = ddns_default d.
Proof.
  unfold ddns_default. destruct (ddns_Enabled d && (ddns_TTL d =? 0)%Z) eqn:E; [|by rewrite E].
  unfold ddns_with_TTL. cbn [ddns_Enabled ddns_TTL]. by rewrite andb_comm.
Qed.
Lemma cert_default_idemp c : cert_default (cert_default c) = cert_default c.
Proof.
  unfold cert_default. destruct (cp_Enabled c && (cp_RenewBefore c =? 0)%Z) eqn:E; [|by rewrite E].
  unfold cp_with_RenewBefore. cbn [cp_Enabled cp_RenewBefore]. by rewrite andb_comm.
Qed.

Lemma zone_defaults_idemp z : zone_defaults (zone_defaults z) = zone_defaults z.
Proof.
  rewrite !zone_defaults_eq. simpl.
  by rewrite name_default_idemp, ddns_default_idemp, cert_default_idemp.
Qed.

Lemma zone_defaults_domain z : z_Domain (zone_defaults z) = z_Domain z.
Proof. by rewrite zone_defaults_eq. Qed.
Lemma zone_defaults_default z : z_Default (zone_defaults z) = z_Default z.
Proof. by rewrite zone_defaults_eq. Qed.
Lemma zone_defaults_refs z :
  ddns_ProviderRefs (z_DDNS (zone_defaults z)) = ddns_ProviderRefs (z_DDNS z).
Proof. rewrite zone_defaults_eq. simpl. unfold ddns_default. by case_split. Qed.

Lemma zone_defaults_same z z' :
  z' = zone_defaults z →
  ddns_Enabled (z_DDNS z') = ddns_Enabled (z_DDNS z) ∧
  ddns_ProviderRefs (z_DDNS z') = ddns_ProviderRefs (z_DDNS z) ∧
  cp_Enabled (z_Certificate z') = cp_Enabled (z_Certificate z) ∧
  cp_Email (z_Certificate z') = cp_Email (z_Certificate z) ∧
  cp_DNSProvider (z_Certificate z') = cp_DNSProvider (z_Certificate z).
Proof.
  intros ->. rewrite zone_defaults_eq. simpl. unfold ddns_default, cert_default.
  by destruct (ddns_Enabled (z_DDNS z) && _), (cp_Enabled (z_Certificate z) && _).
Qed.

Lemma zone_ok_defaults z : zone_ok z → zone_ok (zone_defaults z).
Proof.
  intros [H1 H2 H3 H4 H5].
  destruct (zone_defaults_same z _ eq_refl) as (E1 & E2 & E3 & E4 & E5).
  split; rewrite ?zone_defaults_domain, ?E1, ?E2, ?E3, ?E4, ?E5; try done.
  by rewrite zone_defaults_idemp.
Qed.

(** Validating a zone is idempotent: the zone a successful validation
    leaves behind (its name, TTL and renewal margin filled in) validates
    again, unchanged; and the outcome is decided by [zone_ok] alone. *)
Theorem ManagedZone_Validate_idempotent z :
  match ManagedZone_Validate z with
  | (z', None) => zone_ok z ∧ z' = zone_defaults z ∧ ManagedZone_Validate z' = (z', None)
  | (_, Some _) => ¬ zone_ok z
  end.
Proof.
  pose proof (ManagedZone_Validate_spec z) as H1.
  destruct (ManagedZone_Validate z) as [z' [e|]]; [done|].
  destruct H1 as [Hok ->]. split_and!; [done..|].
  pose proof (ManagedZone_Validate_spec (zone_defaults z)) as H2.
  destruct (ManagedZone_Validate (zone_defaults z)) as [z'' [e|]].
  - by apply zone_ok_defaults in Hok.
  - destruct H2 as [_ ->]. by rewrite zone_defaults_idemp.
Qed.

(** ** Bundles that the configuration still names *)

Lemma certificatePlanTargets_lookup zones n :
  is_Some (certificatePlanTargets zones !! n) ↔
  ∃ z plans p, z ∈ zones ∧ cp_Enabled (z_Certificate z) = true ∧
    CertificatePlans z = Ok plans ∧ p ∈ plans ∧ plan_Name p = n.
Proof.
  unfold certificatePlanTargets. set (f := λ m z, _).
  assert (∀ plans (m : gmap string (list string)),
    is_Some (foldl (λ m p, <[plan_Name p := plan_DeployTargets p]> m) m plans !! n) ↔
    is_Some (m !! n) ∨ ∃ p, p ∈ plans ∧ plan_Name p = n) as Hplans.
  { induction plans as [|p plans IH]; intros m; simpl.
    - split; [by left|]. intros [?|(p & Hp & _)]; [done|by apply elem_of_nil in Hp].
    - rewrite IH, lookup_insert. set_unfold. case_decide; naive_solver. }
  assert (∀ m, is_Some (foldl f m zones !! n) ↔ is_Some (m !! n) ∨
    ∃ z plans p, z ∈ zones ∧ cp_Enabled (z_Certificate z) = true ∧
      CertificatePlans z = Ok plans ∧ p ∈ plans ∧ plan_Name p = n) as Hgen.
  2:{ rewrite Hgen, lookup_empty. split; [|by right]. by intros [[? [=]]|?]. }
  induction zones as [|z zones IH]; intros m; simpl.
  - split; [by left|]. intros [?|(? & ? & ? & Hz & _)]; [done|by apply elem_of_nil in Hz].
  - rewrite IH. assert (is_Some (f m z !! n) ↔ is_Some (m !! n) ∨
      ∃ plans p, cp_Enabled (z_Certificate z) = true ∧
        CertificatePlans z = Ok plans ∧ p ∈ plans ∧ plan_Name p = n) as ->.
    { subst f. simpl. destruct (cp_Enabled (z_Certificate z)); simpl.
      2:{ split; [by left|]. by intros [?|(? & ? & ? & _)]. }
      destruct (CertificatePlans z) as [plans|e] eqn:Epl.
      2:{ split; [by left|]. by intros [?|(? & ? & ? & ? & _)]. }
      rewrite Hplans. split.
      - intros [?|(p & ? & ?)]; [by left|right; by exists plans, p].
      - intros [?|(? & p & _ & [= <-] & ?)]; [by left|right; by exists p]. }
    split.
    + intros [[?|(plans & p & ?)]|(z' & plans & p & ? & ?)]; [by left|right..].
      * exists z, plans, p. split; [constructor|done].
      * exists z', plans, p. split; [by constructor|done].
    + intros [?|(z' & plans & p & Hz & ?)]; [by do 2 left|].
      apply elem_of_cons in Hz as [->|Hz]; [left; right; by exists plans, p|].
      right. by exists z', plans, p.
Qed.

Lemma cb_with_DeployTargets_name l b : cb_Name (cb_with_DeployTargets l b) = cb_Name b.
Proof. done. Qed.

(** The certificate list shows exactly the stored bundles whose name is a
    plan of some enabled zone, in their stored order, with everything but
    the deploy targets as stored, and the targets of the current policy. *)
Theorem CurrentCertificateBundles_spec zones bundles :
  (∀ b, b ∈ CurrentCertificateBundles zones bundles →
     ∃ b0, b0 ∈ bundles ∧ b = cb_with_DeployTargets (cb_DeployTargets b) b0 ∧
       certificatePlanTargets zones !! cb_Name b0 = Some (cb_DeployTargets b)) ∧
  (∀ b0, b0 ∈ bundles →
     (∃ b, b ∈ CurrentCertificateBundles zones bundles ∧ cb_Name b = cb_Name b0) ↔
     ∃ z plans p, z ∈ zones ∧ cp_Enabled (z_Certificate z) = true ∧
       CertificatePlans z = Ok plans ∧ p ∈ plans ∧ plan_Name p = cb_Name b0) ∧
  map cb_Name (CurrentCertificateBundles zones bundles) `sublist_of` map cb_Name bundles.
Proof.
  split_and!.
  - intros b (b0 & Hb0 & H1)%list_elem_of_omap. exists b0.
    destruct (certificatePlanTargets zones !! cb_Name b0) eqn:E; [|done].
    injection H1 as <-. split_and!; done.
  - intros b0 Hb0. rewrite <-certificatePlanTargets_lookup. split.
    + intros (b & (b1 & Hb1 & H1)%list_elem_of_omap & Hname). rewrite <-Hname.
      destruct (certificatePlanTargets zones !! cb_Name b1) eqn:E; [|done].
      injection H1 as <-. rewrite cb_with_DeployTargets_name, E. eauto.
    + intros [l Hl]. exists (cb_with_DeployTargets l b0). split; [|done].
      apply list_elem_of_omap. exists b0. by rewrite Hl.
  - unfold CurrentCertificateBundles. induction bundles as [|b bundles IH]; simpl; [done|].
    destruct (certificatePlanTargets zones !! cb_Name b); simpl; by constructor.
Qed.
End plans.

(** ** Host names and runtimes *)

(** Whatever the subdomain, the host name domux builds for a zone with a
    plain domain lies within that domain, so the DNS and certificate code
    accepts it. *)
Theorem Hostname_within z subdomain :
  plain_domain (z_Domain z) →
  DomainWithinManagedDomain (z_Domain z) (Hostname z subdomain) = true.
Proof.
  intros Hz. unfold Hostname. case_split; beq.
  - by rewrite DomainWithinManagedDomain_plain, String.eqb_refl.
  - apply subdomain_within; [done|apply trimmed_TrimSpace|done].
Qed.

Section runtime_props.
Context `{GoRuntime} (env : Env).

Lemma normalizeEndpoint_trimmed e : trimmed (normalizeEndpoint e).
Proof.
  unfold normalizeEndpoint. repeat case_split; try apply trimmed_TrimSpace; [done|].
  destruct (HasPrefix_slash (TrimSpace e)) as [t Ht]; [done|].
  pose proof (trimmed_TrimSpace e) as Htr. rewrite Ht in Htr |- *.
  by apply (trimmed_app_solid "u" slash "nix://" t).
Qed.

Lemma normalizeEndpoint_idemp e : normalizeEndpoint (normalizeEndpoint e) = normalizeEndpoint e.
Proof.
  pose proof (normalizeEndpoint_trimmed e) as Ht. revert Ht.
  unfold normalizeEndpoint at 1 3 4.
  destruct (String.eqb (TrimSpace e) "") eqn:E1; [done|].
  destruct (HasPrefix (TrimSpace e) "unix://" || Contains (TrimSpace e) "://") eqn:E2.
  { intros Ht. unfold normalizeEndpoint. rewrite Ht, E1, E2. done. }
  destruct (HasPrefix (TrimSpace e) "/") eqn:E3.
  - intros Ht. unfold normalizeEndpoint. rewrite Ht, HasPrefix_app. simpl. done.
  - intros Ht. unfold normalizeEndpoint. by rewrite Ht, E1, E2, E3.
Qed.

Lemma RuntimeOrDefault_set s r :
  trimmed r → r ≠ "" → rs_Runtime s = r → RuntimeOrDefault env s = r.
Proof.
  intros Ht Hne Hs. unfold RuntimeOrDefault. rewrite Hs, Ht.
  by rewrite (proj2 (String.eqb_neq _ _) Hne).
Qed.

Lemma inferRuntimeFromPath_values v :
  inferRuntimeFromPath v = "" ∨ inferRuntimeFromPath v = ContainerRuntimePodman.
Proof. unfold inferRuntimeFromPath. repeat case_split; auto. Qed.

Lemma inferRuntimeFromEndpoint_values v :
  inferRuntimeFromEndpoint env v = "" ∨
  inferRuntimeFromEndpoint env v = ContainerRuntimePodman.
Proof.
  unfold inferRuntimeFromEndpoint. repeat case_split; apply inferRuntimeFromPath_values.
Qed.

(** The runtime is what the source says, or one of the two known ones. *)
Lemma RuntimeOrDefault_cases s :
  (RuntimeOrDefault env s = TrimSpace (rs_Runtime s) ∧ TrimSpace (rs_Runtime s) ≠ "") ∨
  RuntimeOrDefault env s = ContainerRuntimePodman ∨
  RuntimeOrDefault env s = ContainerRuntimeDocker.
Proof.
  unfold RuntimeOrDefault.
  destruct (String.eqb (TrimSpace (rs_Runtime s)) "") eqn:E; beq; simpl; [right|by left].
  repeat match goal with
  | |- context [inferRuntimeFromEndpoint env ?e] =>
      destruct (inferRuntimeFromEndpoint_values e) as [-> | ->]; simpl; auto
  | |- context [String.eqb ?a ""] => destruct (String.eqb a ""); simpl; auto
  end.
Qed.

Lemma RuntimeOrDefault_trimmed s :
  trimmed (RuntimeOrDefault env s) ∧ RuntimeOrDefault env s ≠ "".
Proof.
  destruct (RuntimeOrDefault_cases s) as [[-> Hne]|[-> | ->]]; try done.
  split; [apply trimmed_TrimSpace|done].
Qed.

Lemma first_endpoint_idemp l : normalizeEndpoint (first_endpoint l) = first_endpoint l.
Proof. induction l as [|c l IH]; simpl; [done|]. case_split; [|done]. apply normalizeEndpoint_idemp. Qed.

Lemma EndpointOrDefault_idemp s :
  normalizeEndpoint (EndpointOrDefault env s) = EndpointOrDefault env s.
Proof.
  unfold EndpointOrDefault. case_split; [apply normalizeEndpoint_idemp|].
  apply first_endpoint_idemp.
Qed.

(** Normalising a runtime source is idempotent in a fixed environment:
    the configuration that is loaded, written back and loaded again names
    the same runtime and endpoint. *)
Theorem Normalized_idempotent s : Normalized env (Normalized env s) = Normalized env s.
Proof.
  destruct (RuntimeOrDefault_trimmed s) as [Ht Hne].
  set (s1 := {| rs_DisplayName := rs_DisplayName s; rs_Runtime := RuntimeOrDefault env s;
                rs_Endpoint := rs_Endpoint s; rs_Network := rs_Network s |}).
  assert (RuntimeOrDefault env s1 = RuntimeOrDefault env s) as H1
    by (by apply RuntimeOrDefault_set).
  unfold Normalized at 1. fold (Normalized env s).
  assert (RuntimeOrDefault env (Normalized env s) = RuntimeOrDefault env s) as H2
    by (by apply RuntimeOrDefault_set).
  unfold Normalized. simpl. fold s1. rewrite !TrimSpace_idemp.
  rewrite (RuntimeOrDefault_set _ (RuntimeOrDefault env s)) by done. f_equal.
  set (s2 := {| rs_Endpoint := EndpointOrDefault env s1 |}).
  assert (RuntimeOrDefault env s2 = RuntimeOrDefault env s1) as H3.
  { rewrite H1. by apply RuntimeOrDefault_set. }
  unfold EndpointOrDefault at 1. rewrite H3. simpl.
  pose proof (EndpointOrDefault_idemp s1) as Hi.
  pose proof (normalizeEndpoint_trimmed (EndpointOrDefault env s1)) as Htr.
  rewrite Hi in Htr. rewrite Htr, Hi.
  destruct (String.eqb (EndpointOrDefault env s1) "") eqn:E; simpl; [|by rewrite Htr, Hi].
  apply String.eqb_eq in E. rewrite E. revert E. unfold EndpointOrDefault.
  destruct (String.eqb (normalizeEndpoint (TrimSpace (rs_Endpoint s1))) "") eqn:E1; simpl.
  - done.
  - intros E2. by apply String.eqb_neq in E1.
Qed.
(** The source of the default configuration is normalised. *)
Lemma default_source_normalized :
  let source := {| rs_DisplayName := ""; rs_Runtime := ContainerRuntimeDocker;
                   rs_Endpoint := DefaultRuntimeEndpoint env ContainerRuntimeDocker;
                   rs_Network := "" |} in
  Normalized env source = source.
Proof.
  intros source. set (d := DefaultRuntimeEndpoint env ContainerRuntimeDocker) in *.
  assert (normalizeEndpoint d = d) as Hd by apply first_endpoint_idemp.
  pose proof (normalizeEndpoint_trimmed d) as Ht. rewrite Hd in Ht.
  unfold Normalized. cbn [source rs_DisplayName rs_Runtime rs_Endpoint rs_Network].
  rewrite (RuntimeOrDefault_set source ContainerRuntimeDocker) by done.
  unfold EndpointOrDefault. cbn [rs_Endpoint]. rewrite Ht, Hd.
  destruct (String.eqb d "") eqn:E; [|done]. cbn [negb].
  rewrite (RuntimeOrDefault_set _ ContainerRuntimeDocker) by done. done.
Qed.
End runtime_props.

(** ** Examples *)

#[local] Existing Instance reference_runtime.

Definition example_zone : ManagedZone :=
  {| z_Name := "home"; z_Domain := "example.com"; z_Default := true; z_Wildcard := false;
     z_DDNS := zero_DDNSZoneConfig; z_Certificate := zero_CertificatePolicy |}.

Example Hostname_within_witness :
  DomainWithinManagedDomain "example.com" (Hostname example_zone " app.lan ") = true.
Proof.
  apply (Hostname_within example_zone " app.lan ").
  apply (bool_decide_unpack _). by vm_compute.
Defined.

Definition example_certificate_zone : ManagedZone :=
  z_with_Certificate
    {| cp_Enabled := true; cp_Email := "a@example.com"; cp_DNSProvider := "cf";
       cp_RenewBefore := 0%Z; cp_DeployTargets := ["edge"];
       cp_Bundles := [{| bp_Name := "api"; bp_Domains := ["api.example.com"];
                         bp_RenewBefore := 0%Z; bp_DeployTargets := [] |};
                      {| bp_Name := "web"; bp_Domains := []; bp_RenewBefore := hour;
                         bp_DeployTargets := [] |}] |} example_zone.

Example CertificatePlans_sound_witness :
  ∃ plans, CertificatePlans example_certificate_zone = Ok plans ∧ NoDup (map plan_Name plans).
Proof.
  eexists. split; [reflexivity|].
  apply (CertificatePlans_sound example_certificate_zone).
  - apply (bool_decide_unpack _). by vm_compute.
  - reflexivity.
  - reflexivity.
Defined.
