(* ===== verification/Registry.v ===== *)
(** The DNS providers ([src/internal/ddns/provider]): option validation, the
    registry of provider types, the four built-in providers' constructors,
    record names, and the errors that DDNS reports.

    A provider type is a name of the registry; its definition carries the
    factories and validators as functions.  The ACME DNS-01 clients come from
    the lego library, which is the interface [Lego]. *)

From S2P Require Import Prelude GoStrings GoRuntime Core.

Definition options := gmap string string.

(** [m[key]] on a Go map of strings: "" when the key is absent. *)
Definition get_option (cfg : options) (key : string) : string := default "" (cfg !! key).

(** The ACME challenge providers of the lego library, by provider type. *)
Class Lego := {
  challenge_Provider : Type;
  NewDNSProviderConfig : string → list string → result error challenge_Provider
}.

Definition RecordType := string.
Definition RecordTypeA : RecordType := "A".
Definition RecordTypeAAAA : RecordType := "AAAA".

Record DNSRecord := {
  rec_Domain : string;
  rec_Zone : string;
  rec_Name : string;
  rec_Type : RecordType;
  rec_Value : string;
  rec_TTL : Z
}.

(** ** Errors *)

Definition WrapZoneResolutionFailed (fqdn : string) (err : error) : error :=
  Ewrap ("dns zone resolution failed: " +:+ fqdn +:+ ": " +:+ error_text err)
        (Esentinel ErrDNSZoneResolutionFailed "dns zone resolution failed").

Definition WrapZoneAccessDenied (zone : string) (err : error) : error :=
  Ewrap ("dns zone access denied: " +:+ zone +:+ ": " +:+ error_text err)
        (Esentinel ErrDNSZoneAccessDenied "dns zone access denied").

Definition WrapTargetOutsideManagedDomain (managedDomain fqdn : string) : error :=
  Ewrap ("target outside managed domain: " +:+ fqdn +:+ " is outside " +:+ managedDomain)
        (Esentinel ErrTargetOutsideManagedDomain "target outside managed domain").

Definition IsAccessDenied `{GoRuntime} (err : option error) : bool :=
  match err with
  | None => false
  | Some err =>
      if errors_is ErrDNSZoneAccessDenied err then true
      else
        let message := ToLower (error_text err) in
        Contains message "access denied" || Contains message "permission denied" ||
        Contains message "forbidden" || Contains message "unauthorized"
  end.

(** ** Record names *)

Record RecordName := {
  rn_Domain : string;
  rn_Zone : string;
  rn_FQDN : string;
  rn_Relative : string
}.

Definition trimDot (value : string) : string := TrimSuffix value ".".

Definition ResolveRecordName `{GoRuntime} (zone fqdn : string) : result error RecordName :=
  let zone := trimDot (TrimSpace zone) in
  let fqdn := trimDot (TrimSpace fqdn) in
  if String.eqb zone "" then Err (Enew "zone is required")
  else if String.eqb fqdn "" then Err (Enew "record name is required")
  else if String.eqb fqdn zone then
    Ok {| rn_Domain := zone; rn_Zone := zone; rn_FQDN := fqdn; rn_Relative := "@" |}
  else
    let suffix := "." +:+ zone in
    if negb (HasSuffix fqdn suffix) then
      Err (Enew ("record " +:+ quote fqdn +:+ " does not belong to zone " +:+ quote zone))
    else
      let relative := TrimSuffix (TrimSuffix fqdn suffix) "." in
      let relative := if String.eqb relative "" then "@" else relative in
      Ok {| rn_Domain := zone; rn_Zone := zone; rn_FQDN := fqdn; rn_Relative := relative |}.

Definition AliDNSSubDomain (r : RecordName) : string :=
  if String.eqb (rn_Relative r) "@" then "@." +:+ rn_Zone r else rn_FQDN r.

(** ** Provider options *)
Section options.
Context `{GoRuntime}.

(** The loop over the map: the first offending entry in range order decides
    the error. *)
Fixpoint check_options (provider : string) (allowedSet : gset string)
    (entries : list (string * string)) : option error :=
  match entries with
  | [] => None
  | (key, value) :: entries' =>
      let trimmedKey := TrimSpace key in
      if String.eqb trimmedKey "" then
        Some (Enew (provider +:+ " has unsupported option " +:+ quote key))
      else if negb (bool_decide (trimmedKey ∈ allowedSet)) then
        Some (Enew (provider +:+ " has unsupported option " +:+ quote trimmedKey))
      else if String.eqb (TrimSpace value) "" then
        Some (Enew (provider +:+ " option " +:+ quote trimmedKey +:+ " is required"))
      else check_options provider allowedSet entries'
  end.

Definition validateProviderOptions (provider : string) (cfg : options)
    (required allowed : list string) : option error :=
  let allowedSet := list_to_set allowed in
  match check_options provider allowedSet (map_range cfg) with
  | Some e => Some e
  | None =>
      let missing := List.filter
        (λ key, String.eqb (TrimSpace (get_option cfg key)) "") required in
      match sort_by id missing with
      | [] => None
      | [key] => Some (Enew (provider +:+ " " +:+ key +:+ " is required"))
      | keys => Some (Enew (provider +:+ " " +:+ Join " and " keys +:+ " are required"))
      end
  end.
End options.

(** ** The built-in providers *)
Inductive Updater : Type :=
  | Cloudflare (apiToken apiBaseURL : string)
  | AliDNS (accessKeyID accessKeySecret endpoint : string)
  | GoDaddy (apiKey apiSecret apiBaseURL : string)
  | Spaceship (apiKey apiSecret apiBaseURL : string).

Definition Updater_Name (u : Updater) : string :=
  match u with
  | Cloudflare _ _ => "cloudflare"
  | AliDNS _ _ _ => "alidns"
  | GoDaddy _ _ _ => "godaddy"
  | Spaceship _ _ _ => "spaceship"
  end.

Definition defaultCloudflareAPIBaseURL : string := "https://api.cloudflare.com/client/v4".
Definition defaultAliDNSEndpoint : string := "https://alidns.aliyuncs.com/".
Definition defaultGoDaddyAPIBaseURL : string := "https://api.godaddy.com/v1".
Definition defaultSpaceshipAPIBaseURL : string := "https://spaceship.dev/api/v1".

Definition NewCloudflare (cfg : options) : result error Updater :=
  let token := TrimSpace (get_option cfg "api_token") in
  if String.eqb token "" then Err (Enew "cloudflare api_token is required")
  else
    let baseURL := TrimSpace (get_option cfg "api_base_url") in
    let baseURL := if String.eqb baseURL "" then defaultCloudflareAPIBaseURL else baseURL in
    Ok (Cloudflare token (TrimRightSet (is_char slash) baseURL)).

Definition NewAliDNS (cfg : options) : result error Updater :=
  let accessKeyID := TrimSpace (get_option cfg "access_key_id") in
  let accessKeySecret := TrimSpace (get_option cfg "access_key_secret") in
  if String.eqb accessKeyID "" || String.eqb accessKeySecret ""
  then Err (Enew "alidns access_key_id and access_key_secret are required")
  else
    let endpoint := TrimSpace (get_option cfg "endpoint") in
    let endpoint := if String.eqb endpoint "" then defaultAliDNSEndpoint else endpoint in
    Ok (AliDNS accessKeyID accessKeySecret endpoint).

Definition NewGoDaddy (cfg : options) : result error Updater :=
  let apiKey := TrimSpace (get_option cfg "api_key") in
  let apiSecret := TrimSpace (get_option cfg "api_secret") in
  if String.eqb apiKey "" || String.eqb apiSecret ""
  then Err (Enew "godaddy api_key and api_secret are required")
  else
    let apiBaseURL := TrimSpace (get_option cfg "api_base_url") in
    let apiBaseURL := if String.eqb apiBaseURL "" then defaultGoDaddyAPIBaseURL
                      else apiBaseURL in
    Ok (GoDaddy apiKey apiSecret (TrimRightSet (is_char slash) apiBaseURL)).

Definition NewSpaceship (cfg : options) : result error Updater :=
  let apiKey := TrimSpace (get_option cfg "api_key") in
  let apiSecret := TrimSpace (get_option cfg "api_secret") in
  if String.eqb apiKey "" || String.eqb apiSecret ""
  then Err (Enew "spaceship api_key and api_secret are required")
  else Ok (Spaceship apiKey apiSecret defaultSpaceshipAPIBaseURL).

Section validators.
Context `{GoRuntime}.

Definition validateCloudflareConfig (cfg : options) : option error :=
  validateProviderOptions "cloudflare" cfg ["api_token"] ["api_token"].
Definition validateAliDNSConfig (cfg : options) : option error :=
  validateProviderOptions "alidns" cfg
    ["access_key_id"; "access_key_secret"] ["access_key_id"; "access_key_secret"].
Definition validateGoDaddyConfig (cfg : options) : option error :=
  validateProviderOptions "godaddy" cfg ["api_key"; "api_secret"] ["api_key"; "api_secret"].
Definition validateSpaceshipConfig (cfg : options) : option error :=
  validateProviderOptions "spaceship" cfg ["api_key"; "api_secret"] ["api_key"; "api_secret"].

Definition validateCloudflareChallengeConfig (cfg : options) : option error :=
  validateProviderOptions "cloudflare" cfg ["api_token"] ["api_token"].
Definition validateAliDNSChallengeConfig (cfg : options) : option error :=
  validateProviderOptions "alidns" cfg
    ["access_key_id"; "access_key_secret"] ["access_key_id"; "access_key_secret"].
Definition validateGoDaddyChallengeConfig (cfg : options) : option error :=
  validateProviderOptions "godaddy" cfg ["api_key"; "api_secret"] ["api_key"; "api_secret"].
Definition validateSpaceshipChallengeConfig (cfg : options) : option error :=
  validateProviderOptions "spaceship" cfg ["api_key"; "api_secret"] ["api_key"; "api_secret"].

Context `{Lego}.

Definition NewCloudflareChallenge (cfg : options) : result error challenge_Provider :=
  match validateCloudflareChallengeConfig cfg with
  | Some e => Err e
  | None => NewDNSProviderConfig "cloudflare" [get_option cfg "api_token"]
  end.
Definition NewAliDNSChallenge (cfg : options) : result error challenge_Provider :=
  match validateAliDNSChallengeConfig cfg with
  | Some e => Err e
  | None => NewDNSProviderConfig "alidns"
              [get_option cfg "access_key_id"; get_option cfg "access_key_secret"]
  end.
Definition NewGoDaddyChallenge (cfg : options) : result error challenge_Provider :=
  match validateGoDaddyChallengeConfig cfg with
  | Some e => Err e
  | None => NewDNSProviderConfig "godaddy"
              [get_option cfg "api_key"; get_option cfg "api_secret"]
  end.
Definition NewSpaceshipChallenge (cfg : options) : result error challenge_Provider :=
  match validateSpaceshipChallengeConfig cfg with
  | Some e => Err e
  | None => NewDNSProviderConfig "spaceship"
              [get_option cfg "api_key"; get_option cfg "api_secret"]
  end.
End validators.

(** ** The registry *)
Section registry.
Context `{GoRuntime} `{Lego}.

Record ProviderDefinition := {
  UpdaterFactory : option (options → result error Updater);
  ChallengeFactory : option (options → result error challenge_Provider);
  ValidateUpdater : option (options → option error);
  ValidateChallenge : option (options → option error);
  SupportedRecordTypes : list RecordType
}.

(** [Registry.providers]; the lock only serialises its users. *)
Definition Registry := gmap string ProviderDefinition.

Record CatalogEntry := {
  cat_Name : string;
  cat_SupportedRecordTypes : list RecordType
}.

Definition NewRegistry : Registry := ∅.

Definition Register (r : Registry) (name : string) (definition : ProviderDefinition)
  : result error Registry :=
  match r !! name with
  | Some _ => Err (Enew ("provider " +:+ quote name +:+ " is already registered"))
  | None =>
      match UpdaterFactory definition with
      | None => Err (Enew ("provider " +:+ quote name +:+ " is missing updater capability"))
      | Some _ =>
          match ChallengeFactory definition with
          | None => Err (Enew ("provider " +:+ quote name
                               +:+ " is missing challenge capability"))
          | Some _ => Ok (<[name := definition]> r)
          end
      end
  end.

Definition Exists (r : Registry) (name : string) : bool :=
  match r !! name with Some _ => true | None => false end.

Definition SupportsRecordType (r : Registry) (name : string) (recordType : RecordType)
  : bool :=
  match r !! name with
  | None => false
  | Some definition =>
      match SupportedRecordTypes definition with
      | [] => true
      | types => existsb (λ supported, String.eqb supported recordType) types
      end
  end.

Definition Catalog (r : Registry) : list CatalogEntry :=
  sort_by cat_Name
    (map (λ e, {| cat_Name := e.1; cat_SupportedRecordTypes := SupportedRecordTypes e.2 |})
         (map_range r)).

Definition not_registered (name : string) : error :=
  Enew ("provider " +:+ quote name +:+ " is not registered").

(** A nil factory cannot be in a registry built by [Register]; calling one
    panics, which the model reports as the outer [None]. *)
Definition Registry_ValidateUpdater (r : Registry) (name : string) (cfg : options)
  : option (option error) :=
  match r !! name with
  | None => Some (Some (not_registered name))
  | Some d =>
      match ValidateUpdater d with
      | Some v => Some (v cfg)
      | None =>
          match UpdaterFactory d with
          | None => None
          | Some f => Some (match f cfg with Ok _ => None | Err e => Some e end)
          end
      end
  end.

Definition Registry_ValidateChallenge (r : Registry) (name : string) (cfg : options)
  : option (option error) :=
  match r !! name with
  | None => Some (Some (not_registered name))
  | Some d =>
      match ValidateChallenge d with
      | Some v => Some (v cfg)
      | None =>
          match ChallengeFactory d with
          | None => None
          | Some f => Some (match f cfg with Ok _ => None | Err e => Some e end)
          end
      end
  end.

Definition New (r : Registry) (name : string) (cfg : options)
  : option (result error Updater) :=
  match r !! name with
  | None => Some (Err (not_registered name))
  | Some d => match UpdaterFactory d with None => None | Some f => Some (f cfg) end
  end.

Definition NewChallenge (r : Registry) (name : string) (cfg : options)
  : option (result error challenge_Provider) :=
  match r !! name with
  | None => Some (Err (not_registered name))
  | Some d => match ChallengeFactory d with None => None | Some f => Some (f cfg) end
  end.

Definition RegisterBuiltins (r : Registry) : result error Registry :=
  let types := [RecordTypeA; RecordTypeAAAA] in
  let? r := Register r "cloudflare"
    {| UpdaterFactory := Some NewCloudflare; ChallengeFactory := Some NewCloudflareChallenge;
       ValidateUpdater := Some validateCloudflareConfig;
       ValidateChallenge := Some validateCloudflareChallengeConfig;
       SupportedRecordTypes := types |} in
  let? r := Register r "alidns"
    {| UpdaterFactory := Some NewAliDNS; ChallengeFactory := Some NewAliDNSChallenge;
       ValidateUpdater := Some validateAliDNSConfig;
       ValidateChallenge := Some validateAliDNSChallengeConfig;
       SupportedRecordTypes := types |} in
  let? r := Register r "godaddy"
    {| UpdaterFactory := Some NewGoDaddy; ChallengeFactory := Some NewGoDaddyChallenge;
       ValidateUpdater := Some validateGoDaddyConfig;
       ValidateChallenge := Some validateGoDaddyChallengeConfig;
       SupportedRecordTypes := types |} in
  Register r "spaceship"
    {| UpdaterFactory := Some NewSpaceship; ChallengeFactory := Some NewSpaceshipChallenge;
       ValidateUpdater := Some validateSpaceshipConfig;
       ValidateChallenge := Some validateSpaceshipChallengeConfig;
       SupportedRecordTypes := types |}.

Definition NewBuiltinRegistry : result error Registry := RegisterBuiltins NewRegistry.
End registry.

(** * Properties *)

(** ** Record names *)

Lemma trimDot_plain d : plain_domain d → trimDot d = d.
Proof. intros (_ & _ & Hs & _). by apply TrimSuffix_false. Qed.

(** Resolving the host name that domux builds for a zone gives the zone
    itself and exactly the subdomain it was built from ("@" for the zone's
    apex): the record that the providers write is the one that was asked
    for. *)
Theorem ResolveRecordName_Hostname `{GoRuntime} z sub :
  plain_domain (z_Domain z) → HasSuffix (TrimSpace sub) "." = false →
  ResolveRecordName (z_Domain z) (Hostname z sub) =
  Ok {| rn_Domain := z_Domain z; rn_Zone := z_Domain z; rn_FQDN := Hostname z sub;
        rn_Relative := if String.eqb (TrimSpace sub) "" then "@" else TrimSpace sub |}.
Proof.
  intros Hd Hs. pose proof Hd as (Ht & Hne & Hdot & _). unfold ResolveRecordName, Hostname.
  rewrite Ht, (trimDot_plain _ Hd), (proj2 (String.eqb_neq _ _) Hne).
  destruct (String.eqb (TrimSpace sub) "") eqn:E.
  { by rewrite Ht, (trimDot_plain _ Hd), (proj2 (String.eqb_neq _ _) Hne), String.eqb_refl. }
  set (s := TrimSpace sub) in *. beq.
  assert (trimmed (s +:+ "." +:+ z_Domain z)) as ->
    by (apply (trimmed_join_solid s (z_Domain z) dot);
        [done|apply trimmed_TrimSpace|done..]).
  unfold trimDot. rewrite TrimSuffix_false by (by rewrite <-app_assoc_str, HasSuffix_app_char).
  rewrite (proj2 (String.eqb_neq _ "")) by (by destruct s).
  rewrite (proj2 (String.eqb_neq _ (z_Domain z))).
  2:{ intros Heq. apply (f_equal String.length) in Heq. rewrite !length_app_str in Heq.
      simpl in Heq. lia. }
  rewrite HasSuffix_app, TrimSuffix_app, TrimSuffix_false by done. simpl.
  by rewrite (proj2 (String.eqb_neq s "")).
Qed.

Example ResolveRecordName_Hostname_witness :
  @ResolveRecordName reference_runtime "example.com" (Hostname example_zone " app.lan ") =
  Ok {| rn_Domain := "example.com"; rn_Zone := "example.com";
        rn_FQDN := "app.lan.example.com"; rn_Relative := "app.lan" |}.
Proof.
  apply (@ResolveRecordName_Hostname reference_runtime example_zone " app.lan ").
  - apply (bool_decide_unpack _). by vm_compute.
  - by vm_compute.
Defined.

(** The names that resolve, and what they resolve to. *)
Lemma ResolveRecordName_spec `{GoRuntime} zone fqdn :
  let z := trimDot (TrimSpace zone) in
  let f := trimDot (TrimSpace fqdn) in
  match ResolveRecordName zone fqdn with
  | Ok r => rn_Domain r = z ∧ rn_Zone r = z ∧ rn_FQDN r = f ∧ z ≠ "" ∧
      (f = z ∧ rn_Relative r = "@" ∨
       ∃ p, f = p +:+ "." +:+ z ∧
            rn_Relative r = if String.eqb (trimDot p) "" then "@" else trimDot p)
  | Err _ => z = "" ∨ f = "" ∨ (f ≠ z ∧ ∀ p, f ≠ p +:+ "." +:+ z)
  end.
Proof.
  simpl. unfold ResolveRecordName.
  set (z := trimDot (TrimSpace zone)). set (f := trimDot (TrimSpace fqdn)).
  destruct (String.eqb z "") eqn:Ez; [beq; by left|].
  destruct (String.eqb f "") eqn:Ef; [beq; by right; left|].
  destruct (String.eqb f z) eqn:Efz; beq; simpl; [by split_and!; auto|].
  destruct (HasSuffix f ("." +:+ z)) eqn:Es; simpl.
  - apply HasSuffix_spec in Es as [p Hp]. rewrite Hp, TrimSuffix_app. split_and!; try done.
    right. by exists p.
  - right; right. split; [done|]. intros p Hp. by rewrite Hp, HasSuffix_app in Es.
Qed.

(** ** Options *)

Definition options_ok (cfg : options) (required allowed : list string) : Prop :=
  (∀ k v, cfg !! k = Some v →
     TrimSpace k ≠ "" ∧ TrimSpace k ∈ allowed ∧ TrimSpace v ≠ "") ∧
  (∀ k, k ∈ required → TrimSpace (get_option cfg k) ≠ "").

Lemma check_options_None `{GoRuntime} provider allowedSet entries :
  check_options provider allowedSet entries = None ↔
  ∀ k v, (k, v) ∈ entries →
    TrimSpace k ≠ "" ∧ TrimSpace k ∈ allowedSet ∧ TrimSpace v ≠ "".
Proof.
  induction entries as [|[k v] entries IH]; simpl.
  - split; [|done]. intros _ k v Hin. by apply elem_of_nil in Hin.
  - destruct (String.eqb (TrimSpace k) "") eqn:E1; beq.
    { split; [done|]. intros Hall. by destruct (Hall k v) as [? _]; [constructor|]. }
    destruct (bool_decide (TrimSpace k ∈ allowedSet)) eqn:E2; beq; simpl.
    2:{ split; [done|]. intros Hall. by destruct (Hall k v) as (_ & ? & _); [constructor|]. }
    destruct (String.eqb (TrimSpace v) "") eqn:E3; beq.
    { split; [done|]. intros Hall. by destruct (Hall k v) as (_ & _ & ?); [constructor|]. }
    rewrite IH. split.
    + intros Hall k' v' Hin. apply elem_of_cons in Hin as [[= -> ->]|Hin]; [done|].
      by apply (Hall k' v').
    + intros Hall k' v' Hin. apply (Hall k' v'). by constructor.
Qed.

Lemma validateProviderOptions_None `{GoRuntime} provider cfg required allowed :
  validateProviderOptions provider cfg required allowed = None ↔
  options_ok cfg required allowed.
Proof.
  unfold validateProviderOptions, options_ok.
  assert (check_options provider (list_to_set allowed) (map_range cfg) = None ↔
    (∀ k v, cfg !! k = Some v →
     TrimSpace k ≠ "" ∧ TrimSpace k ∈ allowed ∧ TrimSpace v ≠ "")) as Hc.
  { rewrite check_options_None. setoid_rewrite elem_of_map_range.
    by setoid_rewrite elem_of_list_to_set. }
  destruct (check_options _ _ _) as [e|] eqn:E.
  { split; [done|]. intros [H1 _]. by apply Hc in H1. }
  apply proj1 in Hc. specialize (Hc eq_refl).
  match goal with |- context [sort_by id ?l] => set (missing := l) end.
  assert (sort_by id missing = [] ↔ missing = []) as Hm.
  { split; intros Hl.
    - pose proof (sort_by_perm id missing) as Hp. rewrite Hl in Hp.
      by apply Permutation_nil_l in Hp.
    - rewrite Hl. apply Permutation_nil_r, sort_by_perm. }
  assert (missing = [] ↔ ∀ k, k ∈ required → TrimSpace (get_option cfg k) ≠ "") as Hr.
  { subst missing. clear. induction required as [|k required IH]; simpl.
    - split; [|done]. intros _ k Hk. by apply elem_of_nil in Hk.
    - destruct (String.eqb (TrimSpace (get_option cfg k)) "") eqn:E; beq.
      + split; [done|]. intros Hall. by destruct (Hall k ltac:(constructor)).
      + rewrite IH. split; intros Hall k' Hk'; [|apply Hall; by constructor].
        apply elem_of_cons in Hk' as [->|Hk']; [done|by apply Hall]. }
  rewrite <-Hr, <-Hm. destruct (sort_by id missing) as [|? [|]]; naive_solver.
Qed.

(** ** The built-in registry *)
Section builtin.
Context `{GoRuntime} `{Lego}.

Definition builtin_types : list string := ["cloudflare"; "alidns"; "godaddy"; "spaceship"].

(** The options each type requires, which are also the only ones its
    validators allow. *)
Definition required_options (t : string) : list string :=
  if String.eqb t "cloudflare" then ["api_token"]
  else if String.eqb t "alidns" then ["access_key_id"; "access_key_secret"]
  else ["api_key"; "api_secret"].

Lemma NewBuiltinRegistry_Ok : ∃ r, NewBuiltinRegistry = Ok r.
Proof. eexists. reflexivity. Qed.

Definition builtin_registry : Registry :=
  match NewBuiltinRegistry with Ok r => r | Err _ => ∅ end.

Lemma NewBuiltinRegistry_eq : NewBuiltinRegistry = Ok builtin_registry.
Proof. unfold builtin_registry. by destruct NewBuiltinRegistry_Ok as [r ->]. Qed.

Lemma Register_Ok r n d r' : Register r n d = Ok r' → r' = <[n := d]> r.
Proof. unfold Register. repeat case_split; congruence. Qed.

Lemma builtin_lookup_ne t : t ∉ builtin_types → builtin_registry !! t = None.
Proof.
  intros Hn. unfold builtin_types in Hn.
  assert (t ≠ "cloudflare" ∧ t ≠ "alidns" ∧ t ≠ "godaddy" ∧ t ≠ "spaceship") as Hne
    by set_solver.
  destruct Hne as (N1 & N2 & N3 & N4).
  pose proof NewBuiltinRegistry_eq as E. unfold NewBuiltinRegistry, RegisterBuiltins in E.
  revert E. repeat case_split; try done. intros E.
  repeat match goal with H : Register _ _ _ = Ok _ |- _ => apply Register_Ok in H as -> end.
  unfold NewRegistry, Registry in *. by rewrite !lookup_insert_ne, lookup_empty by done.
Qed.

Lemma builtin_lookup t :
  t ∈ builtin_types →
  ∃ d fu fc, builtin_registry !! t = Some d ∧ UpdaterFactory d = Some fu ∧
    ChallengeFactory d = Some fc ∧
    ValidateUpdater d =
      Some (λ cfg, validateProviderOptions t cfg (required_options t) (required_options t)) ∧
    ValidateChallenge d =
      Some (λ cfg, validateProviderOptions t cfg (required_options t) (required_options t)) ∧
    SupportedRecordTypes d = [RecordTypeA; RecordTypeAAAA] ∧
    (∀ cfg, (∀ k, k ∈ required_options t → TrimSpace (get_option cfg k) ≠ "") →
       ∃ u, fu cfg = Ok u ∧ Updater_Name u = t).
Proof.
  unfold builtin_types. rewrite !elem_of_cons, elem_of_nil.
  intros [->|[->|[->|[->|[]]]]]; do 3 eexists; (split_and!; [reflexivity..|]);
    intros cfg Hreq; unfold NewCloudflare, NewAliDNS, NewGoDaddy, NewSpaceship.
  - rewrite (proj2 (String.eqb_neq _ _)) by (apply Hreq; set_solver). by eexists.
  - rewrite !(proj2 (String.eqb_neq _ _)) by (apply Hreq; set_solver). by eexists.
  - rewrite !(proj2 (String.eqb_neq _ _)) by (apply Hreq; set_solver). by eexists.
  - rewrite !(proj2 (String.eqb_neq _ _)) by (apply Hreq; set_solver). by eexists.
Qed.

Lemma builtin_Exists t : Exists builtin_registry t = true ↔ t ∈ builtin_types.
Proof.
  unfold Exists. destruct (decide (t ∈ builtin_types)) as [Hin|Hn].
  - destruct (builtin_lookup t Hin) as (d & _ & _ & -> & _). done.
  - by rewrite (builtin_lookup_ne t Hn).
Qed.

Lemma builtin_Supports t r :
  t ∈ builtin_types → r ∈ [RecordTypeA; RecordTypeAAAA] →
  SupportsRecordType builtin_registry t r = true.
Proof.
  intros Ht Hr. unfold SupportsRecordType.
  destruct (builtin_lookup t Ht) as (d & _ & _ & -> & _ & _ & _ & _ & -> & _).
  rewrite !elem_of_cons, elem_of_nil in Hr. by destruct Hr as [->|[->|[]]].
Qed.

(** C33. In the built-in registry the two validators of a registered type
    accept exactly the same options (every key known, every value
    non-blank, every required key set), whatever order the option map is
    walked in; and options that pass always construct an updater of that
    very type, so a validated provider never fails to be created. *)
Theorem builtin_validation_sound t cfg :
  t ∈ builtin_types →
  ∃ eu ec, Registry_ValidateUpdater builtin_registry t cfg = Some eu ∧
    Registry_ValidateChallenge builtin_registry t cfg = Some ec ∧
    (eu = None ↔ options_ok cfg (required_options t) (required_options t)) ∧
    (ec = None ↔ options_ok cfg (required_options t) (required_options t)) ∧
    (eu = None → ∃ u, New builtin_registry t cfg = Some (Ok u) ∧ Updater_Name u = t).
Proof.
  intros Ht.
  destruct (builtin_lookup t Ht) as (d & fu & fc & Hd & Hfu & Hfc & Hu & Hc & _ & Hnew).
  unfold Registry_ValidateUpdater, Registry_ValidateChallenge, New. rewrite Hd, Hu, Hc, Hfu.
  do 2 eexists. split_and!; [done..| | |].
  1,2: apply validateProviderOptions_None.
  intros [_ Hok]%validateProviderOptions_None.
  destruct (Hnew cfg Hok) as (u & -> & Hname). by exists u.
Qed.

Lemma builtin_validation_ok t cfg :
  t ∈ builtin_types → options_ok cfg (required_options t) (required_options t) →
  ∃ u, New builtin_registry t cfg = Some (Ok u).
Proof.
  intros Ht [_ Hok].
  destruct (builtin_lookup t Ht) as (d & fu & fc & Hd & Hfu & _ & _ & _ & _ & Hnew).
  unfold New. rewrite Hd, Hfu. destruct (Hnew cfg Hok) as (u & -> & _). by exists u.
Qed.

(** The decision of the validators, for the configuration. *)
Lemma builtin_Validate t cfg :
  t ∈ builtin_types →
  (Registry_ValidateUpdater builtin_registry t cfg = Some None ↔
   options_ok cfg (required_options t) (required_options t)) ∧
  (Registry_ValidateChallenge builtin_registry t cfg = Some None ↔
   options_ok cfg (required_options t) (required_options t)).
Proof.
  intros Ht.
  destruct (builtin_lookup t Ht) as (d & fu & fc & Hd & _ & _ & Hu & Hc & _).
  unfold Registry_ValidateUpdater, Registry_ValidateChallenge. rewrite Hd, Hu, Hc.
  rewrite <-(validateProviderOptions_None t). split; split; congruence.
Qed.

(** [Catalog] lists every registered type once, by name. *)
Lemma Catalog_spec r :
  map cat_Name (Catalog r) ≡ₚ map_keys r ∧ Sorted (le_by cat_Name) (Catalog r).
Proof.
  split; [|apply sort_by_sorted]. unfold Catalog. rewrite sort_by_perm.
  unfold map_keys. rewrite map_map. done.
Qed.
End builtin.

(** The lego client the examples use. *)
Definition reference_lego : Lego :=
  {| challenge_Provider := string; NewDNSProviderConfig t l := Ok t |}.

#[local] Existing Instance reference_runtime.
#[local] Existing Instance reference_lego.

Example builtin_validation_sound_witness :
  ∃ eu ec,
    Registry_ValidateUpdater builtin_registry "godaddy"
      {[ "api_key" := "k"; "api_secret" := "s" ]} = Some eu ∧
    Registry_ValidateChallenge builtin_registry "godaddy"
      {[ "api_key" := "k"; "api_secret" := "s" ]} = Some ec ∧ eu = None ∧ ec = None.
Proof.
  destruct (builtin_validation_sound "godaddy"
    {[ "api_key" := "k"; "api_secret" := "s" ]}) as (eu & ec & H1 & H2 & _).
  - apply (bool_decide_unpack _). by vm_compute.
  - exists eu, ec. split_and!; [done..| |].
    + vm_compute in H1. congruence.
    + vm_compute in H2. congruence.
Defined.
