(* ===== verification/Config.v ===== *)
(** The configuration ([src/internal/platform/config]): its YAML shape and
    legacy form, its validation, and the manager that loads and rewrites the
    file.

    The YAML text itself is the library's business ([YAML]); the translation
    between the file's records and [Config] is the program's. *)

From S2P Require Import Prelude GoStrings GoRuntime Core Registry.

Definition DefaultPath : string := "config.yaml".

Record AuthConfig := { auth_Username : string; auth_Password : string }.

Record PublicIPConfig := {
  pip_IPv4URLs : list string;
  pip_IPv6URLs : list string;
  pip_Timeout : Duration
}.

Record ServerConfig := {
  sv_APIAddr : string;
  sv_HTTPAddr : string;
  sv_HTTPSAddr : string;
  sv_Auth : AuthConfig;
  sv_DataDir : string;
  sv_PublicIP : PublicIPConfig;
  sv_Runtime : RuntimeSource
}.

Record Config := {
  c_Server : ServerConfig;
  c_DataDir : string;
  c_PublicIP : PublicIPConfig;
  c_DDNSProviders : list DDNSProviderConfig;
  c_Apps : list CustomApp;
  c_Agents : list AgentNode;
  c_DeployTargets : list DeployTarget;
  c_Zones : list ManagedZone
}.

Record manualEntryConfigYAML := {
  me_Name : string;
  me_Icon : string;
  me_Subdomain : string;
  me_ExitNode : string;
  me_TargetURL : string
}.

Record domainConfigYAML := {
  dy_Domain : string;
  dy_Name : string;
  dy_Default : bool;
  dy_Wildcard : bool;
  dy_DDNS : DDNSZoneConfig;
  dy_Certificate : CertificatePolicy;
  dy_Manual : list manualEntryConfigYAML
}.

Record configYAML := {
  cy_Server : ServerConfig;
  cy_DataDir : string;
  cy_PublicIP : PublicIPConfig;
  cy_DDNSProviders : list DDNSProviderConfig;
  cy_Apps : list CustomApp;
  cy_Agents : list AgentNode;
  cy_DeployTargets : list DeployTarget;
  cy_Zones : list ManagedZone;
  cy_Domains : list domainConfigYAML
}.

#[export] Instance AuthConfig_eq_dec : EqDecision AuthConfig.
Proof. solve_decision. Defined.
#[export] Instance PublicIPConfig_eq_dec : EqDecision PublicIPConfig.
Proof. solve_decision. Defined.
#[export] Instance ServerConfig_eq_dec : EqDecision ServerConfig.
Proof. solve_decision. Defined.
#[export] Instance manualEntryConfigYAML_eq_dec : EqDecision manualEntryConfigYAML.
Proof. solve_decision. Defined.
#[export] Instance domainConfigYAML_eq_dec : EqDecision domainConfigYAML.
Proof. solve_decision. Defined.
#[export] Instance configYAML_eq_dec : EqDecision configYAML.
Proof. solve_decision. Defined.

Definition zero_PublicIPConfig : PublicIPConfig :=
  {| pip_IPv4URLs := []; pip_IPv6URLs := []; pip_Timeout := 0%Z |}.
Definition zero_AuthConfig : AuthConfig := {| auth_Username := ""; auth_Password := "" |}.

(** ** Field updates *)

Definition sv_with_DataDir (d : string) (s : ServerConfig) : ServerConfig :=
  {| sv_APIAddr := sv_APIAddr s; sv_HTTPAddr := sv_HTTPAddr s; sv_HTTPSAddr := sv_HTTPSAddr s;
     sv_Auth := sv_Auth s; sv_DataDir := d; sv_PublicIP := sv_PublicIP s;
     sv_Runtime := sv_Runtime s |}.
Definition sv_with_PublicIP (p : PublicIPConfig) (s : ServerConfig) : ServerConfig :=
  {| sv_APIAddr := sv_APIAddr s; sv_HTTPAddr := sv_HTTPAddr s; sv_HTTPSAddr := sv_HTTPSAddr s;
     sv_Auth := sv_Auth s; sv_DataDir := sv_DataDir s; sv_PublicIP := p;
     sv_Runtime := sv_Runtime s |}.
Definition sv_with_Runtime (r : RuntimeSource) (s : ServerConfig) : ServerConfig :=
  {| sv_APIAddr := sv_APIAddr s; sv_HTTPAddr := sv_HTTPAddr s; sv_HTTPSAddr := sv_HTTPSAddr s;
     sv_Auth := sv_Auth s; sv_DataDir := sv_DataDir s; sv_PublicIP := sv_PublicIP s;
     sv_Runtime := r |}.
Definition c_with_Server (s : ServerConfig) (c : Config) : Config :=
  {| c_Server := s; c_DataDir := c_DataDir c; c_PublicIP := c_PublicIP c;
     c_DDNSProviders := c_DDNSProviders c; c_Apps := c_Apps c; c_Agents := c_Agents c;
     c_DeployTargets := c_DeployTargets c; c_Zones := c_Zones c |}.
Definition c_with_DDNSProviders (l : list DDNSProviderConfig) (c : Config) : Config :=
  {| c_Server := c_Server c; c_DataDir := c_DataDir c; c_PublicIP := c_PublicIP c;
     c_DDNSProviders := l; c_Apps := c_Apps c; c_Agents := c_Agents c;
     c_DeployTargets := c_DeployTargets c; c_Zones := c_Zones c |}.
Definition c_with_Apps (l : list CustomApp) (c : Config) : Config :=
  {| c_Server := c_Server c; c_DataDir := c_DataDir c; c_PublicIP := c_PublicIP c;
     c_DDNSProviders := c_DDNSProviders c; c_Apps := l; c_Agents := c_Agents c;
     c_DeployTargets := c_DeployTargets c; c_Zones := c_Zones c |}.
Definition c_with_Agents (l : list AgentNode) (c : Config) : Config :=
  {| c_Server := c_Server c; c_DataDir := c_DataDir c; c_PublicIP := c_PublicIP c;
     c_DDNSProviders := c_DDNSProviders c; c_Apps := c_Apps c; c_Agents := l;
     c_DeployTargets := c_DeployTargets c; c_Zones := c_Zones c |}.
Definition c_with_DeployTargets (l : list DeployTarget) (c : Config) : Config :=
  {| c_Server := c_Server c; c_DataDir := c_DataDir c; c_PublicIP := c_PublicIP c;
     c_DDNSProviders := c_DDNSProviders c; c_Apps := c_Apps c; c_Agents := c_Agents c;
     c_DeployTargets := l; c_Zones := c_Zones c |}.
Definition c_with_Zones (l : list ManagedZone) (c : Config) : Config :=
  {| c_Server := c_Server c; c_DataDir := c_DataDir c; c_PublicIP := c_PublicIP c;
     c_DDNSProviders := c_DDNSProviders c; c_Apps := c_Apps c; c_Agents := c_Agents c;
     c_DeployTargets := c_DeployTargets c; c_Zones := l |}.

(** ** From and to the file's records *)
Section yaml_shape.
Context `{GoRuntime} (env : Env).

Definition Default : Config :=
  {| c_Server :=
       {| sv_APIAddr := ":18080"; sv_HTTPAddr := ":8080"; sv_HTTPSAddr := ":8443";
          sv_Auth := zero_AuthConfig; sv_DataDir := "./data";
          sv_PublicIP := zero_PublicIPConfig;
          sv_Runtime :=
            {| rs_DisplayName := ""; rs_Runtime := ContainerRuntimeDocker;
               rs_Endpoint := DefaultRuntimeEndpoint env ContainerRuntimeDocker;
               rs_Network := "" |} |};
     c_DataDir := ""; c_PublicIP := zero_PublicIPConfig; c_DDNSProviders := [];
     c_Apps := []; c_Agents := []; c_DeployTargets := []; c_Zones := [] |}.

Definition zone_of_domain (domain : domainConfigYAML) : ManagedZone :=
  let domainName := TrimSpace (dy_Domain domain) in
  let name := TrimSpace (dy_Name domain) in
  let name := if String.eqb name "" then domainName else name in
  {| z_Name := name; z_Domain := domainName; z_Default := dy_Default domain;
     z_Wildcard := dy_Wildcard domain; z_DDNS := dy_DDNS domain;
     z_Certificate := dy_Certificate domain |}.

Definition app_of_entry (domainName : string) (entry : manualEntryConfigYAML) : CustomApp :=
  let name := TrimSpace (me_Name entry) in
  let name := if String.eqb name "" then TrimSpace (me_Subdomain entry) else name in
  {| app_Name := name; app_Icon := TrimSpace (me_Icon entry); app_Domain := domainName;
     app_Zone := domainName; app_Subdomain := TrimSpace (me_Subdomain entry);
     app_ExitNode := TrimSpace (me_ExitNode entry);
     app_TargetURL := TrimSpace (me_TargetURL entry) |}.

Definition apps_of_domain (domain : domainConfigYAML) : list CustomApp :=
  map (app_of_entry (TrimSpace (dy_Domain domain))) (dy_Manual domain).

(** The first loop of [normalizeLegacyModel]: names and domains, and the map
    from both to the domain. *)
Definition legacy_zone (zone : ManagedZone) : option (string * string * ManagedZone) :=
  let legacyName := TrimSpace (z_Name zone) in
  let domain := TrimSpace (z_Domain zone) in
  let domain := if String.eqb domain "" then legacyName else domain in
  if String.eqb domain "" then None
  else
    let name := if String.eqb legacyName "" then domain else legacyName in
    Some (legacyName, domain,
          {| z_Name := name; z_Domain := domain; z_Default := z_Default zone;
             z_Wildcard := z_Wildcard zone; z_DDNS := z_DDNS zone;
             z_Certificate := z_Certificate zone |}).

Fixpoint legacy_zones (legacyToDomain : gmap string string) (zones : list ManagedZone)
  : gmap string string * list ManagedZone :=
  match zones with
  | [] => (legacyToDomain, [])
  | zone :: zones' =>
      let '(m, zone) :=
        match legacy_zone zone with
        | None => (legacyToDomain, zone)
        | Some (legacyName, domain, zone) =>
            (<[domain := domain]>
               (if String.eqb legacyName "" then legacyToDomain
                else <[legacyName := domain]> legacyToDomain), zone)
        end in
      let '(m, zones') := legacy_zones m zones' in
      (m, zone :: zones')
  end.

Definition legacy_app (legacyToDomain : gmap string string) (app : CustomApp) : CustomApp :=
  let zone := TrimSpace (app_Zone app) in
  let domain := TrimSpace (app_Domain app) in
  let lookup := if String.eqb domain "" then zone else domain in
  let '(zone, domain) :=
    match legacyToDomain !! lookup with Some d => (d, d) | None => (zone, domain) end in
  {| app_Name := app_Name app; app_Icon := app_Icon app; app_Domain := domain;
     app_Zone := zone; app_Subdomain := app_Subdomain app;
     app_ExitNode := app_ExitNode app; app_TargetURL := app_TargetURL app |}.

Definition normalizeLegacyModel (c : Config) : Config :=
  let '(legacyToDomain, zones) := legacy_zones ∅ (c_Zones c) in
  c_with_Apps (map (legacy_app legacyToDomain) (c_Apps c)) (c_with_Zones zones c).

Definition public_ip_unset (p : PublicIPConfig) : bool :=
  match pip_IPv4URLs p, pip_IPv6URLs p with
  | [], [] => (pip_Timeout p =? 0)%Z
  | _, _ => false
  end.

(** Every field of the receiver is overwritten. *)
Definition UnmarshalYAML (raw : configYAML) : Config :=
  let server := cy_Server raw in
  let server := if String.eqb (TrimSpace (sv_DataDir server)) ""
                then sv_with_DataDir (cy_DataDir raw) server else server in
  let server := if public_ip_unset (sv_PublicIP server)
                then sv_with_PublicIP (cy_PublicIP raw) server else server in
  let server := sv_with_Runtime (Normalized env (sv_Runtime server)) server in
  let c zones apps :=
    {| c_Server := server; c_DataDir := sv_DataDir server; c_PublicIP := sv_PublicIP server;
       c_DDNSProviders := cy_DDNSProviders raw; c_Apps := apps; c_Agents := cy_Agents raw;
       c_DeployTargets := cy_DeployTargets raw; c_Zones := zones |} in
  match cy_Domains raw with
  | [] => normalizeLegacyModel (c (cy_Zones raw) (cy_Apps raw))
  | domains => c (map zone_of_domain domains) (concat (map apps_of_domain domains))
  end.

Definition app_key (app : CustomApp) : string :=
  let key := TrimSpace (app_Domain app) in
  if String.eqb key "" then TrimSpace (app_Zone app) else key.

Definition entry_of_app (app : CustomApp) : manualEntryConfigYAML :=
  {| me_Name := TrimSpace (app_Name app); me_Icon := TrimSpace (app_Icon app);
     me_Subdomain := TrimSpace (app_Subdomain app);
     me_ExitNode := TrimSpace (app_ExitNode app);
     me_TargetURL := TrimSpace (app_TargetURL app) |}.

Definition appsByDomain (apps : list CustomApp) : gmap string (list CustomApp) :=
  foldl (λ m app, <[app_key app := default [] (m !! app_key app) ++ [app]]> m) ∅ apps.

Definition domain_of_zone (byDomain : gmap string (list CustomApp)) (zone : ManagedZone)
  : domainConfigYAML :=
  let zoneName := TrimSpace (z_Name zone) in
  let domainName := TrimSpace (z_Domain zone) in
  let domainName := if String.eqb domainName "" then zoneName else domainName in
  {| dy_Domain := domainName; dy_Name := zoneName; dy_Default := z_Default zone;
     dy_Wildcard := z_Wildcard zone; dy_DDNS := z_DDNS zone;
     dy_Certificate := z_Certificate zone;
     dy_Manual := map entry_of_app (default [] (byDomain !! domainName)) |}.

Definition MarshalYAML (c : Config) : configYAML :=
  {| cy_Server := c_Server c; cy_DataDir := ""; cy_PublicIP := zero_PublicIPConfig;
     cy_DDNSProviders := c_DDNSProviders c; cy_Apps := []; cy_Agents := c_Agents c;
     cy_DeployTargets := c_DeployTargets c; cy_Zones := [];
     cy_Domains := map (domain_of_zone (appsByDomain (c_Apps c))) (c_Zones c) |}.
End yaml_shape.

(** ** Validation *)
Section validation.
Context `{GoRuntime} `{NetURL} `{Lego} (env : Env).

Definition AuthConfig_Enabled (c : AuthConfig) : bool :=
  negb (String.eqb (auth_Username c) "") || negb (String.eqb (auth_Password c) "").

Definition AuthConfig_Validate (c : AuthConfig) : option error :=
  if String.eqb (auth_Username c) "" && String.eqb (auth_Password c) "" then None
  else if String.eqb (auth_Username c) "" || String.eqb (auth_Password c) ""
  then Some (Enew "server.auth.username and server.auth.password must both be set")
  else None.

Definition PublicIPConfig_Validate (c : PublicIPConfig) : option error :=
  if (pip_Timeout c <? 0)%Z then Some (Enew "server.public_ip.timeout must not be negative")
  else if existsb (λ entry, String.eqb (TrimSpace entry) "")
                  (pip_IPv4URLs c ++ pip_IPv6URLs c)
  then Some (Enew "server.public_ip urls must not be empty")
  else None.

Definition providerRefs (providers : list DDNSProviderConfig)
  : gmap string DDNSProviderConfig := keyed_from prov_Ref ∅ providers.

(** The loops over providers, agents and deploy targets: validate, then
    refuse a second entry of the same name. *)
Fixpoint check_entries {A} (validate : A → option error) (key : A → string)
    (duplicate : A → error) (seen : gset string) (entries : list A)
  : list error * gset string :=
  match entries with
  | [] => ([], seen)
  | x :: entries' =>
      match validate x with
      | Some e =>
          let '(errs, seen) := check_entries validate key duplicate seen entries' in
          (e :: errs, seen)
      | None =>
          if bool_decide (key x ∈ seen) then
            let '(errs, seen) := check_entries validate key duplicate seen entries' in
            (duplicate x :: errs, seen)
          else check_entries validate key duplicate ({[key x]} ∪ seen) entries'
      end
  end.

Definition check_provider (registry : Registry) (p : DDNSProviderConfig) : option error :=
  match DDNSProviderConfig_Validate p with
  | Some e => Some e
  | None =>
      if negb (Exists registry (prov_Type p)) then
        Some (Enew ("dns provider " +:+ quote (prov_Ref p) +:+ " uses unsupported type "
                    +:+ quote (prov_Type p)))
      else None
  end.

Definition check_target_agents (seenAgents : gset string) (targets : list DeployTarget)
  : list error :=
  omap (λ t,
    if String.eqb (dt_Transport t) DeployTransportAgent
       && negb (bool_decide (adb_Node (dt_Agent t) ∈ seenAgents))
    then Some (Enew ("deploy target " +:+ quote (dt_Name t) +:+ " references unknown agent "
                     +:+ quote (adb_Node (dt_Agent t))))
    else None) targets.

(** One provider reference of a zone ([usedProviders] is only written, so
    it is left out). *)
Definition check_zone_ref (registry : Registry)
    (providersByRef : gmap string DDNSProviderConfig) (zone : ManagedZone) (ref : string)
  : list error :=
  let err (m : string) := Enew ("domain " +:+ quote (z_Domain zone) +:+ m) in
  match providersByRef !! ref with
  | None => [err (" references unknown dns provider " +:+ quote ref)]
  | Some p =>
      if negb (Exists registry (prov_Type p)) then
        [err (" dns provider " +:+ quote ref +:+ " uses unsupported type "
              +:+ quote (prov_Type p))]
      else
        (if ddns_IPv4 (z_DDNS zone) &&
            negb (SupportsRecordType registry (prov_Type p) RecordTypeA)
         then [err (" dns provider " +:+ quote ref +:+ " does not support IPv4 updates")]
         else []) ++
        (if ddns_IPv6 (z_DDNS zone) &&
            negb (SupportsRecordType registry (prov_Type p) RecordTypeAAAA)
         then [err (" dns provider " +:+ quote ref +:+ " does not support IPv6 updates")]
         else [])
  end.

Definition check_zone_certificate (registry : Registry)
    (providersByRef : gmap string DDNSProviderConfig) (seenTargets : gset string)
    (zone : ManagedZone) : list error :=
  let ref := cp_DNSProvider (z_Certificate zone) in
  let err (m : string) := Enew ("domain " +:+ quote (z_Domain zone) +:+ m) in
  if negb (cp_Enabled (z_Certificate zone)) then []
  else match CertificatePlans zone with
       | Err e => [e]
       | Ok plans =>
           match providersByRef !! ref with
           | None => [err (" references unknown dns provider " +:+ quote ref
                           +:+ " for certificate")]
           | Some p =>
               if negb (Exists registry (prov_Type p)) then
                 [err (" certificate dns provider " +:+ quote ref +:+ " uses unsupported type "
                       +:+ quote (prov_Type p))]
               else []
           end ++
           concat (map (λ plan,
             omap (λ targetName,
               if bool_decide (targetName ∈ seenTargets) then None
               else Some (err (" certificate bundle " +:+ quote (plan_Name plan) +:+
                 " references unknown deploy target " +:+ quote targetName)))
               (plan_DeployTargets plan)) plans)
       end.

Record zone_state := {
  zs_seenDomains : gset string;
  zs_zonesByDomain : gmap string ManagedZone;
  zs_defaultZones : nat
}.

(** The loop [for i := range c.Zones]: [zone.Validate] works on the slice's
    element, so the zones come back as it leaves them. *)
Fixpoint check_zones (registry : Registry)
    (providersByRef : gmap string DDNSProviderConfig) (seenTargets : gset string)
    (st : zone_state) (zones : list ManagedZone)
  : list ManagedZone * list error * zone_state :=
  match zones with
  | [] => ([], [], st)
  | zone :: zones' =>
      let '(zone, err) := ManagedZone_Validate zone in
      let '(errs, st) :=
        match err with
        | Some e => ([e], st)
        | None =>
            if bool_decide (z_Domain zone ∈ zs_seenDomains st) then
              ([Enew ("duplicate domain " +:+ quote (z_Domain zone))], st)
            else
              (concat (map (check_zone_ref registry providersByRef zone)
                           (ddns_ProviderRefs (z_DDNS zone))) ++
               check_zone_certificate registry providersByRef seenTargets zone,
               {| zs_seenDomains := {[z_Domain zone]} ∪ zs_seenDomains st;
                  zs_zonesByDomain := <[z_Domain zone := zone]> (zs_zonesByDomain st);
                  zs_defaultZones := if z_Default zone then S (zs_defaultZones st)
                                     else zs_defaultZones st |})
        end in
      let '(zones', errs', st) := check_zones registry providersByRef seenTargets st zones' in
      (zone :: zones', errs ++ errs', st)
  end.

Fixpoint check_apps (zonesByDomain : gmap string ManagedZone) (seenAgents : gset string)
    (seenApps seenAppHosts : gset string) (apps : list CustomApp) : list error :=
  match apps with
  | [] => []
  | app :: apps' =>
      let err (m : string) := Enew ("custom app " +:+ quote (app_Name app) +:+ m) in
      match CustomApp_Validate app with
      | Some e => e :: check_apps zonesByDomain seenAgents seenApps seenAppHosts apps'
      | None =>
          if bool_decide (app_Name app ∈ seenApps) then
            Enew ("duplicate custom app " +:+ quote (app_Name app))
              :: check_apps zonesByDomain seenAgents seenApps seenAppHosts apps'
          else
            let seenApps := {[app_Name app]} ∪ seenApps in
            let lookup := app_key app in
            match zonesByDomain !! lookup with
            | None =>
                err (" references unknown domain " +:+ quote lookup)
                  :: check_apps zonesByDomain seenAgents seenApps seenAppHosts apps'
            | Some zone =>
                if negb (String.eqb (TrimSpace (app_ExitNode app)) "") &&
                   negb (bool_decide (app_ExitNode app ∈ seenAgents)) then
                  err (" references unknown exit node " +:+ quote (app_ExitNode app))
                    :: check_apps zonesByDomain seenAgents seenApps seenAppHosts apps'
                else
                  let host := CustomApp_Host app zone in
                  if bool_decide (host ∈ seenAppHosts) then
                    Enew ("duplicate custom app host " +:+ quote host)
                      :: check_apps zonesByDomain seenAgents seenApps seenAppHosts apps'
                  else check_apps zonesByDomain seenAgents seenApps
                         ({[host]} ∪ seenAppHosts) apps'
            end
      end
  end.

Definition check_options_of (registry : Registry) (p : DDNSProviderConfig) : list error :=
  if negb (Exists registry (prov_Type p)) then []
  else
    let report (what : string) (r : option (option error)) :=
      match r with
      | Some (Some e) =>
          [Ewrap ("dns provider " +:+ quote (prov_Ref p) +:+ " " +:+ what +:+ ": "
                  +:+ error_text e) e]
      | _ => []
      end in
    report "updater" (Registry_ValidateUpdater registry (prov_Type p) (prov_Options p)) ++
    report "challenge" (Registry_ValidateChallenge registry (prov_Type p) (prov_Options p)).

Definition opt_list {A} (o : option A) : list A :=
  match o with Some x => [x] | None => [] end.

(** The two fallbacks that [Validate] applies to its copy of the server
    settings. *)
Definition effective_server (c : Config) : ServerConfig :=
  let s := c_Server c in
  let s := if String.eqb (TrimSpace (sv_DataDir s)) ""
              && negb (String.eqb (TrimSpace (c_DataDir c)) "")
           then sv_with_DataDir (c_DataDir c) s else s in
  if public_ip_unset (sv_PublicIP s) then sv_with_PublicIP (c_PublicIP c) s else s.

Definition Config_Validate (c : Config) : Config * option error :=
  let server := effective_server c in
  match NewBuiltinRegistry with
  | Err e => (c, Some e)
  | Ok registry =>
      let server_errs :=
        (if String.eqb (sv_APIAddr server) "" then [Enew "server.api_addr is required"]
         else []) ++
        opt_list (AuthConfig_Validate (sv_Auth server)) ++
        (if String.eqb (sv_DataDir server) "" then [Enew "server.data_dir is required"]
         else []) ++
        opt_list (PublicIPConfig_Validate (sv_PublicIP server)) in
      let '(provider_errs, _) :=
        check_entries (check_provider registry) prov_Ref
          (λ p, Enew ("duplicate dns provider " +:+ quote (prov_Ref p))) ∅
          (c_DDNSProviders c) in
      let providersByRef := providerRefs (c_DDNSProviders c) in
      let runtime_errs := opt_list (RuntimeSource_Validate env (sv_Runtime server)) in
      let '(agent_errs, seenAgents) :=
        check_entries AgentNode_Validate an_Name
          (λ a, Enew ("duplicate agent " +:+ quote (an_Name a))) ∅ (c_Agents c) in
      let '(target_errs, seenTargets) :=
        check_entries DeployTarget_Validate dt_Name
          (λ t, Enew ("duplicate deploy target " +:+ quote (dt_Name t))) ∅
          (c_DeployTargets c) in
      let target_agent_errs := check_target_agents seenAgents (c_DeployTargets c) in
      let '(zones, zone_errs, st) :=
        check_zones registry providersByRef seenTargets
          {| zs_seenDomains := ∅; zs_zonesByDomain := ∅; zs_defaultZones := 0 |}
          (c_Zones c) in
      let default_errs :=
        if Nat.ltb 1 (zs_defaultZones st)
        then [Enew "only one zone can be marked as default"] else [] in
      let app_errs := check_apps (zs_zonesByDomain st) seenAgents ∅ ∅ (c_Apps c) in
      let option_errs := concat (map (check_options_of registry) (c_DDNSProviders c)) in
      (c_with_Zones zones c,
       join_errs (server_errs ++ provider_errs ++ runtime_errs ++ agent_errs ++ target_errs
                  ++ target_agent_errs ++ zone_errs ++ default_errs ++ app_errs
                  ++ option_errs))
  end.

Definition AbsDataDir (c : Config) (base : string) : string :=
  let dataDir := if String.eqb (TrimSpace (sv_DataDir (c_Server c))) ""
                    && negb (String.eqb (TrimSpace (c_DataDir c)) "")
                 then c_DataDir c else sv_DataDir (c_Server c) in
  if IsAbs dataDir then dataDir else PathJoin [base; dataDir].
End validation.

(** ** The file and its manager

    The text of the file is a [string]; [yaml.Unmarshal] finds no document in
    an empty file ([None]) and then leaves its target alone. *)
Class YAML := {
  yaml_Unmarshal : string → result error (option configYAML);
  yaml_Marshal : configYAML → result error string
}.

(** What the [yaml:"-"] tags of [AgentNode] drop when a record is written. *)
Definition persisted_agent (a : AgentNode) : AgentNode :=
  {| an_Name := an_Name a; an_DisplayName := an_DisplayName a; an_Addr := an_Addr a;
     an_Runtime := an_Runtime a; an_SocketPath := an_SocketPath a; an_Version := "";
     an_Status := ""; an_LastError := ""; an_LastCheckedAt := 0%Z;
     an_Resources := zero_SystemResources |}.
Definition persisted (raw : configYAML) : configYAML :=
  {| cy_Server := cy_Server raw; cy_DataDir := cy_DataDir raw; cy_PublicIP := cy_PublicIP raw;
     cy_DDNSProviders := cy_DDNSProviders raw; cy_Apps := cy_Apps raw;
     cy_Agents := map persisted_agent (cy_Agents raw);
     cy_DeployTargets := cy_DeployTargets raw; cy_Zones := cy_Zones raw;
     cy_Domains := cy_Domains raw |}.

(** The files the manager reads and writes, and how the system calls of one
    operation come out: a failed [os.WriteFile] may leave part of the data. *)
Definition Files := gmap string string.
Record FileCalls := {
  fc_read : option error;
  fc_mkdir : option error;
  fc_write : option (error * option string);
  fc_rename : option error
}.
Definition calls_ok : FileCalls :=
  {| fc_read := None; fc_mkdir := None; fc_write := None; fc_rename := None |}.

Section manager.
Context `{GoRuntime} `{NetURL} `{Lego} `{YAML} (env : Env).

Definition ReadFile (calls : FileCalls) (fs : Files) (path : string)
  : result error string :=
  match fc_read calls with
  | Some e => Err e
  | None => match fs !! path with
            | Some data => Ok data
            | None => Err (Esentinel ErrNotExist
                             ("open " +:+ path +:+ ": no such file or directory"))
            end
  end.

(** [return cfg, cfg.Validate()]: the zones of the returned value share
    their array with the validated copy. *)
Definition validated (cfg : Config) : result error Config :=
  match Config_Validate env cfg with
  | (cfg, None) => Ok cfg
  | (_, Some e) => Err e
  end.

Definition LoadFile (calls : FileCalls) (fs : Files) (path : string) : result error Config :=
  let path := if String.eqb path "" then DefaultPath else path in
  match ReadFile calls fs path with
  | Err e =>
      if errors_is ErrNotExist e && String.eqb path DefaultPath
      then validated (Default env) else Err e
  | Ok data =>
      let? doc := yaml_Unmarshal data in
      validated (match doc with
                 | None => Default env
                 | Some raw => UnmarshalYAML env raw
                 end)
  end.

Definition writeFile (calls : FileCalls) (fs : Files) (path : string) (cfg : Config)
  : Files * option error :=
  match fc_mkdir calls with
  | Some e => (fs, Some e)
  | None =>
      match yaml_Marshal (MarshalYAML cfg) with
      | Err e => (fs, Some e)
      | Ok data =>
          let tmpPath := path +:+ ".tmp" in
          match fc_write calls with
          | Some (e, partial) =>
              (match partial with Some p => <[tmpPath := p]> fs | None => fs end, Some e)
          | None =>
              let fs := <[tmpPath := data]> fs in
              match fc_rename calls with
              | Some e => (fs, Some e)
              | None => (<[path := data]> (delete tmpPath fs), None)
              end
          end
      end
  end.

(** [Manager]: its lock serialises the operations, so each is one step on the
    files. *)
Record Manager := { m_path : string }.

Definition NewManager (path : string) : Manager :=
  {| m_path := if String.eqb path "" then DefaultPath else path |}.
Definition Manager_Path (m : Manager) : string :=
  if String.eqb (m_path m) "" then DefaultPath else m_path m.

Definition ValidationErr (e : error) : error := Etyped ValidationError (error_text e) (Some e).

Definition Manager_Load (m : Manager) (calls : FileCalls) (fs : Files)
  : result error Config := LoadFile calls fs (Manager_Path m).

Definition Manager_Update (m : Manager) (calls : FileCalls) (fs : Files)
    (mutator : Config → result error Config) : Files * result error Config :=
  match LoadFile calls fs (Manager_Path m) with
  | Err e => (fs, Err e)
  | Ok cfg =>
      match mutator cfg with
      | Err e => (fs, Err e)
      | Ok cfg =>
          match Config_Validate env cfg with
          | (_, Some e) => (fs, Err (ValidationErr e))
          | (cfg, None) =>
              match writeFile calls fs (Manager_Path m) cfg with
              | (fs, Some e) => (fs, Err e)
              | (fs, None) => (fs, Ok cfg)
              end
          end
      end
  end.

Definition Manager_Replace (m : Manager) (calls : FileCalls) (fs : Files) (cfg : Config)
  : Files * option error :=
  match Config_Validate env cfg with
  | (_, Some e) => (fs, Some (ValidationErr e))
  | (cfg, None) => writeFile calls fs (Manager_Path m) cfg
  end.
End manager.

(** * Properties *)

(** ** The loops of the validation *)

Lemma check_entries_spec {A} (validate : A → option error) key duplicate seen entries :
  let r := check_entries validate key duplicate seen entries in
  (r.1 = [] ↔ (∀ x, x ∈ entries → validate x = None) ∧ NoDup (map key entries) ∧
              ∀ x, x ∈ entries → key x ∉ seen) ∧
  (r.1 = [] → r.2 = list_to_set (map key entries) ∪ seen).
Proof.
  simpl. revert seen. induction entries as [|x entries IH]; intros seen; simpl.
  { split; [|set_solver]. split; [|done]. intros _. split_and!; [|constructor|];
      intros x Hx; by apply elem_of_nil in Hx. }
  destruct (validate x) as [e|] eqn:Ev.
  { destruct (check_entries _ _ _ seen entries). simpl. split; [|done]. split; [done|].
    intros (Hv & _). rewrite Hv in Ev by constructor. done. }
  destruct (bool_decide (key x ∈ seen)) eqn:Es; beq.
  { destruct (check_entries _ _ _ seen entries). simpl. split; [|done]. split; [done|].
    intros (_ & _ & Hs). by destruct (Hs x); [constructor|]. }
  destruct (IH ({[key x]} ∪ seen)) as [IH1 IH2]. split.
  - rewrite IH1. setoid_rewrite elem_of_cons. rewrite NoDup_cons.
    setoid_rewrite list_elem_of_fmap. set_unfold. naive_solver.
  - intros Hr. rewrite IH2 by done. set_solver.
Qed.

Lemma opt_list_nil {A} (o : option A) : opt_list o = [] ↔ o = None.
Proof. by destruct o. Qed.

Lemma if_nil {A} (b : bool) (l : list A) : l ≠ [] → (if b then l else []) = [] ↔ b = false.
Proof. by destruct b. Qed.

Lemma concat_map_nil {A B} (f : A → list B) l :
  concat (map f l) = [] ↔ ∀ x, x ∈ l → f x = [].
Proof.
  induction l as [|x l IH]; simpl.
  - split; [|done]. intros _ x Hx. by apply elem_of_nil in Hx.
  - rewrite app_nil, IH. setoid_rewrite elem_of_cons. naive_solver.
Qed.

Lemma omap_nil {A B} (f : A → option B) l : omap f l = [] ↔ ∀ x, x ∈ l → f x = None.
Proof.
  induction l as [|x l IH]; simpl.
  - split; [|done]. intros _ x Hx. by apply elem_of_nil in Hx.
  - setoid_rewrite elem_of_cons. destruct (f x) eqn:E; [|rewrite IH; naive_solver].
    split; [done|]. intros Hall. rewrite Hall in E by auto. done.
Qed.

Section validation_props.
Context `{GoRuntime} `{NetURL} `{Lego} (env : Env).

Lemma check_provider_None p :
  check_provider builtin_registry p = None ↔ prov_Ref p ≠ "" ∧ prov_Type p ∈ builtin_types.
Proof.
  unfold check_provider, DDNSProviderConfig_Validate. rewrite <-builtin_Exists.
  destruct (String.eqb (prov_Ref p) "") eqn:E1; beq; [naive_solver|].
  destruct (String.eqb (prov_Type p) "") eqn:E2; beq.
  - rewrite E2. split; [done|]. intros [_ Hex]. by vm_compute in Hex.
  - destruct (Exists _ _); simpl; naive_solver.
Qed.

Lemma check_target_agents_nil seen targets :
  check_target_agents seen targets = [] ↔
  ∀ t, t ∈ targets → dt_Transport t = DeployTransportAgent → adb_Node (dt_Agent t) ∈ seen.
Proof.
  unfold check_target_agents. rewrite omap_nil.
  split; intros Hall t Ht; specialize (Hall t Ht).
  - intros Htr. rewrite Htr, String.eqb_refl in Hall. simpl in Hall.
    destruct (bool_decide _) eqn:E; beq; done.
  - destruct (String.eqb _ _) eqn:E; beq; [|done]. simpl.
    by rewrite bool_decide_eq_true_2 by auto.
Qed.

(** A provider that a reference names. *)
Definition has_provider (providers : list DDNSProviderConfig) (ref : string) : Prop :=
  ∃ p, p ∈ providers ∧ prov_Ref p = ref.

Lemma providerRefs_lookup providers ref :
  match providerRefs providers !! ref with
  | Some p => p ∈ providers ∧ prov_Ref p = ref
  | None => ¬ has_provider providers ref
  end.
Proof.
  unfold providerRefs. rewrite keyed_from_lookup, lookup_empty.
  destruct (find_last _ providers) as [p|] eqn:E.
  - apply find_last_Some in E as [Hin Hk]. by beq.
  - intros (p & Hin & Hk). rewrite find_last_None in E. specialize (E p Hin). by beq.
Qed.

Section zones.
Context (providers : list DDNSProviderConfig) (seenTargets : gset string).
Hypothesis Htypes : ∀ p, p ∈ providers → prov_Type p ∈ builtin_types.

Lemma check_zone_ref_nil zone ref :
  check_zone_ref builtin_registry (providerRefs providers) zone ref = [] ↔
  has_provider providers ref.
Proof.
  unfold check_zone_ref. pose proof (providerRefs_lookup providers ref) as Hl.
  destruct (providerRefs providers !! ref) as [p|]; [|naive_solver].
  destruct Hl as [Hin Href]. apply Htypes in Hin as Ht.
  rewrite (proj2 (builtin_Exists _) Ht), !builtin_Supports by (done || set_solver).
  simpl. rewrite !andb_false_r. simpl. split; [|done]. intros _. by exists p.
Qed.

Lemma check_zone_certificate_nil zone :
  check_zone_certificate builtin_registry (providerRefs providers) seenTargets zone = [] ↔
  (cp_Enabled (z_Certificate zone) = true →
   has_provider providers (cp_DNSProvider (z_Certificate zone)) ∧
   ∃ plans, CertificatePlans zone = Ok plans ∧
     ∀ p t, p ∈ plans → t ∈ plan_DeployTargets p → t ∈ seenTargets).
Proof.
  unfold check_zone_certificate.
  destruct (cp_Enabled (z_Certificate zone)); simpl; [|naive_solver].
  destruct (CertificatePlans zone) as [plans|e].
  2:{ split; [done|]. intros Hall. by destruct Hall as (_ & ? & ? & _). }
  rewrite app_nil, concat_map_nil.
  set (ref := cp_DNSProvider (z_Certificate zone)).
  pose proof (providerRefs_lookup providers ref) as Hl.
  assert ((∀ x, x ∈ plans → omap (λ targetName,
      if bool_decide (targetName ∈ seenTargets) then None
      else Some (Enew ("domain " +:+ quote (z_Domain zone) +:+ " certificate bundle "
         +:+ quote (plan_Name x) +:+ " references unknown deploy target "
         +:+ quote targetName))) (plan_DeployTargets x) = []) ↔
    ∀ p t, p ∈ plans → t ∈ plan_DeployTargets p → t ∈ seenTargets) as ->.
  { split.
    - intros Hall p t Hp Ht. specialize (Hall p Hp). rewrite omap_nil in Hall.
      specialize (Hall t Ht). destruct (bool_decide _) eqn:E; by beq.
    - intros Hall p Hp. apply omap_nil. intros t Ht.
      by rewrite bool_decide_eq_true_2 by eauto. }
  destruct (providerRefs providers !! ref) as [p|].
  - destruct Hl as [Hin Href]. apply Htypes in Hin as Ht.
    rewrite (proj2 (builtin_Exists _) Ht). simpl. split.
    + intros [_ Hall] _. split; [by exists p|eauto].
    + intros Hall. destruct (Hall eq_refl) as (_ & plans' & [= <-] & ?). done.
  - split; [by intros [? _]|]. intros Hall. by destruct (Hall eq_refl) as [? _].
Qed.

(** What the loop checks of one zone beyond [zone_ok]. *)
Definition zone_refs_ok (zone : ManagedZone) : Prop :=
  (∀ ref, ref ∈ ddns_ProviderRefs (z_DDNS zone) → has_provider providers ref) ∧
  (cp_Enabled (z_Certificate zone) = true →
   has_provider providers (cp_DNSProvider (z_Certificate zone)) ∧
   ∃ plans, CertificatePlans zone = Ok plans ∧
     ∀ p t, p ∈ plans → t ∈ plan_DeployTargets p → t ∈ seenTargets).

Lemma check_zone_nil zone :
  concat (map (check_zone_ref builtin_registry (providerRefs providers) zone)
              (ddns_ProviderRefs (z_DDNS zone))) ++
  check_zone_certificate builtin_registry (providerRefs providers) seenTargets zone = [] ↔
  zone_refs_ok zone.
Proof.
  unfold zone_refs_ok. rewrite app_nil, concat_map_nil, check_zone_certificate_nil.
  by setoid_rewrite check_zone_ref_nil.
Qed.

Lemma check_zones_spec st zones :
  let '(zones', errs, st') :=
    check_zones builtin_registry (providerRefs providers) seenTargets st zones in
  (errs = [] ↔
     (∀ z, z ∈ zones → zone_ok z ∧ zone_refs_ok (zone_defaults z)) ∧
     NoDup (map z_Domain zones) ∧ ∀ z, z ∈ zones → z_Domain z ∉ zs_seenDomains st) ∧
  (errs = [] →
     zones' = map zone_defaults zones ∧
     zs_zonesByDomain st' =
       keyed_from z_Domain (zs_zonesByDomain st) (map zone_defaults zones) ∧
     zs_defaultZones st' = zs_defaultZones st + length (List.filter z_Default zones)).
Proof.
  revert st. induction zones as [|z zones IH]; intros st; cbn [check_zones].
  { split; [|simpl; auto]. split; [|done]. intros _. split_and!; [|constructor|];
      intros z Hz; by apply elem_of_nil in Hz. }
  pose proof (ManagedZone_Validate_spec z) as Hz.
  destruct (ManagedZone_Validate z) as [z' [e|]].
  { specialize (IH st). destruct (check_zones _ _ _ _ _) as [[zones' errs] st'].
    simpl. split; [|done]. split; [done|]. intros (Hall & _).
    by destruct (Hall z) as [? _]; [constructor|]. }
  destruct Hz as [Hok ->]. rewrite zone_defaults_domain, zone_defaults_default.
  destruct (bool_decide (z_Domain z ∈ zs_seenDomains st)) eqn:Es; beq.
  { specialize (IH st). destruct (check_zones _ _ _ _ _) as [[zones' errs] st'].
    simpl. split; [|done]. split; [done|]. intros (_ & _ & Hs).
    by destruct (Hs z); [constructor|]. }
  match goal with |- context [check_zones _ _ _ ?s zones] =>
    set (st1 := s); specialize (IH st1) end.
  destruct (check_zones _ _ _ _ _) as [[zones' errs] st'] eqn:Ec.
  destruct IH as [IH1 IH2].
  split.
  - rewrite app_nil, check_zone_nil, IH1. subst st1. cbn [zs_seenDomains] in *.
    setoid_rewrite elem_of_cons. cbn [map]. rewrite NoDup_cons.
    setoid_rewrite list_elem_of_fmap. set_unfold. naive_solver.
  - intros Hr. apply app_nil in Hr as [_ Hr].
    destruct IH2 as (-> & -> & ->); [done|]. cbn [map]. split_and!; [done| |].
    + cbn [keyed_from foldl zs_zonesByDomain]. unfold keyed_from, insert_keyed.
      cbn [foldl]. by rewrite zone_defaults_domain.
    + cbn [zs_defaultZones List.filter]. destruct (z_Default z); simpl; lia.
Qed.
End zones.

(** The host of an application only depends on its domain, which is the key
    of the zone it is looked up under. *)
Definition app_host (app : CustomApp) : string :=
  if String.eqb (TrimSpace (app_Subdomain app)) "" then app_key app
  else TrimSpace (app_Subdomain app) +:+ "." +:+ app_key app.

Definition app_refs_ok (zonesByDomain : gmap string ManagedZone) (seenAgents : gset string)
    (app : CustomApp) : Prop :=
  CustomApp_Validate app = None ∧ is_Some (zonesByDomain !! app_key app) ∧
  (TrimSpace (app_ExitNode app) ≠ "" → app_ExitNode app ∈ seenAgents).

Lemma CustomApp_Host_key zonesByDomain app zone :
  keyed z_Domain zonesByDomain → zonesByDomain !! app_key app = Some zone →
  CustomApp_Host app zone = app_host app.
Proof.
  intros Hk Hz. apply Hk in Hz. unfold CustomApp_Host, Hostname, app_host. by rewrite Hz.
Qed.

Lemma check_apps_nil zonesByDomain seenAgents seenApps seenAppHosts apps :
  keyed z_Domain zonesByDomain →
  check_apps zonesByDomain seenAgents seenApps seenAppHosts apps = [] ↔
  (∀ a, a ∈ apps → app_refs_ok zonesByDomain seenAgents a ∧
     app_Name a ∉ seenApps ∧ app_host a ∉ seenAppHosts) ∧
  NoDup (map app_Name apps) ∧ NoDup (map app_host apps).
Proof.
  intros Hk. revert seenApps seenAppHosts.
  induction apps as [|a apps IH]; intros seenApps seenAppHosts; cbn [check_apps].
  { split; [|done]. intros _. split_and!; [|constructor..].
    intros a Ha. by apply elem_of_nil in Ha. }
  assert (∀ (P Q : Prop), (app_refs_ok zonesByDomain seenAgents a ∧
     app_Name a ∉ seenApps ∧ app_host a ∉ seenAppHosts → False) →
    ((∀ b, b ∈ a :: apps → app_refs_ok zonesByDomain seenAgents b ∧
      app_Name b ∉ seenApps ∧ app_host b ∉ seenAppHosts) ∧ P → Q)) as Hno.
  { intros P Q Ha [Hall _]. destruct Ha. apply Hall. constructor. }
  unfold app_refs_ok at 1 in Hno.
  destruct (CustomApp_Validate a) eqn:Ev; [split; [done|]; apply Hno; naive_solver|].
  destruct (bool_decide (app_Name a ∈ seenApps)) eqn:En; beq;
    [split; [done|]; apply Hno; naive_solver|].
  destruct (zonesByDomain !! app_key a) as [z|] eqn:Ez.
  2:{ split; [done|]. apply Hno. by intros ((_ & [? [=]] & _) & _). }
  destruct (negb (String.eqb (TrimSpace (app_ExitNode a)) "") &&
            negb (bool_decide (app_ExitNode a ∈ seenAgents))) eqn:Ee.
  { split; [done|]. apply Hno. beq. naive_solver. }
  rewrite (CustomApp_Host_key zonesByDomain) by done.
  destruct (bool_decide (app_host a ∈ seenAppHosts)) eqn:Eh; beq;
    [split; [done|]; apply Hno; naive_solver|].
  assert (app_refs_ok zonesByDomain seenAgents a) as Ha.
  { split_and!; [done|by rewrite Ez|]. intros Hx. apply andb_false_iff in Ee as [Ee|Ee]; by beq. }
  rewrite IH. cbn [map]. rewrite !NoDup_cons. setoid_rewrite elem_of_cons.
  setoid_rewrite list_elem_of_fmap. clear IH Hno Hk Ez Ee. set_unfold. naive_solver.
Qed.

(** ** What a configuration must satisfy *)
Record config_ok (c : Config) : Prop := {
  co_api_addr : sv_APIAddr (c_Server c) ≠ "";
  co_auth : AuthConfig_Validate (sv_Auth (c_Server c)) = None;
  co_data_dir : sv_DataDir (effective_server c) ≠ "";
  co_public_ip : PublicIPConfig_Validate (sv_PublicIP (effective_server c)) = None;
  co_runtime : RuntimeSource_Validate env (sv_Runtime (c_Server c)) = None;
  co_providers : ∀ p, p ∈ c_DDNSProviders c → prov_Ref p ≠ "" ∧
    prov_Type p ∈ builtin_types ∧
    options_ok (prov_Options p) (required_options (prov_Type p))
               (required_options (prov_Type p));
  co_provider_refs : NoDup (map prov_Ref (c_DDNSProviders c));
  co_agents : ∀ a, a ∈ c_Agents c → AgentNode_Validate a = None;
  co_agent_names : NoDup (map an_Name (c_Agents c));
  co_targets : ∀ t, t ∈ c_DeployTargets c → DeployTarget_Validate t = None ∧
    (dt_Transport t = DeployTransportAgent →
     adb_Node (dt_Agent t) ∈ map an_Name (c_Agents c));
  co_target_names : NoDup (map dt_Name (c_DeployTargets c));
  co_zones : ∀ z, z ∈ c_Zones c → zone_ok z ∧
    zone_refs_ok (c_DDNSProviders c) (list_to_set (map dt_Name (c_DeployTargets c)))
                 (zone_defaults z);
  co_domains : NoDup (map z_Domain (c_Zones c));
  co_default : length (List.filter z_Default (c_Zones c)) ≤ 1;
  co_apps : ∀ a, a ∈ c_Apps c → CustomApp_Validate a = None ∧
    app_key a ∈ map z_Domain (c_Zones c) ∧
    (TrimSpace (app_ExitNode a) ≠ "" → app_ExitNode a ∈ map an_Name (c_Agents c));
  co_app_names : NoDup (map app_Name (c_Apps c));
  co_app_hosts : NoDup (map app_host (c_Apps c))
}.

Lemma effective_server_same c :
  sv_APIAddr (effective_server c) = sv_APIAddr (c_Server c) ∧
  sv_Auth (effective_server c) = sv_Auth (c_Server c) ∧
  sv_Runtime (effective_server c) = sv_Runtime (c_Server c).
Proof. unfold effective_server. by repeat case_split. Qed.

Lemma check_options_of_nil p :
  prov_Type p ∈ builtin_types →
  check_options_of builtin_registry p = [] ↔
  options_ok (prov_Options p) (required_options (prov_Type p))
             (required_options (prov_Type p)).
Proof.
  intros Ht. unfold check_options_of. rewrite (proj2 (builtin_Exists _) Ht). simpl.
  destruct (builtin_Validate (prov_Type p) (prov_Options p) Ht) as [Hu Hc].
  destruct (builtin_lookup _ Ht) as (d & _ & _ & Hd & _ & _ & Hvu & Hvc & _).
  unfold Registry_ValidateUpdater, Registry_ValidateChallenge in *.
  rewrite Hd, Hvu, Hvc in *.
  destruct (validateProviderOptions _ _ _ _) eqn:E; simpl; [|naive_solver].
  split; [done|]. intros Hok. by apply Hu in Hok.
Qed.

Lemma zones_lookup zones a :
  is_Some (keyed_from z_Domain ∅ (map zone_defaults zones) !! app_key a) ↔
  app_key a ∈ map z_Domain zones.
Proof.
  rewrite keyed_from_lookup, lookup_empty.
  destruct (find_last _ _) as [z|] eqn:E.
  - apply find_last_Some in E as [Hin Hk]. beq.
    apply list_elem_of_fmap in Hin as (z0 & -> & Hin). rewrite zone_defaults_domain in Hk.
    split; [|eauto]. intros _. apply list_elem_of_fmap. by exists z0.
  - split; [by intros [? [=]]|]. intros (z & Hz & Hin)%list_elem_of_fmap.
    rewrite find_last_None in E. specialize (E (zone_defaults z)).
    rewrite zone_defaults_domain, Hz, String.eqb_refl in E.
    discriminate E. by apply list_elem_of_fmap_2.
Qed.

Lemma check_entries_fresh {A} (validate : A → option error) key duplicate entries errs seen :
  check_entries validate key duplicate ∅ entries = (errs, seen) →
  (errs = [] ↔ (∀ x, x ∈ entries → validate x = None) ∧ NoDup (map key entries)) ∧
  (errs = [] → seen = list_to_set (map key entries)).
Proof.
  intros E. pose proof (check_entries_spec validate key duplicate ∅ entries) as Hs.
  rewrite E in Hs. simpl in Hs. rewrite union_empty_r_L in Hs. set_solver.
Qed.

(** The checks of [Config_Validate], part by part: each group of checks is
    silent when its clauses of [config_ok] hold. *)
Section checks.
Variables (c : Config) (perrs aerrs terrs zerrs : list error) (seenP agents targets : gset string)
  (zones : list ManagedZone) (st : zone_state).
Variables (dup_provider : DDNSProviderConfig → error) (dup_agent : AgentNode → error)
  (dup_target : DeployTarget → error).
Hypothesis Hp : check_entries (check_provider builtin_registry) prov_Ref dup_provider ∅
  (c_DDNSProviders c) = (perrs, seenP).
Hypothesis Ha : check_entries AgentNode_Validate an_Name dup_agent ∅ (c_Agents c)
  = (aerrs, agents).
Hypothesis Ht : check_entries DeployTarget_Validate dt_Name dup_target ∅ (c_DeployTargets c)
  = (terrs, targets).
Hypothesis Hz : check_zones builtin_registry (providerRefs (c_DDNSProviders c)) targets
  {| zs_seenDomains := ∅; zs_zonesByDomain := ∅; zs_defaultZones := 0 |} (c_Zones c)
  = (zones, zerrs, st).

Lemma providers_checked :
  perrs = [] ↔ (∀ p, p ∈ c_DDNSProviders c → prov_Ref p ≠ "" ∧ prov_Type p ∈ builtin_types) ∧
               NoDup (map prov_Ref (c_DDNSProviders c)).
Proof. rewrite (proj1 (check_entries_fresh _ _ _ _ _ _ Hp)). by setoid_rewrite check_provider_None. Qed.

Lemma targets_checked :
  aerrs = [] →
  check_target_agents agents (c_DeployTargets c) = [] ↔
  ∀ t, t ∈ c_DeployTargets c → dt_Transport t = DeployTransportAgent →
    adb_Node (dt_Agent t) ∈ map an_Name (c_Agents c).
Proof.
  intros Fa. rewrite check_target_agents_nil.
  rewrite (proj2 (check_entries_fresh _ _ _ _ _ _ Ha) Fa).
  by setoid_rewrite (elem_of_list_to_set (C:=gset string)).
Qed.

Lemma zones_checked :
  perrs = [] → terrs = [] →
  (zerrs = [] ↔
     (∀ z, z ∈ c_Zones c → zone_ok z ∧
        zone_refs_ok (c_DDNSProviders c) (list_to_set (map dt_Name (c_DeployTargets c)))
                     (zone_defaults z)) ∧ NoDup (map z_Domain (c_Zones c))) ∧
  (zerrs = [] → zones = map zone_defaults (c_Zones c) ∧
     zs_zonesByDomain st = keyed_from z_Domain ∅ (map zone_defaults (c_Zones c)) ∧
     zs_defaultZones st = length (List.filter z_Default (c_Zones c))).
Proof.
  intros [Hty _]%providers_checked Ft.
  rewrite <-(proj2 (check_entries_fresh _ _ _ _ _ _ Ht) Ft).
  pose proof (check_zones_spec (c_DDNSProviders c) targets
    (λ p Hin, proj2 (Hty p Hin)) {| zs_seenDomains := ∅; zs_zonesByDomain := ∅;
    zs_defaultZones := 0 |} (c_Zones c)) as Hs.
  rewrite Hz in Hs. destruct Hs as [Hs1 Hs2]. split; [|done].
  rewrite Hs1. split; [tauto|]. intros [? ?]. split_and!; [done..|]. set_solver.
Qed.

Lemma apps_checked :
  aerrs = [] → perrs = [] → terrs = [] → zerrs = [] →
  check_apps (zs_zonesByDomain st) agents ∅ ∅ (c_Apps c) = [] ↔
  (∀ a, a ∈ c_Apps c → CustomApp_Validate a = None ∧
     app_key a ∈ map z_Domain (c_Zones c) ∧
     (TrimSpace (app_ExitNode a) ≠ "" → app_ExitNode a ∈ map an_Name (c_Agents c))) ∧
  NoDup (map app_Name (c_Apps c)) ∧ NoDup (map app_host (c_Apps c)).
Proof.
  intros Fa Fp Ft Fz. rewrite (proj1 (proj2 (proj2 (zones_checked Fp Ft) Fz))).
  rewrite (proj2 (check_entries_fresh _ _ _ _ _ _ Ha) Fa).
  rewrite check_apps_nil by (by apply keyed_keyed_from, keyed_empty).
  unfold app_refs_ok. setoid_rewrite zones_lookup.
  setoid_rewrite (elem_of_list_to_set (C:=gset string)). set_solver.
Qed.

Lemma options_checked :
  perrs = [] →
  concat (map (check_options_of builtin_registry) (c_DDNSProviders c)) = [] ↔
  ∀ p, p ∈ c_DDNSProviders c →
    options_ok (prov_Options p) (required_options (prov_Type p)) (required_options (prov_Type p)).
Proof.
  intros [Hty _]%providers_checked. rewrite concat_map_nil.
  split; intros Hall p Hin; apply check_options_of_nil; naive_solver.
Qed.

Lemma checks_sound_complete :
  sv_APIAddr (c_Server c) ≠ "" ∧ AuthConfig_Validate (sv_Auth (c_Server c)) = None ∧
  sv_DataDir (effective_server c) ≠ "" ∧
  PublicIPConfig_Validate (sv_PublicIP (effective_server c)) = None ∧
  perrs = [] ∧ RuntimeSource_Validate env (sv_Runtime (c_Server c)) = None ∧ aerrs = [] ∧
  terrs = [] ∧ check_target_agents agents (c_DeployTargets c) = [] ∧ zerrs = [] ∧
  zs_defaultZones st ≤ 1 ∧ check_apps (zs_zonesByDomain st) agents ∅ ∅ (c_Apps c) = [] ∧
  concat (map (check_options_of builtin_registry) (c_DDNSProviders c)) = [] ↔ config_ok c.
Proof.
  pose proof (proj1 (check_entries_fresh _ _ _ _ _ _ Ha)) as Hav.
  pose proof (proj1 (check_entries_fresh _ _ _ _ _ _ Ht)) as Htv.
  pose proof providers_checked as Hpv. split.
  - intros (? & ? & ? & ? & Fp & ? & Fa & Ft & Fta & Fz & Fd & Fapp & Fopt).
    destruct (zones_checked Fp Ft) as [Hz1 Hz2]. destruct (Hz2 Fz) as (_ & _ & Ecount).
    apply apps_checked in Fapp as (? & ? & ?); [|done..].
    apply Hz1 in Fz as [? ?].
    pose proof (proj1 (targets_checked Fa) Fta). pose proof (proj1 (options_checked Fp) Fopt).
    apply Hpv in Fp as [Fp ?]. apply Hav in Fa as [? ?]. apply Htv in Ft as [? ?].
    rewrite Ecount in Fd. split; try done.
    + intros p Hin. destruct (Fp p Hin). auto.
    + auto.
  - intros []. assert (perrs = []) as Fp.
    { apply Hpv. split; [|done]. intros p Hin. by destruct (co_providers0 p Hin) as (? & ? & _). }
    assert (aerrs = []) as Fa by (by apply Hav).
    assert (terrs = []) as Ft.
    { apply Htv. split; [|done]. intros t Hin. by apply co_targets0. }
    destruct (zones_checked Fp Ft) as [Hz1 Hz2]. assert (zerrs = []) as Fz by (by apply Hz1).
    destruct (Hz2 Fz) as (_ & _ & Ecount). rewrite targets_checked, apps_checked,
      options_checked, Ecount by done. split_and!; try done.
    + intros t Hin. by apply co_targets0.
    + intros p Hin. by apply co_providers0.
Qed.
End checks.

Lemma Config_Validate_correct c :
  match Config_Validate env c with
  | (c', None) => config_ok c ∧ c' = c_with_Zones (map zone_defaults (c_Zones c)) c
  | (_, Some _) => ¬ config_ok c
  end.
Proof.
  unfold Config_Validate. rewrite NewBuiltinRegistry_eq.
  destruct (effective_server_same c) as (-> & -> & ->).
  destruct (check_entries (check_provider _) _ _ _ _) as [perrs seenP] eqn:Hp.
  destruct (check_entries AgentNode_Validate _ _ _ _) as [aerrs agents] eqn:Ha.
  destruct (check_entries DeployTarget_Validate _ _ _ _) as [terrs targets] eqn:Ht.
  destruct (check_zones _ _ _ _ _) as [[zones zerrs] st] eqn:Hz.
  pose proof (checks_sound_complete _ _ _ _ _ _ _ _ _ _ _ _ _ Hp Ha Ht Hz) as Hok.
  destruct (join_errs _) eqn:E.
  - intros Hc. apply Hok in Hc as (? & ? & ? & ? & ? & ? & ? & ? & ? & ? & Hd & ? & ?).
    revert E. rewrite (proj2 (join_errs_None _)); [done|].
    rewrite !app_nil, !opt_list_nil, !if_nil by done.
    apply Nat.ltb_ge in Hd. split_and!; try done; by apply String.eqb_neq.
  - apply join_errs_None in E. rewrite !app_nil, !opt_list_nil, !if_nil in E by done.
    destruct E as ((E1 & ? & E2 & ?) & Fp & ? & ? & Ft & ? & Fz & Hd & ? & ?). beq.
    apply Nat.ltb_ge in Hd. split; [apply Hok; by split_and!|].
    edestruct zones_checked as [_ Hzs]; [exact Hp|exact Ha|exact Ht|exact Hz|done|done|].
    by destruct (Hzs Fz) as [-> _].
Qed.
End validation_props.

Lemma length_filter_map {A B} (f : A → B) (p : B → bool) l :
  length (List.filter p (map f l)) = length (List.filter (λ x, p (f x)) l).
Proof. induction l as [|x l IH]; simpl; [done|]. destruct (p (f x)); simpl; by rewrite IH. Qed.

Lemma map_zone_defaults_domain zones :
  map z_Domain (map zone_defaults zones) = map z_Domain zones.
Proof. rewrite map_map. apply map_ext, zone_defaults_domain. Qed.

Lemma config_ok_ext `{GoRuntime} `{NetURL} `{Lego} env c c' :
  c_Server c' = c_Server c → effective_server c' = effective_server c →
  c_DDNSProviders c' = c_DDNSProviders c → c_Agents c' = c_Agents c →
  c_DeployTargets c' = c_DeployTargets c → c_Apps c' ≡ₚ c_Apps c →
  map zone_defaults (c_Zones c') = map zone_defaults (c_Zones c) →
  (∀ z, z ∈ c_Zones c' → zone_ok z) → config_ok env c → config_ok env c'.
Proof.
  intros Es Ee Ep Ea Et Eapps Ez Hzok [].
  assert (map z_Domain (c_Zones c') = map z_Domain (c_Zones c)) as Ed.
  { by rewrite <-map_zone_defaults_domain, Ez, map_zone_defaults_domain. }
  split; rewrite ?Es, ?Ee, ?Ep, ?Ea, ?Et, ?Ed; try done.
  - intros z Hin. split; [by apply Hzok|].
    assert (zone_defaults z ∈ map zone_defaults (c_Zones c)) as Hz.
    { rewrite <-Ez. by apply list_elem_of_fmap_2. }
    apply list_elem_of_fmap in Hz as (z0 & -> & Hz0). by apply co_zones0.
  - assert (∀ l, length (List.filter z_Default l) =
                 length (List.filter z_Default (map zone_defaults l))) as Hl.
    { intros l. rewrite length_filter_map. f_equal. apply filter_ext. intros z.
      by rewrite zone_defaults_default. }
    rewrite Hl, Ez, <-Hl. done.
  - intros a Hin. rewrite Eapps in Hin. by apply co_apps0.
  - by rewrite Eapps.
  - by rewrite Eapps.
Qed.

Section validate_claims.
Context `{GoRuntime} `{NetURL} `{Lego} (env : Env).

Lemma config_ok_defaults c :
  config_ok env c → config_ok env (c_with_Zones (map zone_defaults (c_Zones c)) c).
Proof.
  intros Hok. apply (config_ok_ext env c); try done.
  - simpl. rewrite map_map. apply map_ext. intros z. apply zone_defaults_idemp.
  - intros z (z0 & -> & Hin)%list_elem_of_fmap. by apply zone_ok_defaults, Hok.
Qed.

(** C8. Validation accepts exactly the configurations that satisfy
    [config_ok] (unique names, domains and hosts, no dangling reference to a
    provider, agent, deploy target or zone, at most one default zone, valid
    options), leaves the zones with their defaults filled in and nothing
    else changed, and accepts its own result unchanged. *)
Theorem Config_Validate_sound_complete c :
  match Config_Validate env c with
  | (c', None) => config_ok env c ∧ c' = c_with_Zones (map zone_defaults (c_Zones c)) c ∧
                  Config_Validate env c' = (c', None)
  | (_, Some _) => ¬ config_ok env c
  end.
Proof.
  pose proof (Config_Validate_correct env c) as H2.
  destruct (Config_Validate env c) as [c' [e|]]; [done|]. destruct H2 as [Hok ->].
  split_and!; [done..|]. set (c' := c_with_Zones _ c).
  pose proof (Config_Validate_correct env c') as H3.
  destruct (Config_Validate env c') as [c'' [e|]].
  - by apply config_ok_defaults in Hok.
  - destruct H3 as [_ ->]. f_equal. subst c'. unfold c_with_Zones. simpl. f_equal.
    rewrite map_map. apply map_ext. intros z. apply zone_defaults_idemp.
Qed.

Lemma validated_Ok c c' : validated env c = Ok c' → config_ok env c'.
Proof.
  unfold validated. pose proof (Config_Validate_correct env c) as H2.
  destruct (Config_Validate env c) as [c1 [e|]]; [done|]. intros [= <-].
  destruct H2 as [Hok ->]. by apply config_ok_defaults.
Qed.
End validate_claims.

(** ** The manager *)
Section manager_props.
Context `{GoRuntime} `{NetURL} `{Lego} `{YAML} (env : Env).

(** Writing replaces the file as a whole or leaves it alone. *)
Lemma writeFile_atomic calls fs path cfg :
  (∀ p, p ≠ path → p ≠ path +:+ ".tmp" → (writeFile calls fs path cfg).1 !! p = fs !! p) ∧
  match writeFile calls fs path cfg with
  | (fs', None) => ∃ data, yaml_Marshal (MarshalYAML cfg) = Ok data ∧ fs' !! path = Some data
  | (fs', Some _) => fs' !! path = fs !! path
  end.
Proof.
  pose proof (tmp_ne path) as Hne. unfold writeFile, Files in *.
  destruct (fc_mkdir calls); [done|].
  destruct (yaml_Marshal (MarshalYAML cfg)) as [data|e]; [|done].
  destruct (fc_write calls) as [[e [p|]]|]; simpl; [|done|].
  { split; [intros q Hq1 Hq2|]; by rewrite lookup_insert_ne by done. }
  destruct (fc_rename calls); simpl.
  { split; [intros q Hq1 Hq2|]; by rewrite lookup_insert_ne by done. }
  split; [intros q Hq1 Hq2|].
  - by rewrite lookup_insert_ne, lookup_delete_ne, lookup_insert_ne by done.
  - exists data. by rewrite lookup_insert_eq.
Qed.

(** What one [Update] may do: a failure of any kind keeps the file, a
    success replaces it by the text of the valid configuration returned. *)
Lemma Manager_Update_spec m calls fs mutator :
  match Manager_Update env m calls fs mutator with
  | (fs', Ok cfg) =>
      config_ok env cfg ∧
      (∃ cfg0 cfg1, LoadFile env calls fs (Manager_Path m) = Ok cfg0 ∧
         mutator cfg0 = Ok cfg1 ∧
         cfg = c_with_Zones (map zone_defaults (c_Zones cfg1)) cfg1) ∧
      ∃ data, yaml_Marshal (MarshalYAML cfg) = Ok data ∧
              fs' !! Manager_Path m = Some data
  | (fs', Err _) => fs' !! Manager_Path m = fs !! Manager_Path m
  end.
Proof.
  unfold Manager_Update. destruct (LoadFile _ _ _ _) as [cfg0|e] eqn:El; [|done].
  destruct (mutator cfg0) as [cfg1|e] eqn:Em; [|done].
  pose proof (Config_Validate_correct env cfg1) as Hv.
  destruct (Config_Validate env cfg1) as [cfg [e|]]; [done|]. destruct Hv as [Hok ->].
  set (cfg := c_with_Zones _ _).
  pose proof (writeFile_atomic calls fs (Manager_Path m) cfg) as [_ Hw].
  destruct (writeFile _ _ _ _) as [fs' [e|]]; [done|].
  split; [by apply config_ok_defaults|]. split; [by exists cfg0, cfg1|done].
Qed.

(** C6. [Manager.Update] is atomic and keeps the stored configuration valid,
    whichever system call fails and whatever the mutator does: on success
    the file holds exactly the serialisation of the returned configuration,
    which is valid and is the mutator's result with zone defaults; on any
    error the file is what it was; no other file but the temporary one is
    touched. *)
Theorem Manager_Update_atomic m calls fs mutator :
  let path := Manager_Path m in
  let '(fs', r) := Manager_Update env m calls fs mutator in
  (∀ p, p ≠ path → p ≠ path +:+ ".tmp" → fs' !! p = fs !! p) ∧
  match r with
  | Ok cfg =>
      config_ok env cfg ∧
      (∃ cfg0 cfg1, LoadFile env calls fs path = Ok cfg0 ∧ mutator cfg0 = Ok cfg1 ∧
         cfg = c_with_Zones (map zone_defaults (c_Zones cfg1)) cfg1) ∧
      ∃ data, yaml_Marshal (MarshalYAML cfg) = Ok data ∧ fs' !! path = Some data
  | Err _ => fs' !! path = fs !! path
  end.
Proof.
  simpl. pose proof (Manager_Update_spec m calls fs mutator) as Hs.
  assert (∀ p, p ≠ Manager_Path m → p ≠ Manager_Path m +:+ ".tmp" →
    (Manager_Update env m calls fs mutator).1 !! p = fs !! p) as Hother.
  { clear Hs. intros p Hp Hq. unfold Manager_Update.
    destruct (LoadFile _ _ _ _) as [cfg0|e]; [|done]. destruct (mutator cfg0); [|done].
    destruct (Config_Validate env _) as [cfg [e|]]; [done|].
    pose proof (writeFile_atomic calls fs (Manager_Path m) cfg) as [Hw _].
    specialize (Hw p Hp Hq). by destruct (writeFile _ _ _ _) as [fs' [e|]]. }
  destruct (Manager_Update env m calls fs mutator) as [fs' [cfg|e]]; done.
Qed.
End manager_props.

(** ** Writing and loading again *)

(** The applications in the order in which the file groups them. *)
Definition apps_of (apps : list CustomApp) (z : ManagedZone) : list CustomApp :=
  List.filter (λ a, String.eqb (app_key a) (z_Domain z)) apps.
Definition grouped_apps (zones : list ManagedZone) (apps : list CustomApp) : list CustomApp :=
  concat (map (apps_of apps) zones).

(** The form in which loading leaves a configuration: names and fields
    trimmed, applications attached to their domain by both fields, the
    runtime normalised, the deprecated top-level copies equal to the server's
    settings. *)
Record config_normal `{GoRuntime} (env : Env) (c : Config) : Prop := {
  cn_zones : ∀ z, z ∈ c_Zones c → trimmed (z_Name z) ∧ z_Name z ≠ "" ∧
    trimmed (z_Domain z) ∧ z_Domain z ≠ "";
  cn_apps : ∀ a, a ∈ c_Apps c → app_Domain a = app_Zone a ∧ app_Domain a ≠ "" ∧
    trimmed (app_Domain a) ∧ trimmed (app_Name a) ∧ app_Name a ≠ "" ∧ trimmed (app_Icon a) ∧
    trimmed (app_Subdomain a) ∧ trimmed (app_ExitNode a) ∧ trimmed (app_TargetURL a);
  cn_agents : map persisted_agent (c_Agents c) = c_Agents c;
  cn_data_dir : c_DataDir c = sv_DataDir (c_Server c);
  cn_data_dir_set : TrimSpace (sv_DataDir (c_Server c)) ≠ "";
  cn_public_ip : c_PublicIP c = sv_PublicIP (c_Server c);
  cn_runtime : Normalized env (sv_Runtime (c_Server c)) = sv_Runtime (c_Server c)
}.

Lemma appsByDomain_lookup apps k :
  default [] (appsByDomain apps !! k) = List.filter (λ a, String.eqb (app_key a) k) apps.
Proof.
  unfold appsByDomain.
  assert (∀ m, default [] (foldl (λ m app, <[app_key app :=
      default [] (m !! app_key app) ++ [app]]> m) m apps !! k) =
    default [] (m !! k) ++ List.filter (λ a, String.eqb (app_key a) k) apps) as ->;
    [|by rewrite lookup_empty].
  induction apps as [|a apps IH]; intros m; simpl; [by rewrite app_nil_r|].
  rewrite IH. destruct (String.eqb (app_key a) k) eqn:E; beq.
  - subst k. rewrite lookup_insert_eq. simpl. by rewrite <-app_assoc.
  - by rewrite lookup_insert_ne by done.
Qed.

Lemma grouped_apps_perm zones apps :
  NoDup (map z_Domain zones) → (∀ a, a ∈ apps → app_key a ∈ map z_Domain zones) →
  grouped_apps zones apps ≡ₚ apps.
Proof.
  unfold grouped_apps. revert apps. induction zones as [|z zones IH]; simpl; intros apps Hnd Hin.
  { destruct apps as [|a apps]; [done|]. specialize (Hin a ltac:(constructor)).
    by apply elem_of_nil in Hin. }
  apply NoDup_cons in Hnd as [Hz Hnd].
  set (rest := List.filter (λ a, negb (String.eqb (app_key a) (z_Domain z))) apps).
  assert (concat (map (apps_of apps) zones) = concat (map (apps_of rest) zones)) as ->.
  { f_equal. apply map_ext_in. intros z' Hz'. unfold apps_of, rest.
    assert (z_Domain z' ≠ z_Domain z) as Hne.
    { intros E. apply Hz. rewrite <-E. apply list_elem_of_In, in_map. done. }
    clear -Hne. induction apps as [|a apps IH]; simpl; [done|].
    destruct (String.eqb (app_key a) (z_Domain z)) eqn:E1; simpl;
      destruct (String.eqb (app_key a) (z_Domain z')) eqn:E2; rewrite ?IH; beq; congruence. }
  rewrite IH; [|done|].
  - unfold apps_of, rest. clear. induction apps as [|a apps IH]; simpl; [done|].
    destruct (String.eqb _ _); simpl; [by rewrite IH|].
    rewrite <-Permutation_middle. by rewrite IH.
  - intros a Ha. unfold rest in Ha. apply list_elem_of_In, filter_In in Ha as [Ha Hne].
    apply list_elem_of_In, Hin in Ha. apply elem_of_cons in Ha as [Ha|Ha]; [|done].
    rewrite Ha, String.eqb_refl in Hne. done.
Qed.

Lemma filter_none {A} (p : A → bool) l : (∀ x, x ∈ l → p x = false) → List.filter p l = [].
Proof.
  induction l as [|x l IH]; simpl; [done|]. intros Hall.
  rewrite Hall by constructor. apply IH. intros y Hy. apply Hall. by constructor.
Qed.

Lemma apps_of_grouped zones apps z :
  NoDup (map z_Domain zones) → z ∈ zones →
  apps_of (grouped_apps zones apps) z = apps_of apps z.
Proof.
  unfold grouped_apps. induction zones as [|z' zones IH]; simpl; intros Hnd Hz.
  { by apply elem_of_nil in Hz. }
  apply NoDup_cons in Hnd as [Hz' Hnd]. unfold apps_of at 1. rewrite List.filter_app.
  apply elem_of_cons in Hz as [<-|Hz].
  - rewrite (filter_none _ (concat _)).
    2:{ intros a Ha. rewrite list_elem_of_In, in_concat in Ha.
        destruct Ha as (l & Hl & Ha). apply in_map_iff in Hl as (z1 & <- & Hz1).
        unfold apps_of in Ha. apply filter_In in Ha as [_ Ha]. beq. rewrite Ha.
        apply String.eqb_neq. intros E. apply Hz'. rewrite <-E.
        apply list_elem_of_In, in_map. done. }
    rewrite app_nil_r. unfold apps_of. clear IH. induction apps as [|a apps IHa]; simpl; [done|].
    destruct (String.eqb (app_key a) (z_Domain z)) eqn:E; simpl; rewrite ?E; by rewrite IHa.
  - rewrite (filter_none _ (apps_of apps z')).
    2:{ intros a Ha. unfold apps_of in Ha. apply list_elem_of_In, filter_In in Ha as [_ Ha].
        beq. rewrite Ha. apply String.eqb_neq. intros E. apply Hz'. rewrite E.
        by apply list_elem_of_fmap_2. }
    simpl. by apply IH.
Qed.

Lemma grouped_apps_idemp zones apps :
  NoDup (map z_Domain zones) →
  grouped_apps zones (grouped_apps zones apps) = grouped_apps zones apps.
Proof.
  intros Hnd. unfold grouped_apps at 1 3. f_equal. apply map_ext_in. intros z Hz.
  apply apps_of_grouped; [done|]. by apply list_elem_of_In.
Qed.

Section roundtrip.
Context `{GoRuntime} (env : Env).

(** What a load sees after a write. *)
Definition reload (c : Config) : Config := UnmarshalYAML env (persisted (MarshalYAML c)).

Lemma zone_roundtrip m z :
  trimmed (z_Name z) → z_Name z ≠ "" → trimmed (z_Domain z) → z_Domain z ≠ "" →
  zone_of_domain (domain_of_zone m z) = z ∧
  TrimSpace (dy_Domain (domain_of_zone m z)) = z_Domain z ∧
  dy_Manual (domain_of_zone m z) = map entry_of_app (default [] (m !! z_Domain z)).
Proof.
  intros Hn Hn0 Hd Hd0. unfold zone_of_domain, domain_of_zone. simpl.
  rewrite Hn, Hd, (proj2 (String.eqb_neq _ _) Hd0), Hn, Hd,
    (proj2 (String.eqb_neq _ _) Hn0). by destruct z.
Qed.

Lemma app_roundtrip c a :
  config_normal env c → a ∈ c_Apps c → app_of_entry (app_key a) (entry_of_app a) = a.
Proof.
  intros Hc Ha. destruct (cn_apps _ _ Hc a Ha) as (E & Hd & Td & Tn & Hn & Ti & Ts & Te & Tu).
  unfold app_of_entry, entry_of_app, app_key. simpl. rewrite !TrimSpace_idemp.
  rewrite Tn, Ti, Ts, Te, Tu, Td, (proj2 (String.eqb_neq _ _) Hn),
    (proj2 (String.eqb_neq _ _) Hd). destruct a; simpl in *. by subst.
Qed.

Lemma reload_eq c :
  config_normal env c → (c_Zones c = [] → c_Apps c = []) →
  reload c = c_with_Apps (grouped_apps (c_Zones c) (c_Apps c)) c.
Proof.
  intros Hc Hz. pose proof Hc as [Hzones Happs Hag Hdd Hdd0 Hpip Hrt].
  unfold reload, UnmarshalYAML, persisted, MarshalYAML.
  cbn [cy_Server cy_DataDir cy_PublicIP cy_DDNSProviders cy_Agents cy_DeployTargets
       cy_Zones cy_Domains cy_Apps].
  rewrite (proj2 (String.eqb_neq _ _) Hdd0).
  assert ((if public_ip_unset (sv_PublicIP (c_Server c))
           then sv_with_PublicIP zero_PublicIPConfig (c_Server c) else c_Server c)
          = c_Server c) as ->.
  { destruct (public_ip_unset _) eqn:E; [|done].
    destruct (c_Server c) as [? ? ? ? ? [v4 v6 t] ?]. unfold public_ip_unset in E.
    simpl in *. destruct v4, v6; try done. by apply Z.eqb_eq in E as ->. }
  rewrite Hrt, Hag.
  assert (sv_with_Runtime (sv_Runtime (c_Server c)) (c_Server c) = c_Server c) as ->
    by (by destruct (c_Server c)).
  rewrite <-Hdd, <-Hpip.
  assert (∀ zs, (∀ z, z ∈ zs → z ∈ c_Zones c) →
    map zone_of_domain (map (domain_of_zone (appsByDomain (c_Apps c))) zs) = zs ∧
    concat (map apps_of_domain (map (domain_of_zone (appsByDomain (c_Apps c))) zs)) =
    grouped_apps zs (c_Apps c)) as Hall.
  { induction zs as [|z zs IH]; intros Hsub; simpl; [done|].
    destruct IH as [IH1 IH2]; [intros; apply Hsub; by constructor|].
    destruct (Hzones z) as (? & ? & ? & ?); [apply Hsub; constructor|].
    destruct (zone_roundtrip (appsByDomain (c_Apps c)) z) as (E1 & E2 & E3); [done..|].
    rewrite IH1, IH2, E1. split; [done|]. unfold grouped_apps. cbn [map concat]. f_equal.
    unfold apps_of_domain. rewrite E2, E3, appsByDomain_lookup, map_map. unfold apps_of.
    rewrite <-map_id. apply map_ext_in. intros a Ha. apply filter_In in Ha as [Ha Hk]. beq.
    rewrite <-Hk. apply (app_roundtrip c); [done|]. by apply list_elem_of_In. }
  destruct (Hall (c_Zones c)) as [E1 E2]; [done|].
  destruct (c_Zones c) as [|z zs] eqn:Ez.
  - simpl. rewrite (Hz eq_refl). unfold normalizeLegacyModel, c_with_Apps, c_with_Zones. simpl.
    by rewrite Ez.
  - cbn [map] in *. rewrite E1, E2. unfold c_with_Apps. by rewrite Ez.
Qed.

Lemma config_normal_grouped c :
  config_normal env c → NoDup (map z_Domain (c_Zones c)) →
  (∀ a, a ∈ c_Apps c → app_key a ∈ map z_Domain (c_Zones c)) →
  config_normal env (c_with_Apps (grouped_apps (c_Zones c) (c_Apps c)) c).
Proof.
  intros [] Hnd Hin. split; try done. intros a Ha. simpl in Ha.
  rewrite grouped_apps_perm in Ha by done. by apply cn_apps0.
Qed.

(** C24. Writing a configuration and loading it again loses nothing: for a
    configuration in the form that loading establishes, whose domains are
    distinct and whose applications belong to a zone (validation requires
    both), the reloaded configuration differs only in the order of the
    applications, which come back grouped by zone; a second round changes
    nothing at all. *)
Theorem Marshal_Unmarshal_roundtrip c :
  config_normal env c → NoDup (map z_Domain (c_Zones c)) →
  (∀ a, a ∈ c_Apps c → app_key a ∈ map z_Domain (c_Zones c)) →
  reload c = c_with_Apps (grouped_apps (c_Zones c) (c_Apps c)) c ∧
  c_Apps (reload c) ≡ₚ c_Apps c ∧
  reload (reload c) = reload c.
Proof.
  intros Hc Hnd Hin.
  assert (∀ l, l ≡ₚ c_Apps c → c_Zones c = [] → l = []) as Hz.
  { intros l Hl Ez. rewrite Ez in Hin. destruct l as [|a l]; [done|].
    assert (a ∈ c_Apps c) as Ha by (rewrite <-Hl; constructor).
    specialize (Hin a Ha). by apply elem_of_nil in Hin. }
  rewrite reload_eq by (done || by apply Hz).
  pose proof (grouped_apps_perm _ _ Hnd Hin) as Hp.
  split_and!; [done|done|].
  rewrite reload_eq; [|by apply config_normal_grouped|by apply Hz].
  simpl. rewrite grouped_apps_idemp by done. done.
Qed.
End roundtrip.

Section reload_props.
Context `{GoRuntime} `{NetURL} `{Lego} `{YAML} (env : Env).

(** ** What a load finds after an update *)

(** An application as it is loaded: both its domain and its zone are the
    domain it is listed under. *)
Definition app_loaded (a : CustomApp) : CustomApp :=
  {| app_Name := app_Name a; app_Icon := app_Icon a; app_Domain := app_key a;
     app_Zone := app_key a; app_Subdomain := app_Subdomain a;
     app_ExitNode := app_ExitNode a; app_TargetURL := app_TargetURL a |}.

(** The same configuration, as it is loaded: the applications grouped by
    zone, without what the file does not keep of an agent. *)
Definition as_loaded (c : Config) : Config :=
  {| c_Server := c_Server c; c_DataDir := sv_DataDir (c_Server c);
     c_PublicIP := sv_PublicIP (c_Server c); c_DDNSProviders := c_DDNSProviders c;
     c_Apps := map app_loaded (grouped_apps (c_Zones c) (c_Apps c));
     c_Agents := map persisted_agent (c_Agents c); c_DeployTargets := c_DeployTargets c;
     c_Zones := c_Zones c |}.

(** What loading trims, what the API trims, and what neither changes. *)
Record tidy (c : Config) : Prop := {
  td_zones : ∀ z, z ∈ c_Zones c → trimmed (z_Name z) ∧ trimmed (z_Domain z);
  td_apps : ∀ a, a ∈ c_Apps c → trimmed (app_Name a) ∧ trimmed (app_Icon a) ∧
    trimmed (app_Subdomain a) ∧ trimmed (app_ExitNode a) ∧ trimmed (app_TargetURL a);
  td_data_dir : TrimSpace (sv_DataDir (c_Server c)) ≠ "";
  td_runtime : Normalized env (sv_Runtime (c_Server c)) = sv_Runtime (c_Server c)
}.

Lemma app_key_loaded a : app_key (app_loaded a) = app_key a.
Proof.
  unfold app_key at 1. cbn [app_loaded app_Domain app_Zone].
  assert (TrimSpace (app_key a) = app_key a) as ->
    by (unfold app_key; case_split; apply TrimSpace_idemp).
  destruct (String.eqb (app_key a) "") eqn:E; by beq.
Qed.

Lemma grouped_apps_loaded zones apps :
  grouped_apps zones (map app_loaded apps) = map app_loaded (grouped_apps zones apps).
Proof.
  unfold grouped_apps. rewrite concat_map, map_map. f_equal. apply map_ext. intros z.
  unfold apps_of. induction apps as [|a apps IH]; [done|]. cbn [map List.filter].
  rewrite app_key_loaded, IH. by case_split.
Qed.

Lemma map_fixed {A} (f : A → A) l x : map f l = l → x ∈ l → f x = x.
Proof.
  induction l as [|y l IH]; [by intros _ ?%elem_of_nil|]. intros [= Ey El].
  intros [->|Hx]%elem_of_cons; [done|by apply IH].
Qed.

Section loading.
Context (c : Config).
Hypothesis Hok : config_ok env c.
Hypothesis Htidy : tidy c.
Hypothesis Hdefault : map zone_defaults (c_Zones c) = c_Zones c.

Lemma zone_named z : z ∈ c_Zones c → z_Name z ≠ "" ∧ z_Domain z ≠ "".
Proof.
  intros Hz. destruct (co_zones _ _ Hok z Hz) as [[Hd _ _ _ _] _]. split; [|done].
  pose proof (map_fixed _ _ _ Hdefault Hz) as E. intros Hn. apply Hd.
  destruct (td_zones _ Htidy z Hz) as [_ Ht].
  apply (f_equal z_Name) in E. rewrite zone_defaults_eq in E. cbn [z_Name] in E.
  unfold name_default in E. rewrite Hn in E. cbn in E. by rewrite Ht in E.
Qed.

Lemma app_key_zone a : a ∈ c_Apps c → app_key a ∈ map z_Domain (c_Zones c).
Proof. intros Ha. by apply (co_apps _ _ Hok a Ha). Qed.

Lemma loaded_apps_perm : c_Apps (as_loaded c) ≡ₚ map app_loaded (c_Apps c).
Proof.
  cbn [as_loaded c_Apps]. apply Permutation_map, grouped_apps_perm; [apply Hok|].
  exact app_key_zone.
Qed.

Lemma app_loaded_Validate a :
  a ∈ c_Apps c → app_key a ≠ "" ∧ CustomApp_Validate (app_loaded a) = None.
Proof.
  intros Ha. destruct (co_apps _ _ Hok a Ha) as (Hv & Hk & _).
  assert (app_key a ≠ "") as Hne.
  { apply list_elem_of_fmap in Hk as (z & -> & Hz). by apply zone_named. }
  split; [done|]. revert Hv. unfold CustomApp_Validate. cbn [app_loaded app_Domain].
  assert (TrimSpace (app_key a) = app_key a) as Ht
    by (unfold app_key; case_split; apply TrimSpace_idemp).
  rewrite Ht, (proj2 (String.eqb_neq _ _) Hne).
  destruct (String.eqb (TrimSpace (app_Domain a)) "");
    cbn [app_with_Domain app_loaded app_Name app_Domain app_Subdomain app_TargetURL];
    rewrite Ht, (proj2 (String.eqb_neq _ _) Hne); by repeat case_split.
Qed.

Lemma as_loaded_normal : config_normal env (as_loaded c).
Proof.
  split; try apply Htidy; try done.
  - intros z Hz. destruct (td_zones _ Htidy z Hz). by destruct (zone_named z Hz).
  - intros a Ha. rewrite loaded_apps_perm in Ha.
    apply list_elem_of_fmap in Ha as (a0 & -> & Ha).
    destruct (td_apps _ Htidy a0 Ha) as (Tn & ? & ? & ? & ?).
    destruct (app_loaded_Validate a0 Ha) as [Hk Hv].
    split_and!; try done.
    + cbn [app_loaded app_Domain]. unfold app_key. case_split; apply trimmed_TrimSpace.
    + intros Hn. cbn [app_loaded app_Name] in Hn. destruct (co_apps _ _ Hok a0 Ha) as [Hv0 _].
      revert Hv0. unfold CustomApp_Validate.
      destruct (String.eqb (TrimSpace (app_Domain a0)) ""); cbn [app_with_Domain app_Name];
        by rewrite Hn.
  - cbn [as_loaded c_Agents]. by rewrite map_map.
Qed.

Lemma reload_as_loaded : reload env c = as_loaded c.
Proof.
  assert (reload env (as_loaded c) = as_loaded c) as E.
  { rewrite reload_eq; [|exact as_loaded_normal|].
    - unfold c_with_Apps. cbn [as_loaded c_Server c_DataDir c_PublicIP c_DDNSProviders
        c_Agents c_DeployTargets c_Zones c_Apps].
      rewrite grouped_apps_loaded, grouped_apps_idemp by apply Hok. done.
    - cbn [as_loaded c_Zones c_Apps]. by intros ->. }
  transitivity (reload env (as_loaded c)); [|done]. unfold reload. f_equal. unfold persisted, MarshalYAML.
  cbn [cy_Server cy_DataDir cy_PublicIP cy_DDNSProviders cy_Apps cy_Agents cy_DeployTargets
       cy_Zones cy_Domains as_loaded c_Server c_DDNSProviders c_Agents c_DeployTargets c_Zones].
  f_equal; [by rewrite map_map|]. apply map_ext_in. intros z Hz%list_elem_of_In.
  unfold domain_of_zone. f_equal. rewrite !appsByDomain_lookup.
  destruct (td_zones _ Htidy z Hz) as [_ Ht]. destruct (zone_named z Hz) as [_ Hd].
  rewrite Ht, (proj2 (String.eqb_neq _ _) Hd). cbn [as_loaded c_Apps].
  pose proof (apps_of_grouped (c_Zones c) (c_Apps c) z (co_domains _ _ Hok) Hz) as Hg.
  unfold apps_of in Hg. rewrite <-Hg.
  generalize (grouped_apps (c_Zones c) (c_Apps c)) as l. intros l.
  induction l as [|a l IH]; [done|]. cbn [map List.filter]. rewrite app_key_loaded.
  case_split; cbn [map]; by rewrite IH.
Qed.

Lemma config_ok_as_loaded : config_ok env (as_loaded c).
Proof.
  pose proof Hok as []. pose proof (td_data_dir _ Htidy) as Hdd.
  assert (map app_host (map app_loaded (c_Apps c)) = map app_host (c_Apps c)) as Eh.
  { rewrite map_map. apply map_ext. intros a. unfold app_host. by rewrite app_key_loaded. }
  assert (map an_Name (map persisted_agent (c_Agents c)) = map an_Name (c_Agents c)) as Ea
    by (by rewrite map_map).
  split; cbn [as_loaded c_Server c_DDNSProviders c_Agents c_DeployTargets c_Zones];
    rewrite ?Ea; try done.
  - unfold effective_server. cbn [as_loaded c_Server c_DataDir c_PublicIP].
    rewrite (proj2 (String.eqb_neq _ _) Hdd). cbn [andb].
    intros E. apply Hdd. revert E. destruct (public_ip_unset _); cbn; by intros ->.
  - unfold effective_server in *. cbn [as_loaded c_Server c_DataDir c_PublicIP].
    rewrite (proj2 (String.eqb_neq _ _) Hdd) in *. cbn [andb] in *.
    destruct (public_ip_unset (sv_PublicIP (c_Server c))) eqn:E; [|done].
    cbn [sv_with_PublicIP sv_PublicIP]. destruct (sv_PublicIP (c_Server c)) as [v4 v6 t].
    unfold public_ip_unset in E. cbn in E. destruct v4, v6; try done.
    apply Z.eqb_eq in E as ->. done.
  - intros a (a0 & -> & Ha)%list_elem_of_fmap. exact (co_agents0 a0 Ha).
  - intros a Ha. rewrite loaded_apps_perm in Ha.
    apply list_elem_of_fmap in Ha as (a0 & -> & Ha).
    rewrite app_key_loaded. split; [by apply app_loaded_Validate|]. exact (proj2 (co_apps0 a0 Ha)).
  - rewrite loaded_apps_perm, map_map. done.
  - by rewrite loaded_apps_perm, Eh.
Qed.

Lemma load_as_loaded : validated env (reload env c) = Ok (as_loaded c).
Proof.
  rewrite reload_as_loaded. unfold validated.
  pose proof (Config_Validate_correct env (as_loaded c)) as Hv.
  destruct (Config_Validate env (as_loaded c)) as [c' [e|]].
  { destruct Hv. exact config_ok_as_loaded. }
  destruct Hv as [_ ->]. unfold c_with_Zones. cbn [as_loaded c_Zones]. by rewrite Hdefault.
Qed.
End loading.

(** A file that an older version of the program has not written: its zones
    and applications are given under [domains], and its data directory is not
    blank.  A missing or an empty file stands for the default configuration. *)
Definition current_file (path : string) (fs : Files) : Prop :=
  ∀ data raw, fs !! path = Some data → yaml_Unmarshal data = Ok (Some raw) →
    (cy_Domains raw ≠ [] ∨ cy_Zones raw = [] ∧ cy_Apps raw = []) ∧
    (TrimSpace (sv_DataDir (cy_Server raw)) ≠ "" ∨ TrimSpace (cy_DataDir raw) ≠ "").

Lemma tidy_defaults c :
  tidy c → tidy (c_with_Zones (map zone_defaults (c_Zones c)) c).
Proof.
  intros []. split; try done. intros z (z0 & -> & Hz)%list_elem_of_fmap.
  destruct (td_zones0 z0 Hz) as [Hn Hd]. rewrite zone_defaults_eq. cbn [z_Name z_Domain].
  split; [|done]. unfold name_default. case_split; [apply trimmed_TrimSpace|done].
Qed.

Lemma tidy_default : tidy (Default env).
Proof. split; try (by intros ? ?%elem_of_nil); [done|]. apply default_source_normalized. Qed.

Lemma tidy_UnmarshalYAML raw :
  (cy_Domains raw ≠ [] ∨ cy_Zones raw = [] ∧ cy_Apps raw = []) →
  (TrimSpace (sv_DataDir (cy_Server raw)) ≠ "" ∨ TrimSpace (cy_DataDir raw) ≠ "") →
  tidy (UnmarshalYAML env raw).
Proof.
  intros Hshape Hdir. unfold UnmarshalYAML. cbv zeta.
  set (server0 := if String.eqb _ _ then _ else cy_Server raw).
  assert (TrimSpace (sv_DataDir server0) ≠ "") as Hd0.
  { unfold server0. destruct (String.eqb (TrimSpace (sv_DataDir (cy_Server raw))) "") eqn:E; beq;
      [|done]. by destruct Hdir. }
  set (server1 := if public_ip_unset _ then _ else server0).
  assert (TrimSpace (sv_DataDir server1) ≠ "") as Hd1 by (unfold server1; by case_split).
  clearbody server1. clear server0 Hd0.
  destruct (cy_Domains raw) as [|domain domains].
  - destruct Hshape as [?|[-> ->]]; [done|]. cbn. split; cbn; try (by intros ? ?%elem_of_nil);
      [done|]. apply Normalized_idempotent.
  - split; cbn [c_Zones c_Apps c_Server sv_with_Runtime sv_DataDir sv_Runtime];
      [..|done|apply Normalized_idempotent].
    + intros z (d & -> & _)%list_elem_of_fmap. unfold zone_of_domain. cbn [z_Name z_Domain].
      split; [case_split|]; apply trimmed_TrimSpace.
    + intros a Ha%list_elem_of_In. apply in_concat in Ha as (l & Hl & Ha).
      apply in_map_iff in Hl as (d & <- & _). unfold apps_of_domain in Ha.
      apply in_map_iff in Ha as (entry & <- & _). unfold app_of_entry.
      cbn [app_Name app_Icon app_Subdomain app_ExitNode app_TargetURL].
      split_and!; try apply trimmed_TrimSpace. case_split; apply trimmed_TrimSpace.
Qed.

Lemma LoadFile_tidy calls path fs c :
  path ≠ "" → current_file path fs → LoadFile env calls fs path = Ok c → tidy c.
Proof.
  intros Hp Hfile. unfold LoadFile. rewrite (proj2 (String.eqb_neq _ _) Hp).
  assert (∀ c0, tidy c0 → validated env c0 = Ok c → tidy c) as Hval.
  { intros c0 Ht. unfold validated. pose proof (Config_Validate_correct env c0) as Hv.
    destruct (Config_Validate env c0) as [c' [e|]]; [done|]. intros [= <-].
    destruct Hv as [_ ->]. by apply tidy_defaults. }
  unfold ReadFile, Files in *. destruct (fc_read calls) as [e|].
  { destruct (_ && _); [|done]. apply Hval, tidy_default. }
  destruct (fs !! path) as [data|] eqn:E.
  2:{ destruct (_ && _); [|done]. apply Hval, tidy_default. }
  cbn. destruct (yaml_Unmarshal data) as [[raw|]|] eqn:Ey; [| |done].
  - apply Hval. destruct (Hfile data raw E Ey). by apply tidy_UnmarshalYAML.
  - apply Hval, tidy_default.
Qed.

Lemma Manager_Path_nonempty m : Manager_Path m ≠ "".
Proof. unfold Manager_Path. destruct (String.eqb (m_path m) "") eqn:E; by beq. Qed.

(** An update that keeps the configuration tidy is loaded as it was stored. *)
Lemma Update_reloads m calls fs mutator fs' c :
  (∀ raw s, yaml_Marshal raw = Ok s → yaml_Unmarshal s = Ok (Some (persisted raw))) →
  (∀ cfg cfg', tidy cfg → mutator cfg = Ok cfg' → tidy cfg') →
  current_file (Manager_Path m) fs →
  Manager_Update env m calls fs mutator = (fs', Ok c) →
  Manager_Load env m calls_ok fs' = Ok (as_loaded c) ∧ current_file (Manager_Path m) fs'.
Proof.
  intros Hyaml Hmut Hfile Hu. pose proof (Manager_Update_spec env m calls fs mutator) as Hs.
  rewrite Hu in Hs. destruct Hs as (Hok & (cfg0 & cfg1 & Hload & Hm & Hc) & data & Hdata & Hfs).
  apply LoadFile_tidy in Hload; [|apply Manager_Path_nonempty|done].
  assert (tidy c) as Htidy by (rewrite Hc; by apply tidy_defaults, (Hmut cfg0)).
  assert (map zone_defaults (c_Zones c) = c_Zones c) as Hdefault.
  { rewrite Hc. cbn [c_with_Zones c_Zones]. rewrite map_map. apply map_ext, zone_defaults_idemp. }
  pose proof (Hyaml _ _ Hdata) as Hy. split.
  - unfold Manager_Load, LoadFile, ReadFile, Files in *. cbn [calls_ok fc_read].
    rewrite (proj2 (String.eqb_neq _ _) (Manager_Path_nonempty m)), Hfs. cbn. rewrite Hy.
    by apply load_as_loaded.
  - intros data' raw E Ey. rewrite Hfs in E. injection E as <-. rewrite Hy in Ey.
    injection Ey as <-. cbn [persisted MarshalYAML cy_Domains cy_Zones cy_Apps cy_Server].
    split; [|left; apply Htidy]. destruct (c_Zones c); [by right|by left].
Qed.
End reload_props.

(** ** Examples *)

(** A machine without container environment variables. *)
Definition example_env : Env :=
  {| Getenv _ := ""; Getuid := 0%Z;
     EvalSymlinks p := Err (Esentinel ErrNotExist "no such file or directory") |}.

Definition example_app : CustomApp :=
  {| app_Name := "nas"; app_Icon := ""; app_Domain := "example.com";
     app_Zone := "example.com"; app_Subdomain := "nas"; app_ExitNode := "";
     app_TargetURL := "http://10.0.0.2:5000" |}.

(** A small valid configuration: one provider, one zone with DDNS, one
    application. *)
Definition example_config : Config :=
  {| c_Server :=
       {| sv_APIAddr := ":18080"; sv_HTTPAddr := ":8080"; sv_HTTPSAddr := ":8443";
          sv_Auth := zero_AuthConfig; sv_DataDir := "./data";
          sv_PublicIP := zero_PublicIPConfig;
          sv_Runtime := {| rs_DisplayName := ""; rs_Runtime := "docker";
            rs_Endpoint := "unix:///var/run/docker.sock"; rs_Network := "" |} |};
     c_DataDir := "./data"; c_PublicIP := zero_PublicIPConfig;
     c_DDNSProviders := [{| prov_Ref := "cf"; prov_Type := "cloudflare";
                            prov_Options := {[ "api_token" := "t" ]} |}];
     c_Apps := [example_app]; c_Agents := []; c_DeployTargets := [];
     c_Zones := [z_with_DDNS
       {| ddns_Enabled := true; ddns_ProviderRefs := ["cf"]; ddns_IPv4 := true;
          ddns_IPv6 := false; ddns_Wildcard := false; ddns_TTL := 300%Z |} example_zone] |}.

(** A codec for one document: it satisfies the law on [yaml.Marshal] and
    [yaml.Unmarshal]. *)
Definition one_document : configYAML := MarshalYAML example_config.
Definition reference_yaml : YAML :=
  {| yaml_Marshal raw := if bool_decide (raw = one_document) then Ok "doc" else Err (Enew "");
     yaml_Unmarshal s := if String.eqb s "doc" then Ok (Some (persisted one_document))
                         else Err (Enew "") |}.

#[local] Existing Instance reference_runtime.
#[local] Existing Instance reference_url.
#[local] Existing Instance reference_lego.
#[local] Existing Instance reference_yaml.

Lemma reference_yaml_law raw s :
  yaml_Marshal raw = Ok s → yaml_Unmarshal s = Ok (Some (persisted raw)).
Proof.
  simpl. destruct (bool_decide (raw = one_document)) eqn:E; [|done]. beq. subst.
  by intros [= <-].
Qed.

Lemma example_config_normal : config_normal example_env example_config.
Proof.
  split; [| |by vm_compute..].
  - intros z ->%list_elem_of_singleton. by split_and!.
  - intros a ->%list_elem_of_singleton. by split_and!.
Qed.

Example Marshal_Unmarshal_roundtrip_witness :
  reload example_env example_config =
  c_with_Apps (grouped_apps (c_Zones example_config) (c_Apps example_config)) example_config.
Proof.
  apply (Marshal_Unmarshal_roundtrip example_env example_config).
  - apply example_config_normal.
  - apply NoDup_singleton.
  - intros a ->%list_elem_of_singleton. apply list_elem_of_singleton. by vm_compute.
Defined.

(** A data directory of one space at the top level is accepted, and is lost by
    the first update: the file that is then written is refused. *)
Definition blank_data_dir : configYAML :=
  {| cy_Server := sv_with_DataDir "" (c_Server example_config); cy_DataDir := " ";
     cy_PublicIP := zero_PublicIPConfig; cy_DDNSProviders := c_DDNSProviders example_config;
     cy_Apps := []; cy_Agents := []; cy_DeployTargets := []; cy_Zones := [];
     cy_Domains := cy_Domains one_document |}.
Example blank_data_dir_lost :
  is_ok (validated example_env (UnmarshalYAML example_env blank_data_dir)) = true ∧
  is_ok (validated example_env (reload example_env (UnmarshalYAML example_env blank_data_dir)))
    = false.
Proof. by vm_compute. Qed.
