(* ===== verification/Store.v ===== *)
(** The in-memory store ([src/internal/platform/store]).

    Every method takes the store's lock, so a method is one atomic step on a
    [MemoryStore]; the lists come back as copies, so callers share nothing with
    the store.  [store_step] is the transition relation of all the mutators,
    and [StateStore] the interface through which the DDNS service uses it. *)

From S2P Require Import Prelude GoStrings GoRuntime Core.

Record MemoryStore := {
  st_zones : gmap string ManagedZone;
  st_providers : gmap string DDNSProviderConfig;
  st_apps : gmap string CustomApp;
  st_sources : gmap string RuntimeSource;
  st_agents : gmap string AgentNode;
  st_pendingAgents : gmap string AgentNode;
  st_applicationList : list Application;
  st_routes : gmap string DiscoveredRoute;
  st_ddns : gmap string DDNSSyncState;
  st_targets : gmap string DeployTarget;
  st_bundles : gmap string CertificateBundle;
  st_deploys : list DeployRun;
  st_jobs : list JobRun
}.

(** ** Field updates *)

Definition set_zones (v : gmap string ManagedZone) (s : MemoryStore) : MemoryStore :=
  {| st_zones := v; st_providers := st_providers s; st_apps := st_apps s;
     st_sources := st_sources s; st_agents := st_agents s;
     st_pendingAgents := st_pendingAgents s; st_applicationList := st_applicationList s;
     st_routes := st_routes s; st_ddns := st_ddns s; st_targets := st_targets s;
     st_bundles := st_bundles s; st_deploys := st_deploys s; st_jobs := st_jobs s |}.
Definition set_providers (v : gmap string DDNSProviderConfig) (s : MemoryStore) : MemoryStore :=
  {| st_zones := st_zones s; st_providers := v; st_apps := st_apps s;
     st_sources := st_sources s; st_agents := st_agents s;
     st_pendingAgents := st_pendingAgents s; st_applicationList := st_applicationList s;
     st_routes := st_routes s; st_ddns := st_ddns s; st_targets := st_targets s;
     st_bundles := st_bundles s; st_deploys := st_deploys s; st_jobs := st_jobs s |}.
Definition set_apps (v : gmap string CustomApp) (s : MemoryStore) : MemoryStore :=
  {| st_zones := st_zones s; st_providers := st_providers s; st_apps := v;
     st_sources := st_sources s; st_agents := st_agents s;
     st_pendingAgents := st_pendingAgents s; st_applicationList := st_applicationList s;
     st_routes := st_routes s; st_ddns := st_ddns s; st_targets := st_targets s;
     st_bundles := st_bundles s; st_deploys := st_deploys s; st_jobs := st_jobs s |}.
Definition set_sources (v : gmap string RuntimeSource) (s : MemoryStore) : MemoryStore :=
  {| st_zones := st_zones s; st_providers := st_providers s; st_apps := st_apps s;
     st_sources := v; st_agents := st_agents s; st_pendingAgents := st_pendingAgents s;
     st_applicationList := st_applicationList s; st_routes := st_routes s;
     st_ddns := st_ddns s; st_targets := st_targets s; st_bundles := st_bundles s;
     st_deploys := st_deploys s; st_jobs := st_jobs s |}.
Definition set_agents (v : gmap string AgentNode) (s : MemoryStore) : MemoryStore :=
  {| st_zones := st_zones s; st_providers := st_providers s; st_apps := st_apps s;
     st_sources := st_sources s; st_agents := v; st_pendingAgents := st_pendingAgents s;
     st_applicationList := st_applicationList s; st_routes := st_routes s;
     st_ddns := st_ddns s; st_targets := st_targets s; st_bundles := st_bundles s;
     st_deploys := st_deploys s; st_jobs := st_jobs s |}.
Definition set_pendingAgents (v : gmap string AgentNode) (s : MemoryStore) : MemoryStore :=
  {| st_zones := st_zones s; st_providers := st_providers s; st_apps := st_apps s;
     st_sources := st_sources s; st_agents := st_agents s; st_pendingAgents := v;
     st_applicationList := st_applicationList s; st_routes := st_routes s;
     st_ddns := st_ddns s; st_targets := st_targets s; st_bundles := st_bundles s;
     st_deploys := st_deploys s; st_jobs := st_jobs s |}.
Definition set_applicationList (v : list Application) (s : MemoryStore) : MemoryStore :=
  {| st_zones := st_zones s; st_providers := st_providers s; st_apps := st_apps s;
     st_sources := st_sources s; st_agents := st_agents s;
     st_pendingAgents := st_pendingAgents s; st_applicationList := v;
     st_routes := st_routes s; st_ddns := st_ddns s; st_targets := st_targets s;
     st_bundles := st_bundles s; st_deploys := st_deploys s; st_jobs := st_jobs s |}.
Definition set_routes (v : gmap string DiscoveredRoute) (s : MemoryStore) : MemoryStore :=
  {| st_zones := st_zones s; st_providers := st_providers s; st_apps := st_apps s;
     st_sources := st_sources s; st_agents := st_agents s;
     st_pendingAgents := st_pendingAgents s; st_applicationList := st_applicationList s;
     st_routes := v; st_ddns := st_ddns s; st_targets := st_targets s;
     st_bundles := st_bundles s; st_deploys := st_deploys s; st_jobs := st_jobs s |}.
Definition set_ddns (v : gmap string DDNSSyncState) (s : MemoryStore) : MemoryStore :=
  {| st_zones := st_zones s; st_providers := st_providers s; st_apps := st_apps s;
     st_sources := st_sources s; st_agents := st_agents s;
     st_pendingAgents := st_pendingAgents s; st_applicationList := st_applicationList s;
     st_routes := st_routes s; st_ddns := v; st_targets := st_targets s;
     st_bundles := st_bundles s; st_deploys := st_deploys s; st_jobs := st_jobs s |}.
Definition set_targets (v : gmap string DeployTarget) (s : MemoryStore) : MemoryStore :=
  {| st_zones := st_zones s; st_providers := st_providers s; st_apps := st_apps s;
     st_sources := st_sources s; st_agents := st_agents s;
     st_pendingAgents := st_pendingAgents s; st_applicationList := st_applicationList s;
     st_routes := st_routes s; st_ddns := st_ddns s; st_targets := v;
     st_bundles := st_bundles s; st_deploys := st_deploys s; st_jobs := st_jobs s |}.
Definition set_bundles (v : gmap string CertificateBundle) (s : MemoryStore) : MemoryStore :=
  {| st_zones := st_zones s; st_providers := st_providers s; st_apps := st_apps s;
     st_sources := st_sources s; st_agents := st_agents s;
     st_pendingAgents := st_pendingAgents s; st_applicationList := st_applicationList s;
     st_routes := st_routes s; st_ddns := st_ddns s; st_targets := st_targets s;
     st_bundles := v; st_deploys := st_deploys s; st_jobs := st_jobs s |}.
Definition set_deploys (v : list DeployRun) (s : MemoryStore) : MemoryStore :=
  {| st_zones := st_zones s; st_providers := st_providers s; st_apps := st_apps s;
     st_sources := st_sources s; st_agents := st_agents s;
     st_pendingAgents := st_pendingAgents s; st_applicationList := st_applicationList s;
     st_routes := st_routes s; st_ddns := st_ddns s; st_targets := st_targets s;
     st_bundles := st_bundles s; st_deploys := v; st_jobs := st_jobs s |}.
Definition set_jobs (v : list JobRun) (s : MemoryStore) : MemoryStore :=
  {| st_zones := st_zones s; st_providers := st_providers s; st_apps := st_apps s;
     st_sources := st_sources s; st_agents := st_agents s;
     st_pendingAgents := st_pendingAgents s; st_applicationList := st_applicationList s;
     st_routes := st_routes s; st_ddns := st_ddns s; st_targets := st_targets s;
     st_bundles := st_bundles s; st_deploys := st_deploys s; st_jobs := v |}.

Definition NewMemoryStore : MemoryStore :=
  {| st_zones := ∅; st_providers := ∅; st_apps := ∅; st_sources := ∅; st_agents := ∅;
     st_pendingAgents := ∅; st_applicationList := []; st_routes := ∅; st_ddns := ∅;
     st_targets := ∅; st_bundles := ∅; st_deploys := []; st_jobs := [] |}.

(** ** Keys *)

Definition keyedMap {T} (values : list T) (idFn : T → string) : gmap string T :=
  keyed_from idFn ∅ values.

Definition domain_key (domain : ManagedZone) : string :=
  if negb (String.eqb (z_Domain domain) "") then z_Domain domain else z_Name domain.

Definition ddnsStateKey (zone provider host recordType : string) : string :=
  zone +:+ ":" +:+ provider +:+ ":" +:+ recordType +:+ ":" +:+ host.

Definition state_key (state : DDNSSyncState) : string :=
  ddnsStateKey (ds_Domain state) (ds_Provider state) (ds_Host state) (ds_RecordType state).

(** ** Operations *)
Section store.
Context `{GoRuntime} (env : Env).

Definition ReplaceCustomApps (apps : list CustomApp) (s : MemoryStore) : MemoryStore :=
  set_apps (keyedMap apps app_Name) s.
Definition PutCustomApp (app : CustomApp) (s : MemoryStore) : MemoryStore :=
  set_apps (<[app_Name app := app]> (st_apps s)) s.
Definition GetCustomApp (name : string) (s : MemoryStore) : option CustomApp := st_apps s !! name.
Definition DeleteCustomApp (name : string) (s : MemoryStore) : MemoryStore :=
  set_apps (delete name (st_apps s)) s.
Definition ListCustomApps (s : MemoryStore) : list CustomApp :=
  sort_by app_Name (map_values (st_apps s)).

Definition ReplaceApplications (apps : list Application) (s : MemoryStore) : MemoryStore :=
  set_applicationList apps s.
Definition ListApplications (s : MemoryStore) : list Application := st_applicationList s.

Definition ReplaceDomains (domains : list ManagedZone) (s : MemoryStore) : MemoryStore :=
  set_zones (keyedMap domains domain_key) s.
Definition PutDomain (domain : ManagedZone) (s : MemoryStore) : MemoryStore :=
  set_zones (<[domain_key domain := domain]> (st_zones s)) s.
Definition GetDomain (name : string) (s : MemoryStore) : option ManagedZone := st_zones s !! name.
Definition DeleteDomain (name : string) (s : MemoryStore) : MemoryStore :=
  set_zones (delete name (st_zones s)) s.
Definition ListDomains (s : MemoryStore) : list ManagedZone :=
  sort_by z_Name (map_values (st_zones s)).

Definition ReplaceDDNSProviders (providers : list DDNSProviderConfig) (s : MemoryStore) : MemoryStore :=
  set_providers (keyedMap providers prov_Ref) s.
Definition PutDDNSProvider (provider : DDNSProviderConfig) (s : MemoryStore) : MemoryStore :=
  set_providers (<[prov_Ref provider := provider]> (st_providers s)) s.
Definition GetDDNSProvider (name : string) (s : MemoryStore) : option DDNSProviderConfig := st_providers s !! name.
Definition ListDDNSProviders (s : MemoryStore) : list DDNSProviderConfig :=
  sort_by prov_Ref (map_values (st_providers s)).

Definition ReplaceRuntimes (sources : list RuntimeSource) (s : MemoryStore) : MemoryStore :=
  set_sources (keyedMap sources (RuntimeOrDefault env)) s.
Definition PutRuntimeSource (source : RuntimeSource) (s : MemoryStore) : MemoryStore :=
  set_sources (<[RuntimeOrDefault env source := source]> (st_sources s)) s.
Definition ListRuntimes (s : MemoryStore) : list RuntimeSource :=
  sort_by (RuntimeOrDefault env) (map_values (st_sources s)).

Definition ReplaceAgents (nodes : list AgentNode) (s : MemoryStore) : MemoryStore :=
  set_agents (keyedMap nodes an_Name) s.
Definition PutAgent (node : AgentNode) (s : MemoryStore) : MemoryStore :=
  set_agents (<[an_Name node := node]> (st_agents s)) s.
Definition ListAgents (s : MemoryStore) : list AgentNode :=
  sort_by an_Name (map_values (st_agents s)).

Definition PutPendingAgent (node : AgentNode) (s : MemoryStore) : MemoryStore :=
  set_pendingAgents (<[an_Name node := node]> (st_pendingAgents s)) s.
Definition DeletePendingAgent (name : string) (s : MemoryStore) : MemoryStore :=
  set_pendingAgents (delete name (st_pendingAgents s)) s.
Definition ListPendingAgents (s : MemoryStore) : list AgentNode :=
  sort_by an_Name (map_values (st_pendingAgents s)).

Definition ReplaceRoutes (routes : list DiscoveredRoute) (s : MemoryStore) : MemoryStore :=
  set_routes (keyedMap routes r_ID) s.
Definition ListRoutes (s : MemoryStore) : list DiscoveredRoute :=
  sort_by r_Host (map_values (st_routes s)).

(** [PutDDNSSyncState] first completes the two names of the zone. *)
Definition complete_state (state : DDNSSyncState) : DDNSSyncState :=
  let domain := if String.eqb (ds_Domain state) "" then ds_Zone state else ds_Domain state in
  let zone := if String.eqb (ds_Zone state) "" then domain else ds_Zone state in
  {| ds_Domain := domain; ds_Zone := zone; ds_Provider := ds_Provider state;
     ds_Host := ds_Host state; ds_RecordType := ds_RecordType state;
     ds_Value := ds_Value state; ds_Status := ds_Status state; ds_Error := ds_Error state;
     ds_SyncedAt := ds_SyncedAt state |}.
Definition PutDDNSSyncState (state : DDNSSyncState) (s : MemoryStore) : MemoryStore :=
  let state := complete_state state in
  set_ddns (<[state_key state := state]> (st_ddns s)) s.
Definition GetDDNSSyncState (zone provider host recordType : string) (s : MemoryStore)
  : option DDNSSyncState := st_ddns s !! ddnsStateKey zone provider host recordType.

Definition ddns_less (a b : DDNSSyncState) : bool :=
  let name x := if String.eqb (ds_Domain x) "" then ds_Zone x else ds_Domain x in
  if negb (String.eqb (name a) (name b)) then str_ltb (name a) (name b)
  else if negb (String.eqb (ds_Provider a) (ds_Provider b))
  then str_ltb (ds_Provider a) (ds_Provider b)
  else if negb (String.eqb (ds_Host a) (ds_Host b)) then str_ltb (ds_Host a) (ds_Host b)
  else str_ltb (ds_RecordType a) (ds_RecordType b).
Definition ListDDNSSyncStates (s : MemoryStore) : list DDNSSyncState :=
  sort_slice ddns_less (map_values (st_ddns s)).

Definition ReplaceDeployTargets (targets : list DeployTarget) (s : MemoryStore) : MemoryStore :=
  set_targets (keyedMap targets dt_Name) s.
Definition PutDeployTarget (target : DeployTarget) (s : MemoryStore) : MemoryStore :=
  set_targets (<[dt_Name target := target]> (st_targets s)) s.
Definition GetDeployTarget (name : string) (s : MemoryStore) : option DeployTarget := st_targets s !! name.
Definition DeleteDeployTarget (name : string) (s : MemoryStore) : MemoryStore :=
  set_targets (delete name (st_targets s)) s.
Definition ListDeployTargets (s : MemoryStore) : list DeployTarget :=
  sort_by dt_Name (map_values (st_targets s)).

Definition PutBundle (bundle : CertificateBundle) (s : MemoryStore) : MemoryStore :=
  set_bundles (<[cb_Name bundle := bundle]> (st_bundles s)) s.
Definition GetBundle (name : string) (s : MemoryStore) : option CertificateBundle := st_bundles s !! name.
Definition DeleteBundle (name : string) (s : MemoryStore) : MemoryStore :=
  set_bundles (delete name (st_bundles s)) s.
Definition ListBundles (s : MemoryStore) : list CertificateBundle :=
  sort_by cb_Name (map_values (st_bundles s)).

Definition AppendDeployRun (run : DeployRun) (s : MemoryStore) : MemoryStore :=
  set_deploys (st_deploys s ++ [run]) s.
Definition ListDeployRuns (s : MemoryStore) : list DeployRun := st_deploys s.
Definition AppendJobRun (run : JobRun) (s : MemoryStore) : MemoryStore :=
  set_jobs (st_jobs s ++ [run]) s.
Definition ListJobRuns (s : MemoryStore) : list JobRun := st_jobs s.

(** One call of a mutator; the methods named after zones are the ones named
    after domains. *)
Inductive store_step : MemoryStore → MemoryStore → Prop :=
| step_ReplaceCustomApps l s : store_step s (ReplaceCustomApps l s)
| step_PutCustomApp x s : store_step s (PutCustomApp x s)
| step_DeleteCustomApp n s : store_step s (DeleteCustomApp n s)
| step_ReplaceApplications l s : store_step s (ReplaceApplications l s)
| step_ReplaceDomains l s : store_step s (ReplaceDomains l s)
| step_PutDomain x s : store_step s (PutDomain x s)
| step_DeleteDomain n s : store_step s (DeleteDomain n s)
| step_ReplaceDDNSProviders l s : store_step s (ReplaceDDNSProviders l s)
| step_PutDDNSProvider x s : store_step s (PutDDNSProvider x s)
| step_ReplaceRuntimes l s : store_step s (ReplaceRuntimes l s)
| step_PutRuntimeSource x s : store_step s (PutRuntimeSource x s)
| step_ReplaceAgents l s : store_step s (ReplaceAgents l s)
| step_PutAgent x s : store_step s (PutAgent x s)
| step_PutPendingAgent x s : store_step s (PutPendingAgent x s)
| step_DeletePendingAgent n s : store_step s (DeletePendingAgent n s)
| step_ReplaceRoutes l s : store_step s (ReplaceRoutes l s)
| step_PutDDNSSyncState x s : store_step s (PutDDNSSyncState x s)
| step_ReplaceDeployTargets l s : store_step s (ReplaceDeployTargets l s)
| step_PutDeployTarget x s : store_step s (PutDeployTarget x s)
| step_DeleteDeployTarget n s : store_step s (DeleteDeployTarget n s)
| step_PutBundle x s : store_step s (PutBundle x s)
| step_DeleteBundle n s : store_step s (DeleteBundle n s)
| step_AppendDeployRun x s : store_step s (AppendDeployRun x s)
| step_AppendJobRun x s : store_step s (AppendJobRun x s).
End store.

(** ** The state store of the DDNS service, as an interface *)
Class StateStore (S : Type) := {
  GetSyncState : S → string → string → string → string → option DDNSSyncState;
  PutSyncState : DDNSSyncState → S → S * option error
}.

(** What the DDNS service relies on: a state that was stored without error is
    what the same names give back. *)
Class StateStoreLaws (S : Type) `{StateStore S} := {
  get_put_same s s' state :
    PutSyncState state s = (s', None) → ds_Domain state ≠ "" → ds_Zone state ≠ "" →
    GetSyncState s' (ds_Domain state) (ds_Provider state) (ds_Host state)
      (ds_RecordType state) = Some state
}.

#[export] Instance MemoryStore_StateStore : StateStore MemoryStore := {
  GetSyncState s zone provider host recordType := GetDDNSSyncState zone provider host recordType s;
  PutSyncState state s := (PutDDNSSyncState state s, None)
}.

(** * Properties *)

(** ** The key of a DDNS state *)

Definition no_colon (s : string) : Prop := str_forall (λ c, negb (Ascii.eqb c colon)) s = true.

#[local] Arguments String.append : simpl nomatch.

Lemma no_colon_prefix a b x y :
  no_colon a → no_colon b → a +:+ ":" +:+ x = b +:+ ":" +:+ y → a = b ∧ x = y.
Proof.
  unfold no_colon. revert b. induction a as [|c a IH]; intros [|d b]; simpl; intros Ha Hb E.
  - by injection E.
  - injection E as <- _. done.
  - injection E as -> _. done.
  - apply andb_true_iff in Ha as [_ Ha]. apply andb_true_iff in Hb as [_ Hb].
    injection E as -> E. by apply IH in E as [-> ->].
Qed.

Lemma no_colon_suffix_aux x b y :
  no_colon b → b = x +:+ ":" +:+ y → False.
Proof.
  unfold no_colon. revert b. induction x as [|c x IH]; intros b Hb ->; simpl in Hb; [done|].
  apply andb_true_iff in Hb as [_ Hb]. by apply (IH _ Hb).
Qed.

Lemma no_colon_suffix a b x y :
  no_colon a → no_colon b → x +:+ ":" +:+ a = y +:+ ":" +:+ b → x = y ∧ a = b.
Proof.
  intros Ha Hb. revert y. induction x as [|c x IH]; intros [|d y]; simpl; intros E.
  - by injection E.
  - injection E as <- E. exfalso. by apply (no_colon_suffix_aux y a b).
  - injection E as -> E. exfalso. by apply (no_colon_suffix_aux x b a).
  - injection E as -> E. by apply IH in E as [-> ->].
Qed.

(** The key under which a DDNS state is stored determines the zone, the
    provider, the record type and the host, whatever characters the
    provider's name has: two records share a state only if they are the same
    record (domain names and record types contain no colon). *)
Theorem ddnsStateKey_injective z1 z2 p1 p2 h1 h2 t1 t2 :
  no_colon z1 → no_colon z2 → no_colon h1 → no_colon h2 → no_colon t1 → no_colon t2 →
  ddnsStateKey z1 p1 h1 t1 = ddnsStateKey z2 p2 h2 t2 →
  z1 = z2 ∧ p1 = p2 ∧ h1 = h2 ∧ t1 = t2.
Proof.
  intros Hz1 Hz2 Hh1 Hh2 Ht1 Ht2. unfold ddnsStateKey. intros E.
  apply no_colon_prefix in E as [-> E]; [|done..].
  assert (∀ p t h, p +:+ ":" +:+ t +:+ ":" +:+ h = (p +:+ ":" +:+ t) +:+ ":" +:+ h) as Hassoc
    by (intros; by rewrite !app_assoc_str).
  rewrite !Hassoc in E.
  apply no_colon_suffix in E as [E ->]; [|done..].
  by apply no_colon_suffix in E as [-> ->].
Qed.

Example ddnsStateKey_injective_witness :
  ("example.com" = "example.com" ∧ "a:b" = "a:b" ∧ "*.example.com" = "*.example.com"
   ∧ "A" = "A").
Proof. apply (ddnsStateKey_injective); by vm_compute. Defined.

(** ** The order of the DDNS states *)

(** The lexicographic extension of an order on a key. *)
Definition then_by {A} (key : A → string) (less : A → A → bool) (a b : A) : bool :=
  if negb (String.eqb (key a) (key b)) then str_ltb (key a) (key b) else less a b.

Lemma then_by_strict_weak {A} (key : A → string) less :
  strict_weak less → strict_weak (then_by key less).
Proof.
  intros Hsw. assert (∀ a b c : A,
      then_by key less a b = true → then_by key less b c = true → then_by key less a c = true)
    as Htr.
  { intros a b c. unfold then_by.
    destruct (String.eqb (key a) (key b)) eqn:E1, (String.eqb (key b) (key c)) eqn:E2;
      simpl; beq; rewrite ?E1, ?E2.
    - rewrite String.eqb_refl. simpl. apply less_trans, Hsw.
    - apply String.eqb_neq in E2. by rewrite E2.
    - rewrite <-E2. apply String.eqb_neq in E1. by rewrite E1.
    - intros H1 H2. destruct (String.eqb (key a) (key c)) eqn:E3; beq; simpl.
      + rewrite E3 in H1. apply str_ltb_asym in H1. congruence.
      + by eapply str_ltb_trans. }
  split; [|done|].
  - intros a. unfold then_by. rewrite String.eqb_refl. simpl. apply less_irrefl, Hsw.
  - intros a b c. unfold then_by.
    destruct (String.eqb (key a) (key b)) eqn:E1, (String.eqb (key b) (key c)) eqn:E2;
      simpl; beq; rewrite ?E1, ?E2.
    + rewrite String.eqb_refl. simpl. apply less_negtrans, Hsw.
    + apply String.eqb_neq in E2. by rewrite E2.
    + rewrite <-E2. apply String.eqb_neq in E1. by rewrite E1.
    + intros H1 H2. destruct (String.eqb (key a) (key c)) eqn:E3; beq; simpl.
      * rewrite <-E3 in H2. by destruct E1; apply str_ltb_total.
      * by eapply str_ltb_negtrans.
Qed.

Lemma then_by_anti {A} (key : A → string) less a b :
  then_by key less a b = false → then_by key less b a = false →
  key a = key b ∧ less a b = false ∧ less b a = false.
Proof.
  unfold then_by. destruct (String.eqb (key a) (key b)) eqn:E; beq; simpl.
  - by rewrite E, String.eqb_refl.
  - rewrite (proj2 (String.eqb_neq (key b) (key a))) by congruence. simpl.
    intros H1 H2. by destruct E; apply str_ltb_total.
Qed.

Lemma ddns_less_eq :
  ddns_less = then_by (λ x, if String.eqb (ds_Domain x) "" then ds_Zone x else ds_Domain x)
                (then_by ds_Provider (then_by ds_Host (less_by ds_RecordType))).
Proof. done. Qed.

Lemma ddns_less_strict_weak : strict_weak ddns_less.
Proof. rewrite ddns_less_eq. do 3 apply then_by_strict_weak. apply less_by_strict_weak. Qed.

(** ** Every table is keyed by its values, in every reachable store *)
Section reachable.
Context `{GoRuntime} (env : Env).

Record store_ok (s : MemoryStore) : Prop := {
  ok_zones : keyed domain_key (st_zones s);
  ok_providers : keyed prov_Ref (st_providers s);
  ok_apps : keyed app_Name (st_apps s);
  ok_sources : keyed (RuntimeOrDefault env) (st_sources s);
  ok_agents : keyed an_Name (st_agents s);
  ok_pendingAgents : keyed an_Name (st_pendingAgents s);
  ok_routes : keyed r_ID (st_routes s);
  ok_ddns : keyed state_key (st_ddns s);
  ok_targets : keyed dt_Name (st_targets s);
  ok_bundles : keyed cb_Name (st_bundles s)
}.

Lemma store_ok_new : store_ok NewMemoryStore.
Proof. split; apply keyed_empty. Qed.

Lemma store_step_ok s s' : store_step env s s' → store_ok s → store_ok s'.
Proof.
  destruct 1; intros []; split; try done;
    simpl; first [apply keyed_keyed_from, keyed_empty | by apply keyed_insert
                 | by apply keyed_delete].
Qed.

Definition reachable (s : MemoryStore) : Prop := rtc (store_step env) NewMemoryStore s.

Lemma reachable_ok s : reachable s → store_ok s.
Proof.
  unfold reachable. intros Hr.
  apply (rtc_ind_r (R:=store_step env) (λ s, store_ok s) NewMemoryStore); [apply store_ok_new| |done].
  intros s1 s2 _ Hstep Hok. by eapply store_step_ok.
Qed.
End reachable.

Lemma state_key_tuple a b :
  (ds_Domain a, ds_Provider a, ds_Host a, ds_RecordType a) =
  (ds_Domain b, ds_Provider b, ds_Host b, ds_RecordType b) → state_key a = state_key b.
Proof. intros [= E1 E2 E3 E4]. unfold state_key. congruence. Qed.

(** A stored state names its domain, unless both names are empty. *)
Definition domain_set (m : gmap string DDNSSyncState) : Prop :=
  ∀ k st, m !! k = Some st → ds_Domain st = "" → ds_Zone st = "".

Lemma reachable_domain_set `{GoRuntime} env s : reachable env s → domain_set (st_ddns s).
Proof.
  intros Hr. apply (rtc_ind_r (R:=store_step env) (λ s, domain_set (st_ddns s)) NewMemoryStore); [done| |done].
  intros s1 s2 _ Hstep Hs. destruct Hstep; try done. simpl.
  intros k st. rewrite lookup_insert. case_decide; [|apply Hs].
  intros [= <-]. unfold complete_state. simpl.
  destruct (String.eqb (ds_Domain x) "") eqn:E1, (String.eqb (ds_Zone x) "") eqn:E2; beq;
    simpl; congruence.
Qed.

(** The entries of a table have different values of [f]. *)
Definition tells_apart {A} (f : A → string) (m : gmap string A) : Prop :=
  ∀ k1 k2 x y, m !! k1 = Some x → m !! k2 = Some y → f x = f y → x = y.

Lemma sorted_by_deterministic {A} (f : A → string) (m : gmap string A) (R1 R2 : GoRuntime) :
  tells_apart f m →
  @sort_by A f R1 (@map_values R1 A m) = @sort_by A f R2 (@map_values R2 A m).
Proof.
  intros Hf. apply (sorted_less_unique (less_by f)).
  - apply less_by_strict_weak.
  - intros x y [k1 Hx]%elem_of_sort_by%elem_of_map_values [k2 Hy]%elem_of_sort_by%elem_of_map_values
      Hxy Hyx. by eapply Hf, str_ltb_total.
  - rewrite !sort_by_perm. unfold map_values. by rewrite !map_range_perm.
  - apply sort_by_sorted.
  - apply sort_by_sorted.
Qed.

(** C32. The lists that the API serves are determined by the stored entries: in
    every store that any sequence of operations can produce, each list is the
    same whatever order the map is ranged over and whatever sorting algorithm
    is used.  This holds without condition for the applications, providers,
    runtimes, agents, pending agents, deploy targets, bundles and DDNS states;
    for the zones it holds when no two of them have the same name, and for the
    routes when no two of them have the same host: these two lists are sorted
    by something else than what their entries are stored under. *)
Theorem listings_deterministic (R1 R2 R : GoRuntime) env s :
  @reachable R env s →
  @ListCustomApps R1 s = @ListCustomApps R2 s ∧
  @ListDDNSProviders R1 s = @ListDDNSProviders R2 s ∧
  @sort_by _ (@RuntimeOrDefault R env) R1 (@map_values R1 _ (st_sources s)) =
    @sort_by _ (@RuntimeOrDefault R env) R2 (@map_values R2 _ (st_sources s)) ∧
  @ListAgents R1 s = @ListAgents R2 s ∧
  @ListPendingAgents R1 s = @ListPendingAgents R2 s ∧
  @ListDeployTargets R1 s = @ListDeployTargets R2 s ∧
  @ListBundles R1 s = @ListBundles R2 s ∧
  (tells_apart z_Name (st_zones s) → @ListDomains R1 s = @ListDomains R2 s) ∧
  (tells_apart r_Host (st_routes s) → @ListRoutes R1 s = @ListRoutes R2 s) ∧
  @ListDDNSSyncStates R1 s = @ListDDNSSyncStates R2 s.
Proof.
  intros Hr. pose proof (reachable_domain_set env s Hr) as Hdom.
  apply reachable_ok in Hr as [].
  split_and!; try by apply sorted_values_deterministic.
  1,2: apply sorted_by_deterministic.
  apply (sorted_less_unique ddns_less); try (apply sort_slice_sorted, ddns_less_strict_weak).
  - apply ddns_less_strict_weak.
  - intros x y Hx Hy Hxy Hyx.
    assert (∀ z, z ∈ @ListDDNSSyncStates R1 s → st_ddns s !! state_key z = Some z ∧
      (if String.eqb (ds_Domain z) "" then ds_Zone z else ds_Domain z) = ds_Domain z) as Hin.
    { intros z Hz. unfold ListDDNSSyncStates in Hz. rewrite sort_slice_perm in Hz.
      apply elem_of_map_values in Hz as [k Hk]. rewrite (ok_ddns0 _ _ Hk). split; [done|].
      destruct (String.eqb (ds_Domain z) "") eqn:E; [|done]. beq.
      rewrite E. by eapply Hdom. }
    destruct (Hin x Hx) as [Kx Dx]. destruct (Hin y Hy) as [Ky Dy].
    rewrite ddns_less_eq in Hxy, Hyx.
    apply then_by_anti in Hxy as (E1 & Hxy1 & Hyx1); [|done].
    apply then_by_anti in Hxy1 as (E2 & Hxy2 & Hyx2); [|done].
    apply then_by_anti in Hxy2 as (E3 & Hxy3 & Hyx3); [|done].
    pose proof (str_ltb_total _ _ Hxy3 Hyx3) as E4. rewrite Dx, Dy in E1.
    assert (state_key x = state_key y) as Ek by (apply state_key_tuple; congruence).
    rewrite Ek in Kx. congruence.
  - unfold ListDDNSSyncStates. rewrite !sort_slice_perm. unfold map_values.
    by rewrite !map_range_perm.
Qed.

Example listings_deterministic_witness :
  let run t := {| ds_Domain := "a.com"; ds_Zone := "a.com"; ds_Provider := "p";
    ds_Host := t; ds_RecordType := "A"; ds_Value := "1.2.3.4"; ds_Status := "success";
    ds_Error := ""; ds_SyncedAt := 0%Z |} in
  let s := PutDDNSSyncState (run "*.a.com") (PutDDNSSyncState (run "a.com") NewMemoryStore) in
  @ListDDNSSyncStates reversed_runtime s = @ListDDNSSyncStates reference_runtime s.
Proof.
  intros run s.
  apply (listings_deterministic reversed_runtime reference_runtime reference_runtime
    {| Getenv _ := ""; Getuid := 0%Z; EvalSymlinks p := Ok p |} s).
  eapply rtc_l; [|apply rtc_once]; constructor.
Defined.

(** Two zones of the same name, two routes of the same host: their order in
    the lists that the API serves is that of the maps. *)
Example listings_map_order :
  let zone d := {| z_Name := "home"; z_Domain := d; z_Default := false; z_Wildcard := false;
    z_DDNS := zero_DDNSZoneConfig; z_Certificate := zero_CertificatePolicy |} in
  let zones := ReplaceDomains [zone "a.com"; zone "b.com"] NewMemoryStore in
  let route id := {| r_ID := id; r_Name := ""; r_Icon := ""; r_Domain := ""; r_Zone := "";
    r_Subdomain := ""; r_Host := "web.a.com"; r_Source := ""; r_ExitNode := "";
    r_Origin := ""; r_Runtime := ""; r_TargetURL := ""; r_ProxyURL := ""; r_Network := "";
    r_Container := zero_ContainerRef |} in
  let routes := ReplaceRoutes [route "1"; route "2"] NewMemoryStore in
  @ListDomains ranges_reversed zones ≠ @ListDomains reference_runtime zones ∧
  @ListRoutes ranges_reversed routes ≠ @ListRoutes reference_runtime routes.
Proof. split; vm_compute; discriminate. Qed.

(** ** Reading what was written *)

(** The domain table answers with the last zone written under a name: after
    a reload the last zone of the list with that domain (the name when the
    domain is empty), after a put that zone, after a delete nothing; other
    names are untouched. *)
Theorem domain_table_spec s name z zones :
  GetDomain name (ReplaceDomains zones s) =
    find_last (λ z, String.eqb (domain_key z) name) zones ∧
  GetDomain (domain_key z) (PutDomain z s) = Some z ∧
  GetDomain name (DeleteDomain name s) = None ∧
  (∀ other, other ≠ domain_key z → GetDomain other (PutDomain z s) = GetDomain other s) ∧
  (∀ other, other ≠ name → GetDomain other (DeleteDomain name s) = GetDomain other s).
Proof.
  unfold GetDomain. simpl. split_and!.
  - unfold keyedMap. rewrite keyed_from_lookup, lookup_empty. by destruct (find_last _ _).
  - apply lookup_insert_eq.
  - apply lookup_delete_eq.
  - intros other Hne. by rewrite lookup_insert_ne by congruence.
  - intros other Hne. by rewrite lookup_delete_ne by congruence.
Qed.

#[export] Instance MemoryStore_StateStoreLaws : StateStoreLaws MemoryStore.
Proof.
  split. intros s s' state [= <-] Hd Hz. 
  assert (complete_state state = state) as E.
  { unfold complete_state. rewrite (proj2 (String.eqb_neq _ _) Hd),
      (proj2 (String.eqb_neq _ _) Hz). by destruct state. }
  unfold GetSyncState, MemoryStore_StateStore, GetDDNSSyncState, PutDDNSSyncState.
  rewrite E. apply lookup_insert_eq.
Qed.
