(* ===== verification/Proxy.v ===== *)
(** The reverse proxy ([src/internal/proxy]): the route table that maps host
    names to routes, the decision the HTTP handler takes for a request, and
    the store of TLS certificates. *)

From S2P Require Import Prelude GoStrings GoRuntime Core.

(** ** The route table *)
Section route_table.
Context `{GoRuntime} `{NetURL}.

(** Swapped under the write lock, so readers see one table or the other. *)
Record RouteTable := { rt_routes : gmap string DiscoveredRoute }.

Definition NewRouteTable : RouteTable := {| rt_routes := ∅ |}.

Definition Swap (routes : list DiscoveredRoute) : RouteTable :=
  {| rt_routes := keyed_from (λ r, ToLower (r_Host r)) ∅ routes |}.

Definition lookup_key (host : string) : string :=
  let key := ToLower host in
  match Cut colon key with Some (trimmed, _) => trimmed | None => key end.

Definition Lookup (t : RouteTable) (host : string) : option DiscoveredRoute :=
  rt_routes t !! lookup_key host.

(** What the handler does with a request: the proxying itself is
    [net/http/httputil]'s; [transport] is what the resolver supplied. *)
Inductive proxy_decision (T : Type) : Type :=
  | NotFound
  | BadGateway (message : string)
  | ProxyTo (target : url) (transport : option T).
Arguments NotFound {T}.
Arguments BadGateway {T}.
Arguments ProxyTo {T}.

Definition ServeHTTP {T} (t : RouteTable)
    (TransportResolver : option (DiscoveredRoute → option T)) (host : string)
  : proxy_decision T :=
  match Lookup t host with
  | None => NotFound
  | Some route =>
      let targetURL := if negb (String.eqb (TrimSpace (r_ProxyURL route)) "")
                       then r_ProxyURL route else r_TargetURL route in
      match url_Parse targetURL with
      | Err e => BadGateway (error_text e)
      | Ok target =>
          ProxyTo target
            (match TransportResolver with Some f => f route | None => None end)
      end
  end.
End route_table.

(** ** The certificate store *)
Section tls_store.
Context `{GoRuntime} {Certificate : Type}.

Record TLSStore := {
  tls_exact : gmap string Certificate;
  tls_wildcards : gmap string Certificate;
  tls_defaultCert : option Certificate
}.

Definition NewTLSStore : TLSStore :=
  {| tls_exact := ∅; tls_wildcards := ∅; tls_defaultCert := None |}.

Definition Set_ (host : string) (cert : Certificate) (s : TLSStore) : TLSStore :=
  let host := ToLower (TrimSpace host) in
  if HasPrefix host "*." then
    {| tls_exact := tls_exact s;
       tls_wildcards := <[str_drop 2 host := cert]> (tls_wildcards s);
       tls_defaultCert := tls_defaultCert s |}
  else
    {| tls_exact := <[host := cert]> (tls_exact s); tls_wildcards := tls_wildcards s;
       tls_defaultCert := match tls_defaultCert s with
                          | None => Some cert
                          | Some d => Some d
                          end |}.

Definition SetDefault (cert : Certificate) (s : TLSStore) : TLSStore :=
  {| tls_exact := tls_exact s; tls_wildcards := tls_wildcards s;
     tls_defaultCert := Some cert |}.

Definition HasCertificates (s : TLSStore) : bool :=
  match tls_defaultCert s with Some _ => true | None => false end.

(** The loop over the proper suffixes of the name, longest first. *)
Fixpoint find_wildcard (wildcards : gmap string Certificate) (parts : list string)
  : option Certificate :=
  match parts with
  | [] => None
  | _ :: parts' =>
      match parts' with
      | [] => None
      | _ =>
          match wildcards !! Join "." parts' with
          | Some cert => Some cert
          | None => find_wildcard wildcards parts'
          end
      end
  end.

Definition GetCertificate (s : TLSStore) (hello : option string)
  : result error Certificate :=
  match tls_defaultCert s with
  | None => Err (Enew "no certificates loaded")
  | Some defaultCert =>
      let ServerName := default "" hello in
      if String.eqb ServerName "" then Ok defaultCert
      else
        let host := ToLower ServerName in
        match tls_exact s !! host with
        | Some cert => Ok cert
        | None =>
            match find_wildcard (tls_wildcards s) (Split dot host) with
            | Some cert => Ok cert
            | None => Ok defaultCert
            end
        end
  end.

(** [LoadPair], with [tls.LoadX509KeyPair] as an argument. *)
Definition LoadPair (LoadX509KeyPair : string → string → result error Certificate)
    (host certPath keyPath : string) (s : TLSStore) : TLSStore * option error :=
  match LoadX509KeyPair certPath keyPath with
  | Err e => (s, Some e)
  | Ok cert => (Set_ host cert s, None)
  end.
End tls_store.
Arguments TLSStore Certificate : clear implicits.

(** * Properties *)

(** ** Routing *)

Lemma is_ascii_cons c s : is_ascii (String c s) = is_ascii_char c && is_ascii s.
Proof. done. Qed.

Lemma is_ascii_app a b : is_ascii (a +:+ b) = is_ascii a && is_ascii b.
Proof.
  unfold is_ascii. induction a as [|c a IH]; [done|].
  change (String c a +:+ b) with (String c (a +:+ b)). simpl. by rewrite IH, andb_assoc.
Qed.

Lemma str_map_app f a b : str_map f (a +:+ b) = str_map f a +:+ str_map f b.
Proof.
  induction a as [|c a IH]; [done|].
  change (String c a +:+ b) with (String c (a +:+ b)). simpl. by rewrite IH.
Qed.

Lemma lower_char_colon c : Ascii.eqb (lower_char c) colon = Ascii.eqb c colon.
Proof. by destruct c as [[][][][][][][][]]; vm_compute. Qed.

Definition has_no_colon (s : string) : bool := str_forall (λ c, negb (Ascii.eqb c colon)) s.

Lemma lower_has_no_colon s : has_no_colon (str_map lower_char s) = has_no_colon s.
Proof.
  unfold has_no_colon. induction s as [|c s IH]; simpl; [done|].
  by rewrite lower_char_colon, IH.
Qed.

Lemma Cut_no_colon s : has_no_colon s = true → Cut colon s = None.
Proof.
  unfold has_no_colon. induction s as [|c s IH]; simpl; [done|].
  intros [Hc Hs]%andb_true_iff. apply negb_true_iff in Hc. by rewrite Hc, IH.
Qed.

Lemma Cut_colon s t : has_no_colon s = true → Cut colon (s +:+ ":" +:+ t) = Some (s, t).
Proof.
  unfold has_no_colon. induction s as [|c s IH]; [done|].
  change (String c s +:+ ":" +:+ t) with (String c (s +:+ ":" +:+ t)). simpl.
  intros [Hc Hs]%andb_true_iff. apply negb_true_iff in Hc. by rewrite Hc, IH.
Qed.

Lemma lookup_key_ascii `{GoRuntime} host :
  is_ascii host = true → has_no_colon host = true → lookup_key host = ToLower host.
Proof.
  intros Ha Hc. unfold lookup_key, ToLower. rewrite Ha.
  by rewrite Cut_no_colon by (by rewrite lower_has_no_colon).
Qed.

(** C31. A request reaches the last route installed for its host name, ignoring
    the letter case and the port of the Host header: the table built from a
    list of routes answers exactly as a search of that list from the end. *)
Theorem Lookup_Swap `{GoRuntime} routes host port :
  is_ascii host = true → has_no_colon host = true → is_ascii port = true →
  Lookup (Swap routes) host =
    find_last (λ r, String.eqb (ToLower (r_Host r)) (ToLower host)) routes ∧
  Lookup (Swap routes) (host +:+ ":" +:+ port) = Lookup (Swap routes) host ∧
  ∀ host', is_ascii host' = true → has_no_colon host' = true →
    EqualFold host host' = true → Lookup (Swap routes) host' = Lookup (Swap routes) host.
Proof.
  intros Ha Hc Hp. unfold Lookup, Swap. simpl. split_and!.
  - rewrite lookup_key_ascii, keyed_from_lookup, lookup_empty by done.
    by destruct (find_last _ _).
  - f_equal. rewrite (lookup_key_ascii host) by done. unfold lookup_key, ToLower.
    rewrite !is_ascii_app, Ha, Hp. change (is_ascii ":") with true. simpl andb. cbv iota.
    rewrite !str_map_app. change (str_map lower_char ":") with ":".
    by rewrite Cut_colon by (by rewrite lower_has_no_colon).
  - intros host' Ha' Hc' Hf. rewrite !lookup_key_ascii by done. f_equal.
    unfold EqualFold in Hf. rewrite Ha, Ha' in Hf. simpl in Hf. beq.
    unfold ToLower. by rewrite Ha, Ha'.
Qed.

Section routes_example.
#[local] Existing Instance reference_runtime.
Definition example_route (host target : string) : DiscoveredRoute :=
  {| r_ID := host; r_Name := ""; r_Icon := ""; r_Domain := ""; r_Zone := "";
     r_Subdomain := ""; r_Host := host; r_Source := ""; r_ExitNode := ""; r_Origin := "";
     r_Runtime := ""; r_TargetURL := target; r_ProxyURL := ""; r_Network := "";
     r_Container := zero_ContainerRef |}.

Example Lookup_Swap_witness :
  Lookup (Swap [example_route "nas.example.com" "http://a"; example_route "b" "http://b"])
    ("NAS.example.com" +:+ ":" +:+ "443") = Some (example_route "nas.example.com" "http://a").
Proof.
  destruct (Lookup_Swap
    [example_route "nas.example.com" "http://a"; example_route "b" "http://b"]
    "NAS.example.com" "443") as (H1 & -> & _); [done..|].
  rewrite H1. reflexivity.
Defined.
End routes_example.

(** ** Certificates *)
#[local] Arguments str_drop : simpl never.

Section tls_props.
Context `{GoRuntime} {Certificate : Type}.

Definition load_all (loads : list (string * Certificate)) : TLSStore Certificate :=
  foldl (λ s p, Set_ p.1 p.2 s) NewTLSStore loads.

Definition norm_host (h : string) : string := ToLower (TrimSpace h).
Definition is_wildcard (h : string) : bool := HasPrefix (norm_host h) "*.".

(** The last certificate loaded for exactly this host, or for this domain's
    wildcard. *)
Definition last_exact (loads : list (string * Certificate)) (host : string)
  : option Certificate :=
  snd <$> find_last (λ p, negb (is_wildcard p.1) && String.eqb (norm_host p.1) host) loads.
Definition last_wildcard (loads : list (string * Certificate)) (domain : string)
  : option Certificate :=
  snd <$> find_last (λ p, is_wildcard p.1 && String.eqb (str_drop 2 (norm_host p.1)) domain)
            loads.

Lemma load_all_from s loads :
  let s' := foldl (λ s p, Set_ p.1 p.2 s) s loads in
  (∀ k, tls_exact s' !! k =
     match last_exact loads k with Some c => Some c | None => tls_exact s !! k end) ∧
  (∀ k, tls_wildcards s' !! k =
     match last_wildcard loads k with Some c => Some c | None => tls_wildcards s !! k end) ∧
  (HasCertificates s' = HasCertificates s || existsb (λ p, negb (is_wildcard p.1)) loads).
Proof.
  unfold last_exact, last_wildcard. revert s.
  induction loads as [|[h c] loads IH]; intros s; simpl.
  { by rewrite orb_false_r. }
  destruct (IH (Set_ h c s)) as (IH1 & IH2 & IH3). split_and!.
  - intros k. rewrite IH1. destruct (find_last _ loads); [done|]. simpl.
    unfold Set_, is_wildcard. fold (norm_host h).
    destruct (HasPrefix (norm_host h) "*."); simpl; [done|].
    destruct (String.eqb (norm_host h) k) eqn:E; beq; simpl.
    + subst. by rewrite lookup_insert_eq.
    + by rewrite lookup_insert_ne.
  - intros k. rewrite IH2. destruct (find_last _ loads); [done|]. simpl.
    unfold Set_, is_wildcard. fold (norm_host h).
    destruct (HasPrefix (norm_host h) "*."); simpl; [|done].
    destruct (String.eqb (str_drop 2 (norm_host h)) k) eqn:E; beq; simpl.
    + subst. by rewrite lookup_insert_eq.
    + by rewrite lookup_insert_ne.
  - rewrite IH3, orb_assoc. f_equal. unfold Set_, HasCertificates, is_wildcard.
    fold (norm_host h). destruct (HasPrefix (norm_host h) "*."); simpl.
    + by rewrite orb_false_r.
    + rewrite orb_true_r. by destruct (tls_defaultCert s).
Qed.

Definition no_dot (s : string) : bool := str_forall (λ c, negb (Ascii.eqb c dot)) s.

Lemma Split_label l d :
  no_dot l = true → Split dot (l +:+ "." +:+ d) = l :: Split dot d.
Proof.
  unfold no_dot. induction l as [|c l IH]; [done|].
  change (String c l +:+ "." +:+ d) with (String c (l +:+ "." +:+ d)). cbn [str_forall Split].
  intros [Hc Hl]%andb_true_iff. apply negb_true_iff in Hc. by rewrite Hc, IH.
Qed.

(** C30. The certificate served for a name, after any sequence of loads: the
    last one loaded for the name itself; else the last one loaded for the
    wildcard of its parent domain.  A certificate loaded only under wildcard
    names is no default: when every load was a wildcard, the store reports
    no certificates and every handshake is refused. *)
Theorem GetCertificate_spec loads name :
  name ≠ "" →
  let s := load_all loads in
  let host := ToLower name in
  (∀ c, last_exact loads host = Some c → GetCertificate s (Some name) = Ok c) ∧
  (∀ l d c, host = l +:+ "." +:+ d → no_dot l = true → last_exact loads host = None →
     last_wildcard loads d = Some c → HasCertificates s = true →
     GetCertificate s (Some name) = Ok c) ∧
  (HasCertificates s = false ↔ ∀ p, p ∈ loads → is_wildcard p.1 = true) ∧
  (HasCertificates s = false → ∀ hello, is_ok (GetCertificate s hello) = false).
Proof.
  intros Hname s host. destruct (load_all_from NewTLSStore loads) as (H1 & H2 & H3).
  fold s in H1, H2, H3. unfold load_all in s. fold s in H1, H2, H3.
  simpl in H3. unfold NewTLSStore in H1, H2. simpl in H1, H2.
  assert (HasCertificates s = false ↔ ∀ p, p ∈ loads → is_wildcard p.1 = true) as Hhas.
  { rewrite H3. split.
    - intros Hf p Hp. destruct (is_wildcard p.1) eqn:E; [done|]. exfalso.
      assert (existsb (λ p, negb (is_wildcard p.1)) loads = true); [|congruence].
      apply existsb_exists. exists p. split; [by apply list_elem_of_In|]. by rewrite E.
    - intros Hall. apply not_true_is_false. intros (p & Hp & Hw)%existsb_exists.
      apply list_elem_of_In in Hp. by rewrite (Hall p Hp) in Hw. }
  assert (String.eqb name "" = false) as En by (by apply String.eqb_neq).
  unfold GetCertificate. simpl. fold host. rewrite En. split_and!.
  - intros c Hc. rewrite H1, Hc.
    destruct (tls_defaultCert s) eqn:Ed; [done|]. exfalso.
    assert (HasCertificates s = false) as Hf by (unfold HasCertificates; by rewrite Ed).
    rewrite Hhas in Hf. unfold last_exact in Hc. apply fmap_Some in Hc as (p & Hp & _).
    apply find_last_Some in Hp as [Hp Hw]. by rewrite (Hf p Hp) in Hw.
  - intros l d c Hhost Hl Hex Hwild Hcert. unfold HasCertificates in Hcert.
    destruct (tls_defaultCert s); [|done]. rewrite H1, Hex, lookup_empty, Hhost, Split_label by done.
    simpl. destruct (Split dot d) as [|x xs] eqn:Es; [by apply Split_nonempty in Es|].
    rewrite <-Es. change "." with (String dot ""). by rewrite Join_Split, H2, Hwild.
  - exact Hhas.
  - unfold HasCertificates. intros Hf hello. by destruct (tls_defaultCert s).
Qed.
End tls_props.

Section tls_example.
#[local] Existing Instance reference_runtime.

Example GetCertificate_spec_witness :
  GetCertificate (load_all [("*.Example.com", 1); ("example.com", 2)])
    (Some "www.EXAMPLE.com") = Ok 1.
Proof.
  destruct (GetCertificate_spec [("*.Example.com", 1); ("example.com", 2)]
    "www.EXAMPLE.com") as (_ & Hw & _); [done|].
  apply (Hw "www" "example.com" 1); reflexivity.
Defined.

(** A certificate for "*.example.com" alone serves nobody. *)
Example wildcard_only :
  GetCertificate (load_all [("*.example.com", 1)]) (Some "www.example.com") =
  Err (Enew "no certificates loaded").
Proof. reflexivity. Qed.
End tls_example.
