(* ===== verification/Ddns.v ===== *)
(** Dynamic DNS: the public address detector ([src/internal/ddns/ipdetect]),
    the resolver of authoritative zones ([src/internal/dns/authzone]) and the
    synchronisation of a zone's records ([src/internal/ddns/service]).

    The outside world is an interface [World]: DNS and HTTP answers, the
    providers' updaters (which may change the world) and the clock.  The
    recorded states are behind [StateStore]. *)

From S2P Require Import Prelude GoStrings GoRuntime Core Registry Config Store.

Class World (W : Type) := {
  LookupNS : W → string → result error (list string);
  http_Get : W → string → result error string;
  Upsert : string → DNSRecord → W → W * option error;
  Now : W → Time
}.

(** ** Authoritative zones *)
Section authzone.
Context `{GoRuntime}.

Definition normalizeDNSName (value : string) : string :=
  TrimPrefix (TrimSuffix (TrimSpace value) ".") "*.".

(** The joins of the proper and improper suffixes of a list of labels. *)
Fixpoint label_suffixes (labels : list string) : list string :=
  match labels with
  | [] => []
  | _ :: labels' => Join "." labels :: label_suffixes labels'
  end.

Definition candidateZones (fqdn : string) : list string :=
  List.filter (λ candidate, negb (String.eqb candidate "")) (label_suffixes (Split dot fqdn)).

Fixpoint first_zone (lookupNS : string → result error (list string))
    (candidates : list string) : option string :=
  match candidates with
  | [] => None
  | candidate :: candidates' =>
      match lookupNS candidate with
      | Ok (_ :: _) => Some candidate
      | _ => first_zone lookupNS candidates'
      end
  end.

Definition ResolveAuthZone (lookupNS : string → result error (list string)) (fqdn : string)
  : result error string :=
  let fqdn := normalizeDNSName fqdn in
  if String.eqb fqdn "" then Err (Enew "fqdn is required")
  else match first_zone lookupNS (candidateZones fqdn) with
       | Some candidate => Ok candidate
       | None => Err (Enew ("no authoritative dns zone found for " +:+ quote fqdn))
       end.
End authzone.

(** ** Address detection *)
Record Snapshot := { snap_IPv4 : string; snap_IPv6 : string; snap_ObservedAt : Time }.
Definition zero_Snapshot : Snapshot :=
  {| snap_IPv4 := ""; snap_IPv6 := ""; snap_ObservedAt := 0%Z |}.
Record Request := { req_IPv4 : bool; req_IPv6 : bool }.

Record HTTPDetector := {
  det_IPv4URL : string;
  det_IPv6URL : string;
  det_IPv4URLs : list string;
  det_IPv6URLs : list string;
  det_Timeout : Duration
}.

Definition defaultIPv4URLs : list string :=
  ["https://api.ipify.org"; "https://ipv4.icanhazip.com"].
Definition defaultIPv6URLs : list string :=
  ["https://api64.ipify.org"; "https://ipv6.icanhazip.com"].

Definition DefaultHTTPDetector : HTTPDetector :=
  {| det_IPv4URL := ""; det_IPv6URL := ""; det_IPv4URLs := defaultIPv4URLs;
     det_IPv6URLs := defaultIPv6URLs; det_Timeout := (10 * second)%Z |}.

(** [PublicIPConfig.Detector] *)
Definition PublicIP_Detector (c : PublicIPConfig) : HTTPDetector :=
  let d := DefaultHTTPDetector in
  {| det_IPv4URL := det_IPv4URL d; det_IPv6URL := det_IPv6URL d;
     det_IPv4URLs := match pip_IPv4URLs c with [] => det_IPv4URLs d | urls => urls end;
     det_IPv6URLs := match pip_IPv6URLs c with [] => det_IPv6URLs d | urls => urls end;
     det_Timeout := if (0 <? pip_Timeout c)%Z then pip_Timeout c else det_Timeout d |}.

Section detect.
Context {W : Type} `{World W}.

Definition familyURLs (single : string) (many defaults : list string) : list string :=
  match many with
  | _ :: _ => many
  | [] => if negb (String.eqb (TrimSpace single) "") then [single] else defaults
  end.

Definition detectOne (w : W) (url : string) : result error string :=
  let? body := http_Get w url in Ok (TrimSpace body).

(** [detectFamily]: the first non-empty answer; otherwise the joined errors
    ([errors.Join] of none is nil, so an empty list of URLs is no error). *)
Fixpoint detectFamily_from (w : W) (label : string) (errs : list error)
    (urls : list string) : string * option error :=
  match urls with
  | [] => ("", join_errs errs)
  | url :: urls' =>
      match detectOne w url with
      | Ok value =>
          if negb (String.eqb value "") then (value, None)
          else detectFamily_from w label
                 (errs ++ [Enew ("detect " +:+ label +:+ " via " +:+ url
                                 +:+ " returned empty result")]) urls'
      | Err e =>
          detectFamily_from w label
            (errs ++ [Ewrap ("detect " +:+ label +:+ " via " +:+ url +:+ ": "
                             +:+ error_text e) e]) urls'
      end
  end.
Definition detectFamily (w : W) (label : string) (urls : list string)
  : string * option error := detectFamily_from w label [] urls.

Definition Detect (d : HTTPDetector) (w : W) (request : Request)
  : Snapshot * option error :=
  let request := if negb (req_IPv4 request) && negb (req_IPv6 request)
                 then {| req_IPv4 := true; req_IPv6 := true |} else request in
  let family (wanted : bool) label urls :=
    if wanted then detectFamily w label urls else ("", None) in
  let '(v4, err4) := family (req_IPv4 request) "IPv4"
    (familyURLs (det_IPv4URL d) (det_IPv4URLs d) defaultIPv4URLs) in
  let '(v6, err6) := family (req_IPv6 request) "IPv6"
    (familyURLs (det_IPv6URL d) (det_IPv6URLs d) defaultIPv6URLs) in
  ({| snap_IPv4 := v4; snap_IPv6 := v6;
      snap_ObservedAt := if negb (String.eqb v4 "") || negb (String.eqb v6 "")
                         then Now w else 0%Z |},
   errors_join [err4; err6]).
End detect.

(** ** Synchronising a zone *)
Section service.
Context `{GoRuntime} {W S : Type} `{World W} `{StateStore S}.

(** [Service]: the detector, the registered updaters by reference, and
    whether it was given a state store. *)
Record Service := {
  sv_Detector : option (W → Request → Snapshot * option error);
  sv_Providers : gset string;
  sv_HasStore : bool
}.

Definition NewService (detector : option (W → Request → Snapshot * option error))
  : Service :=
  {| sv_Detector := detector; sv_Providers := ∅; sv_HasStore := false |}.
Definition Service_Register (ref : string) (s : Service) : Service :=
  {| sv_Detector := sv_Detector s; sv_Providers := {[ref]} ∪ sv_Providers s;
     sv_HasStore := sv_HasStore s |}.

Definition stateDomain (zone : ManagedZone) : string :=
  if negb (String.eqb (z_Domain zone) "") then z_Domain zone else z_Name zone.

Definition ds_with_status (status err : string) (st : DDNSSyncState) : DDNSSyncState :=
  {| ds_Domain := ds_Domain st; ds_Zone := ds_Zone st; ds_Provider := ds_Provider st;
     ds_Host := ds_Host st; ds_RecordType := ds_RecordType st; ds_Value := ds_Value st;
     ds_Status := status; ds_Error := err; ds_SyncedAt := ds_SyncedAt st |}.

(** [s.StateStore.PutDDNSSyncState], when there is a store. *)
Definition put_state (svc : Service) (state : DDNSSyncState) (st : S) : S * option error :=
  if sv_HasStore svc then PutSyncState state st else (st, None).

Definition syncRecord (svc : Service) (providerRef : string) (zone : ManagedZone)
    (host : string) (recordType : RecordType) (value : string) (st : S) (w : W)
  : DDNSSyncState * option error * (S * W) :=
  if negb (DomainWithinManagedDomain (z_Domain zone) host) then
    (zero_DDNSSyncState, Some (WrapTargetOutsideManagedDomain (z_Domain zone) host), (st, w))
  else
    match ResolveAuthZone (LookupNS w) host with
    | Err e => (zero_DDNSSyncState, Some (WrapZoneResolutionFailed host e), (st, w))
    | Ok authZone =>
        let state :=
          {| ds_Domain := stateDomain zone; ds_Zone := authZone; ds_Provider := providerRef;
             ds_Host := host; ds_RecordType := recordType; ds_Value := value;
             ds_Status := ""; ds_Error := ""; ds_SyncedAt := Now w |} in
        let unchanged :=
          sv_HasStore svc &&
          match GetSyncState st (ds_Domain state) providerRef host recordType with
          | Some previous =>
              String.eqb (ds_Value previous) value &&
              negb (String.eqb (ds_Status previous) "failed")
          | None => false
          end in
        if unchanged then
          let state := ds_with_status "noop" "" state in
          let '(st, err) := PutSyncState state st in
          (state, err, (st, w))
        else
          let record :=
            {| rec_Domain := z_Domain zone; rec_Zone := authZone; rec_Name := host;
               rec_Type := recordType; rec_Value := value;
               rec_TTL := ddns_TTL (z_DDNS zone) |} in
          let '(w, err) := Upsert providerRef record w in
          match err with
          | Some err =>
              let err := if IsAccessDenied (Some err) then WrapZoneAccessDenied authZone err
                         else err in
              let state := ds_with_status "failed" (error_text err) state in
              let '(st, storeErr) := put_state svc state st in
              (state, match storeErr with
                      | Some storeErr => errors_join [Some err; Some storeErr]
                      | None => Some err
                      end, (st, w))
          | None =>
              let state := ds_with_status "success" "" state in
              let '(st, err) := put_state svc state st in
              (state, err, (st, w))
          end
    end.

(** The accumulators of [SyncZone]. *)
Record sync_acc := {
  acc_states : list DDNSSyncState;
  acc_errs : list error;
  acc_store : S;
  acc_world : W
}.

Definition sync_into (svc : Service) (providerRef : string) (zone : ManagedZone)
    (recordType : RecordType) (value : string) (acc : sync_acc) (host : string) : sync_acc :=
  let '(state, err, (st, w)) :=
    syncRecord svc providerRef zone host recordType value (acc_store acc) (acc_world acc) in
  {| acc_states := if negb (String.eqb (ds_Host state) "") then acc_states acc ++ [state]
                   else acc_states acc;
     acc_errs := acc_errs acc ++ opt_list err;
     acc_store := st; acc_world := w |}.

(** One address family: the domain, then its wildcard. *)
Definition sync_family (svc : Service) (providerRef : string) (zone : ManagedZone)
    (enabled : bool) (recordType : RecordType) (value : string) (acc : sync_acc)
  : sync_acc :=
  if enabled && negb (String.eqb value "") then
    let acc := sync_into svc providerRef zone recordType value acc (z_Domain zone) in
    if ddns_Wildcard (z_DDNS zone)
    then sync_into svc providerRef zone recordType value acc ("*." +:+ z_Domain zone)
    else acc
  else acc.

Definition sync_provider (svc : Service) (zone : ManagedZone) (snap : Snapshot)
    (acc : sync_acc) (providerRef : string) : sync_acc :=
  if negb (bool_decide (providerRef ∈ sv_Providers svc)) then
    {| acc_states := acc_states acc;
       acc_errs := acc_errs acc ++ [Enew ("ddns provider not registered: " +:+ providerRef)];
       acc_store := acc_store acc; acc_world := acc_world acc |}
  else
    sync_family svc providerRef zone (ddns_IPv6 (z_DDNS zone)) RecordTypeAAAA (snap_IPv6 snap)
      (sync_family svc providerRef zone (ddns_IPv4 (z_DDNS zone)) RecordTypeA
         (snap_IPv4 snap) acc).

Definition SyncZone (svc : Service) (zone : ManagedZone) (st : S) (w : W)
  : list DDNSSyncState * option error * (S * W) :=
  let d := z_DDNS zone in
  if negb (ddns_Enabled d) then ([], None, (st, w))
  else match sv_Detector svc with
  | None => ([], Some (Enew "ddns detector is not configured"), (st, w))
  | Some detect =>
      let '(snap, detectErr) := detect w {| req_IPv4 := ddns_IPv4 d; req_IPv6 := ddns_IPv6 d |} in
      match detectErr with
      | Some e =>
          if String.eqb (snap_IPv4 snap) "" && String.eqb (snap_IPv6 snap) ""
          then ([], Some e, (st, w))
          else
            let acc := foldl (sync_provider svc zone snap)
              {| acc_states := []; acc_errs := [e]; acc_store := st; acc_world := w |}
              (ddns_ProviderRefs d) in
            (acc_states acc, join_errs (acc_errs acc), (acc_store acc, acc_world acc))
      | None =>
          let missing (wanted : bool) (address family : string) : list error :=
            if wanted && String.eqb address ""
            then [Enew ("public " +:+ family +:+ " address detection returned no result")]
            else [] in
          let errs := missing (ddns_IPv4 d) (snap_IPv4 snap) "IPv4" ++
                      missing (ddns_IPv6 d) (snap_IPv6 snap) "IPv6" in
          let acc := foldl (sync_provider svc zone snap)
            {| acc_states := []; acc_errs := errs; acc_store := st; acc_world := w |}
            (ddns_ProviderRefs d) in
          (acc_states acc, join_errs (acc_errs acc), (acc_store acc, acc_world acc))
      end
  end.
End service.
Arguments Service W : clear implicits.

(** * Properties *)

(** ** The authoritative zone is the longest suffix with name servers *)

(** [z] is the name itself or one of its parents. *)
Definition label_suffix (z name : string) : Prop := z = name ∨ ∃ p, name = p +:+ "." +:+ z.

Section authzone_props.
#[local] Arguments String.append : simpl nomatch.

Lemma label_suffixes_head labels :
  labels ≠ [] → ∃ l, label_suffixes labels = Join "." labels :: l.
Proof. destruct labels; [done|]. intros _. by eexists. Qed.

Lemma Split_cons c s :
  Split dot (String c s) =
  if Ascii.eqb c dot then "" :: Split dot s
  else match Split dot s with [] => [String c ""] | x :: xs => String c x :: xs end.
Proof. done. Qed.

Lemma label_suffixes_tail s z :
  z ∈ tail (label_suffixes (Split dot s)) ↔ ∃ p, s = p +:+ "." +:+ z.
Proof.
  induction s as [|c s IH].
  { simpl. split; [intros Hz; by apply elem_of_nil in Hz|]. by intros [[|] ?]. }
  rewrite Split_cons. pose proof (Split_nonempty dot s) as Hne.
  destruct (Ascii.eqb c dot) eqn:Ec.
  - apply Ascii.eqb_eq in Ec as ->. cbn [label_suffixes tail].
    destruct (label_suffixes_head (Split dot s) Hne) as [l Hl]. rewrite Hl in *.
    assert (Join "." (Split dot s) = s) as Hj by apply (Join_Split dot).
    cbn [tail] in IH. rewrite elem_of_cons, IH, Hj. split.
    + intros [->|[p ->]]; [by exists ""|by exists (String dot p)].
    + intros [[|d p] E]; simpl in E; injection E; [by left|]. right. by exists p.
  - destruct (Split dot s) as [|x xs]; [done|]. cbn [label_suffixes tail] in *. rewrite IH.
    split.
    + intros [p ->]. by exists (String c p).
    + intros [[|d p] E]; simpl in E; injection E.
      * intros _ ->. done.
      * intros -> _. by exists p.
Qed.

Lemma label_suffixes_spec s z :
  z ∈ label_suffixes (Split dot s) ↔ label_suffix z s.
Proof.
  pose proof (label_suffixes_tail s z) as Ht.
  destruct (label_suffixes_head (Split dot s) (Split_nonempty dot s)) as [l Hl].
  rewrite Hl in *. cbn [tail] in Ht. unfold label_suffix.
  assert (Join "." (Split dot s) = s) as -> by apply (Join_Split dot).
  by rewrite elem_of_cons, Ht.
Qed.

Definition longer (a b : string) : Prop := String.length b < String.length a.

Lemma label_suffixes_sorted labels : StronglySorted longer (label_suffixes labels).
Proof.
  induction labels as [|x labels IH]; cbn [label_suffixes]; [constructor|].
  constructor; [done|]. destruct labels as [|y labels]; [constructor|].
  assert (longer (Join "." (x :: y :: labels)) (Join "." (y :: labels))) as Hl.
  { unfold longer. rewrite (Join_cons "." x (y :: labels)), !length_app_str by done. change (String.length ".") with 1.
    lia. }
  cbn [label_suffixes] in *. apply StronglySorted_inv in IH as [_ IH].
  constructor; [done|]. eapply List.Forall_impl; [|exact IH].
  intros z Hz. unfold longer in *. lia.
Qed.

Definition has_ns (lookupNS : string → result error (list string)) (z : string) : bool :=
  match lookupNS z with Ok (_ :: _) => true | _ => false end.

Lemma first_zone_spec lookupNS l :
  match first_zone lookupNS l with
  | Some z => ∃ l1 l2, l = l1 ++ z :: l2 ∧ has_ns lookupNS z = true ∧
                ∀ y, y ∈ l1 → has_ns lookupNS y = false
  | None => ∀ y, y ∈ l → has_ns lookupNS y = false
  end.
Proof.
  induction l as [|x l IH]; simpl.
  { intros y Hy. by apply elem_of_nil in Hy. }
  assert (first_zone lookupNS (x :: l) =
          if has_ns lookupNS x then Some x else first_zone lookupNS l) as E.
  { simpl. unfold has_ns. by repeat case_split. }
  simpl in E. rewrite E. destruct (has_ns lookupNS x) eqn:Ex.
  { exists [], l. split_and!; [done..|]. intros y Hy. by apply elem_of_nil in Hy. }
  destruct (first_zone lookupNS l) as [z|].
  - destruct IH as (l1 & l2 & -> & Hz & Hl1). exists (x :: l1), l2.
    split_and!; [done..|]. intros y [->|Hy]%elem_of_cons; [done|by apply Hl1].
  - intros y [->|Hy]%elem_of_cons; [done|by apply IH].
Qed.

Lemma elem_of_candidateZones name z :
  z ∈ candidateZones name ↔ label_suffix z name ∧ z ≠ "".
Proof.
  unfold candidateZones. rewrite list_elem_of_In, filter_In, <-list_elem_of_In.
  rewrite label_suffixes_spec, negb_true_iff, String.eqb_neq. done.
Qed.

Lemma StronglySorted_filter {A} (R : A → A → Prop) p l :
  StronglySorted R l → StronglySorted R (List.filter p l).
Proof.
  induction 1 as [|x l Hl IH Hx]; simpl; [constructor|]. destruct (p x); [|done].
  constructor; [done|]. rewrite List.Forall_forall in *.
  intros y [Hy _]%filter_In. by apply Hx.
Qed.

(** C26. The zone that a record is written to is the closest enclosing one:
    the longest suffix of the name, cut at a label, that has name servers;
    resolution fails exactly when no suffix has any. *)
Theorem ResolveAuthZone_longest `{GoRuntime} lookupNS fqdn :
  let name := normalizeDNSName fqdn in
  match ResolveAuthZone lookupNS fqdn with
  | Ok z => label_suffix z name ∧ z ≠ "" ∧ has_ns lookupNS z = true ∧
      ∀ z', label_suffix z' name → has_ns lookupNS z' = true →
            String.length z' ≤ String.length z
  | Err _ => ∀ z', label_suffix z' name → z' ≠ "" → has_ns lookupNS z' = false
  end.
Proof.
  intros name. unfold ResolveAuthZone. fold name.
  destruct (String.eqb name "") eqn:En; beq.
  { rewrite En. intros z' [->|[p E]] Hz'; [done|].
    destruct p; simpl in E; done. }
  pose proof (first_zone_spec lookupNS (candidateZones name)) as Hf.
  destruct (first_zone lookupNS (candidateZones name)) as [z|].
  - destruct Hf as (l1 & l2 & Hl & Hz & Hl1).
    assert (z ∈ candidateZones name) as Hin by (rewrite Hl; set_solver).
    apply elem_of_candidateZones in Hin as [Hsuf Hne]. split_and!; [done..|].
    intros z' Hz' Hns. destruct (decide (z' = "")) as [->|Hne']; [simpl; lia|].
    assert (z' ∈ candidateZones name) as Hin by (by apply elem_of_candidateZones).
    assert (StronglySorted longer (candidateZones name)) as Hs
      by apply StronglySorted_filter, label_suffixes_sorted.
    rewrite Hl in Hin, Hs. apply elem_of_app in Hin as [Hin|Hin].
    { by rewrite (Hl1 z' Hin) in Hns. }
    apply elem_of_cons in Hin as [->|Hin]; [done|].
    clear -Hs Hin. induction l1 as [|x l1 IH]; cbn [app] in Hs.
    + apply StronglySorted_inv in Hs as [_ Hs]. rewrite List.Forall_forall in Hs.
      apply list_elem_of_In, Hs in Hin. unfold longer in Hin. lia.
    + apply StronglySorted_inv in Hs as [Hs _]. by apply IH.
  - intros z' Hz' Hne. apply Hf. by apply elem_of_candidateZones.
Qed.

Lemma ResolveAuthZone_Ok `{GoRuntime} lookupNS fqdn z :
  ResolveAuthZone lookupNS fqdn = Ok z →
  label_suffix z (normalizeDNSName fqdn) ∧ z ≠ "".
Proof.
  unfold ResolveAuthZone. destruct (String.eqb _ _); [done|].
  pose proof (first_zone_spec lookupNS (candidateZones (normalizeDNSName fqdn))) as Hf.
  destruct (first_zone _ _) as [y|]; [|done]. intros [= <-].
  destruct Hf as (l1 & l2 & Hl & _). apply elem_of_candidateZones. rewrite Hl. set_solver.
Qed.
End authzone_props.

(** ** Synchronisation *)

(** A world that records the records it is asked to write. *)
#[export] Instance LoggedWorld {W} `{World W} : World (W * list (string * DNSRecord)) := {
  LookupNS w := LookupNS w.1;
  http_Get w := http_Get w.1;
  Upsert ref record w :=
    let '(w', err) := Upsert ref record w.1 in ((w', w.2 ++ [(ref, record)]), err);
  Now w := Now w.1
}.

Section sync_props.
Context `{GoRuntime} {W S : Type} `{World W} `{StateStore S}.

(** What [SyncZone] may ask a provider to write. *)
Definition allowed_record (zone : ManagedZone) (snap : Snapshot) (ref : string)
    (r : DNSRecord) : Prop :=
  rec_Domain r = z_Domain zone ∧ rec_TTL r = ddns_TTL (z_DDNS zone) ∧
  (rec_Name r = z_Domain zone ∨
   ddns_Wildcard (z_DDNS zone) = true ∧ rec_Name r = "*." +:+ z_Domain zone) ∧
  DomainWithinManagedDomain (z_Domain zone) (rec_Name r) = true ∧
  (rec_Type r = RecordTypeA ∧ ddns_IPv4 (z_DDNS zone) = true ∧ rec_Value r = snap_IPv4 snap ∨
   rec_Type r = RecordTypeAAAA ∧ ddns_IPv6 (z_DDNS zone) = true ∧
   rec_Value r = snap_IPv6 snap) ∧
  rec_Value r ≠ "" ∧
  label_suffix (rec_Zone r) (normalizeDNSName (rec_Name r)).

(** The log only grows, by allowed records of one provider. *)
Definition log_extends (P : string * DNSRecord → Prop)
    (w w' : W * list (string * DNSRecord)) : Prop :=
  ∃ new, w'.2 = w.2 ++ new ∧ List.Forall P new.

#[export] Instance log_extends_refl P : Reflexive (log_extends P).
Proof. intros w. exists []. by rewrite app_nil_r. Qed.
#[export] Instance log_extends_trans P : Transitive (log_extends P).
Proof.
  intros w1 w2 w3 (n1 & E1 & F1) (n2 & E2 & F2). exists (n1 ++ n2).
  rewrite E2, E1, app_assoc. split; [done|]. by apply List.Forall_app.
Qed.

Lemma syncRecord_log svc ref zone host t v st w state err st' w' :
  syncRecord svc ref zone host t v st w = (state, err, (st', w')) →
  log_extends (λ p, p.1 = ref ∧
    rec_Domain p.2 = z_Domain zone ∧ rec_TTL p.2 = ddns_TTL (z_DDNS zone) ∧
    rec_Name p.2 = host ∧ DomainWithinManagedDomain (z_Domain zone) host = true ∧
    rec_Type p.2 = t ∧ rec_Value p.2 = v ∧
    label_suffix (rec_Zone p.2) (normalizeDNSName host)) w w'.
Proof.
  unfold syncRecord.
  destruct (DomainWithinManagedDomain (z_Domain zone) host) eqn:Ed; simpl.
  2:{ by intros [= _ _ _ <-]. }
  destruct (ResolveAuthZone _ host) as [z|e] eqn:Ez; [|by intros [= _ _ _ <-]].
  apply ResolveAuthZone_Ok in Ez as [Ez _].
  destruct (_ && _); [destruct (PutSyncState _ st) as [? ?]; by intros [= _ _ _ <-]|].
  destruct (Upsert ref _ w.1) as [w1 [e|]];
    [destruct (put_state _ _ _) as [? [?|]]|destruct (put_state _ _ _) as [? ?]];
    intros [= _ _ _ <-]; eexists; (split; [reflexivity|]);
    (apply List.Forall_cons; [by split_and!|apply List.Forall_nil]).
Qed.

Lemma sync_into_log svc ref zone t v acc host :
  log_extends (λ p, p.1 = ref ∧
    rec_Domain p.2 = z_Domain zone ∧ rec_TTL p.2 = ddns_TTL (z_DDNS zone) ∧
    rec_Name p.2 = host ∧ DomainWithinManagedDomain (z_Domain zone) host = true ∧
    rec_Type p.2 = t ∧ rec_Value p.2 = v ∧
    label_suffix (rec_Zone p.2) (normalizeDNSName host))
    (acc_world acc) (acc_world (sync_into svc ref zone t v acc host)).
Proof.
  unfold sync_into.
  destruct (syncRecord _ _ _ _ _ _ _ _) as [[state err] [st' w']] eqn:E.
  by apply syncRecord_log in E.
Qed.

Lemma log_extends_mono (P Q : string * DNSRecord → Prop) w w' :
  (∀ p, P p → Q p) → log_extends P w w' → log_extends Q w w'.
Proof.
  intros HPQ (new & E & F). exists new. split; [done|]. by eapply List.Forall_impl.
Qed.

Definition provider_log zone snap ref : string * DNSRecord → Prop :=
  λ p, p.1 = ref ∧ allowed_record zone snap ref p.2.

Lemma sync_family_log svc ref zone snap enabled t v acc :
  (enabled = true → v ≠ "" →
   (t = RecordTypeA ∧ ddns_IPv4 (z_DDNS zone) = true ∧ v = snap_IPv4 snap ∨
    t = RecordTypeAAAA ∧ ddns_IPv6 (z_DDNS zone) = true ∧ v = snap_IPv6 snap)) →
  log_extends (provider_log zone snap ref) (acc_world acc)
    (acc_world (sync_family svc ref zone enabled t v acc)).
Proof.
  intros Htv. unfold sync_family. destruct enabled; [|done]. simpl.
  destruct (String.eqb v "") eqn:Ev; [done|]. beq. specialize (Htv eq_refl Ev). simpl.
  assert (∀ acc host, (host = z_Domain zone ∨
      ddns_Wildcard (z_DDNS zone) = true ∧ host = "*." +:+ z_Domain zone) →
    log_extends (provider_log zone snap ref) (acc_world acc)
      (acc_world (sync_into svc ref zone t v acc host))) as Hinto.
  { intros acc' host Hhost. eapply log_extends_mono; [|apply sync_into_log].
    intros [ref' r]. simpl. intros (-> & E1 & E2 & E3 & E4 & E5 & E6 & E7).
    split; [done|]. unfold allowed_record. simpl. rewrite E3, E5, E6. by split_and!. }
  destruct (ddns_Wildcard (z_DDNS zone)) eqn:Ew; [|apply Hinto; by left].
  etrans; [apply (Hinto acc (z_Domain zone)); by left|apply Hinto; by right].
Qed.

Lemma sync_provider_log svc zone snap acc ref :
  log_extends (λ p, ref ∈ sv_Providers svc ∧ provider_log zone snap ref p) (acc_world acc)
    (acc_world (sync_provider svc zone snap acc ref)).
Proof.
  unfold sync_provider. destruct (bool_decide (ref ∈ sv_Providers svc)) eqn:E; [|done].
  beq. simpl. eapply (log_extends_mono (provider_log zone snap ref)); [done|].
  etrans; apply sync_family_log; auto.
Qed.

Lemma sync_providers_log svc zone snap refs acc :
  log_extends (λ p, p.1 ∈ refs ∧ p.1 ∈ sv_Providers svc ∧
                    allowed_record zone snap p.1 p.2) (acc_world acc)
    (acc_world (foldl (sync_provider svc zone snap) acc refs)).
Proof.
  revert acc. induction refs as [|ref refs IH]; intros acc; simpl; [done|].
  etrans; [eapply log_extends_mono; [|apply (sync_provider_log svc zone snap acc ref)]
          |eapply log_extends_mono; [|apply IH]].
  - intros [r p]. unfold provider_log. simpl. intros (Hr & -> & Ha). split_and!; [by constructor|done|done].
  - intros [r p] (Hr & Hp & Ha). simpl in *. split_and!; [by constructor|done|done].
Qed.

(** C17. Synchronising a zone only ever asks the providers to write the zone's
    own name and, when enabled, its wildcard, in the address families that
    are enabled and detected, with the detected address and the zone's TTL,
    to an authoritative zone that encloses the name, and only through
    registered providers that the zone refers to. *)
Theorem SyncZone_writes svc detect snap detectErr zone st
    (w : W * list (string * DNSRecord)) :
  sv_Detector svc = Some detect →
  detect w {| req_IPv4 := ddns_IPv4 (z_DDNS zone); req_IPv6 := ddns_IPv6 (z_DDNS zone) |}
    = (snap, detectErr) →
  let '(_, _, (_, w')) := SyncZone (S:=S) svc zone st w in
  ∃ new, w'.2 = w.2 ++ new ∧
    ∀ ref r, (ref, r) ∈ new →
      ddns_Enabled (z_DDNS zone) = true ∧ ref ∈ ddns_ProviderRefs (z_DDNS zone) ∧
      ref ∈ sv_Providers svc ∧ allowed_record zone snap ref r.
Proof.
  intros Hdet Hsnap. unfold SyncZone. rewrite Hdet, Hsnap.
  assert (∃ new, w.2 = w.2 ++ new ∧ ∀ ref r, (ref, r) ∈ new →
      ddns_Enabled (z_DDNS zone) = true ∧ ref ∈ ddns_ProviderRefs (z_DDNS zone) ∧
      ref ∈ sv_Providers svc ∧ allowed_record zone snap ref r) as Hnone.
  { exists []. rewrite app_nil_r. split; [done|]. intros ref r Hin.
    by apply elem_of_nil in Hin. }
  destruct (ddns_Enabled (z_DDNS zone)); simpl; [|done].
  assert (∀ errs, ∃ new, (acc_world (foldl (sync_provider svc zone snap)
      {| acc_states := []; acc_errs := errs; acc_store := st; acc_world := w |}
      (ddns_ProviderRefs (z_DDNS zone)))).2 = w.2 ++ new ∧ ∀ ref r, (ref, r) ∈ new →
      true = true ∧ ref ∈ ddns_ProviderRefs (z_DDNS zone) ∧
      ref ∈ sv_Providers svc ∧ allowed_record zone snap ref r) as Hsome.
  { intros errs. destruct (sync_providers_log svc zone snap (ddns_ProviderRefs (z_DDNS zone))
      {| acc_states := []; acc_errs := errs; acc_store := st; acc_world := w |})
      as (new & E & F).
    exists new. split; [done|]. intros ref r Hin. rewrite List.Forall_forall in F.
    by apply list_elem_of_In, F in Hin. }
  destruct detectErr as [e|]; [destruct (_ && _); [done|]|]; apply Hsome.
Qed.

Context {HL : StateStoreLaws S}.

(** C25. A record that was just synchronised is not written again: after a
    successful synchronisation with a state store, repeating it with the
    same address reports "noop" and leaves the world as it is, whatever
    else happened outside in between. *)
Theorem syncRecord_repeat svc ref zone host t v st (w : W) state st' w' w2 z2 :
  sv_HasStore svc = true → stateDomain zone ≠ "" →
  syncRecord svc ref zone host t v st w = (state, None, (st', w')) →
  ResolveAuthZone (LookupNS w2) host = Ok z2 →
  ∃ state2 err2 st2,
    syncRecord svc ref zone host t v st' w2 = (state2, err2, (st2, w2)) ∧
    ds_Status state2 = "noop".
Proof.
  intros Hst Hdom Hrun Hz2. unfold syncRecord in *.
  destruct (DomainWithinManagedDomain (z_Domain zone) host); simpl in *; [|done].
  destruct (ResolveAuthZone (LookupNS w) host) as [z|e] eqn:Ez; [|done].
  apply ResolveAuthZone_Ok in Ez as [_ Hz]. rewrite Hz2, Hst in *. simpl in *.
  set (st0 := λ status, {| ds_Domain := stateDomain zone; ds_Zone := z; ds_Provider := ref;
     ds_Host := host; ds_RecordType := t; ds_Value := v; ds_Status := status;
     ds_Error := ""; ds_SyncedAt := Now w |}).
  assert (∃ status, status ≠ "failed" ∧
    GetSyncState st' (stateDomain zone) ref host t = Some (st0 status)) as (status & Hs & Hg).
  { unfold put_state in Hrun. rewrite Hst in Hrun.
    match type of Hrun with (if ?b then _ else _) = _ => destruct b end.
    - destruct (PutSyncState _ st) as [s1 e1] eqn:Ep. injection Hrun as _ -> -> _.
      apply get_put_same in Ep; [|done..]. by exists "noop".
    - destruct (Upsert ref _ w) as [w1 [e|]].
      + destruct (PutSyncState _ st) as [s1 [e1|]]; by inversion Hrun.
      + destruct (PutSyncState _ st) as [s1 e1] eqn:Ep. injection Hrun as _ -> -> _.
        apply get_put_same in Ep; [|done..]. by exists "success". }
  rewrite Hg. simpl. rewrite String.eqb_refl.
  rewrite (proj2 (String.eqb_neq _ _) Hs). simpl.
  destruct (PutSyncState _ st') as [s2 e2]. do 3 eexists. by split.
Qed.
End sync_props.

(** ** Examples *)

(** A world with one name server zone, whose updaters always succeed; it counts
    the writes. *)
#[local] Instance counting_world : World nat := {
  LookupNS _ z := if String.eqb z "example.com" then Ok ["ns1"] else Ok [];
  http_Get _ url := Ok "203.0.113.7 ";
  Upsert _ _ n := (S n, None);
  Now n := Z.of_nat n
}.

#[local] Existing Instance reference_runtime.

Definition example_ddns_zone : ManagedZone :=
  z_with_DDNS {| ddns_Enabled := true; ddns_ProviderRefs := ["cf"]; ddns_IPv4 := true;
    ddns_IPv6 := false; ddns_Wildcard := true; ddns_TTL := 300%Z |} example_zone.

Definition example_service {W} `{World W} : Service W :=
  {| sv_Detector := Some (Detect DefaultHTTPDetector); sv_Providers := {["cf"]};
     sv_HasStore := true |}.

Example SyncZone_writes_witness :
  let '(_, _, (_, w')) :=
    SyncZone example_service example_ddns_zone NewMemoryStore (0, []) in
  ∃ new, w'.2 = [] ++ new ∧
    ∀ ref r, (ref, r) ∈ new →
      ddns_Enabled (z_DDNS example_ddns_zone) = true ∧
      ref ∈ ddns_ProviderRefs (z_DDNS example_ddns_zone) ∧
      ref ∈ sv_Providers (W:=nat * list (string * DNSRecord)) example_service ∧
      allowed_record example_ddns_zone
        {| snap_IPv4 := "203.0.113.7"; snap_IPv6 := ""; snap_ObservedAt := 0%Z |} ref r.
Proof.
  apply (SyncZone_writes example_service (Detect DefaultHTTPDetector) _ None); reflexivity.
Defined.

Example syncRecord_repeat_witness :
  let '(state, err, (st, w)) :=
    syncRecord example_service "cf" example_ddns_zone "example.com" RecordTypeA "203.0.113.7"
      NewMemoryStore 0 in
  w = 1 ∧ ∃ state2 err2 st2,
    syncRecord example_service "cf" example_ddns_zone "example.com" RecordTypeA "203.0.113.7"
      st w = (state2, err2, (st2, w)) ∧ ds_Status state2 = "noop".
Proof.
  split; [reflexivity|].
  eapply (syncRecord_repeat example_service "cf" example_ddns_zone "example.com" RecordTypeA
    "203.0.113.7" NewMemoryStore 0); try reflexivity. done.
Defined.
