(* ===== verification/Scheduler.v ===== *)
(** The job scheduler ([src/internal/platform/job]).

    [run] is one firing of a job: the call, the retries with growing delays,
    the recorded error.  The goroutines that fire a job on its ticker, and
    their interleaving with [Start], [Stop] and each other, are the transition
    relation [sched_step]. *)

From S2P Require Import Prelude GoStrings GoRuntime Core.

Record scheduledJob := {
  j_name : string;
  j_interval : Duration;
  j_running : bool;
  j_lastStart : Time;
  j_lastFinish : Time;
  j_lastError : string;
  j_retryDelay : Duration;
  j_maxRetryCount : nat
}.

Definition new_job (name : string) (interval : Duration) : scheduledJob :=
  {| j_name := name; j_interval := interval; j_running := false; j_lastStart := 0%Z;
     j_lastFinish := 0%Z; j_lastError := ""; j_retryDelay := (2 * second)%Z;
     j_maxRetryCount := 2 |}.

Definition setLastError (message : string) (j : scheduledJob) : scheduledJob :=
  {| j_name := j_name j; j_interval := j_interval j; j_running := j_running j;
     j_lastStart := j_lastStart j; j_lastFinish := j_lastFinish j; j_lastError := message;
     j_retryDelay := j_retryDelay j; j_maxRetryCount := j_maxRetryCount j |}.
Definition begin_run (now : Time) (j : scheduledJob) : scheduledJob :=
  {| j_name := j_name j; j_interval := j_interval j; j_running := true;
     j_lastStart := now; j_lastFinish := j_lastFinish j; j_lastError := j_lastError j;
     j_retryDelay := j_retryDelay j; j_maxRetryCount := j_maxRetryCount j |}.
Definition end_run (now : Time) (j : scheduledJob) : scheduledJob :=
  {| j_name := j_name j; j_interval := j_interval j; j_running := false;
     j_lastStart := j_lastStart j; j_lastFinish := now; j_lastError := j_lastError j;
     j_retryDelay := j_retryDelay j; j_maxRetryCount := j_maxRetryCount j |}.

(** The job's function, the clock, and the wait between two attempts: [true]
    when the context ends before the delay has passed. *)
Class JobWorld (W : Type) := {
  job_fn : W → W * option error;
  job_wait : Duration → W → W * bool;
  job_now : W → Time
}.

Section run.
Context {W : Type} `{JobWorld W}.

(** A run ends without error or by cancellation. *)
Definition settled (err : option error) : bool :=
  match err with None => true | Some e => errors_is ContextCanceled e end.

Definition record_outcome (err : option error) (j : scheduledJob) : scheduledJob :=
  setLastError (if settled err then ""
                else match err with Some e => error_text e | None => "" end) j.

(** The loop over the remaining attempts. *)
Fixpoint retry (remaining : nat) (attempt : Z) (j : scheduledJob) (w : W)
  : scheduledJob * W :=
  match remaining with
  | O => (j, w)
  | S remaining' =>
      let '(w, cancelled) := job_wait (wrap64 (j_retryDelay j * (attempt + 1))) w in
      if cancelled then (j, w)
      else
        let '(w, err) := job_fn w in
        let j := record_outcome err j in
        if settled err then (j, w) else retry remaining' (attempt + 1) j w
  end.

Definition run (j : scheduledJob) (w : W) : scheduledJob * W :=
  if j_running j then (j, w)
  else
    let j := begin_run (job_now w) j in
    let '(w, err) := job_fn w in
    let j := record_outcome err j in
    let '(j, w) := if settled err then (j, w) else retry (j_maxRetryCount j) 0 j w in
    (end_run (job_now w) j, w).
End run.

(** ** The scheduler and its goroutines *)

Inductive phase := Waiting | Firing.

(** One goroutine started for a job, and whether its context is cancelled. *)
Record goroutine := { g_job : string; g_cancelled : bool; g_phase : phase }.

Record SchedState := {
  sc_jobs : gmap string scheduledJob;
  sc_started : bool;
  sc_goroutines : list goroutine
}.

Definition NewScheduler : SchedState :=
  {| sc_jobs := ∅; sc_started := false; sc_goroutines := [] |}.

Section scheduler.
Context `{GoRuntime}.

Definition start_goroutine (name : string) : goroutine :=
  {| g_job := name; g_cancelled := false; g_phase := Waiting |}.

Definition Every (name : string) (interval : Duration) (s : SchedState)
  : result error SchedState :=
  match sc_jobs s !! name with
  | Some _ => Err (Enew ("job " +:+ quote name +:+ " already registered"))
  | None =>
      Ok {| sc_jobs := <[name := new_job name interval]> (sc_jobs s);
            sc_started := sc_started s;
            sc_goroutines := if sc_started s then sc_goroutines s ++ [start_goroutine name]
                             else sc_goroutines s |}
  end.

Definition Start (s : SchedState) : SchedState :=
  if sc_started s then s
  else {| sc_jobs := sc_jobs s; sc_started := true;
          sc_goroutines := sc_goroutines s ++ map start_goroutine (map_keys (sc_jobs s)) |}.

(** Cancelling the scheduler's context cancels every goroutine's. *)
Definition cancel (g : goroutine) : goroutine :=
  {| g_job := g_job g; g_cancelled := true; g_phase := g_phase g |}.
Definition Stop (s : SchedState) : SchedState :=
  if negb (sc_started s) then s
  else {| sc_jobs := sc_jobs s; sc_started := false;
          sc_goroutines := map cancel (sc_goroutines s) |}.

Definition set_goroutines (l : list goroutine) (s : SchedState) : SchedState :=
  {| sc_jobs := sc_jobs s; sc_started := sc_started s; sc_goroutines := l |}.
Definition set_job (j : scheduledJob) (s : SchedState) (name : string) : SchedState :=
  {| sc_jobs := <[name := j]> (sc_jobs s); sc_started := sc_started s;
     sc_goroutines := sc_goroutines s |}.
Definition with_phase (p : phase) (g : goroutine) : goroutine :=
  {| g_job := g_job g; g_cancelled := g_cancelled g; g_phase := p |}.

(** One step of the scheduler or of one of its goroutines.  A goroutine whose
    context is cancelled may still see a tick that is already there. *)
Inductive sched_step : SchedState → SchedState → Prop :=
| step_every name interval s s' : Every name interval s = Ok s' → sched_step s s'
| step_start s : sched_step s (Start s)
| step_stop s : sched_step s (Stop s)
| step_tick_skipped s i g j :
    sc_goroutines s !! i = Some g → g_phase g = Waiting →
    sc_jobs s !! g_job g = Some j → j_running j = true → sched_step s s
| step_tick s i g j now :
    sc_goroutines s !! i = Some g → g_phase g = Waiting →
    sc_jobs s !! g_job g = Some j → j_running j = false →
    sched_step s (set_goroutines (<[i := with_phase Firing g]> (sc_goroutines s))
                    (set_job (begin_run now j) s (g_job g)))
| step_outcome s i g j err :
    sc_goroutines s !! i = Some g → g_phase g = Firing →
    sc_jobs s !! g_job g = Some j →
    sched_step s (set_job (record_outcome err j) s (g_job g))
| step_finish s i g j now :
    sc_goroutines s !! i = Some g → g_phase g = Firing →
    sc_jobs s !! g_job g = Some j →
    sched_step s (set_goroutines (<[i := with_phase Waiting g]> (sc_goroutines s))
                    (set_job (end_run now j) s (g_job g)))
| step_exit s i g :
    sc_goroutines s !! i = Some g → g_phase g = Waiting → g_cancelled g = true →
    sched_step s (set_goroutines (delete_at i (sc_goroutines s)) s).
End scheduler.

(** * Properties *)

(** ** One firing *)

(** A job world that records the outcome of every call. *)
#[export] Instance LoggedJob {W} `{JobWorld W} : JobWorld (W * list (option error)) := {
  job_fn w := let '(w', err) := job_fn w.1 in ((w', w.2 ++ [err]), err);
  job_wait d w := let '(w', c) := job_wait d w.1 in ((w', w.2), c);
  job_now w := job_now w.1
}.

Section run_props.
Context {W : Type} `{JobWorld W}.

(** What a non-empty list of outcomes leaves in the job: all but the last
    outcome are failures, and the last decides the recorded error. *)
Definition outcomes_ok (outs : list (option error)) (j : scheduledJob) : Prop :=
  ∃ init lst, outs = init ++ [lst] ∧ (∀ o, o ∈ init → settled o = false) ∧
    j_lastError j = (if settled lst then ""
                     else match lst with Some e => error_text e | None => "" end).

Lemma retry_outcomes remaining attempt j (w : W * list (option error)) outs :
  w.2 = outs → outcomes_ok outs j → (∀ o, o ∈ outs → settled o = false) →
  let '(j', w') := retry remaining attempt j w in
  outcomes_ok (w'.2) j' ∧ length (w'.2) ≤ length outs + remaining ∧
  j_running j' = j_running j.
Proof.
  revert attempt j w outs.
  induction remaining as [|n IH]; intros attempt j [w l] outs Hw Hok Hall; simpl in Hw; subst l;
    cbn [retry]; [simpl; split_and!; [done|lia|done]|].
  cbn [job_wait job_fn LoggedJob fst snd]. destruct (job_wait _ w) as [w1 cancelled].
  destruct cancelled; [simpl; split_and!; [done|lia|done]|].
  cbn [job_fn LoggedJob fst snd]. destruct (job_fn w1) as [w2 err].
  assert (outcomes_ok (outs ++ [err]) (record_outcome err j)) as Hok'.
  { by exists outs, err. }
  destruct (settled err) eqn:Es.
  { simpl. rewrite length_app. simpl. split_and!; [done|lia|done]. }
  specialize (IH (attempt + 1)%Z (record_outcome err j) (w2, outs ++ [err]) _ eq_refl Hok').
  destruct (retry n _ _ _) as [j' w'].
  destruct IH as (H1 & H2 & H3).
  { intros o [Ho| ->%list_elem_of_singleton]%elem_of_app; [by apply Hall|done]. }
  cbn [snd] in H2. rewrite length_app in H2. simpl in H2. split_and!; [done|lia|done].
Qed.

(** C29. One firing of an idle job calls its function at least once and at most
    [maxRetryCount + 1] times (three times as jobs are created), retries
    only after a failure that is not a cancellation, records the last
    outcome as the job's error ("" for success or cancellation), and
    leaves the job idle again; a firing of a running job does nothing. *)
Theorem run_retries j (w : W) :
  let '(j', (_, outs)) := run j (w, []) in
  if j_running j then j' = j ∧ outs = []
  else outcomes_ok outs j' ∧ 1 ≤ length outs ≤ S (j_maxRetryCount j) ∧
       j_running j' = false.
Proof.
  unfold run. destruct (j_running j); [done|].
  cbn [job_fn LoggedJob fst snd]. destruct (job_fn w) as [w1 err]. cbn [fst snd app].
  set (j1 := record_outcome err (begin_run _ j)).
  assert (outcomes_ok [err] j1) as Hok.
  { exists [], err. split_and!; [done| |done]. intros o Ho. by apply elem_of_nil in Ho. }
  destruct (settled err) eqn:Es; [simpl; split_and!; [done|lia|lia|done]|].
  pose proof (retry_outcomes (j_maxRetryCount j1) 0 j1 (w1, [err]) [err] eq_refl Hok) as Hr.
  destruct (retry _ 0 j1 _) as [j2 [w2 outs]].
  destruct Hr as (H1 & H2 & H3); [by intros o ->%list_elem_of_singleton|].
  assert (1 ≤ length outs).
  { destruct H1 as (init & lst & E & _). simpl in E. rewrite E, length_app. simpl. lia. }
  simpl in *. split_and!; [|done|lia|done].
  destruct H1 as (init & lst & E & F & G). by exists init, lst.
Qed.
End run_props.

Example run_retries_example :
  let fn := {| job_fn (n : nat) := (S n, if Nat.ltb n 2 then Some (Enew "down") else None);
               job_wait d n := (n, false); job_now n := 0%Z |} in
  let '(j, (n, outs)) := @run _ (@LoggedJob _ fn) (new_job "ddns" second) (0, []) in
  j_lastError j = "" ∧ length outs = 3.
Proof. split; reflexivity. Qed.

(** ** No job runs twice at the same time *)
Section exclusion.
Context `{GoRuntime}.

Definition is_firing (name : string) (g : goroutine) : bool :=
  String.eqb (g_job g) name && match g_phase g with Firing => true | Waiting => false end.

Definition firing (name : string) (l : list goroutine) : nat :=
  length (List.filter (is_firing name) l).

Lemma firing_app name l k : firing name (l ++ k) = firing name l + firing name k.
Proof. unfold firing. by rewrite List.filter_app, length_app. Qed.

Lemma firing_split name l i g :
  l !! i = Some g →
  firing name l = firing name (take i l) + (if is_firing name g then 1 else 0)
                  + firing name (drop (S i) l).
Proof.
  intros Hi. rewrite <-(take_drop_middle l i g Hi) at 1. rewrite firing_app.
  change (g :: drop (S i) l) with ([g] ++ drop (S i) l). rewrite firing_app.
  replace (firing name [g]) with (if is_firing name g then 1 else 0); [lia|].
  unfold firing. simpl. by destruct (is_firing name g).
Qed.

Lemma firing_insert name l i g g' :
  l !! i = Some g →
  firing name (<[i := g']> l) + (if is_firing name g then 1 else 0) =
  firing name l + (if is_firing name g' then 1 else 0).
Proof.
  intros Hi. assert (i < length l) by (by apply lookup_lt_Some in Hi).
  rewrite (firing_split name l i g Hi).
  rewrite (firing_split name (<[i := g']> l) i g') by (by apply list_lookup_insert_eq).
  rewrite take_insert_ge, drop_insert_lt by lia. lia.
Qed.

Lemma firing_delete_at name l i g :
  l !! i = Some g →
  firing name (delete_at i l) + (if is_firing name g then 1 else 0) = firing name l.
Proof.
  intros Hi. rewrite (firing_split name l i g Hi). unfold delete_at. rewrite firing_app. lia.
Qed.

Lemma firing_waiting name l :
  (∀ g, g ∈ l → g_phase g = Waiting) → firing name l = 0.
Proof.
  intros Hl. unfold firing. replace (List.filter _ l) with (@nil goroutine); [done|].
  induction l as [|g l IH]; simpl; [done|].
  assert (is_firing name g = false) as ->.
  { unfold is_firing. rewrite (Hl g) by constructor. by rewrite andb_false_r. }
  apply IH. intros g' Hg'. apply Hl. by constructor.
Qed.

Lemma firing_cancel name l : firing name (map cancel l) = firing name l.
Proof.
  unfold firing. induction l as [|g l IH]; simpl; [done|].
  change (is_firing name (cancel g)) with (is_firing name g).
  destruct (is_firing name g); simpl; by rewrite IH.
Qed.

Definition sched_ok (s : SchedState) : Prop :=
  ∀ name, firing name (sc_goroutines s) =
    match sc_jobs s !! name with
    | Some j => if j_running j then 1 else 0
    | None => 0
    end.

(** A goroutine changes phase together with the running flag of its job. *)
Lemma sched_ok_flip s i g j j' p :
  sc_goroutines s !! i = Some g → sc_jobs s !! g_job g = Some j →
  (g_phase g = Firing ↔ j_running j = true) → (p = Firing ↔ j_running j' = true) →
  sched_ok s →
  sched_ok (set_goroutines (<[i := with_phase p g]> (sc_goroutines s))
              (set_job j' s (g_job g))).
Proof.
  intros Hg Hj Hold Hnew Hok name. simpl.
  pose proof (firing_insert name _ i g (with_phase p g) Hg) as Hc.
  specialize (Hok name). unfold is_firing in Hc. simpl in Hc. rewrite lookup_insert.
  case_decide as E.
  - subst name. rewrite Hj in Hok. rewrite String.eqb_refl in Hc. simpl in Hc.
    destruct (g_phase g), p, (j_running j), (j_running j'); simpl in *; try lia;
      destruct Hold, Hnew; intuition congruence.
  - rewrite (proj2 (String.eqb_neq (g_job g) name) E) in Hc. simpl in Hc. lia.
Qed.

Lemma firing_running s i g j :
  sched_ok s → sc_goroutines s !! i = Some g → g_phase g = Firing →
  sc_jobs s !! g_job g = Some j → g_phase g = Firing ↔ j_running j = true.
Proof.
  intros Hok Hg Hp Hj. specialize (Hok (g_job g)). rewrite Hj in Hok.
  rewrite (firing_split _ _ i g Hg) in Hok. unfold is_firing in Hok.
  rewrite String.eqb_refl, Hp in Hok. simpl in Hok.
  split; [|done]. intros _. destruct (j_running j); [done|lia].
Qed.

Lemma sched_step_ok s s' : sched_step s s' → sched_ok s → sched_ok s'.
Proof.
  intros Hstep Hok. destruct Hstep.
  - unfold Every in *. destruct (sc_jobs s !! name) eqn:E; [done|].
    match goal with H : Ok _ = Ok _ |- _ => injection H as <- end.
    intros n. simpl. specialize (Hok n). rewrite lookup_insert.
    assert (firing n (if sc_started s then sc_goroutines s ++ [start_goroutine name]
                      else sc_goroutines s) = firing n (sc_goroutines s)) as ->.
    { destruct (sc_started s); [|done]. rewrite firing_app, (firing_waiting n [_]); [lia|].
      by intros g ->%list_elem_of_singleton. }
    case_decide; [|done]. subst n. by rewrite Hok, E.
  - unfold Start. destruct (sc_started s); [done|]. intros n. simpl.
    rewrite firing_app, (firing_waiting n (map _ _)), Hok; [lia|].
    by intros g (name & -> & _)%list_elem_of_fmap.
  - unfold Stop. destruct (sc_started s); [|done]. intros n. simpl. rewrite <-Hok.
    apply firing_cancel.
  - done.
  - apply (sched_ok_flip s i g j); try done; simpl.
    split; intros; congruence.
  - intros n. simpl. specialize (Hok n). rewrite lookup_insert. case_decide as E; [|done].
    subst n. rewrite Hok. by match goal with H : sc_jobs _ !! _ = _ |- _ => rewrite H end.
  - apply (sched_ok_flip s i g j); try done; simpl.
    by eapply firing_running.
  - intros n. simpl. rewrite <-Hok. pose proof (firing_delete_at n _ i g ltac:(eassumption)) as Hd.
    unfold is_firing in Hd.
    match goal with H : g_phase g = _ |- _ => rewrite H, andb_false_r in Hd end. lia.
Qed.

(** C28. However ticks, restarts of the scheduler and new jobs interleave, at
    most one goroutine is ever inside a given job: stopping and starting
    the scheduler while a job is firing leaves the old goroutine alone with
    it until it finishes. *)
Theorem one_firing_at_a_time s name :
  rtc sched_step NewScheduler s → firing name (sc_goroutines s) ≤ 1.
Proof.
  intros Hr. assert (sched_ok s) as Hok.
  { apply (rtc_ind_r (R:=sched_step) sched_ok NewScheduler); [by intros n| |done].
    intros s1 s2 _ Hstep Hok. by eapply sched_step_ok. }
  rewrite (Hok name). repeat case_split; lia.
Qed.
End exclusion.

(** A job that is firing when the scheduler is stopped and started again. *)
Example one_firing_at_a_time_witness :
  let j := begin_run 5%Z (new_job "ddns" second) in
  let s := {| sc_jobs := {["ddns" := j]}; sc_started := true;
              sc_goroutines := [{| g_job := "ddns"; g_cancelled := true; g_phase := Firing |};
                                start_goroutine "ddns"] |} in
  firing "ddns" (sc_goroutines s) ≤ 1.
Proof.
  apply (@one_firing_at_a_time reference_runtime _ "ddns").
  eapply rtc_l; [by eapply (step_every "ddns" second)|].
  eapply rtc_l; [apply step_start|].
  eapply rtc_l; [by eapply (step_tick _ 0 (start_goroutine "ddns") _ 5%Z)|].
  eapply rtc_l; [apply step_stop|].
  eapply rtc_l; [apply step_start|].
  apply rtc_refl.
Defined.
