(* ===== verification/Discovery.v ===== *)
(** Route discovery ([src/internal/discovery]): container labels, the address
    that a route targets, the routes of a set of containers, the snapshots
    taken from the container API, and the routes of a remote agent.

    The Docker API's answers are records of what the code reads of them; the
    port parser of [go-connections/nat] is the interface [Nat]. *)

From S2P Require Import Prelude GoStrings GoRuntime Core Registry Config.

Definition DefaultLabelPrefix : string := "domux.".
Definition LocalNodeName : string := "server".
Definition labelDomainSuffix : string := "domain".
Definition labelZoneSuffix : string := "zone".
Definition labelSubdomainSuffix : string := "subdomain".
Definition labelPortSuffix : string := "port".
Definition labelNetworkSuffix : string := "network".
Definition dockerComposeProjectLabel : string := "com.docker.compose.project".
Definition podmanComposeProjectLabel : string := "io.podman.compose.project".

Record RouteIntent := {
  in_Managed : bool;
  in_Domain : string;
  in_Zone : string;
  in_Subdomain : string;
  in_Port : Z;
  in_Network : string
}.
Definition zero_RouteIntent : RouteIntent :=
  {| in_Managed := false; in_Domain := ""; in_Zone := ""; in_Subdomain := "";
     in_Port := 0%Z; in_Network := "" |}.

(** ** Labels *)
Section labels.
Context `{GoRuntime}.

Definition NormalizeLabelPrefix (prefix : string) : string :=
  let prefix := TrimSpace prefix in
  if String.eqb prefix "" then DefaultLabelPrefix
  else if negb (HasSuffix prefix ".") then prefix +:+ "."
  else prefix.

Definition labelKey (prefix suffix : string) : string := NormalizeLabelPrefix prefix +:+ suffix.

Definition label (labels : gmap string string) (prefix suffix : string) : string :=
  TrimSpace (get_option labels (labelKey prefix suffix)).

Definition ParseLabels (labels : gmap string string) (prefix : string)
  : result error RouteIntent :=
  if (size labels =? 0)%nat then Ok zero_RouteIntent
  else
    let prefix := NormalizeLabelPrefix prefix in
    let domain := label labels prefix labelDomainSuffix in
    let zone := label labels prefix labelZoneSuffix in
    if negb (String.eqb domain "") && negb (String.eqb zone "") && negb (String.eqb domain zone)
    then Err (Enew ("conflicting " +:+ labelKey prefix labelDomainSuffix +:+ " and "
                    +:+ labelKey prefix labelZoneSuffix +:+ " values"))
    else
      let domain := if String.eqb domain "" then zone else domain in
      let subdomain := label labels prefix labelSubdomainSuffix in
      let network := label labels prefix labelNetworkSuffix in
      let managed := negb (String.eqb domain "") || negb (String.eqb zone "") ||
                     negb (String.eqb subdomain "") || negb (String.eqb network "") in
      let rawPort := label labels prefix labelPortSuffix in
      if negb (String.eqb rawPort "") then
        match Atoi rawPort with
        | None => Err (Enew ("invalid " +:+ labelKey prefix labelPortSuffix +:+ " value "
                             +:+ quote rawPort))
        | Some port =>
            Ok {| in_Managed := true; in_Domain := domain; in_Zone := zone;
                  in_Subdomain := subdomain; in_Port := port; in_Network := network |}
        end
      else Ok {| in_Managed := managed; in_Domain := domain; in_Zone := zone;
                 in_Subdomain := subdomain; in_Port := 0%Z; in_Network := network |}.
End labels.

Definition BuildRoute (zone : ManagedZone) (snapshot : ContainerSnapshot) (intent : RouteIntent)
    (targetURL selectedNetwork source : string) : DiscoveredRoute :=
  let subdomain := if String.eqb (in_Subdomain intent) "" then DefaultSubdomain snapshot
                   else in_Subdomain intent in
  let host := Hostname zone subdomain in
  {| r_ID := cs_ID snapshot +:+ ":" +:+ host; r_Name := ""; r_Icon := "";
     r_Domain := z_Domain zone; r_Zone := z_Name zone; r_Subdomain := subdomain;
     r_Host := host; r_Source := source; r_ExitNode := ""; r_Origin := RouteOriginLocalDocker;
     r_Runtime := cs_Runtime snapshot; r_TargetURL := targetURL; r_ProxyURL := "";
     r_Network := selectedNetwork;
     r_Container :=
       {| cr_ID := cs_ID snapshot; cr_Name := cs_Name snapshot; cr_Image := cs_Image snapshot;
          cr_Source := source; cr_Runtime := cs_Runtime snapshot |} |}.

(** ** The target of a route *)
Section target.
Context `{GoRuntime} (env : Env) (runningInContainer : bool).

Definition sort_ints (l : list Z) : list Z := merge_sort Z.le l.

Definition resolvePort (snapshot : ContainerSnapshot) (intent : RouteIntent) : result error Z :=
  if (0 <? in_Port intent)%Z then Ok (in_Port intent)
  else match cs_ExposedPorts snapshot with
       | [] => Err (Enew "no backend port available")
       | ports =>
           match List.filter (λ p, (0 <? p)%Z) (sort_ints ports) with
           | port :: _ => Ok port
           | [] => Err (Enew "no valid backend port available")
           end
       end.

Definition composeProjectName (labels : gmap string string) : string :=
  let project := TrimSpace (get_option labels dockerComposeProjectLabel) in
  if negb (String.eqb project "") then project
  else TrimSpace (get_option labels podmanComposeProjectLabel).

(** [add], with [seen] the names already in [out]. *)
Definition add_candidate (out : list string) (name : string) : list string :=
  let name := TrimSpace name in
  if String.eqb name "" then out
  else if bool_decide (name ∈ out) then out
  else out ++ [name].

Definition addNetwork (labels : gmap string string) (out : list string) (name : string)
  : list string :=
  let out := add_candidate out name in
  let project := composeProjectName labels in
  if negb (String.eqb project "") && negb (Contains name "_")
  then add_candidate out (project +:+ "_" +:+ name)
  else out.

Definition networkCandidates (source : RuntimeSource) (snapshot : ContainerSnapshot)
    (intent : RouteIntent) : list string :=
  let out := addNetwork (cs_Labels snapshot) [] (in_Network intent) in
  let out := if negb (String.eqb (rs_Network source) (in_Network intent))
             then addNetwork (cs_Labels snapshot) out (rs_Network source) else out in
  foldl add_candidate out (sort_by id (map_keys (cs_Networks snapshot))).

Fixpoint first_address (networks : gmap string string) (candidates : list string)
  : option (string * string) :=
  match candidates with
  | [] => None
  | candidate :: candidates' =>
      let ip := TrimSpace (get_option networks candidate) in
      if negb (String.eqb ip "") then Some (ip, candidate)
      else first_address networks candidates'
  end.

Definition resolveHost (source : RuntimeSource) (snapshot : ContainerSnapshot)
    (intent : RouteIntent) : result error (string * string) :=
  match first_address (cs_Networks snapshot) (networkCandidates source snapshot intent) with
  | Some found => Ok found
  | None =>
      if (size (cs_Networks snapshot) =? 0)%nat
      then Err (Enew "no container network address available")
      else
        let wanted := TrimSpace (in_Network intent) in
        let wanted := if String.eqb wanted "" then TrimSpace (rs_Network source) else wanted in
        if negb (String.eqb wanted "")
        then Err (Enew ("network " +:+ quote wanted +:+ " not found or has no address"))
        else Err (Enew "no container network address available")
  end.

Definition hasContainerMarker (stat : string → bool) : bool :=
  existsb stat ["/.dockerenv"; "/.containerenv"; "/run/.containerenv"].

Definition publishedTargetHost (isPodman inContainer : bool) : string :=
  if isPodman && inContainer then "host.containers.internal" else "127.0.0.1".

Definition resolvePublishedTarget (source : RuntimeSource) (snapshot : ContainerSnapshot)
    (privatePort : Z) : option (string * Z) :=
  let runtime := RuntimeOrDefault env source in
  match cs_PublishedPorts snapshot !! privatePort with
  | None => None
  | Some publishedPort =>
      if (publishedPort =? 0)%Z then None
      else if String.eqb runtime ContainerRuntimePodman
      then Some (publishedTargetHost true runningInContainer, publishedPort)
      else if (size (cs_Networks snapshot) =? 0)%nat
      then Some (publishedTargetHost false runningInContainer, publishedPort)
      else None
  end.

Definition resolveTargetAddress (source : RuntimeSource) (snapshot : ContainerSnapshot)
    (intent : RouteIntent) : result error (string * Z * string) :=
  let? port := resolvePort snapshot intent in
  if cs_HostNetwork snapshot then Ok ("127.0.0.1", port, "host")
  else match resolvePublishedTarget source snapshot port with
       | Some (host, published) => Ok (host, published, "published")
       | None =>
           let? (host, network) := resolveHost source snapshot intent in
           Ok (host, port, network)
       end.

(** The host is an IP address or one of two fixed names, which [URL.String]
    prints as they are. *)
Definition http_url (host : string) (port : Z) : string :=
  "http://" +:+ host +:+ ":" +:+ Itoa port.

Definition ResolveTarget (source : RuntimeSource) (snapshot : ContainerSnapshot)
    (intent : RouteIntent) : result error (string * string) :=
  let? (host, port, network) := resolveTargetAddress source snapshot intent in
  Ok (network, http_url host port).

(** ** The routes of a set of containers *)

Definition zone_lookup_key (zone : ManagedZone) : string :=
  let domain := TrimSpace (z_Domain zone) in
  if String.eqb domain "" then TrimSpace (z_Name zone) else domain.

(** One iteration of the loop: nothing, a route or an error. *)
Definition container_route (source : RuntimeSource) (zones : list ManagedZone)
    (snapshot : ContainerSnapshot) : option (result error DiscoveredRoute) :=
  let zoneByDomain := keyed_from zone_lookup_key ∅ zones in
  let fail (e : error) : option (result error DiscoveredRoute) :=
    Some (Err (Ewrap ("container " +:+ cs_Name snapshot +:+ ": " +:+ error_text e) e)) in
  if negb (cs_Running snapshot) then None
  else match ParseLabels (cs_Labels snapshot) DefaultLabelPrefix with
  | Err e => fail e
  | Ok intent =>
      if negb (in_Managed intent) then None
      else
        let domainName := if String.eqb (in_Domain intent) "" then DefaultManagedZoneName zones
                          else in_Domain intent in
        match zoneByDomain !! domainName with
        | None => Some (Err (Enew ("container " +:+ cs_Name snapshot +:+ ": unknown domain "
                                   +:+ quote domainName)))
        | Some zone =>
            match ResolveTarget source snapshot intent with
            | Err e => fail e
            | Ok (network, targetURL) =>
                Some (Ok (BuildRoute zone snapshot intent targetURL network LocalNodeName))
            end
        end
  end.

(** What a loop appends to [routes] and to [errs]. *)
Definition ok_outcomes {A} (l : list (result error A)) : list A :=
  omap (λ o, match o with Ok r => Some r | Err _ => None end) l.
Definition err_outcomes {A} (l : list (result error A)) : list error :=
  omap (λ o, match o with Ok _ => None | Err e => Some e end) l.

Definition DiscoverRoutesFromSnapshots (source : RuntimeSource) (zones : list ManagedZone)
    (snapshots : list ContainerSnapshot) : list DiscoveredRoute * option error :=
  let outcomes := omap (container_route source zones) snapshots in
  (sort_by r_Host (ok_outcomes outcomes), join_errs (err_outcomes outcomes)).
End target.

(** ** Snapshots from the container API *)
Record PortSummary := { ps_PrivatePort : Z; ps_PublicPort : Z }.
Record ContainerSummary := {
  sum_ID : string;
  sum_Names : list string;
  sum_Image : string;
  sum_State : string;
  sum_Labels : gmap string string;
  sum_Ports : list PortSummary
}.
Record NetworkSettings := {
  ns_Networks : gmap string (option string);
  ns_Ports : gmap string (list string)
}.
Record InspectResponse := {
  ins_Name : string;
  ins_NetworkSettings : option NetworkSettings;
  ins_ExposedPorts : option (gmap string ());
  ins_NetworkMode : option string;
  ins_State : option (bool * string)
}.

Class Nat := {
  nat_Port : string → string;
  nat_ParsePort : string → result error Z
}.

Section snapshots.
Context `{GoRuntime} `{Nat}.

(** The first binding of a port with a valid host port. *)
Fixpoint first_binding (bindings : list string) : option Z :=
  match bindings with
  | [] => None
  | hostPort :: bindings' =>
      if String.eqb hostPort "" then first_binding bindings'
      else match nat_ParsePort hostPort with
           | Ok p => if (0 <? p)%Z then Some p else first_binding bindings'
           | Err _ => first_binding bindings'
           end
  end.

Definition summary_port (acc : gset Z * gmap Z Z) (port : PortSummary) : gset Z * gmap Z Z :=
  if (0 <? ps_PrivatePort port)%Z then
    ({[ps_PrivatePort port]} ∪ acc.1,
     if (0 <? ps_PublicPort port)%Z then <[ps_PrivatePort port := ps_PublicPort port]> acc.2
     else acc.2)
  else acc.

Definition inspect_port (acc : gset Z * gmap Z Z) (entry : string * list string)
  : gset Z * gmap Z Z :=
  match nat_ParsePort (nat_Port entry.1) with
  | Err _ => acc
  | Ok privatePort =>
      if (privatePort <=? 0)%Z then acc
      else ({[privatePort]} ∪ acc.1,
            match first_binding entry.2 with
            | Some p => <[privatePort := p]> acc.2
            | None => acc.2
            end)
  end.

Definition exposed_port (ports : gset Z) (port : string) : gset Z :=
  match nat_ParsePort (nat_Port port) with
  | Ok parsed => if (0 <? parsed)%Z then {[parsed]} ∪ ports else ports
  | Err _ => ports
  end.

Definition endpoint_addresses (networks : gmap string (option string)) : gmap string string :=
  omap (λ endpoint, match endpoint with
                    | Some ip => if String.eqb ip "" then None else Some ip
                    | None => None
                    end) networks.

Definition snapshotFromDocker (summary : ContainerSummary) (inspect : InspectResponse)
    (runtime : ContainerRuntime) : ContainerSnapshot :=
  let name := TrimPrefix (ins_Name inspect) "/" in
  let name := match sum_Names summary with
              | first :: _ => if String.eqb name "" then TrimPrefix first "/" else name
              | [] => name
              end in
  let networks := match ins_NetworkSettings inspect with
                  | Some ns => endpoint_addresses (ns_Networks ns)
                  | None => ∅
                  end in
  let ports := foldl summary_port (∅, ∅) (sum_Ports summary) in
  let ports := match ins_NetworkSettings inspect with
               | Some ns => foldl inspect_port ports (map_range (ns_Ports ns))
               | None => ports
               end in
  let portSet := match ins_ExposedPorts inspect with
                 | Some exposed => foldl exposed_port ports.1 (map_keys exposed)
                 | None => ports.1
                 end in
  {| cs_ID := sum_ID summary; cs_Name := name; cs_Image := sum_Image summary;
     cs_Runtime := runtime;
     cs_Running := match ins_State inspect with Some (running, _) => running | None => false end;
     cs_State := match ins_State inspect with
                 | Some (_, status) => if String.eqb status "" then sum_State summary else status
                 | None => sum_State summary
                 end;
     cs_HostNetwork := match ins_NetworkMode inspect with
                       | Some mode => String.eqb mode "host"
                       | None => false
                       end;
     cs_Labels := sum_Labels summary; cs_Networks := networks;
     cs_ExposedPorts := sort_ints (elements portSet); cs_PublishedPorts := ports.2 |}.

(** The container API of one runtime. *)
Record apiClient := {
  ContainerList : result error (list ContainerSummary);
  ContainerInspect : string → result error InspectResponse;
  NetworkList : result error (list string)
}.

Record DockerDiscovery := { dd_Source : RuntimeSource; dd_client : apiClient }.

Context (env : Env) (runningInContainer : bool).

Definition NewWithClient (source : RuntimeSource) (cli : apiClient) : DockerDiscovery :=
  {| dd_Source := Normalized env source; dd_client := cli |}.

Definition DockerDiscovery_Name (d : DockerDiscovery) : string :=
  RuntimeOrDefault env (dd_Source d).

Definition NetworkNames (d : DockerDiscovery) : result error (list string) :=
  let? networks := NetworkList (dd_client d) in
  let names := List.filter (λ n, negb (String.eqb n "")) (map TrimSpace networks) in
  Ok (remove_dups (sort_by id names)).

Fixpoint inspect_all (d : DockerDiscovery) (containers : list ContainerSummary)
  : result error (list ContainerSnapshot) :=
  match containers with
  | [] => Ok []
  | summary :: containers' =>
      let? inspect := ContainerInspect (dd_client d) (sum_ID summary) in
      let? snapshots := inspect_all d containers' in
      Ok (snapshotFromDocker summary inspect (RuntimeOrDefault env (dd_Source d)) :: snapshots)
  end.

Definition Snapshots (d : DockerDiscovery) : result error (list ContainerSnapshot) :=
  let? containers := ContainerList (dd_client d) in inspect_all d containers.

Definition DiscoverRoutes (d : DockerDiscovery) (zones : list ManagedZone)
  : list DiscoveredRoute * option error :=
  match Snapshots d with
  | Err e => ([], Some e)
  | Ok snapshots =>
      DiscoverRoutesFromSnapshots env runningInContainer (dd_Source d) zones snapshots
  end.
End snapshots.

Record EventMessage := { ev_Type : string; ev_Action : string }.

Definition shouldRefreshOnEvent (msg : EventMessage) : bool :=
  if negb (String.eqb (ev_Type msg) "container") then false
  else bool_decide (ev_Action msg ∈
    ["create"; "start"; "stop"; "die"; "destroy"; "rename"; "update"; "pause"; "unpause";
     "connect"; "disconnect"]).

(** ** Lemmas: the ports of a snapshot *)
Lemma sort_ints_perm (l : list Z) : sort_ints l ≡ₚ l.
Proof. apply merge_sort_Permutation. Qed.

Lemma sort_ints_sorted (l : list Z) : StronglySorted Z.le (sort_ints l).
Proof. apply (StronglySorted_merge_sort Z.le); apply _. Qed.

(** Every port seen is positive, every published port is seen and positive. *)
Definition ports_ok (acc : gset Z * gmap Z Z) : Prop :=
  (∀ p, p ∈ acc.1 → (0 < p)%Z) ∧
  (∀ p q, acc.2 !! p = Some q → p ∈ acc.1 ∧ (0 < q)%Z).

Lemma ports_ok_add acc p q :
  ports_ok acc → (0 < p)%Z → (0 < q)%Z → ports_ok ({[p]} ∪ acc.1, <[p := q]> acc.2).
Proof.
  intros [H1 H2] Hp Hq. split; simpl.
  - intros p' [->%elem_of_singleton|Hin]%elem_of_union; [done|by apply H1].
  - intros p' q'. rewrite lookup_insert. case_decide as E.
    + intros [= <-]. subst. split; [|done]. apply elem_of_union_l. by apply elem_of_singleton.
    + intros Hl. apply H2 in Hl as [Hl ?]. split; [|done]. by apply elem_of_union_r.
Qed.

Lemma ports_ok_see acc p : ports_ok acc → (0 < p)%Z → ports_ok ({[p]} ∪ acc.1, acc.2).
Proof.
  intros [H1 H2] Hp. split; simpl.
  - intros p' [->%elem_of_singleton|Hin]%elem_of_union; [done|by apply H1].
  - intros p' q' Hl. apply H2 in Hl as [Hl ?]. split; [|done]. by apply elem_of_union_r.
Qed.

Lemma foldl_invariant {A B} (P : A → Prop) (f : A → B → A) (l : list B) a :
  P a → (∀ a b, P a → P (f a b)) → P (foldl f a l).
Proof. intros Ha Hf. revert a Ha. induction l; simpl; auto. Qed.

Lemma first_binding_pos `{Nat} bindings q : first_binding bindings = Some q → (0 < q)%Z.
Proof.
  induction bindings as [|b l IH]; simpl; [done|].
  repeat case_split; try done. intros [= <-]. by apply Z.ltb_lt.
Qed.

Lemma summary_port_ok acc p : ports_ok acc → ports_ok (summary_port acc p).
Proof.
  intros Hok. unfold summary_port.
  destruct (0 <? ps_PrivatePort p)%Z eqn:E1; [|done]. apply Z.ltb_lt in E1.
  destruct (0 <? ps_PublicPort p)%Z eqn:E2; [apply Z.ltb_lt in E2|].
  - by apply ports_ok_add.
  - by apply ports_ok_see.
Qed.

Lemma inspect_port_ok `{Nat} acc e : ports_ok acc → ports_ok (inspect_port acc e).
Proof.
  intros Hok. unfold inspect_port. destruct (nat_ParsePort _) as [p|]; [|done].
  destruct (p <=? 0)%Z eqn:E; [done|]. apply Z.leb_gt in E.
  destruct (first_binding e.2) eqn:F.
  - apply ports_ok_add; [done..|]. by eapply first_binding_pos.
  - by apply ports_ok_see.
Qed.

Lemma exposed_port_ok `{Nat} (ports : gset Z) published e :
  ports_ok (ports, published) → ports_ok (exposed_port ports e, published).
Proof.
  intros Hok. unfold exposed_port. destruct (nat_ParsePort _) as [p|]; [|done].
  destruct (0 <? p)%Z eqn:E; [|done]. apply Z.ltb_lt in E.
  by apply (ports_ok_see (ports, published)).
Qed.

Lemma endpoint_addresses_nonempty networks name ip :
  endpoint_addresses networks !! name = Some ip → ip ≠ EmptyString.
Proof.
  unfold endpoint_addresses. rewrite lookup_omap.
  destruct (networks !! name) as [[ip'|]|]; simpl; [|done..].
  destruct (String.eqb ip' "") eqn:E; [done|]. intros [= <-]. by apply String.eqb_neq.
Qed.

(** ** Lemmas: candidates *)
Lemma add_candidate_NoDup out n : NoDup out → NoDup (add_candidate out n).
Proof.
  intros Hnd. unfold add_candidate. repeat case_split; try done. beq.
  apply NoDup_snoc. done.
Qed.

Lemma elem_of_add_candidate out n x :
  x ∈ add_candidate out n ↔ x ∈ out ∨ (x = TrimSpace n ∧ x ≠ EmptyString).
Proof.
  unfold add_candidate.
  destruct (String.eqb (TrimSpace n) "") eqn:E1; beq; [naive_solver congruence|].
  destruct (bool_decide _) eqn:E2; beq.
  - naive_solver congruence.
  - rewrite elem_of_app, list_elem_of_singleton. naive_solver congruence.
Qed.

Lemma foldl_add_candidate_NoDup l out : NoDup out → NoDup (foldl add_candidate out l).
Proof. revert out. induction l; simpl; auto using add_candidate_NoDup. Qed.

Lemma elem_of_foldl_add_candidate l out x :
  x ∈ foldl add_candidate out l ↔
  x ∈ out ∨ ∃ n, n ∈ l ∧ x = TrimSpace n ∧ x ≠ EmptyString.
Proof.
  revert out. induction l as [|n l IH]; intros out; simpl.
  - split; [auto|]. intros [?|(n & Hn & _)]; [done|]. by apply elem_of_nil in Hn.
  - rewrite IH, elem_of_add_candidate. setoid_rewrite elem_of_cons. naive_solver.
Qed.

Lemma addNetwork_prefix labels out n : NoDup out → NoDup (addNetwork labels out n).
Proof. intros. unfold addNetwork. case_split; auto using add_candidate_NoDup. Qed.

Lemma elem_of_first_address networks cands ip n :
  first_address networks cands = Some (ip, n) →
  n ∈ cands ∧ ip = TrimSpace (get_option networks n) ∧ ip ≠ EmptyString.
Proof.
  induction cands as [|c cands IH]; simpl; [done|].
  destruct (negb _) eqn:E; beq.
  - intros [= <- <-]. split; [constructor|done].
  - intros Hf. apply IH in Hf as (? & ? & ?). split; [by constructor|done].
Qed.

Lemma first_address_None networks cands :
  first_address networks cands = None ↔
  ∀ n, n ∈ cands → TrimSpace (get_option networks n) = EmptyString.
Proof.
  induction cands as [|c cands IH]; simpl.
  - split; [|done]. intros _ n Hn. by apply elem_of_nil in Hn.
  - setoid_rewrite elem_of_cons. destruct (negb _) eqn:E; beq.
    + split; [done|]. intros Hall. destruct E. apply Hall. by left.
    + rewrite IH. naive_solver.
Qed.

Lemma resolveHost_Ok `{GoRuntime} source snapshot intent host network :
  resolveHost source snapshot intent = Ok (host, network) →
  network ∈ networkCandidates source snapshot intent ∧
  host = TrimSpace (get_option (cs_Networks snapshot) network) ∧ host ≠ EmptyString.
Proof.
  unfold resolveHost. destruct (first_address _ _) as [[ip n]|] eqn:E.
  - intros [= <- <-]. by apply elem_of_first_address in E.
  - repeat case_split; done.
Qed.

Lemma resolvePort_pos snapshot intent port :
  resolvePort snapshot intent = Ok port → (0 < port)%Z.
Proof.
  unfold resolvePort. destruct (0 <? in_Port intent)%Z eqn:E.
  - intros [= <-]. by apply Z.ltb_lt.
  - destruct (cs_ExposedPorts snapshot) as [|p ps]; [done|].
    destruct (List.filter _ _) as [|q qs] eqn:F; [done|]. intros [= <-].
    assert (List.In q (List.filter (λ p, (0 <? p)%Z) (sort_ints (p :: ps)))) as Hin
      by (rewrite F; by left).
    apply List.filter_In in Hin as [_ Hin]. by apply Z.ltb_lt.
Qed.

(** The published ports a snapshot offers are positive. *)
Definition snapshot_ok (s : ContainerSnapshot) : Prop :=
  StronglySorted Z.le (cs_ExposedPorts s) ∧ NoDup (cs_ExposedPorts s) ∧
  (∀ p, p ∈ cs_ExposedPorts s → (0 < p)%Z) ∧
  (∀ p q, cs_PublishedPorts s !! p = Some q → p ∈ cs_ExposedPorts s ∧ (0 < q)%Z) ∧
  (∀ n ip, cs_Networks s !! n = Some ip → ip ≠ EmptyString).

(** Whatever the container API answers, a snapshot is well formed: its
    exposed ports are positive, increasing and without duplicates, every
    published port belongs to an exposed one and is positive, and no network
    has an empty address. *)
Theorem snapshotFromDocker_ok `{GoRuntime} `{Nat} summary inspect runtime :
  snapshot_ok (snapshotFromDocker summary inspect runtime).
Proof.
  unfold snapshot_ok, snapshotFromDocker; cbn [cs_ExposedPorts cs_PublishedPorts cs_Networks].
  match goal with
  | |- context [foldl inspect_port ?a] => remember a as ports0 eqn:E0
  end.
  assert (ports_ok ports0) as Hok0.
  { subst. apply foldl_invariant; [|auto using summary_port_ok].
    split; simpl; [intros p Hp; by apply not_elem_of_empty in Hp|done]. }
  match goal with
  | |- context [foldl exposed_port (fst ?a)] => remember a as ports1 eqn:E1
  end.
  assert (ports_ok ports1) as Hok1.
  { subst ports1. destruct (ins_NetworkSettings inspect); [|done].
    apply foldl_invariant; auto using inspect_port_ok. }
  match goal with
  | |- context [elements ?s] => remember s as set eqn:E2
  end.
  assert (ports_ok (set, ports1.2)) as [Hpos Hpub].
  { subst set. destruct (ins_ExposedPorts inspect) as [m|]; [|by destruct ports1].
    apply (foldl_invariant (λ s, ports_ok (s, ports1.2))); [by destruct ports1|].
    intros; by apply exposed_port_ok. }
  split_and!.
  - apply sort_ints_sorted.
  - rewrite sort_ints_perm. apply NoDup_elements.
  - intros p. rewrite sort_ints_perm, elem_of_elements. apply Hpos.
  - intros p q Hp. rewrite sort_ints_perm, elem_of_elements. by apply Hpub.
  - intros n ip. destruct (ins_NetworkSettings inspect); [|by rewrite lookup_empty].
    apply endpoint_addresses_nonempty.
Qed.

(** ** Lemmas: which network is tried first *)
Lemma add_candidate_app out n : ∃ k, add_candidate out n = out ++ k.
Proof.
  unfold add_candidate. repeat case_split; eauto; exists []; by rewrite app_nil_r.
Qed.

Lemma foldl_add_candidate_app l out : ∃ k, foldl add_candidate out l = out ++ k.
Proof.
  revert out. induction l as [|n l IH]; intros out; simpl; [exists []; by rewrite app_nil_r|].
  destruct (add_candidate_app out n) as [k1 ->]. destruct (IH (out ++ k1)) as [k2 ->].
  exists (k1 ++ k2). by rewrite app_assoc.
Qed.

Lemma addNetwork_app labels out n : ∃ k, addNetwork labels out n = out ++ k.
Proof.
  unfold addNetwork. destruct (add_candidate_app out n) as [k1 ->].
  case_split; [|eauto].
  destruct (add_candidate_app (out ++ k1) (composeProjectName labels +:+ "_" +:+ n)) as [k2 ->].
  exists (k1 ++ k2). by rewrite app_assoc.
Qed.

Section candidates.
Context `{GoRuntime} (source : RuntimeSource) (snapshot : ContainerSnapshot)
  (intent : RouteIntent).

Lemma networkCandidates_app :
  ∃ k, networkCandidates source snapshot intent =
       addNetwork (cs_Labels snapshot) [] (in_Network intent) ++ k.
Proof.
  unfold networkCandidates. case_split.
  - destruct (addNetwork_app (cs_Labels snapshot)
      (addNetwork (cs_Labels snapshot) [] (in_Network intent)) (rs_Network source)) as [k1 ->].
    destruct (foldl_add_candidate_app (sort_by id (map_keys (cs_Networks snapshot)))
      (addNetwork (cs_Labels snapshot) [] (in_Network intent) ++ k1)) as [k2 ->].
    exists (k1 ++ k2). by rewrite app_assoc.
  - apply foldl_add_candidate_app.
Qed.

Lemma networkCandidates_label :
  TrimSpace (in_Network intent) ≠ EmptyString →
  ∃ k, networkCandidates source snapshot intent = TrimSpace (in_Network intent) :: k.
Proof.
  intros Hn. destruct networkCandidates_app as [k ->].
  assert (add_candidate [] (in_Network intent) = [TrimSpace (in_Network intent)]) as Ha.
  { unfold add_candidate. apply String.eqb_neq in Hn. by rewrite Hn. }
  unfold addNetwork. rewrite Ha. case_split; [|by eauto].
  destruct (add_candidate_app [TrimSpace (in_Network intent)]
    (composeProjectName (cs_Labels snapshot) +:+ "_" +:+ in_Network intent)) as [k2 ->].
  by eexists.
Qed.

Lemma networkCandidates_NoDup : NoDup (networkCandidates source snapshot intent).
Proof.
  unfold networkCandidates. apply foldl_add_candidate_NoDup.
  case_split; repeat apply addNetwork_prefix; apply NoDup_nil_2.
Qed.

Lemma networkCandidates_complete n :
  is_Some (cs_Networks snapshot !! n) → TrimSpace n = n → n ≠ EmptyString →
  n ∈ networkCandidates source snapshot intent.
Proof.
  intros Hs Ht Hn. unfold networkCandidates. apply elem_of_foldl_add_candidate. right.
  exists n. split_and!; [|by rewrite Ht|done].
  apply elem_of_sort_by. by apply elem_of_map_keys.
Qed.

Lemma resolveHost_Err e :
  resolveHost source snapshot intent = Err e →
  ∀ n ip, cs_Networks snapshot !! n = Some ip → TrimSpace n = n → n ≠ EmptyString →
    TrimSpace ip = EmptyString.
Proof.
  unfold resolveHost. destruct (first_address _ _) as [p|] eqn:E; [by destruct p|].
  intros _ n ip Hip Ht Hn. rewrite first_address_None in E.
  assert (get_option (cs_Networks snapshot) n = ip) as <-
    by (unfold get_option, options; by rewrite Hip).
  apply E. apply networkCandidates_complete; eauto.
Qed.

Lemma resolveHost_label ip :
  TrimSpace (in_Network intent) ≠ EmptyString →
  cs_Networks snapshot !! TrimSpace (in_Network intent) = Some ip →
  TrimSpace ip ≠ EmptyString →
  resolveHost source snapshot intent = Ok (TrimSpace ip, TrimSpace (in_Network intent)).
Proof.
  intros Hn Hip Hne. unfold resolveHost.
  assert (get_option (cs_Networks snapshot) (TrimSpace (in_Network intent)) = ip) as Hg
    by (unfold get_option, options; by rewrite Hip).
  destruct (networkCandidates_label Hn) as [k ->]. cbn [first_address]. rewrite Hg.
  apply String.eqb_neq in Hne. by rewrite Hne.
Qed.
End candidates.

(** The port a container is reached at: the labelled one, or the smallest port
    exposed. *)
Definition wanted_port (snapshot : ContainerSnapshot) (intent : RouteIntent) (port : Z) : Prop :=
  if (0 <? in_Port intent)%Z then port = in_Port intent
  else port ∈ cs_ExposedPorts snapshot ∧ ∀ p, p ∈ cs_ExposedPorts snapshot → (port ≤ p)%Z.

Lemma resolvePort_spec snapshot intent :
  snapshot_ok snapshot →
  match resolvePort snapshot intent with
  | Ok port =>
      (0 < port)%Z ∧ wanted_port snapshot intent port
  | Err _ => (in_Port intent ≤ 0)%Z ∧ cs_ExposedPorts snapshot = []
  end.
Proof.
  intros (_ & _ & Hpos & _). unfold resolvePort, wanted_port.
  destruct (0 <? in_Port intent)%Z eqn:E.
  { apply Z.ltb_lt in E. by split. }
  apply Z.ltb_ge in E. destruct (cs_ExposedPorts snapshot) as [|p ps]; [done|].
  assert (List.filter (λ p, (0 <? p)%Z) (sort_ints (p :: ps)) = sort_ints (p :: ps)) as ->.
  { assert (∀ l, (∀ q, q ∈ l → (0 < q)%Z) → List.filter (λ p, (0 <? p)%Z) l = l) as Hf.
    { induction l as [|q l IH]; intros Hl; simpl; [done|].
      assert ((0 <? q)%Z = true) as -> by (apply Z.ltb_lt, Hl; constructor).
      f_equal. apply IH. intros r Hr. apply Hl. by constructor. }
    apply Hf. intros q. rewrite sort_ints_perm. apply Hpos. }
  pose proof (sort_ints_sorted (p :: ps)) as Hs.
  pose proof (sort_ints_perm (p :: ps)) as Hp.
  destruct (sort_ints (p :: ps)) as [|q qs]; [by apply Permutation_nil_l in Hp|].
  inversion Hs as [|?? _ Hall]; subst.
  assert (q ∈ p :: ps) as Hq by (rewrite <-Hp; constructor).
  split; [by apply Hpos|]. split; [done|].
  intros r. rewrite <-Hp, elem_of_cons. intros [->|Hr]; [lia|].
  rewrite List.Forall_forall in Hall. apply Hall. by apply list_elem_of_In.
Qed.

(** A published port serves instead of a network under Podman, or for a
    container without networks. *)
Definition usable `{GoRuntime} (env : Env) (source : RuntimeSource) (snapshot : ContainerSnapshot)
    (port published : Z) : Prop :=
  cs_PublishedPorts snapshot !! port = Some published ∧
  (RuntimeOrDefault env source = ContainerRuntimePodman ∨ cs_Networks snapshot = ∅).

Lemma resolvePublishedTarget_spec `{GoRuntime} env ric source snapshot port :
  snapshot_ok snapshot →
  match resolvePublishedTarget env ric source snapshot port with
  | Some (host, published) =>
      usable env source snapshot port published ∧ (0 < published)%Z ∧
      host = if bool_decide (RuntimeOrDefault env source = ContainerRuntimePodman) && ric
             then "host.containers.internal" else "127.0.0.1"
  | None => ∀ published, ¬ usable env source snapshot port published
  end.
Proof.
  intros (_ & _ & _ & Hpub & _). unfold resolvePublishedTarget, usable.
  destruct (cs_PublishedPorts snapshot !! port) as [q|] eqn:E; [|by intros ? [? _]].
  apply Hpub in E as [_ Hq].
  assert ((q =? 0)%Z = false) as -> by (apply Z.eqb_neq; lia).
  destruct (String.eqb _ ContainerRuntimePodman) eqn:P; beq.
  { rewrite bool_decide_eq_true_2 by done. split_and!; auto. }
  rewrite bool_decide_eq_false_2 by done.
  destruct (size (cs_Networks snapshot) =? 0)%nat eqn:S.
  - apply Nat.eqb_eq, map_size_empty_iff in S. split_and!; auto.
  - intros published [_ [?|Hm]]; [done|]. by rewrite Hm in S.
Qed.

(** C35. The address a route targets, for the snapshot of any container.  It is
    reached at its labelled port, or else at the smallest it exposes.  With
    the host network that is its own port on the loopback; otherwise, if the
    port is published and usable (under Podman, or without any network), it is
    the published port, on the host seen from a Podman container when the
    program itself runs in one and else on the loopback; and only otherwise a
    network of the container on which it has an address, the labelled network
    whenever the container has an address there.  It fails only for a
    container that exposes no port and has no port label, or that is not on
    the host network, publishes nothing usable and has no address. *)
Theorem resolveTargetAddress_correct `{GoRuntime} `{Nat} env ric source
    summary inspect runtime intent :
  let s := snapshotFromDocker summary inspect runtime in
  match resolveTargetAddress env ric source s intent with
  | Ok (host, port, network) =>
      ∃ private, wanted_port s intent private ∧ (0 < private)%Z ∧ (0 < port)%Z ∧
      ((cs_HostNetwork s = true ∧ host = "127.0.0.1" ∧ network = "host" ∧ port = private) ∨
       (cs_HostNetwork s = false ∧ usable env source s private port ∧ network = "published" ∧
        host = if bool_decide (RuntimeOrDefault env source = ContainerRuntimePodman) && ric
               then "host.containers.internal" else "127.0.0.1") ∨
       (cs_HostNetwork s = false ∧ (∀ q, ¬ usable env source s private q) ∧ port = private ∧
        (∃ ip, cs_Networks s !! network = Some ip ∧ host = TrimSpace ip ∧ host ≠ "") ∧
        ∀ ip, TrimSpace (in_Network intent) ≠ "" →
          cs_Networks s !! TrimSpace (in_Network intent) = Some ip → TrimSpace ip ≠ "" →
          network = TrimSpace (in_Network intent)))
  | Err _ =>
      ((in_Port intent ≤ 0)%Z ∧ cs_ExposedPorts s = []) ∨
      (cs_HostNetwork s = false ∧
       (∃ private, wanted_port s intent private ∧ ∀ q, ¬ usable env source s private q) ∧
       ∀ n ip, cs_Networks s !! n = Some ip → TrimSpace n = n → n ≠ "" → TrimSpace ip = "")
  end.
Proof.
  intros s. pose proof (snapshotFromDocker_ok summary inspect runtime) as Hok.
  fold s in Hok. clearbody s. unfold resolveTargetAddress.
  pose proof (resolvePort_spec s intent Hok) as Hport.
  destruct (resolvePort s intent) as [port|e]; [|by left]. destruct Hport as [Hpos Hwant].
  destruct (cs_HostNetwork s) eqn:Hh.
  { exists port. split_and!; [done..|]. by left. }
  pose proof (resolvePublishedTarget_spec env ric source s port Hok) as Hpub.
  destruct (resolvePublishedTarget _ _ _ _ _) as [[host q]|].
  { destruct Hpub as (Hq & Hqpos & Hhost). exists port. split_and!; [done..|]. by right; left. }
  destruct (resolveHost source s intent) as [[host network]|e] eqn:Hr.
  - exists port. split_and!; [done..|]. right; right. split_and!; [done..| |].
    + apply resolveHost_Ok in Hr as (_ & Hhost & Hne). unfold get_option, options in Hhost.
      destruct (cs_Networks s !! network) as [ip|]; [by eauto|by subst].
    + intros ip Hn Hip Hne. rewrite (resolveHost_label _ _ _ ip) in Hr by done. congruence.
  - right. split; [done|]. split; [by exists port|]. by eapply resolveHost_Err.
Qed.

(** ** Lemmas: the routes of a set of containers *)
Section container_routes.
Context `{GoRuntime} (env : Env) (ric : bool) (source : RuntimeSource)
  (zones : list ManagedZone).

(** The domain a labelled container asks for, and its zone. *)
Definition intent_domain (intent : RouteIntent) : string :=
  if String.eqb (in_Domain intent) "" then DefaultManagedZoneName zones else in_Domain intent.
Definition intent_zone (intent : RouteIntent) : option ManagedZone :=
  find_last (λ z, String.eqb (zone_lookup_key z) (intent_domain intent)) zones.

(** What it takes for a container to have a route. *)
Definition routed (s : ContainerSnapshot) (r : DiscoveredRoute) : Prop :=
  ∃ intent zone network target,
    cs_Running s = true ∧ ParseLabels (cs_Labels s) DefaultLabelPrefix = Ok intent ∧
    in_Managed intent = true ∧ intent_zone intent = Some zone ∧
    ResolveTarget env ric source s intent = Ok (network, target) ∧
    r = BuildRoute zone s intent target network LocalNodeName.

(** A container that asks for nothing: stopped, or without a label of ours. *)
Definition unmanaged (s : ContainerSnapshot) : Prop :=
  cs_Running s = false ∨
  ∃ intent, ParseLabels (cs_Labels s) DefaultLabelPrefix = Ok intent ∧ in_Managed intent = false.

Lemma container_route_Ok s r :
  container_route env ric source zones s = Some (Ok r) ↔ routed s r.
Proof.
  unfold container_route, routed, intent_zone.
  destruct (cs_Running s); simpl; [|naive_solver].
  destruct (ParseLabels _ _) as [intent|] eqn:Ep; [|naive_solver].
  destruct (in_Managed intent) eqn:Em; simpl; [|split; [done|]; intros (?&?&?&?&?&?&?&_); congruence].
  rewrite keyed_from_lookup, lookup_empty. fold (intent_domain intent).
  destruct (find_last _ zones) as [zone|] eqn:Ez;
    [|split; [done|]; intros (?&?&?&?&?&?&?&?&_); simplify_eq; congruence].
  destruct (ResolveTarget _ _ _ _ _) as [[network target]|] eqn:Et.
  - split; [intros [= <-]; by exists intent, zone, network, target|].
    intros (?&?&?&?&?&?&?&?&?&->). simplify_eq. congruence.
  - split; [done|]. intros (?&?&?&?&?&?&?&?&?&_). simplify_eq. congruence.
Qed.

Lemma container_route_None s :
  container_route env ric source zones s = None ↔ unmanaged s.
Proof.
  unfold container_route, unmanaged.
  destruct (cs_Running s); simpl; [|naive_solver].
  destruct (ParseLabels _ _) as [intent|] eqn:Ep; [|naive_solver].
  destruct (in_Managed intent) eqn:Em; simpl; [|split; [eauto|done]].
  split; [by repeat case_split|]. intros [?|(?&?&?)]; simplify_eq; congruence.
Qed.

Lemma outcomes_length {A} (l : list (result error A)) :
  (length (ok_outcomes l) + length (err_outcomes l))%nat = length l.
Proof. induction l as [|[a|e] l IH]; simpl; unfold ok_outcomes, err_outcomes in *; simpl; lia. Qed.

Lemma elem_of_ok_outcomes {A} (l : list (result error A)) a : a ∈ ok_outcomes l ↔ Ok a ∈ l.
Proof.
  unfold ok_outcomes. rewrite list_elem_of_omap. split.
  - intros ([b|e] & Hin & [= ->]). done.
  - intros Hin. by exists (Ok a).
Qed.

Lemma err_outcomes_nil {A} (l : list (result error A)) :
  err_outcomes l = [] ↔ ∀ o, o ∈ l → is_ok o = true.
Proof.
  induction l as [|[a|e] l IH]; unfold err_outcomes in *; simpl;
    [|setoid_rewrite elem_of_cons..].
  - split; [|done]. intros _ o Ho. exfalso. by inversion Ho.
  - rewrite IH. naive_solver.
  - split; [done|]. intros Hall. by specialize (Hall (Err e) (or_introl eq_refl)).
Qed.
End container_routes.

(** C34. The routes of a set of containers are those of its running containers
    with a label of ours whose domain is a managed zone and whose target
    resolves, one each, sorted by host, with the host name in that zone; a
    container without a label or stopped contributes nothing, and every other
    one an error: none hides the routes of the others. *)
Theorem DiscoverRoutesFromSnapshots_correct `{GoRuntime} env ric source zones snapshots :
  let '(routes, err) := DiscoverRoutesFromSnapshots env ric source zones snapshots in
  Sorted (le_by r_Host) routes ∧
  (∀ r, r ∈ routes ↔ ∃ s, s ∈ snapshots ∧ routed env ric source zones s r) ∧
  (err = None ↔ ∀ s, s ∈ snapshots → unmanaged s ∨ ∃ r, routed env ric source zones s r) ∧
  (∀ r, r ∈ routes → ∃ z, z ∈ zones ∧ r_Host r = Hostname z (r_Subdomain r) ∧
     r_Domain r = z_Domain z ∧ r_Zone r = z_Name z ∧
     r_ID r = cr_ID (r_Container r) +:+ ":" +:+ r_Host r ∧ r_Source r = LocalNodeName).
Proof.
  unfold DiscoverRoutesFromSnapshots.
  assert (∀ r, r ∈ sort_by r_Host (ok_outcomes (omap (container_route env ric source zones)
                                                     snapshots)) ↔
               ∃ s, s ∈ snapshots ∧ routed env ric source zones s r) as Hin.
  { intros r. rewrite elem_of_sort_by, elem_of_ok_outcomes, list_elem_of_omap.
    by setoid_rewrite container_route_Ok. }
  split_and!.
  - apply sort_by_sorted.
  - exact Hin.
  - rewrite join_errs_None.
    rewrite err_outcomes_nil.
    setoid_rewrite list_elem_of_omap. split.
    + intros Hall s Hs.
      destruct (container_route env ric source zones s) as [[r|e]|] eqn:E.
      * right. exists r. by apply container_route_Ok.
      * specialize (Hall (Err e) (ex_intro _ s (conj Hs E))). done.
      * left. by apply container_route_None in E.
    + intros Hall o (s & Hs & E). destruct (Hall s Hs) as [Hu|[r Hr]].
      * apply (container_route_None env ric source zones) in Hu. congruence.
      * apply container_route_Ok in Hr. rewrite E in Hr. by injection Hr as ->.
  - intros r (s & Hs & intent & z & network & target & _ & _ & _ & Hz & _ & ->)%Hin.
    apply find_last_Some in Hz as [Hz _]. by exists z.
Qed.

(** ** Examples *)
#[local] Existing Instance reference_runtime.

Definition example_container : ContainerSnapshot :=
  {| cs_ID := "c1"; cs_Name := "web"; cs_Image := "nginx"; cs_Runtime := "docker";
     cs_Running := true; cs_State := "running"; cs_HostNetwork := false;
     cs_Labels := {[ "domux.subdomain" := "www"; "domux.network" := "edge" ]};
     cs_Networks := {[ "bridge" := "172.17.0.2"; "edge" := "10.0.0.2" ]};
     cs_ExposedPorts := [443; 80]%Z; cs_PublishedPorts := ∅ |}.

Example example_discovery :
  DiscoverRoutesFromSnapshots example_env false zero_RuntimeSource [example_zone]
    [example_container]
  = ([BuildRoute example_zone example_container
        {| in_Managed := true; in_Domain := ""; in_Zone := ""; in_Subdomain := "www";
           in_Port := 0%Z; in_Network := "edge" |}
        "http://10.0.0.2:80" "edge" LocalNodeName], None).
Proof. vm_compute. reflexivity. Qed.
