(* ===== verification/Sys.v ===== *)
(** What the program asks of its host: the file system, shell commands, the
    clock and an HTTP client, as interfaces over an abstract world.  [OSLaws]
    states what the code relies on; a world whose calls fail according to a
    schedule is an instance, for the witnesses. *)

From S2P Require Import Prelude GoStrings GoRuntime Core.

(** ** Calls that change the world and may fail *)

Definition IO (W A : Type) : Type := W → W * result error A.

Definition io_ret {W A} (a : A) : IO W A := λ w, (w, Ok a).
Definition io_err {W A} (e : error) : IO W A := λ w, (w, Err e).
Definition io_lift {W A} (r : result error A) : IO W A := λ w, (w, r).
Definition io_bind {W A B} (m : IO W A) (k : A → IO W B) : IO W B := λ w,
  match m w with
  | (w', Ok a) => k a w'
  | (w', Err e) => (w', Err e)
  end.
Notation "'do!' x ':=' e 'in' k" := (io_bind e (λ x, k))
  (at level 10, x pattern, e at level 100, k at level 200) : domux_scope.

Lemma io_bind_Ok {W A B} (m : IO W A) (k : A → IO W B) w w' b :
  io_bind m k w = (w', Ok b) ↔ ∃ w1 a, m w = (w1, Ok a) ∧ k a w1 = (w', Ok b).
Proof. unfold io_bind. destruct (m w) as [w1 [a|e]]; naive_solver. Qed.

Lemma io_bind_Err {W A B} (m : IO W A) (k : A → IO W B) w w' e :
  io_bind m k w = (w', Err e) ↔
  m w = (w', Err e) ∨ ∃ w1 a, m w = (w1, Ok a) ∧ k a w1 = (w', Err e).
Proof. unfold io_bind. destruct (m w) as [w1 [a|e1]]; naive_solver. Qed.

(** ** The file system and commands *)

Record file := { f_data : string; f_mode : Z }.

(** Paths are compared as strings: distinct paths of the model are distinct
    files. *)
Class OS (W : Type) := {
  os_tree : W → gmap string file;
  (** The process's file mode creation mask. *)
  os_umask : Z;
  MkdirAll : string → Z → IO W ();
  WriteFile : string → string → Z → IO W ();
  Rename : string → string → IO W ();
  ReadFile : string → IO W string;
  (** [CombinedOutput]: the output, and the error if the command failed. *)
  run_command : list string → W → W * (string * option error);
  Now : W → W * Time
}.

(** The mode of a file that is created with the mode [m]. *)
Definition created_mode (W : Type) `{OS W} (m : Z) : Z := Z.land m (Z.lnot (os_umask (W:=W))).

(** [os.WriteFile] truncates an existing file and keeps its mode, and creates
    a new one with its mode less the mask; when it fails, only the file it
    writes may have changed.  [os.Rename] replaces its target at once or
    changes nothing. *)
Class OSLaws (W : Type) `{OS W} := {
  MkdirAll_tree p m w : os_tree (MkdirAll p m w).1 = os_tree w;
  WriteFile_frame p d m w q :
    q ≠ p → os_tree (WriteFile p d m w).1 !! q = os_tree w !! q;
  WriteFile_Ok p d m w w' :
    WriteFile p d m w = (w', Ok ()) →
    os_tree w' !! p =
    Some {| f_data := d;
            f_mode := match os_tree w !! p with
                      | Some f => f_mode f
                      | None => created_mode W m
                      end |};
  Rename_Ok a b w w' :
    Rename a b w = (w', Ok ()) →
    ∃ f, os_tree w !! a = Some f ∧ os_tree w' = <[b := f]> (delete a (os_tree w));
  Rename_Err a b w w' e : Rename a b w = (w', Err e) → os_tree w' = os_tree w;
  ReadFile_tree p w : os_tree (ReadFile p w).1 = os_tree w;
  ReadFile_Ok p w w' d :
    ReadFile p w = (w', Ok d) → ∃ f, os_tree w !! p = Some f ∧ f_data f = d;
  ReadFile_NotExist p w w' e :
    ReadFile p w = (w', Err e) → errors_is ErrNotExist e = true → os_tree w !! p = None;
  Now_tree w : os_tree (Now w).1 = os_tree w
}.

(** ** Replacing a file through a temporary one

    The agent's deployer, the local deployer and the certificate store have
    each their copy of this function; the last one wraps the second error. *)
Section write_atomic.
Context {W} `{OS W}.

Definition writeAtomic (path data : string) (mode : Z) : IO W () :=
  let tmp := path +:+ ".tmp" in
  do! _ := WriteFile tmp data mode in Rename tmp path.

Definition writeAtomically (path data : string) (mode : Z) : IO W () :=
  let tmpPath := path +:+ ".tmp" in
  do! _ := WriteFile tmpPath data mode in
  λ w, match Rename tmpPath path w with
       | (w', Ok _) => (w', Ok ())
       | (w', Err e) => (w', Err (Ewrap ("rename " +:+ tmpPath +:+ " to " +:+ path +:+ ": "
                                         +:+ error_text e) e))
       end.

(** What either of them does to the files of the world. *)
Record replaces (path data : string) (mode : Z) (w w' : W) (ok : bool) : Prop := {
  replaces_frame q :
    q ≠ path → q ≠ path +:+ ".tmp" → os_tree w' !! q = os_tree w !! q;
  replaces_path :
    if ok then
      os_tree w' !! (path +:+ ".tmp") = None ∧
      os_tree w' !! path =
        Some {| f_data := data;
                f_mode := match os_tree w !! (path +:+ ".tmp") with
                          | Some f => f_mode f
                          | None => created_mode W mode
                          end |}
    else os_tree w' !! path = os_tree w !! path
}.

Context `{!OSLaws W}.

Lemma replaces_rename path data mode w w1 w2 r :
  WriteFile (path +:+ ".tmp") data mode w = (w1, Ok ()) →
  Rename (path +:+ ".tmp") path w1 = (w2, r) →
  replaces path data mode w w2 (is_ok r).
Proof.
  intros Hw Hr. pose proof (tmp_ne path) as Hne.
  assert (∀ q, q ≠ path +:+ ".tmp" → os_tree w1 !! q = os_tree w !! q) as Hframe.
  { intros q Hq. pose proof (WriteFile_frame (path +:+ ".tmp") data mode w q Hq) as Hf.
    by rewrite Hw in Hf. }
  apply WriteFile_Ok in Hw. destruct r as [[]|e]; simpl.
  - apply Rename_Ok in Hr as (f & Hf & Ht). rewrite Hw in Hf. injection Hf as <-.
    split; [intros q Hq1 Hq2|]; rewrite !Ht.
    + rewrite lookup_insert_ne, lookup_delete_ne by done. by apply Hframe.
    + by rewrite lookup_insert_ne, lookup_delete_eq, lookup_insert_eq by done.
  - apply Rename_Err in Hr. split; simpl; intros; rewrite Hr; by apply Hframe.
Qed.

Lemma replaces_write_failed path data mode w w1 e :
  WriteFile (path +:+ ".tmp") data mode w = (w1, Err e) →
  replaces path data mode w w1 false.
Proof.
  intros Hw. pose proof (tmp_ne path) as Hne.
  assert (∀ q, q ≠ path +:+ ".tmp" → os_tree w1 !! q = os_tree w !! q) as Hframe.
  { intros q Hq. pose proof (WriteFile_frame (path +:+ ".tmp") data mode w q Hq) as Hf.
    by rewrite Hw in Hf. }
  split; auto.
Qed.

Lemma writeAtomic_replaces path data mode w w' r :
  writeAtomic path data mode w = (w', r) → replaces path data mode w w' (is_ok r).
Proof.
  unfold writeAtomic, io_bind. destruct (WriteFile _ _ _ w) as [w1 [[]|e]] eqn:E; intros Hr.
  - by eapply replaces_rename.
  - injection Hr as <- <-. by eapply replaces_write_failed.
Qed.

Lemma writeAtomically_replaces path data mode w w' r :
  writeAtomically path data mode w = (w', r) → replaces path data mode w w' (is_ok r).
Proof.
  unfold writeAtomically, io_bind.
  destruct (WriteFile _ _ _ w) as [w1 [[]|e]] eqn:E; intros Hr.
  - destruct (Rename _ _ w1) as [w2 [[]|e]] eqn:F; injection Hr as <- <-;
      by apply (replaces_rename _ _ _ _ _ _ _ E F).
  - injection Hr as <- <-. by eapply replaces_write_failed.
Qed.
End write_atomic.

(** ** Installing a certificate and its key

    Two replacements in this order, whatever the calls around them. *)
Section install_pair.
Context {W} `{OSLaws W}.

(** Each of the two files holds its old contents or the new contents, the key
    is new only if the certificate is, and no other file but the temporary
    ones has changed. *)
Record pair_replaced (cert key certPEM keyPEM : string) (w w' : W) (ok : bool) : Prop := {
  pair_frame q :
    q ∉ [cert; cert +:+ ".tmp"; key; key +:+ ".tmp"] → os_tree w' !! q = os_tree w !! q;
  pair_cert :
    os_tree w' !! cert = os_tree w !! cert ∨
    f_data <$> os_tree w' !! cert = Some certPEM;
  pair_key :
    os_tree w' !! key = os_tree w !! key ∨
    (f_data <$> os_tree w' !! cert = Some certPEM ∧ f_data <$> os_tree w' !! key = Some keyPEM);
  pair_ok :
    ok = true →
    f_data <$> os_tree w' !! cert = Some certPEM ∧
    os_tree w' !! key =
      Some {| f_data := keyPEM;
              f_mode := match os_tree w !! (key +:+ ".tmp") with
                        | Some f => f_mode f
                        | None => created_mode W 384
                        end |}
}.

(** The paths of the two files do not interfere. *)
Definition paths_apart (cert key : string) : Prop :=
  cert ≠ key ∧ cert ≠ key +:+ ".tmp" ∧ cert +:+ ".tmp" ≠ key.

Lemma pair_replaced_refl cert key certPEM keyPEM (w w' : W) :
  os_tree w' = os_tree w → pair_replaced cert key certPEM keyPEM w w' false.
Proof. intros E. split; [by intros; rewrite E|left; by rewrite E..|done]. Qed.

Lemma app_tmp_inj (a b : string) : a +:+ ".tmp" = b +:+ ".tmp" → a = b.
Proof.
  intros E. apply (f_equal (λ s, TrimSuffix s ".tmp")) in E. by rewrite !TrimSuffix_app in E.
Qed.

Lemma pair_replaced_intro cert key certPEM keyPEM m1 (w w0 w1 w2 : W) ok1 ok2 :
  paths_apart cert key → os_tree w0 = os_tree w →
  replaces cert certPEM m1 w0 w1 ok1 →
  (if ok1 then replaces key keyPEM 384 w1 w2 ok2 else w2 = w1 ∧ ok2 = false) →
  pair_replaced cert key certPEM keyPEM w w2 (ok1 && ok2).
Proof.
  intros (Hne1 & Hne2 & Hne3) E0 [Hf1 Hp1] H2. pose proof (tmp_ne cert). pose proof (tmp_ne key).
  destruct ok1.
  - destruct Hp1 as [_ Hp1]. destruct H2 as [Hf2 Hp2].
    assert (os_tree w2 !! cert = os_tree w1 !! cert) as Hc by (by apply Hf2).
    split.
    + intros q Hq. rewrite !not_elem_of_cons in Hq. destruct Hq as (?&?&?&?&_).
      rewrite Hf2, Hf1 by done. by rewrite E0.
    + right. by rewrite Hc, Hp1.
    + destruct ok2; [right; destruct Hp2 as [_ Hp2]; by rewrite Hc, Hp1, Hp2|left].
      rewrite Hp2, Hf1 by done. by rewrite E0.
    + simpl. intros ->. destruct Hp2 as [_ Hp2]. rewrite Hc, Hp1, Hp2. split; [done|].
      rewrite Hf1; [by rewrite E0|done|by intros ?%app_tmp_inj].
  - destruct H2 as [-> ->]. simpl. split; [| | |done].
    + intros q Hq. rewrite !not_elem_of_cons in Hq. destruct Hq as (?&?&?&?&_).
      rewrite Hf1 by done. by rewrite E0.
    + left. by rewrite Hp1, E0.
    + left. rewrite Hf1 by done. by rewrite E0.
Qed.
End install_pair.

(** ** HTTP requests *)
Record Request := {
  rq_Method : string;
  rq_URL : string;
  rq_Headers : list (string * string);
  rq_Body : string
}.
Record Response := { rs_StatusCode : Z; rs_Body : string }.

Class HTTP (W : Type) := { http_Do : Request → IO W Response }.

(** [encoding/json] for a type of messages; an encoder ends its output with a
    line break, which a decoder leaves alone. *)
Class JSON (A : Type) := {
  json_Marshal : A → string;
  json_Decode : string → result error A
}.
Definition json_Encode {A} `{JSON A} (a : A) : string := json_Marshal a +:+ newline.
(** Reading back what was written gives the message with its strings as JSON
    carries them ([json_text]); which fields are strings is for each type of
    messages to say, in its instance of [JSONText]. *)
Class JSONText (A : Type) := { carried : A → A }.
Class JSONLaws (A : Type) `{JSON A} `{JSONText A} := {
  json_Decode_Marshal a : json_Decode (json_Marshal a) = Ok (carried a);
  json_Decode_Encode a : json_Decode (json_Encode a) = Ok (carried a)
}.

(** ** A simulated host

    Calls fail according to a schedule; a failed write leaves an empty file;
    the mask is 022. *)
Record SimOS := {
  sim_tree : gmap string file;
  sim_faults : list bool;
  sim_commands : list (list string);
  sim_clock : Time
}.

Definition sim_next (w : SimOS) : bool * SimOS :=
  (match sim_faults w with b :: _ => b | [] => false end,
   {| sim_tree := sim_tree w; sim_faults := tail (sim_faults w);
      sim_commands := sim_commands w; sim_clock := sim_clock w |}).

Definition sim_set (t : gmap string file) (w : SimOS) : SimOS :=
  {| sim_tree := t; sim_faults := sim_faults w; sim_commands := sim_commands w;
     sim_clock := sim_clock w |}.

Definition sim_call {A} (ok : A) (effect failure : SimOS → SimOS) : IO SimOS A := λ w,
  let '(failed, w) := sim_next w in
  if failed then (failure w, Err (Enew "input/output error")) else (effect w, Ok ok).

Definition sim_write (p d : string) (m : Z) (w : SimOS) : SimOS :=
  let mode := match sim_tree w !! p with Some f => f_mode f
              | None => Z.land m (Z.lnot 18) end in
  sim_set (<[p := {| f_data := d; f_mode := mode |}]> (sim_tree w)) w.

Definition sim_rename (a b : string) : IO SimOS () := λ w,
  let '(failed, w) := sim_next w in
  match sim_tree w !! a with
  | Some f => if failed then (w, Err (Enew "input/output error"))
              else (sim_set (<[b := f]> (delete a (sim_tree w))) w, Ok ())
  | None => (w, Err (Esentinel ErrNotExist "file does not exist"))
  end.

Definition sim_read (p : string) : IO SimOS string := λ w,
  match sim_tree w !! p with
  | Some f => (w, Ok (f_data f))
  | None => (w, Err (Esentinel ErrNotExist "file does not exist"))
  end.

#[export] Instance SimOS_OS : OS SimOS := {
  os_tree := sim_tree;
  os_umask := 18;
  MkdirAll p m := sim_call () id id;
  WriteFile p d m := sim_call () (sim_write p d m) (sim_write p "" m);
  Rename := sim_rename;
  ReadFile := sim_read;
  run_command args w :=
    ({| sim_tree := sim_tree w; sim_faults := sim_faults w;
        sim_commands := sim_commands w ++ [args]; sim_clock := sim_clock w |}, ("", None));
  Now w :=
    ({| sim_tree := sim_tree w; sim_faults := sim_faults w;
        sim_commands := sim_commands w; sim_clock := (sim_clock w + 1)%Z |}, sim_clock w)
}.

#[export] Instance SimOS_laws : OSLaws SimOS.
Proof.
  split; simpl; unfold sim_call, sim_rename, sim_read; simpl.
  - intros p m w. by destruct (sim_faults w) as [|[] ?].
  - intros p d m w q Hq. destruct (sim_faults w) as [|[] ?]; simpl;
      by rewrite lookup_insert_ne by done.
  - intros p d m w w'. destruct (sim_faults w) as [|[] ?]; simpl; [|done|];
      intros [= <-]; simpl; by rewrite lookup_insert_eq.
  - intros a b w w'. destruct (sim_tree w !! a) as [f|]; [|done].
    destruct (sim_faults w) as [|[] ?]; simpl; [|done|]; intros [= <-]; eauto.
  - intros a b w w' e. destruct (sim_tree w !! a) as [f|]; [|by intros [= <- _]].
    destruct (sim_faults w) as [|[] ?]; simpl; [done| |done]. by intros [= <- _].
  - intros p w. by case_split.
  - intros p w w' d. case_split; [|done]. intros [= _ <-]. eauto.
  - intros p w w' e. by case_split.
  - done.
Qed.

Definition empty_host : SimOS :=
  {| sim_tree := ∅; sim_faults := []; sim_commands := []; sim_clock := 1%Z |}.

(** ** A codec for strings

    Each byte is marked, so that the end of a string is visible: the messages
    of the witnesses are sequences of such strings. *)
Definition mark : ascii := "x".
Fixpoint enc_str (s : string) : string :=
  match s with
  | EmptyString => "."
  | String c s' => String mark (String c (enc_str s'))
  end.
Fixpoint dec_str (s : string) : option (string * string) :=
  match s with
  | String m s' =>
      if Ascii.eqb m mark then
        match s' with
        | String c s'' => match dec_str s'' with
                          | Some (a, rest) => Some (String c a, rest)
                          | None => None
                          end
        | EmptyString => None
        end
      else if Ascii.eqb m dot then Some (EmptyString, s')
      else None
  | EmptyString => None
  end.
Lemma dec_enc_str s rest : dec_str (enc_str s +:+ rest) = Some (s, rest).
Proof.
  induction s as [|c s IH]; [done|].
  change (enc_str (String c s) +:+ rest) with (String mark (String c (enc_str s +:+ rest))).
  cbn [dec_str]. by rewrite Ascii.eqb_refl, IH.
Qed.

Definition enc_list (l : list string) : string := foldr (λ s acc, enc_str s +:+ acc) "" l.
Fixpoint dec_list (n : nat) (s : string) : option (list string) :=
  match n with
  | O => Some []
  | S n' => match dec_str s with
            | Some (a, rest) => (a ::.) <$> dec_list n' rest
            | None => None
            end
  end.
Lemma dec_enc_list l rest : dec_list (length l) (enc_list l +:+ rest) = Some l.
Proof.
  induction l as [|s l IH]; [done|]. cbn [enc_list foldr length dec_list].
  rewrite app_assoc_str, dec_enc_str. fold (enc_list l). by rewrite IH.
Qed.
