(* ===== verification/Agent.v ===== *)
(** The agent: its HTTP server and file deployer
    ([src/internal/agent/server]), the client of the server side
    ([src/internal/agent/client]), the pool of agents
    ([src/internal/agent/pool]) and the routes discovered through an agent
    ([src/internal/discovery/remote]). *)

From S2P Require Import Prelude GoStrings GoRuntime Core Registry Sys Discovery.

(** ** The messages *)
Definition APIBasePath : string := "/domux/agent".
Definition EndpointInfo : string := "/info".
Definition EndpointHealth : string := "/health".
Definition EndpointCertDeploy : string := "/certificates/deploy".
Definition EndpointProxyHTTP : string := "/proxy/http".
Definition FakeRuntimeHostPrefix : string := "agent://".
Definition ProxyTargetQueryParam : string := "__jd_target".

Record InfoResponse := {
  ir_Name : string;
  ir_Runtime : ContainerRuntime;
  ir_SocketPath : string;
  ir_Version : string;
  ir_Resources : SystemResources
}.

Record DeployRequest := {
  dr_BundleName : string;
  dr_CertPath : string;
  dr_KeyPath : string;
  dr_ReloadCommand : string;
  dr_CertPEM : string;
  dr_KeyPEM : string
}.

Record DeployResult := { res_Written : bool; res_Reloaded : bool; res_Message : string }.
Definition zero_DeployResult : DeployResult :=
  {| res_Written := false; res_Reloaded := false; res_Message := "" |}.

Definition IsFakeRuntimeHost (host : string) : bool :=
  (String.length FakeRuntimeHostPrefix <? String.length host)%nat &&
  String.eqb (str_take (String.length FakeRuntimeHostPrefix) host) FakeRuntimeHostPrefix.

(** ** [FileDeployer] *)
Section file_deployer.
Context {W} `{OS W}.

Definition CertificateDeployer : Type := DeployRequest → W → W * (DeployResult * option error).

(** The files, then the reload command. *)
Definition deploy_files (req : DeployRequest) : IO W () :=
  do! _ := MkdirAll (Dir (dr_CertPath req)) 493 in
  do! _ := MkdirAll (Dir (dr_KeyPath req)) 493 in
  do! _ := writeAtomic (dr_CertPath req) (dr_CertPEM req) 420 in
  writeAtomic (dr_KeyPath req) (dr_KeyPEM req) 384.

Definition FileDeployer_Deploy : CertificateDeployer := λ req w,
  match deploy_files req w with
  | (w, Err e) => (w, (zero_DeployResult, Some e))
  | (w, Ok _) =>
      let written := "certificate files written" in
      if String.eqb (dr_ReloadCommand req) "" then
        (w, ({| res_Written := true; res_Reloaded := false; res_Message := written |}, None))
      else
        let '(w, (out, err)) := run_command ["sh"; "-c"; dr_ReloadCommand req] w in
        let msg := TrimSpace out in
        match err with
        | Some e =>
            let msg := if String.eqb msg "" then error_text e else msg in
            (w, ({| res_Written := true; res_Reloaded := false; res_Message := msg |},
                 Some (Ewrap ("reload command failed: " +:+ error_text e) e)))
        | None =>
            let msg := if String.eqb msg "" then written else msg in
            (w, ({| res_Written := true; res_Reloaded := true; res_Message := msg |}, None))
        end
  end.
End file_deployer.
Arguments CertificateDeployer : clear implicits.

(** ** Requests to the agent *)

(** A request as the handlers read it, the query as its list of pairs. *)
Record AgentRequest := {
  ar_Method : string;
  ar_Path : string;
  ar_RawPath : string;
  ar_Query : list (string * string);
  ar_Body : string
}.

(** [url.Values]: [Get], [Del] and [Encode], which orders the keys. *)
Definition query_Get (q : list (string * string)) (k : string) : string :=
  match List.find (λ p, String.eqb p.1 k) q with Some p => p.2 | None => "" end.
Definition query_Del (q : list (string * string)) (k : string) : list (string * string) :=
  List.filter (λ p, negb (String.eqb p.1 k)) q.
Definition query_Encode `{GoRuntime} (q : list (string * string)) : list (string * string) :=
  flat_map (λ k, List.filter (λ p, String.eqb p.1 k) q) (sort_by id (remove_dups (map fst q))).

(** What a handler does: it replies, or hands the request to a backend with
    the given scheme and host, or to the container runtime's socket. *)
Inductive agent_reply :=
  | Reply (r : Response)
  | Forward (scheme host : string) (r : AgentRequest)
  | ToRuntime (r : AgentRequest).

(** [http.Error] *)
Definition http_Error (msg : string) (status : Z) : Response :=
  {| rs_StatusCode := status; rs_Body := msg +:+ newline |}.

Definition req_with_Query (q : list (string * string)) (r : AgentRequest) : AgentRequest :=
  {| ar_Method := ar_Method r; ar_Path := ar_Path r; ar_RawPath := ar_RawPath r;
     ar_Query := q; ar_Body := ar_Body r |}.

Section http_proxy.
Context `{GoRuntime} `{NetURL}.

Definition proxyTargetURL (r : AgentRequest) : result error (url * AgentRequest) :=
  let query := ar_Query r in
  let rawTarget := TrimSpace (query_Get query ProxyTargetQueryParam) in
  if String.eqb rawTarget "" then Err (Enew (ProxyTargetQueryParam +:+ " is required"))
  else
    let? targetURL := url_Parse rawTarget in
    if String.eqb (url_Scheme targetURL) "" || String.eqb (url_Host targetURL) ""
    then Err (Enew ("invalid proxy target " +:+ quote rawTarget))
    else Ok (targetURL,
             req_with_Query (query_Encode (query_Del query ProxyTargetQueryParam)) r).

Definition stripProxyPath (r : AgentRequest) (prefix : string) : AgentRequest :=
  let path := TrimPrefix (ar_Path r) prefix in
  let path := if String.eqb path "" then "/" else path in
  let rawPath :=
    if String.eqb (ar_RawPath r) "" then ""
    else
      let rawPath := if HasPrefix (ar_RawPath r) prefix then TrimPrefix (ar_RawPath r) prefix
                     else "" in
      if String.eqb rawPath "" && String.eqb path "/" then "/" else rawPath in
  {| ar_Method := ar_Method r; ar_Path := path; ar_RawPath := rawPath;
     ar_Query := ar_Query r; ar_Body := ar_Body r |}.

(** The reverse proxy keeps the scheme and host of the target only. *)
Definition handleProxyHTTP (r : AgentRequest) : agent_reply :=
  match proxyTargetURL r with
  | Err e => Reply (http_Error (error_text e) 400)
  | Ok (targetURL, r) =>
      let r := stripProxyPath r (APIBasePath +:+ EndpointProxyHTTP) in
      Forward (url_Scheme targetURL) (url_Host targetURL) r
  end.
End http_proxy.

(** ** The server *)
Record Server (W : Type) := {
  as_Name : string;
  as_Runtime : ContainerRuntime;
  as_SocketPath : string;
  as_Version : string;
  as_Deployer : option (CertificateDeployer W);
  as_Proxy : bool
}.
Arguments as_Name {W} _.
Arguments as_Runtime {W} _.
Arguments as_SocketPath {W} _.
Arguments as_Version {W} _.
Arguments as_Deployer {W} _.
Arguments as_Proxy {W} _.

(** [NewRuntimeProxy]: the requests it serves go to the socket. *)
Definition NewRuntimeProxy (socketPath : string) : result error bool :=
  if String.eqb socketPath "" then Err (Enew "container runtime socket path is required")
  else Ok true.

Section server.
Context {W} `{OS W} `{GoRuntime} `{NetURL} `{JSON DeployRequest} `{JSON DeployResult}
  `{JSON InfoResponse} (systemSnapshot : W → W * SystemResources).

Definition New_Server (name : string) (runtime : ContainerRuntime) (version : string)
    (deployer : option (CertificateDeployer W)) (proxy : bool) : Server W :=
  {| as_Name := name; as_Runtime := runtime; as_SocketPath := ""; as_Version := version;
     as_Deployer := deployer; as_Proxy := proxy |}.

Definition WithSocketPath (socketPath : string) (s : Server W) : Server W :=
  {| as_Name := as_Name s; as_Runtime := as_Runtime s; as_SocketPath := socketPath;
     as_Version := as_Version s; as_Deployer := as_Deployer s; as_Proxy := as_Proxy s |}.

Definition handleDeploy (s : Server W) (body : string) (w : W) : W * Response :=
  match as_Deployer s with
  | None => (w, http_Error "certificate deployer is not configured" 501)
  | Some deploy =>
      match json_Decode body with
      | Err e => (w, http_Error (error_text e) 400)
      | Ok req =>
          if String.eqb (dr_CertPath req) "" || String.eqb (dr_KeyPath req) "" then
            (w, http_Error "cert_path and key_path are required" 400)
          else if String.eqb (dr_CertPEM req) "" || String.eqb (dr_KeyPEM req) "" then
            (w, http_Error "cert_pem and key_pem are required" 400)
          else
            let '(w, (result, err)) := deploy req w in
            match err with
            | Some e =>
                let status := if errors_is ContextCanceled e then 408%Z else 500%Z in
                (w, http_Error (error_text e) status)
            | None => (w, {| rs_StatusCode := 200; rs_Body := json_Encode result |})
            end
      end
  end.

Definition handleInfo (s : Server W) (w : W) : W * Response :=
  let '(w, resources) := systemSnapshot w in
  (w, {| rs_StatusCode := 200;
         rs_Body := json_Encode {| ir_Name := as_Name s; ir_Runtime := as_Runtime s;
                                   ir_SocketPath := as_SocketPath s;
                                   ir_Version := as_Version s; ir_Resources := resources |} |}).

Definition get_or_head (r : AgentRequest) : bool :=
  String.eqb (ar_Method r) "GET" || String.eqb (ar_Method r) "HEAD".

Definition proxy_path : string := APIBasePath +:+ EndpointProxyHTTP.

(** The mux, on a clean path. *)
Definition Handler (s : Server W) (r : AgentRequest) (w : W) : W * agent_reply :=
  let at_ (endpoint : string) := String.eqb (ar_Path r) (APIBasePath +:+ endpoint) in
  let replied (p : W * Response) := (p.1, Reply p.2) in
  if at_ EndpointHealth && get_or_head r then
    (w, Reply {| rs_StatusCode := 200;
                 rs_Body := "{" +:+ quote "status" +:+ ":" +:+ quote "ok" +:+ "}" +:+ newline |})
  else if at_ EndpointInfo && get_or_head r then replied (handleInfo s w)
  else if at_ EndpointCertDeploy && String.eqb (ar_Method r) "POST" then
    replied (handleDeploy s (ar_Body r) w)
  else if String.eqb (ar_Path r) proxy_path || HasPrefix (ar_Path r) (proxy_path +:+ "/") then
    (w, handleProxyHTTP r)
  else if as_Proxy s then (w, ToRuntime r)
  else if at_ EndpointHealth || at_ EndpointInfo || at_ EndpointCertDeploy then
    (w, Reply (http_Error "Method Not Allowed" 405))
  else (w, Reply (http_Error "404 page not found" 404)).
End server.

(** ** The client *)
Record Client := { cl_Node : AgentNode; cl_rootURL : string; cl_baseURL : string }.

Definition normalizeRootURL (addr : string) : string :=
  let addr := TrimRightSet (is_char slash) addr in
  if HasPrefix addr "http://" || HasPrefix addr "https://" then addr
  else "http://" +:+ addr.

Definition New_Client (node : AgentNode) : Client :=
  let rootURL := normalizeRootURL (an_Addr node) in
  {| cl_Node := node; cl_rootURL := rootURL; cl_baseURL := rootURL +:+ APIBasePath |}.

Definition BaseURL (c : Client) : string := cl_baseURL c.
Definition RuntimeHostURL (c : Client) : string := cl_rootURL c.
Definition FakeRuntimeHost (c : Client) : string := FakeRuntimeHostPrefix +:+ an_Addr (cl_Node c).

Definition HTTPProxyURL `{GoRuntime} `{NetURL} (c : Client) (targetURL : string)
  : result error string :=
  let? parsedTarget := url_Parse targetURL in
  if String.eqb (url_Scheme parsedTarget) "" || String.eqb (url_Host parsedTarget) ""
  then Err (Enew ("invalid target url " +:+ quote targetURL))
  else
    let? proxyURL := url_Parse (cl_baseURL c +:+ EndpointProxyHTTP) in
    Ok (url_String (url_set_query ProxyTargetQueryParam targetURL proxyURL)).

Section client.
Context {W} `{HTTP W} `{JSON DeployRequest} `{JSON DeployResult} `{JSON InfoResponse}.

Definition FetchInfo (c : Client) : IO W InfoResponse :=
  do! resp := http_Do {| rq_Method := "GET"; rq_URL := cl_baseURL c +:+ EndpointInfo;
                         rq_Headers := []; rq_Body := "" |} in
  if negb (rs_StatusCode resp =? 200)%Z then
    io_err (Enew ("agent info request failed: " +:+ TrimSpace (rs_Body resp)))
  else io_lift (json_Decode (rs_Body resp)).

Definition DeployCertificate (c : Client) (req : DeployRequest) : IO W DeployResult :=
  do! resp := http_Do {| rq_Method := "POST"; rq_URL := cl_baseURL c +:+ EndpointCertDeploy;
                         rq_Headers := [("Content-Type", "application/json")];
                         rq_Body := json_Marshal req |} in
  if negb (rs_StatusCode resp =? 200)%Z then
    io_err (Enew ("agent certificate deploy failed: " +:+ TrimSpace (rs_Body resp)))
  else io_lift (json_Decode (rs_Body resp)).
End client.

(** ** The pool *)
Record entry := { e_client : Client; e_node : AgentNode }.
Definition Pool : Type := gmap string entry.
Definition New_Pool : Pool := ∅.

Definition Add (node : AgentNode) (p : Pool) : Pool * Client :=
  match p !! an_Name node with
  | Some existing =>
      (<[an_Name node := {| e_client := e_client existing; e_node := node |}]> p,
       e_client existing)
  | None =>
      let client := New_Client node in
      (<[an_Name node := {| e_client := client; e_node := node |}]> p, client)
  end.

Definition GetByName (name : string) (p : Pool) : option Client := e_client <$> p !! name.

Definition Remove (name : string) (p : Pool) : Pool := delete name p.

Definition Require_ `{GoRuntime} (name : string) (p : Pool) : result error Client :=
  match GetByName name p with
  | Some client => Ok client
  | None => Err (Enew ("agent " +:+ quote name +:+ " not found"))
  end.

Definition setNode (name : string) (node : AgentNode) (p : Pool) : Pool :=
  match p !! name with
  | None => p
  | Some entry => <[name := {| e_client := e_client entry; e_node := node |}]> p
  end.

(** The node after an answer at time [now]. *)
Definition offline_node (now : Time) (e : error) (n : AgentNode) : AgentNode :=
  {| an_Name := an_Name n; an_DisplayName := an_DisplayName n; an_Addr := an_Addr n;
     an_Runtime := an_Runtime n; an_SocketPath := an_SocketPath n; an_Version := an_Version n;
     an_Status := NodeStatusOffline; an_LastError := error_text e; an_LastCheckedAt := now;
     an_Resources := an_Resources n |}.
Definition online_node (now : Time) (info : InfoResponse) (n : AgentNode) : AgentNode :=
  {| an_Name := ir_Name info; an_DisplayName := an_DisplayName n; an_Addr := an_Addr n;
     an_Runtime := ir_Runtime info; an_SocketPath := ir_SocketPath info;
     an_Version := ir_Version info; an_Status := NodeStatusOnline; an_LastError := "";
     an_LastCheckedAt := now; an_Resources := ir_Resources info |}.

Section pool.
Context `{GoRuntime}.

(** [range] over the clients, in any order. *)
Definition GetByAddr (addr : string) (p : Pool) : option Client :=
  List.find (λ c, String.eqb (an_Addr (cl_Node c)) addr) (map e_client (map_values p)).

Definition pool_names (p : Pool) : list string := sort_by id (map_keys p).

Definition List_ (p : Pool) : list Client :=
  omap (λ name, e_client <$> p !! name) (pool_names p).
Definition ListNodes (p : Pool) : list AgentNode :=
  omap (λ name, e_node <$> p !! name) (pool_names p).

Context {W} `{OS W} `{HTTP W} `{JSON InfoResponse}.

Definition Refresh (name : string) (p : Pool) (w : W)
  : Pool * W * (AgentNode * option error) :=
  match p !! name with
  | None => (p, w, (zero_AgentNode, Some (Enew ("agent " +:+ quote name +:+ " not found"))))
  | Some entry =>
      let '(w, info) := FetchInfo (e_client entry) w in
      let '(w, now) := Now w in
      match info with
      | Err e =>
          let updated := offline_node now e (e_node entry) in
          (setNode name updated p, w, (updated, Some e))
      | Ok info =>
          let updated := online_node now info (e_node entry) in
          (setNode name updated p, w, (updated, None))
      end
  end.

Fixpoint refresh_names (names : list string) (p : Pool) (w : W) : Pool * W * list AgentNode :=
  match names with
  | [] => (p, w, [])
  | name :: names' =>
      let '(p, w, (node, _)) := Refresh name p w in
      let '(p, w, updated) := refresh_names names' p w in
      (p, w, node :: updated)
  end.

Definition RefreshAll (p : Pool) (w : W) : Pool * W * list AgentNode :=
  refresh_names (pool_names p) p w.
End pool.

(** ** Routes through an agent *)
Record RemoteDiscovery := {
  rd_Node : AgentNode;
  rd_Client : Client;
  rd_local : DockerDiscovery
}.

Section remote.
Context `{GoRuntime} `{NetURL} `{Nat} (env : Env) (ric : bool).

Definition Remote_New (node : AgentNode) (client : Client) (cli : apiClient) : RemoteDiscovery :=
  let source := {| rs_DisplayName := ""; rs_Runtime := an_Runtime node;
                   rs_Endpoint := RuntimeHostURL client; rs_Network := "" |} in
  {| rd_Node := node; rd_Client := client; rd_local := NewWithClient env source cli |}.

(** The fields set on a route of the agent. *)
Definition through_agent (node : AgentNode) (route : DiscoveredRoute) : DiscoveredRoute :=
  {| r_ID := an_Name node +:+ ":" +:+ r_Host route; r_Name := r_Name route;
     r_Icon := r_Icon route; r_Domain := r_Domain route; r_Zone := r_Zone route;
     r_Subdomain := r_Subdomain route; r_Host := r_Host route; r_Source := an_Name node;
     r_ExitNode := an_Name node; r_Origin := RouteOriginRemoteAgent;
     r_Runtime := an_Runtime node; r_TargetURL := r_TargetURL route;
     r_ProxyURL := r_ProxyURL route; r_Network := r_Network route;
     r_Container :=
       {| cr_ID := cr_ID (r_Container route); cr_Name := cr_Name (r_Container route);
          cr_Image := cr_Image (r_Container route); cr_Source := an_Name node;
          cr_Runtime := an_Runtime node |} |}.

Definition r_with_ProxyURL (u : string) (route : DiscoveredRoute) : DiscoveredRoute :=
  {| r_ID := r_ID route; r_Name := r_Name route;
     r_Icon := r_Icon route; r_Domain := r_Domain route; r_Zone := r_Zone route;
     r_Subdomain := r_Subdomain route; r_Host := r_Host route; r_Source := r_Source route;
     r_ExitNode := r_ExitNode route; r_Origin := r_Origin route;
     r_Runtime := r_Runtime route; r_TargetURL := r_TargetURL route;
     r_ProxyURL := u; r_Network := r_Network route; r_Container := r_Container route |}.

(** One iteration: a route without a proxy URL is left as it is. *)
Definition agent_route (node : AgentNode) (client : Client) (route : DiscoveredRoute)
  : DiscoveredRoute * option error :=
  match HTTPProxyURL client (r_TargetURL route) with
  | Err e => (route, Some (Ewrap ("route " +:+ r_Host route +:+ ": " +:+ error_text e) e))
  | Ok proxyURL => (r_with_ProxyURL proxyURL (through_agent node route), None)
  end.

Definition Remote_DiscoverRoutes (d : RemoteDiscovery) (zones : list ManagedZone)
  : list DiscoveredRoute * option error :=
  let '(routes, err) := DiscoverRoutes env ric (rd_local d) zones in
  let results := map (agent_route (rd_Node d) (rd_Client d)) routes in
  (results.*1, errors_join (err :: results.*2)).

Definition Remote_Snapshots (d : RemoteDiscovery) : result error (list ContainerSnapshot) :=
  Snapshots env (rd_local d).

Definition Remote_BuildRoute (zone : ManagedZone) (snapshot : ContainerSnapshot)
    (intent : RouteIntent) (targetURL : string) (node : AgentNode) : DiscoveredRoute :=
  through_agent node
    (BuildRoute zone snapshot intent targetURL (in_Network intent) (an_Name node)).
End remote.

(** ** Lemmas: installing the files *)
Section deploy_files.
Context {W} `{OSLaws W}.

(** Two directories, then the two files: the shape the deployers share. *)
Definition install_steps (cert key certPEM keyPEM : string) (m1 m2 : IO W ()) : IO W () :=
  do! _ := m1 in
  do! _ := m2 in
  do! _ := writeAtomic cert certPEM 420 in
  writeAtomic key keyPEM 384.

Lemma install_steps_pair cert key certPEM keyPEM m1 m2 (w w' : W) r :
  paths_apart cert key →
  (∀ w, os_tree (m1 w).1 = os_tree w) → (∀ w, os_tree (m2 w).1 = os_tree w) →
  install_steps cert key certPEM keyPEM m1 m2 w = (w', r) →
  pair_replaced cert key certPEM keyPEM w w' (is_ok r).
Proof.
  intros Hapart Hm1 Hm2. unfold install_steps, io_bind.
  specialize (Hm1 w). destruct (m1 w) as [w1 [[]|e]]; simpl in Hm1;
    [|intros [= <- <-]; by apply pair_replaced_refl].
  specialize (Hm2 w1). destruct (m2 w1) as [w2 [[]|e]]; simpl in Hm2;
    [|intros [= <- <-]; apply pair_replaced_refl; by rewrite Hm2].
  destruct (writeAtomic cert certPEM 420 w2) as [w3 r3] eqn:E3.
  apply writeAtomic_replaces in E3. intros Hr.
  assert (is_ok r = is_ok r3 && is_ok r) as ->.
  { destruct r3; [done|]. by injection Hr as _ <-. }
  eapply (pair_replaced_intro _ _ _ _ 420 w w2 w3); [done|by rewrite Hm2|exact E3|].
  destruct r3 as [[]|e3]; simpl.
  - by apply writeAtomic_replaces in Hr.
  - injection Hr as <- <-. done.
Qed.
End deploy_files.

(** C36. A deployment by the agent replaces each file as a whole: whatever
    fails, before the reload command runs the certificate and the key each
    hold their old or their new contents, the key is new only if the
    certificate is, and no other file but their temporary ones has changed.
    The reload command runs only once both are new, and a deployment that
    succeeds has written both, the key with the mode of a private file unless
    a temporary file was left behind. *)
Theorem FileDeployer_Deploy_atomic {W} `{OSLaws W} req (w : W) :
  let '(w', (res, err)) := FileDeployer_Deploy req w in
  paths_apart (dr_CertPath req) (dr_KeyPath req) →
  ∃ w1 ok,
    pair_replaced (dr_CertPath req) (dr_KeyPath req) (dr_CertPEM req) (dr_KeyPEM req) w w1 ok ∧
    res_Written res = ok ∧
    (if ok && negb (String.eqb (dr_ReloadCommand req) "")
     then w' = (run_command ["sh"; "-c"; dr_ReloadCommand req] w1).1 ∧
          (err = None ↔ res_Reloaded res = true)
     else w' = w1 ∧ res_Reloaded res = false) ∧
    (err = None → ok = true).
Proof.
  unfold FileDeployer_Deploy.
  destruct (deploy_files req w) as [w1 r] eqn:E.
  assert (paths_apart (dr_CertPath req) (dr_KeyPath req) →
    pair_replaced (dr_CertPath req) (dr_KeyPath req) (dr_CertPEM req) (dr_KeyPEM req) w w1
      (is_ok r)) as Hpair.
  { intros Hapart. eapply install_steps_pair; [done| | |exact E]; intros; apply MkdirAll_tree. }
  destruct r as [[]|e].
  - destruct (String.eqb (dr_ReloadCommand req) "") eqn:Er.
    + intros Hapart. exists w1, true. rewrite ?Er. simpl. split; [by auto|]. naive_solver.
    + destruct (run_command _ w1) as [w2 [out [e|]]] eqn:Ec; intros Hapart;
        exists w1, true; rewrite ?Er, ?Ec; simpl; (split; [by auto|]); naive_solver.
  - intros Hapart. exists w1, false. simpl. split; [by auto|]. naive_solver.
Qed.

(** ** A deployment through an agent *)

(** A transport that hands a client's requests to the agent's handler. *)
Section transport.
Context {W} `{OS W} `{GoRuntime} `{NetURL} `{JSON DeployRequest} `{JSON DeployResult}
  `{JSON InfoResponse} (systemSnapshot : W → W * SystemResources).

Definition transport (s : Server W) (root : string) : HTTP W := {|
  http_Do rq w :=
    match Handler systemSnapshot s
            {| ar_Method := rq_Method rq; ar_Path := TrimPrefix (rq_URL rq) root;
               ar_RawPath := ""; ar_Query := []; ar_Body := rq_Body rq |} w with
    | (w, Reply r) => (w, Ok r)
    | (w, _) => (w, Err (Enew "no reply"))
    end
|}.
End transport.

(** The texts of the messages; the certificate and the key are byte slices. *)
Definition request_carried (req : DeployRequest) : DeployRequest :=
  {| dr_BundleName := json_text (dr_BundleName req); dr_CertPath := json_text (dr_CertPath req);
     dr_KeyPath := json_text (dr_KeyPath req);
     dr_ReloadCommand := json_text (dr_ReloadCommand req);
     dr_CertPEM := dr_CertPEM req; dr_KeyPEM := dr_KeyPEM req |}.
Definition result_carried (res : DeployResult) : DeployResult :=
  {| res_Written := res_Written res; res_Reloaded := res_Reloaded res;
     res_Message := json_text (res_Message res) |}.
#[export] Instance DeployRequest_text : JSONText DeployRequest := { carried := request_carried }.
#[export] Instance DeployResult_text : JSONText DeployResult := { carried := result_carried }.

Lemma json_text_blank s : String.eqb (json_text s) "" = String.eqb s "".
Proof.
  destruct (String.eqb s "") eqn:E; beq; [by subst|]. apply String.eqb_neq.
  by rewrite json_text_empty.
Qed.

Definition request_complete (req : DeployRequest) : bool :=
  negb (String.eqb (dr_CertPath req) "") && negb (String.eqb (dr_KeyPath req) "") &&
  negb (String.eqb (dr_CertPEM req) "") && negb (String.eqb (dr_KeyPEM req) "").

(** C37. Deploying through an agent is deploying at the agent: over a transport
    that hands requests to the agent's handler, the client's answer is the
    deployer's result for the request as it arrives, or an error with the
    deployer's error text, in the same final state, and a request with a
    missing path or file is refused before anything is written.  JSON carries
    the certificate and the key as they are (in Base64), and of every other
    text, that of the answer included, the bytes that are not UTF-8 as the
    replacement character. *)
Theorem DeployCertificate_refines {W} `{OS W} `{GoRuntime} `{NetURL}
    `{!JSON DeployRequest} `{!JSON DeployResult} `{!JSONLaws DeployRequest}
    `{!JSONLaws DeployResult} `{JSON InfoResponse}
    systemSnapshot (s : Server W) deploy c req w :
  as_Deployer s = Some deploy → cl_baseURL c = cl_rootURL c +:+ APIBasePath →
  @DeployCertificate W (transport systemSnapshot s (cl_rootURL c)) _ _ c req w =
  if request_complete req then
    match deploy (request_carried req) w with
    | (w', (res, None)) => (w', Ok (result_carried res))
    | (w', (_, Some e)) =>
        (w', Err (Enew ("agent certificate deploy failed: "
                        +:+ TrimSpace (error_text e +:+ newline))))
    end
  else
    (w, Err (Enew ("agent certificate deploy failed: " +:+
      (if String.eqb (dr_CertPath req) "" || String.eqb (dr_KeyPath req) ""
       then "cert_path and key_path are required" else "cert_pem and key_pem are required")))).
Proof.
  intros Hd Hb. unfold DeployCertificate, io_bind, io_err, io_lift.
  cbn [http_Do transport rq_URL rq_Method rq_Body]. unfold Handler.
  cbn [ar_Path ar_Method ar_Body]. rewrite Hb, app_assoc_str, TrimPrefix_app.
  change (String.eqb (APIBasePath +:+ EndpointCertDeploy) (APIBasePath +:+ EndpointHealth))
    with false.
  change (String.eqb (APIBasePath +:+ EndpointCertDeploy) (APIBasePath +:+ EndpointInfo))
    with false.
  change (String.eqb (APIBasePath +:+ EndpointCertDeploy) (APIBasePath +:+ EndpointCertDeploy))
    with true.
  cbn [andb String.eqb Ascii.eqb]. unfold handleDeploy. rewrite Hd, json_Decode_Marshal.
  change (carried req) with (request_carried req).
  assert (String.eqb (dr_CertPath (request_carried req)) "" = String.eqb (dr_CertPath req) "")
    as -> by apply json_text_blank.
  assert (String.eqb (dr_KeyPath (request_carried req)) "" = String.eqb (dr_KeyPath req) "")
    as -> by apply json_text_blank.
  cbn [dr_CertPEM dr_KeyPEM request_carried]. unfold request_complete.
  destruct (String.eqb (dr_CertPath req) ""); [done|].
  destruct (String.eqb (dr_KeyPath req) ""); [done|].
  destruct (String.eqb (dr_CertPEM req) ""); [done|].
  destruct (String.eqb (dr_KeyPEM req) ""); [done|]. simpl.
  destruct (deploy (request_carried req) w) as [w' [res [e|]]]; simpl.
  - by destruct (errors_is ContextCanceled e).
  - by rewrite json_Decode_Encode.
Qed.

(** ** Lemmas: the query of a proxied request *)
Lemma elem_of_query_Encode `{GoRuntime} q k v : (k, v) ∈ query_Encode q ↔ (k, v) ∈ q.
Proof.
  unfold query_Encode. rewrite list_elem_of_In, in_flat_map. split.
  - intros (k' & _ & Hin). apply List.filter_In in Hin as [Hin _]. by apply list_elem_of_In.
  - intros Hin. exists k. split.
    + apply list_elem_of_In, elem_of_sort_by, elem_of_remove_dups, list_elem_of_In.
      apply (in_map fst q (k, v)). by apply list_elem_of_In.
    + apply List.filter_In. split; [by apply list_elem_of_In|]. apply String.eqb_refl.
Qed.

Lemma elem_of_query_Del q k k' v : (k', v) ∈ query_Del q k ↔ k' ≠ k ∧ (k', v) ∈ q.
Proof.
  unfold query_Del. rewrite !list_elem_of_In, List.filter_In. simpl.
  rewrite negb_true_iff, String.eqb_neq. tauto.
Qed.

(** C38. The agent's HTTP proxy forwards only to an absolute URL: a request
    with another target gets status 400.  It sends the request on to the
    scheme and host of the target with every query parameter but the target,
    with the path that follows the proxy's own, and with the same method and
    body. *)
Theorem handleProxyHTTP_correct `{GoRuntime} `{NetURL} (r : AgentRequest) :
  match handleProxyHTTP r with
  | Forward scheme host r' =>
      (∃ u, url_Parse (TrimSpace (query_Get (ar_Query r) ProxyTargetQueryParam)) = Ok u ∧
            scheme = url_Scheme u ∧ host = url_Host u) ∧
      scheme ≠ "" ∧ host ≠ "" ∧
      (∀ k v, (k, v) ∈ ar_Query r' ↔ k ≠ ProxyTargetQueryParam ∧ (k, v) ∈ ar_Query r) ∧
      (∀ rest, ar_Path r = proxy_path +:+ rest →
         ar_Path r' = if String.eqb rest "" then "/" else rest) ∧
      ar_Method r' = ar_Method r ∧ ar_Body r' = ar_Body r
  | Reply resp => rs_StatusCode resp = 400%Z
  | ToRuntime _ => False
  end.
Proof.
  unfold handleProxyHTTP, proxyTargetURL.
  destruct (String.eqb (TrimSpace _) ""); [done|].
  destruct (url_Parse _) as [u|e] eqn:Eu; [|done].
  destruct (_ || _) eqn:Eh; [done|]. beq. split_and!; simpl; try done.
  - by exists u.
  - intros k v. by rewrite elem_of_query_Encode, elem_of_query_Del.
  - intros rest ->. unfold proxy_path. by rewrite TrimPrefix_app.
Qed.

(** ** Lemmas: refreshing the pool *)
Section refresh.
Context `{GoRuntime} {W} `{OS W} `{HTTP W} `{JSON InfoResponse}.

Definition checked (n : AgentNode) : Prop :=
  an_Status n = NodeStatusOnline ∧ an_LastError n = "" ∨ an_Status n = NodeStatusOffline.

(** The entries of [names] replaced by checked ones with the same clients. *)
Definition refreshed (names : list string) (p p' : Pool) : Prop :=
  (∀ n, e_client <$> p' !! n = e_client <$> p !! n) ∧
  (∀ n, n ∉ names → p' !! n = p !! n) ∧
  (∀ n e, n ∈ names → p' !! n = Some e → checked (e_node e)).

Lemma Refresh_spec name p (w : W) :
  is_Some (p !! name) →
  let '(p', _, (node, _)) := Refresh name p w in
  refreshed [name] p p' ∧ e_node <$> p' !! name = Some node.
Proof.
  intros [e He]. unfold Refresh. rewrite He.
  destruct (FetchInfo (e_client e) w) as [w1 info]. destruct (Now w1) as [w2 now].
  assert (∀ node, checked node →
    refreshed [name] p (setNode name node p) ∧
    e_node <$> setNode name node p !! name = Some node) as Hset.
  { intros node Hn. unfold setNode, refreshed, Pool in *. rewrite He. split_and!.
    - intros n. rewrite lookup_insert. case_decide; [subst; by rewrite He|done].
    - intros n Hni. rewrite lookup_insert_ne; [done|]. intros ->. apply Hni. constructor.
    - intros n e' Hni%list_elem_of_singleton. subst. rewrite lookup_insert_eq.
      by intros [= <-].
    - by rewrite lookup_insert_eq. }
  destruct info as [info|err]; apply Hset; [by left|by right].
Qed.

Lemma refreshed_trans n names p p1 p2 :
  n ∉ names → refreshed [n] p p1 → refreshed names p1 p2 → refreshed (n :: names) p p2.
Proof.
  intros Hn (Hc1 & Hf1 & Hk1) (Hc2 & Hf2 & Hk2). split_and!.
  - intros m. by rewrite Hc2.
  - intros m [Hm Hms]%not_elem_of_cons. rewrite Hf2 by done. apply Hf1.
    by rewrite list_elem_of_singleton.
  - intros m e [->|Hm]%elem_of_cons; [|by apply Hk2]. rewrite Hf2 by done.
    apply Hk1. constructor.
Qed.

Lemma refresh_names_spec names p (w : W) :
  NoDup names → (∀ n, n ∈ names → is_Some (p !! n)) →
  let '(p', _, nodes) := refresh_names names p w in
  refreshed names p p' ∧ map Some nodes = map (λ n, e_node <$> p' !! n) names.
Proof.
  intros Hnd. revert p w. induction Hnd as [|n names Hn Hnd IH]; intros p w Hsome.
  { simpl. split; [|done]. split_and!; [done..|]. intros n e Hin. by apply elem_of_nil in Hin. }
  cbn [refresh_names]. pose proof (Refresh_spec n p w) as Hr.
  destruct (Refresh n p w) as [[p1 w1] [node err]].
  destruct Hr as [Hr Hnode]; [apply Hsome; constructor|].
  assert (∀ m, m ∈ names → is_Some (p1 !! m)) as Hsome1.
  { intros m Hm. destruct Hr as (Hc & _). specialize (Hc m).
    destruct (Hsome m) as [e He]; [by constructor|]. rewrite He in Hc. unfold Pool in *.
    destruct (p1 !! m); [eauto|done]. }
  specialize (IH p1 w1 Hsome1). destruct (refresh_names names p1 w1) as [[p2 w2] nodes].
  destruct IH as [Hrs Hnodes]. split; [by eapply refreshed_trans|].
  simpl. rewrite Hnodes. f_equal. destruct Hrs as (_ & Hf & _). by rewrite Hf.
Qed.
End refresh.

Lemma elem_of_pool_names `{GoRuntime} (p : Pool) n : n ∈ pool_names p ↔ is_Some (p !! n).
Proof. unfold pool_names. rewrite elem_of_sort_by. apply elem_of_map_keys. Qed.

Lemma pool_names_NoDup `{GoRuntime} (p : Pool) : NoDup (pool_names p).
Proof. unfold pool_names. rewrite sort_by_perm. apply NoDup_map_keys. Qed.

Lemma omap_map_Some {A B} (f : A → option B) (l : list A) (k : list B) :
  map Some k = map f l → omap f l = k.
Proof.
  revert k. induction l as [|x l IH]; intros [|y k]; simpl; try done.
  intros [= Hx Hk]. rewrite <-Hx. f_equal. by apply IH.
Qed.

(** A refresh visits every agent of the pool once, whatever the others
    answer: the pool keeps its names and its clients, every node ends online
    without an error or offline, and the nodes returned are those the pool now
    holds, in the order of their names. *)
Theorem RefreshAll_correct `{GoRuntime} {W} `{OS W} `{HTTP W} `{JSON InfoResponse}
    (p : Pool) (w : W) :
  let '(p', _, nodes) := RefreshAll p w in
  (∀ n, GetByName n p' = GetByName n p) ∧
  nodes = omap (λ name, e_node <$> p' !! name) (pool_names p) ∧
  length nodes = size p ∧
  (∀ n e, p' !! n = Some e → checked (e_node e)).
Proof.
  unfold RefreshAll. pose proof (refresh_names_spec (pool_names p) p w) as Hr.
  destruct (refresh_names _ p w) as [[p' w'] nodes].
  destruct Hr as [(Hc & Hf & Hk) Hnodes]; [apply pool_names_NoDup|by apply elem_of_pool_names|].
  split_and!.
  - intros n. apply Hc.
  - symmetry. by apply omap_map_Some.
  - rewrite <-(length_map Some), Hnodes, length_map. unfold pool_names.
    rewrite length_sort_by. unfold map_keys. rewrite length_fmap, map_range_perm.
    apply length_map_to_list.
  - intros n e He. eapply Hk, He. apply elem_of_pool_names. unfold Pool in *.
    specialize (Hc n). rewrite He in Hc. by destruct (p !! n).
Qed.

(** ** Examples *)
#[local] Existing Instance reference_runtime.
#[local] Existing Instance reference_url.

Definition enc_bool (b : bool) : string := if b then "true" else "false".
Definition malformed : error := Enew "malformed message".

#[local] Instance DeployRequest_JSON : JSON DeployRequest := {
  json_Marshal r := enc_list [json_text (dr_BundleName r); json_text (dr_CertPath r);
                              json_text (dr_KeyPath r); json_text (dr_ReloadCommand r);
                              dr_CertPEM r; dr_KeyPEM r];
  json_Decode s :=
    match dec_list 6 s with
    | Some [b; c; k; rc; cp; kp] =>
        Ok {| dr_BundleName := b; dr_CertPath := c; dr_KeyPath := k; dr_ReloadCommand := rc;
              dr_CertPEM := cp; dr_KeyPEM := kp |}
    | _ => Err malformed
    end
}.
#[local] Instance DeployResult_JSON : JSON DeployResult := {
  json_Marshal r := enc_list [enc_bool (res_Written r); enc_bool (res_Reloaded r);
                              json_text (res_Message r)];
  json_Decode s :=
    match dec_list 3 s with
    | Some [w; r; m] =>
        Ok {| res_Written := String.eqb w "true"; res_Reloaded := String.eqb r "true";
              res_Message := m |}
    | _ => Err malformed
    end
}.
#[local] Instance InfoResponse_JSON : JSON InfoResponse := {
  json_Marshal r := ir_Name r;
  json_Decode s :=
    Ok {| ir_Name := s; ir_Runtime := "docker"; ir_SocketPath := ""; ir_Version := "";
          ir_Resources := zero_SystemResources |}
}.

Lemma enc_bool_eqb b : String.eqb (enc_bool b) "true" = b.
Proof. by destruct b. Qed.

Lemma dec_list_exact n l s : length l = n → dec_list n (enc_list l +:+ s) = Some l.
Proof. intros <-. apply dec_enc_list. Qed.

#[local] Instance DeployRequest_laws : JSONLaws DeployRequest.
Proof.
  split; intros [b c k rc cp kp]; unfold json_Encode; cbn [json_Decode json_Marshal DeployRequest_JSON].
  - rewrite <-(app_nil_str (enc_list _)). by rewrite dec_list_exact.
  - by rewrite dec_list_exact.
Qed.
#[local] Instance DeployResult_laws : JSONLaws DeployResult.
Proof.
  split; intros [b r m]; unfold json_Encode; cbn [json_Decode json_Marshal DeployResult_JSON].
  - rewrite <-(app_nil_str (enc_list _)). rewrite dec_list_exact by done. by rewrite !enc_bool_eqb.
  - rewrite dec_list_exact by done. by rewrite !enc_bool_eqb.
Qed.

Definition example_deploy : DeployRequest :=
  {| dr_BundleName := "b"; dr_CertPath := "/etc/c.pem"; dr_KeyPath := "/etc/k.pem";
     dr_ReloadCommand := "reload"; dr_CertPEM := "CERT"; dr_KeyPEM := "KEY" |}.

(** The third call, the write of the certificate, fails. *)
Definition faulty_host : SimOS :=
  {| sim_tree := {[ "/etc/c.pem" := {| f_data := "OLD"; f_mode := 420 |} ]};
     sim_faults := [false; false; true]; sim_commands := []; sim_clock := 1%Z |}.

Example deploy_fails :
  let '(w, (res, err)) := FileDeployer_Deploy example_deploy faulty_host in
  res_Written res = false ∧ f_data <$> sim_tree w !! "/etc/c.pem" = Some "OLD" ∧
  sim_tree w !! "/etc/k.pem" = None ∧ sim_commands w = [].
Proof. by vm_compute. Qed.

Lemma FileDeployer_Deploy_atomic_witness :
  let '(w', (res, err)) := FileDeployer_Deploy example_deploy faulty_host in
  ∃ w1 ok,
    pair_replaced "/etc/c.pem" "/etc/k.pem" "CERT" "KEY" faulty_host w1 ok ∧
    res_Written res = ok ∧
    (if ok && true
     then w' = (run_command ["sh"; "-c"; "reload"] w1).1 ∧ (err = None ↔ res_Reloaded res = true)
     else w' = w1 ∧ res_Reloaded res = false) ∧
    (err = None → ok = true).
Proof.
  exact (FileDeployer_Deploy_atomic example_deploy faulty_host
           ltac:(unfold paths_apart; split_and!; discriminate)).
Defined.

Definition example_agent : AgentNode :=
  {| an_Name := "edge"; an_DisplayName := ""; an_Addr := "10.0.0.9:8890"; an_Runtime := "docker";
     an_SocketPath := ""; an_Version := ""; an_Status := ""; an_LastError := "";
     an_LastCheckedAt := 0%Z; an_Resources := zero_SystemResources |}.

Definition no_stats (w : SimOS) : SimOS * SystemResources := (w, zero_SystemResources).

Lemma DeployCertificate_refines_witness :
  @DeployCertificate SimOS
     (transport no_stats (New_Server "edge" "docker" "v1" (Some FileDeployer_Deploy) true)
        "http://10.0.0.9:8890") _ _ (New_Client example_agent) example_deploy empty_host
  = match FileDeployer_Deploy (request_carried example_deploy) empty_host with
    | (w', (res, None)) => (w', Ok (result_carried res))
    | (w', (_, Some e)) =>
        (w', Err (Enew ("agent certificate deploy failed: "
                        +:+ TrimSpace (error_text e +:+ newline))))
    end.
Proof.
  exact (DeployCertificate_refines no_stats
           (New_Server "edge" "docker" "v1" (Some FileDeployer_Deploy) true)
           FileDeployer_Deploy (New_Client example_agent) example_deploy empty_host
           eq_refl eq_refl).
Defined.

Example example_proxy :
  handleProxyHTTP
    {| ar_Method := "GET"; ar_Path := "/domux/agent/proxy/http/index"; ar_RawPath := "";
       ar_Query := [("q", "1"); ("__jd_target", "http://172.17.0.2:80"); ("a", "2")];
       ar_Body := "" |}
  = Forward "http" "172.17.0.2:80"
      {| ar_Method := "GET"; ar_Path := "/index"; ar_RawPath := "";
         ar_Query := [("a", "2"); ("q", "1")]; ar_Body := "" |}.
Proof. by vm_compute. Qed.
