(* ===== verification/Routes.v ===== *)
(** Routes and applications of the server ([src/cmd/domux/main.go]): the
    discoverers, the routes of custom applications, how the two are merged,
    the list of applications, and one refresh. *)

From S2P Require Import Prelude GoStrings GoRuntime Core Registry Config Store Proxy Discovery Agent.

(** What a discoverer answers during a refresh. *)
Record routeDiscoverer := {
  d_Name : string;
  d_StartupBlocking : bool;
  d_SourceConfig : RuntimeSource;
  d_RouteOrigin : RouteOrigin;
  d_DiscoverRoutes : list ManagedZone → list DiscoveredRoute * option error;
  d_Snapshots : result error (list ContainerSnapshot)
}.

Record discoveredSnapshots := {
  dsn_NodeName : string;
  dsn_Source : RuntimeSource;
  dsn_Origin : RouteOrigin;
  dsn_Snapshots : list ContainerSnapshot
}.

(** ** The discoverers of the program *)
Section discoverers.
Context `{GoRuntime} `{NetURL} `{Nat} (env : Env) (runningInContainer : bool).

Definition docker_discoverer (d : DockerDiscovery) : routeDiscoverer :=
  {| d_Name := DockerDiscovery_Name env d; d_StartupBlocking := true;
     d_SourceConfig := dd_Source d; d_RouteOrigin := RouteOriginLocalDocker;
     d_DiscoverRoutes zones := DiscoverRoutes env runningInContainer d zones;
     d_Snapshots := Snapshots env d |}.

Definition remote_discoverer (d : RemoteDiscovery) : routeDiscoverer :=
  {| d_Name := an_Name (rd_Node d); d_StartupBlocking := false;
     d_SourceConfig := dd_Source (rd_local d); d_RouteOrigin := RouteOriginRemoteAgent;
     d_DiscoverRoutes zones := Remote_DiscoverRoutes env runningInContainer d zones;
     d_Snapshots := Remote_Snapshots env d |}.
End discoverers.

Section selection.
Context `{GoRuntime}.

Definition startupDiscoverers (discoverers : list routeDiscoverer) : list routeDiscoverer :=
  List.filter d_StartupBlocking discoverers.

Definition selectedDiscoverers (discoverers : list routeDiscoverer) (source : string)
  : result error (list routeDiscoverer) :=
  let source := TrimSpace source in
  if String.eqb source "" then Ok discoverers
  else match List.filter (λ d, String.eqb (d_Name d) source) discoverers with
       | [] => Err (Enew ("route source " +:+ quote source +:+ " not found"))
       | selected => Ok selected
       end.

Definition discoverAllRoutes (zones : list ManagedZone) (discoverers : list routeDiscoverer)
  : list DiscoveredRoute * option error :=
  let answers := map (λ d, d_DiscoverRoutes d zones) discoverers in
  (sort_by r_Host (flat_map fst answers), join_errs (omap snd answers)).

Definition discoverer_snapshots (d : routeDiscoverer) : result error discoveredSnapshots :=
  match d_Snapshots d with
  | Err e => Err (Ewrap ("discoverer " +:+ d_Name d +:+ " snapshots: " +:+ error_text e) e)
  | Ok snapshots =>
      Ok {| dsn_NodeName := d_Name d; dsn_Source := d_SourceConfig d;
            dsn_Origin := d_RouteOrigin d; dsn_Snapshots := snapshots |}
  end.

Definition discoverAllSnapshots (discoverers : list routeDiscoverer)
  : list discoveredSnapshots * option error :=
  let outcomes := map discoverer_snapshots discoverers in
  (ok_outcomes outcomes, join_errs (err_outcomes outcomes)).
End selection.

(** ** Routes of custom applications *)
Section custom.
Context `{GoRuntime} `{NetURL}.

Definition add_zone_key (key : string) (zone : ManagedZone) (m : gmap string ManagedZone)
  : gmap string ManagedZone :=
  let key := TrimSpace key in if String.eqb key "" then m else <[key := zone]> m.

Definition zones_by_name (zones : list ManagedZone) : gmap string ManagedZone :=
  foldl (λ m zone, add_zone_key (z_Domain zone) zone (add_zone_key (z_Name zone) zone m))
    ∅ zones.

(** The proxy URL of an application behind an exit node. *)
Definition exit_node_proxy (pool : option Pool) (app : CustomApp) (exitNode : string)
  : result error string :=
  let unavailable :=
    Err (Enew ("custom app " +:+ quote (app_Name app) +:+ " exit node " +:+ quote exitNode
               +:+ " is unavailable")) in
  if String.eqb exitNode "" then Ok ""
  else match pool with
       | None => unavailable
       | Some pool =>
           match GetByName exitNode pool with
           | None => unavailable
           | Some client =>
               match HTTPProxyURL client (app_TargetURL app) with
               | Err e => Err (Ewrap ("custom app " +:+ quote (app_Name app) +:+ " exit node "
                                      +:+ quote exitNode +:+ ": " +:+ error_text e) e)
               | Ok proxyURL => Ok proxyURL
               end
           end
       end.

Definition app_lookup_key (app : CustomApp) : string :=
  let lookup := TrimSpace (app_Domain app) in
  if String.eqb lookup "" then TrimSpace (app_Zone app) else lookup.

Definition custom_route (zone : ManagedZone) (app : CustomApp) (exitNode proxyURL : string)
  : DiscoveredRoute :=
  let host := CustomApp_Host app zone in
  {| r_ID := "custom:" +:+ app_Name app +:+ ":" +:+ host; r_Name := app_Name app;
     r_Icon := app_Icon app; r_Domain := z_Domain zone; r_Zone := z_Name zone;
     r_Subdomain := app_Subdomain app; r_Host := host; r_Source := "manual";
     r_ExitNode := exitNode; r_Origin := RouteOriginCustomApp; r_Runtime := "";
     r_TargetURL := app_TargetURL app; r_ProxyURL := proxyURL; r_Network := "";
     r_Container := {| cr_ID := ""; cr_Name := app_Name app; cr_Image := "";
                       cr_Source := "manual"; cr_Runtime := "" |} |}.

Definition custom_app_route (zones : gmap string ManagedZone) (pool : option Pool)
    (app : CustomApp) : result error DiscoveredRoute :=
  let lookup := app_lookup_key app in
  match zones !! lookup with
  | None => Err (Enew ("custom app " +:+ quote (app_Name app) +:+ " references unknown domain "
                       +:+ quote lookup))
  | Some zone =>
      let exitNode := TrimSpace (app_ExitNode app) in
      let? proxyURL := exit_node_proxy pool app exitNode in
      Ok (custom_route zone app exitNode proxyURL)
  end.

Definition buildCustomAppRoutes (zones : list ManagedZone) (apps : list CustomApp)
    (pool : option Pool) : list DiscoveredRoute * option error :=
  let outcomes := map (custom_app_route (zones_by_name zones) pool) apps in
  (sort_by r_Host (ok_outcomes outcomes), join_errs (err_outcomes outcomes)).
End custom.

(** ** Merging *)
Section merging.
Context `{GoRuntime}.

Definition slug_char (c : ascii) : bool := is_lower c || is_digit c.

(** The loop of [slugLabel]; [lastDash] is its flag. *)
Fixpoint slug_loop (lastDash : bool) (s : string) : string :=
  match s with
  | EmptyString => EmptyString
  | String c s' =>
      if slug_char c then String c (slug_loop false s')
      else if lastDash then slug_loop true s'
      else String dash (slug_loop true s')
  end.

Definition slugLabel (value : string) : string :=
  let value := ToLower (TrimSpace value) in
  if String.eqb value "" then "" else TrimSet (is_char dash) (slug_loop false value).

Definition hostSuffix (host : string) : string :=
  let host := TrimSpace host in
  if String.eqb host "" then ""
  else match Cut dot host with Some (_, suffix) => suffix | None => "" end.

Definition r_renamed (subdomain host : string) (route : DiscoveredRoute) : DiscoveredRoute :=
  {| r_ID := r_Source route +:+ ":" +:+ host; r_Name := r_Name route;
     r_Icon := r_Icon route; r_Domain := r_Domain route; r_Zone := r_Zone route;
     r_Subdomain := subdomain; r_Host := host; r_Source := r_Source route;
     r_ExitNode := r_ExitNode route; r_Origin := r_Origin route; r_Runtime := r_Runtime route;
     r_TargetURL := r_TargetURL route; r_ProxyURL := r_ProxyURL route;
     r_Network := r_Network route; r_Container := r_Container route |}.

Definition rename_base (route : DiscoveredRoute) : string :=
  let base := TrimSpace (r_Subdomain route) in
  if negb (String.eqb base "") then base
  else
    let name := TrimSpace (r_Name route) in
    if negb (String.eqb name "") then name
    else
      let name := TrimSpace (cr_Name (r_Container route)) in
      if negb (String.eqb name "") then name else "app".

Definition renamed_subdomain (route : DiscoveredRoute) : string :=
  let base := rename_base route in
  let node := slugLabel (r_Source route) in
  let node := if String.eqb node "" then "node" else node in
  let base := if String.eqb base node then base +:+ "-app" else base in
  let node := if HasSuffix base ("-" +:+ node) then node +:+ "-node" else node in
  base +:+ "-" +:+ node.

(** The last two arguments are not used, as in the code. *)
Definition renameConflictingRoute (route : DiscoveredRoute)
    (merged customRoutes : list DiscoveredRoute) : DiscoveredRoute :=
  let subdomain := renamed_subdomain route in
  let zoneSuffix := hostSuffix (r_Host route) in
  let host := if negb (String.eqb zoneSuffix "") then subdomain +:+ "." +:+ zoneSuffix
              else subdomain in
  r_renamed subdomain host route.

Definition blocked_hosts (customRoutes : list DiscoveredRoute) : gset string :=
  list_to_set (map (λ route, ToLower (r_Host route)) customRoutes).

Definition merge_step (blocked : gset string) (customRoutes merged : list DiscoveredRoute)
    (route : DiscoveredRoute) : list DiscoveredRoute :=
  if String.eqb (r_Origin route) RouteOriginCustomApp then merged
  else merged ++ [if bool_decide (ToLower (r_Host route) ∈ blocked)
                  then renameConflictingRoute route merged customRoutes else route].

Definition applyCustomRoutes (routes customRoutes : list DiscoveredRoute)
  : list DiscoveredRoute :=
  sort_by r_Host
    (foldl (merge_step (blocked_hosts customRoutes) customRoutes) [] routes ++ customRoutes).

Definition mergeRoutesForSource (existing : list DiscoveredRoute) (source : string)
    (refreshed : list DiscoveredRoute) : list DiscoveredRoute :=
  sort_by r_Host
    (List.filter (λ route, negb (String.eqb (r_Source route) source)) existing ++ refreshed).
End merging.

(** ** Applications *)
Section applications.
Context `{GoRuntime} (env : Env) (runningInContainer : bool).

Definition applicationEntryURL (host : string) : string :=
  let host := TrimSpace host in
  if String.eqb host "" then "" else "https://" +:+ host.

Definition routeDomain (route : DiscoveredRoute) : string :=
  let domain := TrimSpace (r_Domain route) in
  if negb (String.eqb domain "") then domain else TrimSpace (r_Zone route).

(** The first value that is not blank, trimmed. *)
Fixpoint first_nonblank (values : list string) : string :=
  match values with
  | [] => ""
  | [v] => TrimSpace v
  | v :: values' => let v := TrimSpace v in
                    if String.eqb v "" then first_nonblank values' else v
  end.

Definition applicationFromRoute (route : DiscoveredRoute) : Application :=
  {| ap_ID := r_ID route;
     ap_Name := first_nonblank [r_Name route; cr_Name (r_Container route);
                                r_Subdomain route; r_Host route];
     ap_Icon := r_Icon route; ap_Domain := routeDomain route; ap_Zone := r_Zone route;
     ap_Subdomain := r_Subdomain route; ap_Host := r_Host route;
     ap_EntryURL := applicationEntryURL (r_Host route); ap_Source := r_Source route;
     ap_ExitNode := r_ExitNode route; ap_Origin := r_Origin route;
     ap_Runtime := r_Runtime route; ap_TargetURL := r_TargetURL route;
     ap_Status := ApplicationStatusProxied; ap_Reason := "";
     ap_Container := r_Container route |}.

Definition sourceNodeName (entry : discoveredSnapshots) : string :=
  if String.eqb (dsn_Origin entry) RouteOriginRemoteAgent then TrimSpace (dsn_NodeName entry)
  else LocalNodeName.

Definition productizeDiscoveryError (message : string) : string :=
  if Contains message "invalid domux.port" then "端口配置无效"
  else if Contains message "no backend port" || Contains message "no valid backend port"
  then "端口无法确定"
  else if Contains message "no container network" || Contains message "network "
  then "节点不可达"
  else message.

Definition applicationIntakeReason (zones : list ManagedZone) (intent : RouteIntent)
    (parseErr : option error) (targetURL host : string) : string :=
  match parseErr with
  | Some e => productizeDiscoveryError (error_text e)
  | None =>
      if String.eqb (TrimSpace (in_Domain intent)) "" &&
         String.eqb (DefaultManagedZoneName zones) ""
      then match zones with
           | [] => "未找到默认域名"
           | _ => "未找到默认域名：请指定接入域名或设置默认域名"
           end
      else if negb (String.eqb (TrimSpace (in_Domain intent)) "") && String.eqb host ""
      then "指定域名不存在"
      else if String.eqb (TrimSpace targetURL) "" then "端口无法确定或节点不可达"
      else "入口未生成"
  end.

Definition discoveredApplicationTargetURL (source : RuntimeSource)
    (snapshot : ContainerSnapshot) (intent : RouteIntent) : string :=
  match ResolveTarget env runningInContainer source snapshot intent with
  | Ok (_, targetURL) => targetURL
  | Err _ =>
      match ResolveTarget env runningInContainer source snapshot zero_RouteIntent with
      | Ok (_, targetURL) => targetURL
      | Err _ => ""
      end
  end.

Fixpoint applicationHost (zones : list ManagedZone) (domainName subdomain : string) : string :=
  if String.eqb domainName "" then ""
  else match zones with
       | [] => ""
       | zone :: zones' =>
           if negb (String.eqb (z_Domain zone) domainName) &&
              negb (String.eqb (z_Name zone) domainName)
           then applicationHost zones' domainName subdomain
           else if String.eqb subdomain "" then z_Domain zone
           else subdomain +:+ "." +:+ z_Domain zone
       end.

(** [ParseLabels] returns the zero intent with its error. *)
Definition parsed_intent (labels : gmap string string) : RouteIntent * option error :=
  match ParseLabels labels DefaultLabelPrefix with
  | Ok intent => (intent, None)
  | Err e => (zero_RouteIntent, Some e)
  end.

Definition applicationFromSnapshot (zones : list ManagedZone) (entry : discoveredSnapshots)
    (snapshot : ContainerSnapshot) : option Application :=
  let '(intent, err) := parsed_intent (cs_Labels snapshot) in
  if match err with None => negb (in_Managed intent) | Some _ => false end then None
  else
    let domainName := TrimSpace (in_Domain intent) in
    let domainName := if String.eqb domainName "" then DefaultManagedZoneName zones
                      else domainName in
    let subdomain := TrimSpace (in_Subdomain intent) in
    let subdomain := if String.eqb subdomain "" then DefaultSubdomain snapshot
                     else subdomain in
    let host := applicationHost zones domainName subdomain in
    let targetURL := discoveredApplicationTargetURL (dsn_Source entry) snapshot intent in
    let reason := applicationIntakeReason zones intent err targetURL host in
    let appName := subdomain in
    let appName := if String.eqb (TrimSpace appName) ""
                   then TrimPrefix (TrimSpace (cs_Name snapshot)) "/" else appName in
    let appName := if String.eqb (TrimSpace appName) "" then cs_ID snapshot else appName in
    let node := sourceNodeName entry in
    Some
      {| ap_ID := node +:+ ":" +:+ cs_ID snapshot; ap_Name := appName; ap_Icon := "";
         ap_Domain := domainName; ap_Zone := domainName; ap_Subdomain := subdomain;
         ap_Host := host; ap_EntryURL := applicationEntryURL host; ap_Source := node;
         ap_ExitNode := if String.eqb (dsn_Origin entry) RouteOriginRemoteAgent
                        then node else "";
         ap_Origin := dsn_Origin entry; ap_Runtime := cs_Runtime snapshot;
         ap_TargetURL := targetURL; ap_Status := ApplicationStatusUnproxied;
         ap_Reason := reason;
         ap_Container := {| cr_ID := cs_ID snapshot; cr_Name := cs_Name snapshot;
                            cr_Image := cs_Image snapshot; cr_Source := node;
                            cr_Runtime := cs_Runtime snapshot |} |}.

Definition ap_conflicting (app : Application) : Application :=
  {| ap_ID := ap_ID app; ap_Name := ap_Name app; ap_Icon := ap_Icon app;
     ap_Domain := ap_Domain app; ap_Zone := ap_Zone app; ap_Subdomain := ap_Subdomain app;
     ap_Host := ap_Host app; ap_EntryURL := ap_EntryURL app; ap_Source := ap_Source app;
     ap_ExitNode := ap_ExitNode app; ap_Origin := ap_Origin app; ap_Runtime := ap_Runtime app;
     ap_TargetURL := ap_TargetURL app; ap_Status := ApplicationStatusUnproxied;
     ap_Reason := "子域名与自定义应用冲突"; ap_Container := ap_Container app |}.

Definition route_key (origin source containerID : string) : string :=
  origin +:+ "|" +:+ source +:+ "|" +:+ containerID.

Definition container_route_key (route : DiscoveredRoute) : string :=
  route_key (r_Origin route) (r_Source route) (cr_ID (r_Container route)).

(** [routeByContainer]: the routes of containers under their keys. *)
Definition routes_by_container (routes : list DiscoveredRoute) : gmap string DiscoveredRoute :=
  keyed_from container_route_key ∅
    (List.filter (λ route, negb (String.eqb (container_route_key route) "|"))
      (List.filter (λ route, negb (String.eqb (r_Origin route) RouteOriginCustomApp)) routes)).

Definition snapshot_application (zones : list ManagedZone)
    (routeByContainer : gmap string DiscoveredRoute) (blocked : gset string)
    (entry : discoveredSnapshots) (snapshot : ContainerSnapshot) : option Application :=
  if negb (cs_Running snapshot) then None
  else match routeByContainer !!
               route_key (dsn_Origin entry) (sourceNodeName entry) (cs_ID snapshot) with
       | Some route => Some (applicationFromRoute route)
       | None =>
           match applicationFromSnapshot zones entry snapshot with
           | None => None
           | Some app =>
               Some (if negb (String.eqb (ap_Host app) "") &&
                        bool_decide (ToLower (ap_Host app) ∈ blocked)
                     then ap_conflicting app else app)
           end
       end.

Definition application_less (a b : Application) : bool :=
  if negb (String.eqb (ap_Status a) (ap_Status b)) then str_ltb (ap_Status a) (ap_Status b)
  else str_ltb (ap_Name a) (ap_Name b).

Definition buildApplications (zones : list ManagedZone) (snapshots : list discoveredSnapshots)
    (routes customRoutes : list DiscoveredRoute) : list Application :=
  let blocked : gset string :=
    list_to_set (map (λ route, ToLower (TrimSpace (r_Host route))) customRoutes) in
  let custom := map applicationFromRoute
    (List.filter (λ route, String.eqb (r_Origin route) RouteOriginCustomApp) routes) in
  let routeByContainer := routes_by_container routes in
  let containers := flat_map (λ entry,
    omap (snapshot_application zones routeByContainer blocked entry) (dsn_Snapshots entry))
    snapshots in
  sort_slice application_less (custom ++ containers).
End applications.

(** ** One refresh *)
Section refresh.
Context `{GoRuntime} `{NetURL} (env : Env) (runningInContainer : bool).

(** The routes of a refresh, before they are stored. *)
Definition refreshed_routes (source : string) (selected : list routeDiscoverer)
    (store : MemoryStore) (pool : option Pool)
  : list DiscoveredRoute * list DiscoveredRoute * list (option error) :=
  let zones := ListDomains store in
  let '(routes, routeErr) := discoverAllRoutes zones selected in
  let '(customRoutes, customErr) := buildCustomAppRoutes zones (ListCustomApps store) pool in
  let routes := if negb (String.eqb source "")
                then mergeRoutesForSource (ListRoutes store) source routes else routes in
  (applyCustomRoutes routes customRoutes, customRoutes, [routeErr; customErr]).

(** The store's two operations do not fail. *)
Definition refreshRoutesWithDiscoverers (source : string) (discoverers : list routeDiscoverer)
    (pool : option Pool) (store : MemoryStore) (routeTable : RouteTable)
  : MemoryStore * RouteTable * option error :=
  match selectedDiscoverers discoverers source with
  | Err e => (store, routeTable, Some e)
  | Ok selected =>
      let zones := ListDomains store in
      let '(routes, customRoutes, errs) := refreshed_routes source selected store pool in
      let store := ReplaceRoutes routes store in
      let '(snapshots, snapshotErr) := discoverAllSnapshots discoverers in
      let store := ReplaceApplications
        (buildApplications env runningInContainer zones snapshots routes customRoutes) store in
      (store, Swap routes, errors_join (errs ++ [snapshotErr]))
  end.
End refresh.

(** ** Lemmas: merging *)
Section merge_lemmas.
Context `{GoRuntime}.

Definition is_custom (route : DiscoveredRoute) : bool :=
  String.eqb (r_Origin route) RouteOriginCustomApp.

(** A discovered route as the code merges it with the custom ones. *)
Definition merged_route (customRoutes : list DiscoveredRoute) (route : DiscoveredRoute)
  : DiscoveredRoute :=
  if bool_decide (ToLower (r_Host route) ∈ blocked_hosts customRoutes)
  then renameConflictingRoute route [] customRoutes else route.

Lemma merge_steps blocked customRoutes merged routes :
  blocked = blocked_hosts customRoutes →
  foldl (merge_step blocked customRoutes) merged routes =
  merged ++ map (merged_route customRoutes) (List.filter (λ r, negb (is_custom r)) routes).
Proof.
  intros ->. revert merged. induction routes as [|r routes IH]; intros merged; simpl.
  { by rewrite app_nil_r. }
  rewrite IH. unfold merge_step, is_custom.
  destruct (String.eqb (r_Origin r) RouteOriginCustomApp); simpl; [done|].
  rewrite <-app_assoc. by unfold merged_route.
Qed.

Lemma applyCustomRoutes_perm routes customRoutes :
  applyCustomRoutes routes customRoutes ≡ₚ
  map (merged_route customRoutes) (List.filter (λ r, negb (is_custom r)) routes) ++
  customRoutes.
Proof. unfold applyCustomRoutes. rewrite sort_by_perm. by rewrite merge_steps. Qed.

Lemma elem_of_blocked_hosts customRoutes h :
  h ∈ blocked_hosts customRoutes ↔ ∃ c, c ∈ customRoutes ∧ ToLower (r_Host c) = h.
Proof.
  unfold blocked_hosts. rewrite elem_of_list_to_set. setoid_rewrite list_elem_of_In.
  rewrite in_map_iff. naive_solver.
Qed.
End merge_lemmas.

(** ** Labels *)

Lemma str_forall_TrimLeftSet q p s :
  str_forall q s = true → str_forall q (TrimLeftSet p s) = true.
Proof.
  induction s as [|c s IH]; [done|]. intros Hs. cbn [TrimLeftSet].
  pose proof Hs as Hs'. cbn [str_forall] in Hs. apply andb_true_iff in Hs as [_ Hs].
  case_split; [by apply IH|done].
Qed.

Lemma str_forall_TrimRightSet q p s :
  str_forall q s = true → str_forall q (TrimRightSet p s) = true.
Proof.
  induction s as [|c s IH]; [done|]. cbn [str_forall TrimRightSet].
  intros [Hc Hs]%andb_true_iff. specialize (IH Hs).
  destruct (TrimRightSet p s) as [|d t]; [case_split; [done|]; by cbn; rewrite Hc|].
  cbn [str_forall] in *. by rewrite Hc.
Qed.

Lemma TrimRightSet_keep p s : str_forall (λ c, negb (p c)) s = true → TrimRightSet p s = s.
Proof.
  induction s as [|c s IH]; [done|]. cbn [str_forall TrimRightSet].
  intros [Hc Hs]%andb_true_iff. apply negb_true_iff in Hc. rewrite IH by done.
  destruct s; [by rewrite Hc|done].
Qed.

(** The bytes of a label that the program makes up. *)
Definition label_char (c : ascii) : bool := is_lower c || is_digit c || Ascii.eqb c dash.
Definition label_text (s : string) : Prop := s ≠ "" ∧ str_forall label_char s = true.
(** A name that is its own label. *)
Definition plain_label (s : string) : Prop :=
  s ≠ "" ∧ str_forall (λ c, is_lower c || is_digit c) s = true.

Lemma slug_char_solid c : slug_char c = true → solid c.
Proof.
  unfold slug_char, solid, is_ascii_char, ascii_space, is_lower, is_digit. intros Hc.
  apply orb_true_iff in Hc. rewrite !andb_true_iff, !N.leb_le in Hc. split; [apply N.ltb_lt; lia|].
  destruct (byte_of c =? 32)%N eqn:E; [apply N.eqb_eq in E; lia|].
  destruct ((9 <=? byte_of c) && (byte_of c <=? 13))%N eqn:E'; [|done].
  apply andb_true_iff in E' as [?%N.leb_le ?%N.leb_le]. lia.
Qed.

Lemma slug_char_lower c : slug_char c = true → lower_char c = c.
Proof.
  unfold slug_char, lower_char, is_upper, is_lower, is_digit. intros Hc.
  apply orb_true_iff in Hc. rewrite !andb_true_iff, !N.leb_le in Hc.
  destruct ((65 <=? byte_of c) && (byte_of c <=? 90))%N eqn:E'; [|done].
  apply andb_true_iff in E' as [?%N.leb_le ?%N.leb_le]. lia.
Qed.

Lemma slug_text_trimmed s : str_forall slug_char s = true → trimmed s.
Proof.
  intros Hs. apply trimmed_intro.
  - destruct s as [|c s]; [done|]. cbn [str_forall] in Hs. apply andb_true_iff in Hs as [Hc _].
    pose proof (space_width_solid "" c s (slug_char_solid c Hc)) as Hw. simpl in Hw |- *. lia.
  - induction s as [|c s IH]; [done|]. cbn [str_forall] in Hs.
    apply andb_true_iff in Hs as [Hc Hs].
    by rewrite TrimRightSpace_cons_solid, IH by eauto using slug_char_solid.
Qed.

Lemma slug_text_lower `{GoRuntime} s : str_forall slug_char s = true → ToLower s = s.
Proof.
  intros Hs. unfold ToLower.
  assert (is_ascii s = true) as ->.
  { revert Hs. apply str_forall_impl. intros c Hc. apply slug_char_solid, Hc. }
  induction s as [|c s IH]; [done|]. cbn [str_forall] in Hs. apply andb_true_iff in Hs as [Hc Hs].
  cbn [str_map]. by rewrite slug_char_lower, IH.
Qed.

Lemma slug_loop_chars b s : str_forall label_char (slug_loop b s) = true.
Proof.
  revert b. induction s as [|c s IH]; intros b; [done|]. cbn [slug_loop].
  destruct (slug_char c) eqn:E; [|destruct b; [done|]]; cbn [str_forall]; rewrite IH.
  - unfold label_char. unfold slug_char in E. by rewrite E.
  - done.
Qed.

Lemma slug_loop_plain b s : str_forall slug_char s = true → slug_loop b s = s.
Proof.
  revert b. induction s as [|c s IH]; intros b; [done|]. cbn [str_forall slug_loop].
  intros [Hc Hs]%andb_true_iff. by rewrite Hc, IH.
Qed.

Lemma slugLabel_chars `{GoRuntime} v : str_forall label_char (slugLabel v) = true.
Proof.
  unfold slugLabel. case_split; [done|].
  apply str_forall_TrimRightSet, str_forall_TrimLeftSet, slug_loop_chars.
Qed.

Lemma slugLabel_plain `{GoRuntime} v : plain_label v → slugLabel v = v.
Proof.
  intros [Hne Hv]. unfold slugLabel. rewrite (slug_text_trimmed v), slug_text_lower by done.
  apply String.eqb_neq in Hne. rewrite Hne, slug_loop_plain by done.
  assert (str_forall (λ c, negb (is_char dash c)) v = true) as Hd.
  { revert Hv. apply str_forall_impl. intros c Hc. apply negb_true_iff, Ascii.eqb_neq.
    intros <-. done. }
  unfold TrimSet. replace (TrimLeftSet (is_char dash) v) with v; [by apply TrimRightSet_keep|].
  destruct v as [|c v]; [done|]. cbn [TrimLeftSet]. cbn [str_forall] in Hd.
  apply andb_true_iff in Hd as [Hd _]. apply negb_true_iff in Hd. by rewrite Hd.
Qed.

Lemma label_text_app a b : str_forall label_char a = true → label_text b → label_text (a +:+ b).
Proof.
  intros Ha [Hne Hb]. split; [by destruct a|]. by rewrite str_forall_app, Ha.
Qed.

(** ** What becomes of a discovered route *)

(** What merging keeps of every route. *)
Definition same_service (r r' : DiscoveredRoute) : Prop :=
  r_Name r' = r_Name r ∧ r_Icon r' = r_Icon r ∧ r_Domain r' = r_Domain r ∧
  r_Zone r' = r_Zone r ∧ r_Source r' = r_Source r ∧ r_ExitNode r' = r_ExitNode r ∧
  r_Origin r' = r_Origin r ∧ r_Runtime r' = r_Runtime r ∧ r_TargetURL r' = r_TargetURL r ∧
  r_ProxyURL r' = r_ProxyURL r ∧ r_Network r' = r_Network r ∧ r_Container r' = r_Container r.

(** The first of these names, trimmed, that is not blank. *)
Definition first_of (fallback : string) (names : list string) : string :=
  default fallback (head (List.filter (λ name, negb (String.eqb name "")) (map TrimSpace names))).

(** The name a new host starts with. *)
Definition leading_name (r : DiscoveredRoute) : string :=
  first_of "app" [r_Subdomain r; r_Name r; cr_Name (r_Container r)].

(** The part of a host after its first label. *)
Definition after_label (host suffix : string) : Prop :=
  (∃ label, no_dot label = true ∧ TrimSpace host = label +:+ "." +:+ suffix) ∨
  (no_dot (TrimSpace host) = true ∧ suffix = "").

(** A route that gives up its host: the same service under a new label, made
    of its name and of its source, in the domain it was in. *)
Record moved (r r' : DiscoveredRoute) : Prop := {
  moved_service : same_service r r';
  moved_id : r_ID r' = r_Source r +:+ ":" +:+ r_Host r';
  moved_label : ∃ label, label_text label ∧ r_Subdomain r' = leading_name r +:+ "-" +:+ label;
  moved_source : plain_label (r_Source r) → leading_name r ≠ r_Source r →
    HasSuffix (leading_name r) ("-" +:+ r_Source r) = false →
    r_Subdomain r' = leading_name r +:+ "-" +:+ r_Source r;
  moved_host : ∃ suffix, after_label (r_Host r) suffix ∧
    r_Host r' = if String.eqb suffix "" then r_Subdomain r' else r_Subdomain r' +:+ "." +:+ suffix;
  moved_longer : ∀ zone, trimmed (r_Host r) → trimmed (r_Subdomain r) → r_Subdomain r ≠ "" →
    r_Host r = r_Subdomain r +:+ "." +:+ zone →
    String.length (r_Host r) < String.length (r_Host r')
}.

(** A discovered route among custom ones: it stays as it is unless a custom
    route has its host, in any case; then it moves. *)
Definition yields `{GoRuntime} (customRoutes : list DiscoveredRoute) (r r' : DiscoveredRoute)
  : Prop :=
  let taken := ∃ c, c ∈ customRoutes ∧ ToLower (r_Host c) = ToLower (r_Host r) in
  (taken → moved r r') ∧ (¬ taken → r' = r).

Lemma Cut_none_inv sep s :
  Cut sep s = None → str_forall (λ c, negb (Ascii.eqb c sep)) s = true.
Proof.
  induction s as [|c s IH]; [done|]. cbn [Cut str_forall].
  destruct (Ascii.eqb c sep); [done|]. destruct (Cut sep s) as [[]|]; [done|]. intros _. by apply IH.
Qed.

Lemma Cut_head sep s a b :
  Cut sep s = Some (a, b) → str_forall (λ c, negb (Ascii.eqb c sep)) a = true.
Proof.
  revert a b. induction s as [|c s IH]; intros a b; [done|]. cbn [Cut].
  destruct (Ascii.eqb c sep) eqn:E; [by intros [= <- _]|].
  destruct (Cut sep s) as [[a' b']|]; [|done]. intros [= <- _]. cbn [str_forall].
  rewrite E. by apply (IH a' b').
Qed.

Lemma hostSuffix_after host : after_label host (hostSuffix host).
Proof.
  unfold hostSuffix, after_label, no_dot. case_split; beq; [right|].
  { by match goal with E : TrimSpace host = "" |- _ => rewrite E end. }
  destruct (Cut dot (TrimSpace host)) as [[label suffix]|] eqn:E.
  - left. exists label. split; [by eapply Cut_head|by apply Cut_Some in E].
  - right. split; [by apply Cut_none_inv|done].
Qed.

Lemma Cut_shortest sep a z :
  ∃ l r, Cut sep (a +:+ String sep z) = Some (l, r) ∧ String.length l ≤ String.length a.
Proof.
  induction a as [|c a IH].
  - exists "", z. change ("" +:+ String sep z) with (String sep z). cbn [Cut].
    by rewrite Ascii.eqb_refl.
  - change (String c a +:+ String sep z) with (String c (a +:+ String sep z)). cbn [Cut].
    destruct (Ascii.eqb c sep); [exists "", (a +:+ String sep z); split; [done|simpl; lia]|].
    destruct IH as (l & r & -> & Hl). exists (String c l), r. split; [done|simpl; lia].
Qed.

Section moving.
Context `{GoRuntime}.

Lemma rename_base_leading r : rename_base r = leading_name r.
Proof.
  unfold rename_base, leading_name, first_of. cbn [map List.filter].
  destruct (String.eqb (TrimSpace (r_Subdomain r)) ""); [|done]. cbn.
  destruct (String.eqb (TrimSpace (r_Name r)) ""); [|done]. cbn.
  by destruct (String.eqb (TrimSpace (cr_Name (r_Container r))) "").
Qed.

Lemma renamed_subdomain_label r :
  ∃ label, label_text label ∧ renamed_subdomain r = leading_name r +:+ "-" +:+ label.
Proof.
  unfold renamed_subdomain. rewrite rename_base_leading.
  set (node := if String.eqb (slugLabel (r_Source r)) "" then "node" else slugLabel (r_Source r)).
  assert (label_text node) as Hnode.
  { unfold node. case_split; [done|]. beq. split; [done|apply slugLabel_chars]. }
  assert (∀ b : bool, label_text (if b then node +:+ "-node" else node)) as Hn.
  { intros []; [|done]. apply label_text_app; [apply Hnode|done]. }
  destruct (String.eqb (leading_name r) node).
  - exists ("app-" +:+ (if HasSuffix (leading_name r +:+ "-app") ("-" +:+ node)
                        then node +:+ "-node" else node)).
    split; [by apply label_text_app|]. by rewrite app_assoc_str.
  - eexists. split; [apply Hn|done].
Qed.

Lemma renamed_subdomain_source r :
  plain_label (r_Source r) → leading_name r ≠ r_Source r →
  HasSuffix (leading_name r) ("-" +:+ r_Source r) = false →
  renamed_subdomain r = leading_name r +:+ "-" +:+ r_Source r.
Proof.
  intros Hp Hne Hs. unfold renamed_subdomain. rewrite rename_base_leading, slugLabel_plain by done.
  destruct Hp as [Hp _]. apply String.eqb_neq in Hp. rewrite Hp.
  apply String.eqb_neq in Hne. by rewrite Hne, Hs.
Qed.

Lemma renameConflictingRoute_longer r merged customRoutes zone :
  trimmed (r_Host r) → trimmed (r_Subdomain r) → r_Subdomain r ≠ "" →
  r_Host r = r_Subdomain r +:+ "." +:+ zone →
  String.length (r_Host r) <
  String.length (r_Host (renameConflictingRoute r merged customRoutes)).
Proof.
  intros Hth Hts Hne Hhost. unfold renameConflictingRoute.
  destruct (renamed_subdomain_label r) as (label & [Hl _] & E).
  assert (leading_name r = r_Subdomain r) as Hlead.
  { unfold leading_name, first_of. cbn [map List.filter]. apply String.eqb_neq in Hne. by rewrite Hts, Hne. }
  rewrite Hlead in E. cbn [r_Host r_renamed]. rewrite E.
  unfold hostSuffix. rewrite Hth.
  destruct (Cut_shortest dot (r_Subdomain r) zone) as (l & suffix & Hcut & Hlen).
  change (String dot zone) with ("." +:+ zone) in Hcut. rewrite <-Hhost in Hcut. rewrite Hcut.
  apply Cut_Some in Hcut.
  assert (String.length (r_Host r) = String.length l + S (String.length suffix)) as Hh
    by (rewrite Hcut, length_app_str; done).
  assert (0 < String.length label) as Hpos by (destruct label; [done|simpl; lia]).
  destruct (String.eqb (r_Host r) "") eqn:E0; beq.
  { rewrite E0 in Hh. simpl in Hh. lia. }
  destruct (String.eqb suffix "") eqn:E1; beq; cbn [negb];
    rewrite !length_app_str; [subst suffix|]; simpl in *; lia.
Qed.

Lemma renameConflictingRoute_moved r merged customRoutes :
  moved r (renameConflictingRoute r merged customRoutes).
Proof.
  split.
  - done.
  - done.
  - exact (renamed_subdomain_label r).
  - exact (renamed_subdomain_source r).
  - exists (hostSuffix (r_Host r)). split; [apply hostSuffix_after|].
    unfold renameConflictingRoute. cbn [r_Host r_Subdomain r_renamed].
    by destruct (String.eqb (hostSuffix (r_Host r)) "").
  - intros zone. apply renameConflictingRoute_longer.
Qed.

Lemma merged_route_yields customRoutes r : yields customRoutes r (merged_route customRoutes r).
Proof.
  unfold yields, merged_route. case_bool_decide as Hb; rewrite elem_of_blocked_hosts in Hb.
  - split; [intros _; apply renameConflictingRoute_moved|done].
  - by split.
Qed.

Lemma merged_routes_yield customRoutes routes :
  Forall2 (yields customRoutes) routes (map (merged_route customRoutes) routes).
Proof. induction routes; simpl; constructor; [apply merged_route_yields|done]. Qed.
End moving.

(** Custom applications win: merging keeps every custom route as it is,
    keeps every discovered route once, as it is unless a custom route has its
    host, and then under another host, and drops the custom routes of an
    earlier refresh; the result is sorted by host. *)
Theorem applyCustomRoutes_correct `{GoRuntime} routes customRoutes :
  let merged := applyCustomRoutes routes customRoutes in
  Sorted (le_by r_Host) merged ∧
  ∃ kept, Forall2 (yields customRoutes) (List.filter (λ r, negb (is_custom r)) routes) kept ∧
    merged ≡ₚ kept ++ customRoutes.
Proof.
  split; [apply sort_by_sorted|]. eexists.
  split; [apply merged_routes_yield|apply applyCustomRoutes_perm].
Qed.

(** ** Lemmas: what a refresh collects *)
Section collecting.
Context `{GoRuntime}.

Lemma elem_of_buildCustomAppRoutes `{NetURL} zones apps pool r :
  r ∈ (buildCustomAppRoutes zones apps pool).1 ↔
  ∃ app, app ∈ apps ∧ custom_app_route (zones_by_name zones) pool app = Ok r.
Proof.
  unfold buildCustomAppRoutes. simpl.
  rewrite elem_of_sort_by, elem_of_ok_outcomes, list_elem_of_In, in_map_iff.
  setoid_rewrite list_elem_of_In. naive_solver.
Qed.
Lemma discoverAllRoutes_None zones ds :
  (discoverAllRoutes zones ds).2 = None ↔ ∀ d, d ∈ ds → (d_DiscoverRoutes d zones).2 = None.
Proof.
  unfold discoverAllRoutes. cbn [snd]. rewrite join_errs_None, omap_nil.
  setoid_rewrite list_elem_of_In. setoid_rewrite in_map_iff. naive_solver.
Qed.

Lemma buildCustomAppRoutes_None `{NetURL} zones apps pool :
  (buildCustomAppRoutes zones apps pool).2 = None ↔
  ∀ app, app ∈ apps → is_ok (custom_app_route (zones_by_name zones) pool app) = true.
Proof.
  unfold buildCustomAppRoutes. cbn [snd]. rewrite join_errs_None, err_outcomes_nil.
  setoid_rewrite list_elem_of_In. setoid_rewrite in_map_iff. naive_solver.
Qed.

Lemma discoverAllSnapshots_None ds :
  (discoverAllSnapshots ds).2 = None ↔ ∀ d, d ∈ ds → is_ok (d_Snapshots d) = true.
Proof.
  unfold discoverAllSnapshots. cbn [snd]. rewrite join_errs_None, err_outcomes_nil.
  assert (∀ d, is_ok (discoverer_snapshots d) = is_ok (d_Snapshots d)) as Hs
    by (intros d; unfold discoverer_snapshots; by destruct (d_Snapshots d)).
  setoid_rewrite list_elem_of_In. setoid_rewrite in_map_iff.
  split; [intros Hall d Hd; rewrite <-Hs; naive_solver|].
  intros Hall o (d & <- & Hd). rewrite Hs. by apply Hall.
Qed.
End collecting.

(** The routes a refresh of [source] has to serve: what the discoverers it
    asks have answered, and the stored routes of the other sources. *)
Definition current_routes `{GoRuntime} (source : string) (selected : list routeDiscoverer)
    (store : MemoryStore) : list DiscoveredRoute :=
  flat_map (λ d, (d_DiscoverRoutes d (ListDomains store)).1) selected ++
  if String.eqb source "" then []
  else List.filter (λ r, negb (String.eqb (r_Source r) source)) (ListRoutes store).

Lemma list_filter_perm {A} (p : A → bool) (l k : list A) :
  l ≡ₚ k → List.filter p l ≡ₚ List.filter p k.
Proof.
  induction 1; cbn [List.filter]; [done|by case_split; [constructor|]| |by etrans].
  repeat case_split; try done. by apply perm_swap.
Qed.

Lemma current_routes_perm `{GoRuntime} source selected store :
  (if negb (String.eqb source "")
   then mergeRoutesForSource (ListRoutes store) source
          (discoverAllRoutes (ListDomains store) selected).1
   else (discoverAllRoutes (ListDomains store) selected).1)
  ≡ₚ current_routes source selected store.
Proof.
  unfold current_routes, discoverAllRoutes. cbn [fst].
  assert (flat_map fst (map (λ d, d_DiscoverRoutes d (ListDomains store)) selected) =
          flat_map (λ d, (d_DiscoverRoutes d (ListDomains store)).1) selected) as ->.
  { induction selected as [|d ds IH]; [done|]. cbn. by rewrite IH. }
  destruct (String.eqb source ""); cbn [negb].
  - by rewrite sort_by_perm, app_nil_r.
  - unfold mergeRoutesForSource. rewrite !sort_by_perm. apply Permutation_app_comm.
Qed.

(** C5. One refresh.  A source that no discoverer has is refused and changes
    nothing.  Otherwise the store and the route table receive the same routes,
    sorted by host, and nothing else of the store but the list of applications
    changes.  These routes are the routes of the custom applications that
    resolve, and, once each, the routes found by the discoverers asked,
    whatever the other discoverers answered, with those stored for the other
    sources.  A found route stays as it is unless a custom route has its host,
    in any case of the letters: then it keeps its service and moves to the
    host whose first label is its name followed by its source, in the domain
    it was in; a route whose host starts with its own subdomain so leaves the
    host it had.  The list of applications is built from these routes and the
    snapshots of all discoverers.  An error is reported exactly if a discoverer
    asked, a custom application or a snapshot failed, and hides nothing. *)
Theorem refreshRoutes_correct `{GoRuntime} `{NetURL} env ric source discoverers pool store rt :
  let '(store', rt', err) :=
    refreshRoutesWithDiscoverers env ric source discoverers pool store rt in
  match selectedDiscoverers discoverers source with
  | Err e => store' = store ∧ rt' = rt ∧ err = Some e
  | Ok selected =>
      ∃ routes custom found kept,
        store' = ReplaceApplications
                   (buildApplications env ric (ListDomains store)
                      (discoverAllSnapshots discoverers).1 routes custom)
                   (ReplaceRoutes routes store) ∧
        rt' = Swap routes ∧
        Sorted (le_by r_Host) routes ∧
        routes ≡ₚ kept ++ custom ∧
        (∀ r, r ∈ custom ↔ ∃ app, app ∈ ListCustomApps store ∧
           custom_app_route (zones_by_name (ListDomains store)) pool app = Ok r) ∧
        found ≡ₚ List.filter (λ r, negb (String.eqb (r_Origin r) RouteOriginCustomApp))
                   (current_routes source selected store) ∧
        Forall2 (yields custom) found kept ∧
        (err = None ↔
           (∀ d, d ∈ selected → (d_DiscoverRoutes d (ListDomains store)).2 = None) ∧
           (∀ app, app ∈ ListCustomApps store →
              is_ok (custom_app_route (zones_by_name (ListDomains store)) pool app) = true) ∧
           (∀ d, d ∈ discoverers → is_ok (d_Snapshots d) = true))
  end.
Proof.
  unfold refreshRoutesWithDiscoverers.
  destruct (selectedDiscoverers discoverers source) as [selected|e]; [|done].
  unfold refreshed_routes.
  pose proof (current_routes_perm source selected store) as Hcur.
  pose proof (discoverAllRoutes_None (ListDomains store) selected) as He1.
  pose proof (buildCustomAppRoutes_None (ListDomains store) (ListCustomApps store) pool) as He2.
  pose proof (discoverAllSnapshots_None discoverers) as He3.
  destruct (discoverAllRoutes (ListDomains store) selected) as [found routeErr].
  pose proof (λ r, elem_of_buildCustomAppRoutes (ListDomains store) (ListCustomApps store)
                     pool r) as Hc.
  destruct (buildCustomAppRoutes (ListDomains store) (ListCustomApps store) pool)
    as [custom customErr].
  destruct (discoverAllSnapshots discoverers) as [snapshots snapshotErr].
  cbn [fst snd] in Hcur, Hc, He1, He2, He3.
  eexists _, custom, _, _. do 2 (split; [reflexivity|]).
  split; [apply sort_by_sorted|]. split; [apply applyCustomRoutes_perm|].
  split; [exact Hc|]. split; [apply list_filter_perm, Hcur|].
  split; [apply merged_routes_yield|]. rewrite <-He1, <-He2, <-He3, errors_join_None.
  cbn [app]. setoid_rewrite elem_of_cons. setoid_rewrite elem_of_cons.
  setoid_rewrite list_elem_of_singleton. naive_solver.
Qed.

(** ** Lemmas: applications *)

Lemma application_less_strict_weak : strict_weak application_less.
Proof. exact (then_by_strict_weak ap_Status _ (less_by_strict_weak ap_Name)). Qed.

Lemma ParseLabels_error `{GoRuntime} labels prefix e :
  ParseLabels labels prefix = Err e → error_text e ≠ "".
Proof. unfold ParseLabels. repeat case_split; try done; by intros [= <-]. Qed.

Lemma productize_nonempty m : m ≠ "" → productizeDiscoveryError m ≠ "".
Proof. intros Hm. unfold productizeDiscoveryError. by repeat case_split. Qed.

(** Labels that ask for nothing are blank. *)
Lemma ParseLabels_unmanaged `{GoRuntime} labels :
  (∃ intent, ParseLabels labels DefaultLabelPrefix = Ok intent ∧ in_Managed intent = false) ↔
  List.Forall (λ key, TrimSpace (default "" (labels !! key)) = "")
    ["domux.domain"; "domux.zone"; "domux.subdomain"; "domux.network"; "domux.port"].
Proof.
  rewrite !List.Forall_cons_iff. unfold ParseLabels.
  destruct (size labels =? 0)%nat eqn:Es.
  { apply Nat.eqb_eq, map_size_empty_iff in Es as ->. rewrite !lookup_empty.
    split; [by repeat split|]. intros _. by eexists. }
  assert (∀ prefix suffix, label labels prefix suffix =
            TrimSpace (default "" (labels !! labelKey prefix suffix))) as Hlabel by done.
  rewrite !Hlabel. clear Hlabel.
  change (labelKey _ labelDomainSuffix) with "domux.domain".
  change (labelKey _ labelZoneSuffix) with "domux.zone".
  change (labelKey _ labelSubdomainSuffix) with "domux.subdomain".
  change (labelKey _ labelNetworkSuffix) with "domux.network".
  change (labelKey _ labelPortSuffix) with "domux.port".
  cbv zeta.
  generalize (TrimSpace (default "" (labels !! "domux.domain")))
    (TrimSpace (default "" (labels !! "domux.zone")))
    (TrimSpace (default "" (labels !! "domux.subdomain")))
    (TrimSpace (default "" (labels !! "domux.network")))
    (TrimSpace (default "" (labels !! "domux.port"))).
  intros domain zone subdomain network port.
  destruct (String.eqb domain "") eqn:E1, (String.eqb zone "") eqn:E2,
    (String.eqb subdomain "") eqn:E3, (String.eqb network "") eqn:E4,
    (String.eqb port "") eqn:E5; cbn [negb andb orb]; rewrite ?E1, ?E2;
    repeat case_split; beq; subst;
    (split; [intros (intent & Ei & Hm)|intros Hblank]);
    try discriminate; try (exfalso; tauto); try (eexists; split; reflexivity);
    injection Ei as <-; by cbn in Hm.
Qed.

Section application_lemmas.
Context `{GoRuntime} (env : Env) (ric : bool) (zones : list ManagedZone).

Lemma applicationFromSnapshot_Some entry s app :
  applicationFromSnapshot env ric zones entry s = Some app →
  ap_Status app = ApplicationStatusUnproxied ∧ ap_Reason app ≠ "" ∧
  cr_ID (ap_Container app) = cs_ID s ∧ ap_Origin app = dsn_Origin entry ∧
  ap_Source app = sourceNodeName entry.
Proof.
  unfold applicationFromSnapshot, parsed_intent.
  destruct (ParseLabels (cs_Labels s) DefaultLabelPrefix) as [intent|e] eqn:Ep.
  - destruct (negb (in_Managed intent)); [done|]. intros [= <-].
    cbn [ap_Status ap_Reason ap_Container cr_ID ap_Origin ap_Source].
    split; [done|]. split; [|done].
    unfold applicationIntakeReason. by repeat case_split.
  - intros [= <-]. cbn [ap_Status ap_Reason ap_Container cr_ID ap_Origin ap_Source].
    split; [done|]. split; [|done].
    apply productize_nonempty. by eapply ParseLabels_error.
Qed.

Lemma applicationFromSnapshot_None entry s :
  cs_Running s = true →
  applicationFromSnapshot env ric zones entry s = None ↔ unmanaged s.
Proof.
  intros Hr. unfold applicationFromSnapshot, parsed_intent, unmanaged. rewrite Hr.
  destruct (ParseLabels (cs_Labels s) DefaultLabelPrefix) as [intent|e].
  - destruct (in_Managed intent) eqn:Em; simpl.
    + split; [done|]. intros [?|(?&?&?)]; [done|congruence].
    + split; [eauto|done].
  - split; [done|]. by intros [?|(?&?&?)].
Qed.

(** The route of a container: the route of the same origin, node and container
    (the three joined by bars). *)
Definition container_route_of (routes : list DiscoveredRoute) (entry : discoveredSnapshots)
    (s : ContainerSnapshot) (r : DiscoveredRoute) : Prop :=
  r ∈ routes ∧ r_Origin r ≠ RouteOriginCustomApp ∧
  r_Origin r +:+ "|" +:+ r_Source r +:+ "|" +:+ cr_ID (r_Container r) =
  dsn_Origin entry +:+ "|" +:+ sourceNodeName entry +:+ "|" +:+ cs_ID s.

Lemma routes_by_container_Some routes k r :
  routes_by_container routes !! k = Some r →
  r ∈ routes ∧ r_Origin r ≠ RouteOriginCustomApp ∧ container_route_key r = k.
Proof.
  unfold routes_by_container. rewrite keyed_from_lookup, lookup_empty.
  destruct (find_last _ _) as [r'|] eqn:E; [|done]. intros [= ->].
  apply find_last_Some in E as [Hin Hk]. beq.
  apply list_elem_of_In, List.filter_In in Hin as [Hin _].
  apply List.filter_In in Hin as [Hin Hc]. apply negb_true_iff, String.eqb_neq in Hc.
  split_and!; [by apply list_elem_of_In|done|done].
Qed.

(** The labels that ask the program to serve a container. *)
Definition our_labels : list string :=
  ["domux.domain"; "domux.zone"; "domux.subdomain"; "domux.network"; "domux.port"].
Definition labelled (s : ContainerSnapshot) : Prop :=
  ∃ key, key ∈ our_labels ∧ TrimSpace (default "" (cs_Labels s !! key)) ≠ "".

#[export] Instance labelled_dec s : Decision (labelled s).
Proof.
  destruct (decide (List.Forall (λ key, TrimSpace (default "" (cs_Labels s !! key)) = "")
    our_labels)) as [E|E]; [right|left].
  - intros (key & Hk & Hne). rewrite List.Forall_forall in E. by apply Hne, E, list_elem_of_In.
  - apply neg_Forall_Exists_neg, List.Exists_exists in E as (key & Hk & Hne); [|intros x; apply String.string_dec].
    exists key. by split; [apply list_elem_of_In|].
Defined.

Lemma unmanaged_labelled s : cs_Running s = true → unmanaged s ↔ ¬ labelled s.
Proof.
  intros Hr. unfold unmanaged. rewrite Hr.
  transitivity (List.Forall (λ key, TrimSpace (default "" (cs_Labels s !! key)) = "") our_labels).
  { rewrite <-(ParseLabels_unmanaged (cs_Labels s)). naive_solver. }
  rewrite List.Forall_forall. unfold labelled. split.
  - intros Ha (key & Hk & Hne). by apply Hne, Ha, list_elem_of_In.
  - intros Hn key Hk. destruct (decide (TrimSpace (default "" (cs_Labels s !! key)) = ""));
      [done|]. destruct Hn. exists key. by split; [apply list_elem_of_In|].
Qed.

(** An application that a route serves. *)
Definition proxied_by (r : DiscoveredRoute) (app : Application) : Prop :=
  ap_Status app = ApplicationStatusProxied ∧ ap_Reason app = "" ∧
  ap_ID app = r_ID r ∧ ap_Icon app = r_Icon r ∧ ap_Zone app = r_Zone r ∧
  ap_Subdomain app = r_Subdomain r ∧ ap_Host app = r_Host r ∧ ap_Source app = r_Source r ∧
  ap_ExitNode app = r_ExitNode r ∧ ap_Origin app = r_Origin r ∧
  ap_Runtime app = r_Runtime r ∧ ap_TargetURL app = r_TargetURL r ∧
  ap_Container app = r_Container r ∧
  ap_Name app = first_of "" [r_Name r; cr_Name (r_Container r); r_Subdomain r; r_Host r] ∧
  ap_Domain app = first_of "" [r_Domain r; r_Zone r] ∧
  ap_EntryURL app = if String.eqb (TrimSpace (r_Host r)) "" then ""
                    else "https://" +:+ TrimSpace (r_Host r).

Lemma first_nonblank_of names : first_nonblank names = first_of "" names.
Proof.
  unfold first_of. induction names as [|v names IH]; [done|].
  cbn [map List.filter first_nonblank]. rewrite IH. destruct names as [|w names].
  - by destruct (String.eqb (TrimSpace v) "") eqn:E; beq.
  - by destruct (String.eqb (TrimSpace v) "").
Qed.

Lemma applicationFromRoute_proxied r : proxied_by r (applicationFromRoute r).
Proof.
  unfold proxied_by, applicationFromRoute. cbn -[first_nonblank first_of].
  split_and!; try done; [apply first_nonblank_of|]. unfold routeDomain, first_of. cbn.
  destruct (String.eqb (TrimSpace (r_Domain r)) ""); [|done]. cbn.
  by destruct (String.eqb (TrimSpace (r_Zone r)) "") eqn:E; beq.
Qed.

(** How a container without a route is shown: under its node, unproxied, with
    a reason, which is the conflict when a custom route has its host. *)
Definition unproxied (customRoutes : list DiscoveredRoute) (entry : discoveredSnapshots)
    (s : ContainerSnapshot) (app : Application) : Prop :=
  ap_Status app = ApplicationStatusUnproxied ∧ ap_Reason app ≠ "" ∧
  cr_ID (ap_Container app) = cs_ID s ∧ ap_Origin app = dsn_Origin entry ∧
  ap_Source app = sourceNodeName entry ∧
  (ap_Host app ≠ "" →
   (∃ c, c ∈ customRoutes ∧ ToLower (TrimSpace (r_Host c)) = ToLower (ap_Host app)) →
   ap_Reason app = "子域名与自定义应用冲突").

(** The place of a container in the list: shown with its route if it has one;
    otherwise shown as unproxied if it has a label of ours; a container that
    does not run, or has neither, is not shown. *)
Definition shown_as (routes customRoutes : list DiscoveredRoute)
    (container : discoveredSnapshots * ContainerSnapshot) (o : option Application) : Prop :=
  let '(entry, s) := container in
  let routed := ∃ r, container_route_of routes entry s r in
  match o with
  | Some app => cs_Running s = true ∧
      ((∃ r, container_route_of routes entry s r ∧ proxied_by r app) ∨
       (¬ routed ∧ labelled s ∧ unproxied customRoutes entry s app))
  | None => cs_Running s = false ∨ (¬ routed ∧ ¬ labelled s)
  end.

Lemma routes_by_container_None routes entry s :
  routes_by_container routes !! route_key (dsn_Origin entry) (sourceNodeName entry) (cs_ID s)
    = None →
  ¬ ∃ r, container_route_of routes entry s r.
Proof.
  unfold routes_by_container. rewrite keyed_from_lookup, lookup_empty.
  destruct (find_last _ _) as [r'|] eqn:E; [done|]. intros _ (r & Hin & Hc & Hk).
  assert (container_route_key r = route_key (dsn_Origin entry) (sourceNodeName entry) (cs_ID s))
    as Hkey by exact Hk.
  enough (r ∈ List.filter (λ route, negb (String.eqb (container_route_key route) "|"))
    (List.filter (λ route, negb (String.eqb (r_Origin route) RouteOriginCustomApp)) routes)) as Hf.
  { apply (proj1 (find_last_None _ _) E r) in Hf. by rewrite Hkey, String.eqb_refl in Hf. }
  apply list_elem_of_In, List.filter_In. split.
  - apply List.filter_In. split; [by apply list_elem_of_In|]. by apply negb_true_iff, String.eqb_neq.
  - apply negb_true_iff, String.eqb_neq. intros Hbar. apply (f_equal String.length) in Hbar.
    unfold container_route_key, route_key in Hbar. rewrite !length_app_str in Hbar.
    simpl in Hbar. lia.
Qed.

Lemma snapshot_application_shown routes customRoutes entry s :
  shown_as routes customRoutes (entry, s)
    (snapshot_application env ric zones (routes_by_container routes)
       (list_to_set (map (λ r, ToLower (TrimSpace (r_Host r))) customRoutes)) entry s).
Proof.
  unfold snapshot_application, shown_as.
  destruct (cs_Running s) eqn:Hr; cbn [negb]; [|by left].
  pose proof (unmanaged_labelled s Hr) as Hl. pose proof (applicationFromSnapshot_None entry s Hr) as Hn.
  destruct (routes_by_container routes !! _) as [r|] eqn:Er.
  { split; [done|]. left. exists r. split; [|apply applicationFromRoute_proxied].
    by apply routes_by_container_Some. }
  apply routes_by_container_None in Er.
  destruct (applicationFromSnapshot _ _ _ entry s) as [app|] eqn:Ea.
  2:{ right. split; [done|]. by apply Hl, Hn. }
  split; [done|]. right. split; [done|]. split.
  { apply dec_stable. intros Hnl. by apply Hl, Hn in Hnl. }
  apply applicationFromSnapshot_Some in Ea as (Hs & Hre & Hid & Ho & Hsrc).
  case_bool_decide as Hb; [destruct (String.eqb (ap_Host app) "") eqn:Eh|rewrite andb_false_r]; beq; cbn [negb andb].
  - split_and!; done.
  - by split_and!.
  - split_and!; try done. intros _ (c & Hc & E). destruct Hb.
    rewrite elem_of_list_to_set, list_elem_of_In, in_map_iff. exists c.
    by split; [|apply list_elem_of_In].
Qed.
End application_lemmas.

(** The containers of some snapshots. *)
Definition containers_of (snapshots : list discoveredSnapshots)
  : list (discoveredSnapshots * ContainerSnapshot) :=
  flat_map (λ entry, map (pair entry) (dsn_Snapshots entry)) snapshots.

Lemma flat_map_omap {A B} (f : discoveredSnapshots → A → option B) (snaps : discoveredSnapshots → list A)
    snapshots :
  flat_map (λ entry, omap (f entry) (snaps entry)) snapshots =
  omap (λ '(entry, s), f entry s)
    (flat_map (λ entry, map (pair entry) (snaps entry)) snapshots).
Proof.
  induction snapshots as [|e l IH]; [done|]. cbn [flat_map]. rewrite omap_app, IH. f_equal.
  induction (snaps e) as [|s k IHk]; [done|]. cbn. destruct (f e s); by rewrite IHk.
Qed.

(** C39. The list of applications, which is sorted by status, then by name,
    shows exactly the custom applications, with their routes, and each
    container at most once: a running container that has a route, with the
    route; a running container without a route that has a label of ours, as
    unproxied under its node with a reason, which names the conflict when a
    custom application has its host; and no other container. *)
Theorem buildApplications_correct `{GoRuntime} env ric zones snapshots routes customRoutes :
  let apps := buildApplications env ric zones snapshots routes customRoutes in
  Sorted (λ x y, application_less y x = false) apps ∧
  ∃ custom outcomes,
    Forall2 proxied_by
      (List.filter (λ r, String.eqb (r_Origin r) RouteOriginCustomApp) routes) custom ∧
    Forall2 (shown_as routes customRoutes) (containers_of snapshots) outcomes ∧
    apps ≡ₚ custom ++ omap id outcomes.
Proof.
  intros apps. split; [apply sort_slice_sorted, application_less_strict_weak|].
  set (f := snapshot_application env ric zones (routes_by_container routes)
              (list_to_set (map (λ r, ToLower (TrimSpace (r_Host r))) customRoutes))).
  exists (map applicationFromRoute
            (List.filter (λ r, String.eqb (r_Origin r) RouteOriginCustomApp) routes)),
    (map (λ '(entry, s), f entry s) (containers_of snapshots)). split_and!.
  - induction (List.filter _ routes); constructor; [apply applicationFromRoute_proxied|done].
  - induction (containers_of snapshots) as [|[entry s] l IH]; constructor; [|done].
    apply snapshot_application_shown.
  - unfold apps, buildApplications. rewrite sort_slice_perm. apply Permutation_app_head.
    rewrite flat_map_omap. fold f. fold (containers_of snapshots).
    induction (containers_of snapshots) as [|[entry s] l IH]; [done|]. cbn.
    destruct (f entry s); by rewrite IH.
Qed.

(** ** Two limits of the code

    An event of the local runtime refreshes the source named after the
    runtime, while local routes have the source ["server"]: none of them is
    dropped, not even that of a container that is gone. *)
Lemma local_event_keeps_routes `{GoRuntime} env d existing refreshed r :
  ContainerRuntime_Validate (DockerDiscovery_Name env d) = None →
  r ∈ existing → r_Source r = LocalNodeName →
  r ∈ mergeRoutesForSource existing (DockerDiscovery_Name env d) refreshed.
Proof.
  intros Hv Hr Hs. unfold mergeRoutesForSource.
  rewrite elem_of_sort_by, elem_of_app, !list_elem_of_In, List.filter_In, negb_true_iff,
    String.eqb_neq. left. split; [by apply list_elem_of_In|].
  rewrite Hs. intros E. by rewrite <-E in Hv.
Qed.

(** ** Examples *)
#[local] Existing Instance reference_runtime.
#[local] Existing Instance reference_url.

Definition example_custom : DiscoveredRoute :=
  custom_route example_zone
    {| app_Name := "wiki"; app_Icon := ""; app_Domain := "example.com"; app_Zone := "";
       app_Subdomain := "web"; app_TargetURL := "http://10.0.0.5"; app_ExitNode := "" |} "" "".

Definition example_intent (subdomain : string) : RouteIntent :=
  {| in_Managed := true; in_Domain := ""; in_Zone := ""; in_Subdomain := subdomain;
     in_Port := 80%Z; in_Network := "" |}.
Definition example_container_route (subdomain target : string) : DiscoveredRoute :=
  BuildRoute example_zone example_container (example_intent subdomain) target "edge"
    LocalNodeName.

(** The host of the first container is taken by a custom application; its new
    host is the one the second container already has. *)
Example renamed_host_collides :
  map (λ r, (r_Host r, r_TargetURL r))
    (applyCustomRoutes [example_container_route "web" "http://a:80";
                        example_container_route "web-server" "http://b:80"] [example_custom])
  = [("web-server.example.com", "http://b:80"); ("web-server.example.com", "http://a:80");
     ("web.example.com", "http://10.0.0.5")].
Proof. by vm_compute. Qed.

(** A subdomain of two labels is followed by its own second label. *)
Example renamed_two_labels :
  r_Host (renameConflictingRoute (example_container_route "a.b" "http://a:80") [] [])
  = "a.b-server.b.example.com".
Proof. by vm_compute. Qed.
