(* ===== verification/Certs.v ===== *)
(** Certificates ([src/internal/certs]): the store of bundles, the three
    deployers and the deploy service, and the ACME manager.

    The ACME client (lego), the X.509 and PEM codecs and the DNS challenge
    providers are interfaces. *)

From S2P Require Import Prelude GoStrings Paths GoRuntime Core Registry Store Sys Agent.

(** ** The store of bundles ([certs/store]) *)
Record Filesystem := { fs_BasePath : string }.
Definition NewFilesystem (basePath : string) : Filesystem := {| fs_BasePath := basePath |}.

Definition BundlePaths (s : Filesystem) (name : string) : string * string :=
  let base := PathJoin [fs_BasePath s; name] in
  (PathJoin [base; "fullchain.pem"], PathJoin [base; "privkey.pem"]).

(** [tls.X509KeyPair], [x509.ParseCertificate] (the expiry it reads), [pem]
    and elliptic-curve keys. *)
Class Crypto (W : Type) := {
  ec_key : Type;
  X509KeyPair : string → string → result error (list string);
  ParseCertificate : string → result error Time;
  pem_Decode : string → option string;
  ParseECPrivateKey : string → result error ec_key;
  GenerateKey : IO W ec_key;
  MarshalECPrivateKey : ec_key → result error string;
  pem_EncodeToMemory : string → string → string
}.

Section certstore.
Context {W} `{OS W} `{Crypto W} `{GoRuntime}.

Definition Save (s : Filesystem) (name zone : string) (domains : list string)
    (certPEM keyPEM : string) (notAfter : Time) : IO W CertificateBundle :=
  let '(certPath, keyPath) := BundlePaths s name in
  do! _ := MkdirAll (Dir certPath) 493 in
  do! _ := writeAtomically certPath certPEM 420 in
  do! _ := writeAtomically keyPath keyPEM 384 in
  let bundle :=
    {| cb_Name := name; cb_Domain := ""; cb_Zone := zone; cb_Domains := domains;
       cb_DeployTargets := []; cb_CertPath := certPath; cb_KeyPath := keyPath;
       cb_NotAfter := notAfter |} in
  match CertificateBundle_Validate bundle with
  | Some e => io_err e
  | None => io_ret bundle
  end.

Definition ReadBundle (bundle : CertificateBundle) : IO W (string * string) :=
  do! certPEM := ReadFile (cb_CertPath bundle) in
  do! keyPEM := ReadFile (cb_KeyPath bundle) in
  io_ret (certPEM, keyPEM).

(** [tls.LoadX509KeyPair] *)
Definition LoadX509KeyPair (certFile keyFile : string) : IO W (list string) :=
  do! certPEM := ReadFile certFile in
  do! keyPEM := ReadFile keyFile in
  io_lift (X509KeyPair certPEM keyPEM).

Definition LoadTLS (bundle : CertificateBundle) : IO W (list string) :=
  LoadX509KeyPair (cb_CertPath bundle) (cb_KeyPath bundle).
End certstore.

(** ** The deployers *)
Section deployers.
Context {W} `{OS W} `{GoRuntime}.

(** [certs/deploy/local] *)
Definition Local_files (target : DeployTarget) (certPEM keyPEM : string) : IO W () :=
  do! _ := MkdirAll (Dir (dt_CertPath target)) 493 in
  do! _ := MkdirAll (Dir (dt_KeyPath target)) 493 in
  do! _ := writeAtomic (dt_CertPath target) certPEM 420 in
  writeAtomic (dt_KeyPath target) keyPEM 384.

Definition Local_Deploy (target : DeployTarget) (certPEM keyPEM : string) (w : W)
  : W * (string * option error) :=
  if negb (String.eqb (dt_Transport target) DeployTransportLocal) then
    (w, ("", Some (Enew ("target " +:+ quote (dt_Name target) +:+ " is not a local target"))))
  else match Local_files target certPEM keyPEM w with
  | (w, Err e) => (w, ("", Some e))
  | (w, Ok _) =>
      if String.eqb (dt_ReloadCommand target) "" then (w, ("certificate files written", None))
      else
        let '(w, (out, err)) := run_command ["sh"; "-c"; dt_ReloadCommand target] w in
        let msg := TrimSpace out in
        match err with
        | Some e => (w, (if String.eqb msg "" then error_text e else msg, Some e))
        | None => (w, (if String.eqb msg ""
                       then "certificate files written and reload command executed" else msg,
                       None))
        end
  end.

(** [certs/deploy/ssh] *)
Record SSHPlan := {
  sp_CopyCert : list string;
  sp_CopyKey : list string;
  sp_Reload : list string
}.
Record SSHDeployer := { SSHBinary : string; SCPBinary : string }.
Definition New_SSH : SSHDeployer := {| SSHBinary := "ssh"; SCPBinary := "scp" |}.

Definition buildIdentityArgs (privateKeyPath : string) : list string :=
  let privateKeyPath := TrimSpace privateKeyPath in
  if String.eqb privateKeyPath "" then [] else ["-i"; privateKeyPath].

Definition SSH_Plan (d : SSHDeployer) (target : DeployTarget) (bundle : CertificateBundle)
  : result error SSHPlan :=
  if negb (String.eqb (dt_Transport target) DeployTransportSSH) then
    Err (Enew ("target " +:+ quote (dt_Name target) +:+ " is not an ssh target"))
  else
    let ssh := dt_SSH target in
    let port := if (ssh_Port ssh =? 0)%Z then 22%Z else ssh_Port ssh in
    let address := ssh_User ssh +:+ "@" +:+ ssh_Addr ssh in
    let portFlag := Itoa port in
    let identityArgs := buildIdentityArgs (ssh_PrivateKeyPath ssh) in
    let copyBase := [SCPBinary d; "-P"; portFlag] ++ identityArgs in
    Ok {| sp_CopyCert := copyBase ++ [cb_CertPath bundle; address +:+ ":" +:+ dt_CertPath target];
          sp_CopyKey := copyBase ++ [cb_KeyPath bundle; address +:+ ":" +:+ dt_KeyPath target];
          sp_Reload :=
            if negb (String.eqb (dt_ReloadCommand target) "")
            then [SSHBinary d; "-p"; portFlag] ++ identityArgs
                 ++ [address; dt_ReloadCommand target]
            else [] |}.

(** The commands in order, up to the first that fails. *)
Fixpoint run_commands (cmds : list (list string)) (w : W) : W * (string * option error) :=
  match cmds with
  | [] => (w, ("ssh deployment completed", None))
  | cmdArgs :: cmds' =>
      match cmdArgs with
      | [] => run_commands cmds' w
      | _ =>
          let '(w, (out, err)) := run_command cmdArgs w in
          match err with
          | Some e => let msg := TrimSpace out in
                      (w, (if String.eqb msg "" then error_text e else msg, Some e))
          | None => run_commands cmds' w
          end
      end
  end.

Definition SSH_Deploy (d : SSHDeployer) (target : DeployTarget) (bundle : CertificateBundle)
    (w : W) : W * (string * option error) :=
  match SSH_Plan d target bundle with
  | Err e => (w, ("", Some e))
  | Ok plan => run_commands [sp_CopyCert plan; sp_CopyKey plan; sp_Reload plan] w
  end.

(** [certs/deploy/agent]; on an error the result is the zero one, whose
    message the service reports. *)
Context `{HTTP W} `{JSON DeployRequest} `{JSON DeployResult}.

Definition Agent_Deploy (pool : option Pool) (target : DeployTarget)
    (bundle : CertificateBundle) (certPEM keyPEM : string) : IO W DeployResult :=
  if negb (String.eqb (dt_Transport target) DeployTransportAgent) then
    io_err (Enew ("target " +:+ quote (dt_Name target) +:+ " is not an agent target"))
  else match pool with
  | None => io_err (Enew "agent pool is not configured")
  | Some pool =>
      do! client := io_lift (Require_ (adb_Node (dt_Agent target)) pool) in
      DeployCertificate client
        {| dr_BundleName := cb_Name bundle; dr_CertPath := dt_CertPath target;
           dr_KeyPath := dt_KeyPath target; dr_ReloadCommand := dt_ReloadCommand target;
           dr_CertPEM := certPEM; dr_KeyPEM := keyPEM |}
  end.

(** ** The deploy service ([certs/deploy/service.go]) *)
Record DeployService := {
  svc_SSH : SSHDeployer;
  svc_Pool : option Pool;
  svc_Targets : option (list DeployTarget)
}.

Definition New_DeployService (targets : option (list DeployTarget)) (pool : option Pool)
  : DeployService :=
  {| svc_SSH := New_SSH; svc_Pool := pool; svc_Targets := targets |}.

Definition indexedTargets (store : option (list DeployTarget)) : gmap string DeployTarget :=
  match store with
  | None => ∅
  | Some targets => keyed_from dt_Name ∅ targets
  end.

(** What one transport says: its message and its error. *)
Definition deploy_target (s : DeployService) (bundle : CertificateBundle)
    (certPEM keyPEM : string) (target : DeployTarget) (w : W)
  : W * (string * option error) :=
  if String.eqb (dt_Transport target) DeployTransportLocal
  then Local_Deploy target certPEM keyPEM w
  else if String.eqb (dt_Transport target) DeployTransportAgent then
    match Agent_Deploy (svc_Pool s) target bundle certPEM keyPEM w with
    | (w, Ok result) => (w, (res_Message result, None))
    | (w, Err e) => (w, ("", Some e))
    end
  else if String.eqb (dt_Transport target) DeployTransportSSH
  then SSH_Deploy (svc_SSH s) target bundle w
  else let e := Enew ("unsupported deploy transport " +:+ quote (dt_Transport target)) in
       (w, (error_text e, Some e)).

Definition run_of (name : string) (bundle : CertificateBundle) (message : string)
    (err : option error) (startedAt finishedAt : Time) : DeployRun :=
  {| dr_Target := name; dr_Bundle := cb_Name bundle;
     dr_Status := match err with None => "success" | Some _ => "failed" end;
     dr_Message := message; dr_StartedAt := startedAt; dr_FinishedAt := finishedAt |}.

(** One iteration: the run it records and its error. *)
Definition deploy_one (s : DeployService) (bundle : CertificateBundle)
    (certPEM keyPEM name : string) (w : W) : W * (DeployRun * option error) :=
  let '(w, startedAt) := Now w in
  match indexedTargets (svc_Targets s) !! name with
  | None =>
      let e := Enew ("deploy target " +:+ quote name +:+ " not found") in
      (w, (run_of name bundle (error_text e) (Some e) startedAt startedAt, Some e))
  | Some target =>
      let '(w, (message, err)) := deploy_target s bundle certPEM keyPEM target w in
      let '(w, finishedAt) := Now w in
      (w, (run_of name bundle message err startedAt finishedAt, err))
  end.

Fixpoint deploy_all (s : DeployService) (bundle : CertificateBundle)
    (certPEM keyPEM : string) (names : list string) (w : W)
  : W * (list DeployRun * list error) :=
  match names with
  | [] => (w, ([], []))
  | name :: names' =>
      let '(w, (run, err)) := deploy_one s bundle certPEM keyPEM name w in
      let '(w, (runs, errs)) := deploy_all s bundle certPEM keyPEM names' w in
      (w, (run :: runs, match err with Some e => e :: errs | None => errs end))
  end.

Definition DeployBundle (s : DeployService) (bundle : CertificateBundle)
    (targetNames : list string) (w : W) : W * (list DeployRun * option error) :=
  match ReadBundle bundle w with
  | (w, Err e) => (w, ([], Some e))
  | (w, Ok (certPEM, keyPEM)) =>
      let '(w, (runs, errs)) := deploy_all s bundle certPEM keyPEM targetNames w in
      (w, (runs, join_errs errs))
  end.
End deployers.

(** ** The ACME manager ([certs/acme]) *)
Record IssueRequest := {
  iq_BundleName : string;
  iq_Domain : string;
  iq_Domains : list string;
  iq_Email : string;
  iq_DNSProvider : string;
  iq_RenewBefore : Duration;
  iq_DeployTargets : list string
}.

Record Resource := { rsrc_Certificate : string; rsrc_PrivateKey : string }.

(** The DNS challenge providers, and the name of the record a challenge needs. *)
Class Challenges (W : Type) `{Lego} := {
  challenge_Present : challenge_Provider → string → string → string → W → W * option error;
  challenge_CleanUp : challenge_Provider → string → string → string → W → W * option error;
  challenge_Timeout : challenge_Provider → option (Duration * Duration);
  EffectiveFQDN : string → string → string
}.

Record managedDNS01Provider `{Lego} (W : Type) := {
  mp_managedDomain : string;
  mp_resolver : string → IO W string;
  mp_provider : challenge_Provider;
  mp_timeout : option (Duration * Duration)
}.
Arguments mp_managedDomain {_ W} _.
Arguments mp_resolver {_ W} _.
Arguments mp_provider {_ W} _.
Arguments mp_timeout {_ W} _.

Section dns01.
Context {W} `{Challenges W} `{GoRuntime}.

Definition resolveAuthZone (p : managedDNS01Provider W) (domain keyAuth : string)
  : IO W string := λ w,
  let challengeFQDN := TrimSuffix (EffectiveFQDN domain keyAuth) "." in
  if negb (DomainWithinManagedDomain (mp_managedDomain p) challengeFQDN)
  then (w, Err (WrapTargetOutsideManagedDomain (mp_managedDomain p) challengeFQDN))
  else match mp_resolver p challengeFQDN w with
       | (w, Err e) => (w, Err (WrapZoneResolutionFailed challengeFQDN e))
       | (w, Ok authZone) => (w, Ok authZone)
       end.

Definition access_checked (authZone : string) (err : option error) : option error :=
  match err with
  | Some e => if IsAccessDenied (Some e) then Some (WrapZoneAccessDenied authZone e)
              else Some e
  | None => None
  end.

Definition Present (p : managedDNS01Provider W) (domain token keyAuth : string) (w : W)
  : W * option error :=
  match resolveAuthZone p domain keyAuth w with
  | (w, Err e) => (w, Some e)
  | (w, Ok authZone) =>
      let '(w, err) := challenge_Present (mp_provider p) domain token keyAuth w in
      (w, access_checked authZone err)
  end.

Definition CleanUp (p : managedDNS01Provider W) (domain token keyAuth : string) (w : W)
  : W * option error :=
  match resolveAuthZone p domain keyAuth w with
  | (w, Err e) => (w, Some e)
  | (w, Ok authZone) =>
      let '(w, err) := challenge_CleanUp (mp_provider p) domain token keyAuth w in
      (w, access_checked authZone err)
  end.
End dns01.

Record AccountUser {W} `{Crypto W} (registration : Type) := {
  au_Email : string;
  au_Registration : option registration;
  au_Key : ec_key
}.
Arguments au_Email {_ _ _} _.
Arguments au_Registration {_ _ _} _.
Arguments au_Key {_ _ _} _.

(** The ACME client; it keeps a reference to the user, whose registration is
    the one at the time of the call. *)
Class AcmeClient (W : Type) `{Crypto W} `{Lego} := {
  acme_client : Type;
  acme_registration : Type;
  lego_NewClient : AccountUser acme_registration → string → IO W acme_client;
  SetDNS01Provider : acme_client → managedDNS01Provider W → result error acme_client;
  ResolveAccountByKey : acme_client → IO W acme_registration;
  Client_Register : acme_client → IO W acme_registration;
  Client_Obtain : acme_client → AccountUser acme_registration → list string → IO W Resource
}.

Record Manager `{Lego} (W : Type) := {
  mg_DataDir : string;
  mg_CADirURL : string;
  mg_Providers : option (string → options → result error challenge_Provider);
  mg_AuthZones : option (string → IO W string)
}.
Arguments mg_DataDir {_ W} _.
Arguments mg_CADirURL {_ W} _.
Arguments mg_Providers {_ W} _.
Arguments mg_AuthZones {_ W} _.

(** [sanitizeName] and the directory of a bundle. *)
Definition sanitizeName (value : string) : string :=
  let value := Base (Clean value) in
  if String.eqb value "." || String.eqb value "/" then "default" else value.

Fixpoint replace_colons (s : string) : string :=
  match s with
  | EmptyString => EmptyString
  | String c s' => if Ascii.eqb c colon then "__" +:+ replace_colons s'
                   else String c (replace_colons s')
  end.
Definition storageNameForBundle (name : string) : string := replace_colons (sanitizeName name).

Definition zoneDomains (zone : ManagedZone) : list string :=
  z_Domain zone :: (if z_Wildcard zone then ["*." +:+ z_Domain zone] else []).
Definition DomainsForZone `{GoRuntime} (zone : ManagedZone) : list string :=
  sort_by id (zoneDomains zone).

Definition RenewalTime (bundle : CertificateBundle) (renewBefore : Duration) : Time :=
  let renewBefore := if (renewBefore =? 0)%Z then DefaultCertificateRenewBefore
                     else renewBefore in
  (cb_NotAfter bundle + wrap64 (- renewBefore))%Z.

Definition ShouldRenew (bundle : CertificateBundle) (now : Time) (renewBefore : Duration)
  : bool :=
  if (cb_NotAfter bundle =? 0)%Z then true
  else negb (now <? RenewalTime bundle renewBefore)%Z.

Section acme.
Context {W} `{OS W} `{Crypto W} `{Challenges W} `{!AcmeClient W} `{GoRuntime}
  (NewNSResolver : string → IO W string).

Definition NewManager (dataDir : string)
    (providers : option (string → options → result error challenge_Provider)) : Manager W :=
  {| mg_DataDir := dataDir; mg_CADirURL := ""; mg_Providers := providers;
     mg_AuthZones := Some NewNSResolver |}.

Definition request_of_plan (zone : ManagedZone) (plan : CertificatePlan) : IssueRequest :=
  {| iq_BundleName := plan_Name plan; iq_Domain := z_Domain zone;
     iq_Domains := plan_Domains plan; iq_Email := cp_Email (z_Certificate zone);
     iq_DNSProvider := cp_DNSProvider (z_Certificate zone);
     iq_RenewBefore := plan_RenewBefore plan; iq_DeployTargets := plan_DeployTargets plan |}.

(** [Validate] fills in the defaults of the local copy of the zone. *)
Definition BuildRequests (zone : ManagedZone) : result error (list IssueRequest) :=
  if negb (cp_Enabled (z_Certificate zone))
  then Err (Enew "certificate policy is disabled")
  else match ManagedZone_Validate zone with
       | (_, Some e) => Err e
       | (zone, None) =>
           let? plans := CertificatePlans zone in
           Ok (map (request_of_plan zone) plans)
       end.

Definition cb_with_NotAfter (t : Time) (b : CertificateBundle) : CertificateBundle :=
  {| cb_Name := cb_Name b; cb_Domain := cb_Domain b; cb_Zone := cb_Zone b;
     cb_Domains := cb_Domains b; cb_DeployTargets := cb_DeployTargets b;
     cb_CertPath := cb_CertPath b; cb_KeyPath := cb_KeyPath b; cb_NotAfter := t |}.

Definition loadBundleMetadata (bundle : CertificateBundle) : IO W CertificateBundle :=
  do! chain := LoadX509KeyPair (cb_CertPath bundle) (cb_KeyPath bundle) in
  match chain with
  | [] => io_err (Enew ("bundle " +:+ quote (cb_Name bundle) +:+ " has no certificate data"))
  | leaf :: _ =>
      do! notAfter := io_lift (ParseCertificate leaf) in
      io_ret (cb_with_NotAfter notAfter bundle)
  end.

Definition notAfter (certPEM : string) : result error Time :=
  match pem_Decode certPEM with
  | None => Err (Enew "invalid certificate PEM")
  | Some block => ParseCertificate block
  end.

Definition loadECPrivateKey (path : string) : IO W ec_key :=
  do! data := ReadFile path in
  match pem_Decode data with
  | None => io_err (Enew "invalid pem data")
  | Some block => io_lift (ParseECPrivateKey block)
  end.

Definition saveECPrivateKey (path : string) (key : ec_key) : IO W () :=
  do! der := io_lift (MarshalECPrivateKey key) in
  WriteFile path (pem_EncodeToMemory "EC PRIVATE KEY" der) 384.

Definition account_key_path (m : Manager W) (email : string) : string :=
  PathJoin [mg_DataDir m; "acme"; sanitizeName email +:+ ".key"].

(** The stored key, or a new one if there is none. *)
Definition load_or_create_key (keyPath : string) : IO W ec_key := λ w,
  match loadECPrivateKey keyPath w with
  | (w, Ok key) => (w, Ok key)
  | (w, Err e) =>
      if negb (errors_is ErrNotExist e) then (w, Err e)
      else (do! key := GenerateKey in
            do! _ := saveECPrivateKey keyPath key in
            io_ret key) w
  end.

Definition loadOrCreateUser (m : Manager W) (email : string)
  : IO W (AccountUser acme_registration) :=
  let keyPath := account_key_path m email in
  do! _ := MkdirAll (Dir keyPath) 448 in
  do! key := load_or_create_key keyPath in
  io_ret {| au_Email := email; au_Registration := None; au_Key := key |}.

Definition wrapDNS01Provider (m : Manager W) (managedDomain : string)
    (provider : challenge_Provider) : managedDNS01Provider W :=
  {| mp_managedDomain := managedDomain;
     mp_resolver := match mg_AuthZones m with Some r => r | None => NewNSResolver end;
     mp_provider := provider; mp_timeout := challenge_Timeout provider |}.

Definition registered (client : acme_client) (user : AccountUser acme_registration)
  : IO W (AccountUser acme_registration) :=
  match au_Registration user with
  | Some _ => io_ret user
  | None =>
      do! reg := (λ w, match ResolveAccountByKey client w with
                       | (w, Ok reg) => (w, Ok reg)
                       | (w, Err _) => Client_Register client w
                       end) in
      io_ret {| au_Email := au_Email user; au_Registration := Some reg;
                au_Key := au_Key user |}
  end.

Definition obtain (m : Manager W) (req : IssueRequest) (providerCfg : DDNSProviderConfig)
  : IO W Resource :=
  do! user := loadOrCreateUser m (iq_Email req) in
  do! client := lego_NewClient user (mg_CADirURL m) in
  match mg_Providers m with
  | None => io_err (Enew "acme dns provider registry is not configured")
  | Some newChallenge =>
      do! dnsProvider := io_lift (newChallenge (prov_Type providerCfg) (prov_Options providerCfg)) in
      do! client := io_lift
        (SetDNS01Provider client (wrapDNS01Provider m (iq_Domain req) dnsProvider)) in
      do! user := registered client user in
      Client_Obtain client user (iq_Domains req)
  end.

Definition certs_dir (m : Manager W) : string := PathJoin [mg_DataDir m; "certs"].

Definition obtainAndSave (m : Manager W) (bundleName : string) (req : IssueRequest)
    (providerCfg : DDNSProviderConfig) : IO W CertificateBundle :=
  let fs := NewFilesystem (certs_dir m) in
  do! cert := obtain m req providerCfg in
  do! expiry := io_lift (notAfter (rsrc_Certificate cert)) in
  do! saved := Save fs (storageNameForBundle bundleName) (iq_Domain req) (iq_Domains req)
                 (rsrc_Certificate cert) (rsrc_PrivateKey cert) expiry in
  let saved :=
    {| cb_Name := bundleName; cb_Domain := iq_Domain req; cb_Zone := cb_Zone saved;
       cb_Domains := cb_Domains saved; cb_DeployTargets := iq_DeployTargets req;
       cb_CertPath := cb_CertPath saved; cb_KeyPath := cb_KeyPath saved;
       cb_NotAfter := cb_NotAfter saved |} in
  match CertificateBundle_Validate saved with
  | Some e => io_err e
  | None => io_ret saved
  end.

Definition request_bundle (m : Manager W) (req : IssueRequest) : CertificateBundle :=
  let path (file : string) :=
    PathJoin [mg_DataDir m; "certs"; storageNameForBundle (iq_BundleName req); file] in
  {| cb_Name := iq_BundleName req; cb_Domain := iq_Domain req; cb_Zone := iq_Domain req;
     cb_Domains := iq_Domains req; cb_DeployTargets := iq_DeployTargets req;
     cb_CertPath := path "fullchain.pem"; cb_KeyPath := path "privkey.pem";
     cb_NotAfter := 0%Z |}.

Definition EnsureCertificate (m : Manager W) (req : IssueRequest)
    (providerCfg : DDNSProviderConfig) : IO W CertificateBundle := λ w,
  let '(w, loaded) := loadBundleMetadata (request_bundle m req) w in
  match loaded with
  | Ok bundle =>
      let '(w, now) := Now w in
      if negb (ShouldRenew bundle now (iq_RenewBefore req)) then (w, Ok bundle)
      else obtainAndSave m (iq_BundleName req) req providerCfg w
  | Err e =>
      if negb (errors_is ErrNotExist e) then (w, Err e)
      else obtainAndSave m (iq_BundleName req) req providerCfg w
  end.

Definition ForceRenewCertificate (m : Manager W) (req : IssueRequest)
    (providerCfg : DDNSProviderConfig) : IO W CertificateBundle :=
  obtainAndSave m (iq_BundleName req) req providerCfg.
End acme.

(** ** Lemmas: the files of a bundle *)
Lemma plain_component_file (f : string) :
  no_slash f = true → f ≠ "" → f ≠ "." → f ≠ ".." → plain_component f.
Proof. intros. unfold plain_component. by split_and!. Qed.

Lemma last_chars_ne (a b u v : string) (c d : ascii) (s : string) :
  c ≠ d → a +:+ u +:+ String c s ≠ b +:+ v +:+ String d s.
Proof.
  intros Hcd. rewrite <-!app_assoc_str. generalize (a +:+ u) as x, (b +:+ v) as y.
  destruct (string_last s) as [->|(t & e & ->)].
  - intros x y E. apply app_last_char in E as [_ ?]. done.
  - intros x y E.
    assert (∀ (x y : string), x +:+ String c t = y +:+ String d t → False) as Hgen.
    { clear E. intros x' y' E.
      assert (String.length x' = String.length y') as Hl.
      { apply (f_equal String.length) in E. rewrite !length_app_str in E. simpl in E. lia. }
      apply (f_equal (str_drop (String.length x'))) in E. rewrite str_drop_app, Hl, str_drop_app in E.
      by injection E. }
    assert (String.length x = String.length y) as Hl.
    { apply (f_equal String.length) in E. rewrite !length_app_str in E. simpl in E. lia. }
    apply (f_equal (str_drop (String.length x))) in E. rewrite str_drop_app, Hl, str_drop_app in E.
    by injection E.
Qed.

Lemma BundlePaths_apart s name :
  paths_apart (BundlePaths s name).1 (BundlePaths s name).2.
Proof.
  unfold BundlePaths, paths_apart. simpl. set (base := PathJoin [fs_BasePath s; name]).
  destruct (PathJoin_suffix base "fullchain.pem") as [t1 ->]; [by apply plain_component_file|].
  destruct (PathJoin_suffix base "privkey.pem") as [t2 ->]; [by apply plain_component_file|].
  rewrite !app_assoc_str. split_and!.
  - apply (last_chars_ne t1 t2 "fullchai" "privke" "n" "y" ".pem"). done.
  - apply (last_chars_ne t1 t2 "fullchain.pe" "privkey.pem.tm" "m" "p" ""). done.
  - apply (last_chars_ne t1 t2 "fullchain.pem.tm" "privkey.pe" "p" "m" ""). done.
Qed.

Section save_lemmas.
Context {W} `{OSLaws W} `{GoRuntime}.

Lemma Save_pair s name zone domains certPEM keyPEM notAfter (w w' : W) r :
  Save s name zone domains certPEM keyPEM notAfter w = (w', r) →
  ∃ ok,
    pair_replaced (BundlePaths s name).1 (BundlePaths s name).2 certPEM keyPEM w w' ok ∧
    (∀ b, r = Ok b → ok = true ∧ cb_CertPath b = (BundlePaths s name).1 ∧
       cb_KeyPath b = (BundlePaths s name).2 ∧ cb_Name b = name ∧ cb_Zone b = zone ∧
       cb_Domains b = domains ∧ cb_NotAfter b = notAfter).
Proof.
  unfold Save. pose proof (BundlePaths_apart s name) as Hapart.
  destruct (BundlePaths s name) as [cert key] eqn:Eb. simpl in *. unfold io_bind.
  pose proof (MkdirAll_tree (Dir cert) 493 w) as Hm.
  destruct (MkdirAll _ _ w) as [w1 [[]|e]]; simpl in Hm;
    [|intros [= <- <-]; exists false; split; [by apply pair_replaced_refl|done]].
  destruct (writeAtomically cert certPEM 420 w1) as [w2 r2] eqn:E2.
  apply writeAtomically_replaces in E2.
  destruct r2 as [[]|e2].
  - destruct (writeAtomically key keyPEM 384 w2) as [w3 r3] eqn:E3.
    apply writeAtomically_replaces in E3. simpl in E2.
    assert (pair_replaced cert key certPEM keyPEM w w3 (is_ok r3)) as Hp
      by (by apply (pair_replaced_intro cert key certPEM keyPEM 420 w w1 w2 w3 true (is_ok r3))).
    destruct r3 as [[]|e3]; [|intros [= <- <-]; by eexists].
    destruct (CertificateBundle_Validate _); intros [= <- <-]; exists true; (split; [done|]);
      intros b Hb; simplify_eq/=; done.
  - intros [= <- <-]. exists false. split; [|done].
    by apply (pair_replaced_intro cert key certPEM keyPEM 420 w w1 w2 w2 false false).
Qed.
End save_lemmas.

(** C11. Saving a bundle, whatever fails, leaves each of its two files with its
    old or its new contents, the key new only if the certificate is, and
    touches no other file but their temporary ones; a bundle that was saved
    names the two files just written, and reading it gives back the
    certificate and the key. *)
Theorem Save_atomic {W} `{OSLaws W} `{GoRuntime} s name zone domains certPEM keyPEM notAfter
    (w : W) :
  let '(w', r) := Save s name zone domains certPEM keyPEM notAfter w in
  ∃ ok,
    pair_replaced (BundlePaths s name).1 (BundlePaths s name).2 certPEM keyPEM w w' ok ∧
    (∀ b, r = Ok b →
       ok = true ∧ cb_Name b = name ∧ cb_Zone b = zone ∧ cb_Domains b = domains ∧
       cb_NotAfter b = notAfter ∧ f_mode <$> os_tree w' !! cb_KeyPath b =
         Some (match os_tree w !! (cb_KeyPath b +:+ ".tmp") with
               | Some f => f_mode f | None => created_mode W 384 end) ∧
       ∀ w'' pem, ReadBundle b w' = (w'', Ok pem) → pem = (certPEM, keyPEM)).
Proof.
  destruct (Save _ _ _ _ _ _ _ w) as [w' r] eqn:E.
  destruct (Save_pair _ _ _ _ _ _ _ _ _ _ E) as (ok & Hp & Hb). exists ok. split; [done|].
  intros b ->. destruct (Hb b eq_refl) as (-> & Hc & Hk & Hn & Hz & Hd & Hna).
  rewrite <-Hc, <-Hk in Hp. destruct (pair_ok _ _ _ _ _ _ _ Hp eq_refl) as [Hcert Hkey].
  split_and!; [done..| |].
  - by rewrite Hkey.
  - intros w'' [c k]. unfold ReadBundle. intros Hr.
    apply io_bind_Ok in Hr as (w1 & c' & Hr1 & Hr). apply io_bind_Ok in Hr as (w2 & k' & Hr2 & Hr).
    injection Hr as _ <- <-.
    pose proof (ReadFile_tree (cb_CertPath b) w') as Ht. rewrite Hr1 in Ht. simpl in Ht.
    apply ReadFile_Ok in Hr1 as (f1 & Hf1 & <-). apply ReadFile_Ok in Hr2 as (f2 & Hf2 & <-).
    rewrite Ht, Hkey in Hf2. injection Hf2 as <-. rewrite Hf1 in Hcert. simpl in Hcert.
    by injection Hcert as ->.
Qed.

(** ** One run per target *)
Section deploy_lemmas.
Context {W} `{OS W} `{GoRuntime} `{HTTP W} `{JSON DeployRequest} `{JSON DeployResult}.

Definition run_ok (run : DeployRun) : bool := String.eqb (dr_Status run) "success".

Lemma deploy_one_spec s bundle certPEM keyPEM name (w : W) :
  let '(_, (run, err)) := deploy_one s bundle certPEM keyPEM name w in
  dr_Target run = name ∧ dr_Bundle run = cb_Name bundle ∧
  run_ok run = (match err with None => true | Some _ => false end) ∧
  (indexedTargets (svc_Targets s) !! name = None → run_ok run = false).
Proof.
  unfold deploy_one. destruct (Now w) as [w1 startedAt].
  destruct (indexedTargets _ !! name) as [target|]; [|done].
  destruct (deploy_target _ _ _ _ _ w1) as [w2 [message err]].
  destruct (Now w2) as [w3 finishedAt]. split_and!; [done..| |done]. by destruct err.
Qed.

Lemma deploy_all_spec s bundle certPEM keyPEM names (w : W) :
  let '(_, (runs, errs)) := deploy_all s bundle certPEM keyPEM names w in
  map dr_Target runs = names ∧
  (∀ run, run ∈ runs → dr_Bundle run = cb_Name bundle ∧
     (indexedTargets (svc_Targets s) !! dr_Target run = None → run_ok run = false)) ∧
  length errs = length (List.filter (λ run, negb (run_ok run)) runs).
Proof.
  revert w. induction names as [|name names IH]; intros w; cbn [deploy_all].
  { split_and!; [done| |done]. intros run Hrun. by apply elem_of_nil in Hrun. }
  pose proof (deploy_one_spec s bundle certPEM keyPEM name w) as Hone.
  destruct (deploy_one _ _ _ _ name w) as [w1 [run err]].
  destruct Hone as (Hn & Hb & Hok & Hnf). specialize (IH w1).
  destruct (deploy_all _ _ _ _ names w1) as [w2 [runs errs]].
  destruct IH as (Hns & Hall & Hlen). split_and!.
  - simpl. by rewrite Hn, Hns.
  - intros run' [->|Hin]%elem_of_cons; [by rewrite Hn|by apply Hall].
  - simpl. rewrite Hok. destruct err; simpl; by rewrite <-Hlen.
Qed.
End deploy_lemmas.

Lemma filter_nil {A} (p : A → bool) l : List.filter p l = [] ↔ ∀ x, x ∈ l → p x = false.
Proof.
  induction l as [|y l IH]; simpl.
  - split; [|done]. intros _ x Hx. by apply elem_of_nil in Hx.
  - setoid_rewrite elem_of_cons. destruct (p y) eqn:E.
    + split; [done|]. intros Hall. rewrite Hall in E by (by left). done.
    + rewrite IH. split; [|by auto]. intros Hall x [->|Hx]; [done|by apply Hall].
Qed.

(** Deploying a bundle reports one run per target name, in order, whatever
    the other targets answer; an unknown target is a failed run; there is an
    error exactly if a run has failed.  If the bundle cannot be read nothing is
    deployed. *)
Theorem DeployBundle_runs {W} `{OS W} `{GoRuntime} `{HTTP W} `{JSON DeployRequest}
    `{JSON DeployResult} s bundle names (w : W) :
  let '(w', (runs, err)) := DeployBundle s bundle names w in
  match ReadBundle bundle w with
  | (w1, Err e) => w' = w1 ∧ runs = [] ∧ err = Some e
  | (_, Ok _) =>
      map dr_Target runs = names ∧
      (∀ run, run ∈ runs → dr_Bundle run = cb_Name bundle ∧
         (indexedTargets (svc_Targets s) !! dr_Target run = None → dr_Status run ≠ "success")) ∧
      (err = None ↔ ∀ run, run ∈ runs → dr_Status run = "success")
  end.
Proof.
  unfold DeployBundle. destruct (ReadBundle bundle w) as [w1 [[certPEM keyPEM]|e]]; [|done].
  pose proof (deploy_all_spec s bundle certPEM keyPEM names w1) as Hall.
  destruct (deploy_all _ _ _ _ names w1) as [w2 [runs errs]].
  destruct Hall as (Hn & Hruns & Hlen). split_and!; [done| |].
  - intros run Hin. destruct (Hruns run Hin) as [Hb Hnf]. split; [done|].
    intros Hnone. apply Hnf in Hnone. unfold run_ok in Hnone. by beq.
  - rewrite join_errs_None. transitivity (List.filter (λ run, negb (run_ok run)) runs = []).
    { rewrite <-!length_zero_iff_nil. by rewrite Hlen. }
    rewrite filter_nil. unfold run_ok. setoid_rewrite negb_false_iff.
    by setoid_rewrite String.eqb_eq.
Qed.

(** ** The DNS challenge *)

(** A call to the provider behind the guard: [outer] calls it only for a name
    inside the domain whose authoritative zone is known, and returns its
    error, or one with the zone when the provider denies access. *)
Definition guarded {W} `{Challenges W} `{GoRuntime} (p : managedDNS01Provider W)
    (fqdn : string) (call outer : W → W * option error) (w : W) : Prop :=
  (within_domain (mp_managedDomain p) fqdn →
   match mp_resolver p fqdn w with
   | (w1, Ok zone) =>
       let '(w2, err) := call w1 in
       ∃ err', outer w = (w2, err') ∧
         (IsAccessDenied err = false → err' = err) ∧
         (∀ e, err = Some e → IsAccessDenied err = true →
          err' = Some (WrapZoneAccessDenied zone e) ∧
          errors_is ErrDNSZoneAccessDenied (WrapZoneAccessDenied zone e) = true)
   | (w1, Err _) =>
       ∃ e, outer w = (w1, Some e) ∧ errors_is ErrDNSZoneResolutionFailed e = true
   end) ∧
  (¬ within_domain (mp_managedDomain p) fqdn →
   ∃ e, outer w = (w, Some e) ∧ errors_is ErrTargetOutsideManagedDomain e = true).

Lemma resolveAuthZone_guards {W} `{Challenges W} `{GoRuntime} (p : managedDNS01Provider W)
    domain keyAuth call (w : W) :
  guarded p (TrimSuffix (EffectiveFQDN domain keyAuth) ".") call
    (λ w, match resolveAuthZone p domain keyAuth w with
          | (w, Err e) => (w, Some e)
          | (w, Ok zone) => let '(w, err) := call w in (w, access_checked zone err)
          end) w.
Proof.
  unfold guarded, resolveAuthZone. rewrite <-DomainWithinManagedDomain_spec.
  set (fqdn := TrimSuffix _ _).
  destruct (DomainWithinManagedDomain (mp_managedDomain p) fqdn); simpl.
  - split; [intros _|done]. destruct (mp_resolver p fqdn w) as [w1 [zone|e]]; [|by eexists].
    destruct (call w1) as [w2 err]. eexists. split; [done|].
    unfold access_checked. destruct err as [e|]; [|done].
    destruct (IsAccessDenied (Some e)); naive_solver.
  - split; [done|]. intros _. by eexists.
Qed.

(** C40. The ACME manager asks a DNS provider to write or remove a challenge
    record only for a name inside the domain of the request whose
    authoritative zone is known: any other call fails with the error that says
    why, and the provider is not called; an answer that denies access is
    reported with the zone, any other answer as it is. *)
Theorem challenge_guarded {W} `{Challenges W} `{GoRuntime} (p : managedDNS01Provider W)
    domain token keyAuth (w : W) :
  let fqdn := TrimSuffix (EffectiveFQDN domain keyAuth) "." in
  guarded p fqdn (challenge_Present (mp_provider p) domain token keyAuth)
    (Present p domain token keyAuth) w ∧
  guarded p fqdn (challenge_CleanUp (mp_provider p) domain token keyAuth)
    (CleanUp p domain token keyAuth) w.
Proof. split; apply resolveAuthZone_guards. Qed.

(** ** Keeping a certificate *)

(** What the certificate authority returns is a certificate and its key, the
    leaf first. *)
Class AcmeLaws (W : Type) `{AcmeClient W} := {
  Obtain_pair client user domains w w' r :
    Client_Obtain client user domains w = (w', Ok r) →
    ∃ leaf chain, X509KeyPair (rsrc_Certificate r) (rsrc_PrivateKey r) = Ok (leaf :: chain) ∧
                  pem_Decode (rsrc_Certificate r) = Some leaf
}.

Section acme_lemmas.
Context {W} `{HOS : OS W} `{HC : Crypto W} `{HL : Lego} `{HCh : !Challenges W}
  `{HA : !AcmeClient W} `{HR : GoRuntime} (NewNSResolver : string → IO W string).

(** The manager saves a bundle where it later looks for it. *)
Lemma request_bundle_paths (m : Manager W) (req : IssueRequest) :
  BundlePaths (NewFilesystem (certs_dir m)) (storageNameForBundle (iq_BundleName req)) =
  (cb_CertPath (request_bundle m req), cb_KeyPath (request_bundle m req)).
Proof.
  unfold BundlePaths, request_bundle, certs_dir. simpl.
  rewrite !PathJoin_app. cbn [app]. by rewrite !PathJoin_app.
Qed.

Lemma obtain_Ok (m : Manager W) req cfg w w' r :
  obtain NewNSResolver m req cfg w = (w', Ok r) →
  ∃ client user w0, Client_Obtain client user (iq_Domains req) w0 = (w', Ok r).
Proof.
  unfold obtain. intros Ho. apply io_bind_Ok in Ho as (w1 & user & _ & Ho).
  apply io_bind_Ok in Ho as (w2 & client & _ & Ho). destruct (mg_Providers m); [|done].
  apply io_bind_Ok in Ho as (w3 & pr & _ & Ho). apply io_bind_Ok in Ho as (w4 & client' & _ & Ho).
  apply io_bind_Ok in Ho as (w5 & user' & _ & Ho). eauto.
Qed.

(** What a successful issue leaves behind. *)
Lemma obtainAndSave_Ok `{!OSLaws W} (m : Manager W) req cfg w w1 b :
  obtainAndSave NewNSResolver m (iq_BundleName req) req cfg w = (w1, Ok b) →
  ∃ r expiry client user w0 w0',
    Client_Obtain client user (iq_Domains req) w0 = (w0', Ok r) ∧
    notAfter (rsrc_Certificate r) = Ok expiry ∧
    b = cb_with_NotAfter expiry (request_bundle m req) ∧
    f_data <$> os_tree w1 !! cb_CertPath b = Some (rsrc_Certificate r) ∧
    f_data <$> os_tree w1 !! cb_KeyPath b = Some (rsrc_PrivateKey r).
Proof.
  unfold obtainAndSave. intros Ho. apply io_bind_Ok in Ho as (w2 & r & Hr & Ho).
  apply obtain_Ok in Hr as (client & user & w0 & Hr).
  apply io_bind_Ok in Ho as (w3 & expiry & He & Ho). injection He as <- He.
  apply io_bind_Ok in Ho as (w4 & saved & Hs & Ho).
  destruct (Save_pair _ _ _ _ _ _ _ _ _ _ Hs) as (ok & Hp & Hb).
  destruct (Hb saved eq_refl) as (-> & Hc & Hk & _ & Hz & Hd & Hna).
  rewrite request_bundle_paths in Hp, Hc, Hk. simpl in Hc, Hk.
  destruct (pair_ok _ _ _ _ _ _ _ Hp eq_refl) as [Hcert Hkey].
  destruct (CertificateBundle_Validate _); [done|]. injection Ho as <- <-.
  exists r, expiry, client, user, w0, w2. rewrite Hc, Hk, Hz, Hd, Hna. split_and!; try done.
  simpl in *. by rewrite Hkey.
Qed.
End acme_lemmas.

(** C10. A certificate that was issued is kept until it is due: when issuing
    has returned a bundle, the next check of the same request finds it again
    where it was saved, with the same expiry, and issues a new one only if the
    renewal time has come; otherwise it returns the same bundle and writes
    nothing. *)
Theorem EnsureCertificate_keeps {W} `{HOS : OS W} `{HC : Crypto W} `{HL : Lego}
    `{HCh : !Challenges W} `{HA : !AcmeClient W} `{HR : GoRuntime} `{!OSLaws W} `{!AcmeLaws W}
    NewNSResolver (m : Manager W) req cfg (w w1 : W) b :
  (∀ p f w, os_tree w !! p = Some f → ReadFile p w = (w, Ok (f_data f))) →
  obtainAndSave NewNSResolver m (iq_BundleName req) req cfg w = (w1, Ok b) →
  EnsureCertificate NewNSResolver m req cfg w1 =
  (let '(w2, now) := Now w1 in
   if (cb_NotAfter b =? 0)%Z || (RenewalTime b (iq_RenewBefore req) <=? now)%Z
   then obtainAndSave NewNSResolver m (iq_BundleName req) req cfg w2
   else (w2, Ok b)).
Proof.
  intros Hread Ho.
  destruct (obtainAndSave_Ok _ _ _ _ _ _ _ Ho)
    as (r & expiry & client & user & w0 & w0' & Hr & He & Hb & Hc & Hk).
  destruct (Obtain_pair _ _ _ _ _ _ Hr) as (leaf & chain & Hpair & Hpem).
  unfold notAfter in He. rewrite Hpem in He.
  apply fmap_Some in Hc as (fc & Hfc & Ec). apply fmap_Some in Hk as (fk & Hfk & Ek).
  assert (loadBundleMetadata (request_bundle m req) w1 = (w1, Ok b)) as Hload.
  { unfold loadBundleMetadata, LoadX509KeyPair, io_bind, io_lift.
    rewrite Hb in Hfc, Hfk. cbn [cb_with_NotAfter cb_CertPath cb_KeyPath] in Hfc, Hfk.
    rewrite (Hread _ _ _ Hfc), (Hread _ _ _ Hfk), <-Ec, <-Ek, Hpair, He. by rewrite Hb. }
  unfold EnsureCertificate. rewrite Hload. destruct (Now w1) as [w2 now].
  unfold ShouldRenew. rewrite Z.leb_antisym.
  destruct (cb_NotAfter b =? 0)%Z, (now <? RenewalTime b (iq_RenewBefore req))%Z; done.
Qed.

(** ** Limits of the code

    The check reads the expiry of the stored pair and nothing else of it: two
    requests that differ in their domains only are both answered from it, the
    bundle carrying the domains of the request. *)
Lemma EnsureCertificate_ignores_domains {W} `{HOS : OS W} `{HC : Crypto W} `{HL : Lego}
    `{HCh : !Challenges W} `{HA : !AcmeClient W} `{HR : GoRuntime}
    NewNSResolver (m : Manager W) req ds cfg (w w1 w2 : W) b now :
  let req' := {| iq_BundleName := iq_BundleName req; iq_Domain := iq_Domain req;
                 iq_Domains := ds; iq_Email := iq_Email req;
                 iq_DNSProvider := iq_DNSProvider req; iq_RenewBefore := iq_RenewBefore req;
                 iq_DeployTargets := iq_DeployTargets req |} in
  loadBundleMetadata (request_bundle m req) w = (w1, Ok b) → Now w1 = (w2, now) →
  ShouldRenew b now (iq_RenewBefore req) = false →
  ∃ b', EnsureCertificate NewNSResolver m req' cfg w = (w2, Ok b') ∧ cb_Domains b' = ds ∧
        cb_NotAfter b' = cb_NotAfter b.
Proof.
  intros req' Hl Hn Hs. unfold EnsureCertificate.
  assert (∃ b', loadBundleMetadata (request_bundle m req') w = (w1, Ok b') ∧
                cb_Domains b' = ds ∧ cb_NotAfter b' = cb_NotAfter b) as (b' & Hl' & Hd & Hna).
  { revert Hl. unfold loadBundleMetadata.
    change (cb_CertPath (request_bundle m req')) with (cb_CertPath (request_bundle m req)).
    change (cb_KeyPath (request_bundle m req')) with (cb_KeyPath (request_bundle m req)).
    unfold io_bind at 1 3.
    destruct (LoadX509KeyPair _ _ w) as [w3 [[|leaf chain]|e]]; [done| |done].
    unfold io_bind, io_lift, io_ret.
    destruct (ParseCertificate leaf); [|done]. intros [= <- <-]. by eexists. }
  rewrite Hl', Hn.
  assert (ShouldRenew b' now (iq_RenewBefore req) = false) as Hs'
    by (revert Hs; unfold ShouldRenew, RenewalTime; by rewrite Hna).
  change (iq_RenewBefore req') with (iq_RenewBefore req). rewrite Hs'. by exists b'.
Qed.

(** Two bundles whose names end alike are stored in the same directory. *)
Example storage_names_collide :
  storageNameForBundle "a.org:prod/web" = storageNameForBundle "b.org:test/web".
Proof. by vm_compute. Qed.

(** A name can lead out of the directory of certificates. *)
Example storage_name_escapes :
  (BundlePaths (NewFilesystem "data/certs") (storageNameForBundle "a.org:x/../..")).1
  = "data/fullchain.pem".
Proof. by vm_compute. Qed.

(** ** Examples: a certificate authority on the simulated host *)
#[local] Existing Instance reference_runtime.
#[local] Existing Instance reference_lego.

#[local] Instance sim_crypto : Crypto SimOS := {
  ec_key := string;
  X509KeyPair c k := Ok [c];
  ParseCertificate der := Ok (90 * 24 * hour)%Z;
  pem_Decode s := Some s;
  ParseECPrivateKey s := Ok s;
  GenerateKey w := (w, Ok "key");
  MarshalECPrivateKey k := Ok k;
  pem_EncodeToMemory kind der := der
}.
#[local] Instance sim_challenges : Challenges SimOS := {
  challenge_Present p domain token keyAuth w := (w, None);
  challenge_CleanUp p domain token keyAuth w := (w, None);
  challenge_Timeout p := None;
  EffectiveFQDN domain keyAuth := "_acme-challenge." +:+ domain +:+ "."
}.
#[local] Instance sim_acme : AcmeClient SimOS := {
  acme_client := ();
  acme_registration := ();
  lego_NewClient user dir w := (w, Ok ());
  SetDNS01Provider c p := Ok ();
  ResolveAccountByKey c w := (w, Ok ());
  Client_Register c w := (w, Ok ());
  Client_Obtain c user domains w :=
    (w, Ok {| rsrc_Certificate := "CERT"; rsrc_PrivateKey := "KEY" |})
}.
#[local] Instance sim_acme_laws : AcmeLaws SimOS.
Proof. split. intros client user domains w w' r [= _ <-]. by exists "CERT", []. Qed.

Definition example_manager : Manager SimOS :=
  {| mg_DataDir := "/data"; mg_CADirURL := "";
     mg_Providers := Some (λ t o, NewDNSProviderConfig t []); mg_AuthZones := None |}.
Definition example_request : IssueRequest :=
  {| iq_BundleName := "home:main"; iq_Domain := "example.com"; iq_Domains := ["example.com"];
     iq_Email := "me@example.com"; iq_DNSProvider := "cf"; iq_RenewBefore := 0%Z;
     iq_DeployTargets := [] |}.
Definition example_provider : DDNSProviderConfig :=
  {| prov_Ref := "cf"; prov_Type := "cloudflare"; prov_Options := ∅ |}.
Definition no_zone : string → IO SimOS string := λ _ w, (w, Err (Enew "no zone")).

Lemma sim_read_ok (p : string) (f : file) (w : SimOS) :
  os_tree w !! p = Some f → ReadFile p w = (w, Ok (f_data f)).
Proof. simpl. unfold sim_read. by intros ->. Qed.

Definition issued : SimOS :=
  (obtainAndSave no_zone example_manager "home:main" example_request example_provider
     empty_host).1.
Definition issued_bundle : CertificateBundle :=
  {| cb_Name := "home:main"; cb_Domain := "example.com"; cb_Zone := "example.com";
     cb_Domains := ["example.com"]; cb_DeployTargets := [];
     cb_CertPath := "/data/certs/home__main/fullchain.pem";
     cb_KeyPath := "/data/certs/home__main/privkey.pem";
     cb_NotAfter := (90 * 24 * hour)%Z |}.

Lemma issued_Ok :
  obtainAndSave no_zone example_manager (iq_BundleName example_request) example_request
    example_provider empty_host = (issued, Ok issued_bundle).
Proof. vm_compute. reflexivity. Qed.

Lemma EnsureCertificate_keeps_witness :
  EnsureCertificate no_zone example_manager example_request example_provider issued =
  (let '(w2, now) := Now issued in
   if (cb_NotAfter issued_bundle =? 0)%Z || (RenewalTime issued_bundle 0 <=? now)%Z
   then obtainAndSave no_zone example_manager "home:main" example_request example_provider w2
   else (w2, Ok issued_bundle)).
Proof.
  exact (EnsureCertificate_keeps no_zone example_manager example_request example_provider
           empty_host issued issued_bundle sim_read_ok issued_Ok).
Defined.

Lemma Save_atomic_witness :
  let '(w', r) := Save (NewFilesystem "/data/certs") "a" "example.com" ["example.com"]
                    "CERT" "KEY" 5%Z empty_host in
  ∃ ok,
    pair_replaced (BundlePaths (NewFilesystem "/data/certs") "a").1
      (BundlePaths (NewFilesystem "/data/certs") "a").2 "CERT" "KEY" empty_host w' ok ∧
    (∀ b, r = Ok b →
       ok = true ∧ cb_Name b = "a" ∧ cb_Zone b = "example.com" ∧
       cb_Domains b = ["example.com"] ∧ cb_NotAfter b = 5%Z ∧
       f_mode <$> os_tree w' !! cb_KeyPath b =
         Some (match os_tree empty_host !! (cb_KeyPath b +:+ ".tmp") with
               | Some f => f_mode f | None => created_mode SimOS 384 end) ∧
       ∀ w'' pem, ReadBundle b w' = (w'', Ok pem) → pem = ("CERT", "KEY")).
Proof.
  exact (Save_atomic (NewFilesystem "/data/certs") "a" "example.com" ["example.com"]
           "CERT" "KEY" 5%Z empty_host).
Defined.

(** A failure between the two writes of a renewal leaves a new certificate
    with the old key. *)
Example interrupted_renewal :
  let host := {| sim_tree := {[ "c/a/fullchain.pem" := {| f_data := "OLD"; f_mode := 420 |};
                                "c/a/privkey.pem" := {| f_data := "OLDKEY"; f_mode := 384 |} ]};
                 sim_faults := [false; false; false; true]; sim_commands := [];
                 sim_clock := 1%Z |} in
  let w := (Save (NewFilesystem "c") "a" "z" ["z"] "NEW" "NEWKEY" 5%Z host).1 in
  f_data <$> sim_tree w !! "c/a/fullchain.pem" = Some "NEW" ∧
  f_data <$> sim_tree w !! "c/a/privkey.pem" = Some "OLDKEY".
Proof. by vm_compute. Qed.
