(* ===== verification/Mutations.v ===== *)
(** What the API changes in a configuration
    ([src/internal/platform/api/server.go]): how the bodies of its requests
    are decoded and normalised, and the changes its handlers make to the
    configuration before it is validated and stored. *)

From S2P Require Import Prelude GoStrings GoRuntime Core Registry Config Sys.

(** ** The API's errors *)

(** [BadRequest], [Conflict] and [NotFound]: the new error does not wrap the
    one it is made from, and an empty message is no error. *)
Definition BadRequest (e : error) : error := Etyped RequestError (error_text e) None.
Definition Conflict (message : string) : option error :=
  if String.eqb message "" then None else Some (Etyped ConflictError message None).
Definition NotFound (message : string) : option error :=
  if String.eqb message "" then None else Some (Etyped NotFoundError message None).

(** [return err] in a function that changes [a]. *)
Definition refuse {A} (e : option error) (a : A) : result error A :=
  match e with Some e => Err e | None => Ok a end.

(** ** Normal forms *)

Definition compactStrings (values : list string) : list string :=
  omap (λ value, let trimmed := TrimSpace value in
                 if negb (String.eqb trimmed "") then Some trimmed else None) values.

Fixpoint firstNonEmpty (values : list string) : string :=
  match values with
  | [] => ""
  | value :: values' =>
      let trimmed := TrimSpace value in
      if negb (String.eqb trimmed "") then trimmed else firstNonEmpty values'
  end.

Definition normalizeBundlePolicy (bundle : CertificateBundlePolicy) : CertificateBundlePolicy :=
  {| bp_Name := TrimSpace (bp_Name bundle); bp_Domains := compactStrings (bp_Domains bundle);
     bp_RenewBefore := bp_RenewBefore bundle;
     bp_DeployTargets := compactStrings (bp_DeployTargets bundle) |}.
Definition normalizeBundlePolicies (bundles : list CertificateBundlePolicy)
  : list CertificateBundlePolicy := map normalizeBundlePolicy bundles.

(** [net.SplitHostPort], without the texts of its errors: the last colon
    separates the port; a host with colons stands in brackets. *)
Fixpoint cut_last (sep : ascii) (s : string) : option (string * string) :=
  match s with
  | EmptyString => None
  | String c s' =>
      match cut_last sep s' with
      | Some (a, b) => Some (String c a, b)
      | None => if Ascii.eqb c sep then Some (EmptyString, s') else None
      end
  end.
Definition has_char (c : ascii) (s : string) : bool := negb (str_forall (λ d, negb (Ascii.eqb d c)) s).
Definition open_bracket : ascii := "[".
Definition close_bracket : ascii := "]".

Definition SplitHostPort (hostport : string) : option (string * string) :=
  match hostport with
  | String c rest =>
      if Ascii.eqb c open_bracket then
        match Cut close_bracket rest with
        | Some (host, String d port) =>
            (* the colon after the bracket is the last one *)
            if Ascii.eqb d colon && negb (has_char colon port) &&
               negb (has_char open_bracket (host +:+ port)) && negb (has_char close_bracket port)
            then Some (host, port) else None
        | _ => None
        end
      else match cut_last colon hostport with
           | Some (host, port) =>
               if has_char colon host || has_char open_bracket hostport ||
                  has_char close_bracket hostport
               then None else Some (host, port)
           | None => None
           end
  | EmptyString => None
  end.

Definition normalizeSSHHostPort (addr : string) (port : Z) : string * Z :=
  if String.eqb addr "" then ("", port)
  else match SplitHostPort addr with
       | None => (addr, port)
       | Some (host, portText) =>
           let port := match Atoi portText with
                       | Some parsedPort => if (port =? 0)%Z then parsedPort else port
                       | None => port
                       end in
           (TrimSet (λ c, Ascii.eqb c open_bracket || Ascii.eqb c close_bracket) host, port)
       end.

(** ** Decoders *)
Section decoders.
Context `{GoRuntime} `{NetURL} (env : Env).

(** What a decoder does to the decoded value. *)
Definition normal_DeployTarget (t : DeployTarget) : DeployTarget :=
  let '(addr, port) := normalizeSSHHostPort (TrimSpace (ssh_Addr (dt_SSH t))) (ssh_Port (dt_SSH t)) in
  {| dt_Name := TrimSpace (dt_Name t); dt_Transport := dt_Transport t; dt_Local := dt_Local t;
     dt_Agent := {| adb_Node := TrimSpace (adb_Node (dt_Agent t)) |};
     dt_SSH := {| ssh_Addr := addr; ssh_User := TrimSpace (ssh_User (dt_SSH t));
                  ssh_Port := port;
                  ssh_PrivateKeyPath := TrimSpace (ssh_PrivateKeyPath (dt_SSH t)) |};
     dt_CertPath := TrimSpace (dt_CertPath t); dt_KeyPath := TrimSpace (dt_KeyPath t);
     dt_ReloadCommand := TrimSpace (dt_ReloadCommand t) |}.
Definition decodeDeployTarget `{JSON DeployTarget} (body : string) : result error DeployTarget :=
  let? target := json_Decode body in Ok (normal_DeployTarget target).

Definition normal_CustomApp (app : CustomApp) : CustomApp :=
  let domain := TrimSpace (app_Domain app) in
  let zone := TrimSpace (app_Zone app) in
  let domain := if String.eqb domain "" then zone else domain in
  {| app_Name := TrimSpace (app_Name app); app_Icon := TrimSpace (app_Icon app);
     app_Domain := domain; app_Zone := if String.eqb zone "" then domain else zone;
     app_Subdomain := TrimSpace (app_Subdomain app); app_ExitNode := TrimSpace (app_ExitNode app);
     app_TargetURL := TrimSpace (app_TargetURL app) |}.
Definition decodeCustomApp `{JSON CustomApp} (body : string) : result error CustomApp :=
  let? app := json_Decode body in
  let app := normal_CustomApp app in
  match CustomApp_Validate app with Some e => Err e | None => Ok app end.

(** The trimmed options; of two keys that trim to the same the one ranged
    over last stays. *)
Definition trim_options (options : gmap string string) : gmap string string :=
  foldl (λ m '(key, value),
           let trimmedKey := TrimSpace key in
           if String.eqb trimmedKey "" then m else <[trimmedKey := TrimSpace value]> m)
        ∅ (map_range options).
Definition normal_DDNSProvider (p : DDNSProviderConfig) : DDNSProviderConfig :=
  {| prov_Ref := TrimSpace (prov_Ref p); prov_Type := TrimSpace (prov_Type p);
     prov_Options := trim_options (prov_Options p) |}.
Definition decodeDDNSProvider `{JSON DDNSProviderConfig} (body : string)
  : result error DDNSProviderConfig :=
  let? provider := json_Decode body in Ok (normal_DDNSProvider provider).

Definition normal_RuntimeSource (s : RuntimeSource) : RuntimeSource :=
  Normalized env
    {| rs_DisplayName := TrimSpace (rs_DisplayName s); rs_Runtime := TrimSpace (rs_Runtime s);
       rs_Endpoint := TrimSpace (rs_Endpoint s); rs_Network := TrimSpace (rs_Network s) |}.
Definition decodeRuntimeSource `{JSON RuntimeSource} (body : string)
  : result error RuntimeSource :=
  let? source := json_Decode body in Ok (normal_RuntimeSource source).

Definition normal_Agent (a : AgentNode) : AgentNode :=
  {| an_Name := TrimSpace (an_Name a); an_DisplayName := TrimSpace (an_DisplayName a);
     an_Addr := TrimSpace (an_Addr a); an_Runtime := an_Runtime a;
     an_SocketPath := TrimSpace (an_SocketPath a); an_Version := an_Version a;
     an_Status := an_Status a; an_LastError := an_LastError a;
     an_LastCheckedAt := an_LastCheckedAt a; an_Resources := an_Resources a |}.
Definition decodeAgent `{JSON AgentNode} (body : string) : result error AgentNode :=
  let? agent := json_Decode body in Ok (normal_Agent agent).

Definition decodeBundlePolicy `{JSON CertificateBundlePolicy} (body : string)
  : result error CertificateBundlePolicy :=
  let? bundle := json_Decode body in Ok (normalizeBundlePolicy bundle).

Definition normal_Zone (zone : ManagedZone) : ManagedZone :=
  let name := TrimSpace (z_Name zone) in
  let domain := TrimSpace (z_Domain zone) in
  let d := z_DDNS zone in
  let c := z_Certificate zone in
  {| z_Name := if String.eqb name "" then domain else name; z_Domain := domain;
     z_Default := z_Default zone; z_Wildcard := z_Wildcard zone;
     z_DDNS := {| ddns_Enabled := ddns_Enabled d;
                  ddns_ProviderRefs := compactStrings (ddns_ProviderRefs d);
                  ddns_IPv4 := ddns_IPv4 d; ddns_IPv6 := ddns_IPv6 d;
                  ddns_Wildcard := ddns_Wildcard d; ddns_TTL := ddns_TTL d |};
     z_Certificate := {| cp_Enabled := cp_Enabled c; cp_Email := TrimSpace (cp_Email c);
                         cp_DNSProvider := TrimSpace (cp_DNSProvider c);
                         cp_RenewBefore := cp_RenewBefore c;
                         cp_DeployTargets := compactStrings (cp_DeployTargets c);
                         cp_Bundles := normalizeBundlePolicies (cp_Bundles c) |} |}.
Definition decodeZone `{JSON ManagedZone} (body : string) : result error ManagedZone :=
  let? zone := json_Decode body in Ok (normal_Zone zone).
End decoders.

(** ** Looking up *)

Definition findConfigZone (cfg : Config) (name : string) : option (ManagedZone * nat) :=
  match find_index (λ zone, String.eqb (z_Domain zone) name || String.eqb (z_Name zone) name)
                   (c_Zones cfg) with
  | Some index => (λ zone, (zone, index)) <$> c_Zones cfg !! index
  | None => None
  end.

Definition findZoneBundle (zone : ManagedZone) (bundleName : string)
  : option (CertificateBundlePolicy * nat) :=
  let bundleName := TrimSpace bundleName in
  let bundles := cp_Bundles (z_Certificate zone) in
  match find_index (λ bundle, String.eqb (TrimSpace (bp_Name bundle)) bundleName) bundles with
  | Some index => (λ bundle, (bundle, index)) <$> bundles !! index
  | None => None
  end.

Section sorting.
Context `{GoRuntime}.
Definition sortBundlePolicies (zoneName : string) (bundles : list CertificateBundlePolicy)
  : list CertificateBundlePolicy :=
  sort_by (λ b, QualifiedBundleName zoneName (bp_Name b)) bundles.
End sorting.

(** ** One table: the loops that the handlers share *)
Section entries.
Context `{GoRuntime} {A : Type} (key sortKey : A → string).

(** Refuse an entry with the same key, append, sort. *)
Definition create_entry (conflict : string) (x : A) (l : list A) : result error (list A) :=
  if existsb (λ existing, String.eqb (key existing) (key x)) l
  then refuse (Conflict conflict) l
  else Ok (sort_by sortKey (l ++ [x])).

(** Replace the first entry of the name, unless [check] objects, and sort. *)
Definition update_entry (name notFound : string) (check : option error) (x : A) (l : list A)
  : result error (list A) :=
  match find_index (λ existing, String.eqb (key existing) name) l with
  | None => refuse (NotFound notFound) l
  | Some index =>
      match check with
      | Some e => Err e
      | None => Ok (sort_by sortKey (<[index := x]> l))
      end
  end.

(** Remove the first entry of the name. *)
Definition delete_entry (name notFound : string) (l : list A) : result error (list A) :=
  match find_index (λ existing, String.eqb (key existing) name) l with
  | None => refuse (NotFound notFound) l
  | Some index => Ok (delete_at index l)
  end.
End entries.

Definition no_rename (newName name what : string) : option error :=
  if String.eqb newName name then None
  else Some (BadRequest (Enew ("renaming " +:+ what +:+ " is not supported"))).

(** ** The changes of the handlers *)
Section changes.
Context `{GoRuntime} (env : Env).

Definition on_apps (f : list CustomApp → result error (list CustomApp)) (cfg : Config)
  : result error Config := let? apps := f (c_Apps cfg) in Ok (c_with_Apps apps cfg).
Definition on_zones (f : list ManagedZone → result error (list ManagedZone)) (cfg : Config)
  : result error Config := let? zones := f (c_Zones cfg) in Ok (c_with_Zones zones cfg).
Definition on_providers (f : list DDNSProviderConfig → result error (list DDNSProviderConfig))
    (cfg : Config) : result error Config :=
  let? providers := f (c_DDNSProviders cfg) in Ok (c_with_DDNSProviders providers cfg).
Definition on_agents (f : list AgentNode → result error (list AgentNode)) (cfg : Config)
  : result error Config := let? agents := f (c_Agents cfg) in Ok (c_with_Agents agents cfg).
Definition on_targets (f : list DeployTarget → result error (list DeployTarget)) (cfg : Config)
  : result error Config :=
  let? targets := f (c_DeployTargets cfg) in Ok (c_with_DeployTargets targets cfg).

Definition create_app (app : CustomApp) : Config → result error Config :=
  on_apps (create_entry app_Name app_Name
    ("custom app " +:+ quote (app_Name app) +:+ " already exists") app).
Definition update_app (name : string) (app : CustomApp) (cfg : Config) : result error Config :=
  let check :=
    if negb (String.eqb (app_Name app) name) &&
       existsb (λ existing, String.eqb (app_Name existing) (app_Name app)) (c_Apps cfg)
    then Conflict ("custom app " +:+ quote (app_Name app) +:+ " already exists") else None in
  on_apps (update_entry app_Name app_Name name
    ("custom app " +:+ quote name +:+ " not found") check app) cfg.
Definition delete_app (name : string) : Config → result error Config :=
  on_apps (delete_entry app_Name name ("custom app " +:+ quote name +:+ " not found")).

Definition create_zone (zone : ManagedZone) : Config → result error Config :=
  on_zones (create_entry z_Domain z_Domain
    ("domain " +:+ quote (z_Domain zone) +:+ " already exists") zone).
Definition update_zone (name : string) (zone : ManagedZone) : Config → result error Config :=
  on_zones (update_entry z_Name z_Domain name ("domain " +:+ quote name +:+ " not found")
    (no_rename (z_Name zone) name "domains") zone).
Definition delete_zone (name : string) : Config → result error Config :=
  on_zones (delete_entry z_Name name ("domain " +:+ quote name +:+ " not found")).

Definition create_provider (p : DDNSProviderConfig) : Config → result error Config :=
  on_providers (create_entry prov_Ref prov_Ref
    ("ddns provider " +:+ quote (prov_Ref p) +:+ " already exists") p).
Definition update_provider (ref : string) (p : DDNSProviderConfig)
  : Config → result error Config :=
  on_providers (update_entry prov_Ref prov_Ref ref
    ("ddns provider " +:+ quote ref +:+ " not found")
    (no_rename (prov_Ref p) ref "ddns providers") p).
Definition delete_provider (ref : string) : Config → result error Config :=
  on_providers (delete_entry prov_Ref ref ("ddns provider " +:+ quote ref +:+ " not found")).

Definition create_agent (agent : AgentNode) : Config → result error Config :=
  on_agents (create_entry an_Name an_Name
    ("agent " +:+ quote (an_Name agent) +:+ " already exists") agent).
Definition update_agent (name : string) (agent : AgentNode) : Config → result error Config :=
  on_agents (update_entry an_Name an_Name name ("agent " +:+ quote name +:+ " not found")
    (no_rename (an_Name agent) name "agents") agent).
Definition delete_agent (name : string) : Config → result error Config :=
  on_agents (delete_entry an_Name name ("agent " +:+ quote name +:+ " not found")).
(** The node as an approval stores it: never checked. *)
Definition approved (pending : AgentNode) : AgentNode :=
  {| an_Name := an_Name pending; an_DisplayName := an_DisplayName pending;
     an_Addr := an_Addr pending; an_Runtime := an_Runtime pending;
     an_SocketPath := an_SocketPath pending; an_Version := an_Version pending;
     an_Status := ""; an_LastError := ""; an_LastCheckedAt := 0%Z;
     an_Resources := an_Resources pending |}.
Definition approve_agent (pending : AgentNode) : Config → result error Config :=
  create_agent (approved pending).

Definition create_target (target : DeployTarget) : Config → result error Config :=
  on_targets (create_entry dt_Name dt_Name
    ("deploy target " +:+ quote (dt_Name target) +:+ " already exists") target).
Definition update_target (name : string) (target : DeployTarget)
  : Config → result error Config :=
  on_targets (update_entry dt_Name dt_Name name
    ("deploy target " +:+ quote name +:+ " not found")
    (no_rename (dt_Name target) name "deploy targets") target).
Definition delete_target (name : string) : Config → result error Config :=
  on_targets (delete_entry dt_Name name ("deploy target " +:+ quote name +:+ " not found")).

Definition set_runtime (source : RuntimeSource) (cfg : Config) : result error Config :=
  Ok (c_with_Server (sv_with_Runtime (Normalized env source) (c_Server cfg)) cfg).

(** The bundles of a zone of the configuration, changed. *)
Definition on_bundles (zoneName : string)
    (f : ManagedZone → list CertificateBundlePolicy →
         result error (list CertificateBundlePolicy)) (cfg : Config) : result error Config :=
  match findConfigZone cfg zoneName with
  | None => refuse (NotFound ("domain " +:+ quote zoneName +:+ " not found")) cfg
  | Some (zone, index) =>
      let? bundles := f zone (cp_Bundles (z_Certificate zone)) in
      let zone := z_with_Certificate (cp_with_Bundles bundles (z_Certificate zone)) zone in
      Ok (c_with_Zones (<[index := zone]> (c_Zones cfg)) cfg)
  end.

Definition bundle_message (zone : ManagedZone) (bundleName text : string) : string :=
  "domain " +:+ quote (z_Domain zone) +:+ " certificate bundle " +:+
  quote (QualifiedBundleName (z_Name zone) bundleName) +:+ text.

Definition create_bundle (zoneName : string) (bundle : CertificateBundlePolicy)
  : Config → result error Config :=
  on_bundles zoneName (λ zone bundles,
    match findZoneBundle zone (bp_Name bundle) with
    | Some _ => refuse (Conflict (bundle_message zone (bp_Name bundle) " already exists")) bundles
    | None => Ok (sortBundlePolicies (z_Name zone) (bundles ++ [bundle]))
    end).
Definition update_bundle (zoneName bundleName : string) (bundle : CertificateBundlePolicy)
  : Config → result error Config :=
  on_bundles zoneName (λ zone bundles,
    match findZoneBundle zone bundleName with
    | None => refuse (NotFound (bundle_message zone bundleName " not found")) bundles
    | Some (_, bundleIndex) =>
        match no_rename (bp_Name bundle) bundleName "certificate bundles" with
        | Some e => Err e
        | None => Ok (sortBundlePolicies (z_Name zone) (<[bundleIndex := bundle]> bundles))
        end
    end).
Definition delete_bundle (zoneName bundleName : string) : Config → result error Config :=
  on_bundles zoneName (λ zone bundles,
    match findZoneBundle zone bundleName with
    | None => refuse (NotFound (bundle_message zone bundleName " not found")) bundles
    | Some (_, bundleIndex) => Ok (delete_at bundleIndex bundles)
    end).
End changes.

(** * Properties *)

(** ** One table *)
Section entries_props.
Context `{GoRuntime} {A : Type} (key sortKey : A → string).

Lemma existsb_key x l :
  existsb (λ y, String.eqb (key y) x) l = true ↔ x ∈ map key l.
Proof.
  clear sortKey.
  rewrite existsb_exists, list_elem_of_In, in_map_iff. setoid_rewrite String.eqb_eq. naive_solver.
Qed.

Lemma create_entry_spec conflict x l :
  conflict ≠ "" →
  match create_entry key sortKey conflict x l with
  | Ok l' => key x ∉ map key l ∧ l' ≡ₚ x :: l
  | Err e => key x ∈ map key l ∧ errors_as ConflictError e = true
  end.
Proof.
  intros Hc. unfold create_entry. destruct (existsb _ l) eqn:E.
  - apply existsb_key in E. unfold Conflict. apply String.eqb_neq in Hc. rewrite Hc. done.
  - split; [|by rewrite sort_by_perm, Permutation_app_comm].
    intros Hin. apply existsb_key in Hin. congruence.
Qed.

(** The first entry of a name, taken out of its list. *)
Lemma find_index_split name l :
  match find_index (λ y, String.eqb (key y) name) l with
  | Some i => ∃ old, l !! i = Some old ∧ key old = name ∧
                     ∀ y, y ∈ take i l → key y ≠ name
  | None => name ∉ map key l
  end.
Proof.
  clear sortKey. induction l as [|x l IH]; simpl; [apply not_elem_of_nil|].
  destruct (String.eqb (key x) name) eqn:E; beq.
  - exists x. split_and!; [done|done|]. intros y Hy. by apply elem_of_nil in Hy.
  - destruct (find_index _ l) as [i|]; simpl.
    + destruct IH as (old & Hold & Hk & Hfirst). exists old. split_and!; [done|done|].
      intros y [->|Hy]%elem_of_cons; [done|by apply Hfirst].
    + rewrite elem_of_cons. naive_solver.
Qed.

Lemma insert_perm {B} i (x old : B) l :
  l !! i = Some old → <[i := x]> l ≡ₚ x :: delete_at i l.
Proof.
  revert i. induction l as [|y l IH]; intros [|i]; simpl; try done.
  intros Hi. rewrite (IH i Hi). unfold delete_at. simpl. apply Permutation_swap.
Qed.

Lemma update_entry_spec name notFound check x l :
  notFound ≠ "" →
  match update_entry key sortKey name notFound check x l with
  | Ok l' => check = None ∧ ∃ i old, l !! i = Some old ∧ key old = name ∧
      (∀ y, y ∈ take i l → key y ≠ name) ∧ l' ≡ₚ x :: delete_at i l
  | Err e => name ∉ map key l ∧ errors_as NotFoundError e = true ∨
             name ∈ map key l ∧ check = Some e
  end.
Proof.
  intros Hn. unfold update_entry. pose proof (find_index_split name l) as Hs.
  destruct (find_index _ l) as [i|].
  - destruct Hs as (old & Hi & Hk & Hfirst). destruct check as [e|].
    + right. split; [|done]. rewrite <-Hk. apply list_elem_of_fmap_2.
      by apply list_elem_of_lookup_2 in Hi.
    + split; [done|]. exists i, old. split_and!; [done..|].
      rewrite sort_by_perm. by eapply insert_perm.
  - unfold NotFound. apply String.eqb_neq in Hn. rewrite Hn. by left.
Qed.

Lemma delete_entry_spec name notFound l :
  notFound ≠ "" →
  match delete_entry key name notFound l with
  | Ok l' => ∃ i old, l !! i = Some old ∧ key old = name ∧
      (∀ y, y ∈ take i l → key y ≠ name) ∧ l' = delete_at i l
  | Err e => name ∉ map key l ∧ errors_as NotFoundError e = true
  end.
Proof.
  intros Hn. unfold delete_entry. pose proof (find_index_split name l) as Hs.
  destruct (find_index _ l) as [i|].
  - destruct Hs as (old & Hi & Hk & Hfirst). by exists i, old.
  - unfold NotFound. apply String.eqb_neq in Hn. by rewrite Hn.
Qed.
End entries_props.

(** ** The changes of the handlers *)
Section change_specs.
Context {A : Type} (key : A → string) (get : Config → list A)
  (put : list A → Config → Config).

Definition created (x : A) (cfg : Config) (r : result error Config) : Prop :=
  match r with
  | Ok cfg' => key x ∉ map key (get cfg) ∧ ∃ l, l ≡ₚ x :: get cfg ∧ cfg' = put l cfg
  | Err e => key x ∈ map key (get cfg) ∧ errors_as ConflictError e = true
  end.

(** The first entry of the name is replaced, if [allowed]; [t] is the error
    otherwise. *)
Definition replaced (name : string) (allowed : Prop) (t : error_type) (x : A) (cfg : Config)
    (r : result error Config) : Prop :=
  match r with
  | Ok cfg' => allowed ∧ ∃ i old l, get cfg !! i = Some old ∧ key old = name ∧
      (∀ y, y ∈ take i (get cfg) → key y ≠ name) ∧
      l ≡ₚ x :: delete_at i (get cfg) ∧ cfg' = put l cfg
  | Err e => name ∉ map key (get cfg) ∧ errors_as NotFoundError e = true ∨
             name ∈ map key (get cfg) ∧ ¬ allowed ∧ errors_as t e = true
  end.

Definition removed (name : string) (cfg : Config) (r : result error Config) : Prop :=
  match r with
  | Ok cfg' => ∃ i old, get cfg !! i = Some old ∧ key old = name ∧
      (∀ y, y ∈ take i (get cfg) → key y ≠ name) ∧ cfg' = put (delete_at i (get cfg)) cfg
  | Err e => name ∉ map key (get cfg) ∧ errors_as NotFoundError e = true
  end.

Context `{GoRuntime} (sortKey : A → string).

(** What the five tables share. *)
Definition on_table (f : list A → result error (list A)) (cfg : Config) : result error Config :=
  let? l := f (get cfg) in Ok (put l cfg).

Lemma created_ok conflict x cfg :
  conflict ≠ "" → created x cfg (on_table (create_entry key sortKey conflict x) cfg).
Proof.
  intros Hc. unfold on_table, created.
  pose proof (create_entry_spec key sortKey conflict x (get cfg) Hc) as Hs.
  destruct (create_entry _ _ _ _ _) as [l|e]; [|done]. destruct Hs as [Hn Hl].
  split; [done|]. by exists l.
Qed.

Lemma replaced_ok name notFound check allowed t x cfg :
  notFound ≠ "" → (check = None ↔ allowed) → (∀ e, check = Some e → errors_as t e = true) →
  replaced name allowed t x cfg
    (on_table (update_entry key sortKey name notFound check x) cfg).
Proof.
  intros Hn Ha He. unfold on_table, replaced.
  pose proof (update_entry_spec key sortKey name notFound check x (get cfg) Hn) as Hs.
  destruct (update_entry _ _ _ _ _ _ _) as [l|e].
  - destruct Hs as (Hcheck & i & old & ? & ? & ? & ?). split; [by apply Ha|].
    by exists i, old, l.
  - destruct Hs as [?|[? Hcheck]]; [by left|right]. split_and!; [done| |by apply He].
    rewrite <-Ha. congruence.
Qed.

Lemma removed_ok name notFound cfg :
  notFound ≠ "" → removed name cfg (on_table (delete_entry key name notFound) cfg).
Proof.
  intros Hn. unfold on_table, removed.
  pose proof (delete_entry_spec key name notFound (get cfg) Hn) as Hs.
  destruct (delete_entry _ _ _ _) as [l|e]; [|done].
  destruct Hs as (i & old & ? & ? & ? & ->). by exists i, old.
Qed.
End change_specs.

Lemma no_rename_None newName name what : no_rename newName name what = None ↔ newName = name.
Proof. unfold no_rename. destruct (String.eqb newName name) eqn:E; beq; naive_solver. Qed.

Lemma no_rename_Some newName name what e :
  no_rename newName name what = Some e → errors_as RequestError e = true.
Proof. unfold no_rename. case_split; [done|]. by intros [= <-]. Qed.

(** C19. What the API changes.  Creating an application, zone, provider, agent
    or deploy target adds exactly that entry, unless one with its name (for a
    zone, its domain) exists, which is a conflict.  Updating replaces the first
    entry of the name; only an application may be renamed by it, to a name no
    other has.  Deleting removes exactly the first entry of the name.  A name
    that no entry has is reported as not found.  The rest of the configuration
    stays as it is. *)
Theorem changes_correct `{GoRuntime} cfg name :
  (∀ app, created app_Name c_Apps c_with_Apps app cfg (create_app app cfg) ∧
     replaced app_Name c_Apps c_with_Apps name
       (app_Name app = name ∨ app_Name app ∉ map app_Name (c_Apps cfg)) ConflictError app cfg
       (update_app name app cfg)) ∧
  (∀ z, created z_Domain c_Zones c_with_Zones z cfg (create_zone z cfg) ∧
     replaced z_Name c_Zones c_with_Zones name (z_Name z = name) RequestError z cfg
       (update_zone name z cfg)) ∧
  (∀ p, created prov_Ref c_DDNSProviders c_with_DDNSProviders p cfg (create_provider p cfg) ∧
     replaced prov_Ref c_DDNSProviders c_with_DDNSProviders name (prov_Ref p = name)
       RequestError p cfg (update_provider name p cfg)) ∧
  (∀ a, created an_Name c_Agents c_with_Agents a cfg (create_agent a cfg) ∧
     replaced an_Name c_Agents c_with_Agents name (an_Name a = name) RequestError a cfg
       (update_agent name a cfg)) ∧
  (∀ t, created dt_Name c_DeployTargets c_with_DeployTargets t cfg (create_target t cfg) ∧
     replaced dt_Name c_DeployTargets c_with_DeployTargets name (dt_Name t = name) RequestError
       t cfg (update_target name t cfg)) ∧
  removed app_Name c_Apps c_with_Apps name cfg (delete_app name cfg) ∧
  removed z_Name c_Zones c_with_Zones name cfg (delete_zone name cfg) ∧
  removed prov_Ref c_DDNSProviders c_with_DDNSProviders name cfg (delete_provider name cfg) ∧
  removed an_Name c_Agents c_with_Agents name cfg (delete_agent name cfg) ∧
  removed dt_Name c_DeployTargets c_with_DeployTargets name cfg (delete_target name cfg).
Proof.
  split_and!; try (by apply removed_ok); intros x; (split; [by apply created_ok|]);
    apply replaced_ok; try done; try apply no_rename_None; try apply no_rename_Some.
  - rewrite <-(existsb_key app_Name).
    destruct (String.eqb (app_Name x) name) eqn:E; beq; simpl; [naive_solver|].
    destruct (existsb _ _); [|naive_solver]. split; [done|]. intros [?|Hn]; [done|].
    by destruct Hn.
  - intros e. case_split; [|done]. unfold Conflict. by intros [= <-].
Qed.

(** ** Normal forms *)

(** Trimmed and not empty. *)
Definition proper (s : string) : Prop := trimmed s ∧ s ≠ "".

Lemma compactStrings_proper l s : s ∈ compactStrings l → proper s.
Proof.
  unfold compactStrings. intros (v & _ & Hv)%list_elem_of_omap. cbv zeta in Hv.
  destruct (String.eqb (TrimSpace v) "") eqn:E; [done|]. injection Hv as <-. beq.
  split; [apply trimmed_TrimSpace|done].
Qed.

Record policy_normal (b : CertificateBundlePolicy) : Prop := {
  pn_name : trimmed (bp_Name b);
  pn_domains : ∀ d, d ∈ bp_Domains b → proper d;
  pn_targets : ∀ t, t ∈ bp_DeployTargets b → proper t
}.

Lemma normalizeBundlePolicy_normal b : policy_normal (normalizeBundlePolicy b).
Proof.
  split; [apply trimmed_TrimSpace|apply compactStrings_proper..].
Qed.

Record zone_normal (z : ManagedZone) : Prop := {
  zn_domain : trimmed (z_Domain z);
  zn_name : trimmed (z_Name z);
  zn_named : z_Domain z ≠ "" → z_Name z ≠ "";
  zn_refs : ∀ ref, ref ∈ ddns_ProviderRefs (z_DDNS z) → proper ref;
  zn_email : trimmed (cp_Email (z_Certificate z));
  zn_dns : trimmed (cp_DNSProvider (z_Certificate z));
  zn_targets : ∀ t, t ∈ cp_DeployTargets (z_Certificate z) → proper t;
  zn_bundles : ∀ b, b ∈ cp_Bundles (z_Certificate z) → policy_normal b
}.

Lemma normal_Zone_normal z : zone_normal (normal_Zone z).
Proof.
  split; simpl; try apply trimmed_TrimSpace; try apply compactStrings_proper.
  - case_split; apply trimmed_TrimSpace.
  - destruct (String.eqb (TrimSpace (z_Name z)) "") eqn:E; beq; by intros.
  - intros b (b0 & -> & _)%list_elem_of_fmap. apply normalizeBundlePolicy_normal.
Qed.

Record app_normal (a : CustomApp) : Prop := {
  apn_name : proper (app_Name a);
  apn_icon : trimmed (app_Icon a);
  apn_domain : proper (app_Domain a);
  apn_zone : proper (app_Zone a);
  apn_subdomain : proper (app_Subdomain a);
  apn_exit : trimmed (app_ExitNode a);
  apn_target : proper (app_TargetURL a)
}.

Lemma CustomApp_Validate_None `{GoRuntime} `{NetURL} a :
  CustomApp_Validate a = None →
  TrimSpace (app_Name a) ≠ "" ∧ TrimSpace (app_Subdomain a) ≠ "" ∧
  TrimSpace (app_TargetURL a) ≠ "" ∧
  (TrimSpace (app_Domain a) ≠ "" ∨ TrimSpace (TrimSpace (app_Zone a)) ≠ "").
Proof.
  unfold CustomApp_Validate. destruct (String.eqb (TrimSpace (app_Domain a)) "") eqn:Ed;
    cbn [app_with_Domain app_Name app_Domain app_Subdomain app_TargetURL];
  destruct (String.eqb (TrimSpace (app_Name a)) "") eqn:En; try done.
  - destruct (String.eqb (TrimSpace (TrimSpace (app_Zone a))) "") eqn:Ez; [done|].
    destruct (String.eqb (TrimSpace (app_Subdomain a)) "") eqn:Es; [done|].
    destruct (String.eqb (TrimSpace (app_TargetURL a)) "") eqn:Et; [done|]. intros _. beq.
    split_and!; [done..|by right].
  - rewrite Ed. destruct (String.eqb (TrimSpace (app_Subdomain a)) "") eqn:Es; [done|].
    destruct (String.eqb (TrimSpace (app_TargetURL a)) "") eqn:Et; [done|]. intros _. beq.
    split_and!; [done..|by left].
Qed.

Lemma normal_CustomApp_normal `{GoRuntime} `{NetURL} a :
  CustomApp_Validate (normal_CustomApp a) = None → app_normal (normal_CustomApp a).
Proof.
  intros (Hn & Hs & Ht & Hd)%CustomApp_Validate_None.
  assert (∀ s, TrimSpace (TrimSpace s) ≠ "" → proper (TrimSpace s)) as Hp.
  { intros s. rewrite TrimSpace_idemp. by split; [apply trimmed_TrimSpace|]. }
  unfold normal_CustomApp in *. cbn [app_Name app_Icon app_Domain app_Zone app_Subdomain
    app_ExitNode app_TargetURL] in *.
  destruct (String.eqb (TrimSpace (app_Domain a)) "") eqn:Ed,
    (String.eqb (TrimSpace (app_Zone a)) "") eqn:Ez; beq;
    rewrite ?Ed, ?Ez in *; rewrite ?TrimSpace_idemp in *;
    split; simpl; rewrite ?Ed, ?Ez; try apply trimmed_TrimSpace; try (by apply Hp);
    try (split; [apply trimmed_TrimSpace|done]); by destruct Hd.
Qed.

Lemma trim_options_proper `{GoRuntime} options k v :
  trim_options options !! k = Some v → proper k ∧ trimmed v.
Proof.
  unfold trim_options.
  assert (∀ l (m : gmap string string), (∀ k v, m !! k = Some v → proper k ∧ trimmed v) →
    ∀ k v, foldl (λ m '(key, value),
           let trimmedKey := TrimSpace key in
           if String.eqb trimmedKey "" then m else <[trimmedKey := TrimSpace value]> m) m l
      !! k = Some v → proper k ∧ trimmed v) as Hgen.
  { intros l. induction l as [|[k0 v0] l IH]; intros m Hm; simpl; [done|]. apply IH.
    intros k' v'. destruct (String.eqb (TrimSpace k0) "") eqn:E; [apply Hm|]. beq.
    rewrite lookup_insert. case_decide; [|apply Hm]. intros [= <-]. subst.
    split; [split; [apply trimmed_TrimSpace|done]|apply trimmed_TrimSpace]. }
  apply Hgen. intros k' v'. by rewrite lookup_empty.
Qed.

(** ** The host and the port of an address *)

Lemma Cut_lacks sep s a b :
  Cut sep s = Some (a, b) → has_char sep a = false.
Proof.
  unfold has_char. revert a b. induction s as [|c s IH]; intros a b; [done|]. cbn [Cut].
  destruct (Ascii.eqb c sep) eqn:E; [by intros [= <- _]|].
  destruct (Cut sep s) as [[a' b']|]; [|done]. intros [= <- _]. cbn [str_forall].
  rewrite E. by apply (IH a' b').
Qed.

Definition lacks (c : ascii) (s : string) : Prop := has_char c s = false.
Definition no_brackets (s : string) : Prop := lacks open_bracket s ∧ lacks close_bracket s.

(** An address with a port: a host without colons, or any host in brackets,
    then a colon and the port. *)
Definition host_port (addr host port : string) : Prop :=
  no_brackets host ∧ no_brackets port ∧ lacks colon port ∧
  (addr = host +:+ ":" +:+ port ∧ lacks colon host ∨ addr = "[" +:+ host +:+ "]:" +:+ port).

Lemma lacks_forall c s : lacks c s ↔ str_forall (λ d, negb (Ascii.eqb d c)) s = true.
Proof. unfold lacks, has_char. by rewrite negb_false_iff. Qed.

Lemma lacks_app c a b : lacks c (a +:+ b) ↔ lacks c a ∧ lacks c b.
Proof. by rewrite !lacks_forall, str_forall_app, andb_true_iff. Qed.

Lemma lacks_cons c d s : lacks c (String d s) ↔ Ascii.eqb d c = false ∧ lacks c s.
Proof. rewrite !lacks_forall. cbn [str_forall]. by rewrite andb_true_iff, negb_true_iff. Qed.

Lemma cut_last_Some sep s a b :
  cut_last sep s = Some (a, b) ↔ s = a +:+ String sep b ∧ lacks sep b.
Proof.
  assert (∀ s, cut_last sep s = None → lacks sep s) as Hnone.
  { induction s0 as [|c s0 IH]; [done|]. cbn [cut_last].
    destruct (cut_last sep s0) as [[]|]; [done|].
    destruct (Ascii.eqb c sep) eqn:E; [done|]. intros _. apply lacks_cons. auto. }
  assert (∀ s, lacks sep s → cut_last sep s = None) as Hlacks.
  { induction s0 as [|c s0 IH]; [done|]. intros [E Hs]%lacks_cons. cbn [cut_last].
    by rewrite IH, E. }
  revert a b. induction s as [|c s IH]; intros a b.
  { split; [done|]. intros [E _]. by destruct a. }
  cbn [cut_last]. destruct (cut_last sep s) as [[a' b']|] eqn:E.
  - destruct (proj1 (IH a' b') eq_refl) as [Es Hb']. split.
    { intros [= <- <-]. by rewrite Es. }
    intros [Eq Hb]. destruct a as [|d a].
    + injection Eq as _ E'. rewrite Es in E'. rewrite <-E' in Hb.
      apply lacks_app in Hb as [_ [Hb _]%lacks_cons]. by rewrite Ascii.eqb_refl in Hb.
    + injection Eq as -> E'.
      enough (Some (a', b') = Some (a, b)) as [= -> ->] by done. by apply IH.
  - apply Hnone in E. destruct (Ascii.eqb c sep) eqn:Ec.
    + apply Ascii.eqb_eq in Ec as ->. split; [by intros [= <- <-]|].
      intros [Eq Hb]. destruct a as [|d a]; [injection Eq as E'; by subst|injection Eq as _ E'].
      rewrite E' in E. apply lacks_app in E as [_ [E _]%lacks_cons].
      by rewrite Ascii.eqb_refl in E.
    + split; [done|]. intros [Eq Hb]. destruct a as [|d a]; injection Eq as E0 E'.
      * by rewrite E0, Ascii.eqb_refl in Ec.
      * rewrite E' in E. apply lacks_app in E as [_ [E _]%lacks_cons].
        by rewrite Ascii.eqb_refl in E.
Qed.

Lemma SplitHostPort_sound addr host port :
  SplitHostPort addr = Some (host, port) → host_port addr host port.
Proof.
  unfold SplitHostPort, host_port, no_brackets. destruct addr as [|c rest]; [done|].
  destruct (Ascii.eqb c open_bracket) eqn:Ec.
  - apply Ascii.eqb_eq in Ec as ->.
    destruct (Cut close_bracket rest) as [[h [|d p]]|] eqn:E; [done| |done].
    pose proof (Cut_lacks _ _ _ _ E) as Hh. apply Cut_Some in E as ->.
    destruct (Ascii.eqb d colon) eqn:Ed; [|done]. apply Ascii.eqb_eq in Ed as ->.
    destruct (has_char colon p) eqn:E1; [done|].
    destruct (has_char open_bracket (h +:+ p)) eqn:E2; [done|].
    destruct (has_char close_bracket p) eqn:E3; [done|]. intros [= <- <-].
    apply lacks_app in E2 as [? ?]. split_and!; try done. by right.
  - destruct (cut_last colon (String c rest)) as [[h p]|] eqn:E; [|done].
    destruct (has_char colon h) eqn:E1; [done|].
    destruct (has_char open_bracket (String c rest)) eqn:E2; [done|].
    destruct (has_char close_bracket (String c rest)) eqn:E3; [done|].
    intros [= <- <-]. apply cut_last_Some in E as [E Hp]. rewrite E in E2, E3 |- *.
    apply lacks_app in E2 as [? [_ ?]%lacks_cons]. apply lacks_app in E3 as [? [_ ?]%lacks_cons].
    split_and!; try done. by left.
Qed.

Lemma SplitHostPort_complete addr host port :
  host_port addr host port → SplitHostPort addr = Some (host, port).
Proof.
  intros ([Ho Hc] & [Po Pc] & Hp & [[ -> Hh]| -> ]); unfold lacks in *.
  - assert (cut_last colon (host +:+ ":" +:+ port) = Some (host, port)) as Hcut
      by (by apply cut_last_Some).
    assert (has_char open_bracket (host +:+ ":" +:+ port) = false) as Ho'
      by (apply lacks_app; split; [done|by apply lacks_cons]).
    assert (has_char close_bracket (host +:+ ":" +:+ port) = false) as Hc'
      by (apply lacks_app; split; [done|by apply lacks_cons]).
    revert Hcut Ho' Hc'. unfold SplitHostPort.
    destruct (host +:+ ":" +:+ port) as [|c rest] eqn:E; [by destruct host|]. intros Hcut Ho' Hc'.
    assert (Ascii.eqb c open_bracket = false) as -> by (by apply lacks_cons in Ho' as [? _]).
    by rewrite Hcut, Hh, Ho', Hc'.
  - change ("[" +:+ host +:+ "]:" +:+ port)
      with (String open_bracket (host +:+ String close_bracket (String colon port))).
    cbn [SplitHostPort]. rewrite Cut_append by (by apply lacks_forall).
    assert (has_char open_bracket (host +:+ port) = false) as -> by (by apply lacks_app).
    by rewrite Hp, Pc.
Qed.

Lemma TrimSet_brackets s :
  no_brackets s →
  TrimSet (λ c, Ascii.eqb c open_bracket || Ascii.eqb c close_bracket) s = s.
Proof.
  intros [Ho Hc]. unfold TrimSet.
  assert (TrimLeftSet (λ c, Ascii.eqb c open_bracket || Ascii.eqb c close_bracket) s = s) as ->.
  { destruct s as [|c s]; [done|]. apply lacks_cons in Ho as [Ho _].
    apply lacks_cons in Hc as [Hc _]. cbn [TrimLeftSet]. by rewrite Ho, Hc. }
  induction s as [|c s IH]; [done|]. apply lacks_cons in Ho as [Ho Ho'].
  apply lacks_cons in Hc as [Hc Hc']. cbn [TrimRightSet]. rewrite (IH Ho' Hc').
  destruct s; [by rewrite Ho, Hc|done].
Qed.

(** What becomes of the address and the port of a deploy target: an address
    with a port gives its host, and its port unless one is given or it is no
    number; any other address is kept. *)
Definition split_address (addr : string) (port : Z) (addr' : string) (port' : Z) : Prop :=
  (∀ host portText, host_port addr host portText →
     addr' = host ∧
     port' = if (port =? 0)%Z then default 0%Z (Atoi portText) else port) ∧
  ((∀ host portText, ¬ host_port addr host portText) → addr' = addr ∧ port' = port).

Lemma normalizeSSHHostPort_spec addr port :
  split_address addr port (normalizeSSHHostPort addr port).1 (normalizeSSHHostPort addr port).2.
Proof.
  unfold normalizeSSHHostPort. destruct (String.eqb addr "") eqn:Ea; beq.
  { subst. split; [|done]. intros host p Hhp. by apply SplitHostPort_complete in Hhp. }
  destruct (SplitHostPort addr) as [[h p]|] eqn:E; split.
  - intros host p' Hhp. pose proof Hhp as (Hb & _). apply SplitHostPort_complete in Hhp.
    rewrite Hhp in E. injection E as <- <-. cbn [fst snd].
    split; [by apply TrimSet_brackets|].
    destruct (Atoi p') as [n|]; simpl; [done|]. destruct (port =? 0)%Z eqn:Ep; [|done].
    by apply Z.eqb_eq in Ep.
  - intros Hno. by apply SplitHostPort_sound, Hno in E.
  - intros host p' Hhp. apply SplitHostPort_complete in Hhp. congruence.
  - done.
Qed.

(** C20. What the API's decoders return is in normal form, whatever the body of a
    request holds: names, domains, node addresses and paths are trimmed; lists
    of references hold no blank; an application has a name, a domain, a zone, a
    subdomain and a target and validates; a zone with a domain has a name;
    option keys are not blank; a runtime names its kind and its endpoint as
    normalising leaves them.  The SSH address of a deploy target, trimmed, is
    split: if it has a port it becomes its host, as it stands before the
    colon, and its port is used unless one is given; otherwise it is kept. *)
Theorem decoded_normal `{GoRuntime} `{NetURL} `{JSON ManagedZone} `{JSON CustomApp}
    `{JSON DDNSProviderConfig} `{JSON CertificateBundlePolicy} `{JSON AgentNode}
    `{JSON DeployTarget} `{JSON RuntimeSource} env (body : string) :
  (∀ s, decodeRuntimeSource env body = Ok s → Normalized env s = s) ∧
  (∀ z, decodeZone body = Ok z → zone_normal z) ∧
  (∀ a, decodeCustomApp body = Ok a → app_normal a ∧ CustomApp_Validate a = None) ∧
  (∀ p, decodeDDNSProvider body = Ok p → trimmed (prov_Ref p) ∧ trimmed (prov_Type p) ∧
     ∀ k v, prov_Options p !! k = Some v → proper k ∧ trimmed v) ∧
  (∀ b, decodeBundlePolicy body = Ok b → policy_normal b) ∧
  (∀ a, decodeAgent body = Ok a → trimmed (an_Name a) ∧ trimmed (an_DisplayName a) ∧
     trimmed (an_Addr a) ∧ trimmed (an_SocketPath a)) ∧
  (∀ t, decodeDeployTarget body = Ok t →
     trimmed (dt_Name t) ∧ trimmed (dt_CertPath t) ∧ trimmed (dt_KeyPath t) ∧
     trimmed (dt_ReloadCommand t) ∧ trimmed (adb_Node (dt_Agent t)) ∧
     trimmed (ssh_User (dt_SSH t)) ∧ trimmed (ssh_PrivateKeyPath (dt_SSH t)) ∧
     ∃ t0, json_Decode body = Ok t0 ∧
       split_address (TrimSpace (ssh_Addr (dt_SSH t0))) (ssh_Port (dt_SSH t0))
         (ssh_Addr (dt_SSH t)) (ssh_Port (dt_SSH t))).
Proof.
  unfold decodeZone, decodeCustomApp, decodeDDNSProvider, decodeBundlePolicy, decodeAgent,
    decodeDeployTarget, decodeRuntimeSource. split_and!.
  - intros s. destruct (json_Decode body); [|done]. intros [= <-]. apply Normalized_idempotent.
  - intros z. destruct (json_Decode body); [|done]. intros [= <-]. apply normal_Zone_normal.
  - intros a. destruct (json_Decode body) as [a0|]; [|done].
    destruct (CustomApp_Validate (normal_CustomApp a0)) eqn:E; [done|]. intros [= <-].
    split; [by apply normal_CustomApp_normal|done].
  - intros p. destruct (json_Decode body) as [p0|]; [|done]. intros [= <-].
    split_and!; [apply trimmed_TrimSpace..|]. intros k v. apply trim_options_proper.
  - intros b. destruct (json_Decode body) as [b0|]; [|done]. intros [= <-].
    apply normalizeBundlePolicy_normal.
  - intros a. destruct (json_Decode body) as [a0|]; [|done]. intros [= <-].
    split_and!; apply trimmed_TrimSpace.
  - intros t. destruct (json_Decode body) as [t0|]; [|done]. intros [= <-].
    unfold normal_DeployTarget.
    pose proof (normalizeSSHHostPort_spec (TrimSpace (ssh_Addr (dt_SSH t0)))
      (ssh_Port (dt_SSH t0))) as Hs.
    destruct (normalizeSSHHostPort _ _) as [addr port]. simpl.
    split_and!; try apply trimmed_TrimSpace. by exists t0.
Qed.

(** The address is trimmed before it is split, and its host is not. *)
Example untrimmed_ssh_host : normalizeSSHHostPort (TrimSpace " nas :22 ") 0 = ("nas ", 22%Z).
Proof. by vm_compute. Qed.

(** An update that leaves the name out of the body is never given the name of
    its path, as the handler intends: decoding an application without a name
    fails, and a zone without a name gets that of its domain. *)
Lemma nameless_app_refused `{GoRuntime} `{NetURL} a :
  TrimSpace (app_Name a) = "" → CustomApp_Validate (normal_CustomApp a) ≠ None.
Proof.
  intros Hn Hv. apply normal_CustomApp_normal in Hv as [[_ Hne] _ _ _ _ _ _].
  by apply Hne.
Qed.

Lemma nameless_zone_renamed z :
  TrimSpace (z_Name z) = "" → z_Name (normal_Zone z) = TrimSpace (z_Domain z).
Proof. intros Hn. unfold normal_Zone. simpl. by rewrite Hn. Qed.

Example splits_address : normalizeSSHHostPort "nas.lan:2222" 0 = ("nas.lan", 2222%Z) ∧
  normalizeSSHHostPort "[fd00::1]:22" 2200 = ("fd00::1", 2200%Z) ∧
  normalizeSSHHostPort "fd00::1" 22 = ("fd00::1", 22%Z).
Proof. by vm_compute. Qed.

(** ** What is stored is loaded again *)
Section stored.
Context `{GoRuntime} `{NetURL} `{Lego} `{YAML} (env : Env).

(** The changes of the API's handlers, with what its decoders return. *)
Inductive api_change : (Config → result error Config) → Prop :=
| change_create_app a : api_change (create_app (normal_CustomApp a))
| change_update_app name a : api_change (update_app name (normal_CustomApp a))
| change_delete_app name : api_change (delete_app name)
| change_create_zone z : api_change (create_zone (normal_Zone z))
| change_update_zone name z : api_change (update_zone name (normal_Zone z))
| change_delete_zone name : api_change (delete_zone name)
| change_create_provider p : api_change (create_provider (normal_DDNSProvider p))
| change_update_provider ref p : api_change (update_provider ref (normal_DDNSProvider p))
| change_delete_provider ref : api_change (delete_provider ref)
| change_create_agent a : api_change (create_agent (normal_Agent a))
| change_update_agent name a : api_change (update_agent name (normal_Agent a))
| change_delete_agent name : api_change (delete_agent name)
| change_approve_agent pending : api_change (approve_agent pending)
| change_create_target t : api_change (create_target (normal_DeployTarget t))
| change_update_target name t : api_change (update_target name (normal_DeployTarget t))
| change_delete_target name : api_change (delete_target name)
| change_set_runtime source : api_change (set_runtime env (normal_RuntimeSource env source))
| change_create_bundle zone b : api_change (create_bundle zone (normalizeBundlePolicy b))
| change_update_bundle zone name b :
    api_change (update_bundle zone name (normalizeBundlePolicy b))
| change_delete_bundle zone name : api_change (delete_bundle zone name).

Lemma elem_of_list_insert {A} (i : nat) (x y : A) (l : list A) :
  y ∈ <[i := x]> l → y = x ∨ y ∈ l.
Proof.
  intros (j & Hj)%list_elem_of_lookup_1.
  apply list_lookup_insert_Some in Hj as [(_ & -> & _)|(_ & Hj)]; [by left|].
  right. by apply list_elem_of_lookup_2 in Hj.
Qed.

Section tables.
Context {A : Type} (key sortKey : A → string) (P : A → Prop).

Lemma create_entry_keeps conflict x l l' :
  P x → (∀ y, y ∈ l → P y) → create_entry key sortKey conflict x l = Ok l' →
  ∀ y, y ∈ l' → P y.
Proof.
  intros Hx Hl. unfold create_entry. case_split.
  - unfold refuse. destruct (Conflict conflict); [done|]. by intros [= <-].
  - intros [= <-] y. rewrite elem_of_sort_by, elem_of_app, list_elem_of_singleton. naive_solver.
Qed.

Lemma update_entry_keeps name notFound check x l l' :
  P x → (∀ y, y ∈ l → P y) → update_entry key sortKey name notFound check x l = Ok l' →
  ∀ y, y ∈ l' → P y.
Proof.
  intros Hx Hl. unfold update_entry. destruct (find_index _ l) as [i|].
  - destruct check; [done|]. intros [= <-] y. rewrite elem_of_sort_by.
    intros [->|Hy]%elem_of_list_insert; [done|by apply Hl].
  - unfold refuse. destruct (NotFound notFound); [done|]. by intros [= <-].
Qed.

Lemma delete_entry_keeps name notFound l l' :
  (∀ y, y ∈ l → P y) → delete_entry key name notFound l = Ok l' → ∀ y, y ∈ l' → P y.
Proof.
  intros Hl. unfold delete_entry. destruct (find_index _ l) as [i|].
  - intros [= <-] y Hy%elem_of_delete_at. by apply Hl.
  - unfold refuse. destruct (NotFound notFound); [done|]. by intros [= <-].
Qed.
End tables.

Lemma tidy_apps cfg apps :
  tidy env cfg →
  (∀ a, a ∈ apps → trimmed (app_Name a) ∧ trimmed (app_Icon a) ∧
    trimmed (app_Subdomain a) ∧ trimmed (app_ExitNode a) ∧ trimmed (app_TargetURL a)) →
  tidy env (c_with_Apps apps cfg).
Proof. by intros []. Qed.

Lemma tidy_zones cfg zones :
  tidy env cfg → (∀ z, z ∈ zones → trimmed (z_Name z) ∧ trimmed (z_Domain z)) →
  tidy env (c_with_Zones zones cfg).
Proof. by intros []. Qed.

Lemma tidy_other cfg cfg' :
  c_Server cfg' = c_Server cfg → c_Zones cfg' = c_Zones cfg → c_Apps cfg' = c_Apps cfg →
  tidy env cfg → tidy env cfg'.
Proof. intros Es Ez Ea []. by split; rewrite ?Es, ?Ez, ?Ea. Qed.

Lemma normal_CustomApp_trimmed a :
  let a := normal_CustomApp a in
  trimmed (app_Name a) ∧ trimmed (app_Icon a) ∧ trimmed (app_Subdomain a) ∧
  trimmed (app_ExitNode a) ∧ trimmed (app_TargetURL a).
Proof. split_and!; apply trimmed_TrimSpace. Qed.

Lemma normal_Zone_trimmed z :
  trimmed (z_Name (normal_Zone z)) ∧ trimmed (z_Domain (normal_Zone z)).
Proof. by destruct (normal_Zone_normal z). Qed.

Lemma on_bundles_tidy zone f cfg cfg' :
  tidy env cfg → on_bundles zone f cfg = Ok cfg' → tidy env cfg'.
Proof.
  intros Ht. unfold on_bundles.
  destruct (findConfigZone cfg zone) as [[z index]|] eqn:E.
  2:{ unfold refuse. destruct (NotFound _); [done|]. by intros [= <-]. }
  destruct (f z _) as [bundles|]; [|done]. intros [= <-]. apply tidy_zones; [done|].
  assert (z ∈ c_Zones cfg) as Hz.
  { revert E. unfold findConfigZone. destruct (find_index _ _) as [i|]; [|done].
    destruct (c_Zones cfg !! i) as [z'|] eqn:Ei; [|done]. intros [= -> <-].
    by apply list_elem_of_lookup_2 in Ei. }
  intros z' [->|Hz']%elem_of_list_insert; [|by apply (td_zones _ _ Ht)].
  apply (td_zones _ _ Ht z Hz).
Qed.

Lemma api_change_tidy f cfg cfg' :
  api_change f → tidy env cfg → f cfg = Ok cfg' → tidy env cfg'.
Proof.
  intros Hf Ht. pose proof (td_apps _ _ Ht) as Happs. pose proof (td_zones _ _ Ht) as Hzones.
  destruct Hf; try (by apply on_bundles_tidy);
    unfold create_app, update_app, delete_app, create_zone, update_zone, delete_zone,
      create_provider, update_provider, delete_provider, approve_agent, create_agent,
      update_agent, delete_agent, create_target, update_target, delete_target,
      on_apps, on_zones, on_providers, on_agents, on_targets;
    try (match goal with |- context [create_entry ?k ?s ?c ?x ?l] =>
           destruct (create_entry k s c x l) as [l'|] eqn:E
         | |- context [update_entry ?k ?s ?n ?t ?c ?x ?l] =>
           destruct (update_entry k s n t c x l) as [l'|] eqn:E
         | |- context [delete_entry ?k ?n ?t ?l] =>
           destruct (delete_entry k n t l) as [l'|] eqn:E
         end; [|done]; intros [= <-]);
    try (by apply (tidy_other cfg)).
  - apply tidy_apps; [done|].
    eapply create_entry_keeps; [apply normal_CustomApp_trimmed|exact Happs|exact E].
  - apply tidy_apps; [done|].
    eapply update_entry_keeps; [apply normal_CustomApp_trimmed|exact Happs|exact E].
  - apply tidy_apps; [done|]. eapply delete_entry_keeps; [exact Happs|exact E].
  - apply tidy_zones; [done|].
    eapply create_entry_keeps; [apply normal_Zone_trimmed|exact Hzones|exact E].
  - apply tidy_zones; [done|].
    eapply update_entry_keeps; [apply normal_Zone_trimmed|exact Hzones|exact E].
  - apply tidy_zones; [done|]. eapply delete_entry_keeps; [exact Hzones|exact E].
  - unfold set_runtime. intros [= <-]. destruct Ht. split; try done.
    cbn. apply Normalized_idempotent.
Qed.

(** C7. What the API stores is what the next load returns.  The file lists its
    zones under [domains] and has a data directory that is not blank, or it is
    missing or empty; the YAML library reads back what it writes, up to the
    fields tagged [yaml:"-"].  After any successful update by a handler of
    the API, loading the file succeeds and returns the configuration that the
    update returned, in loaded form: the applications grouped by zone and
    attached to their domain by both fields, the agents without what the file
    does not keep, the two deprecated copies equal to the server's settings,
    and all else the same.  The file is again one of this kind, so the same
    holds after any sequence of updates. *)
Theorem Update_then_Load m calls fs change fs' c :
  (∀ raw s, yaml_Marshal raw = Ok s → yaml_Unmarshal s = Ok (Some (persisted raw))) →
  current_file (Manager_Path m) fs →
  api_change change →
  Manager_Update env m calls fs change = (fs', Ok c) →
  Manager_Load env m calls_ok fs' = Ok (as_loaded c) ∧
  current_file (Manager_Path m) fs' ∧
  c_Apps (as_loaded c) ≡ₚ map app_loaded (c_Apps c).
Proof.
  intros Hyaml Hfile Hchange Hu.
  destruct (Update_reloads env m calls fs change fs' c Hyaml) as [Hload Hfile']; [|done..|].
  { intros cfg cfg' Ht. by apply api_change_tidy. }
  split_and!; [done..|].
  pose proof (Manager_Update_spec env m calls fs change) as Hs. rewrite Hu in Hs.
  destruct Hs as [Hok _]. by apply (loaded_apps_perm env).
Qed.
End stored.

(** ** Examples *)
#[local] Existing Instance reference_runtime.
#[local] Existing Instance reference_url.
#[local] Existing Instance reference_lego.

(** A codec for two documents: the example without and with its application. *)
Definition empty_document : configYAML := MarshalYAML (c_with_Apps [] example_config).
#[local] Instance two_documents : YAML :=
  {| yaml_Marshal raw :=
       if bool_decide (raw = empty_document) then Ok "empty"
       else if bool_decide (raw = one_document) then Ok "doc" else Err (Enew "");
     yaml_Unmarshal s :=
       if String.eqb s "empty" then Ok (Some (persisted empty_document))
       else if String.eqb s "doc" then Ok (Some (persisted one_document))
       else Err (Enew "") |}.

Lemma two_documents_law raw s :
  yaml_Marshal raw = Ok s → yaml_Unmarshal s = Ok (Some (persisted raw)).
Proof.
  cbn. destruct (bool_decide (raw = empty_document)) eqn:E; beq; [subst; by intros [= <-]|].
  destruct (bool_decide (raw = one_document)) eqn:E'; beq; [subst; by intros [= <-]|done].
Qed.

Definition empty_files : Files := {[ DefaultPath := "empty" ]}.

Lemma empty_files_current : current_file (Manager_Path (NewManager "")) empty_files.
Proof.
  intros data raw E Ey. change (Manager_Path _) with DefaultPath in E.
  unfold empty_files, Files in E. rewrite lookup_singleton_eq in E. injection E as <-.
  injection Ey as <-. by split; left.
Qed.

(** The API adds the application of the example to the file without it. *)
Example Update_then_Load_witness :
  Manager_Load example_env (NewManager "") calls_ok
    (Manager_Update example_env (NewManager "") calls_ok empty_files
       (create_app (normal_CustomApp example_app))).1 = Ok (as_loaded example_config).
Proof.
  apply (Update_then_Load example_env (NewManager "") calls_ok empty_files
    (create_app (normal_CustomApp example_app)) _ example_config).
  - exact two_documents_law.
  - exact empty_files_current.
  - apply change_create_app.
  - vm_compute. reflexivity.
Defined.
