(* ===== verification/Main.v ===== *)
(** The server program ([src/cmd/domux/main.go]): how a configuration becomes
    the state of the running server, the runtime manager, the jobs, and what
    the actions of the API do.

    Routes and applications are in [Routes].  The pool of agents is a pointer
    shared by the runtime manager and the deploy service; only the nodes of
    its entries ever change, which the deploy service does not read, so the
    two hold copies here. *)

From S2P Require Import Prelude GoStrings GoRuntime Core Registry Config Store Proxy Ddns Sys Discovery Agent Routes Certs Mutations.

(** ** Selecting what an action applies to *)
Section selection.
Context `{GoRuntime}.

Definition selectedZones (zones : list ManagedZone) (domain : string)
  : result error (list ManagedZone) :=
  let domain := TrimSpace domain in
  if String.eqb domain "" then Ok zones
  else match List.find (λ zone, String.eqb (z_Name zone) domain ||
                                String.eqb (z_Domain zone) domain) zones with
       | Some zone => Ok [zone]
       | None => Err (Enew ("domain " +:+ quote domain +:+ " not found"))
       end.

(** The requests of every enabled zone that has valid plans, with the errors
    of the others. *)
Definition buildCertificateRequests (zones : list ManagedZone)
  : list IssueRequest * option error :=
  let outcomes := map BuildRequests
    (List.filter (λ zone, cp_Enabled (z_Certificate zone)) zones) in
  (sort_by iq_BundleName (concat (ok_outcomes outcomes)), join_errs (err_outcomes outcomes)).

Definition selectedCertificateRequests (zones : list ManagedZone) (domain bundleName : string)
  : result error (list IssueRequest) :=
  let? zones := selectedZones zones domain in
  match buildCertificateRequests zones with
  | (_, Some e) => Err e
  | (requests, None) =>
      let bundleName := TrimSpace bundleName in
      if String.eqb bundleName "" then Ok requests
      else match List.filter (λ r, String.eqb (iq_BundleName r) bundleName) requests with
           | [] => Err (Enew ("bundle " +:+ quote bundleName +:+ " not found"))
           | filtered => Ok filtered
           end
  end.

Definition selectedStoredBundles (bundles : list CertificateBundle) (domain bundleName : string)
  : result error (list CertificateBundle) :=
  let domain := TrimSpace domain in
  let bundleName := TrimSpace bundleName in
  let filtered := List.filter (λ b,
    (String.eqb domain "" || String.eqb (cb_Zone b) domain) &&
    (String.eqb bundleName "" || String.eqb (cb_Name b) bundleName)) bundles in
  match filtered with
  | [] =>
      if negb (String.eqb bundleName "") then
        Err (Enew ("bundle " +:+ quote bundleName +:+ " not found"))
      else if negb (String.eqb domain "") then
        Err (Enew ("domain " +:+ quote domain +:+ " has no certificate bundles"))
      else Ok filtered
  | _ => Ok filtered
  end.

Definition selectedDeployTarget (targets : list DeployTarget) (targetName : string)
  : result error (option DeployTarget) :=
  let targetName := TrimSpace targetName in
  if String.eqb targetName "" then Ok None
  else match List.find (λ t, String.eqb (dt_Name t) targetName) targets with
       | Some target => Ok (Some target)
       | None => Err (Enew ("deploy target " +:+ quote targetName +:+ " not found"))
       end.

Definition filterDeployTargets (targets : list string) (targetName : string) : list string :=
  let targetName := TrimSpace targetName in
  if String.eqb targetName "" then targets
  else List.filter (λ t, String.eqb t targetName) targets.
End selection.

(** ** From the configuration to the store *)
Section seeding.
Context `{GoRuntime} (env : Env).

Definition normalizeRuntimes (source : RuntimeSource) : list RuntimeSource :=
  if String.eqb (RuntimeOrDefault env source) "" &&
     String.eqb (TrimSpace (rs_Endpoint source)) ""
  then [] else [Normalized env source].

(** The names of the plans of the enabled zones, and the errors of the zones
    without valid plans. *)
Definition configuredBundleNames (zones : list ManagedZone) : gset string * option error :=
  let outcomes := map CertificatePlans
    (List.filter (λ zone, cp_Enabled (z_Certificate zone)) zones) in
  (list_to_set (map plan_Name (concat (ok_outcomes outcomes))),
   join_errs (err_outcomes outcomes)).

Definition pruneUnmanagedBundles (store : MemoryStore) : MemoryStore * option error :=
  match configuredBundleNames (ListDomains store) with
  | (_, Some e) => (store, Some e)
  | (managedNames, None) =>
      (foldl (λ s bundle, if bool_decide (cb_Name bundle ∈ managedNames) then s
                          else DeleteBundle (cb_Name bundle) s)
             store (ListBundles store),
       None)
  end.

Definition seedConfigState (store : MemoryStore) (cfg : Config) : MemoryStore * option error :=
  let store := ReplaceDomains (c_Zones cfg) store in
  let store := ReplaceRuntimes env (normalizeRuntimes (sv_Runtime (c_Server cfg))) store in
  let store := ReplaceDDNSProviders (c_DDNSProviders cfg) store in
  let store := ReplaceCustomApps (c_Apps cfg) store in
  let store := ReplaceAgents (c_Agents cfg) store in
  let store := ReplaceDeployTargets (c_DeployTargets cfg) store in
  pruneUnmanagedBundles store.
End seeding.

(** ** Access to the API *)

(** What a request carries of its credentials. *)
Record AuthRequest := {
  aq_Path : string;
  aq_BasicAuth : option (string * string)
}.
Inductive auth_decision := Serve | Unauthorized.

Definition withBasicAuth (cfg : AuthConfig) (r : AuthRequest) : auth_decision :=
  if negb (AuthConfig_Enabled cfg) then Serve
  else if String.eqb (aq_Path r) "/health" then Serve
  else match aq_BasicAuth r with
       | None => Unauthorized
       | Some (username, password) =>
           if negb (String.eqb username (auth_Username cfg)) ||
              negb (String.eqb password (auth_Password cfg))
           then Unauthorized else Serve
       end.

(** ** The runtime of a configuration *)
Definition initAgentPool (nodes : list AgentNode) (store : option MemoryStore)
  : Pool * option MemoryStore :=
  foldl (λ '(pool, store) node, ((Add node pool).1, PutAgent node <$> store))
    (New_Pool, store) nodes.

Record preparedRuntime := {
  pr_pool : Pool;
  pr_discoverers : list routeDiscoverer
}.

Section runtime.
Context `{GoRuntime} `{NetURL} `{Lego} `{Nat} (env : Env) (runningInContainer : bool).

(** The clients of the container API: of the local runtime's endpoint, and
    over an agent. *)
Context (docker_client : RuntimeSource → result error apiClient)
        (agent_client : Client → result error apiClient).

Definition docker_New (source : RuntimeSource) : result error DockerDiscovery :=
  let source := Normalized env source in
  let? cli := docker_client source in
  Ok (NewWithClient env source cli).

Fixpoint remote_discoverers (clients : list Client) : result error (list routeDiscoverer) :=
  match clients with
  | [] => Ok []
  | client :: clients' =>
      let? cli := agent_client client in
      let? rest := remote_discoverers clients' in
      Ok (remote_discoverer env runningInContainer (Remote_New env (cl_Node client) client cli)
          :: rest)
  end.

Definition initDiscoverers (cfg : Config) (pool : Pool)
  : result error (list routeDiscoverer) :=
  let source := sv_Runtime (c_Server cfg) in
  let? local :=
    (if negb (String.eqb (RuntimeOrDefault env source) "") then
       let? discovery := docker_New source in
       Ok [docker_discoverer env runningInContainer discovery]
     else Ok []) in
  let? remote := remote_discoverers (List_ pool) in
  Ok (local ++ remote).

Definition buildRuntime (cfg : Config) : result error preparedRuntime :=
  let pool := (initAgentPool (c_Agents cfg) None).1 in
  let? discoverers := initDiscoverers cfg pool in
  Ok {| pr_pool := pool; pr_discoverers := discoverers |}.

Definition syncPoolNodesToStore (pool : Pool) (store : MemoryStore) : MemoryStore :=
  foldl (λ s node, PutAgent node s) store (ListNodes pool).

(** The DDNS service of a configuration.  The updaters are looked up by their
    reference when a record is written ([Ddns.World]). *)
Context {W : Type} `{!World W}.

Fixpoint register_providers (registry : Registry) (providers : list DDNSProviderConfig)
    (service : Service W) : result error (Service W) :=
  match providers with
  | [] => Ok service
  | providerCfg :: providers' =>
      if negb (Exists registry (prov_Type providerCfg))
      then register_providers registry providers' service
      else match New registry (prov_Type providerCfg) (prov_Options providerCfg) with
           | Some (Ok _) =>
               register_providers registry providers'
                 (Service_Register (prov_Ref providerCfg) service)
           | Some (Err e) =>
               Err (Ewrap ("initialize dns provider " +:+ quote (prov_Ref providerCfg) +:+ ": "
                           +:+ error_text e) e)
           | None => Err (Enew "invalid memory address or nil pointer dereference")
           end
  end.

Definition initDDNS (cfg : Config)
  : result error (Registry * Service W * gmap string DDNSProviderConfig) :=
  let? registry := NewBuiltinRegistry in
  let service := NewService (W:=W)
    (Some (λ w request, Detect (PublicIP_Detector (sv_PublicIP (c_Server cfg))) w request)) in
  let? service := register_providers registry (c_DDNSProviders cfg) service in
  Ok (registry, service, providerRefs (c_DDNSProviders cfg)).
End runtime.

(** ** The runtime manager *)
Record runtimeManager (W : Type) := {
  rm_pool : option Pool;
  rm_discoverers : list routeDiscoverer;
  rm_ddnsSvc : option (Service W);
  rm_providerRefs : gmap string DDNSProviderConfig;
  rm_watching : bool
}.
Arguments rm_pool {W} _.
Arguments rm_discoverers {W} _.
Arguments rm_ddnsSvc {W} _.
Arguments rm_providerRefs {W} _.
Arguments rm_watching {W} _.

Section manager.
Context {W : Type}.

Definition newRuntimeManager : runtimeManager W :=
  {| rm_pool := None; rm_discoverers := []; rm_ddnsSvc := None; rm_providerRefs := ∅;
     rm_watching := false |}.

(** [swap], and the watchers it starts; the old ones are stopped. *)
Definition swap (pool : Pool) (discoverers : list routeDiscoverer) (m : runtimeManager W)
  : runtimeManager W * list routeDiscoverer :=
  ({| rm_pool := Some pool; rm_discoverers := discoverers; rm_ddnsSvc := rm_ddnsSvc m;
      rm_providerRefs := rm_providerRefs m; rm_watching := true |}, rm_discoverers m).

Definition Replace (next : preparedRuntime) (m : runtimeManager W) : runtimeManager W :=
  (swap (pr_pool next) (pr_discoverers next) m).1.

Definition SetDDNS (service : Service W) (refs : gmap string DDNSProviderConfig)
    (m : runtimeManager W) : runtimeManager W :=
  {| rm_pool := rm_pool m; rm_discoverers := rm_discoverers m; rm_ddnsSvc := Some service;
     rm_providerRefs := refs; rm_watching := rm_watching m |}.

Definition Close (m : runtimeManager W) : runtimeManager W := newRuntimeManager.
End manager.

(** ** Jobs and actions

    The state of the running program: the store, the two tables of the proxy,
    the runtime manager and the pool of the deploy service.  A pool is shared
    and changed in place; tasks keep the pool they were started with, so the
    pools that reloads have replaced are kept, oldest first, and the number of
    a pool is its place in this order, the manager's being the last. *)
Record ServerState (W : Type) := {
  ss_store : MemoryStore;
  ss_table : RouteTable;
  ss_tls : TLSStore (list string);
  ss_runtime : runtimeManager W;
  ss_deployPool : option Pool;
  ss_retired : list Pool
}.
Arguments ss_store {W} _.
Arguments ss_table {W} _.
Arguments ss_tls {W} _.
Arguments ss_runtime {W} _.
Arguments ss_deployPool {W} _.
Arguments ss_retired {W} _.

Section state.
Context {W : Type}.
Definition with_store (v : MemoryStore) (s : ServerState W) : ServerState W :=
  {| ss_store := v; ss_table := ss_table s; ss_tls := ss_tls s; ss_runtime := ss_runtime s;
     ss_deployPool := ss_deployPool s; ss_retired := ss_retired s |}.
Definition with_table (v : RouteTable) (s : ServerState W) : ServerState W :=
  {| ss_store := ss_store s; ss_table := v; ss_tls := ss_tls s; ss_runtime := ss_runtime s;
     ss_deployPool := ss_deployPool s; ss_retired := ss_retired s |}.
Definition with_tls (v : TLSStore (list string)) (s : ServerState W) : ServerState W :=
  {| ss_store := ss_store s; ss_table := ss_table s; ss_tls := v; ss_runtime := ss_runtime s;
     ss_deployPool := ss_deployPool s; ss_retired := ss_retired s |}.
Definition with_runtime (v : runtimeManager W) (s : ServerState W) : ServerState W :=
  {| ss_store := ss_store s; ss_table := ss_table s; ss_tls := ss_tls s; ss_runtime := v;
     ss_deployPool := ss_deployPool s; ss_retired := ss_retired s |}.
Definition with_deployPool (v : option Pool) (s : ServerState W) : ServerState W :=
  {| ss_store := ss_store s; ss_table := ss_table s; ss_tls := ss_tls s;
     ss_runtime := ss_runtime s; ss_deployPool := v; ss_retired := ss_retired s |}.
Definition with_retired (v : list Pool) (s : ServerState W) : ServerState W :=
  {| ss_store := ss_store s; ss_table := ss_table s; ss_tls := ss_tls s;
     ss_runtime := ss_runtime s; ss_deployPool := ss_deployPool s; ss_retired := v |}.

(** The pool with a number, and its new value. *)
Definition pool_number (s : ServerState W) : nat := length (ss_retired s).
Definition pool_of (number : nat) (s : ServerState W) : option Pool :=
  if Nat.eqb number (pool_number s) then rm_pool (ss_runtime s) else ss_retired s !! number.
Definition set_pool (number : nat) (pool : Pool) (s : ServerState W) : ServerState W :=
  if Nat.eqb number (pool_number s) then
    let m := ss_runtime s in
    with_runtime {| rm_pool := Some pool; rm_discoverers := rm_discoverers m;
                    rm_ddnsSvc := rm_ddnsSvc m; rm_providerRefs := rm_providerRefs m;
                    rm_watching := rm_watching m |} s
  else with_retired (<[number := pool]> (ss_retired s)) s.
End state.

(** [api.ActionRequest] *)
Record ActionRequest := {
  act_Source : string;
  act_Domain : string;
  act_Bundle : string;
  act_Target : string
}.

Section jobs.
Context {W : Type} `{OS W} `{HTTP W} `{Crypto W} `{Lego} `{!Challenges W} `{!AcmeClient W}
  `{!World W} `{GoRuntime} `{NetURL} `{Nat} `{JSON DeployRequest} `{JSON DeployResult}
  `{JSON InfoResponse} (env : Env) (runningInContainer : bool)
  (NewNSResolver : string → IO W string).

Definition Action : Type := ServerState W → W → ServerState W * W * option error.

(** [recordJob], [recordActionJob]: the history gets one run, whatever the
    action did. *)
Definition job_run (name : string) (err : option error) (startedAt finishedAt : Time) : JobRun :=
  {| jr_Name := name;
     jr_Status := match err with None => "success" | Some _ => "failed" end;
     jr_Message := match err with None => "" | Some e => error_text e end;
     jr_StartedAt := startedAt; jr_FinishedAt := finishedAt |}.

Definition recordJob (name : string) (action : Action) : Action := λ s w,
  let '(w, startedAt) := Sys.Now w in
  let '(s, w, err) := action s w in
  let '(w, finishedAt) := Sys.Now w in
  (with_store (AppendJobRun (job_run name err startedAt finishedAt) (ss_store s)) s, w,
   errors_join [err; None]).

Definition recordActionJob (name : string) (action : ActionRequest → Action)
  : ActionRequest → Action := λ request, recordJob name (action request).

(** [startAsyncTask]: no run is recorded for a task that was cancelled. *)
Definition startAsyncTask (name : string) (task : Action) : Action := λ s w,
  let '(w, startedAt) := Sys.Now w in
  let '(s, w, err) := task s w in
  if match err with Some e => errors_is ContextCanceled e | None => false end
  then (s, w, None)
  else
    let '(w, finishedAt) := Sys.Now w in
    (with_store (AppendJobRun (job_run name err startedAt finishedAt) (ss_store s)) s, w, None).

Definition refreshRoutes (source : string) : Action := λ s w,
  let '(store, table, err) :=
    refreshRoutesWithDiscoverers env runningInContainer source
      (rm_discoverers (ss_runtime s)) (rm_pool (ss_runtime s)) (ss_store s) (ss_table s) in
  (with_table table (with_store store s), w, err).

(** The nodes of a pool are checked, one after the other, and stored. *)
Definition refreshAgentStore (number : nat) : Action := λ s w,
  match pool_of number s with
  | None => (s, w, None)
  | Some pool =>
      let '(pool, w, nodes) := RefreshAll pool w in
      (with_store (foldl (λ st node, PutAgent node st) (ss_store s) nodes)
         (set_pool number pool s), w, None)
  end.

(** [syncDDNS] over the zones; a zone that fails does not stop the others. *)
Fixpoint sync_zones (service : Service W) (zones : list ManagedZone) (st : MemoryStore) (w : W)
  : MemoryStore * W * list error :=
  match zones with
  | [] => (st, w, [])
  | zone :: zones' =>
      if negb (ddns_Enabled (z_DDNS zone)) then sync_zones service zones' st w
      else
        let '(_, err, (st, w)) := SyncZone service zone st w in
        let '(st, w, errs) := sync_zones service zones' st w in
        (st, w, opt_list err ++ errs)
  end.

Definition syncDDNS (service : option (Service W)) (zones : list ManagedZone) : Action := λ s w,
  match service with
  | None => (s, w, None)
  | Some service =>
      match sv_Detector service with
      | None => (s, w, None)
      | Some _ =>
          let '(st, w, errs) := sync_zones service zones (ss_store s) w in
          (with_store st s, w, join_errs errs)
      end
  end.

(** [tlsStore.LoadPair] for every name of a bundle. *)
Fixpoint load_pairs (bundle : CertificateBundle) (domains : list string)
    (tls : TLSStore (list string)) (w : W) : TLSStore (list string) * W * list error :=
  match domains with
  | [] => (tls, w, [])
  | domain :: domains' =>
      let '(w, keyPair) := LoadX509KeyPair (cb_CertPath bundle) (cb_KeyPath bundle) w in
      let '(tls, err) :=
        LoadPair (λ _ _, keyPair) domain (cb_CertPath bundle) (cb_KeyPath bundle) tls in
      let '(tls, w, errs) := load_pairs bundle domains' tls w in
      (tls, w, opt_list err ++ errs)
  end.

Definition deploy_service (s : ServerState W) : DeployService :=
  New_DeployService (Some (ListDeployTargets (ss_store s))) (ss_deployPool s).

Definition deployBundle (bundle : CertificateBundle) (targetNames : list string) : Action := λ s w,
  let '(w, (runs, err)) := DeployBundle (deploy_service s) bundle targetNames w in
  (with_store (foldl (λ st run, AppendDeployRun run st) (ss_store s) runs) s, w,
   errors_join [err]).

Fixpoint deploy_bundles (bundles : list CertificateBundle) (targetName : string)
    (s : ServerState W) (w : W) : ServerState W * W * list error :=
  match bundles with
  | [] => (s, w, [])
  | bundle :: bundles' =>
      let targetNames := filterDeployTargets (cb_DeployTargets bundle) targetName in
      let targetNames := if negb (String.eqb targetName "") then [targetName] else targetNames in
      match targetNames with
      | [] => deploy_bundles bundles' targetName s w
      | _ =>
          let '(s, w, err) := deployBundle bundle targetNames s w in
          let '(s, w, errs) := deploy_bundles bundles' targetName s w in
          (s, w,
           match err with
           | Some e => Ewrap ("deploy bundle " +:+ quote (cb_Name bundle) +:+ ": "
                              +:+ error_text e) e :: errs
           | None => errs
           end)
      end
  end.

Definition deployStoredBundles (bundles : list CertificateBundle) (targetName : string)
  : Action := λ s w,
  let '(s, w, errs) := deploy_bundles bundles targetName s w in (s, w, join_errs errs).

(** One request: issue or keep, store, load, deploy.  The errors of loading
    and deploying do not stop it. *)
Definition sync_request (force : bool) (manager : Certs.Manager W)
    (providers : gmap string DDNSProviderConfig) (request : IssueRequest)
    (s : ServerState W) (w : W) : ServerState W * W * list error :=
  match providers !! iq_DNSProvider request with
  | None =>
      (s, w, [Enew ("missing certificate provider ref: " +:+ iq_DNSProvider request)])
  | Some providerCfg =>
      let '(w, bundle) :=
        (if force then ForceRenewCertificate NewNSResolver manager request providerCfg w
         else EnsureCertificate NewNSResolver manager request providerCfg w) in
      match bundle with
      | Err e => (s, w, [e])
      | Ok bundle =>
          let s := with_store (PutBundle bundle (ss_store s)) s in
          let '(tls, w, loadErrs) := load_pairs bundle (cb_Domains bundle) (ss_tls s) w in
          let s := with_tls tls s in
          match cb_DeployTargets bundle with
          | [] => (s, w, loadErrs)
          | targets =>
              let '(s, w, err) := deployBundle bundle targets s w in
              (s, w, loadErrs ++ opt_list err)
          end
      end
  end.

Fixpoint sync_requests (force : bool) (manager : Certs.Manager W)
    (providers : gmap string DDNSProviderConfig) (requests : list IssueRequest)
    (s : ServerState W) (w : W) : ServerState W * W * list error :=
  match requests with
  | [] => (s, w, [])
  | request :: requests' =>
      let '(s, w, errs) := sync_request force manager providers request s w in
      let '(s, w, errs') := sync_requests force manager providers requests' s w in
      (s, w, errs ++ errs')
  end.

Definition syncCertificateRequests (force : bool) (manager : Certs.Manager W)
    (requests : list IssueRequest) (providers : gmap string DDNSProviderConfig)
  : Action := λ s w,
  let '(s, w, errs) := sync_requests force manager providers requests s w in
  (s, w, join_errs errs).

(** ** The actions of the API *)
Definition bad_request (e : error) : Action := λ s w, (s, w, Some (BadRequest e)).

Definition manualRefreshRoutes (request : ActionRequest) : Action := λ s w,
  match selectedDiscoverers (rm_discoverers (ss_runtime s)) (act_Source request) with
  | Err e => bad_request e s w
  | Ok _ => refreshRoutes (act_Source request) s w
  end.

Definition manualSyncDDNS (request : ActionRequest) : Action := λ s w,
  match selectedZones (ListDomains (ss_store s)) (act_Domain request) with
  | Err e => bad_request e s w
  | Ok zones => syncDDNS (rm_ddnsSvc (ss_runtime s)) zones s w
  end.

Definition manualRenewCertificates (manager : Certs.Manager W) (request : ActionRequest)
  : Action := λ s w,
  if negb (String.eqb (act_Target request) "") then
    bad_request (Enew "target scope is not supported for certificate renew") s w
  else match selectedCertificateRequests (ListDomains (ss_store s)) (act_Domain request)
               (act_Bundle request) with
       | Err e => bad_request e s w
       | Ok requests =>
           syncCertificateRequests true manager requests (rm_providerRefs (ss_runtime s)) s w
       end.

Definition manualDeployCertificates (request : ActionRequest) : Action := λ s w,
  let bundles :=
    CurrentCertificateBundles (ListDomains (ss_store s)) (ListBundles (ss_store s)) in
  match selectedStoredBundles bundles (act_Domain request) (act_Bundle request) with
  | Err e => bad_request e s w
  | Ok bundles =>
      match selectedDeployTarget (ListDeployTargets (ss_store s)) (act_Target request) with
      | Err e => bad_request e s w
      | Ok _ => deployStoredBundles bundles (act_Target request) s w
      end
  end.

(** The [platformapi.Actions] the program gives to the API. *)
Inductive api_action := RefreshRoutes | SyncDDNS | RenewCertificates | DeployCertificates.

Definition action_name (a : api_action) : string :=
  match a with
  | RefreshRoutes => "manual.routes.refresh"
  | SyncDDNS => "manual.ddns.sync"
  | RenewCertificates => "manual.certificates.renew"
  | DeployCertificates => "manual.certificates.deploy"
  end.

Definition run_action (manager : Certs.Manager W) (a : api_action) : ActionRequest → Action :=
  recordActionJob (action_name a)
    match a with
    | RefreshRoutes => manualRefreshRoutes
    | SyncDDNS => manualSyncDDNS
    | RenewCertificates => manualRenewCertificates manager
    | DeployCertificates => manualDeployCertificates
    end.

(** The job that the scheduler runs every twelve hours. *)
Definition certificates_sync (manager : Certs.Manager W) (force : bool) : Action := λ s w,
  match buildCertificateRequests (ListDomains (ss_store s)) with
  | (_, Some e) => (s, w, Some e)
  | (requests, None) =>
      syncCertificateRequests force manager requests (rm_providerRefs (ss_runtime s)) s w
  end.

Definition registerJobs (manager : Certs.Manager W) : list (string * Duration * Action) :=
  [("routes.refresh", (60 * second)%Z, recordJob "timer.routes.refresh" (refreshRoutes ""));
   ("agents.refresh", (60 * second)%Z, recordJob "timer.agents.refresh"
      (λ s w, refreshAgentStore (pool_number s) s w));
   ("ddns.sync", (5 * 60 * second)%Z, recordJob "timer.ddns.sync"
      (λ s w, syncDDNS (rm_ddnsSvc (ss_runtime s)) (ListDomains (ss_store s)) s w));
   ("certificates.sync", (12 * hour)%Z, recordJob "timer.certificates.sync"
      (certificates_sync manager false))].

(** ** Reloading the configuration *)
Context (docker_client : RuntimeSource → result error apiClient)
        (agent_client : Client → result error apiClient).

Definition with_StateStore (service : Service W) : Service W :=
  {| sv_Detector := sv_Detector service; sv_Providers := sv_Providers service;
     sv_HasStore := true |}.

(** Everything that can fail comes before the runtime is replaced, but for the
    last refresh, whose error is only logged. *)
Definition reloadManagedConfig (nextCfg : Config) : Action := λ s w,
  match buildRuntime env runningInContainer docker_client agent_client nextCfg with
  | Err e => (s, w, Some e)
  | Ok nextRuntime =>
      match initDDNS (W:=W) nextCfg with
      | Err e => (s, w, Some e)
      | Ok (_, nextDDNSSvc, nextProviderRefs) =>
          let '(store, err) := seedConfigState env (ss_store s) nextCfg in
          let s := with_store store s in
          match err with
          | Some e => (s, w, Some e)
          | None =>
              let s := with_store (syncPoolNodesToStore (pr_pool nextRuntime) (ss_store s)) s in
              let s := with_deployPool (Some (pr_pool nextRuntime)) s in
              let m := Replace nextRuntime
                (SetDDNS (with_StateStore nextDDNSSvc) nextProviderRefs (ss_runtime s)) in
              let s := with_retired (ss_retired s ++ opt_list (rm_pool (ss_runtime s))) s in
              let s := with_runtime m s in
              let '(store, table, _) :=
                refreshRoutesWithDiscoverers env runningInContainer ""
                  (startupDiscoverers (pr_discoverers nextRuntime)) (Some (pr_pool nextRuntime))
                  (ss_store s) (ss_table s) in
              (with_table table (with_store store s), w, None)
          end
      end
  end.

(** The state of the server before it starts to listen. *)
Definition startup (cfg : Config) : result error (ServerState W) :=
  match seedConfigState env NewMemoryStore cfg with
  | (_, Some e) => Err e
  | (store, None) =>
      let? prepared := buildRuntime env runningInContainer docker_client agent_client cfg in
      let store := syncPoolNodesToStore (pr_pool prepared) store in
      let? (_, ddnsSvc, refs) := initDDNS (W:=W) cfg in
      let m := SetDDNS (with_StateStore ddnsSvc) refs newRuntimeManager in
      match buildCertificateRequests (ListDomains store) with
      | (_, Some e) => Err e
      | (_, None) =>
          Ok {| ss_store := store; ss_table := NewRouteTable; ss_tls := NewTLSStore;
                ss_runtime := Replace prepared m; ss_deployPool := Some (pr_pool prepared);
                ss_retired := [] |}
      end
  end.

(** The tasks [runServerWithContext] starts beside the servers: they keep the
    pool of the start, which has number 0.  (The routes only read the clients
    of a pool, which no refresh changes.) *)
Definition local_refresh (prepared : preparedRuntime) : Action := λ s w,
  let '(store, table, err) :=
    refreshRoutesWithDiscoverers env runningInContainer ""
      (startupDiscoverers (pr_discoverers prepared)) (Some (pr_pool prepared))
      (ss_store s) (ss_table s) in
  (with_table table (with_store store s), w, err).

Definition startup_tasks (prepared : preparedRuntime) (manager : Certs.Manager W)
    (certificateRequests : list IssueRequest) : list Action :=
  [startAsyncTask "startup.routes.local" (local_refresh prepared);
   startAsyncTask "startup.agents.refresh" (refreshAgentStore 0);
   startAsyncTask "startup.routes.full" (refreshRoutes "");
   startAsyncTask "startup.ddns.sync"
     (λ s w, syncDDNS (rm_ddnsSvc (ss_runtime s)) (ListDomains (ss_store s)) s w);
   startAsyncTask "startup.certificates.sync"
     (λ s w, syncCertificateRequests false manager certificateRequests
               (rm_providerRefs (ss_runtime s)) s w)].

(** The tasks a reload starts once it has succeeded, with the number of the
    pool it has made. *)
Definition reload_tasks (number : nat) : list Action :=
  [startAsyncTask "startup.agents.refresh" (refreshAgentStore number);
   startAsyncTask "startup.routes.full" (refreshRoutes "")].
End jobs.

(** * Properties *)
Section seeding_props.
Context `{GoRuntime} `{NetURL} (env : Env).

(** Every enabled zone has valid plans. *)
Definition plans_valid (zones : list ManagedZone) : Prop :=
  ∀ z, z ∈ zones → cp_Enabled (z_Certificate z) = true → is_ok (CertificatePlans z) = true.

(** A plan of one of the enabled zones has the name. *)
Definition planned (zones : list ManagedZone) (name : string) : Prop :=
  ∃ z plans p, z ∈ zones ∧ cp_Enabled (z_Certificate z) = true ∧
    CertificatePlans z = Ok plans ∧ p ∈ plans ∧ plan_Name p = name.

Lemma elem_of_filter_enabled z zones :
  z ∈ List.filter (λ zone, cp_Enabled (z_Certificate zone)) zones ↔
  z ∈ zones ∧ cp_Enabled (z_Certificate z) = true.
Proof. by rewrite !list_elem_of_In, filter_In. Qed.

Lemma elem_of_enabled_outcomes {A} (f : ManagedZone → result error A) o zones :
  o ∈ map f (List.filter (λ zone, cp_Enabled (z_Certificate zone)) zones) ↔
  ∃ z, z ∈ zones ∧ cp_Enabled (z_Certificate z) = true ∧ f z = o.
Proof.
  rewrite list_elem_of_In, in_map_iff. setoid_rewrite <-list_elem_of_In.
  setoid_rewrite elem_of_filter_enabled. naive_solver.
Qed.

Lemma elem_of_concat {A} (x : A) ls : x ∈ concat ls ↔ ∃ l, x ∈ l ∧ l ∈ ls.
Proof.
  rewrite list_elem_of_In, in_concat. setoid_rewrite list_elem_of_In. naive_solver.
Qed.

Lemma configuredBundleNames_names zones n :
  n ∈ (configuredBundleNames zones).1 ↔ planned zones n.
Proof.
  cbn [configuredBundleNames fst].
  rewrite elem_of_list_to_set, list_elem_of_In, in_map_iff.
  setoid_rewrite <-list_elem_of_In. setoid_rewrite elem_of_concat.
  setoid_rewrite elem_of_ok_outcomes. setoid_rewrite elem_of_enabled_outcomes.
  unfold planned. split.
  - intros (p & <- & plans & Hp & z & Hz & He & Hpl). by exists z, plans, p.
  - intros (z & plans & p & Hz & He & Hpl & Hp & <-). exists p. split; [done|].
    exists plans. split; [done|]. by exists z.
Qed.

Lemma configuredBundleNames_err zones :
  (configuredBundleNames zones).2 = None ↔ plans_valid zones.
Proof.
  cbn [configuredBundleNames snd]. rewrite join_errs_None, err_outcomes_nil.
  setoid_rewrite elem_of_enabled_outcomes. unfold plans_valid. split; intros Hall.
  - intros z Hz He. apply Hall. by exists z.
  - intros o (z & Hz & He & <-). by apply Hall.
Qed.

Lemma prune_fold (managed : gset string) bundles s :
  ∃ m, foldl (λ s bundle, if bool_decide (cb_Name bundle ∈ managed) then s
                          else DeleteBundle (cb_Name bundle) s) s bundles = set_bundles m s ∧
    ∀ n, (n ∈ map cb_Name bundles ∧ n ∉ managed → m !! n = None) ∧
         (¬ (n ∈ map cb_Name bundles ∧ n ∉ managed) → m !! n = st_bundles s !! n).
Proof.
  revert s. induction bundles as [|b bundles IH]; intros s; cbn [foldl map].
  { exists (st_bundles s). split; [by destruct s|]. intros n. set_solver. }
  destruct (IH (if bool_decide (cb_Name b ∈ managed) then s else DeleteBundle (cb_Name b) s))
    as (m & -> & Hm).
  exists m. split; [by destruct (bool_decide (cb_Name b ∈ managed))|].
  intros n. destruct (Hm n) as [Hin Hout]. clear Hm IH. rewrite elem_of_cons.
  destruct (bool_decide (cb_Name b ∈ managed)) eqn:E; beq.
  - split; intros Hn; [apply Hin|apply Hout]; destruct (decide (n = cb_Name b)); naive_solver.
  - simpl in *. destruct (decide (n = cb_Name b)) as [->|Hne].
    + split; [|naive_solver]. intros _. destruct (decide (cb_Name b ∈ map cb_Name bundles)).
      * by apply Hin.
      * rewrite Hout by tauto. apply lookup_delete_eq.
    + rewrite lookup_delete_ne in Hout by done. naive_solver.
Qed.

Lemma elem_of_bundle_names s n :
  keyed cb_Name (st_bundles s) → n ∈ map cb_Name (ListBundles s) ↔ is_Some (st_bundles s !! n).
Proof.
  intros Hk. unfold ListBundles. rewrite map_key_sort_by, keyed_values_keys by done.
  apply elem_of_map_keys.
Qed.

(** The store once the tables of the configuration are loaded. *)
Definition seeded (cfg : Config) (s : MemoryStore) : MemoryStore :=
  let s := ReplaceDomains (c_Zones cfg) s in
  let s := ReplaceRuntimes env (normalizeRuntimes env (sv_Runtime (c_Server cfg))) s in
  let s := ReplaceDDNSProviders (c_DDNSProviders cfg) s in
  let s := ReplaceCustomApps (c_Apps cfg) s in
  let s := ReplaceAgents (c_Agents cfg) s in
  ReplaceDeployTargets (c_DeployTargets cfg) s.

Lemma seedConfigState_eq s cfg :
  seedConfigState env s cfg = pruneUnmanagedBundles (seeded cfg s).
Proof. done. Qed.

Lemma seeded_ok s cfg : store_ok env s → store_ok env (seeded cfg s).
Proof. intros []. split; try done; apply keyed_keyed_from, keyed_empty. Qed.

Lemma keyedMap_lookup {A} (key : A → string) l n :
  keyedMap l key !! n = find_last (λ x, String.eqb (key x) n) l.
Proof. unfold keyedMap. rewrite keyed_from_lookup, lookup_empty. by destruct (find_last _ _). Qed.

Lemma seeded_domains s cfg z :
  z ∈ ListDomains (seeded cfg s) ↔
  find_last (λ x, String.eqb (domain_key x) (domain_key z)) (c_Zones cfg) = Some z.
Proof.
  unfold ListDomains. rewrite elem_of_sort_by, elem_of_map_values. cbn [seeded st_zones].
  split.
  - intros [k Hk]. replace (domain_key z) with k; [by rewrite <-keyedMap_lookup|].
    symmetry. by apply (keyed_keyed_from domain_key ∅ (c_Zones cfg) (keyed_empty _)).
  - intros Hk. exists (domain_key z). by rewrite <-keyedMap_lookup in Hk.
Qed.

(** Pruning deletes the bundles without a plan, and nothing on an error. *)
Lemma pruneUnmanagedBundles_spec s :
  store_ok env s →
  let '(s', err) := pruneUnmanagedBundles s in
  (∃ m, s' = set_bundles m s) ∧
  (err = None ↔ plans_valid (ListDomains s)) ∧
  (∀ name b, GetBundle name s' = Some b ↔
     GetBundle name s = Some b ∧ (err = None → planned (ListDomains s) name)) ∧
  store_ok env s'.
Proof.
  intros Hok. unfold pruneUnmanagedBundles.
  pose proof (configuredBundleNames_err (ListDomains s)) as Herr.
  pose proof (configuredBundleNames_names (ListDomains s)) as Hnames.
  destruct (configuredBundleNames (ListDomains s)) as [managed [e|]]; cbn [fst snd] in *.
  { split_and!; [exists (st_bundles s); by destruct s|done|naive_solver|done]. }
  destruct (prune_fold managed (ListBundles s) s) as (m & -> & Hm).
  assert (∀ name b, m !! name = Some b ↔ st_bundles s !! name = Some b ∧ name ∈ managed) as Hb.
  { intros name b. destruct (Hm name) as [Hin Hout].
    rewrite elem_of_bundle_names in Hin, Hout by apply Hok.
    destruct (decide (name ∈ managed)) as [Hn|Hn].
    { rewrite Hout by tauto. naive_solver. }
    destruct (st_bundles s !! name) as [b'|] eqn:Eb.
    * rewrite Hin by (split; [by eexists|done]). naive_solver.
    * rewrite Hout by (by intros [[? [=]] _]). naive_solver. }
  split_and!; [by exists m|done| |].
  - intros name b. unfold GetBundle. cbn [set_bundles st_bundles].
    rewrite Hb, Hnames. naive_solver.
  - pose proof Hok as []. split; try done. intros n b. cbn [set_bundles st_bundles].
    rewrite Hb. intros [? _]. by apply ok_bundles.
Qed.

Lemma ListRuntimes_seeded source s :
  ListRuntimes env (ReplaceRuntimes env (normalizeRuntimes env source) s) =
  [Normalized env source].
Proof.
  unfold normalizeRuntimes.
  destruct (String.eqb (RuntimeOrDefault env source) "") eqn:E;
    [beq; by destruct (RuntimeOrDefault_trimmed env source)|]. simpl.
  assert (st_sources (ReplaceRuntimes env [Normalized env source] s) =
    {[ RuntimeOrDefault env (Normalized env source) := Normalized env source ]}) as E1 by done.
  unfold ListRuntimes. rewrite E1. apply Permutation_singleton_r. rewrite sort_by_perm.
  unfold map_values. by rewrite map_range_perm, map_to_list_singleton.
Qed.

(** C21. Loading a configuration into the store: the tables of zones, providers,
    applications, agents and deploy targets hold exactly the last entry of
    the configuration under each key, and the only runtime is the
    configuration's, in normal form; the error is nil exactly if every
    enabled zone of the table has valid plans; then the bundles that remain
    are those some plan of an enabled zone names, and on an error none is
    deleted; routes, applications, DDNS states, pending agents and both
    histories are untouched and the store stays well formed. *)
Theorem seedConfigState_correct s cfg :
  store_ok env s →
  let '(s', err) := seedConfigState env s cfg in
  let zones := ListDomains s' in
  (∀ z, z ∈ zones ↔
     find_last (λ x, String.eqb (domain_key x) (domain_key z)) (c_Zones cfg) = Some z) ∧
  (∀ name,
     GetDDNSProvider name s' =
       find_last (λ x, String.eqb (prov_Ref x) name) (c_DDNSProviders cfg) ∧
     GetCustomApp name s' = find_last (λ x, String.eqb (app_Name x) name) (c_Apps cfg) ∧
     st_agents s' !! name = find_last (λ x, String.eqb (an_Name x) name) (c_Agents cfg) ∧
     GetDeployTarget name s' =
       find_last (λ x, String.eqb (dt_Name x) name) (c_DeployTargets cfg)) ∧
  ListRuntimes env s' = [Normalized env (sv_Runtime (c_Server cfg))] ∧
  (err = None ↔ plans_valid zones) ∧
  (∀ name b, GetBundle name s' = Some b ↔
     GetBundle name s = Some b ∧ (err = None → planned zones name)) ∧
  (ListRoutes s', ListApplications s', ListDDNSSyncStates s', ListPendingAgents s',
   ListDeployRuns s', ListJobRuns s') =
  (ListRoutes s, ListApplications s, ListDDNSSyncStates s, ListPendingAgents s,
   ListDeployRuns s, ListJobRuns s) ∧
  store_ok env s'.
Proof.
  intros Hok. rewrite seedConfigState_eq.
  pose proof (pruneUnmanagedBundles_spec (seeded cfg s) (seeded_ok s cfg Hok)) as Hp.
  destruct (pruneUnmanagedBundles _) as [s' err]. destruct Hp as ([m ->] & Herr & Hb & Hok').
  cbn. split_and!; try done.
  - intros z. apply (seeded_domains s).
  - intros name. split_and!; apply keyedMap_lookup.
  - apply (ListRuntimes_seeded _ s).
Qed.
End seeding_props.

(** ** Starting *)
Section startup_props.
Context `{GoRuntime} `{NetURL} `{Lego} (env : Env).

Lemma validated_spec c c' :
  validated env c = Ok c' →
  config_ok env c' ∧ c_Zones c' = map zone_defaults (c_Zones c).
Proof.
  intros Hv. split; [by apply validated_Ok in Hv|].
  unfold validated in Hv. pose proof (Config_Validate_correct env c) as H2.
  destruct (Config_Validate env c) as [c1 [e|]]; [done|]. injection Hv as <-.
  by destruct H2 as [_ ->].
Qed.

(** What a successful load returns. *)
Lemma LoadFile_Ok `{YAML} calls fs path c :
  LoadFile env calls fs path = Ok c →
  config_ok env c ∧ ∃ zones, c_Zones c = map zone_defaults zones.
Proof.
  unfold LoadFile. destruct (Config.ReadFile _ _ _) as [data|e].
  - destruct (yaml_Unmarshal data); [|done]. intros [Hok Hz]%validated_spec. eauto.
  - case_split; [|done]. intros [Hok Hz]%validated_spec. eauto.
Qed.

(** The zones of a loaded configuration validate to themselves. *)
Lemma config_ok_zone c zones z :
  config_ok env c → c_Zones c = map zone_defaults zones → z ∈ c_Zones c →
  zone_defaults z = z ∧ zone_ok z ∧
  zone_refs_ok (c_DDNSProviders c) (list_to_set (map dt_Name (c_DeployTargets c))) z.
Proof.
  intros Hok Hz Hin. assert (zone_defaults z = z) as E.
  { rewrite Hz in Hin. apply list_elem_of_fmap in Hin as (z0 & -> & _).
    apply zone_defaults_idemp. }
  destruct (co_zones _ _ Hok z Hin) as [Hzok Hrefs]. by rewrite E in Hrefs.
Qed.

Lemma find_last_unique {A} (key : A → string) l x :
  NoDup (map key l) → x ∈ l → find_last (λ y, String.eqb (key y) (key x)) l = Some x.
Proof.
  induction l as [|y l IH]; cbn [map find_last]; [intros _ Hx; by apply elem_of_nil in Hx|].
  intros [Hn Hnd]%NoDup_cons Hx. destruct (find_last _ l) as [x'|] eqn:E.
  - apply find_last_Some in E as [Hin Hk]. beq.
    apply elem_of_cons in Hx as [->|Hx].
    + destruct Hn. rewrite <-Hk. by apply list_elem_of_fmap_2.
    + specialize (IH Hnd Hx). congruence.
  - apply elem_of_cons in Hx as [->|Hx]; [by rewrite String.eqb_refl|].
    specialize (IH Hnd Hx). congruence.
Qed.

(** The zone table of a loaded configuration is its list of zones. *)
Lemma seeded_zones c z :
  config_ok env c →
  find_last (λ x, String.eqb (domain_key x) (domain_key z)) (c_Zones c) = Some z ↔
  z ∈ c_Zones c.
Proof.
  intros Hok. split; [by intros [? _]%find_last_Some|]. intros Hin.
  apply (find_last_unique domain_key); [|done].
  assert (∀ x, x ∈ c_Zones c → domain_key x = z_Domain x) as Hk.
  { intros x Hx. unfold domain_key. destruct (co_zones _ _ Hok x Hx) as [[Hd _ _ _ _] _].
    by rewrite (proj2 (String.eqb_neq _ _) Hd). }
  replace (map domain_key (c_Zones c)) with (map z_Domain (c_Zones c)); [apply Hok|].
  apply map_ext_in. intros x Hx. symmetry. apply Hk. by apply list_elem_of_In.
Qed.

Lemma register_providers_Ok {W} `{World W} providers (service : Service W) :
  (∀ p, p ∈ providers → prov_Type p ∈ builtin_types ∧
     options_ok (prov_Options p) (required_options (prov_Type p))
                (required_options (prov_Type p))) →
  ∃ service', register_providers builtin_registry providers service = Ok service' ∧
    sv_Detector service' = sv_Detector service ∧
    ∀ ref, ref ∈ sv_Providers service' ↔
      ref ∈ sv_Providers service ∨ has_provider providers ref.
Proof.
  revert service. induction providers as [|p providers IH]; intros service Hp.
  { exists service. split_and!; [done|done|]. unfold has_provider. set_solver. }
  destruct (Hp p ltac:(constructor)) as [Ht Hopt]. cbn [register_providers].
  rewrite (proj2 (builtin_Exists _) Ht). cbn [negb].
  destruct (builtin_validation_ok (prov_Type p) (prov_Options p) Ht Hopt) as [u ->].
  destruct (IH (Service_Register (prov_Ref p) service)) as (s' & -> & Hd & Hs').
  { intros q Hq. apply Hp. by constructor. }
  exists s'. split_and!; [done|done|]. intros ref. rewrite Hs'. unfold has_provider. simpl.
  setoid_rewrite elem_of_cons. set_solver.
Qed.

Lemma initAgentPool_lookup nodes pool (store : option MemoryStore) n :
  is_Some ((foldl (λ '(pool, store) node, ((Add node pool).1, PutAgent node <$> store))
              (pool, store) nodes).1 !! n) ↔
  is_Some (pool !! n) ∨ n ∈ map an_Name nodes.
Proof.
  revert pool store. induction nodes as [|a nodes IH]; intros pool store; cbn [foldl map].
  { set_solver. }
  rewrite IH, elem_of_cons. unfold Add, Pool in *.
  destruct (pool !! an_Name a) eqn:E; simpl; rewrite lookup_insert; case_decide; naive_solver.
Qed.

Lemma remote_discoverers_Ok `{Nat} ric agent_client clients :
  is_ok (remote_discoverers env ric agent_client clients) = true ↔
  ∀ c, c ∈ clients → is_ok (agent_client c : result error apiClient) = true.
Proof.
  induction clients as [|c clients IH]; cbn [remote_discoverers].
  { split; [|done]. intros _ c Hc. by apply elem_of_nil in Hc. }
  setoid_rewrite elem_of_cons. destruct (agent_client c) as [cli|e] eqn:E.
  - transitivity (is_ok (remote_discoverers env ric agent_client clients) = true).
    { by destruct (remote_discoverers _ _ _ _). }
    rewrite IH. split; [|by auto]. intros Hall c' [->|Hc]; [by rewrite E|auto].
  - split; [done|]. intros Hall. specialize (Hall c (or_introl eq_refl)). by rewrite E in Hall.
Qed.
End startup_props.

Section startup_claim.
Context {W : Type} `{World W} `{GoRuntime} `{NetURL} `{Lego} `{Nat} (env : Env) (ric : bool)
  (docker_client : RuntimeSource → result error apiClient)
  (agent_client : Client → result error apiClient).

(** The clients of the container API that a configuration needs can be
    created (no connection is made): for its runtime, whose endpoint may be
    none, and for its agents. *)
Definition clients_ok (cfg : Config) : Prop :=
  is_ok (docker_client (Normalized env (sv_Runtime (c_Server cfg)))) = true ∧
  ∀ c, c ∈ List_ (initAgentPool (c_Agents cfg) None).1 → is_ok (agent_client c) = true.

Lemma buildRuntime_spec cfg :
  match buildRuntime env ric docker_client agent_client cfg with
  | Ok prepared => clients_ok cfg ∧ pr_pool prepared = (initAgentPool (c_Agents cfg) None).1
  | Err _ => ¬ clients_ok cfg
  end.
Proof.
  unfold buildRuntime, initDiscoverers, docker_New, clients_ok.
  destruct (String.eqb (RuntimeOrDefault env _) "") eqn:Er.
  { beq. by destruct (RuntimeOrDefault_trimmed env (sv_Runtime (c_Server cfg))). }
  cbn [negb]. pose proof (remote_discoverers_Ok env ric agent_client
    (List_ (initAgentPool (c_Agents cfg) None).1)) as Hr.
  destruct (docker_client _) as [cli|e]; [|by intros []].
  destruct (remote_discoverers _ _ _ _) as [ds|e]; [by split; [split; [|apply Hr]|]|].
  intros [_ Hc]. by apply Hr in Hc.
Qed.

Lemma initDDNS_Ok cfg :
  config_ok env cfg →
  ∃ service, initDDNS (W:=W) cfg =
      Ok (builtin_registry, service, providerRefs (c_DDNSProviders cfg)) ∧
    ∀ ref, ref ∈ sv_Providers service ↔ has_provider (c_DDNSProviders cfg) ref.
Proof using Type.
  clear docker_client agent_client.
  intros Hok. unfold initDDNS. rewrite NewBuiltinRegistry_eq.
  match goal with |- context [register_providers _ _ ?s] =>
    destruct (register_providers_Ok (c_DDNSProviders cfg) s) as (svc & -> & _ & Hs) end.
  { intros p Hp. by apply (co_providers _ _ Hok). }
  exists svc. split; [done|]. intros ref. rewrite Hs. simpl. set_solver.
Qed.

Lemma BuildRequests_Ok zone :
  zone_ok zone → cp_Enabled (z_Certificate zone) = true → is_ok (BuildRequests zone) = true.
Proof using Type.
  intros Hz He. unfold BuildRequests. rewrite He. cbn [negb].
  pose proof (ManagedZone_Validate_spec zone) as Hv.
  destruct (ManagedZone_Validate zone) as [z' [e|]]; [done|]. destruct Hv as [_ ->].
  pose proof (zone_ok_plans _ Hz) as Hp. by destruct (CertificatePlans _).
Qed.

Lemma buildCertificateRequests_Ok zones :
  (∀ z, z ∈ zones → zone_ok z) → (buildCertificateRequests zones).2 = None.
Proof using Type.
  intros Hz. cbn [buildCertificateRequests snd]. rewrite join_errs_None, err_outcomes_nil.
  intros o (z & Hin & He & <-)%elem_of_enabled_outcomes. apply BuildRequests_Ok; auto.
Qed.

Lemma syncPoolNodesToStore_eq pool s :
  syncPoolNodesToStore pool s = set_agents (keyed_from an_Name (st_agents s) (ListNodes pool)) s.
Proof using Type.
  unfold syncPoolNodesToStore, keyed_from. generalize (ListNodes pool) as nodes. intros nodes.
  revert s. induction nodes as [|n nodes IH]; intros s; simpl; [by destruct s|].
  by rewrite IH.
Qed.

(** C3. A configuration that loads starts exactly if the clients of its own
    container runtime and agents can be created: no other step can fail on it.
    In the state the server starts with, the store holds exactly the zones of
    the configuration, every provider that a zone's DDNS names is registered,
    the DNS provider of every zone with certificates has its options at
    hand, and the runtime and the deploy service share a pool that has every
    agent of the configuration. *)
Theorem startup_succeeds `{YAML} calls fs path cfg :
  LoadFile env calls fs path = Ok cfg →
  match startup (W:=W) env ric docker_client agent_client cfg with
  | Err _ => ¬ clients_ok cfg
  | Ok s => clients_ok cfg ∧ ∃ service,
    (∀ z, z ∈ ListDomains (ss_store s) ↔ z ∈ c_Zones cfg) ∧
    rm_ddnsSvc (ss_runtime s) = Some service ∧
    (∀ z ref, z ∈ c_Zones cfg → ref ∈ ddns_ProviderRefs (z_DDNS z) →
       ref ∈ sv_Providers service) ∧
    (∀ z, z ∈ c_Zones cfg → cp_Enabled (z_Certificate z) = true →
       ∃ p, rm_providerRefs (ss_runtime s) !! cp_DNSProvider (z_Certificate z) = Some p ∧
            p ∈ c_DDNSProviders cfg ∧ prov_Ref p = cp_DNSProvider (z_Certificate z)) ∧
    (∃ pool, rm_pool (ss_runtime s) = Some pool ∧ ss_deployPool s = Some pool ∧
       ∀ n, is_Some (GetByName n pool) ↔ n ∈ map an_Name (c_Agents cfg))
  end.
Proof.
  intros (Hok & zones & Hzones)%LoadFile_Ok. unfold startup.
  rewrite seedConfigState_eq.
  pose proof (pruneUnmanagedBundles_spec env (seeded env cfg NewMemoryStore)
    (seeded_ok _ _ _ (store_ok_new env))) as Hseed.
  destruct (pruneUnmanagedBundles _) as [st err]. destruct Hseed as ([mb ->] & Herr & _ & _).
  assert (∀ z, z ∈ ListDomains (seeded env cfg NewMemoryStore) ↔ z ∈ c_Zones cfg) as Hdom.
  { intros z. rewrite seeded_domains. by apply (seeded_zones env). }
  assert (∀ z, z ∈ c_Zones cfg → zone_ok z ∧
    zone_refs_ok (c_DDNSProviders cfg) (list_to_set (map dt_Name (c_DeployTargets cfg))) z) as Hz.
  { intros z Hin. by apply (config_ok_zone env cfg zones z). }
  assert (err = None) as ->.
  { apply Herr. intros z Hin He. apply Hdom in Hin. destruct (Hz z Hin) as [_ [_ Hp]].
    by destruct (Hp He) as (_ & plans & -> & _). }
  pose proof (buildRuntime_spec cfg) as Hb.
  destruct (buildRuntime _ _ _ _ cfg) as [prepared|e]; [|done]. destruct Hb as [Hclients Hpool].
  destruct (initDDNS_Ok cfg Hok) as (service & -> & Hsvc).
  rewrite syncPoolNodesToStore_eq.
  destruct (buildCertificateRequests (ListDomains (set_agents _ _))) as [reqs err] eqn:Eb.
  assert (err = None) as ->.
  { change err with (reqs, err).2. rewrite <-Eb. apply buildCertificateRequests_Ok.
    intros z Hin. by apply Hz, Hdom. }
  split; [done|]. eexists. cbn. split_and!; [done|reflexivity| | |].
  - intros z ref Hin Href. cbn. apply Hsvc. destruct (Hz z Hin) as [_ [Hr _]]. by apply Hr.
  - intros z Hin He. destruct (Hz z Hin) as [_ [_ Hp]]. destruct (Hp He) as (Hprov & _).
    pose proof (providerRefs_lookup (c_DDNSProviders cfg) (cp_DNSProvider (z_Certificate z)))
      as Hl. destruct (providerRefs _ !! _) as [p|]; [|done]. destruct Hl. by exists p.
  - exists (pr_pool prepared). split_and!; [done..|]. intros n. unfold GetByName.
    rewrite fmap_is_Some, Hpool. unfold initAgentPool. rewrite initAgentPool_lookup.
    unfold New_Pool, Pool. rewrite lookup_empty. split; [by intros [[? [=]]|]|by right].
Qed.
End startup_claim.

(** A refresh of all sources is never refused. *)
Lemma refresh_all_eq `{GoRuntime} `{NetURL} env ric discoverers pool store rt :
  ∃ routes apps table err,
    refreshRoutesWithDiscoverers env ric "" discoverers pool store rt =
    (ReplaceApplications apps (ReplaceRoutes routes store), table, err).
Proof.
  unfold refreshRoutesWithDiscoverers.
  replace (selectedDiscoverers discoverers "") with (Ok discoverers : result error _) by done.
  destruct (refreshed_routes _ _ _ _) as [[? ?] ?].
  destruct (discoverAllSnapshots _). by do 4 eexists.
Qed.

Section reload_claim.
Context {W : Type} `{World W} `{GoRuntime} `{NetURL} `{Lego} `{Nat} (env : Env) (ric : bool)
  (docker_client : RuntimeSource → result error apiClient)
  (agent_client : Client → result error apiClient).

(** The tables of the store that a configuration determines. *)
Definition config_tables (s : MemoryStore) :=
  (st_zones s, st_providers s, st_apps s, st_sources s, st_agents s, st_targets s).

(** C4. Reloading.  When a reload reports an error, the runtime, the route table,
    the certificates served and the pool of the deploy service are the old
    ones.  With a configuration that the program would start with, a reload
    succeeds, and leaves the runtime (pool, discoverers, DDNS service,
    provider options), the deploy service and the tables of the configuration
    as a fresh start with it would, without losing the certificates served,
    the histories, or a bundle that a plan still names. *)
Theorem reloadManagedConfig_as_restart cfg (s : ServerState W) w :
  store_ok env (ss_store s) →
  let '(s', w', err) := reloadManagedConfig env ric docker_client agent_client cfg s w in
  w' = w ∧ ss_tls s' = ss_tls s ∧
  (err ≠ None → ss_runtime s' = ss_runtime s ∧ ss_table s' = ss_table s ∧
                ss_deployPool s' = ss_deployPool s) ∧
  (∀ s0, startup (W:=W) env ric docker_client agent_client cfg = Ok s0 →
     err = None ∧
     ss_runtime s' = ss_runtime s0 ∧ ss_deployPool s' = ss_deployPool s0 ∧
     config_tables (ss_store s') = config_tables (ss_store s0) ∧
     (∀ name b, GetBundle name (ss_store s') = Some b ↔
        GetBundle name (ss_store s) = Some b ∧ planned (ListDomains (ss_store s')) name) ∧
     ListJobRuns (ss_store s') = ListJobRuns (ss_store s) ∧
     ListDeployRuns (ss_store s') = ListDeployRuns (ss_store s) ∧
     ListDDNSSyncStates (ss_store s') = ListDDNSSyncStates (ss_store s)).
Proof.
  intros Hok. unfold reloadManagedConfig, startup.
  destruct (buildRuntime _ _ _ _ _) as [prepared|e].
  2:{ split_and!; [done..|]. by destruct (seedConfigState env NewMemoryStore cfg) as [st [e'|]]. }
  destruct (initDDNS cfg) as [[[registry service] refs]|e].
  2:{ split_and!; [done..|]. by destruct (seedConfigState env NewMemoryStore cfg) as [st [e'|]]. }
  rewrite !seedConfigState_eq.
  pose proof (pruneUnmanagedBundles_spec env (seeded env cfg NewMemoryStore)
    (seeded_ok _ _ _ (store_ok_new env))) as Hnew.
  pose proof (pruneUnmanagedBundles_spec env (seeded env cfg (ss_store s))
    (seeded_ok _ _ _ Hok)) as Hold.
  destruct (pruneUnmanagedBundles (seeded env cfg NewMemoryStore)) as [st0 err0].
  destruct (pruneUnmanagedBundles (seeded env cfg (ss_store s))) as [st err].
  destruct Hnew as ([m0 ->] & Herr0 & _). destruct Hold as ([m ->] & Herr & Hb & _).
  change (ListDomains (seeded env cfg NewMemoryStore))
    with (ListDomains (seeded env cfg (ss_store s))) in Herr0.
  destruct err as [e|].
  { split_and!; [done..|]. intros s0. destruct err0; [done|]. intros _.
    discriminate (proj2 Herr (proj1 Herr0 eq_refl)). }
  cbn [ss_store with_store]. rewrite !syncPoolNodesToStore_eq.
  match goal with |- context [refreshRoutesWithDiscoverers ?a ?b "" ?d ?e ?f ?g] =>
    destruct (refresh_all_eq a b d e f g) as (routes & apps & table & e' & ->) end.
  split_and!; [done..|]. intros s0.
  destruct err0; [done|]. destruct (buildCertificateRequests _) as [reqs [e|]]; [done|].
  intros [= <-]. split_and!; try done.
  intros name b. rewrite (Hb name b). clear. split; intros [? Hp]; split; try done; naive_solver.
Qed.
End reload_claim.

(** ** Certificates *)

(** The bundle the program keeps for a request. *)
Definition bundle_for (r : IssueRequest) (b : CertificateBundle) : Prop :=
  cb_Name b = iq_BundleName r ∧ cb_Domain b = iq_Domain r ∧
  cb_Domains b = iq_Domains r ∧ cb_DeployTargets b = iq_DeployTargets r.

(** A synchronisation only stores bundles, loads certificates and appends to
    the history of deployments. *)
Definition sync_frame {W} (s s' : ServerState W) : Prop :=
  ∃ bundles runs tls,
    s' = with_tls tls (with_store (set_deploys (st_deploys (ss_store s) ++ runs)
                                    (set_bundles bundles (ss_store s))) s).

Section sync_props.
Context {W : Type} `{OS W} `{HTTP W} `{Crypto W} `{Lego} `{!Challenges W} `{!AcmeClient W}
  `{World W} `{GoRuntime} `{NetURL} `{Nat} `{JSON DeployRequest} `{JSON DeployResult}
  `{JSON InfoResponse} (NewNSResolver : string → IO W string).

#[local] Arguments loadBundleMetadata : simpl never.

Lemma loadBundleMetadata_for b b' (w w' : W) r :
  loadBundleMetadata b w = (w', Ok b') → bundle_for r b → bundle_for r b'.
Proof.
  unfold loadBundleMetadata. intros (w1 & chain & _ & Hl)%io_bind_Ok.
  destruct chain as [|leaf chain]; [done|]. apply io_bind_Ok in Hl as (w2 & t & _ & Hl).
  by injection Hl as _ <-.
Qed.

Lemma Save_names s name zone domains certPEM keyPEM t b (w w' : W) :
  Save s name zone domains certPEM keyPEM t w = (w', Ok b) → cb_Domains b = domains.
Proof.
  unfold Save. destruct (BundlePaths s name).
  intros (w1 & [] & _ & Hs)%io_bind_Ok. apply io_bind_Ok in Hs as (w2 & [] & _ & Hs).
  apply io_bind_Ok in Hs as (w3 & [] & _ & Hs).
  destruct (CertificateBundle_Validate _); [done|]. by injection Hs as _ <-.
Qed.

Lemma obtainAndSave_for (m : Certs.Manager W) r cfg b (w w' : W) :
  obtainAndSave NewNSResolver m (iq_BundleName r) r cfg w = (w', Ok b) → bundle_for r b.
Proof.
  unfold obtainAndSave. intros (w1 & cert & _ & Hs)%io_bind_Ok.
  apply io_bind_Ok in Hs as (w2 & expiry & _ & Hs).
  apply io_bind_Ok in Hs as (w3 & saved & Hsave & Hs). apply Save_names in Hsave.
  destruct (CertificateBundle_Validate _); [done|]. by injection Hs as _ <-.
Qed.

Lemma certificate_for (force : bool) (m : Certs.Manager W) r cfg b (w w' : W) :
  (if force then ForceRenewCertificate NewNSResolver m r cfg w
   else EnsureCertificate NewNSResolver m r cfg w) = (w', Ok b) → bundle_for r b.
Proof.
  destruct force; [apply obtainAndSave_for|]. unfold EnsureCertificate.
  destruct (loadBundleMetadata (request_bundle m r) w) as [w1 [b1|e]] eqn:El.
  - destruct (Sys.Now w1) as [w2 now]. destruct (negb _); [|apply obtainAndSave_for].
    intros [= _ <-]. by eapply loadBundleMetadata_for.
  - destruct (negb _); [done|]. apply obtainAndSave_for.
Qed.

#[local] Instance sync_frame_refl : Reflexive (@sync_frame W).
Proof.
  intros s. exists (st_bundles (ss_store s)), [], (ss_tls s). rewrite app_nil_r.
  by destruct s as [[] ? ? ? ?].
Qed.

#[local] Instance sync_frame_trans : Transitive (@sync_frame W).
Proof.
  intros s1 s2 s3 (m2 & runs2 & tls2 & ->) (m3 & runs3 & tls3 & ->).
  exists m3, (runs2 ++ runs3), tls3. unfold with_tls, with_store, set_deploys, set_bundles.
  simpl. by rewrite app_assoc.
Qed.

Lemma append_runs runs st :
  foldl (λ st run, AppendDeployRun run st) st runs = set_deploys (st_deploys st ++ runs) st.
Proof.
  revert st. induction runs as [|run runs IH]; intros st; simpl.
  - rewrite app_nil_r. by destruct st.
  - rewrite IH. unfold AppendDeployRun, set_deploys. simpl. by rewrite <-app_assoc.
Qed.

Lemma deployBundle_frame b targets s w :
  let '(s', _, _) := deployBundle b targets s w in
  sync_frame s s' ∧ st_bundles (ss_store s') = st_bundles (ss_store s).
Proof.
  unfold deployBundle. destruct (DeployBundle _ _ _ _) as [w' [runs err]].
  rewrite append_runs. split; [|done].
  exists (st_bundles (ss_store s)), runs, (ss_tls s). by destruct s as [[] ? ? ? ?].
Qed.

(** One request: an error and nothing stored, or its bundle stored under its
    name. *)
Lemma sync_request_spec force m providers r s w :
  let '(s', _, errs) := sync_request NewNSResolver force m providers r s w in
  sync_frame s s' ∧
  (st_bundles (ss_store s') = st_bundles (ss_store s) ∧ errs ≠ [] ∨
   ∃ b, bundle_for r b ∧ is_Some (providers !! iq_DNSProvider r) ∧
     st_bundles (ss_store s') = <[iq_BundleName r := b]> (st_bundles (ss_store s))).
Proof.
  unfold sync_request. destruct (providers !! iq_DNSProvider r) as [cfg|]; [|by split; [|left]].
  destruct (if force then _ else _) as [w1 [b|e]] eqn:Ec; [|by split; [|left]].
  apply certificate_for in Ec. pose proof (proj1 Ec) as Hname.
  destruct (load_pairs _ _ _ w1) as [[tls w2] loadErrs].
  set (s1 := with_tls tls (with_store (PutBundle b (ss_store s)) s)).
  assert (sync_frame s s1 ∧
          st_bundles (ss_store s1) = <[iq_BundleName r := b]> (st_bundles (ss_store s))) as [Hf Hb].
  { split; [|subst s1; simpl; by rewrite Hname].
    exists (<[cb_Name b := b]> (st_bundles (ss_store s))), [], tls. rewrite app_nil_r.
    by destruct s as [[] ? ? ? ?]. }
  destruct (cb_DeployTargets b) as [|t ts].
  { split; [done|]. right. by exists b. }
  pose proof (deployBundle_frame b (t :: ts) s1 w2) as Hd.
  destruct (deployBundle b (t :: ts) s1 w2) as [[s2 w3] err]. destruct Hd as [Hf2 Hb2].
  split; [by transitivity s1|]. right. exists b. by rewrite Hb2.
Qed.

Lemma sync_requests_spec force m providers requests s w :
  let '(s', _, errs) := sync_requests NewNSResolver force m providers requests s w in
  sync_frame s s' ∧
  (∀ name b, st_bundles (ss_store s') !! name = Some b →
     st_bundles (ss_store s) !! name = Some b ∨
     ∃ r, r ∈ requests ∧ name = iq_BundleName r ∧ bundle_for r b) ∧
  (∀ name, is_Some (st_bundles (ss_store s) !! name) →
     is_Some (st_bundles (ss_store s') !! name)) ∧
  (errs = [] → ∀ r, r ∈ requests →
     is_Some (providers !! iq_DNSProvider r) ∧
     ∃ r' b, r' ∈ requests ∧ iq_BundleName r' = iq_BundleName r ∧ bundle_for r' b ∧
       st_bundles (ss_store s') !! iq_BundleName r = Some b).
Proof.
  revert s w. induction requests as [|r requests IH]; intros s w; cbn [sync_requests].
  { split_and!; [done|by left|done|]. intros _ r Hr. by apply elem_of_nil in Hr. }
  pose proof (sync_request_spec force m providers r s w) as Hone.
  destruct (sync_request _ _ _ _ _ _ _) as [[s1 w1] errs1].
  specialize (IH s1 w1). destruct (sync_requests _ _ _ _ _ _ _) as [[s2 w2] errs2].
  destruct Hone as [Hf1 Hb1]. destruct IH as (Hf2 & Hsub & Hkeep & Hall).
  split; [by transitivity s1|].
  assert (∀ name, is_Some (st_bundles (ss_store s) !! name) →
                  is_Some (st_bundles (ss_store s1) !! name)) as Hkeep1.
  { intros name Hn. destruct Hb1 as [[-> _]|(b & _ & _ & ->)]; [done|].
    rewrite lookup_insert. by case_decide. }
  split_and!.
  - intros name b Hb. destruct (Hsub name b Hb) as [Hb'|(r' & Hr' & Hr)];
      [|right; exists r'; split; [by constructor|done]].
    destruct Hb1 as [[<- _]|(b1 & Hfor & _ & E)]; [by left|].
    rewrite E, lookup_insert in Hb'. case_decide as Hd; [|by left].
    injection Hb' as ->. right. exists r. split_and!; [constructor|done|done].
  - auto.
  - intros [-> ->]%app_nil r0 [->|Hr0]%elem_of_cons.
    + destruct Hb1 as [[_ []]|(b1 & Hfor & Hprov & E)]; [done|]. split; [done|].
      destruct (Hkeep (iq_BundleName r)) as [b Hb].
      { rewrite E, lookup_insert_eq. by eexists. }
      destruct (Hsub _ _ Hb) as [Hb'|(r' & Hr' & Hn & Hfor')].
      * rewrite E, lookup_insert_eq in Hb'. injection Hb' as <-.
        exists r, b1. split_and!; [constructor|done..].
      * exists r', b. split_and!; [by constructor|done..].
    + destruct (Hall eq_refl r0 Hr0) as (Hp & r' & b & Hr' & ?). split; [done|].
      exists r', b. split; [by constructor|done].
Qed.
End sync_props.

(** C9. Synchronising the certificates touches nothing but the bundles, the
    certificates served and the history of deployments, which only grows; no
    bundle is lost, and every bundle that is new or changed is the one of a
    request, with its name, domains and deploy targets.  If no error is
    reported, every request had a DNS provider and its bundle is stored. *)
Theorem syncCertificateRequests_correct {W} `{HOS : OS W} `{HH : HTTP W} `{HCr : Crypto W}
    `{HL : Lego} `{HCh : !Challenges W} `{HA : !AcmeClient W} `{HR : GoRuntime} `{HU : NetURL}
    `{HJ1 : JSON DeployRequest} `{HJ2 : JSON DeployResult} NewNSResolver
    force (m : Certs.Manager W) requests providers (s : ServerState W) w :
  let '(s', _, err) := syncCertificateRequests NewNSResolver force m requests providers s w in
  sync_frame s s' ∧
  (∀ name, is_Some (GetBundle name (ss_store s)) → is_Some (GetBundle name (ss_store s'))) ∧
  (∀ name b, GetBundle name (ss_store s') = Some b →
     GetBundle name (ss_store s) = Some b ∨
     ∃ r, r ∈ requests ∧ name = iq_BundleName r ∧ bundle_for r b) ∧
  (err = None → ∀ r, r ∈ requests →
     is_Some (providers !! iq_DNSProvider r) ∧
     ∃ r' b, r' ∈ requests ∧ iq_BundleName r' = iq_BundleName r ∧ bundle_for r' b ∧
       GetBundle (iq_BundleName r) (ss_store s') = Some b).
Proof.
  unfold syncCertificateRequests.
  pose proof (sync_requests_spec NewNSResolver force m providers requests s w) as Hs.
  destruct (sync_requests _ _ _ _ _ _ _) as [[s' w'] errs].
  destruct Hs as (Hf & Hsub & Hkeep & Hall). split_and!; [done..|].
  intros He%join_errs_None. by apply Hall.
Qed.

(** ** Actions *)

(** A request names something the program does not have. *)
Inductive unknown_scope `{GoRuntime} {W} (s : ServerState W) (req : ActionRequest)
  : api_action → Prop :=
| unknown_source :
    TrimSpace (act_Source req) ≠ "" →
    (∀ d, d ∈ rm_discoverers (ss_runtime s) → d_Name d ≠ TrimSpace (act_Source req)) →
    unknown_scope s req RefreshRoutes
| unknown_domain a :
    a = SyncDDNS ∨ a = RenewCertificates → TrimSpace (act_Domain req) ≠ "" →
    (∀ z, z ∈ ListDomains (ss_store s) →
       z_Name z ≠ TrimSpace (act_Domain req) ∧ z_Domain z ≠ TrimSpace (act_Domain req)) →
    unknown_scope s req a
| renew_for_target : act_Target req ≠ "" → unknown_scope s req RenewCertificates
| unknown_bundle :
    TrimSpace (act_Bundle req) ≠ "" →
    (∀ b, b ∈ CurrentCertificateBundles (ListDomains (ss_store s)) (ListBundles (ss_store s)) →
       cb_Name b ≠ TrimSpace (act_Bundle req)) →
    unknown_scope s req DeployCertificates
| unknown_target :
    TrimSpace (act_Target req) ≠ "" →
    (∀ t, t ∈ ListDeployTargets (ss_store s) → dt_Name t ≠ TrimSpace (act_Target req)) →
    unknown_scope s req DeployCertificates.

Section action_props.
Context {W : Type} `{OS W} `{HTTP W} `{Crypto W} `{Lego} `{!Challenges W} `{!AcmeClient W}
  `{!World W} `{GoRuntime} `{NetURL} `{Nat} `{JSON DeployRequest} `{JSON DeployResult}
  `{JSON InfoResponse} (env : Env) (ric : bool) (NewNSResolver : string → IO W string).

Lemma eqb_ne a b : a ≠ b → String.eqb a b = false.
Proof. apply String.eqb_neq. Qed.

Lemma find_none {A} (p : A → bool) l : (∀ x, x ∈ l → p x = false) → List.find p l = None.
Proof.
  induction l as [|x l IH]; simpl; intros Hp; [done|].
  rewrite Hp by constructor. apply IH. intros y Hy. apply Hp. by constructor.
Qed.

Lemma selectedZones_unknown zones domain :
  TrimSpace domain ≠ "" →
  (∀ z, z ∈ zones → z_Name z ≠ TrimSpace domain ∧ z_Domain z ≠ TrimSpace domain) →
  is_ok (selectedZones zones domain) = false.
Proof.
  intros Hd Hz. unfold selectedZones. rewrite eqb_ne by done.
  rewrite find_none; [done|]. intros z Hin. destruct (Hz z Hin). by rewrite !eqb_ne.
Qed.

(** A refused action: a bad request, and the state it was given. *)
Definition refuses (action : Action) (s : ServerState W) (w : W) : Prop :=
  ∃ e, action s w = (s, w, Some (BadRequest e)).

Lemma unknown_scope_refused manager a req s w :
  unknown_scope s req a →
  refuses (match a with
           | RefreshRoutes => manualRefreshRoutes env ric
           | SyncDDNS => manualSyncDDNS
           | RenewCertificates => manualRenewCertificates NewNSResolver manager
           | DeployCertificates => manualDeployCertificates
           end req) s w.
Proof.
  unfold refuses. destruct 1 as [Hs Hd|a Ha Hs Hz|Ht|Hb Hall|Ht Hall].
  - unfold manualRefreshRoutes, selectedDiscoverers. rewrite eqb_ne by done.
    rewrite filter_none; [by eexists|]. intros d Hin. by apply eqb_ne, Hd.
  - pose proof (selectedZones_unknown _ _ Hs Hz) as Hsel.
    destruct Ha as [->| ->].
    + unfold manualSyncDDNS. destruct (selectedZones _ _); [done|by eexists].
    + unfold manualRenewCertificates. destruct (negb _); [by eexists|].
      unfold selectedCertificateRequests. destruct (selectedZones _ _); [done|by eexists].
  - unfold manualRenewCertificates. rewrite eqb_ne by done. by eexists.
  - unfold manualDeployCertificates, selectedStoredBundles.
    rewrite filter_none; [rewrite eqb_ne by done; by eexists|].
    intros b Hin. rewrite !(eqb_ne (TrimSpace (act_Bundle req))) by done.
    rewrite (eqb_ne (cb_Name b)) by auto. simpl. by rewrite andb_false_r.
  - unfold manualDeployCertificates. destruct (selectedStoredBundles _ _ _); [|by eexists].
    unfold selectedDeployTarget. rewrite eqb_ne by done.
    rewrite find_none; [by eexists|]. intros t Hin. by apply eqb_ne, Hall.
Qed.
End action_props.

(** An action whose request names a source, domain, bundle or deploy target
    that does not exist (or a target for a renewal) is answered as a bad
    request; nothing happens but that the failed run enters the history. *)
Theorem run_action_refused {W} `{HOS : OS W} `{HH : HTTP W} `{HCr : Crypto W} `{HL : Lego}
    `{HCh : !Challenges W} `{HA : !AcmeClient W} `{HW : !World W} `{HR : GoRuntime}
    `{HU : NetURL} `{HN : Nat} `{HJ1 : JSON DeployRequest} `{HJ2 : JSON DeployResult}
    env ric NewNSResolver manager a req (s : ServerState W) w :
  unknown_scope s req a →
  ∃ e run,
    run_action env ric NewNSResolver manager a req s w =
      (with_store (AppendJobRun run (ss_store s)) s, (Sys.Now (Sys.Now w).1).1, Some e) ∧
    errors_as RequestError e = true ∧
    jr_Name run = action_name a ∧ jr_Status run = "failed".
Proof.
  intros Hs. unfold run_action, recordActionJob, recordJob.
  destruct (Sys.Now w) as [w1 t1].
  destruct (unknown_scope_refused env ric NewNSResolver manager a req s w1 Hs) as [e ->].
  simpl. destruct (Sys.Now w1) as [w2 t2]. do 2 eexists. by split_and!.
Qed.

(** C16. With credentials in a valid configuration, a request of the API is
    served exactly if it asks for the health check or carries these very
    credentials, which are not empty; without any in the configuration every
    request is served. *)
Theorem withBasicAuth_correct `{GoRuntime} `{NetURL} `{Lego} env cfg r :
  config_ok env cfg →
  let auth := sv_Auth (c_Server cfg) in
  (auth_Username auth = "" ∧ auth_Password auth = "" ∧ withBasicAuth auth r = Serve) ∨
  (auth_Username auth ≠ "" ∧ auth_Password auth ≠ "" ∧
   (withBasicAuth auth r = Serve ↔
      aq_Path r = "/health" ∨
      aq_BasicAuth r = Some (auth_Username auth, auth_Password auth))).
Proof.
  intros Hok auth. pose proof (co_auth _ _ Hok) as Ha. fold auth in Ha.
  destruct auth as [u p]. unfold AuthConfig_Validate, withBasicAuth, AuthConfig_Enabled in *.
  cbn [auth_Username auth_Password] in *.
  destruct (String.eqb u "") eqn:Eu, (String.eqb p "") eqn:Ep; try done; beq; [by left|right].
  simpl. split_and!; [done..|]. destruct (String.eqb (aq_Path r) "/health") eqn:Eh; beq; [tauto|].
  destruct (aq_BasicAuth r) as [[u' p']|]; [|split; [done|by intros [?|?]]].
  destruct (String.eqb u' u) eqn:Eu', (String.eqb p' p) eqn:Ep'; beq; subst; simpl;
    split; try done; try (by right); intros [E|E]; congruence.
Qed.

(** ** Examples *)
#[local] Existing Instance reference_runtime.
#[local] Existing Instance reference_url.
#[local] Existing Instance reference_lego.
#[local] Existing Instance reference_yaml.
#[local] Existing Instance counting_world.
#[local] Existing Instances DeployRequest_JSON DeployResult_JSON InfoResponse_JSON.
#[local] Existing Instances sim_crypto sim_challenges sim_acme.
#[local] Instance sim_world : World SimOS := {
  LookupNS w name := Ok ["ns.example.com"];
  http_Get w url := Ok "203.0.113.7";
  Upsert ref record w := (w, None);
  Ddns.Now w := 0%Z
}.
#[local] Instance sim_http : HTTP SimOS := {
  http_Do r w := (w, Err (Enew "connection refused"))
}.
#[local] Instance port_nat : Nat := { nat_Port p := p; nat_ParsePort p := Err (Enew p) }.

Definition empty_client : apiClient :=
  {| ContainerList := Ok []; ContainerInspect id := Err (Enew id); NetworkList := Ok [] |}.

(** The document of the example configuration, as the file it is loaded from. *)
Definition example_files : Files := {[ DefaultPath := "doc" ]}.

Example example_loads :
  LoadFile example_env calls_ok example_files "" =
  Ok (c_with_Apps (grouped_apps (c_Zones example_config) (c_Apps example_config))
        example_config).
Proof. by vm_compute. Qed.

(** A container client that, like Docker's, refuses an endpoint without a
    scheme. *)
Definition scheme_client (source : RuntimeSource) : result error apiClient :=
  if Contains (rs_Endpoint source) "://" then Ok empty_client
  else Err (Enew ("unable to parse docker host " +:+ quote (rs_Endpoint source))).

Example startup_succeeds_witness :
  ∃ s service, startup (W:=nat) example_env false scheme_client (λ _, Ok empty_client)
    (c_with_Apps (grouped_apps (c_Zones example_config) (c_Apps example_config))
       example_config) = Ok s ∧
    rm_ddnsSvc (ss_runtime s) = Some service ∧ "cf" ∈ sv_Providers service.
Proof.
  pose proof (startup_succeeds (W:=nat) example_env false scheme_client (λ _, Ok empty_client)
    calls_ok example_files "" _ example_loads) as Hs.
  destruct (startup _ _ _ _ _) as [s|e].
  - destruct Hs as (_ & service & _ & Hsvc & Hrefs & _). exists s, service. split; [done|].
    split; [exact Hsvc|]. eapply Hrefs; [apply list_elem_of_here|]. cbn. apply list_elem_of_here.
  - destruct Hs. split; [reflexivity|]. intros c Hc. by apply elem_of_nil in Hc.
Defined.

(** An endpoint that validates, and with which the program does not start. *)
Definition schemeless_config : Config :=
  c_with_Server (sv_with_Runtime {| rs_DisplayName := ""; rs_Runtime := "docker";
    rs_Endpoint := "foo"; rs_Network := "" |} (c_Server example_config)) example_config.
Example schemeless_endpoint :
  (Config_Validate example_env schemeless_config).2 = None ∧
  is_ok (startup (W:=nat) example_env false scheme_client (λ _, Ok empty_client)
           schemeless_config) = false.
Proof. split; vm_compute; reflexivity. Qed.

Example seedConfigState_correct_witness :
  store_ok example_env (seedConfigState example_env NewMemoryStore example_config).1.
Proof.
  pose proof (seedConfigState_correct example_env NewMemoryStore example_config
    (store_ok_new example_env)) as Hs.
  destruct (seedConfigState example_env NewMemoryStore example_config) as [s err].
  by destruct Hs as (_ & _ & _ & _ & _ & _ & Hok).
Defined.

Definition empty_server {W} : ServerState W :=
  {| ss_store := NewMemoryStore; ss_table := NewRouteTable; ss_tls := NewTLSStore;
     ss_runtime := newRuntimeManager; ss_deployPool := None; ss_retired := [] |}.

Example reloadManagedConfig_as_restart_witness :
  let '(s', _, _) := reloadManagedConfig (W:=nat) example_env false (λ _, Ok empty_client)
    (λ _, Ok empty_client) example_config empty_server 0 in
  ss_tls s' = ss_tls (W:=nat) empty_server.
Proof.
  pose proof (reloadManagedConfig_as_restart (W:=nat) example_env false (λ _, Ok empty_client)
    (λ _, Ok empty_client) example_config empty_server 0 (store_ok_new example_env)) as Hr.
  destruct (reloadManagedConfig _ _ _ _ _ _ _) as [[s' w'] err]. apply Hr.
Defined.

Example run_action_refused_witness :
  ∃ e run,
    run_action example_env false no_zone example_manager DeployCertificates
      {| act_Source := ""; act_Domain := ""; act_Bundle := ""; act_Target := "nas" |}
      empty_server empty_host =
      (with_store (AppendJobRun run NewMemoryStore) empty_server,
       (Sys.Now (Sys.Now empty_host).1).1, Some e) ∧
    errors_as RequestError e = true ∧
    jr_Name run = "manual.certificates.deploy" ∧ jr_Status run = "failed".
Proof.
  apply (run_action_refused example_env false no_zone example_manager DeployCertificates
    {| act_Source := ""; act_Domain := ""; act_Bundle := ""; act_Target := "nas" |}
    empty_server empty_host).
  apply unknown_target; [by vm_compute|]. intros t Ht. apply elem_of_sort_by in Ht.
  by apply elem_of_map_values in Ht as [k Hk].
Defined.

Definition guarded_config : Config :=
  c_with_Server
    {| sv_APIAddr := ":18080"; sv_HTTPAddr := ":8080"; sv_HTTPSAddr := ":8443";
       sv_Auth := {| auth_Username := "admin"; auth_Password := "secret" |};
       sv_DataDir := "./data"; sv_PublicIP := zero_PublicIPConfig;
       sv_Runtime := sv_Runtime (c_Server example_config) |} example_config.

Lemma guarded_config_ok : config_ok example_env guarded_config.
Proof.
  assert (is_ok (validated example_env guarded_config) = true) as Hv by by vm_compute.
  destruct (validated example_env guarded_config) as [c|e] eqn:E; [|done].
  pose proof (Config_Validate_correct example_env guarded_config) as Hc.
  unfold validated in E.
  destruct (Config_Validate example_env guarded_config) as [c' [e|]]; [done|apply Hc].
Qed.

Example withBasicAuth_correct_witness :
  withBasicAuth (sv_Auth (c_Server guarded_config))
    {| aq_Path := "/api/routes"; aq_BasicAuth := Some ("admin", "wrong") |} = Unauthorized.
Proof.
  destruct (withBasicAuth_correct example_env guarded_config
    {| aq_Path := "/api/routes"; aq_BasicAuth := Some ("admin", "wrong") |} guarded_config_ok)
    as [(E & _)|(_ & _ & Hiff)]; [done|].
  destruct (withBasicAuth _ _); [|done].
  by destruct (proj1 Hiff eq_refl).
Defined.
