(* ===== verification/Api.v ===== *)
(** The HTTP API of the server ([src/internal/platform/api/server.go]): its
    requests, handlers, replies and routes.

    A handler maps the state of the program (the running server and the files)
    and a request to the next state and a reply.  The changes of the
    configuration are in [Mutations].  The store is the program's
    [MemoryStore], which has all the interfaces that the handlers test for.
    The web interface is a library handler over embedded files. *)

From S2P Require Import Prelude GoStrings GoRuntime Paths Core Registry Config Store Proxy Ddns Sys Discovery Agent Routes Certs Mutations Main.

(** ** Requests and replies *)

(** [hq_Segments] are the segments of the path, each unescaped. *)
Record HttpRequest := {
  hq_Method : string;
  hq_Segments : list string;
  hq_Query : string → string;
  hq_Header : string → string;
  hq_Host : string;
  hq_RemoteAddr : string;
  hq_TLS : bool;
  hq_Body : string
}.

Record NodeResourceSnapshot := { nr_Node : string; nr_Resources : SystemResources }.

(** What [writeJSON] encodes, and the three replies that are not JSON. *)
Inductive Body :=
  | StatusBody (status : string)
  | ErrorBody (error : string)
  | MessageBody (message : string)
  | TextBody (text : string)
  | ZonesBody (l : list ManagedZone) | ZoneBody (z : ManagedZone)
  | ApplicationsBody (l : list Application)
  | AppsBody (l : list CustomApp) | AppBody (a : CustomApp)
  | ProvidersBody (l : list DDNSProviderConfig) | ProviderBody (p : DDNSProviderConfig)
  | CatalogBody (l : list CatalogEntry)
  | RuntimesBody (l : list RuntimeSource) | RuntimeBody (s : RuntimeSource)
  | NetworksBody (l : list string)
  | RoutesBody (l : list DiscoveredRoute)
  | AgentsBody (l : list AgentNode) | AgentBody (a : AgentNode)
  | ResourcesBody (l : list NodeResourceSnapshot)
  | StatesBody (l : list DDNSSyncState)
  | TargetsBody (l : list DeployTarget) | TargetBody (t : DeployTarget)
  | BundlesBody (l : list CertificateBundle)
  | PoliciesBody (l : list CertificateBundlePolicy) | PolicyBody (b : CertificateBundlePolicy)
  | DeploysBody (l : list DeployRun)
  | JobsBody (l : list JobRun)
  | ScriptBody (serverURL : string)
  | FileBody (path : string)
  | UIBody.

Record Reply := { rp_Status : Z; rp_Body : Body }.
Definition reply (status : Z) (body : Body) : Reply := {| rp_Status := status; rp_Body := body |}.
Definition reply_error (status : Z) (message : string) : Reply :=
  reply status (ErrorBody message).
Definition disabled : Reply := reply 501 (StatusBody "disabled").

(** [writeMutationError] *)
Definition writeMutationError (e : error) : Reply :=
  match errors_as_text RequestError e with
  | Some m => reply_error 400 m
  | None =>
      match errors_as_text ConflictError e with
      | Some m => reply_error 409 m
      | None =>
          match errors_as_text NotFoundError e with
          | Some m => reply_error 404 m
          | None =>
              match errors_as_text ValidationError e with
              | Some m => reply_error 400 m
              | None => reply_error 500 (error_text e)
              end
          end
      end
  end.

(** What [runAction] replies to the error of an action. *)
Definition action_reply (err : option error) (message : string) : Reply :=
  match err with
  | None => reply 200 (MessageBody message)
  | Some e => match errors_as_text RequestError e with
              | Some m => reply_error 400 m
              | None => reply_error 500 (error_text e)
              end
  end.

(** ** Texts *)

(** [requestOrigin]: [strings.Split(forwarded, ",")[0]] *)
Definition first_of_list (s : string) : string := default "" (head (Split "," s)).
Definition requestOrigin (r : HttpRequest) : string :=
  let scheme := if hq_TLS r then "https" else "http" in
  let forwarded := TrimSpace (hq_Header r "X-Forwarded-Proto") in
  let scheme := if negb (String.eqb forwarded "") then first_of_list forwarded else scheme in
  let forwarded := TrimSpace (hq_Header r "X-Forwarded-Host") in
  let host := if negb (String.eqb forwarded "") then first_of_list forwarded else hq_Host r in
  TrimRightSet (is_char slash) (scheme +:+ "://" +:+ TrimSpace host).

(** [bufio.Scanner] on lines: a final line break ends no further line, one
    carriage return is dropped, a line of 64 KiB is too long. *)
Definition drop_cr (line : string) : string := TrimSuffix line (String (ch 13) EmptyString).
Definition scan_lines (text : string) : result error (list string) :=
  let lines := Split (ch 10) text in
  let lines := match last lines with
               | Some "" => take (length lines - 1) lines
               | _ => lines
               end in
  if existsb (λ l, (65536 <=? N.of_nat (String.length l))%N) lines
  then Err (Enew "bufio.Scanner: token too long") else Ok (map drop_cr lines).

(** One line read by [tailLines] with [limit] lines at most in its buffer. *)
Definition tail_push (limit : nat) (buf : list string) (line : string) : list string :=
  if length buf <? limit then buf ++ [line] else tail buf ++ [line].
Definition tailLines (text : result error string) (limit : Z) : result error (list string) :=
  let? text := text in
  let limit := if (limit <=? 0)%Z then 300 else Z.to_nat limit in
  let? lines := scan_lines text in
  Ok (foldl (tail_push limit) [] lines).

(** ** The server *)

(** What the host says of the agent's binary and of the log file. *)
Record Host := {
  h_is_file : string → bool;                (** [os.Stat], and not a directory *)
  h_Executable : result error string;
  h_Abs : string → result error string;
  h_log : string → result error string      (** the text of a log file *)
}.

Definition agentBinaryPath (env : Env) (h : Host) : result error string :=
  let path := TrimSpace (Getenv env "DOMUX_AGENT_BINARY") in
  if negb (String.eqb path "") && h_is_file h path then Ok path
  else
    match (match h_Executable h with
           | Ok exe => let candidate := PathJoin [Dir exe; "domux-agent"] in
                       if h_is_file h candidate then Some candidate else None
           | Err _ => None
           end) with
    | Some candidate => Ok candidate
    | None =>
        match (if h_is_file h "domux-agent" then h_Abs h "domux-agent" else Err (Enew "")) with
        | Ok path => Ok path
        | Err _ => Err (Enew "domux-agent binary not found")
        end
    end.

(** [agentRegistrationRequest] *)
Record agentRegistrationRequest := {
  arr_Name : string;
  arr_Addr : string;
  arr_Runtime : ContainerRuntime;
  arr_SocketPath : string;
  arr_Version : string
}.

(** The node that asks to be registered. *)
Definition registered_node (req : agentRegistrationRequest) (remoteAddr : string) : AgentNode :=
  let runtime := TrimSpace (arr_Runtime req) in
  let addr := TrimSpace (arr_Addr req) in
  {| an_Name := TrimSpace (arr_Name req); an_DisplayName := "";
     an_Addr := if String.eqb addr "" then remoteAddr else addr;
     an_Runtime := if String.eqb runtime "" then ContainerRuntimeDocker else runtime;
     an_SocketPath := TrimSpace (arr_SocketPath req); an_Version := TrimSpace (arr_Version req);
     an_Status := "pending"; an_LastError := ""; an_LastCheckedAt := 0%Z;
     an_Resources := zero_SystemResources |}.

(** The program as the API sees it: the running server and the files. *)
Record ApiState (W : Type) := { as_server : ServerState W; as_files : Files }.
Arguments as_server {W} _.
Arguments as_files {W} _.

Record ApiServer (W : Type) := {
  sv_actions : api_action → option (ActionRequest → Action (W:=W));
  sv_configManager : option Config.Manager;
  sv_reload : option (Config → Action (W:=W))
}.
Arguments sv_actions {W} _ _.
Arguments sv_configManager {W} _.
Arguments sv_reload {W} _.

Section api.
Context {W : Type} `{GoRuntime} `{NetURL} `{Lego} `{YAML}
  `{JSON CustomApp} `{JSON ManagedZone} `{JSON DDNSProviderConfig} `{JSON RuntimeSource}
  `{JSON AgentNode} `{JSON DeployTarget} `{JSON CertificateBundlePolicy}
  `{JSON agentRegistrationRequest}
  (env : Env) (host : Host) (calls : FileCalls) (srv : ApiServer W)
  (docker_client : RuntimeSource → result error apiClient)
  (systemSnapshot : W → W * result error SystemResources).

Definition Handler : Type := ApiState W → W → ApiState W * W * Reply.

Definition store_of (s : ApiState W) : MemoryStore := ss_store (as_server s).
Definition with_api_store (f : MemoryStore → MemoryStore) (s : ApiState W) : ApiState W :=
  {| as_server := with_store (f (ss_store (as_server s))) (as_server s); as_files := as_files s |}.

Definition pure (r : MemoryStore → Reply) : Handler := λ s w, (s, w, r (store_of s)).
Definition fixed (r : Reply) : Handler := λ s w, (s, w, r).

Definition configEnabled : bool := match sv_configManager srv with Some _ => true | None => false end.

(** [updateConfig]: the file first, then the running program. *)
Definition updateConfig (mutate : Config → result error Config) (s : ApiState W) (w : W)
  : ApiState W * W * result error Config :=
  match sv_configManager srv with
  | None => (s, w, Err (Enew "configuration manager is not configured"))
  | Some manager =>
      match Manager_Update env manager calls (as_files s) mutate with
      | (files, Err e) => ({| as_server := as_server s; as_files := files |}, w, Err e)
      | (files, Ok cfg) =>
          match sv_reload srv with
          | None => ({| as_server := as_server s; as_files := files |}, w, Ok cfg)
          | Some reload =>
              let '(server, w, err) := reload cfg (as_server s) w in
              ({| as_server := server; as_files := files |}, w,
               match err with Some e => Err e | None => Ok cfg end)
          end
      end
  end.

(** The end of every handler that changes the configuration. *)
Definition mutation (mutate : Config → result error Config) (done : Reply) : Handler := λ s w,
  match updateConfig mutate s w with
  | (s, w, Ok _) => (s, w, done)
  | (s, w, Err e) => (s, w, writeMutationError e)
  end.

(** The first checks of those handlers: the API may change the configuration,
    the name in the path is not blank, the body decodes. *)
Definition with_config (k : Handler) : Handler := if configEnabled then k else fixed disabled.
Definition with_name (value missing : string) (k : string → Handler) : Handler :=
  let name := TrimSpace value in
  if String.eqb name "" then fixed (reply_error 400 missing) else k name.
Definition with_body {A} (body : result error A) (k : A → Handler) : Handler :=
  match body with Err e => fixed (reply_error 400 (error_text e)) | Ok a => k a end.

(** ** Applications *)
Definition createCustomApp (r : HttpRequest) : Handler :=
  with_config (with_body (decodeCustomApp (hq_Body r)) (λ app,
    mutation (create_app app) (reply 201 (AppBody app)))).
Definition updateCustomApp (value : string) (r : HttpRequest) : Handler :=
  with_config (with_name value "custom app name is required" (λ name,
    with_body (decodeCustomApp (hq_Body r)) (λ app,
      let app := if String.eqb (app_Name app) "" then
        {| app_Name := name; app_Icon := app_Icon app; app_Domain := app_Domain app;
           app_Zone := app_Zone app; app_Subdomain := app_Subdomain app;
           app_ExitNode := app_ExitNode app; app_TargetURL := app_TargetURL app |} else app in
      mutation (update_app name app) (reply 200 (AppBody app))))).
Definition deleteCustomApp (value : string) : Handler :=
  with_config (with_name value "custom app name is required" (λ name,
    mutation (delete_app name) (reply 200 (MessageBody "custom app deleted")))).

(** ** Zones *)
Definition createZone (r : HttpRequest) : Handler :=
  with_config (with_body (decodeZone (hq_Body r)) (λ zone,
    mutation (create_zone zone) (reply 201 (ZoneBody zone)))).
Definition updateZone (value : string) (r : HttpRequest) : Handler :=
  with_config (with_name value "domain is required" (λ name,
    with_body (decodeZone (hq_Body r)) (λ zone,
      let zone := if String.eqb (z_Name zone) "" then z_with_Name name zone else zone in
      mutation (update_zone name zone) (reply 200 (ZoneBody zone))))).
Definition deleteZone (value : string) : Handler :=
  with_config (with_name value "domain is required" (λ name,
    mutation (delete_zone name) (reply 200 (MessageBody "domain deleted")))).

(** ** DNS providers *)
Definition createDDNSProvider (r : HttpRequest) : Handler :=
  with_config (with_body (decodeDDNSProvider (hq_Body r)) (λ provider,
    mutation (create_provider provider) (reply 201 (ProviderBody provider)))).
Definition updateDDNSProvider (value : string) (r : HttpRequest) : Handler :=
  with_config (with_name value "ddns provider ref is required" (λ ref,
    with_body (decodeDDNSProvider (hq_Body r)) (λ provider,
      let provider := if String.eqb (prov_Ref provider) "" then
        {| prov_Ref := ref; prov_Type := prov_Type provider;
           prov_Options := prov_Options provider |} else provider in
      mutation (update_provider ref provider) (reply 200 (ProviderBody provider))))).
Definition deleteDDNSProvider (value : string) : Handler :=
  with_config (with_name value "ddns provider ref is required" (λ ref,
    mutation (delete_provider ref) (reply 200 (MessageBody "ddns provider deleted")))).
Definition listDDNSProviderCatalog : Handler :=
  fixed match NewBuiltinRegistry with
        | Err e => reply_error 500 (error_text e)
        | Ok registry => reply 200 (CatalogBody (Catalog registry))
        end.

(** ** Certificate bundles of a zone *)
Definition listZoneBundles (value : string) : Handler :=
  with_name value "domain is required" (λ name,
    pure (λ store, match GetDomain name store with
                   | None => reply_error 404 ("domain " +:+ quote name +:+ " not found")
                   | Some zone =>
                       reply 200 (PoliciesBody (normalizeBundlePolicies
                                                  (cp_Bundles (z_Certificate zone))))
                   end)).
Definition createZoneBundle (value : string) (r : HttpRequest) : Handler :=
  with_config (with_name value "domain is required" (λ zoneName,
    with_body (decodeBundlePolicy (hq_Body r)) (λ bundle,
      if String.eqb (bp_Name bundle) "" then
        fixed (reply_error 400 ("domain " +:+ quote zoneName
                                +:+ " certificate bundle name is required"))
      else mutation (create_bundle zoneName bundle) (reply 201 (PolicyBody bundle))))).
Definition updateZoneBundle (value bundleValue : string) (r : HttpRequest) : Handler :=
  with_config (with_name value "domain is required" (λ zoneName,
    with_name bundleValue "bundle name is required" (λ bundleName,
      with_body (decodeBundlePolicy (hq_Body r)) (λ bundle,
        let bundle := if String.eqb (bp_Name bundle) "" then
          {| bp_Name := bundleName; bp_Domains := bp_Domains bundle;
             bp_RenewBefore := bp_RenewBefore bundle;
             bp_DeployTargets := bp_DeployTargets bundle |} else bundle in
        mutation (update_bundle zoneName bundleName bundle) (reply 200 (PolicyBody bundle)))))).
Definition deleteZoneBundle (value bundleValue : string) : Handler :=
  with_config (with_name value "domain is required" (λ zoneName,
    with_name bundleValue "bundle name is required" (λ bundleName,
      mutation (delete_bundle zoneName bundleName) (reply 200 (MessageBody "bundle deleted"))))).

(** ** Runtimes *)
Definition updateServerRuntime (r : HttpRequest) : Handler :=
  with_config (with_body (decodeRuntimeSource env (hq_Body r)) (λ source,
    mutation (set_runtime env source) (reply 200 (RuntimeBody (Normalized env source))))).
Definition listDockerNetworks (r : HttpRequest) : Handler :=
  let runtimeValue := TrimSpace (hq_Query r "runtime") in
  let runtimeValue := if String.eqb runtimeValue "" then ContainerRuntimeDocker else runtimeValue in
  fixed match ContainerRuntime_Validate runtimeValue with
        | Some e => reply_error 400 (error_text e)
        | None =>
            let endpoint := TrimSpace (hq_Query r "endpoint") in
            match docker_New env docker_client
                    {| rs_DisplayName := ""; rs_Runtime := runtimeValue;
                       rs_Endpoint := endpoint; rs_Network := "" |} with
            | Err e => reply_error 400 (error_text e)
            | Ok discovery =>
                match NetworkNames discovery with
                | Err e => reply_error 400 (error_text e)
                | Ok names => reply 200 (NetworksBody names)
                end
            end
        end.

(** ** Agents *)
Definition createAgent (r : HttpRequest) : Handler :=
  with_config (with_body (decodeAgent (hq_Body r)) (λ agent,
    mutation (create_agent agent) (reply 201 (AgentBody agent)))).
Definition updateAgent (value : string) (r : HttpRequest) : Handler :=
  with_config (with_name value "agent name is required" (λ name,
    with_body (decodeAgent (hq_Body r)) (λ agent,
      let agent := if String.eqb (an_Name agent) "" then
        {| an_Name := name; an_DisplayName := an_DisplayName agent; an_Addr := an_Addr agent;
           an_Runtime := an_Runtime agent; an_SocketPath := an_SocketPath agent;
           an_Version := an_Version agent; an_Status := an_Status agent;
           an_LastError := an_LastError agent; an_LastCheckedAt := an_LastCheckedAt agent;
           an_Resources := an_Resources agent |} else agent in
      mutation (update_agent name agent) (reply 200 (AgentBody agent))))).
Definition deleteAgent (value : string) : Handler :=
  with_config (with_name value "agent name is required" (λ name,
    mutation (delete_agent name) (reply 200 (MessageBody "agent deleted")))).

Definition listPendingAgents : Handler := pure (λ store, reply 200 (AgentsBody (ListPendingAgents store))).
Definition registerAgent (r : HttpRequest) : Handler :=
  with_body (json_Decode (hq_Body r)) (λ req,
    let agent := registered_node req (hq_RemoteAddr r) in
    match AgentNode_Validate agent with
    | Some e => fixed (reply_error 400 (error_text e))
    | None => λ s w, (with_api_store (PutPendingAgent agent) s, w, reply 202 (StatusBody "pending"))
    end).
Definition approvePendingAgent (value : string) : Handler :=
  with_config (with_name value "agent name is required" (λ name s w,
    match List.find (λ agent, String.eqb (an_Name agent) name)
                    (ListPendingAgents (store_of s)) with
    | None => (s, w, reply_error 404 ("pending agent " +:+ quote name +:+ " not found"))
    | Some pending =>
        match updateConfig (approve_agent pending) s w with
        | (s, w, Err e) => (s, w, writeMutationError e)
        | (s, w, Ok _) =>
            (with_api_store (DeletePendingAgent name) s, w, reply 200 (StatusBody "ok"))
        end
    end)).
Definition deletePendingAgent (value : string) : Handler :=
  with_name value "agent name is required" (λ name s w,
    (with_api_store (DeletePendingAgent name) s, w, reply 200 (StatusBody "ok"))).

Definition listNodeResources : Handler := λ s w,
  let '(w, snapshot) := systemSnapshot w in
  let own := match snapshot with
             | Ok resources => [{| nr_Node := "server"; nr_Resources := resources |}]
             | Err _ => []
             end in
  let agents := List.filter (λ a, negb (res_CheckedAt (an_Resources a) =? 0)%Z)
                            (ListAgents (store_of s)) in
  (s, w, reply 200 (ResourcesBody
    (own ++ map (λ a, {| nr_Node := an_Name a; nr_Resources := an_Resources a |}) agents))).
Definition agentInstallScript (r : HttpRequest) : Handler :=
  fixed (reply 200 (ScriptBody (requestOrigin r))).
Definition agentBinary : Handler :=
  fixed match agentBinaryPath env host with
        | Err e => reply_error 404 (error_text e)
        | Ok path => reply 200 (FileBody path)
        end.

(** ** Deploy targets *)
Definition createDeployTarget (r : HttpRequest) : Handler :=
  with_config (with_body (decodeDeployTarget (hq_Body r)) (λ target,
    mutation (create_target target) (reply 201 (TargetBody target)))).
Definition updateDeployTarget (value : string) (r : HttpRequest) : Handler :=
  with_config (with_name value "deploy target name is required" (λ name,
    with_body (decodeDeployTarget (hq_Body r)) (λ target,
      let target := if String.eqb (dt_Name target) "" then
        {| dt_Name := name; dt_Transport := dt_Transport target; dt_Local := dt_Local target;
           dt_Agent := dt_Agent target; dt_SSH := dt_SSH target; dt_CertPath := dt_CertPath target;
           dt_KeyPath := dt_KeyPath target; dt_ReloadCommand := dt_ReloadCommand target |}
        else target in
      mutation (update_target name target) (reply 200 (TargetBody target))))).
Definition deleteDeployTarget (value : string) : Handler :=
  with_config (with_name value "deploy target name is required" (λ name,
    mutation (delete_target name) (reply 200 (MessageBody "deploy target deleted")))).

(** ** Logs and actions *)
Definition systemLogs : Handler :=
  let path := TrimSpace (Getenv env "DOMUX_LOG_FILE") in
  let path := if String.eqb path "" then "/tmp/domux.log" else path in
  fixed (reply 200 (TextBody match tailLines (h_log host path) 300 with
                             | Err _ => "暂无日志"
                             | Ok lines => Join newline lines
                             end)).

Definition action_request (r : HttpRequest) : ActionRequest :=
  {| act_Source := TrimSpace (hq_Query r "source");
     act_Domain := TrimSpace (firstNonEmpty [hq_Query r "domain"; hq_Query r "zone"]);
     act_Bundle := TrimSpace (hq_Query r "bundle"); act_Target := TrimSpace (hq_Query r "target") |}.
Definition runAction (a : api_action) (message : string) (r : HttpRequest) : Handler :=
  match sv_actions srv a with
  | None => fixed disabled
  | Some action => λ s w,
      let '(server, w, err) := action (action_request r) (as_server s) w in
      ({| as_server := server; as_files := as_files s |}, w, action_reply err message)
  end.

(** ** Routes: the patterns of the handlers, as they are registered *)
Inductive segment := Lit (s : string) | Var.

Fixpoint match_segments (pattern : list segment) (segments : list string)
  : option (list string) :=
  match pattern, segments with
  | [], [] => Some []
  | Lit l :: pattern', s :: segments' =>
      if String.eqb l s then match_segments pattern' segments' else None
  | Var :: pattern', s :: segments' =>
      if String.eqb s "" then None
      else (λ vs, s :: vs) <$> match_segments pattern' segments'
  | _, _ => None
  end.

(** A pattern for GET also matches HEAD. *)
Definition method_matches (pattern method : string) : bool :=
  String.eqb pattern method || (String.eqb pattern "GET" && String.eqb method "HEAD").

Record route_pattern := {
  rp_Method : string;
  rp_Pattern : list segment;
  rp_Handler : list string → HttpRequest → Handler
}.

Definition on0 (h : HttpRequest → Handler) (vs : list string) (r : HttpRequest) : Handler := h r.
Definition on1 (h : string → HttpRequest → Handler) (vs : list string) (r : HttpRequest)
  : Handler := h (default "" (head vs)) r.
Definition on2 (h : string → string → HttpRequest → Handler) (vs : list string)
    (r : HttpRequest) : Handler := h (default "" (head vs)) (default "" (head (tail vs))) r.

Definition api_path (segs : list segment) : list segment := Lit "api" :: Lit "v1" :: segs.
Definition at_path (method : string) (segs : list segment)
    (h : list string → HttpRequest → Handler) : route_pattern :=
  {| rp_Method := method; rp_Pattern := api_path segs; rp_Handler := h |}.
Definition list_of (body : MemoryStore → Body) : list string → HttpRequest → Handler :=
  on0 (λ _, pure (λ store, reply 200 (body store))).

(** The routes registered both for zones and for domains. *)
Definition zone_routes (zones : string) : list route_pattern := [
  at_path "GET" [Lit zones] (list_of (λ st, ZonesBody (ListDomains st)));
  at_path "POST" [Lit zones] (on0 createZone);
  at_path "PUT" [Lit zones; Var] (on1 updateZone);
  at_path "DELETE" [Lit zones; Var] (on1 (λ name _, deleteZone name));
  at_path "GET" [Lit zones; Var; Lit "bundles"] (on1 (λ name _, listZoneBundles name));
  at_path "POST" [Lit zones; Var; Lit "bundles"] (on1 createZoneBundle);
  at_path "PUT" [Lit zones; Var; Lit "bundles"; Var] (on2 updateZoneBundle);
  at_path "DELETE" [Lit zones; Var; Lit "bundles"; Var] (on2 (λ name b _, deleteZoneBundle name b))
].

Definition api_routes : list route_pattern :=
  [{| rp_Method := "GET"; rp_Pattern := [Lit "health"];
      rp_Handler := on0 (λ _, fixed (reply 200 (StatusBody "ok"))) |}] ++
  zone_routes "zones" ++ zone_routes "domains" ++ [
  at_path "GET" [Lit "applications"] (list_of (λ st, ApplicationsBody (ListApplications st)));
  at_path "GET" [Lit "apps"] (list_of (λ st, AppsBody (ListCustomApps st)));
  at_path "POST" [Lit "apps"] (on0 createCustomApp);
  at_path "PUT" [Lit "apps"; Var] (on1 updateCustomApp);
  at_path "DELETE" [Lit "apps"; Var] (on1 (λ name _, deleteCustomApp name));
  at_path "GET" [Lit "ddns-providers"] (list_of (λ st, ProvidersBody (ListDDNSProviders st)));
  at_path "GET" [Lit "ddns-providers"; Lit "catalog"] (on0 (λ _, listDDNSProviderCatalog));
  at_path "POST" [Lit "ddns-providers"] (on0 createDDNSProvider);
  at_path "PUT" [Lit "ddns-providers"; Var] (on1 updateDDNSProvider);
  at_path "DELETE" [Lit "ddns-providers"; Var] (on1 (λ ref _, deleteDDNSProvider ref));
  at_path "GET" [Lit "runtimes"] (list_of (λ st, RuntimesBody (ListRuntimes env st)));
  at_path "PUT" [Lit "server"; Lit "runtime"] (on0 updateServerRuntime);
  at_path "GET" [Lit "runtimes"; Lit "networks"] (on0 listDockerNetworks);
  at_path "GET" [Lit "routes"] (list_of (λ st, RoutesBody (ListRoutes st)));
  at_path "GET" [Lit "agents"] (list_of (λ st, AgentsBody (ListAgents st)));
  at_path "GET" [Lit "nodes"; Lit "resources"] (on0 (λ _, listNodeResources));
  at_path "GET" [Lit "agents"; Lit "install.sh"] (on0 agentInstallScript);
  at_path "GET" [Lit "agents"; Lit "domux-agent"] (on0 (λ _, agentBinary));
  at_path "GET" [Lit "agents"; Lit "pending"] (on0 (λ _, listPendingAgents));
  at_path "POST" [Lit "agents"; Lit "register"] (on0 registerAgent);
  at_path "POST" [Lit "agents"; Lit "pending"; Var; Lit "approve"]
    (on1 (λ name _, approvePendingAgent name));
  at_path "DELETE" [Lit "agents"; Lit "pending"; Var] (on1 (λ name _, deletePendingAgent name));
  at_path "POST" [Lit "agents"] (on0 createAgent);
  at_path "PUT" [Lit "agents"; Var] (on1 updateAgent);
  at_path "DELETE" [Lit "agents"; Var] (on1 (λ name _, deleteAgent name));
  at_path "GET" [Lit "ddns"] (list_of (λ st, StatesBody (ListDDNSSyncStates st)));
  at_path "GET" [Lit "deploy-targets"] (list_of (λ st, TargetsBody (ListDeployTargets st)));
  at_path "POST" [Lit "deploy-targets"] (on0 createDeployTarget);
  at_path "PUT" [Lit "deploy-targets"; Var] (on1 updateDeployTarget);
  at_path "DELETE" [Lit "deploy-targets"; Var] (on1 (λ name _, deleteDeployTarget name));
  at_path "GET" [Lit "certificates"]
    (list_of (λ st, BundlesBody (CurrentCertificateBundles (ListDomains st) (ListBundles st))));
  at_path "GET" [Lit "deployments"] (list_of (λ st, DeploysBody (ListDeployRuns st)));
  at_path "GET" [Lit "jobs"] (list_of (λ st, JobsBody (ListJobRuns st)));
  at_path "GET" [Lit "logs"] (on0 (λ _, systemLogs));
  at_path "POST" [Lit "actions"; Lit "routes"; Lit "refresh"]
    (on0 (runAction RefreshRoutes "routes refresh started"));
  at_path "POST" [Lit "actions"; Lit "ddns"; Lit "sync"]
    (on0 (runAction SyncDDNS "ddns sync started"));
  at_path "POST" [Lit "actions"; Lit "certificates"; Lit "renew"]
    (on0 (runAction RenewCertificates "certificate renew started"));
  at_path "POST" [Lit "actions"; Lit "certificates"; Lit "deploy"]
    (on0 (runAction DeployCertificates "certificate deploy started"))
  ].

(** The handler of the first pattern that matches ([patterns_disjoint]: there
    is no other); the web interface otherwise. *)
Fixpoint dispatch (routes : list route_pattern) (r : HttpRequest) : Handler :=
  match routes with
  | [] => fixed (reply 200 UIBody)
  | route :: routes' =>
      if method_matches (rp_Method route) (hq_Method r) then
        match match_segments (rp_Pattern route) (hq_Segments r) with
        | Some vs => rp_Handler route vs r
        | None => dispatch routes' r
        end
      else dispatch routes' r
  end.

Definition serve (r : HttpRequest) : Handler := dispatch api_routes r.
End api.

(** * Properties *)

Lemma tail_push_last limit lines :
  0 < limit → foldl (tail_push limit) [] lines = drop (length lines - limit) lines.
Proof.
  intros Hl. induction lines as [|x lines IH] using rev_ind; [done|].
  rewrite foldl_app, IH, length_app. cbn [foldl length]. unfold tail_push.
  rewrite length_drop. destruct (Nat.ltb_spec (length lines - (length lines - limit)) limit).
  - replace (length lines - limit) with 0 by lia.
    replace (length lines + 1 - limit) with 0 by lia. done.
  - rewrite drop_app_le by lia. f_equal.
    replace (length lines + 1 - limit) with ((length lines - limit) + 1) by lia.
    rewrite <-drop_drop. by destruct (drop (length lines - limit) lines).
Qed.

(** The log shows the last lines of the file, at most [limit] (300 if the limit
    is not positive), in their order, or nothing if a line is too long. *)
Theorem tailLines_last text limit :
  tailLines (Ok text) limit =
  let? lines := scan_lines text in
  Ok (drop (length lines - (if (limit <=? 0)%Z then 300 else Z.to_nat limit)) lines).
Proof.
  unfold tailLines. destruct (scan_lines text) as [lines|]; [|done]. f_equal.
  apply tail_push_last. destruct (Z.leb_spec limit 0); lia.
Qed.

(** ** The routes do not overlap *)

(** Some segment tells the two patterns apart. *)
Fixpoint told_apart (p q : list segment) : bool :=
  match p, q with
  | [], [] => false
  | Lit a :: p', Lit b :: q' => negb (String.eqb a b) || told_apart p' q'
  | _ :: p', _ :: q' => told_apart p' q'
  | _, _ => true
  end.

Lemma told_apart_sound p q segs vs us :
  told_apart p q = true → match_segments p segs = Some vs → match_segments q segs = Some us →
  False.
Proof.
  revert q segs vs us.
  induction p as [|[a|] p IH]; intros [|[b|] q] [|s segs] vs us; simpl; try done.
  - destruct (String.eqb a s) eqn:Ea, (String.eqb b s) eqn:Eb; try done. beq. subst.
    rewrite String.eqb_refl. simpl. apply IH.
  - destruct (String.eqb a s) eqn:Ea, (String.eqb s "") eqn:Eb; try done.
    intros Ht Hm Hq. destruct (match_segments q segs) eqn:E; [|done]. by eapply IH.
  - destruct (String.eqb s "") eqn:Ea, (String.eqb b s) eqn:Eb; try done.
    intros Ht Hm Hq. destruct (match_segments p segs) eqn:E; [|done]. by eapply IH.
  - destruct (String.eqb s "") eqn:Ea; [done|]. intros Ht Hm Hq.
    destruct (match_segments p segs) eqn:E; [|done].
    destruct (match_segments q segs) eqn:E'; [|done]. by eapply IH.
Qed.

Fixpoint all_apart (rs : list (string * list segment)) : bool :=
  match rs with
  | [] => true
  | (m, p) :: rs' =>
      forallb (λ '(m', q), negb (String.eqb m m') || told_apart p q) rs' && all_apart rs'
  end.

Lemma all_apart_lookup rs i j m p q :
  all_apart rs = true → rs !! i = Some (m, p) → rs !! j = Some (m, q) → i ≠ j →
  told_apart p q = true ∨ told_apart q p = true.
Proof.
  revert i j. induction rs as [|[m0 p0] rs IH]; intros [|i] [|j]; simpl; try done;
    intros [Hall Hrs]%andb_true_iff.
  - intros [= -> ->] Hj _. apply list_elem_of_lookup_2, list_elem_of_In in Hj.
    rewrite forallb_forall in Hall. specialize (Hall _ Hj). simpl in Hall.
    rewrite String.eqb_refl in Hall. by left.
  - intros Hi [= -> ->] _. apply list_elem_of_lookup_2, list_elem_of_In in Hi.
    rewrite forallb_forall in Hall. specialize (Hall _ Hi). simpl in Hall.
    rewrite String.eqb_refl in Hall. by right.
  - intros Hi Hj Hne. apply (IH i j); try done. congruence.
Qed.

Section route_table.
Context {W : Type} `{GoRuntime} `{NetURL} `{Lego} `{YAML}
  `{JSON CustomApp} `{JSON ManagedZone} `{JSON DDNSProviderConfig} `{JSON RuntimeSource}
  `{JSON AgentNode} `{JSON DeployTarget} `{JSON CertificateBundlePolicy}
  `{JSON agentRegistrationRequest}
  (env : Env) (host : Host) (calls : FileCalls) (srv : ApiServer W)
  (docker_client : RuntimeSource → result error apiClient)
  (systemSnapshot : W → W * result error SystemResources).

Definition route_keys : list (string * list segment) :=
  map (λ route, (rp_Method route, rp_Pattern route))
      (api_routes env host calls srv docker_client systemSnapshot).

Lemma route_keys_apart :
  all_apart route_keys = true ∧
  forallb (λ '(m, _), bool_decide (m ∈ ["GET"; "POST"; "PUT"; "DELETE"])) route_keys = true.
Proof. by vm_compute. Qed.

(** No request matches two of the registered patterns: which handler serves it
    does not depend on the order in which they are registered. *)
Theorem routes_disjoint i j route route' r vs vs' :
  api_routes env host calls srv docker_client systemSnapshot !! i = Some route →
  api_routes env host calls srv docker_client systemSnapshot !! j = Some route' →
  method_matches (rp_Method route) (hq_Method r) = true →
  method_matches (rp_Method route') (hq_Method r) = true →
  match_segments (rp_Pattern route) (hq_Segments r) = Some vs →
  match_segments (rp_Pattern route') (hq_Segments r) = Some vs' → i = j.
Proof.
  intros Hi Hj Hm Hm' Hs Hs'. destruct (decide (i = j)) as [|Hne]; [done|exfalso].
  destruct route_keys_apart as [Hapart Hmethods].
  assert (route_keys !! i = Some (rp_Method route, rp_Pattern route)) as Ki.
  { unfold route_keys. rewrite list_lookup_fmap. by rewrite Hi. }
  assert (route_keys !! j = Some (rp_Method route', rp_Pattern route')) as Kj.
  { unfold route_keys. rewrite list_lookup_fmap. by rewrite Hj. }
  rewrite forallb_forall in Hmethods.
  assert (rp_Method route ≠ "HEAD" ∧ rp_Method route' ≠ "HEAD") as [N1 N2].
  { split; intros E; [pose proof Ki as K|pose proof Kj as K];
      apply list_elem_of_lookup_2, list_elem_of_In, Hmethods in K; rewrite E in K; done. }
  assert (rp_Method route' = rp_Method route) as E.
  { unfold method_matches in Hm, Hm'.
    apply orb_true_iff in Hm as [Hm|Hm], Hm' as [Hm'|Hm']; beq; congruence. }
  rewrite E in Kj.
  destruct (all_apart_lookup _ i j _ _ _ Hapart Ki Kj Hne) as [Ht|Ht];
    by eapply told_apart_sound.
Qed.
End route_table.
