(* ===== verification/Program.v ===== *)
(** The program as a whole: requests of the API, jobs of the scheduler and
    start-up tasks on the running server and its configuration file, one after
    the other, and what they keep true together. *)

From S2P Require Import Prelude GoStrings GoRuntime Core Registry Config Store Proxy Ddns Sys Discovery Agent Routes Certs Mutations Main Api.

(** ** What jobs and actions leave alone *)

(** The tables that only a reload changes. *)
Definition same_config (st st' : MemoryStore) : Prop :=
  st_zones st' = st_zones st ∧ st_providers st' = st_providers st ∧
  st_apps st' = st_apps st ∧ st_targets st' = st_targets st.

#[export] Instance same_config_refl : Reflexive same_config.
Proof. by intros st. Qed.
#[export] Instance same_config_trans : Transitive same_config.
Proof. intros a b c (E1 & E2 & E3 & E4) (F1 & F2 & F3 & F4). split_and!; congruence. Qed.

Section ddns_frame.
Context `{GoRuntime} {W S : Type} `{World W} `{StateStore S} (R : relation S)
  `{!Reflexive R} `{!Transitive R}.
Hypothesis PutSyncState_R : ∀ state st, R st (PutSyncState state st).1.

Lemma put_state_R svc state st : R st (put_state (W:=W) svc state st).1.
Proof. unfold put_state. case_split; [apply PutSyncState_R|done]. Qed.

Lemma syncRecord_R svc ref zone host t v st (w : W) :
  R st (syncRecord svc ref zone host t v st w).2.1.
Proof.
  unfold syncRecord. case_split; [done|]. destruct (ResolveAuthZone _ _); [|done].
  case_split.
  { match goal with |- context [PutSyncState ?x st] => pose proof (PutSyncState_R x st) end.
    by destruct (PutSyncState _ st). }
  destruct (Upsert _ _ _) as [w' [e|]];
    match goal with |- context [put_state svc ?x st] => pose proof (put_state_R svc x st) end;
    by destruct (put_state _ _ _).
Qed.

Lemma sync_into_R svc ref zone t v acc host :
  R (acc_store acc) (acc_store (sync_into (W:=W) svc ref zone t v acc host)).
Proof.
  unfold sync_into.
  pose proof (syncRecord_R svc ref zone host t v (acc_store acc) (acc_world acc)) as Hs.
  by destruct (syncRecord _ _ _ _ _ _ _ _) as [[state err] [st w]].
Qed.

Lemma sync_family_R svc ref zone enabled t v acc :
  R (acc_store acc) (acc_store (sync_family (W:=W) svc ref zone enabled t v acc)).
Proof.
  unfold sync_family. case_split; [|done]. case_split; [|apply sync_into_R].
  etrans; apply sync_into_R.
Qed.

Lemma sync_provider_R svc zone snap acc ref :
  R (acc_store acc) (acc_store (sync_provider (W:=W) svc zone snap acc ref)).
Proof. unfold sync_provider. case_split; [done|]. etrans; apply sync_family_R. Qed.

Lemma sync_providers_R svc zone snap refs acc :
  R (acc_store acc) (acc_store (foldl (sync_provider (W:=W) svc zone snap) acc refs)).
Proof.
  revert acc. induction refs as [|ref refs IH]; intros acc; simpl; [done|].
  etrans; [apply sync_provider_R|apply IH].
Qed.

Lemma SyncZone_R svc zone st (w : W) : R st (SyncZone svc zone st w).2.1.
Proof.
  unfold SyncZone. case_split; [done|]. destruct (sv_Detector svc) as [detect|]; [|done].
  destruct (detect _ _) as [snap [e|]]; [case_split; [done|]|];
    match goal with |- context [foldl _ ?a ?l] => exact (sync_providers_R svc zone snap l a) end.
Qed.
End ddns_frame.

Section frames.
Context {W : Type} `{OS W} `{HTTP W} `{Crypto W} `{Lego} `{!Challenges W} `{!AcmeClient W}
  `{!World W} `{GoRuntime} `{NetURL} `{Nat} `{JSON DeployRequest} `{JSON DeployResult}
  `{JSON InfoResponse} (env : Env) (ric : bool) (NewNSResolver : string → IO W string).

(** An action that keeps these tables. *)
Definition keeps_config (action : Action (W:=W)) : Prop :=
  ∀ s w, same_config (ss_store s) (ss_store (action s w).1.1).

Lemma recordJob_keeps name action : keeps_config action → keeps_config (recordJob name action).
Proof.
  intros Ha s w. unfold recordJob. destruct (Sys.Now w) as [w1 t1]. specialize (Ha s w1).
  destruct (action s w1) as [[s' w2] err]. by destruct (Sys.Now w2).
Qed.

Lemma startAsyncTask_keeps name task : keeps_config task → keeps_config (startAsyncTask name task).
Proof.
  intros Ha s w. unfold startAsyncTask. destruct (Sys.Now w) as [w1 t1]. specialize (Ha s w1).
  destruct (task s w1) as [[s' w2] err]. case_split; [done|]. by destruct (Sys.Now w2).
Qed.

Lemma refreshRoutesWithDiscoverers_keeps source ds pool st rt :
  same_config st (refreshRoutesWithDiscoverers env ric source ds pool st rt).1.1.
Proof.
  unfold refreshRoutesWithDiscoverers. destruct (selectedDiscoverers ds source); [|done].
  destruct (refreshed_routes _ _ _ _) as [[? ?] ?]. by destruct (discoverAllSnapshots _).
Qed.

Lemma refreshRoutes_keeps source : keeps_config (refreshRoutes env ric source).
Proof.
  intros s w. unfold refreshRoutes.
  match goal with |- context [refreshRoutesWithDiscoverers env ric ?a ?b ?c ?d ?e] =>
    pose proof (refreshRoutesWithDiscoverers_keeps a b c d e) end.
  by destruct (refreshRoutesWithDiscoverers _ _ _ _ _ _ _) as [[st t] err].
Qed.

Lemma local_refresh_keeps prepared : keeps_config (local_refresh env ric prepared).
Proof.
  intros s w. unfold local_refresh.
  match goal with |- context [refreshRoutesWithDiscoverers env ric ?a ?b ?c ?d ?e] =>
    pose proof (refreshRoutesWithDiscoverers_keeps a b c d e) end.
  by destruct (refreshRoutesWithDiscoverers _ _ _ _ _ _ _) as [[st t] err].
Qed.

Lemma put_agents_keeps nodes st :
  same_config st (foldl (λ st node, PutAgent node st) st nodes).
Proof.
  revert st. induction nodes as [|n nodes IH]; intros st; simpl; [done|].
  etrans; [|apply IH]. done.
Qed.

Lemma refreshAgentStore_keeps number : keeps_config (refreshAgentStore number).
Proof.
  intros s w. unfold refreshAgentStore. destruct (pool_of number s) as [pool|]; [|done].
  destruct (RefreshAll pool w) as [[pool' w'] nodes]. apply put_agents_keeps.
Qed.

Lemma put_keeps state st : same_config st (PutSyncState state st).1.
Proof. done. Qed.

Lemma sync_zones_keeps service zones st (w : W) :
  same_config st (sync_zones service zones st w).1.1.
Proof.
  revert st w. induction zones as [|z zones IH]; intros st w; simpl; [done|].
  case_split; [apply IH|].
  pose proof (SyncZone_R same_config put_keeps service z st w) as Hz.
  destruct (SyncZone service z st w) as [[states err] [st1 w1]]. specialize (IH st1 w1).
  destruct (sync_zones service zones st1 w1) as [[st2 w2] errs]. etrans; [exact Hz|exact IH].
Qed.

Lemma syncDDNS_keeps service zones : keeps_config (syncDDNS service zones).
Proof.
  intros s w. unfold syncDDNS. destruct service as [service|]; [|done].
  destruct (sv_Detector service); [|done].
  pose proof (sync_zones_keeps service zones (ss_store s) w).
  by destruct (sync_zones _ _ _ _) as [[st w'] errs].
Qed.

Lemma sync_frame_same (s s' : ServerState W) :
  sync_frame s s' → same_config (ss_store s) (ss_store s').
Proof. by intros (m & runs & tls & ->). Qed.

Lemma syncCertificateRequests_keeps force manager requests providers :
  keeps_config (syncCertificateRequests NewNSResolver force manager requests providers).
Proof.
  intros s w. unfold syncCertificateRequests.
  pose proof (sync_requests_spec NewNSResolver force manager providers requests s w) as Hs.
  destruct (sync_requests _ _ _ _ _ _ _) as [[s' w'] errs]. destruct Hs as [Hf _]. by apply sync_frame_same.
Qed.

Lemma deploy_bundles_keeps bundles target (s : ServerState W) w :
  same_config (ss_store s) (ss_store (deploy_bundles bundles target s w).1.1).
Proof.
  revert s w. induction bundles as [|b bundles IH]; intros s w; simpl; [done|].
  destruct (if negb _ then _ else _) as [|t ts]; [apply IH|].
  pose proof (deployBundle_frame b (t :: ts) s w) as Hd.
  destruct (deployBundle b (t :: ts) s w) as [[s1 w1] err]. destruct Hd as [Hd _].
  specialize (IH s1 w1). destruct (deploy_bundles bundles target s1 w1) as [[s2 w2] errs].
  etrans; [by apply sync_frame_same|done].
Qed.

Lemma deployStoredBundles_keeps bundles target : keeps_config (deployStoredBundles bundles target).
Proof.
  intros s w. unfold deployStoredBundles. pose proof (deploy_bundles_keeps bundles target s w).
  by destruct (deploy_bundles _ _ _ _) as [[s' w'] errs].
Qed.

Lemma run_action_keeps manager a req :
  keeps_config (run_action env ric NewNSResolver manager a req).
Proof.
  apply recordJob_keeps. intros s w. destruct a.
  - unfold manualRefreshRoutes. destruct (selectedDiscoverers _ _); [|done].
    apply refreshRoutes_keeps.
  - unfold manualSyncDDNS. destruct (selectedZones _ _); [|done]. apply syncDDNS_keeps.
  - unfold manualRenewCertificates. case_split; [done|].
    destruct (selectedCertificateRequests _ _ _); [|done]. apply syncCertificateRequests_keeps.
  - unfold manualDeployCertificates. destruct (selectedStoredBundles _ _ _); [|done].
    destruct (selectedDeployTarget _ _); [|done]. apply deployStoredBundles_keeps.
Qed.

Lemma registerJobs_keeps manager name interval job :
  (name, interval, job) ∈ registerJobs env ric NewNSResolver manager → keeps_config job.
Proof.
  unfold registerJobs. rewrite !elem_of_cons, elem_of_nil.
  intros [[= _ _ ->]|[[= _ _ ->]|[[= _ _ ->]|[[= _ _ ->]|[]]]]]; apply recordJob_keeps.
  - apply refreshRoutes_keeps.
  - intros s w. apply refreshAgentStore_keeps.
  - intros s w. apply syncDDNS_keeps.
  - intros s w. unfold certificates_sync.
    destruct (buildCertificateRequests _) as [requests [e|]]; [done|].
    apply syncCertificateRequests_keeps.
Qed.

Lemma startup_tasks_keep prepared manager requests task :
  task ∈ startup_tasks env ric NewNSResolver prepared manager requests → keeps_config task.
Proof.
  unfold startup_tasks. rewrite !elem_of_cons, elem_of_nil.
  intros [->|[->|[->|[->|[->|[]]]]]]; apply startAsyncTask_keeps.
  - apply local_refresh_keeps.
  - apply refreshAgentStore_keeps.
  - apply refreshRoutes_keeps.
  - intros s w. apply syncDDNS_keeps.
  - intros s w. apply syncCertificateRequests_keeps.
Qed.

Lemma reload_tasks_keep number task :
  task ∈ reload_tasks env ric number → keeps_config task.
Proof.
  unfold reload_tasks. rewrite !elem_of_cons, elem_of_nil.
  intros [->|[->|[]]]; apply startAsyncTask_keeps;
    [apply refreshAgentStore_keeps|apply refreshRoutes_keeps].
Qed.
End frames.

(** ** Running a configuration *)

(** The running program shows exactly the zones, providers, applications and
    deploy targets of the configuration. *)
Definition runs `{GoRuntime} (cfg : Config) (st : MemoryStore) : Prop :=
  (∀ z, z ∈ ListDomains st ↔ z ∈ c_Zones cfg) ∧
  (∀ p, p ∈ ListDDNSProviders st ↔ p ∈ c_DDNSProviders cfg) ∧
  (∀ a, a ∈ ListCustomApps st ↔ a ∈ c_Apps cfg) ∧
  (∀ t, t ∈ ListDeployTargets st ↔ t ∈ c_DeployTargets cfg).

Section running.
Context `{GoRuntime} `{NetURL} `{Lego} (env : Env).

Lemma runs_same cfg st st' : same_config st st' → runs cfg st → runs cfg st'.
Proof.
  intros (Ez & Ep & Ea & Et). unfold runs, ListDomains, ListDDNSProviders, ListCustomApps,
    ListDeployTargets. by rewrite Ez, Ep, Ea, Et.
Qed.

Lemma elem_of_keyedMap {A} (key : A → string) l x :
  NoDup (map key l) → x ∈ sort_by key (map_values (keyedMap l key)) ↔ x ∈ l.
Proof.
  intros Hnd. rewrite elem_of_sort_by, elem_of_map_values. setoid_rewrite keyedMap_lookup.
  split; [by intros (k & [? _]%find_last_Some)|]. intros Hx. exists (key x).
  by apply find_last_unique.
Qed.

Lemma runs_seeded cfg st : config_ok env cfg → runs cfg (seeded env cfg st).
Proof.
  intros Hok. split_and!.
  - intros z. rewrite seeded_domains. by apply (seeded_zones env).
  - intros p. apply elem_of_keyedMap, Hok.
  - intros a. apply elem_of_keyedMap, Hok.
  - intros t. apply elem_of_keyedMap, Hok.
Qed.

Lemma prune_same st : same_config st (pruneUnmanagedBundles st).1.
Proof.
  unfold pruneUnmanagedBundles. destruct (configuredBundleNames _) as [managed [e|]]; [done|].
  by destruct (prune_fold managed (ListBundles st) st) as (m & -> & _).
Qed.

Lemma seed_runs cfg st :
  config_ok env cfg → runs cfg (seedConfigState env st cfg).1.
Proof.
  intros Hok. rewrite seedConfigState_eq.
  apply (runs_same _ (seeded env cfg st)); [apply prune_same|by apply runs_seeded].
Qed.

(** A valid configuration whose zones have their defaults, as loading and
    updating leave it. *)
Definition loaded (cfg : Config) : Prop :=
  config_ok env cfg ∧ ∃ zones, c_Zones cfg = map zone_defaults zones.

Lemma loaded_plans cfg st :
  loaded cfg → plans_valid (ListDomains (seeded env cfg st)).
Proof.
  intros [Hok [zones Hz]] z Hin He. rewrite seeded_domains in Hin.
  apply (seeded_zones env) in Hin; [|done].
  destruct (config_ok_zone env cfg zones z Hok Hz Hin) as (_ & _ & _ & Hp).
  by destruct (Hp He) as (_ & plans & -> & _).
Qed.

Lemma Manager_Update_loaded `{YAML} m calls fs mutator fs' cfg :
  Manager_Update env m calls fs mutator = (fs', Ok cfg) → loaded cfg.
Proof.
  intros Hu. pose proof (Manager_Update_spec env m calls fs mutator) as Hs. rewrite Hu in Hs.
  destruct Hs as (Hok & (cfg0 & cfg1 & _ & _ & ->) & _). split; [done|].
  by exists (c_Zones cfg1).
Qed.

Context {W : Type} `{World W} `{Nat} (ric : bool)
  (docker_client : RuntimeSource → result error apiClient)
  (agent_client : Client → result error apiClient).

Lemma syncPool_same pool st : same_config st (syncPoolNodesToStore pool st).
Proof. by rewrite syncPoolNodesToStore_eq. Qed.

#[local] Notation clients_ok := (clients_ok env docker_client agent_client).

(** A reload with such a configuration either runs it, or changes nothing:
    exactly when its clients cannot be created. *)
Lemma reload_runs cfg (s : ServerState W) w :
  loaded cfg →
  let '(s', w', err) := reloadManagedConfig env ric docker_client agent_client cfg s w in
  w' = w ∧
  match err with
  | None => clients_ok cfg ∧ runs cfg (ss_store s')
  | Some _ => ¬ clients_ok cfg ∧ s' = s
  end.
Proof.
  intros Hl. pose proof Hl as [Hok _]. unfold reloadManagedConfig.
  pose proof (buildRuntime_spec env ric docker_client agent_client cfg) as Hb.
  destruct (buildRuntime _ _ _ _ cfg) as [prepared|e]; [|done]. destruct Hb as [Hclients _].
  destruct (initDDNS_Ok (W:=W) env cfg Hok) as (service & -> & _).
  pose proof (seed_runs cfg (ss_store s) Hok) as Hruns.
  assert ((seedConfigState env (ss_store s) cfg).2 = None) as Herr.
  { rewrite seedConfigState_eq. unfold pruneUnmanagedBundles.
    pose proof (proj2 (configuredBundleNames_err _) (loaded_plans cfg (ss_store s) Hl)) as E.
    destruct (configuredBundleNames _) as [managed err]. simpl in E. by subst err. }
  destruct (seedConfigState env (ss_store s) cfg) as [st err]. simpl in Herr, Hruns. subst err.
  match goal with |- context [refreshRoutesWithDiscoverers ?a ?b "" ?d ?e ?f ?g] =>
    destruct (refresh_all_eq a b d e f g) as (routes & apps & table & e' & ->) end.
  split_and!; [done|done|].
  apply (runs_same _ (syncPoolNodesToStore (pr_pool prepared) st)); [done|].
  by apply (runs_same _ st); [apply syncPool_same|].
Qed.
End running.

(** ** Requests *)
Section requests.
Context {W : Type} `{OS W} `{HTTP W} `{Crypto W} `{Lego} `{!Challenges W} `{!AcmeClient W}
  `{!World W} `{GoRuntime} `{NetURL} `{Nat} `{YAML}
  `{JSON DeployRequest} `{JSON DeployResult} `{JSON InfoResponse}
  `{JSON CustomApp} `{JSON ManagedZone} `{JSON DDNSProviderConfig} `{JSON RuntimeSource}
  `{JSON AgentNode} `{JSON DeployTarget} `{JSON CertificateBundlePolicy}
  `{JSON agentRegistrationRequest}
  (env : Env) (ric : bool) (NewNSResolver : string → IO W string) (host : Host)
  (docker_client : RuntimeSource → result error apiClient)
  (agent_client : Client → result error apiClient)
  (systemSnapshot : W → W * result error SystemResources)
  (certificates : Certs.Manager W) (manager : Config.Manager).

(** The API as [runServerWithContext] builds it. *)
Definition program_api : ApiServer W :=
  {| sv_actions a := Some (run_action env ric NewNSResolver certificates a);
     sv_configManager := Some manager;
     sv_reload := Some (reloadManagedConfig env ric docker_client agent_client) |}.

Notation stored s := (as_files s !! Manager_Path manager).
Notation store s := (ss_store (as_server s)).

(** The file holds a configuration that the program runs, or the file is the
    one it started from. *)
Definition saved_config (cfg : Config) (s : ApiState W) : Prop :=
  ∃ data, yaml_Marshal (MarshalYAML cfg) = Ok data ∧ stored s = Some data.

#[local] Notation clients_ok := (clients_ok env docker_client agent_client).

(** What a request does to the configuration: nothing; or it stores one and
    runs it; or it stores one whose clients cannot be created, and then
    nothing that runs changes. *)
Definition kept_config (s s' : ApiState W) : Prop :=
  stored s' = stored s ∧ same_config (store s) (store s').
Definition new_config (cfg : Config) (s' : ApiState W) : Prop :=
  loaded env cfg ∧ clients_ok cfg ∧ saved_config cfg s' ∧ runs cfg (store s').
Definition stored_only (cfg : Config) (s s' : ApiState W) : Prop :=
  loaded env cfg ∧ ¬ clients_ok cfg ∧ saved_config cfg s' ∧ as_server s' = as_server s.

Lemma updateConfig_spec calls mutate s w :
  let '(s', w', r) := updateConfig env calls program_api mutate s w in
  w' = w ∧
  match r with
  | Ok cfg => new_config cfg s' ∧
      ∃ cfg0 cfg1, LoadFile env calls (as_files s) (Manager_Path manager) = Ok cfg0 ∧
        mutate cfg0 = Ok cfg1 ∧ cfg = c_with_Zones (map zone_defaults (c_Zones cfg1)) cfg1
  | Err _ => as_server s' = as_server s ∧
      (stored s' = stored s ∨ ∃ cfg, stored_only cfg s s')
  end.
Proof.
  unfold updateConfig. cbn [program_api sv_configManager sv_reload].
  pose proof (Manager_Update_spec env manager calls (as_files s) mutate) as Hs.
  destruct (Manager_Update env manager calls (as_files s) mutate) as [fs [cfg|e]] eqn:Eu;
    [|split_and!; [done..|by left]].
  apply Manager_Update_loaded in Eu. destruct Hs as (_ & Hex & data & Hdata & Hfs).
  pose proof (reload_runs (W:=W) env ric docker_client agent_client cfg (as_server s) w Eu) as Hr.
  destruct (reloadManagedConfig _ _ _ _ _ _ _) as [[server w'] [e|]].
  - destruct Hr as (-> & Hc & ->). split_and!; [done..|]. right. exists cfg.
    do 2 (split; [done|]). split; [by exists data|done].
  - destruct Hr as (-> & Hc & Hruns). split; [done|]. split; [|exact Hex].
    do 2 (split; [done|]). split; [by exists data|done].
Qed.

Lemma writeMutationError_status e : (400 ≤ rp_Status (writeMutationError e))%Z.
Proof. unfold writeMutationError. by repeat case_split. Qed.

(** What a route may do: read; change the configuration; or act on the
    running program without touching the configuration. *)
Inductive route_class := Reads | Changes | Acts.

Definition has_lit (l : string) (pattern : list segment) : bool :=
  existsb (λ sg, match sg with Lit l' => String.eqb l l' | Var => false end) pattern.

Definition class_of (method : string) (pattern : list segment) : route_class :=
  if String.eqb method "GET" then Reads
  else if has_lit "actions" pattern || has_lit "register" pattern ||
          (String.eqb method "DELETE" && has_lit "pending" pattern)
       then Acts else Changes.

Definition success (status : Z) : Prop := (200 ≤ status < 300)%Z.

(** A request that changes the configuration stores and runs a new one and
    says so; or it fails, having changed nothing, or having stored a
    configuration whose clients cannot be created. *)
Definition class_ok (c : route_class) (s s' : ApiState W) (rep : Reply) : Prop :=
  match c with
  | Reads => s' = s
  | Changes => kept_config s s' ∧ ¬ success (rp_Status rep) ∨
               (∃ cfg, new_config cfg s' ∧ success (rp_Status rep)) ∨
               (∃ cfg, stored_only cfg s s' ∧ ¬ success (rp_Status rep))
  | Acts => kept_config s s'
  end.

Definition handler_ok (c : route_class) (h : Handler) : Prop :=
  ∀ s w, let '(s', _, rep) := h s w in class_ok c s s' rep.

Lemma kept_refl s : kept_config s s.
Proof. done. Qed.

Lemma reply_fails status body : (400 ≤ status)%Z → ¬ success (rp_Status (reply status body)).
Proof. unfold success. simpl. lia. Qed.

Section handlers.
Context (calls : FileCalls).

(** The end of a change that failed. *)
Lemma update_failed s s' e :
  as_server s' = as_server s ∧ (stored s' = stored s ∨ ∃ cfg, stored_only cfg s s') →
  class_ok Changes s s' (writeMutationError e).
Proof.
  assert (¬ success (rp_Status (writeMutationError e))) as Hf.
  { pose proof (writeMutationError_status e). unfold success. lia. }
  intros [E [Ef|[cfg Hc]]]; [left|right; right; by exists cfg].
  split; [|done]. split; [done|by rewrite E].
Qed.

Lemma mutation_ok mutate done :
  success (rp_Status done) → handler_ok Changes (mutation env calls program_api mutate done).
Proof.
  intros Hdone s w. unfold mutation. pose proof (updateConfig_spec calls mutate s w) as Hu.
  destruct (updateConfig _ _ _ _ _ _) as [[s' w'] [cfg|e]].
  - right; left. exists cfg. destruct Hu as (_ & ? & _). by split.
  - by apply update_failed, Hu.
Qed.

Lemma fixed_ok c status body : (400 ≤ status)%Z ∨ c ≠ Changes →
  handler_ok c (fixed (reply status body)).
Proof.
  intros Hc s w. simpl. destruct c; [done| |apply kept_refl].
  left. split; [apply kept_refl|]. apply reply_fails. by destruct Hc.
Qed.

Lemma with_config_ok k :
  handler_ok Changes k → handler_ok Changes (with_config program_api k).
Proof. done. Qed.

Lemma with_name_ok c value missing k :
  (∀ name, handler_ok c (k name)) → handler_ok c (with_name value missing k).
Proof. intros Hk. unfold with_name. case_split; [apply fixed_ok; left; simpl; lia|apply Hk]. Qed.

Lemma with_body_ok {A} c (body : result error A) k :
  (∀ a, handler_ok c (k a)) → handler_ok c (with_body body k).
Proof. intros Hk. destruct body; [apply Hk|apply fixed_ok; left; simpl; lia]. Qed.

Lemma createZoneBundle_ok value r :
  handler_ok Changes (createZoneBundle env calls program_api value r).
Proof.
  apply with_config_ok, with_name_ok. intros name. apply with_body_ok. intros bundle.
  case_split; [apply fixed_ok; left; simpl; lia|by apply mutation_ok].
Qed.

Lemma approvePendingAgent_ok value :
  handler_ok Changes (approvePendingAgent env calls program_api value).
Proof.
  apply with_config_ok, with_name_ok. intros name s w.
  destruct (List.find _ _) as [pending|]; [|left; split; [done|by apply reply_fails]].
  pose proof (updateConfig_spec calls (approve_agent pending) s w) as Hu.
  destruct (updateConfig _ _ _ _ _ _) as [[s' w'] [cfg|e]].
  - right; left. destruct Hu as (_ & (Hl & Hc & Hsaved & Hruns) & _). exists cfg.
    split; [|done]. split_and!; [done|done|done|]. by apply (runs_same _ (store s')).
  - by apply update_failed, Hu.
Qed.

Lemma runAction_ok a message r : handler_ok Acts (runAction program_api a message r).
Proof.
  intros s w. unfold runAction. cbn [program_api sv_actions].
  pose proof (run_action_keeps env ric NewNSResolver certificates a (action_request r)
    (as_server s) w) as Hk.
  destruct (run_action _ _ _ _ _ _ _ _) as [[server w'] err]. by split.
Qed.

Lemma registerAgent_ok r : handler_ok Acts (registerAgent r).
Proof.
  apply with_body_ok. intros req. cbv zeta. destruct (AgentNode_Validate _); [apply fixed_ok; left; simpl; lia|]. by intros s w.
Qed.

Lemma deletePendingAgent_ok value : handler_ok Acts (deletePendingAgent value).
Proof. apply with_name_ok. by intros name s w. Qed.

Lemma listNodeResources_ok : handler_ok Reads (listNodeResources systemSnapshot).
Proof. intros s w. unfold listNodeResources. by destruct (systemSnapshot w). Qed.

Lemma listDockerNetworks_ok r : handler_ok Reads (listDockerNetworks env docker_client r).
Proof.
  intros s w. unfold listDockerNetworks, fixed. by repeat case_split.
Qed.

Definition routes : list route_pattern :=
  api_routes env host calls program_api docker_client systemSnapshot.

(** Every route does what its method and pattern say. *)
Definition route_ok (route : route_pattern) : Prop :=
  ∀ vs r, handler_ok (class_of (rp_Method route) (rp_Pattern route)) (rp_Handler route vs r).

Create HintDb routes_db discriminated.
#[local] Hint Resolve with_config_ok with_name_ok with_body_ok createZoneBundle_ok
  approvePendingAgent_ok runAction_ok registerAgent_ok deletePendingAgent_ok
  listNodeResources_ok listDockerNetworks_ok : routes_db.

Ltac solve_route :=
  intros vs r;
  match goal with |- handler_ok ?c ?h =>
    let c' := eval vm_compute in c in change (handler_ok c' h) end;
  cbn [rp_Method rp_Pattern rp_Handler at_path]; unfold list_of; unfold on0, on1, on2;
  solve [auto with routes_db | by intros s w
        | apply with_name_ok; intros; by intros s w
        | apply with_config_ok;
          repeat (first [apply with_name_ok | apply with_body_ok]; intros);
          by apply mutation_ok].

Lemma zone_routes_ok zones :
  zones = "zones" ∨ zones = "domains" →
  List.Forall route_ok (zone_routes env calls program_api zones).
Proof.
  intros [-> | ->]; repeat (apply List.Forall_cons; [solve_route|]); apply List.Forall_nil.
Qed.

Lemma routes_ok : List.Forall route_ok routes.
Proof.
  unfold routes, api_routes. apply List.Forall_app. split; [|apply List.Forall_app; split;
    [apply zone_routes_ok; by left|apply List.Forall_app; split; [apply zone_routes_ok; by right|]]].
  - apply List.Forall_cons; [solve_route|apply List.Forall_nil].
  - repeat (apply List.Forall_cons; [solve_route|]); apply List.Forall_nil.
Qed.

(** The route that serves a request, with the values of its pattern. *)
Fixpoint find_route (routes : list (route_pattern (W:=W))) (r : HttpRequest)
  : option (route_pattern (W:=W) * list string) :=
  match routes with
  | [] => None
  | route :: routes' =>
      if method_matches (rp_Method route) (hq_Method r) then
        match match_segments (rp_Pattern route) (hq_Segments r) with
        | Some vs => Some (route, vs)
        | None => find_route routes' r
        end
      else find_route routes' r
  end.

Lemma dispatch_find (rs : list (route_pattern (W:=W))) r :
  dispatch rs r = match find_route rs r with
                  | Some (route, vs) => rp_Handler route vs r
                  | None => fixed (reply 200 UIBody)
                  end.
Proof.
  induction rs as [|route rs IH]; simpl; [done|]. case_split; [|done].
  by destruct (match_segments _ _).
Qed.

Lemma find_route_Some rs r route vs :
  find_route rs r = Some (route, vs) →
  route ∈ rs ∧ method_matches (rp_Method route) (hq_Method r) = true ∧
  match_segments (rp_Pattern route) (hq_Segments r) = Some vs.
Proof.
  induction rs as [|route' rs IH]; simpl; [done|]. rewrite elem_of_cons.
  assert (find_route rs r = Some (route, vs) →
    (route = route' ∨ route ∈ rs) ∧ method_matches (rp_Method route) (hq_Method r) = true ∧
    match_segments (rp_Pattern route) (hq_Segments r) = Some vs) as Hrest.
  { intros E. destruct (IH E) as (Hin & ?). by split; [right|]. }
  destruct (method_matches (rp_Method route') (hq_Method r)) eqn:Em; [|exact Hrest].
  destruct (match_segments (rp_Pattern route') (hq_Segments r)) eqn:Es; [|exact Hrest].
  intros [= <- <-]. split; [by left|done].
Qed.

Lemma serve_spec r s w :
  let '(s', _, rep) :=
    serve env host calls program_api docker_client systemSnapshot r s w in
  match find_route routes r with
  | Some (route, _) => class_ok (class_of (rp_Method route) (rp_Pattern route)) s s' rep
  | None => s' = s
  end.
Proof.
  change (serve env host calls program_api docker_client systemSnapshot r)
    with (dispatch routes r). rewrite dispatch_find.
  destruct (find_route routes r) as [[route vs]|] eqn:E; [|done].
  apply find_route_Some in E as [Hin _]. pose proof routes_ok as Hall.
  rewrite List.Forall_forall in Hall. apply list_elem_of_In in Hin.
  exact (Hall route Hin vs r s w).
Qed.
End handlers.

(** ** The program, one step at a time *)

(** A request, a job, a start-up task, a task that a reload started, or an
    event of a runtime. *)
Inductive program_step : ApiState W → ApiState W → Prop :=
| step_request calls r s w s' w' rep :
    serve env host calls program_api docker_client systemSnapshot r s w = (s', w', rep) →
    program_step s s'
| step_job name interval job s w server w' err :
    (name, interval, job) ∈ registerJobs env ric NewNSResolver certificates →
    job (as_server s) w = (server, w', err) →
    program_step s {| as_server := server; as_files := as_files s |}
| step_task prepared requests task s w server w' err :
    task ∈ startup_tasks env ric NewNSResolver prepared certificates requests →
    task (as_server s) w = (server, w', err) →
    program_step s {| as_server := server; as_files := as_files s |}
| step_reload_task number task s w server w' err :
    task ∈ reload_tasks env ric number →
    task (as_server s) w = (server, w', err) →
    program_step s {| as_server := server; as_files := as_files s |}
| step_event source s w server w' err :
    refreshRoutes env ric source (as_server s) w = (server, w', err) →
    program_step s {| as_server := server; as_files := as_files s |}.

Lemma keeps_kept (action : Action (W:=W)) s w server w' err :
  keeps_config action → action (as_server s) w = (server, w', err) →
  kept_config s {| as_server := server; as_files := as_files s |}.
Proof.
  intros Hk Ha. specialize (Hk (as_server s) w). rewrite Ha in Hk. by split.
Qed.

Lemma program_step_config s s' :
  program_step s s' →
  kept_config s s' ∨ (∃ cfg, new_config cfg s') ∨ (∃ cfg, stored_only cfg s s').
Proof.
  destruct 1 as [calls r s w s' w' rep Hs|name interval job s w server w' err Hin Hj
    |prepared requests task s w server w' err Hin Ht|number task s w server w' err Hin Ht
    |source s w server w' err He].
  - pose proof (serve_spec calls r s w) as Hc. rewrite Hs in Hc.
    destruct (find_route _ _) as [[route vs]|]; [|left; by subst].
    destruct (class_of _ _); simpl in Hc; [left; by subst|naive_solver|by left].
  - left. eapply keeps_kept; [|done]. by eapply registerJobs_keeps.
  - left. eapply keeps_kept; [|done]. by eapply startup_tasks_keep.
  - left. eapply keeps_kept; [|done]. by eapply reload_tasks_keep.
  - left. eapply keeps_kept; [|done]. apply refreshRoutes_keeps.
Qed.

Lemma startup_runs cfg (s : ServerState W) :
  config_ok env cfg → startup (W:=W) env ric docker_client agent_client cfg = Ok s →
  clients_ok cfg ∧ runs cfg (ss_store s).
Proof using H3 H4 H2 World0 H5.
  intros Hok. unfold startup. pose proof (seed_runs env cfg NewMemoryStore Hok) as Hr.
  destruct (seedConfigState env NewMemoryStore cfg) as [st [e|]]; [done|].
  pose proof (buildRuntime_spec env ric docker_client agent_client cfg) as Hb.
  destruct (buildRuntime _ _ _ _ _) as [prepared|]; [|done]. destruct Hb as [Hc _].
  destruct (initDDNS cfg) as [[[registry service] refs]|]; [|done].
  destruct (buildCertificateRequests _) as [reqs [e|]]; [done|]. intros [= <-].
  split; [done|]. apply (runs_same _ st); [apply syncPool_same|done].
Qed.

(** The configuration that runs, and what the file holds. *)
Definition in_sync (fs0 : Files) (cfg0 : Config) (s : ApiState W) : Prop :=
  ∃ cfg, loaded env cfg ∧ clients_ok cfg ∧ runs cfg (store s) ∧
    (saved_config cfg s ∨ cfg = cfg0 ∧ stored s = fs0 !! Manager_Path manager ∨
     ∃ cfg', loaded env cfg' ∧ ¬ clients_ok cfg' ∧ saved_config cfg' s).

Lemma step_in_sync fs0 cfg0 s s' :
  in_sync fs0 cfg0 s → program_step s s' → in_sync fs0 cfg0 s'.
Proof.
  intros (cfg & Hl & Hc & Hruns & Hfile)
    [[Ef Hsame]|[(cfg1 & Hl1 & Hc1 & Hsaved & Hruns1)|(cfg1 & Hl1 & Hc1 & Hsaved & E)]]
    %program_step_config.
  - exists cfg. split_and!; [done|done|by apply (runs_same _ (store s))|].
    unfold saved_config in *. by rewrite Ef.
  - exists cfg1. split_and!; [done..|]. by left.
  - exists cfg. split_and!; [done|done|by rewrite E|]. right; right. by exists cfg1.
Qed.

Lemma program_in_sync calls0 fs0 cfg0 s0 s :
  LoadFile env calls0 fs0 (Manager_Path manager) = Ok cfg0 →
  startup (W:=W) env ric docker_client agent_client cfg0 = Ok s0 →
  rtc program_step {| as_server := s0; as_files := fs0 |} s → in_sync fs0 cfg0 s.
Proof.
  intros Hload Hstart. apply (LoadFile_Ok env) in Hload. intros Hr.
  apply (rtc_ind_r (R:=program_step) (in_sync fs0 cfg0)
    {| as_server := s0; as_files := fs0 |}); [| |done].
  - apply startup_runs in Hstart as [Hc Hruns]; [|apply Hload].
    exists cfg0. split_and!; [done|done|done|]. by right; left.
  - intros s1 s2 _ Hstep Hs1. by eapply step_in_sync.
Qed.

(** C2. Every request of the API, whatever system call fails.  A request that
    no route matches, and every GET, leaves the program and its files as they
    are.  A request on a route that changes the configuration either stores a
    valid configuration, runs exactly its zones, providers, applications and
    deploy targets and reports success; or reports a failure with the stored
    configuration and what runs unchanged; or, for a valid configuration whose
    container clients cannot be created (a runtime endpoint the client refuses),
    reports a failure although it has stored that configuration, and what runs
    is unchanged.  The actions, registrations and rejections of agents never
    change either. *)
Theorem serve_correct calls r s w :
  let '(s', _, rep) :=
    serve env host calls program_api docker_client systemSnapshot r s w in
  match find_route (routes calls) r with
  | None => s' = s
  | Some (route, _) =>
      match class_of (rp_Method route) (rp_Pattern route) with
      | Reads => s' = s
      | Acts => kept_config s s'
      | Changes => kept_config s s' ∧ ¬ success (rp_Status rep) ∨
                   (∃ cfg, new_config cfg s' ∧ success (rp_Status rep)) ∨
                   (∃ cfg, stored_only cfg s s' ∧ ¬ success (rp_Status rep))
      end
  end.
Proof. exact (serve_spec calls r s w). Qed.

(** C1. The running program and its configuration file: after any sequence of
    API requests (under any failures of the file system), scheduled jobs,
    start-up and reload tasks and runtime events from a successful start, the
    zones, providers, applications and deploy targets that the program shows
    are exactly those of one valid configuration whose container clients can
    be created.  The file holds this configuration, as the API stored it or
    as the program was started with it, unless the API was last given a valid
    configuration whose clients cannot be created: then the file holds that
    one, which the program does not run. *)
Theorem program_stays_in_sync calls0 fs0 cfg0 s0 s :
  LoadFile env calls0 fs0 (Manager_Path manager) = Ok cfg0 →
  startup (W:=W) env ric docker_client agent_client cfg0 = Ok s0 →
  rtc program_step {| as_server := s0; as_files := fs0 |} s →
  ∃ cfg, config_ok env cfg ∧ clients_ok cfg ∧ runs cfg (store s) ∧
    (saved_config cfg s ∨ cfg = cfg0 ∧ stored s = fs0 !! Manager_Path manager ∨
     ∃ cfg', config_ok env cfg' ∧ ¬ clients_ok cfg' ∧ saved_config cfg' s).
Proof.
  intros Hload Hstart Hr.
  destruct (program_in_sync calls0 fs0 cfg0 s0 s Hload Hstart Hr)
    as (cfg & [Hok _] & Hc & Hruns & Hfile).
  exists cfg. split_and!; [done..|]. destruct Hfile as [?|[?|(cfg' & [? _] & ? & ?)]]; [by left|
    by right; left|right; right]. by exists cfg'.
Qed.
End requests.

(** ** Examples *)
#[local] Existing Instance reference_runtime.
#[local] Existing Instance reference_url.
#[local] Existing Instance reference_lego.
(** A codec that also prints another document. *)
#[local] Instance program_yaml : YAML :=
  {| yaml_Marshal raw := if bool_decide (raw = one_document) then Ok "doc" else Ok "other";
     yaml_Unmarshal s := if String.eqb s "doc" then Ok (Some (persisted one_document))
                         else Err (Enew "") |}.
#[local] Existing Instances DeployRequest_JSON DeployResult_JSON InfoResponse_JSON.
#[local] Existing Instances sim_crypto sim_challenges sim_acme sim_world sim_http port_nat.

(** A client that sends one known application and nothing else that decodes. *)
Definition no_json {A} (text : A → string) : JSON A :=
  {| json_Marshal := text; json_Decode s := Err malformed |}.
#[local] Instance app_json : JSON CustomApp :=
  {| json_Marshal := app_Name;
     json_Decode s := if String.eqb s "nas" then Ok example_app else Err malformed |}.
#[local] Instance zone_json : JSON ManagedZone := no_json z_Domain.
#[local] Instance provider_json : JSON DDNSProviderConfig := no_json prov_Ref.
#[local] Instance source_json : JSON RuntimeSource :=
  {| json_Marshal := rs_Endpoint;
     json_Decode s := Ok {| rs_DisplayName := ""; rs_Runtime := "docker";
                            rs_Endpoint := s; rs_Network := "" |} |}.
#[local] Instance node_json : JSON AgentNode := no_json an_Name.
#[local] Instance target_json : JSON DeployTarget := no_json dt_Name.
#[local] Instance policy_json : JSON CertificateBundlePolicy := no_json bp_Name.
#[local] Instance registration_json : JSON agentRegistrationRequest := no_json arr_Name.

Definition example_host : Host :=
  {| h_is_file p := false; h_Executable := Err malformed; h_Abs p := Ok p;
     h_log p := Ok "started" |}.
Definition no_snapshot (w : SimOS) : SimOS * result error SystemResources := (w, Err malformed).
Definition example_start : ServerState SimOS :=
  match startup (W:=SimOS) example_env false scheme_client (λ _, Ok empty_client)
          (c_with_Apps (grouped_apps (c_Zones example_config) (c_Apps example_config))
             example_config) with
  | Ok s => s
  | Err _ => empty_server
  end.
Definition example_state : ApiState SimOS :=
  {| as_server := example_start; as_files := example_files |}.
Definition post_app : HttpRequest :=
  {| hq_Method := "POST"; hq_Segments := ["api"; "v1"; "apps"]; hq_Query k := "";
     hq_Header k := ""; hq_Host := "domux"; hq_RemoteAddr := "10.0.0.7:9"; hq_TLS := false;
     hq_Body := "nas" |}.

(** The application exists already: the request is refused. *)
Example serve_correct_witness :
  let '(s', _, rep) :=
    serve example_env example_host calls_ok
      (program_api example_env false no_zone scheme_client (λ _, Ok empty_client)
         example_manager (Config.NewManager ""))
      scheme_client no_snapshot post_app example_state empty_host in
  rp_Status rep = 409%Z ∧ same_config (ss_store example_start) (ss_store (as_server s')).
Proof.
  pose proof (serve_correct example_env false no_zone example_host (λ _, Ok empty_client)
    (λ _, Ok empty_client) no_snapshot example_manager (Config.NewManager "") calls_ok post_app example_state empty_host) as Hs.
  match type of Hs with let '(_, _) := ?x in _ =>
    assert (rp_Status x.2 = 409%Z) as E by (vm_compute; reflexivity) end.
  destruct (serve _ _ _ _ _ _ _ _ _) as [[s' w'] rep]. simpl in E. split; [done|].
  destruct Hs as [[[_ Hk] _]|[(cfg & _ & Hok)|(cfg & (_ & _ & _ & Es) & _)]]; [done| |].
  - unfold success in Hok. rewrite E in Hok. lia.
  - rewrite Es. apply same_config_refl.
Defined.

Lemma example_starts :
  startup (W:=SimOS) example_env false scheme_client (λ _, Ok empty_client)
    (c_with_Apps (grouped_apps (c_Zones example_config) (c_Apps example_config))
       example_config) = Ok example_start.
Proof. vm_compute. reflexivity. Qed.

Lemma example_loads_managed :
  LoadFile example_env calls_ok example_files (Manager_Path (Config.NewManager "")) =
  Ok (c_with_Apps (grouped_apps (c_Zones example_config) (c_Apps example_config))
        example_config).
Proof. by vm_compute. Qed.

Example program_stays_in_sync_witness :
  ∃ cfg, config_ok example_env cfg ∧ runs cfg (ss_store example_start).
Proof.
  destruct (program_stays_in_sync (W:=SimOS) example_env false no_zone example_host
    scheme_client (λ _, Ok empty_client) no_snapshot example_manager
    (Config.NewManager "") calls_ok example_files _ _
    example_state example_loads_managed example_starts (rtc_refl _ _)) as (cfg & Hok & _ & Hr & _).
  by exists cfg.
Defined.

(** An endpoint that validates and that the client refuses: the API stores it,
    reports a failure, and runs what it ran. *)
Definition put_runtime : HttpRequest :=
  {| hq_Method := "PUT"; hq_Segments := ["api"; "v1"; "server"; "runtime"]; hq_Query k := "";
     hq_Header k := ""; hq_Host := "domux"; hq_RemoteAddr := "10.0.0.7:9"; hq_TLS := false;
     hq_Body := "foo" |}.
Example refused_runtime_is_stored :
  let '(s', _, rep) :=
    serve example_env example_host calls_ok
      (program_api example_env false no_zone scheme_client (λ _, Ok empty_client)
         example_manager (Config.NewManager ""))
      scheme_client no_snapshot put_runtime example_state empty_host in
  rp_Status rep = 500%Z ∧
  String.eqb (default "" (as_files s' !! Manager_Path (Config.NewManager "")))
    (default "" (as_files example_state !! Manager_Path (Config.NewManager ""))) = false ∧
  as_server s' = example_start.
Proof. vm_compute. repeat split. Qed.
