(* ===== verification/Providers.v ===== *)
(** The clients of the DNS providers' web interfaces
    ([src/internal/ddns/provider]: [cloudflare.go], [alidns.go],
    [aliyun_signer.go], [godaddy.go], [spaceship.go], [http_util.go]).

    An updater makes HTTP requests over the interface [HTTP]; message bodies
    go through [JSON]; HMAC, Base64 and the two readings of the clock that the
    AliDNS signature takes are the interface [Signing].  The URL encodings of
    [net/url] that the requests are built from are definitions. *)

From S2P Require Import Prelude GoStrings GoRuntime Core Registry Sys.

(** ** URL encoding ([net/url]) *)

Definition is_alnum (c : ascii) : bool := is_upper c || is_lower c || is_digit c.

(** The characters that RFC 3986 never encodes. *)
Definition unreserved (c : ascii) : bool :=
  is_alnum c || Ascii.eqb c dash || Ascii.eqb c "_" || Ascii.eqb c dot || Ascii.eqb c "~".

Definition hex_upper (n : N) : ascii :=
  ascii_of_N (if (n <? 10)%N then 48 + n else 55 + n).

(** [%XX] *)
Definition percent (c : ascii) : string :=
  String "%" (String (hex_upper (byte_of c / 16)) (String (hex_upper (byte_of c mod 16)) "")).

Fixpoint encode_with (enc : ascii → string) (s : string) : string :=
  match s with
  | EmptyString => ""
  | String c s' => enc c +:+ encode_with enc s'
  end.

Definition query_char (c : ascii) : string :=
  if Ascii.eqb c " " then "+" else if unreserved c then String c "" else percent c.
Definition QueryEscape : string → string := encode_with query_char.

Definition path_kept (c : ascii) : bool :=
  unreserved c || existsb (Ascii.eqb c) ["$"; "&"; "+"; ":"; "="; "@"]%char.
Definition PathEscape : string → string :=
  encode_with (λ c, if path_kept c then String c "" else percent c).

(** [url.Values] with one value per key, as [Set] leaves it. *)
Definition Values := gmap string string.

Definition encode_pair (enc : string → string) (p : string * string) : string :=
  enc p.1 +:+ "=" +:+ enc p.2.

(** [Values.Encode]: the keys are sorted. *)
Definition Encode `{GoRuntime} (v : Values) : string :=
  Join "&" (map (encode_pair QueryEscape) (sort_by fst (map_range v))).

(** ** Responses ([http_util.go]) *)

(** The first MiB of a body is read. *)
Definition body_limit : Z := 1048576.
Definition limited (body : string) : string :=
  if (Z.of_nat (String.length body) <=? body_limit)%Z then body
  else str_take (Z.to_nat body_limit) body.

Section requests.
Context {W} `{HTTP W} `{NetURL}.

Definition readResponseBody (resp : Response) : result error string :=
  let body := limited (rs_Body resp) in
  if (300 <=? rs_StatusCode resp)%Z
  then Err (Enew ("http " +:+ Itoa (rs_StatusCode resp) +:+ ": " +:+ body))
  else Ok body.

(** [out] is the variable the caller declared: an empty body leaves it at its
    zero value. *)
Definition decodeJSONResponse {A} `{JSON A} (zero : A) (resp : Response) : result error A :=
  let? body := readResponseBody resp in
  if String.eqb body "" then Ok zero else json_Decode body.

(** [http.NewRequestWithContext] refuses a URL that does not parse; then the
    headers are set, the request is sent and the response read. *)
Definition exchange (rq : Request) : IO W string :=
  do! _ := io_lift (url_Parse (rq_URL rq)) in
  do! resp := http_Do rq in
  io_lift (readResponseBody resp).
End requests.

(** The zone and record name that every [Upsert] starts from. *)
Definition resolve_record `{GoRuntime} (record : DNSRecord) : result error RecordName :=
  let zoneName := if String.eqb (rec_Zone record) "" then rec_Domain record
                  else rec_Zone record in
  ResolveRecordName zoneName (rec_Name record).

(** ** Cloudflare *)
Record cloudflareRecord := {
  cr_ID : string;
  cr_Type : string;
  cr_Name : string;
  cr_Content : string;
  cr_TTL : Z;
  cr_Proxied : bool
}.
Record cloudflareStatus := {
  cs_Success : bool;
  cs_Errors : list string;
  cs_Message : list string
}.
Record cloudflareZonesResponse := { cz_Status : cloudflareStatus; cz_Result : list string }.
Record cloudflareRecordsResponse := {
  crr_Status : cloudflareStatus;
  crr_Result : list cloudflareRecord
}.

Section cloudflare.
Context {W} `{HTTP W} `{NetURL} `{GoRuntime}.
Context `{JSON cloudflareRecord} `{JSON cloudflareZonesResponse}
  `{JSON cloudflareRecordsResponse}.
Context (apiToken apiBaseURL : string).

Definition cloudflare_request (method requestURL : string) (payload : option cloudflareRecord)
  : IO W string :=
  exchange {| rq_Method := method; rq_URL := requestURL;
              rq_Headers := [("Authorization", "Bearer " +:+ apiToken);
                             ("Content-Type", "application/json")];
              rq_Body := match payload with Some p => json_Marshal p | None => "" end |}.

Definition getZoneID (zone : string) : IO W string :=
  let query : Values := <["per_page" := "50"]> (<["status" := "active"]> {["name" := zone]}) in
  do! body := cloudflare_request "GET" (apiBaseURL +:+ "/zones?" +:+ Encode query) None in
  do! response := io_lift (json_Decode (A:=cloudflareZonesResponse) body) in
  if negb (cs_Success (cz_Status response)) then io_err (Enew "cloudflare zone lookup failed")
  else match cz_Result response with
       | [] => io_err (Enew ("cloudflare zone " +:+ quote zone +:+ " not found"))
       | id :: _ => io_ret id
       end.

Definition records_url (zoneID : string) : string :=
  apiBaseURL +:+ "/zones/" +:+ zoneID +:+ "/dns_records".

Definition getRecords (zoneID fqdn : string) (recordType : RecordType)
  : IO W (list cloudflareRecord) :=
  let query : Values := <["per_page" := "50"]> (<["name" := fqdn]> {["type" := recordType]}) in
  do! body := cloudflare_request "GET" (records_url zoneID +:+ "?" +:+ Encode query) None in
  do! response := io_lift (json_Decode (A:=cloudflareRecordsResponse) body) in
  if negb (cs_Success (crr_Status response))
  then io_err (Enew ("cloudflare record lookup failed for " +:+ fqdn))
  else io_ret (crr_Result response).

Definition Cloudflare_Upsert (record : DNSRecord) : IO W () :=
  do! zone := io_lift (resolve_record record) in
  do! zoneID := getZoneID (rn_Zone zone) in
  do! existing := getRecords zoneID (rn_FQDN zone) (rec_Type record) in
  let ttl := if (rec_TTL record =? 0)%Z then 1%Z else rec_TTL record in
  let payload id := {| cr_ID := id; cr_Type := rec_Type record; cr_Name := rn_FQDN zone;
                       cr_Content := rec_Value record; cr_TTL := ttl; cr_Proxied := false |} in
  match existing with
  | [] =>
      do! _ := cloudflare_request "POST" (records_url zoneID) (Some (payload "")) in io_ret ()
  | first :: _ =>
      if String.eqb (cr_Content first) (rec_Value record) && (cr_TTL first =? ttl)%Z
      then io_ret ()
      else
        do! _ := cloudflare_request "PUT" (records_url zoneID +:+ "/" +:+ cr_ID first)
                   (Some (payload (cr_ID first))) in io_ret ()
  end.
End cloudflare.

Definition parseCloudflareTTL (raw : string) : Z :=
  if String.eqb raw "" then 1
  else match Atoi raw with
       | Some ttl => if (ttl <=? 0)%Z then 1 else ttl
       | None => 1
       end.

(** ** The AliDNS signature ([aliyun_signer.go]) *)
Inductive hash := SHA1 | SHA256 | MD5.

Class Signing := {
  hmac_Sum : hash → string → string → string;  (** hash, key, data *)
  base64_EncodeToString : string → string;
  UnixNano : Time → Z;
  time_Format : Time → string
}.

Definition signerMethods : gmap string hash :=
  <["HMAC-SHA1" := SHA1]> (<["HMAC-SHA256" := SHA256]> {["HMAC-MD5" := MD5]}).

Record signerToken := { tk_s : string; tk_e : bool }.

Definition HasTildeEscape (s : string) : bool := HasPrefix s "%7E".

(** The loop over the bytes of an encoded token; [%c] of a byte above 127
    prints its two-byte encoding. *)
Definition rune_text (c : ascii) : string :=
  if is_ascii_char c then String c ""
  else String (ascii_of_N (192 + byte_of c / 64)) (String (ascii_of_N (128 + byte_of c mod 64)) "").

Fixpoint encode_token_from (skip : nat) (s : string) : string :=
  match s with
  | EmptyString => ""
  | String c s' =>
      match skip with
      | S k => encode_token_from k s'
      | O =>
          if Ascii.eqb c "%" then
            if HasTildeEscape s then "~" +:+ encode_token_from 2 s'
            else percent c +:+ encode_token_from 0 s'
          else if existsb (Ascii.eqb c) ["*"; "/"; "&"; "="]%char
          then percent c +:+ encode_token_from 0 s'
          else if Ascii.eqb c "+" then "%20" +:+ encode_token_from 0 s'
          else rune_text c +:+ encode_token_from 0 s'
      end
  end.

Definition specialURLEncode (tokens : list signerToken) : string :=
  foldr (λ t acc, (if tk_e t then encode_token_from 0 (tk_s t) else tk_s t) +:+ acc) "" tokens.

Section signer.
Context `{GoRuntime} `{Signing}.

Definition makeDataToSign (httpMethod : string) (vals : Values) : string :=
  specialURLEncode
    [{| tk_s := httpMethod; tk_e := false |}; {| tk_s := "&"; tk_e := false |};
     {| tk_s := "/"; tk_e := true |}; {| tk_s := "&"; tk_e := false |};
     {| tk_s := Encode vals; tk_e := true |}].

Definition hmacSign (signMethod httpMethod appKeySecret : string) (vals : Values) : string :=
  let key := appKeySecret +:+ "&" in
  let method := default SHA1 (signerMethods !! signMethod) in
  hmac_Sum method key (makeDataToSign httpMethod vals).

Definition hmacSignToB64 (signMethod httpMethod appKeySecret : string) (vals : Values) : string :=
  base64_EncodeToString (hmacSign signMethod httpMethod appKeySecret vals).

(** The clock is read twice: once for the nonce, once for the time stamp. *)
Definition aliyunSigner (accessKeyID accessSecret : string) (params : Values)
    (httpMethod apiVersion : string) (now1 now2 : Time) : Values :=
  let params := <["SignatureMethod" := "HMAC-SHA1"]> params in
  let params := <["SignatureNonce" := Itoa (UnixNano now1)]> params in
  let params := <["AccessKeyId" := accessKeyID]> params in
  let params := <["SignatureVersion" := "1.0"]> params in
  let params := <["Timestamp" := time_Format now2]> params in
  let params := <["Format" := "JSON"]> params in
  let params := <["Version" := apiVersion]> params in
  <["Signature" := hmacSignToB64 "HMAC-SHA1" httpMethod accessSecret params]> params.
End signer.

(** ** AliDNS *)
Record aliDNSRecord := { al_DomainName : string; al_RecordID : string; al_Value : string }.
Record aliDNSRecordsResponse := { alr_TotalCount : Z; alr_Record : list aliDNSRecord }.
Record aliDNSResponse := { ali_RecordID : string }.

(** How a call of an updater ends. *)
Inductive outcome := Returns (err : option error) | Panics.

Definition returned {W} (m : IO W ()) : W → W * outcome := λ w,
  match m w with
  | (w', Ok _) => (w', Returns None)
  | (w', Err e) => (w', Returns (Some e))
  end.

Definition defaultAliDNSTTL (ttl : Z) : Z := if (ttl <=? 0)%Z then 600 else ttl.

Section alidns.
Context {W} `{HTTP W} `{OS W} `{NetURL} `{GoRuntime} `{Signing}.
Context `{JSON aliDNSRecordsResponse} `{JSON aliDNSResponse}.
Context (accessKeyID accessKeySecret endpoint : string).

Definition alidns_request {A} `{JSON A} (zero : A) (params : Values) : IO W A := λ w,
  let '(w, now1) := Now w in
  let '(w, now2) := Now w in
  let params := aliyunSigner accessKeyID accessKeySecret params "GET" "2015-01-09" now1 now2 in
  (do! u := io_lift (url_Parse endpoint) in
   do! resp := http_Do {| rq_Method := "GET";
                          rq_URL := url_String (url_set_RawQuery (Encode params) u);
                          rq_Headers := []; rq_Body := "" |} in
   io_lift (decodeJSONResponse zero resp)) w.

Definition alidns_create (resolved : RecordName) (record : DNSRecord) : IO W () :=
  let params : Values :=
    <["TTL" := Itoa (defaultAliDNSTTL (rec_TTL record))]>
    (<["Value" := rec_Value record]> (<["Type" := rec_Type record]>
    (<["RR" := rn_Relative resolved]> (<["DomainName" := rn_Zone resolved]>
    {["Action" := "AddDomainRecord"]})))) in
  do! response := alidns_request {| ali_RecordID := "" |} params in
  if String.eqb (ali_RecordID response) ""
  then io_err (Enew "alidns create returned empty record id") else io_ret ().

Definition alidns_update (resolved : RecordName) (existing : aliDNSRecord) (record : DNSRecord)
  : IO W () :=
  let params : Values :=
    <["TTL" := Itoa (defaultAliDNSTTL (rec_TTL record))]>
    (<["Value" := rec_Value record]> (<["Type" := rec_Type record]>
    (<["RR" := rn_Relative resolved]> (<["RecordId" := al_RecordID existing]>
    {["Action" := "UpdateDomainRecord"]})))) in
  do! response := alidns_request {| ali_RecordID := "" |} params in
  if String.eqb (ali_RecordID response) ""
  then io_err (Enew "alidns update returned empty record id") else io_ret ().

Definition alidns_lookup (resolved : RecordName) (recordType : RecordType)
  : IO W aliDNSRecordsResponse :=
  let params : Values :=
    <["Type" := recordType]> (<["SubDomain" := AliDNSSubDomain resolved]>
    (<["DomainName" := rn_Zone resolved]> {["Action" := "DescribeSubDomainRecords"]})) in
  alidns_request {| alr_TotalCount := 0; alr_Record := [] |} params.

(** A positive count with an empty list makes the code index out of range. *)
Definition AliDNS_Upsert (record : DNSRecord) (w : W) : W * outcome :=
  match resolve_record record with
  | Err e => (w, Returns (Some e))
  | Ok resolved =>
      match alidns_lookup resolved (rec_Type record) w with
      | (w, Err e) => (w, Returns (Some e))
      | (w, Ok records) =>
          if (0 <? alr_TotalCount records)%Z then
            match alr_Record records with
            | [] => (w, Panics)
            | selected :: _ =>
                if String.eqb (al_Value selected) (rec_Value record) then (w, Returns None)
                else returned (alidns_update resolved selected record) w
            end
          else returned (alidns_create resolved record) w
      end
  end.
End alidns.

(** ** GoDaddy *)
Record godaddyRecord := { gd_Data : string; gd_Name : string; gd_TTL : Z; gd_Type : string }.

Definition defaultGoDaddyTTL (ttl : Z) : Z := if (ttl <? 600)%Z then 600 else ttl.

Definition parseGoDaddyTTL (raw : string) : Z :=
  if String.eqb raw "" then 600
  else match Atoi raw with Some ttl => defaultGoDaddyTTL ttl | None => 600 end.

Section godaddy.
Context {W} `{HTTP W} `{NetURL} `{GoRuntime} `{JSON (list godaddyRecord)}.
Context (apiKey apiSecret apiBaseURL : string).

Definition godaddy_url (resolved : RecordName) (recordType : RecordType) : string :=
  apiBaseURL +:+ "/domains/" +:+ PathEscape (rn_Zone resolved) +:+ "/records/" +:+
  PathEscape recordType +:+ "/" +:+ PathEscape (rn_Relative resolved).

Definition GoDaddy_Upsert (record : DNSRecord) : IO W () :=
  do! resolved := io_lift (resolve_record record) in
  let ttl := defaultGoDaddyTTL (rec_TTL record) in
  let payload := json_Marshal [{| gd_Data := rec_Value record; gd_Name := rn_Relative resolved;
                                  gd_TTL := ttl; gd_Type := rec_Type record |}] in
  do! _ := exchange {| rq_Method := "PUT"; rq_URL := godaddy_url resolved (rec_Type record);
                       rq_Headers := [("Authorization",
                                       "sso-key " +:+ apiKey +:+ ":" +:+ apiSecret);
                                      ("Content-Type", "application/json")];
                       rq_Body := payload |} in
  io_ret ().
End godaddy.

(** ** Spaceship *)
Record spaceshipRecord := {
  sr_Type : string;
  sr_Name : string;
  sr_TTL : Z;
  sr_Address : string;
  sr_Group : string  (** the [type] of the group *)
}.
Record spaceshipRecordsResponse := { ssr_Items : list spaceshipRecord; ssr_Total : Z }.
Record spaceshipSaveRequest := { ssq_Force : bool; ssq_Items : list spaceshipRecord }.
Record spaceshipDeleteRecord := { sd_Type : string; sd_Name : string; sd_Address : string }.

Definition defaultSpaceshipTTL (ttl : Z) : Z := if (ttl <=? 0)%Z then 3600 else ttl.

Section spaceship_filter.
Context `{GoRuntime}.

Definition filterSpaceshipRecords (records : list spaceshipRecord) (name : string)
    (recordType : RecordType) : list spaceshipRecord :=
  List.filter (λ record, EqualFold (sr_Group record) "custom" &&
    (EqualFold (sr_Name record) name && EqualFold (sr_Type record) recordType)) records.

Definition spaceshipRecordsEqual (records : list spaceshipRecord) (name : string)
    (recordType : RecordType) (value : string) (ttl : Z) : bool :=
  match records with
  | [record] =>
      EqualFold (sr_Name record) name && EqualFold (sr_Type record) recordType &&
      String.eqb (sr_Address record) value && (sr_TTL record =? ttl)%Z
  | _ => false
  end.
End spaceship_filter.

Definition pageSize : Z := 500.

Section spaceship.
Context {W} `{HTTP W} `{NetURL} `{GoRuntime}.
Context `{JSON spaceshipRecordsResponse} `{JSON spaceshipSaveRequest}
  `{JSON (list spaceshipDeleteRecord)}.
Context (apiKey apiSecret apiBaseURL : string).

Definition spaceship_headers : list (string * string) :=
  [("X-API-Key", apiKey); ("X-API-Secret", apiSecret); ("Content-Type", "application/json")].

Definition spaceship_request (method requestURL body : string) : IO W string :=
  exchange {| rq_Method := method; rq_URL := requestURL; rq_Headers := spaceship_headers;
              rq_Body := body |}.

Definition domain_url (domain : string) : string :=
  apiBaseURL +:+ "/dns/records/" +:+ PathEscape domain.

Definition page_url (domain : string) (skip : Z) : string :=
  let query : Values := <["skip" := Itoa skip]> {["take" := Itoa pageSize]} in
  domain_url domain +:+ "?" +:+ Encode query.

Definition listPage (domain : string) (skip : Z) : IO W spaceshipRecordsResponse :=
  do! body := spaceship_request "GET" (page_url domain skip) "" in
  io_lift (json_Decode body).

(** The loop of [listRecords]; [None] when the fuel runs out. *)
Fixpoint list_from (fuel : nat) (domain : string) (skip : Z) (all : list spaceshipRecord)
    (w : W) : option (W * result error (list spaceshipRecord)) :=
  match fuel with
  | O => None
  | S fuel' =>
      match listPage domain skip w with
      | (w, Err e) => Some (w, Err e)
      | (w, Ok response) =>
          let all := all ++ ssr_Items response in
          if bool_decide (ssr_Items response = []) || (ssr_Total response <=? Z.of_nat (length all))%Z
          then Some (w, Ok all)
          else list_from fuel' domain (wrap64 (skip + pageSize)) all w
      end
  end.

Definition listRecords (fuel : nat) (domain : string) (w : W)
  : option (W * result error (list spaceshipRecord)) :=
  list_from fuel domain 0 [] w.

Definition delete_payload (records : list spaceshipRecord) : list spaceshipDeleteRecord :=
  map (λ record, {| sd_Type := sr_Type record; sd_Name := sr_Name record;
                    sd_Address := sr_Address record |}) records.

Definition deleteRecords (domain : string) (records : list spaceshipRecord) : IO W () :=
  do! _ := spaceship_request "DELETE" (domain_url domain)
             (json_Marshal (delete_payload records)) in io_ret ().

Definition saveRecord (domain : string) (record : spaceshipRecord) : IO W () :=
  do! _ := spaceship_request "PUT" (domain_url domain)
             (json_Marshal {| ssq_Force := true; ssq_Items := [record] |}) in io_ret ().

(** What follows the listing. *)
Definition replace_records (resolved : RecordName) (record : DNSRecord)
    (existing : list spaceshipRecord) : IO W () :=
  let ttl := defaultSpaceshipTTL (rec_TTL record) in
  let matching := filterSpaceshipRecords existing (rn_Relative resolved) (rec_Type record) in
  if spaceshipRecordsEqual matching (rn_Relative resolved) (rec_Type record)
       (rec_Value record) ttl then io_ret ()
  else
    do! _ := (match matching with
              | [] => io_ret ()
              | _ => deleteRecords (rn_Zone resolved) matching
              end) in
    saveRecord (rn_Zone resolved)
      {| sr_Type := rec_Type record; sr_Name := rn_Relative resolved; sr_TTL := ttl;
         sr_Address := rec_Value record; sr_Group := "" |}.

Definition Spaceship_Upsert (fuel : nat) (record : DNSRecord) (w : W) : option (W * outcome) :=
  match resolve_record record with
  | Err e => Some (w, Returns (Some e))
  | Ok resolved =>
      match listRecords fuel (rn_Zone resolved) w with
      | None => None
      | Some (w, Err e) => Some (w, Returns (Some e))
      | Some (w, Ok existing) => Some (returned (replace_records resolved record existing) w)
      end
  end.
End spaceship.

(** ** The updaters *)
Section updaters.
Context {W} `{HTTP W} `{OS W} `{NetURL} `{GoRuntime} `{Signing}.
Context `{JSON cloudflareRecord} `{JSON cloudflareZonesResponse}
  `{JSON cloudflareRecordsResponse} `{JSON aliDNSRecordsResponse} `{JSON aliDNSResponse}
  `{JSON (list godaddyRecord)} `{JSON spaceshipRecordsResponse} `{JSON spaceshipSaveRequest}
  `{JSON (list spaceshipDeleteRecord)}.

(** [Updater.Upsert]; the fuel bounds the pages read from Spaceship. *)
Definition Updater_Upsert (fuel : nat) (u : Updater) (record : DNSRecord) (w : W)
  : option (W * outcome) :=
  match u with
  | Cloudflare token base => Some (returned (Cloudflare_Upsert token base record) w)
  | AliDNS id secret endpoint => Some (AliDNS_Upsert id secret endpoint record w)
  | GoDaddy key secret base => Some (returned (GoDaddy_Upsert key secret base record) w)
  | Spaceship key secret base => Spaceship_Upsert key secret base fuel record w
  end.
End updaters.

(** * Properties *)

(** ** Listing by pages *)
Section paging.
Context {W} `{HTTP W} `{NetURL} `{GoRuntime} `{JSON spaceshipRecordsResponse}.
Context (apiKey apiSecret apiBaseURL : string).

Let list_from := list_from (W:=W) apiKey apiSecret apiBaseURL.
Let listPage := listPage (W:=W) apiKey apiSecret apiBaseURL.

Lemma listPage_decoded domain skip w w' response :
  listPage domain skip w = (w', Ok response) → ∃ body, json_Decode body = Ok response.
Proof.
  unfold listPage, Providers.listPage. rewrite io_bind_Ok.
  intros (w1 & body & _ & E). exists body. by injection E.
Qed.

Lemma list_from_total N domain :
  (∀ body response, json_Decode body = Ok response → (ssr_Total response ≤ Z.of_nat N)%Z) →
  ∀ fuel skip all w, N < fuel + length all → 0 < fuel →
  ∃ r, ∀ more, list_from (fuel + more) domain skip all w = Some r.
Proof.
  intros HN. induction fuel as [|fuel IH]; intros skip all w Hf Hpos; [lia|].
  cbn [Nat.add]. unfold list_from in *. cbn [Providers.list_from].
  change (Providers.listPage apiKey apiSecret apiBaseURL) with listPage.
  destruct (listPage domain skip w) as [w1 [response|e]] eqn:E; [|by eexists].
  apply listPage_decoded in E as [body Hb]. apply HN in Hb.
  destruct (bool_decide _) eqn:Hi; simpl; [by eexists|].
  destruct (Z.leb_spec (ssr_Total response) (Z.of_nat (length (all ++ ssr_Items response))));
    [by eexists|].
  assert (length (ssr_Items response) ≠ 0) as Hne.
  { intros Hl%length_zero_iff_nil. by rewrite Hl in Hi. }
  rewrite length_app in *. apply IH; rewrite ?length_app; lia.
Qed.

(** A server whose pages are those of a fixed list, as long as the world stays
    in [Serving]; it may also fail. *)
Definition serves_pages (Serving : W → Prop) (domain : string)
    (records : list spaceshipRecord) : Prop :=
  ∀ k w, Serving w → 500 * k ≤ length records →
    let '(w', r) := listPage domain (pageSize * Z.of_nat k) w in
    Serving w' ∧ ∀ page, r = Ok page →
      page = {| ssr_Items := take 500 (drop (500 * k) records);
                ssr_Total := Z.of_nat (length records) |}.

(** The result is the whole list, or the error of one of the pages. *)
Definition listed (domain : string) (records : list spaceshipRecord)
    (r : result error (list spaceshipRecord)) : Prop :=
  match r with
  | Ok l => l = records
  | Err e => ∃ k w w', listPage domain (pageSize * Z.of_nat k) w = (w', Err e)
  end.

Lemma list_from_complete Serving domain records :
  serves_pages Serving domain records →
  (Z.of_nat (length records) + pageSize ≤ int_max)%Z →
  ∀ fuel k w, Serving w → 500 * k ≤ length records → length records < fuel + 500 * k →
  0 < fuel →
  ∃ w' r, Serving w' ∧ listed domain records r ∧
    list_from fuel domain (pageSize * Z.of_nat k) (take (500 * k) records) w = Some (w', r).
Proof.
  intros Hs Hmax. unfold pageSize, int_max in *.
  induction fuel as [|fuel IH]; intros k w Hw Hk Hf Hpos; [lia|].
  unfold list_from in *. cbn [Providers.list_from].
  change (Providers.listPage apiKey apiSecret apiBaseURL) with listPage.
  pose proof (Hs k w Hw Hk) as Hp. unfold pageSize in Hp.
  destruct (listPage domain (500 * Z.of_nat k) w) as [w1 [page|e]] eqn:E.
  2:{ exists w1, (Err e). split_and!; [tauto| |done]. by exists k, w, w1. }
  destruct Hp as [Hw1 Hpage]. rewrite (Hpage page eq_refl). cbn [ssr_Items ssr_Total].
  rewrite take_take_drop.
  destruct (decide (length records ≤ 500 * k + 500)) as [Hle|Hgt].
  - exists w1, (Ok records). split_and!; [done..|]. rewrite (take_ge records) by lia.
    rewrite Z.leb_refl, orb_true_r. done.
  - rewrite bool_decide_eq_false_2.
    2:{ intros Hnil%(f_equal length). rewrite length_take, length_drop in Hnil.
        cbn [length] in Hnil. lia. }
    rewrite length_take. destruct (Z.leb_spec (Z.of_nat (length records))
      (Z.of_nat ((500 * k + 500) `min` length records))); [lia|].
    cbn [orb]. change pageSize with 500%Z.
    assert (wrap64 (500 * Z.of_nat k + 500) = 500 * Z.of_nat (S k))%Z as ->.
    { unfold wrap64. change (2 ^ 64)%Z with (2 * 2 ^ 63)%Z.
      assert (500 * Z.of_nat k + 500 < 2 ^ 63)%Z by lia. rewrite Z.mod_small; lia. }
    replace (500 * k + 500) with (500 * S k) by lia. apply IH; [done|lia..].
Qed.

Lemma listRecords_complete Serving domain records fuel w :
  serves_pages Serving domain records →
  (Z.of_nat (length records) + pageSize ≤ int_max)%Z →
  Serving w → length records < fuel →
  ∃ w' r, Serving w' ∧ listed domain records r ∧
    listRecords apiKey apiSecret apiBaseURL fuel domain w = Some (w', r).
Proof.
  intros Hs Hmax Hw Hf.
  destruct (list_from_complete Serving domain records Hs Hmax fuel 0 w) as (w' & r & Hr);
    [done|lia..|]. by exists w', r.
Qed.

(** C13. The loop over the pages of a domain's records ends, whatever the
    server answers: when no answer announces more than [N] records (an [int]
    of the program is below 2^63), [N + 1] pages are enough, and more fuel
    gives the same result.  And if the pages are those of one list, the result
    is that whole list or the error of a page, after at most one page per
    record. *)
Theorem listRecords_terminates domain :
  (∀ N w,
    (∀ body response, json_Decode body = Ok response → (ssr_Total response ≤ Z.of_nat N)%Z) →
    ∃ r, ∀ fuel, N < fuel →
      listRecords apiKey apiSecret apiBaseURL fuel domain w = Some r) ∧
  (∀ Serving records w fuel,
    serves_pages Serving domain records →
    (Z.of_nat (length records) + pageSize ≤ int_max)%Z →
    Serving w → length records < fuel →
    ∃ w' r, Serving w' ∧ listed domain records r ∧
      listRecords apiKey apiSecret apiBaseURL fuel domain w = Some (w', r)).
Proof.
  split.
  - intros N w HN. destruct (list_from_total N domain HN (S N) 0 [] w) as [r Hr]; [simpl; lia..|].
    exists r. intros fuel Hf. unfold listRecords. rewrite <-(Hr (fuel - S N)).
    unfold list_from. f_equal. lia.
  - intros Serving records w fuel. apply listRecords_complete.
Qed.
End paging.

(** ** The text that is signed *)

(** RFC 3986 percent-encoding, which the AliDNS interface prescribes. *)
Definition rfc3986 : string → string :=
  encode_with (λ c, if unreserved c then String c "" else percent c).

(** The string to sign as that interface defines it. *)
Definition string_to_sign `{GoRuntime} (httpMethod : string) (vals : Values) : string :=
  httpMethod +:+ "&" +:+ rfc3986 "/" +:+ "&" +:+
  rfc3986 (Join "&" (map (encode_pair rfc3986) (sort_by fst (map_range vals)))).

Definition no_space : string → bool := str_forall (λ c, negb (Ascii.eqb c " ")).

Lemma encode_with_app enc a b :
  encode_with enc (a +:+ b) = encode_with enc a +:+ encode_with enc b.
Proof.
  induction a as [|c a IH]; [done|].
  change (String c a +:+ b) with (String c (a +:+ b)). cbn [encode_with].
  by rewrite IH, app_assoc_str.
Qed.

Lemma rfc3986_app a b : rfc3986 (a +:+ b) = rfc3986 a +:+ rfc3986 b.
Proof. apply encode_with_app. Qed.

Lemma rfc3986_unreserved c s :
  unreserved c = true → rfc3986 (String c s) = String c (rfc3986 s).
Proof. intros Hc. unfold rfc3986. cbn [encode_with]. by rewrite Hc. Qed.

Lemma rfc3986_other c s :
  unreserved c = false → rfc3986 (String c s) = percent c +:+ rfc3986 s.
Proof. intros Hc. unfold rfc3986. cbn [encode_with]. by rewrite Hc. Qed.

Lemma QueryEscape_rfc3986 s : no_space s = true → QueryEscape s = rfc3986 s.
Proof.
  unfold QueryEscape, rfc3986, no_space. induction s as [|c s IH]; [done|].
  cbn [str_forall encode_with]. intros [Hc Hs]%andb_true_iff. rewrite IH by done.
  unfold query_char. apply negb_true_iff in Hc. by rewrite Hc.
Qed.

(** The second encoding, character by character of the first. *)
Lemma encode_token_unreserved c rest :
  unreserved c = true →
  encode_token_from 0 (String c rest) = String c (encode_token_from 0 rest).
Proof. by destruct c as [[] [] [] [] [] [] [] []]. Qed.

Lemma encode_token_percent c rest :
  unreserved c = false →
  encode_token_from 0 (percent c +:+ rest) = rfc3986 (percent c) +:+ encode_token_from 0 rest.
Proof. by destruct c as [[] [] [] [] [] [] [] []]. Qed.

Lemma encode_token_separator c rest :
  c ∈ ["&"; "="]%char →
  encode_token_from 0 (String c rest) = rfc3986 (String c "") +:+ encode_token_from 0 rest.
Proof. by rewrite !elem_of_cons, elem_of_nil; intros [->|[->|[]]]. Qed.

Lemma encode_token_rfc3986 s rest :
  encode_token_from 0 (rfc3986 s +:+ rest) = rfc3986 (rfc3986 s) +:+ encode_token_from 0 rest.
Proof.
  induction s as [|c s IH]; [done|]. destruct (unreserved c) eqn:Hc.
  - rewrite !rfc3986_unreserved by done.
    change (String c (rfc3986 s) +:+ rest) with (String c (rfc3986 s +:+ rest)).
    by rewrite encode_token_unreserved, IH.
  - by rewrite rfc3986_other, rfc3986_app, !app_assoc_str, encode_token_percent, IH.
Qed.

Lemma encode_token_pair p rest :
  encode_token_from 0 (encode_pair rfc3986 p +:+ rest) =
  rfc3986 (encode_pair rfc3986 p) +:+ encode_token_from 0 rest.
Proof.
  unfold encode_pair. rewrite !app_assoc_str, encode_token_rfc3986.
  change ("=" +:+ rfc3986 p.2 +:+ rest) with (String "=" (rfc3986 p.2 +:+ rest)).
  rewrite encode_token_separator by (by constructor; constructor).
  rewrite encode_token_rfc3986. by rewrite !rfc3986_app, !app_assoc_str.
Qed.

Lemma encode_token_pairs l :
  encode_token_from 0 (Join "&" (map (encode_pair rfc3986) l)) =
  rfc3986 (Join "&" (map (encode_pair rfc3986) l)).
Proof.
  induction l as [|p l IH]; [done|]. cbn [map].
  assert (encode_token_from 0 (encode_pair rfc3986 p) = rfc3986 (encode_pair rfc3986 p)) as Hp.
  { pose proof (encode_token_pair p "") as E. by rewrite !app_nil_str in E. }
  destruct (map _ l) as [|x xs] eqn:El; [done|]. rewrite Join_cons by done.
  rewrite encode_token_pair.
  change ("&" +:+ Join "&" (x :: xs)) with (String "&" (Join "&" (x :: xs))).
  rewrite encode_token_separator by (by constructor). rewrite IH.
  by rewrite !rfc3986_app.
Qed.

Section signature.
Context `{GoRuntime} `{Signing}.

Lemma Encode_rfc3986 vals :
  map_Forall (λ k v, no_space k && no_space v = true) vals →
  Encode vals = Join "&" (map (encode_pair rfc3986) (sort_by fst (map_range vals))).
Proof.
  intros Hv. unfold Encode. f_equal. apply map_ext_in. intros [k v] Hin.
  apply list_elem_of_In, elem_of_sort_by, elem_of_map_range, Hv, andb_true_iff in Hin as [Hk Hv'].
  unfold encode_pair. simpl. by rewrite !QueryEscape_rfc3986.
Qed.

(** C22. What the AliDNS client signs is the string the interface asks for:
    the method, the encoded path and the encoded canonical query, encoded
    twice where it has to be, for parameters without spaces (a domain name, an
    address or a number never has one; for a value with a space the signature
    would not match).  The signature covers every other parameter of the
    request, those of the caller and the key's identifier among them. *)
Theorem makeDataToSign_canonical method vals :
  map_Forall (λ k v, no_space k && no_space v = true) vals →
  vals !! "Signature" = None →
  makeDataToSign method vals = string_to_sign method vals ∧
  ∀ id secret version now1 now2,
    let signed := aliyunSigner id secret vals method version now1 now2 in
    signed !! "AccessKeyId" = Some id ∧
    signed !! "Signature" =
      Some (hmacSignToB64 "HMAC-SHA1" method secret (delete "Signature" signed)) ∧
    ∀ k, k ∉ ["SignatureMethod"; "SignatureNonce"; "AccessKeyId"; "SignatureVersion";
              "Timestamp"; "Format"; "Version"; "Signature"] →
      signed !! k = vals !! k.
Proof.
  intros Hv Hsig. split.
  - unfold makeDataToSign, string_to_sign, specialURLEncode. cbn [foldr tk_e tk_s].
    rewrite app_nil_str, Encode_rfc3986, encode_token_pairs by done. done.
  - intros id secret version now1 now2 signed. subst signed. unfold aliyunSigner, Values in *.
    split_and!.
    + repeat rewrite lookup_insert_ne by done. by rewrite lookup_insert_eq.
    + rewrite lookup_insert_eq. do 2 f_equal. rewrite delete_insert_id; [done|].
      by rewrite !lookup_insert_ne.
    + intros k Hk. rewrite !not_elem_of_cons in Hk.
      by rewrite !lookup_insert_ne by (intros <-; naive_solver).
Qed.
End signature.

(** A space is encoded once where it should be encoded twice. *)
Example space_not_canonical `{GoRuntime} :
  encode_token_from 0 (QueryEscape "a b") = "a%20b" ∧
  rfc3986 (rfc3986 "a b") = "a%2520b".
Proof. split; reflexivity. Qed.

(** ** The requests of an update *)

(** A world that records the requests it is asked to send. *)
Section logged.
Context {W : Type}.
Definition logged : Type := W * list Request.
Definition lift_log {A} (m : IO W A) : IO logged A := λ w,
  let '(w', r) := m w.1 in ((w', w.2), r).
#[export] Instance logged_HTTP `{HTTP W} : HTTP logged := {
  http_Do rq w := let '(w', r) := http_Do rq w.1 in ((w', w.2 ++ [rq]), r)
}.
#[export] Instance logged_OS `{OS W} : OS logged := {
  os_tree w := os_tree w.1;
  os_umask := os_umask (W:=W);
  MkdirAll p m := lift_log (MkdirAll p m);
  WriteFile p d m := lift_log (WriteFile p d m);
  Rename a b := lift_log (Rename a b);
  ReadFile p := lift_log (ReadFile p);
  run_command args w := let '(w', r) := run_command args w.1 in ((w', w.2), r);
  Now w := let '(w', t) := Now w.1 in ((w', w.2), t)
}.

(** [m] only sends requests with the property [P]. *)
Definition sends {A} (P : Request → Prop) (m : IO logged A) : Prop :=
  ∀ w, ∃ new, (m w).1.2 = w.2 ++ new ∧ List.Forall P new.

Lemma sends_pure {A} P (r : result error A) : sends P (io_lift r).
Proof. intros w. exists []. by rewrite app_nil_r. Qed.
Lemma sends_ret {A} P (a : A) : sends P (io_ret a).
Proof. apply (sends_pure P (Ok a)). Qed.
Lemma sends_err {A} P e : sends P (io_err (A:=A) e).
Proof. apply (sends_pure P (Err e)). Qed.
Lemma sends_bind {A B} P (m : IO logged A) (k : A → IO logged B) :
  sends P m → (∀ a, sends P (k a)) → sends P (io_bind m k).
Proof.
  intros Hm Hk w. destruct (Hm w) as (n1 & E1 & F1). unfold io_bind.
  destruct (m w) as [w1 [a|e]]; [|by exists n1]. simpl in E1.
  destruct (Hk a w1) as (n2 & E2 & F2). exists (n1 ++ n2).
  rewrite E2, E1, app_assoc. split; [done|]. by apply List.Forall_app.
Qed.
Lemma sends_Do `{HTTP W} (P : Request → Prop) rq : P rq → sends P (http_Do rq).
Proof.
  intros HP w. exists [rq]. simpl. destruct (http_Do rq w.1) as [w' r].
  split; [done|]. by constructor.
Qed.
Lemma sends_exchange `{HTTP W} `{NetURL} (P : Request → Prop) rq : P rq → sends P (exchange rq).
Proof.
  intros HP. apply sends_bind; [apply sends_pure|]. intros _.
  apply sends_bind; [by apply sends_Do|]. intros resp. apply sends_pure.
Qed.
End logged.
Arguments logged W : clear implicits.

Create HintDb sends.
#[export] Hint Resolve sends_ret sends_err sends_pure sends_bind sends_exchange sends_Do : sends.

Ltac sends_step :=
  repeat match goal with
  | |- sends _ (io_bind _ _) => apply sends_bind; [|intros ?]
  | |- sends _ (match ?x with _ => _ end) => destruct x eqn:?
  | |- sends _ _ => first [apply sends_ret | apply sends_err | apply sends_pure]
  end.

Section own_requests.
Context {W : Type} `{HTTP W} `{OS W} `{NetURL} `{GoRuntime} `{Signing}.
Context `{JSON cloudflareRecord} `{JSON cloudflareZonesResponse}
  `{JSON cloudflareRecordsResponse} `{JSON aliDNSRecordsResponse} `{JSON aliDNSResponse}
  `{JSON (list godaddyRecord)} `{JSON spaceshipRecordsResponse} `{JSON spaceshipSaveRequest}
  `{JSON (list spaceshipDeleteRecord)}.

(** A request to the updater's own interface, with its credentials. *)
Definition own_request (u : Updater) (rq : Request) : Prop :=
  match u with
  | Cloudflare token base =>
      HasPrefix (rq_URL rq) (base +:+ "/zones") = true ∧
      rq_Headers rq = [("Authorization", "Bearer " +:+ token);
                       ("Content-Type", "application/json")]
  | AliDNS id secret endpoint =>
      ∃ u params method now1 now2, url_Parse endpoint = Ok u ∧
        rq_URL rq = url_String (url_set_RawQuery
          (Encode (aliyunSigner id secret params method "2015-01-09" now1 now2)) u) ∧
        rq_Method rq = method ∧ rq_Headers rq = [] ∧ rq_Body rq = ""
  | GoDaddy key secret base =>
      HasPrefix (rq_URL rq) (base +:+ "/domains/") = true ∧
      rq_Headers rq = [("Authorization", "sso-key " +:+ key +:+ ":" +:+ secret);
                       ("Content-Type", "application/json")]
  | Spaceship key secret base =>
      HasPrefix (rq_URL rq) (base +:+ "/dns/records/") = true ∧
      rq_Headers rq = [("X-API-Key", key); ("X-API-Secret", secret);
                       ("Content-Type", "application/json")]
  end.

Lemma HasPrefix_base base p q : HasPrefix (base +:+ p +:+ q) (base +:+ p) = true.
Proof. rewrite <-app_assoc_str. apply HasPrefix_app. Qed.

Lemma Cloudflare_sends token base record :
  sends (W:=W) (own_request (Cloudflare token base)) (Cloudflare_Upsert token base record).
Proof.
  assert (∀ method p payload,
    sends (W:=W) (own_request (Cloudflare token base))
      (cloudflare_request token method (base +:+ "/zones" +:+ p) payload)) as Hs.
  { intros. apply sends_exchange. split; [apply HasPrefix_base|done]. }
  unfold Cloudflare_Upsert, getZoneID, getRecords, records_url. sends_step;
    rewrite ?app_assoc_str;
    match goal with |- sends _ (cloudflare_request _ _ (_ +:+ ?p) _) =>
      match p with
      | "/zones?" +:+ ?q => apply (Hs _ ("?" +:+ q))
      | "/zones/" +:+ ?q => apply (Hs _ ("/" +:+ q))
      end
    end.
Qed.

Lemma GoDaddy_sends key secret base record :
  sends (W:=W) (own_request (GoDaddy key secret base)) (GoDaddy_Upsert key secret base record).
Proof.
  unfold GoDaddy_Upsert, godaddy_url. sends_step. apply sends_exchange.
  split; [apply HasPrefix_base|done].
Qed.

Lemma alidns_request_sends {A} `{JSON A} id secret endpoint (zero : A) params :
  sends (W:=W) (own_request (AliDNS id secret endpoint))
    (alidns_request id secret endpoint zero params).
Proof.
  intros w. unfold alidns_request. simpl Now.
  destruct (Now w.1) as [w1 now1]. simpl. destruct (Now w1) as [w2 now2].
  unfold io_bind, io_lift at 1. destruct (url_Parse endpoint) as [u|e] eqn:Eu.
  2:{ exists []. by rewrite app_nil_r. }
  simpl http_Do. cbn [fst snd]. set (rq := Build_Request _ _ _ _).
  exists [rq]. destruct (http_Do rq w2) as [w3 [resp|e]]; (split; [done|]); constructor; [|constructor| |constructor];
    by exists u, params, "GET", now1, now2.
Qed.

Lemma spaceship_request_sends key secret base method p body :
  sends (W:=W) (own_request (Spaceship key secret base))
    (spaceship_request key secret method (base +:+ "/dns/records/" +:+ p) body).
Proof. apply sends_exchange. split; [apply HasPrefix_base|done]. Qed.

Lemma list_from_sends key secret base fuel domain skip all w w' r :
  list_from (W:=logged W) key secret base fuel domain skip all w = Some (w', r) →
  ∃ new, w'.2 = w.2 ++ new ∧ List.Forall (own_request (Spaceship key secret base)) new.
Proof.
  revert skip all w. induction fuel as [|fuel IH]; intros skip all w; [done|].
  cbn [list_from].
  assert (sends (own_request (Spaceship key secret base))
    (listPage (W:=logged W) key secret base domain skip)) as Hp.
  { unfold listPage, page_url, domain_url. sends_step. rewrite !app_assoc_str.
    apply spaceship_request_sends. }
  destruct (Hp w) as (n1 & E1 & F1).
  destruct (listPage key secret base domain skip w) as [w1 [resp|e]]; simpl in E1.
  2:{ intros [= <- <-]. by exists n1. }
  case_match; [intros [= <- <-]; by exists n1|].
  intros (n2 & E2 & F2)%IH. exists (n1 ++ n2). rewrite E2, E1, app_assoc.
  split; [done|]. by apply List.Forall_app.
Qed.

Lemma replace_records_sends key secret base rn record existing :
  sends (W:=W) (own_request (Spaceship key secret base))
    (replace_records key secret base rn record existing).
Proof.
  unfold replace_records, deleteRecords, saveRecord, domain_url.
  sends_step; apply spaceship_request_sends.
Qed.

Lemma returned_sends (P : Request → Prop) (m : IO (logged W) ()) w :
  sends P m → ∃ new, (returned m w).1.2 = w.2 ++ new ∧ List.Forall P new.
Proof.
  intros Hm. destruct (Hm w) as (n & E & F). exists n. unfold returned.
  by destruct (m w) as [w1 [[]|e]].
Qed.

Lemma AliDNS_sends id secret endpoint record (w : logged W) :
  ∃ new, (AliDNS_Upsert id secret endpoint record w).1.2 = w.2 ++ new ∧
    List.Forall (own_request (AliDNS id secret endpoint)) new.
Proof.
  assert (∃ new, w.2 = w.2 ++ new ∧
    List.Forall (own_request (AliDNS id secret endpoint)) new) as Hnil.
  { exists []. by rewrite app_nil_r. }
  unfold AliDNS_Upsert. destruct (resolve_record record) as [rn|e]; [|done].
  assert (sends (own_request (AliDNS id secret endpoint))
    (alidns_lookup (W:=logged W) id secret endpoint rn (rec_Type record))) as Hl
    by apply alidns_request_sends.
  destruct (Hl w) as (n1 & E1 & F1).
  destruct (alidns_lookup _ _ _ _ _ w) as [w1 [records|e]]; simpl in E1; [|by exists n1].
  assert (∀ m : IO (logged W) (), sends (own_request (AliDNS id secret endpoint)) m →
    ∃ new, (returned m w1).1.2 = w.2 ++ new ∧
      List.Forall (own_request (AliDNS id secret endpoint)) new) as Hm.
  { intros m (n2 & E2 & F2)%(returned_sends _ m w1). exists (n1 ++ n2).
    rewrite E2, E1, app_assoc. split; [done|]. by apply List.Forall_app. }
  repeat case_match; try (by exists n1); apply Hm;
    unfold alidns_update, alidns_create; sends_step; apply alidns_request_sends.
Qed.

Lemma Spaceship_sends key secret base fuel record (w w' : logged W) o :
  Spaceship_Upsert key secret base fuel record w = Some (w', o) →
  ∃ new, w'.2 = w.2 ++ new ∧ List.Forall (own_request (Spaceship key secret base)) new.
Proof.
  unfold Spaceship_Upsert. destruct (resolve_record record) as [rn|e].
  2:{ intros [= <- <-]. exists []. by rewrite app_nil_r. }
  destruct (listRecords _ _ _ _ _ w) as [[w1 r]|] eqn:El; [|done].
  apply list_from_sends in El as (n1 & E1 & F1).
  destruct r as [existing|e]; [|intros [= <- <-]; by exists n1].
  destruct (returned_sends _ _ w1
    (replace_records_sends key secret base rn record existing)) as (n2 & E2 & F2).
  intros [= E]. rewrite E in E2. exists (n1 ++ n2). simpl in E2. rewrite E2, E1, app_assoc.
  split; [done|]. by apply List.Forall_app.
Qed.

Lemma returned_requests (P : Request → Prop) (m : IO (logged W) ()) record w :
  sends P m →
  (∀ e, resolve_record record = Err e → m (w, []) = ((w, []), Err e)) →
  let '((w', log), o) := returned m (w, []) in
  List.Forall P log ∧
  (∀ e, resolve_record record = Err e → w' = w ∧ log = [] ∧ o = Returns (Some e)) ∧
  o ≠ Panics.
Proof.
  intros Hs Hr. destruct (returned_sends P m (w, []) Hs) as (n & E & F).
  unfold returned in *. destruct (m (w, [])) as [[w' log] r] eqn:Em.
  assert (log = n) as <- by (by destruct r as [[]|e]).
  destruct r as [[]|e]; (split_and!; [done| |done]); intros e' He;
    apply Hr in He; by inversion He.
Qed.

Lemma Updater_Upsert_sends fuel u record (w : W) :
  match Updater_Upsert (W:=logged W) fuel u record (w, []) with
  | Some ((w', log), o) =>
      List.Forall (own_request u) log ∧
      (∀ e, resolve_record record = Err e → w' = w ∧ log = [] ∧ o = Returns (Some e)) ∧
      (o = Panics → ∃ id secret endpoint, u = AliDNS id secret endpoint)
  | None => ∃ key secret base, u = Spaceship key secret base
  end.
Proof.
  destruct u as [token base|id secret ep|key secret base|key secret base];
    cbn [Updater_Upsert].
  - pose proof (returned_requests _ _ record w (Cloudflare_sends token base record)) as Hr.
    destruct (returned _ _) as [[w' log] o]. destruct Hr as (? & ? & ?);
      [|split_and!; [done..|intros ->; contradiction]].
    intros e He. unfold Cloudflare_Upsert. by rewrite He.
  - destruct (AliDNS_sends id secret ep record (w, [])) as (n & E & F).
    destruct (AliDNS_Upsert _ _ _ _ _) as [[w' log] o] eqn:Er. simpl in E. subst n.
    split_and!; [done| |by eauto]. intros e He. unfold AliDNS_Upsert in Er.
    rewrite He in Er. by inversion Er.
  - pose proof (returned_requests _ _ record w (GoDaddy_sends key secret base record)) as Hr.
    destruct (returned _ _) as [[w' log] o]. destruct Hr as (? & ? & ?);
      [|split_and!; [done..|intros ->; contradiction]].
    intros e He. unfold GoDaddy_Upsert. by rewrite He.
  - destruct (Spaceship_Upsert _ _ _ _ _ _) as [[[w' log] o]|] eqn:Er; [|by eauto].
    pose proof (Spaceship_sends _ _ _ _ _ _ _ _ Er) as (n & E & F). simpl in E. subst n.
    unfold Spaceship_Upsert in Er. split_and!; [done| |].
    + intros e He. rewrite He in Er. by inversion Er.
    + intros ->. unfold returned in Er. repeat case_match; by inversion Er.
Qed.
(** A record of its zone: both have a name, and the record's is the zone's or
    ends with a dot and the zone's (the zone defaults to the domain; white
    space around the names and one final dot do not count). *)
Definition in_its_zone (record : DNSRecord) : Prop :=
  let name s := TrimSuffix (TrimSpace s) "." in
  let z := name (if String.eqb (rec_Zone record) "" then rec_Domain record
                 else rec_Zone record) in
  let f := name (rec_Name record) in
  z ≠ "" ∧ f ≠ "" ∧ (f = z ∨ ∃ p, f = p +:+ "." +:+ z).

Lemma resolve_record_in_zone record :
  match resolve_record record with
  | Ok _ => in_its_zone record
  | Err _ => ¬ in_its_zone record
  end.
Proof.
  unfold resolve_record, in_its_zone.
  set (zone := if String.eqb (rec_Zone record) "" then _ else _).
  pose proof (ResolveRecordName_spec zone (rec_Name record)) as Hs.
  change (TrimSuffix (TrimSpace zone) ".") with (trimDot (TrimSpace zone)).
  change (TrimSuffix (TrimSpace (rec_Name record)) ".")
    with (trimDot (TrimSpace (rec_Name record))).
  destruct (ResolveRecordName zone (rec_Name record)) as [rn|e].
  - destruct Hs as (_ & _ & _ & Hz & [[E _]|(p & E & _)]);
      split; [done|by rewrite E; split; [|left]|done|rewrite E; split; [by destruct p|right; by eauto]].
  - naive_solver.
Qed.

(** C18. Whatever the servers answer, an updater sends its requests to the
    interface it was configured with and to no other, each with its own
    credentials (for AliDNS the signed query); a record that does not belong
    to its zone, or without a zone or a name, is refused before any request.
    Only AliDNS can panic, and only Spaceship reads several pages. *)
Theorem Updater_Upsert_requests fuel u record (w : W) :
  match Updater_Upsert (W:=logged W) fuel u record (w, []) with
  | Some ((w', log), o) =>
      List.Forall (own_request u) log ∧
      (¬ in_its_zone record → w' = w ∧ log = [] ∧ ∃ e, o = Returns (Some e)) ∧
      (o = Panics → ∃ id secret endpoint, u = AliDNS id secret endpoint)
  | None => ∃ key secret base, u = Spaceship key secret base
  end.
Proof.
  pose proof (Updater_Upsert_sends fuel u record w) as Hs.
  destruct (Updater_Upsert _ _ _ _) as [[[w' log] o]|]; [|done].
  destruct Hs as (Hown & Href & Hpanic). split_and!; [done| |done]. intros Hout.
  pose proof (resolve_record_in_zone record) as Hz.
  destruct (resolve_record record) as [rn|e]; [done|].
  destruct (Href e eq_refl) as (-> & -> & ->). by eauto.
Qed.
End own_requests.

(** ** What an update leaves behind at Spaceship *)
Section spaceship_effect.
Context {W} `{HTTP W} `{NetURL} `{GoRuntime}.
Context `{JSON spaceshipRecordsResponse} `{JSON spaceshipSaveRequest}
  `{JSON (list spaceshipDeleteRecord)}.
Context (apiKey apiSecret apiBaseURL domain : string).

Definition as_delete (r : spaceshipRecord) : spaceshipDeleteRecord :=
  {| sd_Type := sr_Type r; sd_Name := sr_Name r; sd_Address := sr_Address r |}.

Definition custom (r : spaceshipRecord) : bool := EqualFold (sr_Group r) "custom".
Definition named (name : string) (recordType : RecordType) (r : spaceshipRecord) : bool :=
  EqualFold (sr_Name r) name && EqualFold (sr_Type r) recordType.

(** The record as the server keeps it. *)
Definition as_custom (r : spaceshipRecord) : spaceshipRecord :=
  {| sr_Type := sr_Type r; sr_Name := sr_Name r; sr_TTL := sr_TTL r;
     sr_Address := sr_Address r; sr_Group := "custom" |}.

(** The interface of the service, for the records of one domain: listing
    changes nothing and shows a page and the number of records; deleting only
    removes records that an item names, and on success every custom one;
    saving a record whose name and type no custom record has only adds it, and
    does so on success. *)
Class SpaceshipServer (zone_of : W → list spaceshipRecord) := {
  server_list k w :
    500 * k ≤ length (zone_of w) →
    let '(w', r) := spaceship_request apiKey apiSecret "GET"
      (page_url apiBaseURL domain (pageSize * Z.of_nat k)) "" w in
    zone_of w' = zone_of w ∧
    ∀ body, r = Ok body →
      json_Decode body = Ok {| ssr_Items := take 500 (drop (500 * k) (zone_of w));
                               ssr_Total := Z.of_nat (length (zone_of w)) |};
  server_delete items w :
    let '(w', r) := spaceship_request apiKey apiSecret "DELETE"
      (domain_url apiBaseURL domain) (json_Marshal items) w in
    (∀ x, x ∈ zone_of w' → x ∈ zone_of w) ∧
    (∀ x, x ∈ zone_of w → as_delete x ∉ items → x ∈ zone_of w') ∧
    (is_ok r = true → ∀ x, x ∈ zone_of w' → custom x = true → as_delete x ∉ items);
  server_save record w :
    let '(w', r) := spaceship_request apiKey apiSecret "PUT"
      (domain_url apiBaseURL domain)
      (json_Marshal {| ssq_Force := true; ssq_Items := [record] |}) w in
    (∀ x, x ∈ zone_of w → custom x = true →
      named (sr_Name record) (sr_Type record) x = false) →
    (∀ x, x ∈ zone_of w' → x ∈ zone_of w ∨ x = as_custom record) ∧
    (∀ x, x ∈ zone_of w → x ∈ zone_of w') ∧
    (is_ok r = true → as_custom record ∈ zone_of w')
}.

Context (zone_of : W → list spaceshipRecord) `{!SpaceshipServer zone_of}.

Lemma server_serves_pages recs :
  serves_pages apiKey apiSecret apiBaseURL (λ w, zone_of w = recs) domain recs.
Proof.
  intros k w <- Hk. unfold listPage, io_bind, io_lift. pose proof (server_list k w Hk) as Hs.
  destruct (spaceship_request _ _ _ _ _ w) as [w' [body|e]]; destruct Hs as [Hz Hs]; [|done].
  split; [done|]. intros page E. rewrite (Hs body eq_refl) in E. by inversion E.
Qed.

Lemma elem_of_filterSpaceshipRecords x l name t :
  x ∈ filterSpaceshipRecords l name t ↔ x ∈ l ∧ custom x = true ∧ named name t x = true.
Proof.
  unfold filterSpaceshipRecords. rewrite list_elem_of_In, filter_In, <-list_elem_of_In.
  by rewrite andb_true_iff.
Qed.

(** Deleting the matching records: nothing with another name or type is lost. *)
Lemma deleteRecords_effect name t (w w' : W) r :
  deleteRecords apiKey apiSecret apiBaseURL domain
    (filterSpaceshipRecords (zone_of w) name t) w = (w', r) →
  (∀ x, x ∈ zone_of w' → x ∈ zone_of w) ∧
  (∀ x, x ∈ zone_of w → named name t x = false → x ∈ zone_of w') ∧
  (is_ok r = true → ∀ x, x ∈ zone_of w' → custom x = true → named name t x = false).
Proof.
  unfold deleteRecords, io_bind.
  set (items := delete_payload _). pose proof (server_delete items w) as Hs.
  destruct (spaceship_request _ _ _ _ _ w) as [w1 r1]. destruct Hs as (Hs1 & Hs2 & Hs3).
  intros E. assert (w' = w1 ∧ is_ok r = is_ok r1) as [-> ->] by (destruct r1; by inversion E).
  clear E r.
  assert (∀ x, as_delete x ∈ items ↔
    ∃ y, y ∈ zone_of w ∧ custom y = true ∧ named name t y = true ∧
      as_delete x = as_delete y) as Hitems.
  { intros x. unfold items, delete_payload. rewrite list_elem_of_fmap. split.
    - intros (y & E & Hy%elem_of_filterSpaceshipRecords). exists y. tauto.
    - intros (y & H1' & H2' & H3' & E). exists y. split; [done|].
      by apply elem_of_filterSpaceshipRecords. }
  assert (∀ x y, as_delete x = as_delete y → named name t x = named name t y) as Hnamed.
  { intros x y E. inversion E as [[E1 E2 E3]]. unfold named. by rewrite E1, E2. }
  split_and!; [done| |].
  - intros x Hx Hn. apply Hs2; [done|]. intros (y & _ & _ & Hy & E)%Hitems.
    by rewrite (Hnamed x y), Hy in Hn.
  - intros Hok x Hx Hc. apply not_true_iff_false. intros Hn.
    apply (Hs3 Hok x Hx Hc), Hitems. exists x. split_and!; try done. by apply Hs1.
Qed.

Lemma saveRecord_effect record (w w' : W) r :
  saveRecord apiKey apiSecret apiBaseURL domain record w = (w', r) →
  (∀ x, x ∈ zone_of w → custom x = true → named (sr_Name record) (sr_Type record) x = false) →
  (∀ x, x ∈ zone_of w' → x ∈ zone_of w ∨ x = as_custom record) ∧
  (∀ x, x ∈ zone_of w → x ∈ zone_of w') ∧
  (is_ok r = true → as_custom record ∈ zone_of w').
Proof.
  unfold saveRecord, io_bind. pose proof (server_save record w) as Hs.
  destruct (spaceship_request _ _ _ _ _ w) as [w1 r1]. intros E Hn.
  assert (w' = w1 ∧ is_ok r = is_ok r1) as [-> ->] by (destruct r1; by inversion E). by apply Hs.
Qed.

(** The records of the domain after an update of [name] and [t]. *)
Record updated (name : string) (t : RecordType) (new : spaceshipRecord)
    (old zone : list spaceshipRecord) (ok : bool) : Prop := {
  updated_others x : named name t x = false → x ≠ new → x ∈ zone ↔ x ∈ old;
  updated_no_other x : x ∈ zone → x ∈ old ∨ x = new;
  updated_ok :
    ok = true →
    (∃ x, x ∈ zone ∧ (named name t x = true ∨ x = new) ∧
       sr_Address x = sr_Address new ∧ sr_TTL x = sr_TTL new) ∧
    ∀ x, x ∈ zone → custom x = true → named name t x = true →
      sr_Address x = sr_Address new ∧ sr_TTL x = sr_TTL new
}.

Definition new_record (rn : RecordName) (record : DNSRecord) : spaceshipRecord :=
  {| sr_Type := rec_Type record; sr_Name := rn_Relative rn;
     sr_TTL := defaultSpaceshipTTL (rec_TTL record); sr_Address := rec_Value record;
     sr_Group := "custom" |}.

Lemma replace_records_noop rn record (w : W) :
  spaceshipRecordsEqual
    (filterSpaceshipRecords (zone_of w) (rn_Relative rn) (rec_Type record))
    (rn_Relative rn) (rec_Type record) (rec_Value record)
    (defaultSpaceshipTTL (rec_TTL record)) = true →
  updated (rn_Relative rn) (rec_Type record) (new_record rn record)
    (zone_of w) (zone_of w) true.
Proof.
  intros He. split; [done|by left|]. intros _.
  pose proof (λ x, elem_of_filterSpaceshipRecords x (zone_of w) (rn_Relative rn)
    (rec_Type record)) as Hf.
  destruct (filterSpaceshipRecords _ _ _) as [|x [|? ?]]; try discriminate. simpl in He.
  rewrite !andb_true_iff, String.eqb_eq, Z.eqb_eq in He. destruct He as (((? & ?) & Ha) & Ht).
  destruct (proj1 (Hf x)) as (Hx & Hc & Hn); [by constructor|]. split.
  - exists x. split_and!; [done|by left|done..].
  - intros y Hy1 Hy2 Hy3. assert (y ∈ [x]) as Hy by (by apply Hf).
    apply list_elem_of_singleton in Hy as ->. done.
Qed.

Lemma replace_records_effect rn record (w w' : W) r :
  rn_Zone rn = domain →
  replace_records apiKey apiSecret apiBaseURL rn record (zone_of w) w = (w', r) →
  updated (rn_Relative rn) (rec_Type record) (new_record rn record)
    (zone_of w) (zone_of w') (is_ok r).
Proof.
  intros Hrn. unfold replace_records. rewrite Hrn. destruct (spaceshipRecordsEqual _ _ _ _ _) eqn:He.
  { intros [= <- <-]. by apply replace_records_noop. }
  set (name := rn_Relative rn). set (t := rec_Type record). clear He.
  set (matching := filterSpaceshipRecords _ _ _). set (m := match matching with [] => _ | _ => _ end).
  unfold io_bind. destruct (m w) as [w1 r1] eqn:Em. intros Hrun.
  assert ((∀ x, x ∈ zone_of w1 → x ∈ zone_of w) ∧
    (∀ x, x ∈ zone_of w → named name t x = false → x ∈ zone_of w1) ∧
    (is_ok r1 = true → ∀ x, x ∈ zone_of w1 → custom x = true → named name t x = false))
    as (Hd1 & Hd2 & Hd3).
  { unfold m in Em. destruct matching as [|y l] eqn:Ef.
    - injection Em as <- <-. split_and!; [done..|]. intros _ x Hx Hc.
      apply not_true_iff_false. intros Hn. assert (x ∈ matching) as Hin.
      { by apply elem_of_filterSpaceshipRecords. }
      rewrite Ef in Hin. by apply elem_of_nil in Hin.
    - rewrite <-Ef in Em. by apply deleteRecords_effect in Em. }
  destruct r1 as [[]|e].
  2:{ injection Hrun as <- <-. split; [|by left; apply Hd1|done].
      intros x Hn _. split; [apply Hd1|]. intros Hx. by apply Hd2. }
  apply saveRecord_effect in Hrun as (Hs1 & Hs2 & Hs3); [|by apply Hd3].
  change (as_custom _) with (new_record rn record) in *. split.
  - intros x Hn Hne. split; [|by eauto]. intros [Hx|Hx]%Hs1; [by apply Hd1|done].
  - intros x [Hx|Hx]%Hs1; [left; by apply Hd1|by right].
  - intros Hok. split.
    + exists (new_record rn record). split_and!; [by apply Hs3|by right|done..].
    + intros x [Hx| ->]%Hs1 Hc Hn; [|done]. by rewrite (Hd3 eq_refl x Hx Hc) in Hn.
Qed.

(** C12. An update of a record at Spaceship.  Whatever fails, no record of
    another name or type is touched and nothing but the new record is added;
    when it succeeds the record exists with the new address and time to live,
    and no custom record of that name and type says anything else. *)
Theorem Spaceship_Upsert_correct fuel record rn (w : W) :
  resolve_record record = Ok rn → rn_Zone rn = domain →
  (Z.of_nat (length (zone_of w)) + pageSize ≤ int_max)%Z →
  length (zone_of w) < fuel →
  ∃ w' err,
    Spaceship_Upsert apiKey apiSecret apiBaseURL fuel record w = Some (w', Returns err) ∧
    updated (rn_Relative rn) (rec_Type record) (new_record rn record)
      (zone_of w) (zone_of w') (match err with None => true | Some _ => false end).
Proof.
  intros Hr Hd Hmax Hf. unfold Spaceship_Upsert. rewrite Hr, Hd.
  destruct (listRecords_complete apiKey apiSecret apiBaseURL _ domain (zone_of w) fuel w
    (server_serves_pages _) Hmax eq_refl Hf) as (w1 & r & Hw1 & Hl & ->).
  destruct r as [recs|e].
  2:{ exists w1, (Some e). rewrite Hw1. split; [done|]. split; [done|by left|done]. }
  simpl in Hl. subst recs. unfold returned.
  destruct (replace_records _ _ _ rn record (zone_of w) w1) as [w2 r] eqn:E.
  rewrite <-Hw1 in E. apply replace_records_effect in E; [|done]. rewrite Hw1 in E.
  destruct r as [[]|e]; by eexists _, _.
Qed.
End spaceship_effect.

(** ** A simulated server *)

(** A codec for any countable type: the bits of the value's code. *)
Fixpoint bits (p : positive) : string :=
  match p with
  | xH => "."
  | xO p => String "0" (bits p)
  | xI p => String "1" (bits p)
  end.
Fixpoint unbits (s : string) : positive :=
  match s with
  | String "0" s => xO (unbits s)
  | String "1" s => xI (unbits s)
  | _ => xH
  end.
Lemma unbits_bits p : unbits (bits p) = p.
Proof. induction p as [p IH|p IH|]; simpl; by rewrite ?IH. Qed.

Definition countable_codec (A : Type) `{Countable A} : JSON A := {|
  json_Marshal a := bits (encode a);
  json_Decode s := match decode (unbits s) with
                   | Some a => Ok a
                   | None => Err (Enew "invalid character")
                   end
|}.

Lemma countable_codec_decode `{Countable A} (a : A) :
  json_Decode (JSON:=countable_codec A) (json_Marshal (JSON:=countable_codec A) a) = Ok a.
Proof. simpl. by rewrite unbits_bits, decode_encode. Qed.

Ltac derive_eq_dec := solve_decision.
#[export] Instance spaceshipRecord_eq_dec : EqDecision spaceshipRecord.
Proof. derive_eq_dec. Defined.
#[export] Instance spaceshipDeleteRecord_eq_dec : EqDecision spaceshipDeleteRecord.
Proof. derive_eq_dec. Defined.
#[export] Instance spaceshipRecordsResponse_eq_dec : EqDecision spaceshipRecordsResponse.
Proof. derive_eq_dec. Defined.
#[export] Instance spaceshipSaveRequest_eq_dec : EqDecision spaceshipSaveRequest.
Proof. derive_eq_dec. Defined.

#[export] Instance spaceshipRecord_countable : Countable spaceshipRecord.
Proof.
  refine (inj_countable'
    (λ r, (sr_Type r, sr_Name r, sr_TTL r, sr_Address r, sr_Group r))
    (λ '(t, n, ttl, a, g), Build_spaceshipRecord t n ttl a g) _).
  by intros [].
Defined.
#[export] Instance spaceshipDeleteRecord_countable : Countable spaceshipDeleteRecord.
Proof.
  refine (inj_countable' (λ r, (sd_Type r, sd_Name r, sd_Address r))
    (λ '(t, n, a), Build_spaceshipDeleteRecord t n a) _).
  by intros [].
Defined.
#[export] Instance spaceshipRecordsResponse_countable : Countable spaceshipRecordsResponse.
Proof.
  refine (inj_countable' (λ r, (ssr_Items r, ssr_Total r))
    (λ '(i, t), Build_spaceshipRecordsResponse i t) _).
  by intros [].
Defined.
#[export] Instance spaceshipSaveRequest_countable : Countable spaceshipSaveRequest.
Proof.
  refine (inj_countable' (λ r, (ssq_Force r, ssq_Items r))
    (λ '(f, i), Build_spaceshipSaveRequest f i) _).
  by intros [].
Defined.

(** A server for one domain, which keeps fewer than 500 records. *)
#[local] Existing Instance reference_runtime.
#[local] Existing Instance reference_url.
#[local] Instance sim_records_JSON : JSON spaceshipRecordsResponse := countable_codec _.
#[local] Instance sim_save_JSON : JSON spaceshipSaveRequest := countable_codec _.
#[local] Instance sim_delete_JSON : JSON (list spaceshipDeleteRecord) := countable_codec _.

Definition sim_zone : list spaceshipRecord → list spaceshipRecord := take 499.

Definition sim_answer {A} (body : string) (w : list spaceshipRecord)
  : list spaceshipRecord * result A Response :=
  (w, Ok {| rs_StatusCode := 200; rs_Body := limited body |}).

#[local] Instance sim_spaceship : HTTP (list spaceshipRecord) := {
  http_Do rq w :=
    if String.eqb (rq_Method rq) "GET" then
      let body := json_Marshal {| ssr_Items := sim_zone w;
                                  ssr_Total := Z.of_nat (length (sim_zone w)) |} in
      if (Z.of_nat (String.length body) <=? body_limit)%Z then sim_answer body w
      else (w, Err (Enew "response too large"))
    else if String.eqb (rq_Method rq) "DELETE" then
      match json_Decode (A:=list spaceshipDeleteRecord) (rq_Body rq) with
      | Ok items => sim_answer "" (List.filter (λ x, negb (custom x && bool_decide (as_delete x ∈ items))) (sim_zone w))
      | Err e => (w, Err e)
      end
    else
      match json_Decode (A:=spaceshipSaveRequest) (rq_Body rq) with
      | Ok {| ssq_Items := [record] |} =>
          if (length w <? 499)%nat then sim_answer "" (as_custom record :: w)
          else (w, Ok {| rs_StatusCode := 422; rs_Body := "too many records" |})
      | _ => (w, Err (Enew "bad request"))
      end
}.

Lemma simple_parse_ok s : ∃ u, url_Parse s = Ok u.
Proof.
  simpl. unfold simple_parse. destruct (split_at_sep _ _) as [[a b]|]; [|by eexists].
  destruct (Cut _ _) as [[c d]|]; by eexists.
Qed.

(** The exchange with the server is the server's answer. *)
Lemma sim_exchange rq w :
  exchange rq w =
  match http_Do rq w with
  | (w', Ok resp) => (w', readResponseBody resp)
  | (w', Err e) => (w', Err e)
  end.
Proof.
  unfold exchange, io_bind, io_lift. destruct (simple_parse_ok (rq_URL rq)) as [u ->].
  by destruct (http_Do rq w) as [w' [resp|e]].
Qed.

Lemma sim_zone_small w : length (sim_zone w) ≤ 499.
Proof. unfold sim_zone. rewrite length_take. lia. Qed.

Lemma sim_zone_id w : length w ≤ 499 → sim_zone w = w.
Proof. apply take_ge. Qed.

Lemma sim_server_list k w :
  500 * k ≤ length (sim_zone w) →
  let '(w', r) := spaceship_request "key" "secret" "GET"
    (page_url defaultSpaceshipAPIBaseURL "example.com" (pageSize * Z.of_nat k)) "" w in
  sim_zone w' = sim_zone w ∧
  ∀ body, r = Ok body →
    json_Decode body = Ok {| ssr_Items := take 500 (drop (500 * k) (sim_zone w));
                             ssr_Total := Z.of_nat (length (sim_zone w)) |}.
Proof.
  intros Hk. pose proof (sim_zone_small w) as Hl. assert (k = 0) as -> by lia.
  rewrite drop_0, (take_ge (sim_zone w)) by lia. unfold spaceship_request. rewrite sim_exchange.
  cbn [http_Do sim_spaceship rq_Method]. change (String.eqb "GET" "GET") with true. cbv iota.
  set (body := json_Marshal _).
  destruct (Z.of_nat (String.length body) <=? body_limit)%Z eqn:Hb; [|done].
  unfold sim_answer. split; [done|]. intros body' E. unfold readResponseBody, limited in E.
  rewrite Hb in E. cbn [rs_Body rs_StatusCode] in E. rewrite Hb in E. injection E as <-.
  apply countable_codec_decode.
Qed.

Lemma sim_server_delete items w :
  let '(w', r) := spaceship_request "key" "secret" "DELETE"
    (domain_url defaultSpaceshipAPIBaseURL "example.com") (json_Marshal items) w in
  (∀ x, x ∈ sim_zone w' → x ∈ sim_zone w) ∧
  (∀ x, x ∈ sim_zone w → as_delete x ∉ items → x ∈ sim_zone w') ∧
  (is_ok r = true → ∀ x, x ∈ sim_zone w' → custom x = true → as_delete x ∉ items).
Proof.
  unfold spaceship_request. rewrite sim_exchange. cbn [http_Do sim_spaceship rq_Method rq_Body].
  change (String.eqb "DELETE" "GET") with false. change (String.eqb "DELETE" "DELETE") with true.
  cbv iota. change (json_Decode (json_Marshal items)) with
    (json_Decode (JSON:=countable_codec (list spaceshipDeleteRecord))
       (json_Marshal (JSON:=countable_codec (list spaceshipDeleteRecord)) items)).
  rewrite countable_codec_decode. unfold sim_answer.
  set (p := λ x, negb (custom x && bool_decide (as_delete x ∈ items))).
  assert (sim_zone (List.filter p (sim_zone w)) = List.filter p (sim_zone w)) as ->.
  { apply sim_zone_id. pose proof (sim_zone_small w). pose proof (filter_length_le p (sim_zone w)).
    lia. }
  assert (∀ x, x ∈ List.filter p (sim_zone w) ↔ x ∈ sim_zone w ∧ p x = true) as Hf.
  { intros x. by rewrite list_elem_of_In, filter_In, <-list_elem_of_In. }
  split_and!.
  - by intros x [??]%Hf.
  - intros x Hx Hn. apply Hf. split; [done|]. unfold p.
    by rewrite bool_decide_eq_false_2, andb_false_r.
  - intros _ x [_ Hp]%Hf Hc Hin. unfold p in Hp. by rewrite Hc, bool_decide_eq_true_2 in Hp.
Qed.

Lemma sim_server_save record w :
  let '(w', r) := spaceship_request "key" "secret" "PUT"
    (domain_url defaultSpaceshipAPIBaseURL "example.com")
    (json_Marshal {| ssq_Force := true; ssq_Items := [record] |}) w in
  (∀ x, x ∈ sim_zone w' → x ∈ sim_zone w ∨ x = as_custom record) ∧
  (∀ x, x ∈ sim_zone w → x ∈ sim_zone w') ∧
  (is_ok r = true → as_custom record ∈ sim_zone w').
Proof.
  unfold spaceship_request. rewrite sim_exchange. cbn [http_Do sim_spaceship rq_Method rq_Body].
  change (String.eqb "PUT" "GET") with false. change (String.eqb "PUT" "DELETE") with false.
  cbv iota. change (json_Decode (json_Marshal ?a)) with
    (json_Decode (JSON:=countable_codec spaceshipSaveRequest)
       (json_Marshal (JSON:=countable_codec spaceshipSaveRequest) a)).
  rewrite countable_codec_decode. destruct (Nat.ltb_spec (length w) 499) as [Hl|Hl].
  - unfold sim_answer. rewrite (sim_zone_id (as_custom record :: w)) by (simpl; lia).
    rewrite (sim_zone_id w) by lia. split_and!.
    + intros x [->|Hx]%elem_of_cons; [by right|by left].
    + intros x Hx. by constructor.
    + intros _. constructor.
  - split_and!; [by left|done|done].
Qed.

#[local] Instance sim_spaceship_server :
  SpaceshipServer "key" "secret" defaultSpaceshipAPIBaseURL "example.com" sim_zone.
Proof.
  split.
  - apply sim_server_list.
  - apply sim_server_delete.
  - intros record w. pose proof (sim_server_save record w) as Hs.
    by destruct (spaceship_request _ _ _ _ _ w).
Qed.

Definition example_records : list spaceshipRecord :=
  [{| sr_Type := "A"; sr_Name := "www"; sr_TTL := 300%Z; sr_Address := "203.0.113.1";
      sr_Group := "custom" |};
   {| sr_Type := "MX"; sr_Name := "@"; sr_TTL := 3600%Z; sr_Address := "";
      sr_Group := "custom" |}].

Definition example_update : DNSRecord :=
  {| rec_Domain := "example.com"; rec_Zone := "example.com"; rec_Name := "www.example.com";
     rec_Type := "A"; rec_Value := "203.0.113.7"; rec_TTL := 0%Z |}.

Example Spaceship_Upsert_runs :
  Spaceship_Upsert "key" "secret" defaultSpaceshipAPIBaseURL 3 example_update example_records =
  Some ([{| sr_Type := "A"; sr_Name := "www"; sr_TTL := 3600%Z; sr_Address := "203.0.113.7";
            sr_Group := "custom" |};
         {| sr_Type := "MX"; sr_Name := "@"; sr_TTL := 3600%Z; sr_Address := "";
            sr_Group := "custom" |}], Returns None).
Proof. vm_compute. reflexivity. Qed.

Example Spaceship_Upsert_correct_witness :
  let rn := {| rn_Domain := "example.com"; rn_Zone := "example.com";
               rn_FQDN := "www.example.com"; rn_Relative := "www" |} in
  ∃ w' err,
    Spaceship_Upsert "key" "secret" defaultSpaceshipAPIBaseURL 3 example_update
      example_records = Some (w', Returns err) ∧
    updated "www" "A" (new_record rn example_update) (sim_zone example_records) (sim_zone w')
      (match err with None => true | Some _ => false end).
Proof.
  intros rn. apply (Spaceship_Upsert_correct "key" "secret" defaultSpaceshipAPIBaseURL
    "example.com" sim_zone 3 example_update rn example_records);
    [reflexivity|reflexivity|vm_compute; discriminate|simpl; lia].
Defined.

(** The signature of a lookup, with stand-ins for the cryptography. *)
#[local] Instance sim_signing : Signing := {
  hmac_Sum h key data := data;
  base64_EncodeToString s := s;
  UnixNano t := t;
  time_Format t := "2024-01-02T03:04:05Z"
}.

Example makeDataToSign_canonical_witness :
  let params : Values := {["SubDomain" := "*.example.com"]} in
  makeDataToSign "GET" params = "GET&%2F&SubDomain%3D%252A.example.com" ∧
  makeDataToSign "GET" params = string_to_sign "GET" params ∧
  aliyunSigner "id" "secret" params "GET" "2015-01-09" 1%Z 2%Z !! "AccessKeyId" = Some "id".
Proof.
  intros params.
  destruct (makeDataToSign_canonical "GET" params) as [E Hs];
    [apply map_Forall_singleton; reflexivity|reflexivity|].
  split; [reflexivity|]. split; [exact E|]. apply (Hs "id" "secret" "2015-01-09" 1%Z 2%Z).
Defined.

(** A count without records: the client indexes an empty list. *)
#[local] Instance sim_alidns_JSON : JSON aliDNSRecordsResponse := {
  json_Marshal _ := "{}";
  json_Decode _ := Ok {| alr_TotalCount := 1; alr_Record := [] |}
}.
#[local] Instance sim_alidns_reply_JSON : JSON aliDNSResponse := {
  json_Marshal _ := "{}"; json_Decode _ := Ok {| ali_RecordID := "1" |}
}.
#[local] Instance sim_alidns : HTTP SimOS := {
  http_Do _ w := (w, Ok {| rs_StatusCode := 200; rs_Body := "{}" |})
}.

Example AliDNS_Upsert_panics :
  (AliDNS_Upsert "id" "secret" defaultAliDNSEndpoint example_update empty_host).2 = Panics.
Proof. vm_compute. reflexivity. Qed.
