(* ===== verification/AgentMain.v ===== *)
(** The agent's program ([src/cmd/domux-agent/main.go]): its command line, what
    it serves, its registration with the server and the files that [install]
    writes.  The command line of the server ([src/cmd/domux/main.go]) is here
    too.

    [flag] of the standard library is the definition [flag_Parse].  The wait
    between two attempts to register is an effect on the world. *)

From S2P Require Import Prelude GoStrings GoRuntime Core Registry Config Store Proxy Sys Discovery Agent Routes Certs Main Api Program.

(** ** Command lines ([flag]) *)
Inductive flag_value := StringFlag (s : string) | BoolFlag (b : bool).
Definition FlagSet := gmap string flag_value.

(** [strconv.ParseBool] *)
Definition ParseBool (s : string) : option bool :=
  if bool_decide (s ∈ ["1"; "t"; "T"; "true"; "TRUE"; "True"]) then Some true
  else if bool_decide (s ∈ ["0"; "f"; "F"; "false"; "FALSE"; "False"]) then Some false
  else None.

(** The name and value of an argument that is a flag, without its dashes. *)
Definition flag_split (s : string) : string * option string :=
  match s with
  | EmptyString => ("", None)
  | String c s' => match Cut "=" s' with
                   | Some (name, value) => (String c name, Some value)
                   | None => (s, None)
                   end
  end.

(** The text after one or two dashes; [None] ends the flags. *)
Definition flag_text (s : string) : option string :=
  match s with
  | String c (String d s') =>
      if Ascii.eqb c dash then
        if Ascii.eqb d dash then (if String.eqb s' "" then None else Some s')
        else Some (String d s')
      else None
  | _ => None
  end.

Definition bad_flag (s : string) : bool :=
  match s with
  | EmptyString => true
  | String c _ => Ascii.eqb c dash || Ascii.eqb c "="
  end.

Section flags.
Context `{GoRuntime}.

(** [FlagSet.Parse] with [ContinueOnError]: arguments after the flags are
    left alone. *)
Fixpoint flag_Parse (args : list string) (flags : FlagSet) : result error FlagSet :=
  match args with
  | [] => Ok flags
  | s :: rest =>
      match flag_text s with
      | None => Ok flags
      | Some text =>
          if bad_flag text then Err (Enew ("bad flag syntax: " +:+ s))
          else
            let '(name, value) := flag_split text in
            match flags !! name with
            | None =>
                if String.eqb name "help" || String.eqb name "h"
                then Err (Enew "flag: help requested")
                else Err (Enew ("flag provided but not defined: -" +:+ name))
            | Some (BoolFlag _) =>
                match value with
                | None => flag_Parse rest (<[name := BoolFlag true]> flags)
                | Some v =>
                    match ParseBool v with
                    | Some b => flag_Parse rest (<[name := BoolFlag b]> flags)
                    | None => Err (Enew ("invalid boolean value " +:+ quote v +:+ " for -" +:+
                                         name +:+ ": parse error"))
                    end
                end
            | Some (StringFlag _) =>
                match value, rest with
                | Some v, _ => flag_Parse rest (<[name := StringFlag v]> flags)
                | None, v :: rest' => flag_Parse rest' (<[name := StringFlag v]> flags)
                | None, [] => Err (Enew ("flag needs an argument: -" +:+ name))
                end
            end
      end
  end.

Definition flag_string (flags : FlagSet) (name : string) : string :=
  match flags !! name with Some (StringFlag s) => s | _ => "" end.
Definition flag_bool (flags : FlagSet) (name : string) : bool :=
  match flags !! name with Some (BoolFlag b) => b | _ => false end.

Definition string_flags (l : list (string * string)) : FlagSet :=
  foldr (λ p flags, <[p.1 := StringFlag p.2]> flags) ∅ l.

(** The path of the server's configuration file. *)
Definition runServer_config (args : list string) : result error string :=
  let? flags := flag_Parse args (string_flags [("config", "")]) in
  Ok (flag_string flags "config").
End flags.

(** ** Serving *)
Definition jdversion_Value : string := "0.1.0".

Record agentRegistration := {
  ag_Name : string;
  ag_Addr : string;
  ag_Runtime : ContainerRuntime;
  ag_SocketPath : string;
  ag_Version : string
}.

(** What [runServe] sets up before it listens. *)
Record serve_plan (W : Type) := {
  sp_Addr : string;
  sp_Server : Server W;
  sp_Registration : option (string * agentRegistration)
}.
Arguments sp_Addr {W} _.
Arguments sp_Server {W} _.
Arguments sp_Registration {W} _.

Section agent_program.
Context {W : Type} `{OS W} `{HN : HTTP W} `{GoRuntime} `{NetURL} `{JSON agentRegistration}
  (env : Env).

Definition defaultSocketPath (runtime : ContainerRuntime) : string :=
  let path := DefaultRuntimeSocketPath env runtime in
  if negb (String.eqb (TrimSpace path) "") then path else "/var/run/docker.sock".

Definition runServe (deployer : CertificateDeployer W) (args : list string)
  : result error (serve_plan W) :=
  let name := Getenv env "HOSTNAME" in
  let name := if String.eqb name "" then "domux-agent" else name in
  let? flags := flag_Parse args (string_flags
    [("listen", ":8890"); ("socket", ""); ("server", Getenv env "DOMUX_SERVER_URL");
     ("addr", Getenv env "DOMUX_AGENT_ADDR"); ("name", name);
     ("runtime", ContainerRuntimeDocker)]) in
  let runtime := flag_string flags "runtime" in
  match ContainerRuntime_Validate runtime with
  | Some e => Err e
  | None =>
      let socketPath := flag_string flags "socket" in
      let socketPath := if String.eqb (TrimSpace socketPath) "" then defaultSocketPath runtime
                        else socketPath in
      let? proxy := NewRuntimeProxy socketPath in
      let name := flag_string flags "name" in
      let serverURL := TrimSpace (flag_string flags "server") in
      Ok {| sp_Addr := flag_string flags "listen";
            sp_Server := WithSocketPath socketPath
              (New_Server name runtime jdversion_Value (Some deployer) proxy);
            sp_Registration :=
              if String.eqb serverURL "" then None
              else Some (serverURL,
                {| ag_Name := name; ag_Addr := TrimSpace (flag_string flags "addr");
                   ag_Runtime := runtime; ag_SocketPath := socketPath;
                   ag_Version := jdversion_Value |}) |}
  end.

Definition guessPublicAgentAddr (name : string) : string :=
  let name := TrimSpace name in
  (if String.eqb name "" then "domux-agent" else name) +:+ ":8890".

Definition with_addr (registration : agentRegistration) : agentRegistration :=
  if String.eqb (TrimSpace (ag_Addr registration)) "" then
    {| ag_Name := ag_Name registration; ag_Addr := guessPublicAgentAddr (ag_Name registration);
       ag_Runtime := ag_Runtime registration; ag_SocketPath := ag_SocketPath registration;
       ag_Version := ag_Version registration |}
  else registration.

Definition register_endpoint (serverURL : string) : string :=
  TrimRightSet (is_char slash) serverURL +:+ "/api/v1/agents/register".

Definition register_request (serverURL : string) (registration : agentRegistration) : Request :=
  {| rq_Method := "POST"; rq_URL := register_endpoint serverURL;
     rq_Headers := [("Content-Type", "application/json")];
     rq_Body := json_Marshal registration |}.

Definition accepted (r : result error Response) : bool :=
  match r with
  | Ok resp => ((200 <=? rs_StatusCode resp) && (rs_StatusCode resp <? 300))%Z
  | Err _ => false
  end.

(** The loop of [registerWithServer], with the attempts that are left; whether
    the server accepted. *)
Fixpoint register_attempts (wait : W → W) (n : nat) (rq : Request) (w : W) : W * bool :=
  match n with
  | O => (w, false)
  | S n' =>
      match url_Parse (rq_URL rq) with
      | Err _ => (w, false)
      | Ok _ =>
          let '(w, r) := http_Do rq w in
          if accepted r then (w, true) else register_attempts wait n' rq (wait w)
      end
  end.

Definition registerWithServer (wait : W → W) (serverURL : string)
    (registration : agentRegistration) : W → W * bool :=
  register_attempts wait 12 (register_request serverURL (with_addr registration)).

(** ** Installation *)

(** [strings.ReplaceAll], for a non-empty text to replace. *)
Fixpoint replace_all_from (skip : nat) (s old new : string) : string :=
  match s with
  | EmptyString => ""
  | String c s' =>
      match skip with
      | S k => replace_all_from k s' old new
      | O => if HasPrefix s old
             then new +:+ replace_all_from (String.length old - 1) s' old new
             else String c (replace_all_from 0 s' old new)
      end
  end.
Definition ReplaceAll (s old new : string) : string := replace_all_from 0 s old new.

Definition quoted (s : string) : string := String dquote (s +:+ String dquote "").

Definition defaultAgentServiceTemplate : string :=
  Join newline [
    "[Unit]"; "Description=domux agent"; "After=network-online.target";
    "Wants=network-online.target"; ""; "[Service]"; "Type=simple";
    "EnvironmentFile={{ENV_FILE}}";
    "ExecStart=/bin/sh -ec '/usr/local/bin/domux-agent -name " +:+ quoted "$DOMUX_AGENT_NAME" +:+
      " -listen " +:+ quoted "$DOMUX_AGENT_LISTEN" +:+
      " -runtime " +:+ quoted "$DOMUX_AGENT_RUNTIME" +:+
      " -socket " +:+ quoted "$DOMUX_AGENT_SOCKET" +:+
      " -server " +:+ quoted "$DOMUX_SERVER_URL" +:+
      " -addr " +:+ quoted "$DOMUX_AGENT_ADDR" +:+ "'";
    "Restart=on-failure"; "RestartSec=5"; "NoNewPrivileges=true"; "LimitNOFILE=65536"; "";
    "[Install]"; "WantedBy=multi-user.target"; ""].

Definition buildSystemdEnvForInstall (name listenAddr : string) (runtime : ContainerRuntime)
    (socketPath serverURL publicAddr : string) : string :=
  Join newline [
    "DOMUX_AGENT_NAME=" +:+ TrimSpace name;
    "DOMUX_AGENT_LISTEN=" +:+ TrimSpace listenAddr;
    "DOMUX_AGENT_RUNTIME=" +:+ runtime;
    "DOMUX_AGENT_SOCKET=" +:+ TrimSpace socketPath;
    "DOMUX_SERVER_URL=" +:+ TrimSpace serverURL;
    "DOMUX_AGENT_ADDR=" +:+ TrimSpace publicAddr] +:+ newline.

(** [filepath.Abs], in the working directory [cwd]. *)
Definition path_Abs (cwd path : string) : string :=
  if IsAbs path then Clean path else PathJoin [cwd; path].

(** The files that an installation is going to write. *)
Record install_plan := {
  ip_PrintOnly : bool;
  ip_Prefix : string;
  ip_ServerURL : string;
  ip_EnvPath : string;
  ip_EnvContent : string;
  ip_ServicePath : string;
  ip_ServiceContent : string
}.

(** [runInstall] up to the first file. *)
Definition plan_install (cwd : string) (args : list string) : result error install_plan :=
  let defaultName := Getenv env "HOSTNAME" in
  let defaultName := if String.eqb (TrimSpace defaultName) "" then "domux-agent"
                     else defaultName in
  let? flags := flag_Parse args (<["print-only" := BoolFlag false]> (string_flags
    [("name", defaultName); ("listen", ":8890"); ("runtime", ContainerRuntimeDocker);
     ("socket", ""); ("server", ""); ("addr", ""); ("prefix", "/etc/domux"); ("env-file", "");
     ("service-file", ""); ("service-name", "domux-agent")])) in
  let serverURL := flag_string flags "server" in
  if String.eqb (TrimSpace serverURL) "" then Err (Enew "-server is required")
  else
    let runtime := flag_string flags "runtime" in
    match ContainerRuntime_Validate runtime with
    | Some e => Err e
    | None =>
        let or_default (value dflt : string) :=
          if String.eqb (TrimSpace value) "" then dflt else value in
        let socketPath := or_default (flag_string flags "socket") (defaultSocketPath runtime) in
        let absPrefix := path_Abs cwd (TrimSpace (flag_string flags "prefix")) in
        let serviceName := flag_string flags "service-name" in
        let envPath := or_default (flag_string flags "env-file")
                         (PathJoin [absPrefix; serviceName +:+ ".env"]) in
        let servicePath := or_default (flag_string flags "service-file")
                             (PathJoin [absPrefix; serviceName +:+ ".service"]) in
        Ok {| ip_PrintOnly := flag_bool flags "print-only"; ip_Prefix := absPrefix;
              ip_ServerURL := serverURL; ip_EnvPath := envPath;
              ip_EnvContent := buildSystemdEnvForInstall (flag_string flags "name")
                (flag_string flags "listen") runtime socketPath serverURL
                (flag_string flags "addr");
              ip_ServicePath := servicePath;
              ip_ServiceContent := ReplaceAll defaultAgentServiceTemplate "{{ENV_FILE}}" envPath |}
    end.

(** [runInstall]: the two directories, then the two files; with [-print-only],
    the plan is only printed. *)
Definition runInstall (cwd : string) (args : list string) : IO W () :=
  do! plan := io_lift (plan_install cwd args) in
  if ip_PrintOnly plan then io_ret ()
  else
    do! _ := MkdirAll (Dir (ip_EnvPath plan)) 493 in
    do! _ := MkdirAll (Dir (ip_ServicePath plan)) 493 in
    do! _ := WriteFile (ip_EnvPath plan) (ip_EnvContent plan) 384 in
    WriteFile (ip_ServicePath plan) (ip_ServiceContent plan) 420.
End agent_program.

(** [run]: a first argument [install] selects the installer. *)
Inductive command := Install (args : list string) | ServeAgent (args : list string).
Definition run (args : list string) : command :=
  match args with
  | first :: rest => if String.eqb first "install" then Install rest else ServeAgent args
  | [] => ServeAgent args
  end.

(** * Properties *)

(** ** The environment file *)

(** The assignments of an environment file, one per line. *)
Definition env_assignments (text : string) : list (string * string) :=
  omap (Cut "=") (Split (ch 10) text).

Definition one_line : string → bool := str_forall (λ c, negb (Ascii.eqb c (ch 10))).

Lemma Split_line a b :
  one_line a = true → Split (ch 10) (a +:+ newline +:+ b) = a :: Split (ch 10) b.
Proof.
  unfold one_line. induction a as [|c a IH]; [done|]. cbn [str_forall].
  intros [Hc Ha]%andb_true_iff. apply negb_true_iff in Hc.
  change (String c a +:+ newline +:+ b) with (String c (a +:+ newline +:+ b)).
  cbn [Split]. rewrite Hc. by rewrite IH.
Qed.

Lemma one_line_app a b : one_line (a +:+ b) = one_line a && one_line b.
Proof.
  unfold one_line. induction a as [|c a IH]; [done|].
  change (String c a +:+ b) with (String c (a +:+ b)). cbn [str_forall].
  by rewrite IH, andb_assoc.
Qed.

Lemma Split_lines l :
  Forall (λ s, one_line s = true) l → l ≠ [] →
  Split (ch 10) (Join newline l +:+ newline) = l ++ [""].
Proof.
  induction 1 as [|s l Hs Hl IH]; [done|]. intros _. destruct l as [|t l].
  - cbn [Join]. pose proof (Split_line s "" Hs) as E. by rewrite app_nil_str in E.
  - rewrite Join_cons, !app_assoc_str, Split_line, IH by done. done.
Qed.

(** The environment file that [install] writes gives back, line by line,
    the settings that the service's command line refers to, without the white
    space around them, as long as none contains a line break. *)
Theorem install_env_roundtrip name listenAddr runtime socketPath serverURL publicAddr :
  Forall (λ s, one_line s = true)
    [TrimSpace name; TrimSpace listenAddr; runtime; TrimSpace socketPath; TrimSpace serverURL;
     TrimSpace publicAddr] →
  env_assignments
    (buildSystemdEnvForInstall name listenAddr runtime socketPath serverURL publicAddr) =
  [("DOMUX_AGENT_NAME", TrimSpace name); ("DOMUX_AGENT_LISTEN", TrimSpace listenAddr);
   ("DOMUX_AGENT_RUNTIME", runtime); ("DOMUX_AGENT_SOCKET", TrimSpace socketPath);
   ("DOMUX_SERVER_URL", TrimSpace serverURL); ("DOMUX_AGENT_ADDR", TrimSpace publicAddr)].
Proof.
  intros Hl. rewrite !Forall_cons in Hl. destruct Hl as (H1 & H2 & H3 & H4 & H5 & H6 & _).
  unfold env_assignments, buildSystemdEnvForInstall. rewrite Split_lines; [done| |done].
  repeat constructor; rewrite one_line_app, andb_true_iff; by split.
Qed.

Section agent_props.
Context {W : Type} `{OS W} `{!OSLaws W} `{GoRuntime} (env : Env).

(** [install] either refuses its arguments or only prints its plan, and
    changes nothing; or it writes the environment file and the service file
    and no other, and when it succeeds both have the planned contents, a new
    environment file is readable by its owner only, and the service file names
    the environment file. *)
Theorem runInstall_correct cwd args w :
  let '(w', r) := runInstall env cwd args w in
  match plan_install env cwd args with
  | Err e => w' = w ∧ r = Err e
  | Ok plan =>
      if ip_PrintOnly plan then w' = w ∧ r = Ok ()
      else
        (∀ p, p ≠ ip_EnvPath plan → p ≠ ip_ServicePath plan →
           os_tree w' !! p = os_tree w !! p) ∧
        (r = Ok () →
          f_data <$> os_tree w' !! ip_ServicePath plan = Some (ip_ServiceContent plan) ∧
          (ip_EnvPath plan ≠ ip_ServicePath plan →
             os_tree w' !! ip_EnvPath plan =
             Some {| f_data := ip_EnvContent plan;
                     f_mode := match os_tree w !! ip_EnvPath plan with
                               | Some f => f_mode f
                               | None => created_mode W 384
                               end |})) ∧
        ip_ServiceContent plan =
          ReplaceAll defaultAgentServiceTemplate "{{ENV_FILE}}" (ip_EnvPath plan)
  end.
Proof.
  unfold runInstall. destruct (plan_install env cwd args) as [plan|e] eqn:Ep; [|done].
  cbn [io_bind io_lift]. unfold io_bind, io_lift.
  destruct (ip_PrintOnly plan); [done|].
  assert (ip_ServiceContent plan =
    ReplaceAll defaultAgentServiceTemplate "{{ENV_FILE}}" (ip_EnvPath plan)) as Hc.
  { unfold plan_install in Ep. destruct (flag_Parse _ _); [|done].
    destruct (String.eqb _ _); [done|]. destruct (ContainerRuntime_Validate _); [done|].
    by injection Ep as <-. }
  pose proof (MkdirAll_tree (Dir (ip_EnvPath plan)) 493 w) as E1.
  destruct (MkdirAll _ _ w) as [w1 [[]|e]]; simpl in E1; [|by rewrite E1].
  pose proof (MkdirAll_tree (Dir (ip_ServicePath plan)) 493 w1) as E2.
  destruct (MkdirAll _ _ w1) as [w2 [[]|e]]; simpl in E2; [|by rewrite E2, E1].
  rewrite <-E1, <-E2. clear E1 E2.
  pose proof (WriteFile_frame (ip_EnvPath plan) (ip_EnvContent plan) 384 w2) as F1.
  destruct (WriteFile (ip_EnvPath plan) _ _ w2) as [w3 [[]|e]] eqn:O1; simpl in F1.
  2:{ split; [|done]. intros p Hp _. by apply F1. }
  apply WriteFile_Ok in O1.
  pose proof (WriteFile_frame (ip_ServicePath plan) (ip_ServiceContent plan) 420 w3) as F2.
  destruct (WriteFile (ip_ServicePath plan) _ _ w3) as [w4 r] eqn:O2; simpl in F2.
  split_and!; [intros p Hp1 Hp2; by rewrite F2, F1| |done]. intros ->.
  apply WriteFile_Ok in O2. split; [by rewrite O2|]. intros Hne. by rewrite F2, O1.
Qed.
End agent_props.

(** ** Messages as JSON objects

    Both programs describe their message by the tags of a struct: its fields
    are encoded under these names, and decoded from them, with their text as
    JSON carries it.  [object] stands for the text of an object whose fields
    are strings. *)
Definition field (fields : list (string * string)) (name : string) : string :=
  match List.find (λ p, String.eqb p.1 name) fields with
  | Some (_, value) => json_text value
  | None => ""
  end.

Class MarshalsAs (object : list (string * string) → string) {A} `{JSON A}
    (fields : A → list (string * string)) :=
  json_Marshal_object a : json_Marshal a = object (fields a).
Class DecodesFrom (object : list (string * string) → string) {A} `{JSON A}
    (of_fields : (string → string) → A) :=
  json_Decode_object fields :
    NoDup (map fst fields) → json_Decode (object fields) = Ok (of_fields (field fields)).

(** The tags of [agentRegistration] in the agent, and of
    [agentRegistrationRequest] in the server. *)
Definition registration_fields (r : agentRegistration) : list (string * string) :=
  [("name", ag_Name r); ("addr", ag_Addr r); ("runtime", ag_Runtime r);
   ("socket_path", ag_SocketPath r); ("version", ag_Version r)].
Lemma registration_names r : NoDup (map fst (registration_fields r)).
Proof. apply (bool_decide_unpack (NoDup _)). by vm_compute. Qed.

Definition request_of_fields (get : string → string) : agentRegistrationRequest :=
  {| arr_Name := get "name"; arr_Addr := get "addr"; arr_Runtime := get "runtime";
     arr_SocketPath := get "socket_path"; arr_Version := get "version" |}.

(** ** The URL of the endpoint *)

Lemma TrimRightSet_all p s : str_forall p s = true → TrimRightSet p s = "".
Proof.
  induction s as [|c s IH]; [done|]. cbn [str_forall TrimRightSet].
  intros [Hc Hs]%andb_true_iff. by rewrite IH, Hc.
Qed.

Lemma TrimRightSet_app_all p a s :
  str_forall p s = true → TrimRightSet p (a +:+ s) = TrimRightSet p a.
Proof.
  intros Hs. induction a as [|c a IH]; [by apply TrimRightSet_all|].
  change (String c a +:+ s) with (String c (a +:+ s)). cbn [TrimRightSet]. by rewrite IH.
Qed.

Lemma TrimRightSet_app_keep p a s :
  TrimRightSet p s = s → s ≠ "" → TrimRightSet p (a +:+ s) = a +:+ s.
Proof.
  intros Hs Hne. induction a as [|c a IH]; [done|].
  change (String c a +:+ s) with (String c (a +:+ s)). cbn [TrimRightSet]. rewrite IH.
  destruct (a +:+ s) eqn:E; [by destruct a|done].
Qed.

(** The URL of a server as it is given to an agent: a scheme and a host, and
    any number of slashes. *)
Definition server_url (scheme server slashes : string) : Prop :=
  scheme ∈ ["http"; "https"] ∧ plain_host server = true ∧
  str_forall (is_char slash) slashes = true.

Lemma register_endpoint_at scheme server slashes :
  server_url scheme server slashes →
  register_endpoint (scheme +:+ "://" +:+ server +:+ slashes) =
  scheme +:+ "://" +:+ server +:+ "/api/v1/agents/register".
Proof.
  intros (_ & Hh & Hs). unfold register_endpoint.
  rewrite <-!app_assoc_str. rewrite TrimRightSet_app_all, TrimRightSet_app_keep; [done| | |done].
  - pose proof (plain_host_no_slash server Hh) as Hn. apply TrimRightSet_keep.
    revert Hn. apply str_forall_impl. intros c. unfold is_char. by rewrite Ascii.eqb_sym.
  - by intros ->.
Qed.

Lemma register_url `{NetURLLaws} scheme server slashes :
  server_url scheme server slashes →
  ∃ u, url_Parse (register_endpoint (scheme +:+ "://" +:+ server +:+ slashes)) = Ok u ∧
       url_Scheme u = scheme ∧ url_Host u = server ∧ url_Path u = "/api/v1/agents/register".
Proof.
  intros Hurl. rewrite (register_endpoint_at _ _ _ Hurl). destruct Hurl as (Hs & Hh & _).
  by apply url_Parse_http.
Qed.

(** ** Registration *)
Section registration.
Context {W : Type} `{GoRuntime} `{NetURL} `{!NetURLLaws} `{Lego} `{YAML}
  `{JSON CustomApp} `{JSON ManagedZone} `{JSON DDNSProviderConfig} `{JSON RuntimeSource}
  `{JSON AgentNode} `{JSON DeployTarget} `{JSON CertificateBundlePolicy}
  `{JSON agentRegistrationRequest} `{JSON agentRegistration} `{OS W}
  (env : Env) (host : Host) (calls : FileCalls) (srv : ApiServer W)
  (docker_client : RuntimeSource → result error apiClient)
  (systemSnapshot : W → W * result error SystemResources).

(** The request as the API sees it: the segments are those of the URL's path,
    which an agent's URL does not escape. *)
Definition received (remoteAddr : string) (u : url) (rq : Request) : HttpRequest :=
  {| hq_Method := rq_Method rq; hq_Segments := tail (Split slash (url_Path u));
     hq_Query _ := "";
     hq_Header name := default "" (snd <$> List.find (λ h, String.eqb h.1 name) (rq_Headers rq));
     hq_Host := url_Host u; hq_RemoteAddr := remoteAddr;
     hq_TLS := String.eqb (url_Scheme u) "https"; hq_Body := rq_Body rq |}.

(** A network that leads from the agent to the API, at one scheme and host,
    behind its access check; the agent's request carries no credentials. *)
Definition api_network (auth : AuthConfig) (scheme server remoteAddr : string)
  : HTTP (ApiState W * W) := {|
  http_Do rq '(s, w) :=
    match url_Parse (rq_URL rq) with
    | Err e => ((s, w), Err e)
    | Ok u =>
        if String.eqb (url_Scheme u) scheme && String.eqb (url_Host u) server then
          match withBasicAuth auth {| aq_Path := url_Path u; aq_BasicAuth := None |} with
          | Unauthorized => ((s, w), Ok (http_Error "Unauthorized" 401))
          | Serve =>
              let '(s', w', rep) :=
                serve env host calls srv docker_client systemSnapshot
                  (received remoteAddr u rq) s w in
              ((s', w'), Ok {| rs_StatusCode := rp_Status rep; rs_Body := "" |})
          end
        else ((s, w), Err (Enew "no such host"))
    end
|}.

Lemma serve_register remoteAddr u rq s w :
  rq_Method rq = "POST" → url_Path u = "/api/v1/agents/register" →
  serve env host calls srv docker_client systemSnapshot (received remoteAddr u rq) s w =
  registerAgent (received remoteAddr u rq) s w.
Proof. intros Hm Hu. unfold received. by rewrite Hm, Hu. Qed.

(** A request that is refused without effect is tried until no attempt is left,
    with a wait after each. *)
Lemma register_attempts_refused {V} `{HTTP V} (wait : V → V) (P : V → Prop) n rq v u :
  url_Parse (rq_URL rq) = Ok u →
  (∀ v, P v → ∃ r, http_Do rq v = (v, r) ∧ accepted r = false) →
  (∀ v, P v → P (wait v)) → P v →
  register_attempts wait n rq v = (Nat.iter n wait v, false).
Proof.
  intros Hu Hdo Hwait. revert v. induction n as [|n IH]; intros v Hv; [done|].
  cbn [register_attempts]. rewrite Hu. destruct (Hdo v Hv) as (r & -> & ->).
  rewrite IH by auto. f_equal. by rewrite Nat.iter_succ_r.
Qed.

Lemma iter_second {A B} (f : B → B) n (a : A) b :
  Nat.iter n (λ '(a, b), (a, f b)) (a, b) = (a, Nat.iter n f b).
Proof. induction n as [|n IH]; [done|]. by rewrite !Nat.iter_succ, IH. Qed.

Lemma trimmed_guess name : trimmed (guessPublicAgentAddr name).
Proof.
  unfold guessPublicAgentAddr. case_split; [done|].
  apply (trimmed_join_solid _ "8890"); [done|apply trimmed_TrimSpace|done].
Qed.

Lemma guess_nonempty name : guessPublicAgentAddr name ≠ "".
Proof.
  unfold guessPublicAgentAddr. case_split; [done|]. intros E.
  apply (f_equal String.length) in E. rewrite length_app_str in E. simpl in E. lia.
Qed.

(** The address that is announced. *)
Definition announced_addr (r : agentRegistration) : string :=
  if String.eqb (TrimSpace (ag_Addr r)) "" then guessPublicAgentAddr (ag_Name r)
  else TrimSpace (ag_Addr r).

(** The node that the server makes of a registration. *)
Definition pending_node (r : agentRegistration) : AgentNode :=
  {| an_Name := TrimSpace (ag_Name r); an_DisplayName := ""; an_Addr := announced_addr r;
     an_Runtime := ag_Runtime r; an_SocketPath := TrimSpace (ag_SocketPath r);
     an_Version := TrimSpace (ag_Version r); an_Status := "pending"; an_LastError := "";
     an_LastCheckedAt := 0%Z; an_Resources := zero_SystemResources |}.

Lemma registered_pending r remoteAddr :
  ContainerRuntime_Validate (ag_Runtime r) = None →
  (∀ name value, (name, value) ∈ registration_fields (with_addr r) → valid_utf8 value = true) →
  registered_node (request_of_fields (field (registration_fields (with_addr r)))) remoteAddr =
  pending_node r.
Proof.
  clear host calls srv docker_client systemSnapshot. intros Hr Hutf.
  assert (request_of_fields (field (registration_fields (with_addr r))) =
    {| arr_Name := ag_Name (with_addr r); arr_Addr := ag_Addr (with_addr r);
       arr_Runtime := ag_Runtime (with_addr r); arr_SocketPath := ag_SocketPath (with_addr r);
       arr_Version := ag_Version (with_addr r) |}) as ->.
  { assert (∀ name value, (name, value) ∈ registration_fields (with_addr r) →
              json_text value = value) as Htext.
    { intros name value Hin. apply String.eqb_eq. exact (Hutf name value Hin). }
    unfold request_of_fields, field. cbn -[json_text].
    f_equal; [apply (Htext "name")|apply (Htext "addr")|apply (Htext "runtime")|
      apply (Htext "socket_path")|apply (Htext "version")];
      unfold registration_fields; rewrite !elem_of_cons; tauto. }
  assert (TrimSpace (ag_Runtime r) = ag_Runtime r ∧ ag_Runtime r ≠ "") as [Ht Hne].
  { unfold ContainerRuntime_Validate in Hr. destruct (_ || _) eqn:E; [|done].
    apply orb_true_iff in E as [->%String.eqb_eq| ->%String.eqb_eq]; done. }
  apply String.eqb_neq in Hne.
  unfold registered_node, pending_node, announced_addr, with_addr.
  destruct (String.eqb (TrimSpace (ag_Addr r)) "") eqn:Ea;
    cbn [arr_Name arr_Addr arr_Runtime arr_SocketPath arr_Version
         ag_Name ag_Addr ag_Runtime ag_SocketPath ag_Version];
    rewrite Ht, Hne, ?Ea; [|done].
  pose proof (trimmed_guess (ag_Name r)) as Hg. unfold trimmed in Hg. rewrite Hg.
  pose proof (guess_nonempty (ag_Name r)) as Hn. apply String.eqb_neq in Hn. by rewrite Hn.
Qed.

Lemma pending_valid r :
  ContainerRuntime_Validate (ag_Runtime r) = None →
  AgentNode_Validate (pending_node r) =
  if String.eqb (TrimSpace (ag_Name r)) "" then Some (Enew "agent node name is required")
  else None.
Proof.
  clear host calls srv docker_client systemSnapshot. intros Hr.
  unfold AgentNode_Validate, pending_node, announced_addr.
  cbn [an_Name an_Addr an_Runtime]. destruct (String.eqb (TrimSpace (ag_Name r)) ""); [done|].
  rewrite Hr. destruct (String.eqb (TrimSpace (ag_Addr r)) "") eqn:Ea; [|by rewrite Ea].
  pose proof (guess_nonempty (ag_Name r)) as Hn. apply String.eqb_neq in Hn. by rewrite Hn.
Qed.

Lemma runServe_registration deployer args (plan : serve_plan W) serverURL r :
  runServe env deployer args = Ok plan → sp_Registration plan = Some (serverURL, r) →
  ContainerRuntime_Validate (ag_Runtime r) = None ∧
  ag_Name r = as_Name (sp_Server plan) ∧ ag_Runtime r = as_Runtime (sp_Server plan) ∧
  ag_SocketPath r = as_SocketPath (sp_Server plan).
Proof.
  clear host calls srv docker_client systemSnapshot. unfold runServe.
  destruct (flag_Parse _ _) as [flags|]; [|done].
  destruct (ContainerRuntime_Validate _) eqn:Hr; [done|].
  destruct (NewRuntimeProxy _); [|done]. intros [= <-]. simpl.
  destruct (String.eqb _ _); [done|]. by intros [= <- <-].
Qed.

(** What a registration leaves at the server. *)
Definition registration_outcome (auth : AuthConfig) (r : agentRegistration)
    (s s' : ApiState W) (ok : bool) : Prop :=
  if AuthConfig_Enabled auth || String.eqb (TrimSpace (ag_Name r)) ""
  then ok = false ∧ s' = s
  else ok = true ∧ s' = with_api_store (PutPendingAgent (pending_node r)) s.

(** C15. An agent that is started with the URL of a server, with or without
    slashes at its end, and sends valid UTF-8.  If the API needs no credentials
    and the agent has a name, its first request, as the two programs write and
    read its URL and its body, reaches the API's handler and leaves it in the
    server's list of pending agents, under its name, with the address it
    was given or one guessed from the name, the runtime it validated and the
    socket it serves, and nothing else at the server changes.  With
    credentials configured at the server, or without a name, the server
    refuses each of twelve attempts, with a wait after each, and does not
    change. *)
Theorem registration_reaches_server object
    `{!MarshalsAs object registration_fields} `{!DecodesFrom object request_of_fields}
    (auth : AuthConfig) deployer args (plan : serve_plan W)
    scheme server slashes r remoteAddr (wait : W → W) s w :
  server_url scheme server slashes →
  let serverURL := scheme +:+ "://" +:+ server +:+ slashes in
  runServe env deployer args = Ok plan → sp_Registration plan = Some (serverURL, r) →
  (∀ name value, (name, value) ∈ registration_fields (with_addr r) → valid_utf8 value = true) →
  let network := api_network auth scheme server remoteAddr in
  let '((s', w'), ok) :=
    registerWithServer (HN := network) (λ '(s, w), (s, wait w)) serverURL r (s, w) in
  registration_outcome auth r s s' ok ∧
  an_Name (pending_node r) = TrimSpace (as_Name (sp_Server plan)) ∧
  (if ok then w' = w ∧ pending_node r ∈ ListPendingAgents (store_of s')
   else w' = Nat.iter 12 wait w).
Proof.
  intros Hurl serverURL Hrun Hreg Hutf network.
  destruct (runServe_registration _ _ _ _ _ Hrun Hreg) as (Hr & Hname & _).
  assert (an_Name (pending_node r) = TrimSpace (as_Name (sp_Server plan))) as Hn
    by (by rewrite <-Hname).
  unfold registerWithServer, registration_outcome.
  set (rq := register_request serverURL (with_addr r)).
  destruct (register_url scheme server slashes Hurl) as (u & Hu & Hscheme & Hhost & Hpath).
  fold serverURL in Hu. change (register_endpoint serverURL) with (rq_URL rq) in Hu.
  assert (∀ s w, http_Do (HTTP:=network) rq (s, w) =
    if AuthConfig_Enabled auth then ((s, w), Ok (http_Error "Unauthorized" 401))
    else if String.eqb (TrimSpace (ag_Name r)) ""
    then ((s, w), Ok {| rs_StatusCode := 400; rs_Body := "" |})
    else ((with_api_store (PutPendingAgent (pending_node r)) s, w),
          Ok {| rs_StatusCode := 202; rs_Body := "" |})) as Hdo.
  { intros s1 w1. cbn [http_Do network api_network].
    rewrite Hu, Hscheme, Hhost, !String.eqb_refl. cbn [andb]. unfold withBasicAuth.
    cbn [aq_Path aq_BasicAuth]. rewrite Hpath.
    destruct (AuthConfig_Enabled auth); [done|]. cbn [negb].
    rewrite serve_register by done. unfold registerAgent, with_body.
    cbn [received hq_Body hq_RemoteAddr]. unfold rq. cbn [register_request rq_Body].
    rewrite json_Marshal_object, json_Decode_object, registered_pending, pending_valid
      by (done || apply registration_names).
    by destruct (String.eqb (TrimSpace (ag_Name r)) ""). }
  destruct (AuthConfig_Enabled auth || String.eqb (TrimSpace (ag_Name r)) "") eqn:Hb.
  - rewrite (@register_attempts_refused _ network _ (λ v, v.1 = s) 12 rq (s, w) u); [
      |done| |by intros []|done].
    { by rewrite iter_second. }
    intros [s1 w1] Hs1. simpl in Hs1. subst s1. rewrite Hdo.
    destruct (AuthConfig_Enabled auth); [by eexists|]. cbn [orb] in Hb. rewrite Hb. by eexists.
  - apply orb_false_iff in Hb as [Ha He]. cbn [register_attempts].
    rewrite Hu, Hdo, Ha, He. cbn [accepted].
    split_and!; [done..|].
    unfold ListPendingAgents, store_of, with_api_store. cbn. apply elem_of_sort_by, elem_of_map_values.
    exists (an_Name (pending_node r)). unfold PutPendingAgent. cbn. by rewrite lookup_insert_eq.
Qed.
End registration.

(** ** Examples *)
#[local] Existing Instance reference_runtime.
#[local] Existing Instance reference_url.
#[local] Existing Instance reference_lego.
#[local] Existing Instance reference_yaml.
#[local] Existing Instances app_json zone_json provider_json source_json node_json target_json
  policy_json.

(** A codec of objects: their size, their names and their values. *)
Fixpoint unary (n : nat) : string :=
  match n with O => "" | S n' => String mark (unary n') end.
Definition example_object (fields : list (string * string)) : string :=
  enc_str (unary (length fields)) +:+ enc_list (map fst fields ++ map snd fields).
Definition read_object (s : string) : option (list (string * string)) :=
  match dec_str s with
  | Some (size, rest) =>
      let n := String.length size in
      match dec_list (n + n) rest with
      | Some l => Some (combine (take n l) (drop n l))
      | None => None
      end
  | None => None
  end.

Lemma read_example_object fields : read_object (example_object fields) = Some fields.
Proof.
  unfold read_object, example_object. rewrite dec_enc_str.
  assert (∀ n, String.length (unary n) = n) as -> by (induction n; simpl; congruence).
  pose proof (dec_enc_list (map fst fields ++ map snd fields) "") as E.
  rewrite app_nil_str, length_app, !length_map in E. rewrite E.
  rewrite take_app_length', drop_app_length' by (by rewrite length_map).
  f_equal. clear E. induction fields as [|[k v] fields IH]; [done|]. cbn. by rewrite IH.
Qed.

#[local] Instance registration_codec : JSON agentRegistration := {
  json_Marshal r := example_object (registration_fields r);
  json_Decode s := Err malformed
}.
#[local] Instance request_codec : JSON agentRegistrationRequest := {
  json_Marshal r := "";
  json_Decode s := match read_object s with
                   | Some fields => Ok (request_of_fields (field fields))
                   | None => Err malformed
                   end
}.
#[local] Instance registration_codec_tags : MarshalsAs example_object registration_fields.
Proof. done. Qed.
#[local] Instance request_codec_tags : DecodesFrom example_object request_of_fields.
Proof. intros fields _. cbn [json_Decode request_codec]. by rewrite read_example_object. Qed.

Definition example_args : list string :=
  ["-server"; "http://domux:8080/"; "--name=edge"; "-runtime"; "podman"].

Example flag_Parse_example :
  runServer_config ["-config=/etc/domux.yaml"; "extra"] = Ok "/etc/domux.yaml" ∧
  runServer_config ["-config"] = Err (Enew "flag needs an argument: -config") ∧
  runServer_config ["-verbose"] = Err (Enew "flag provided but not defined: -verbose").
Proof. by vm_compute. Qed.

Example install_env_roundtrip_witness :
  env_assignments (buildSystemdEnvForInstall " edge " ":8890" "podman" "/run/podman.sock"
    "http://domux:8080" "") =
  [("DOMUX_AGENT_NAME", "edge"); ("DOMUX_AGENT_LISTEN", ":8890");
   ("DOMUX_AGENT_RUNTIME", "podman"); ("DOMUX_AGENT_SOCKET", "/run/podman.sock");
   ("DOMUX_SERVER_URL", "http://domux:8080"); ("DOMUX_AGENT_ADDR", "")].
Proof.
  apply (install_env_roundtrip " edge " ":8890" "podman" "/run/podman.sock"
    "http://domux:8080" "").
  repeat (apply Forall_cons; split; [reflexivity|]). apply Forall_nil. exact I.
Defined.

Definition install_args : list string :=
  ["-server"; "http://domux:8080"; "-socket"; "/run/podman.sock"; "-prefix"; "opt/domux/"].

Example runInstall_correct_witness :
  let '(w', r) := runInstall example_env "/root" install_args empty_host in
  r = Ok () ∧
  (∀ p, p ≠ "/root/opt/domux/domux-agent.env" → p ≠ "/root/opt/domux/domux-agent.service" →
     os_tree w' !! p = None) ∧
  f_mode <$> os_tree w' !! "/root/opt/domux/domux-agent.env" = Some 384%Z.
Proof.
  pose proof (runInstall_correct example_env "/root" install_args empty_host) as Hc.
  destruct (runInstall _ _ _ _) as [w' r] eqn:E.
  destruct (plan_install example_env "/root" install_args) as [plan|e] eqn:Ep;
    vm_compute in Ep; [|discriminate]. injection Ep as <-.
  destruct Hc as (Hframe & Hok & _).
  assert (r = Ok ()) as -> by (vm_compute in E; by injection E as _ <-).
  split; [done|]. split; [intros p Hp1 Hp2; exact (Hframe p Hp1 Hp2)|].
  destruct (Hok eq_refl) as [_ Hm]. cbn [ip_EnvPath ip_ServicePath] in Hm.
  by rewrite Hm by done.
Defined.

(** What [example_args] announces. *)
Definition example_registration : agentRegistration :=
  {| ag_Name := "edge"; ag_Addr := ""; ag_Runtime := "podman";
     ag_SocketPath := defaultSocketPath example_env "podman"; ag_Version := jdversion_Value |}.
Definition example_plan : serve_plan SimOS :=
  {| sp_Addr := ":8890";
     sp_Server := {| as_Name := "edge"; as_Runtime := "podman";
                     as_SocketPath := defaultSocketPath example_env "podman";
                     as_Version := jdversion_Value; as_Deployer := Some FileDeployer_Deploy;
                     as_Proxy := true |};
     sp_Registration := Some ("http://domux:8080/", example_registration) |}.

Definition example_network (auth : AuthConfig) : HTTP (ApiState SimOS * SimOS) :=
  api_network example_env example_host calls_ok
    {| sv_actions _ := None; sv_configManager := None; sv_reload := None |}
    (λ _, Ok empty_client) no_snapshot auth "http" "domux:8080" "10.0.0.7:9".

Lemma example_url : server_url "http" "domux:8080" "/".
Proof. split; [apply list_elem_of_here|by split]. Qed.
Lemma example_utf8 name value :
  (name, value) ∈ registration_fields (with_addr example_registration) →
  valid_utf8 value = true.
Proof.
  unfold registration_fields. rewrite !elem_of_cons, elem_of_nil.
  intros [[= _ ->]|[[= _ ->]|[[= _ ->]|[[= _ ->]|[[= _ ->]|[]]]]]]; by vm_compute.
Qed.

(** The server has no credentials: the agent becomes pending. *)
Example registration_reaches_server_witness :
  let auth := {| auth_Username := ""; auth_Password := "" |} in
  let '((s', _), ok) :=
    registerWithServer (HN := example_network auth) (λ '(s, w), (s, id w)) "http://domux:8080/"
      example_registration (example_state, empty_host) in
  ok = true ∧ pending_node example_registration ∈ ListPendingAgents (store_of s') ∧
  an_Addr (pending_node example_registration) = "edge:8890".
Proof.
  intros auth.
  pose proof (registration_reaches_server (W:=SimOS) example_env example_host calls_ok
    {| sv_actions _ := None; sv_configManager := None; sv_reload := None |}
    (λ _, Ok empty_client) no_snapshot example_object auth FileDeployer_Deploy example_args
    example_plan "http" "domux:8080" "/" example_registration "10.0.0.7:9" id
    example_state empty_host example_url eq_refl eq_refl example_utf8) as Hr.
  cbv zeta in Hr.
  destruct (registerWithServer _ _ _ _) as [[s' w'] ok].
  destruct Hr as ([-> Hs] & _ & [_ Hp]). split; [done|]. by split.
Defined.

Example registration_refused :
  (registerWithServer (HN := example_network {| auth_Username := "u"; auth_Password := "p" |})
     (λ v, v) "http://domux:8080/" example_registration (example_state, empty_host)).2 = false.
Proof. vm_compute. reflexivity. Qed.
