(* ===== verification/System.v ===== *)
(** The load of the host ([src/internal/system/resources.go]): what is read
    from [/proc] and [statfs], and the percentages.

    [uint64] is a [Z] with its wrap-around written out, [float64] the
    standard's [spec_float] with 53 bits of precision, and its 64 bits in
    [SystemResources].  Texts are read whole through [OS]; [statfs] and the
    wait between the two samples are parameters. *)

From Stdlib Require Import SpecFloat.
From S2P Require Import Prelude GoStrings GoRuntime Core Sys Api.

(** ** [uint64] and [float64] *)
Definition uint64 (z : Z) : Z := z mod 2 ^ 64.

Definition float := spec_float.
Definition of_uint64 (u : Z) : float := binary_normalize 53 1024 u 0 false.
Definition fmul : float → float → float := SFmul 53 1024.
Definition fdiv : float → float → float := SFdiv 53 1024.
Definition fhundred : float := of_uint64 100.
Definition fzero : float := S754_zero false.

(** [math.Float64bits] *)
Definition float_bits (f : float) : float64 :=
  let signed (s : bool) (n : Z) := if s then (2 ^ 63 + n)%Z else n in
  match f with
  | S754_zero s => signed s 0%Z
  | S754_infinity s => signed s (2047 * 2 ^ 52)%Z
  | S754_nan => (2047 * 2 ^ 52 + 2 ^ 51 + 1)%Z
  | S754_finite s m e =>
      if (Z.pos (digits2_pos m) =? 53)%Z then signed s ((e + 1075) * 2 ^ 52 + (Z.pos m - 2 ^ 52))%Z
      else signed s (Z.pos m)
  end.

Definition clampPercent (value : float) : float :=
  if SFltb value fzero then fzero
  else if SFltb fhundred value then fhundred
  else value.

(** [100 * float64(part) / float64(whole)], clamped. *)
Definition percent_of (part whole : Z) : float :=
  clampPercent (fdiv (fmul fhundred (of_uint64 part)) (of_uint64 whole)).

(** ** Texts *)

(** [strings.Fields]: [skip] counts the bytes left of a white-space code
    point, [cur] is the field being read, backwards. *)
Fixpoint fields_from (skip : nat) (cur s : string) : list string :=
  let close := if String.eqb cur "" then [] else [cur] in
  match s with
  | EmptyString => close
  | String c s' =>
      match skip with
      | S k => fields_from k cur s'
      | O => match space_width s with
             | O => fields_from 0 (cur +:+ String c "") s'
             | S k => close ++ fields_from k "" s'
             end
      end
  end.
Definition Fields (s : string) : list string := fields_from 0 "" s.

(** [strconv.ParseUint(s, 10, 64)] *)
Definition ParseUint (s : string) : result error Z :=
  let bad (why : string) := Err (Enew ("strconv.ParseUint: parsing: " +:+ why)) in
  if String.eqb s "" then bad "invalid syntax"
  else match digits_value 0 s with
       | None => bad "invalid syntax"
       | Some v => if (v <? 2 ^ 64)%Z then Ok v else bad "value out of range"
       end.

(** The first line of a text; [None] if there is none or it is too long. *)
Definition first_line (text : string) : option string :=
  if String.eqb text "" then None
  else
    let line := default "" (head (Split (ch 10) text)) in
    if (65536 <=? N.of_nat (String.length line))%N then None else Some (drop_cr line).

(** ** The samples *)
Record cpuSample := { cpu_idle : Z; cpu_total : Z }.

Record Statfs_t := { st_Blocks : Z; st_Bavail : Z; st_Bsize : Z }.

Fixpoint parse_all (fields : list string) : result error (list Z) :=
  match fields with
  | [] => Ok []
  | field :: fields' =>
      let? value := ParseUint field in
      let? values := parse_all fields' in
      Ok (value :: values)
  end.

Definition parse_cpu (text : string) : result error cpuSample :=
  match first_line text with
  | None => Err (Enew "read /proc/stat: no cpu line")
  | Some line =>
      let fields := Fields line in
      if (length fields <? 5)%nat || negb (String.eqb (default "" (head fields)) "cpu")
      then Err (Enew "read /proc/stat: invalid cpu line")
      else
        let? values := parse_all (tail fields) in
        let total := foldl (λ t v, uint64 (t + v)) 0%Z values in
        let idle := default 0%Z (values !! 3) in
        let idle := match values !! 4 with Some v => uint64 (idle + v) | None => idle end in
        Ok {| cpu_idle := idle; cpu_total := total |}
  end.

(** One line of [/proc/meminfo], on the pair of total and available memory. *)
Definition meminfo_line (acc : Z * Z) (line : string) : Z * Z :=
  match Fields line with
  | name :: number :: _ =>
      match ParseUint number with
      | Err _ => acc
      | Ok value =>
          let name := TrimSuffix name ":" in
          if String.eqb name "MemTotal" then (value, acc.2)
          else if String.eqb name "MemAvailable" then (acc.1, value)
          else acc
      end
  | _ => acc
  end.

Definition parse_meminfo (text : string) : result error (Z * Z) :=
  let? lines := scan_lines text in Ok (foldl meminfo_line (0, 0)%Z lines).

Section snapshot.
Context {W} `{OS W} (Statfs : string → IO W Statfs_t) (wait : IO W ()).

Definition readCPUSample : IO W cpuSample :=
  do! text := ReadFile "/proc/stat" in io_lift (parse_cpu text).

Definition cpuPercent : IO W float :=
  do! first := readCPUSample in
  do! _ := wait in
  do! second := readCPUSample in
  let total := uint64 (cpu_total second - cpu_total first) in
  if (total =? 0)%Z then io_ret fzero
  else
    let idle := uint64 (cpu_idle second - cpu_idle first) in
    io_ret (percent_of (uint64 (total - idle)) total).

Definition memoryPercent : IO W float :=
  do! text := ReadFile "/proc/meminfo" in
  do! memory := io_lift (parse_meminfo text) in
  let '(total, available) := memory in
  if (total =? 0)%Z then io_err (Enew "read /proc/meminfo: MemTotal missing")
  else io_ret (percent_of (uint64 (total - available)) total).

Definition diskPercent (path : string) : IO W float :=
  do! stat := Statfs path in
  let bsize := uint64 (st_Bsize stat) in
  let total := uint64 (st_Blocks stat * bsize) in
  let free := uint64 (st_Bavail stat * bsize) in
  if (total =? 0)%Z then io_ret fzero
  else io_ret (percent_of (uint64 (total - free)) total).

(** [Snapshot]: the three are read whatever the others say. *)
Definition Snapshot : IO W SystemResources := λ w,
  let '(w, cpu) := cpuPercent w in
  let '(w, memory) := memoryPercent w in
  let '(w, disk) := diskPercent "/" w in
  match cpu, memory, disk with
  | Err e, _, _ => (w, Err e)
  | Ok _, Err e, _ => (w, Err e)
  | Ok _, Ok _, Err e => (w, Err e)
  | Ok cpu, Ok memory, Ok disk =>
      let '(w, now) := Now w in
      (w, Ok {| res_CPUPercent := float_bits cpu; res_MemoryPercent := float_bits memory;
                res_DiskPercent := float_bits disk; res_CheckedAt := now |})
  end.
End snapshot.

(** * Properties *)

(** ** Rounding is total on what the program computes *)

Lemma shr_1_half r : (0 ≤ shr_m r)%Z → shr_m (shr_1 r) = (shr_m r / 2)%Z.
Proof.
  destruct r as [[|[p|p|]|p] r s]; cbn [shr_m shr_1]; intros Hm; try done.
  - apply (Z.div_unique _ _ _ 1); lia.
  - apply (Z.div_unique _ _ _ 0); lia.
Qed.

Lemma div_pow_add m a b :
  (0 ≤ a)%Z → (0 ≤ b)%Z → (m / 2 ^ a / 2 ^ b = m / 2 ^ (a + b))%Z.
Proof.
  intros Ha Hb. pose proof (Z.pow_pos_nonneg 2 a). pose proof (Z.pow_pos_nonneg 2 b).
  rewrite Z.div_div, Z.pow_add_r by lia. done.
Qed.

Lemma iter_shr_half p r :
  (0 ≤ shr_m r)%Z → shr_m (SpecFloat.iter_pos shr_1 p r) = (shr_m r / 2 ^ Z.pos p)%Z.
Proof.
  assert (∀ m p, (0 ≤ m → 0 ≤ m / 2 ^ Z.pos p)%Z) as Hpos.
  { intros m q Hm. apply Z.div_pos; [done|]. by apply Z.pow_pos_nonneg. }
  revert r. induction p as [p IH|p IH|]; intros r Hm; cbn [SpecFloat.iter_pos].
  - assert (0 ≤ shr_m (shr_1 r))%Z by (rewrite shr_1_half by done; by apply (Hpos _ 1%positive)).
    rewrite !IH by (rewrite ?IH; auto). rewrite shr_1_half by done.
    replace (Z.pos p~1) with (1 + Z.pos p + Z.pos p)%Z by lia.
    by rewrite <-!div_pow_add by lia.
  - rewrite !IH by (rewrite ?IH; auto). 
    replace (Z.pos p~0) with (Z.pos p + Z.pos p)%Z by lia. by rewrite <-div_pow_add by lia.
  - by apply shr_1_half.
Qed.

Lemma digits2_log2 p : Zpos (digits2_pos p) = (Z.log2 (Zpos p) + 1)%Z.
Proof.
  induction p as [p IH|p IH|]; [| |done]; cbn [digits2_pos]; rewrite Pos2Z.inj_succ, IH.
  - rewrite (Pos2Z.inj_xI p), Z.log2_succ_double by lia. lia.
  - rewrite (Pos2Z.inj_xO p), Z.log2_double by lia. lia.
Qed.

(** A shift never makes a mantissa negative. *)
Lemma shr_nonneg mrs e n :
  (0 ≤ shr_m mrs)%Z → (0 ≤ shr_m (shr mrs e n).1)%Z.
Proof.
  intros Hm. destruct n as [|p|p]; simpl; try done. rewrite iter_shr_half by done.
  apply Z.div_pos; [done|]. by apply Z.pow_pos_nonneg.
Qed.

Lemma round_nonneg m l : (0 ≤ m)%Z → (0 ≤ round_nearest_even m l)%Z.
Proof. intros Hm. unfold round_nearest_even. repeat case_match; lia. Qed.

(** A float that is neither negative nor not a number. *)
Definition nonneg (f : float) : bool :=
  match f with
  | S754_zero s | S754_infinity s | S754_finite s _ _ => negb s
  | S754_nan => false
  end.

Lemma binary_round_aux_nonneg m e l :
  (0 ≤ m)%Z → nonneg (binary_round_aux 53 1024 false m e l) = true.
Proof.
  intros Hm. unfold binary_round_aux, shr_fexp.
  destruct (shr (shr_record_of_loc m l) e _) as [mrs' e'] eqn:E1.
  assert (0 ≤ shr_m mrs')%Z as H1.
  { change mrs' with (mrs', e').1. rewrite <-E1. apply shr_nonneg. by destruct l as [|[]]. }
  set (m1 := round_nearest_even _ _).
  assert (0 ≤ m1)%Z as H2 by (by apply round_nonneg).
  destruct (shr (shr_record_of_loc m1 loc_Exact) e' _) as [mrs'' e''] eqn:E2.
  assert (0 ≤ shr_m mrs'')%Z as H3.
  { change mrs'' with (mrs'', e'').1. rewrite <-E2. by apply shr_nonneg. }
  destruct (shr_m mrs''); [done| |lia]. by case_match.
Qed.

Lemma of_uint64_nonneg u : (0 ≤ u)%Z → nonneg (of_uint64 u) = true.
Proof.
  intros Hu. destruct u as [|p|p]; [done| |lia]. unfold of_uint64, binary_normalize, binary_round.
  destruct (shl_align _ _ _) as [m e]. by apply binary_round_aux_nonneg.
Qed.

(** [shr] by a non-negative amount divides the mantissa. *)
Lemma shr_div m e n :
  (0 ≤ m)%Z → (0 ≤ n)%Z →
  shr_m (shr {| shr_m := m; shr_r := false; shr_s := false |} e n).1 = (m / 2 ^ n)%Z ∧
  (shr {| shr_m := m; shr_r := false; shr_s := false |} e n).2 = (e + n)%Z.
Proof.
  intros Hm Hn. destruct n as [|p|p]; [|by split; [apply iter_shr_half|]|lia].
  cbn [shr fst snd shr_m]. rewrite Z.pow_0_r, Z.div_1_r. lia.
Qed.

Lemma round_up m l : (m ≤ round_nearest_even m l ≤ m + 1)%Z.
Proof. unfold round_nearest_even. repeat case_match; lia. Qed.

(** A mantissa of 53 to 64 bits with a small exponent is rounded to a positive
    number. *)
Lemma binary_round_aux_finite m e :
  (2 ^ 52 ≤ m < 2 ^ 64)%Z → (-52 ≤ e ≤ 0)%Z →
  ∃ m' e', binary_round_aux 53 1024 false m e loc_Exact = S754_finite false m' e'.
Proof.
  intros Hm He. unfold binary_round_aux, shr_fexp. cbn [shr_record_of_loc].
  assert (∀ x, (0 < x)%Z → Zdigits2 x = (Z.log2 x + 1)%Z) as Hd.
  { intros [|p|p]; [lia| |lia]. intros _. apply digits2_log2. }
  assert (∀ x k, (52 ≤ Z.log2 x ≤ 63)%Z → (-52 ≤ k ≤ 64)%Z →
    (fexp 53 1024 (Z.log2 x + 1 + k) - k = Z.log2 x - 52)%Z) as Hf.
  { intros x k Hx Hk. unfold fexp, emin. lia. }
  assert (52 ≤ Z.log2 m ≤ 63)%Z as Hl.
  { split; [by apply Z.log2_le_pow2; lia|].
    assert (Z.log2 m < 64)%Z by (apply Z.log2_lt_pow2; lia). lia. }
  rewrite Hd, Hf by lia.
  pose proof (shr_div m e (Z.log2 m - 52)) as [Hs1 He1]; [lia..|].
  destruct (shr _ e _) as [mrs' e1]. cbn [fst snd] in Hs1, He1. rewrite Hs1.
  set (q := (m / 2 ^ (Z.log2 m - 52))%Z).
  assert (2 ^ 52 ≤ q < 2 ^ 53)%Z as Hq.
  { pose proof (Z.log2_spec m ltac:(lia)) as [Hlo Hhi]. unfold q.
    pose proof (Z.pow_pos_nonneg 2 (Z.log2 m - 52) ltac:(lia) ltac:(lia)).
    split.
    - apply Z.div_le_lower_bound; [done|]. rewrite <-Z.pow_add_r by lia.
      by replace (Z.log2 m - 52 + 52)%Z with (Z.log2 m) by lia.
    - apply Z.div_lt_upper_bound; [done|]. rewrite <-Z.pow_add_r by lia.
      by replace (Z.log2 m - 52 + 53)%Z with (Z.succ (Z.log2 m)) by lia. }
  pose proof (round_up q (loc_of_shr_record mrs')) as Hr.
  set (m1 := round_nearest_even q _) in *.
  assert (52 ≤ Z.log2 m1 ≤ 53)%Z as Hl1.
  { split; [apply Z.log2_le_pow2; lia|].
    assert (Z.log2 m1 < 54)%Z; [|lia]. apply Z.log2_lt_pow2; [lia|].
    change (2 ^ 54)%Z with (2 * 2 ^ 53)%Z. lia. }
  rewrite Hd, Hf by lia.
  pose proof (shr_div m1 e1 (Z.log2 m1 - 52)) as [Hs2 He2]; [lia..|].
  destruct (shr _ e1 _) as [mrs'' e2]. cbn [fst snd] in Hs2, He2. rewrite Hs2.
  assert (0 < m1 / 2 ^ (Z.log2 m1 - 52))%Z as Hpos.
  { apply Z.div_str_pos. split; [by apply Z.pow_pos_nonneg; lia|].
    transitivity (2 ^ 1)%Z; [apply Z.pow_le_mono_r; lia|]. lia. }
  destruct (m1 / 2 ^ (Z.log2 m1 - 52))%Z as [|p|p]; [lia| |lia].
  rewrite (proj2 (Z.leb_le _ _)) by lia. by eexists _, _.
Qed.

Lemma iter_xO_shift p d : (Z.pos (Pos.iter xO p d) = Z.pos p * 2 ^ Z.pos d)%Z.
Proof.
  induction d as [|d IH] using Pos.peano_ind; [simpl; lia|].
  rewrite Pos.iter_succ, Pos2Z.inj_xO, IH, Pos2Z.inj_succ, Z.pow_succ_r by lia. lia.
Qed.

Lemma of_uint64_finite u :
  (0 < u < 2 ^ 64)%Z → ∃ m e, of_uint64 u = S754_finite false m e.
Proof.
  intros Hu. destruct u as [|p|p]; [lia| |lia].
  unfold of_uint64, binary_normalize, binary_round.
  rewrite digits2_log2, Z.add_0_r.
  assert (Z.log2 (Z.pos p) < 64)%Z as Hl by (apply Z.log2_lt_pow2; lia).
  pose proof (Z.log2_nonneg (Z.pos p)). pose proof (Z.log2_spec (Z.pos p) ltac:(lia)) as [Hlo Hhi].
  assert (fexp 53 1024 (Z.log2 (Z.pos p) + 1) = Z.log2 (Z.pos p) - 52)%Z as ->.
  { unfold fexp, emin. lia. }
  unfold shl_align. rewrite Z.sub_0_r.
  destruct (Z.log2 (Z.pos p) - 52)%Z as [|d|d] eqn:Ed.
  - apply binary_round_aux_finite; [|lia]. split; [|lia].
    replace 52%Z with (Z.log2 (Z.pos p)) by lia. lia.
  - apply binary_round_aux_finite; [|lia]. split; [|lia].
    transitivity (2 ^ Z.log2 (Z.pos p))%Z; [apply Z.pow_le_mono_r; lia|lia].
  - apply binary_round_aux_finite; [|lia]. rewrite iter_xO_shift.
    assert (Z.pos d = 52 - Z.log2 (Z.pos p))%Z as -> by lia.
    pose proof (Z.pow_pos_nonneg 2 (52 - Z.log2 (Z.pos p)) ltac:(lia) ltac:(lia)).
    assert (2 ^ Z.log2 (Z.pos p) * 2 ^ (52 - Z.log2 (Z.pos p)) = 2 ^ 52)%Z as E1.
    { rewrite <-Z.pow_add_r by lia. f_equal. lia. }
    assert (2 ^ Z.succ (Z.log2 (Z.pos p)) * 2 ^ (52 - Z.log2 (Z.pos p)) = 2 ^ 53)%Z as E2.
    { rewrite <-Z.pow_add_r by lia. f_equal. lia. }
    split; [rewrite <-E1; by apply Z.mul_le_mono_nonneg_r; lia|].
    transitivity (2 ^ 53)%Z; [rewrite <-E2; by apply Z.mul_lt_mono_pos_r|lia].
Qed.

Lemma fmul_hundred b : nonneg b = true → nonneg (fmul fhundred b) = true.
Proof.
  assert (∃ m e, fhundred = S754_finite false m e) as (m & e & ->) by (by eexists _, _).
  destruct b as [[]|[]| |[] m' e']; simpl; try done. intros _. by apply binary_round_aux_nonneg.
Qed.

(** A quotient by a positive number is not negative and is a number. *)
Lemma fdiv_nonneg a m e :
  nonneg a = true → nonneg (fdiv a (S754_finite false m e)) = true.
Proof.
  destruct a as [[]|[]| |[] m' e']; try done. intros _. unfold fdiv, SFdiv.
  destruct (SFdiv_core_binary _ _ _ _ _ _) as [[q ex] l] eqn:E. apply binary_round_aux_nonneg.
  unfold SFdiv_core_binary in E.
  match type of E with (let '(_, _) := Z.div_eucl ?x ?y in _) = _ =>
    assert (0 ≤ x)%Z as Hx; [|assert (0 ≤ x / y)%Z as Hq by (by apply Z.div_pos);
      unfold Z.div in Hq; destruct (Z.div_eucl x y)] end.
  { repeat case_match; try lia. apply Z.shiftl_nonneg. lia. }
  by injection E as <- _ _.
Qed.

Lemma SFcompare_sym x y :
  SFcompare x y = option_map CompOpp (SFcompare y x).
Proof.
  destruct x as [[]|[]| |[] m e], y as [[]|[]| |[] m' e']; try done; simpl;
    rewrite (Z.compare_antisym e' e); destruct (e' ?= e)%Z; simpl; try done;
    change (Pos.compare_cont Eq m m') with (Pos.compare m m');
    change (Pos.compare_cont Eq m' m) with (Pos.compare m' m);
    by rewrite (Pos.compare_antisym m' m), ?CompOpp_involutive.
Qed.

(** A percentage: between 0 and 100, and a number. *)
Definition percentage (f : float) : Prop :=
  SFleb fzero f = true ∧ SFleb f fhundred = true.

Lemma clampPercent_bounds f : nonneg f = true → percentage (clampPercent f).
Proof.
  intros Hf. unfold clampPercent.
  assert (SFltb f fzero = false) as -> by (by destruct f as [[]|[]| |[] m e]).
  assert (∃ m e, fhundred = S754_finite false m e) as (m & e & Hh) by (by eexists _, _).
  destruct (SFltb fhundred f) eqn:E; [by split|]. split.
  - by destruct f as [[]|[]| |[] m' e'].
  - unfold SFltb in E. unfold SFleb. rewrite SFcompare_sym.
    destruct (SFcompare fhundred f) as [[]|] eqn:Ec; try done.
    rewrite Hh in Ec. by destruct f as [[]|[]| |[] m' e'].
Qed.

Lemma uint64_range z : (0 ≤ uint64 z < 2 ^ 64)%Z.
Proof. apply Z.mod_pos_bound. lia. Qed.

Lemma percent_of_bounds part whole :
  (0 ≤ part)%Z → (0 < whole < 2 ^ 64)%Z → percentage (percent_of part whole).
Proof.
  intros Hp Hw. unfold percent_of. apply clampPercent_bounds.
  destruct (of_uint64_finite whole Hw) as (m & e & ->).
  by apply fdiv_nonneg, fmul_hundred, of_uint64_nonneg.
Qed.

Lemma percent_of_uint64 z whole :
  (0 ≤ whole < 2 ^ 64)%Z → (whole =? 0)%Z = false → percentage (percent_of (uint64 z) whole).
Proof.
  intros Hw Hz. apply percent_of_bounds; [apply uint64_range|]. lia.
Qed.

(** ** What is read is a [uint64] *)

Lemma digits_value_nonneg acc s v : (0 ≤ acc)%Z → digits_value acc s = Some v → (0 ≤ v)%Z.
Proof.
  revert acc. induction s as [|c s IH]; intros acc Hacc; simpl; [by intros [= <-]|].
  destruct (is_digit c) eqn:Hc; [|done]. apply IH. unfold is_digit in Hc.
  apply andb_true_iff in Hc as [Hc _]. apply N.leb_le in Hc. lia.
Qed.

Lemma ParseUint_range s v : ParseUint s = Ok v → (0 ≤ v < 2 ^ 64)%Z.
Proof.
  unfold ParseUint. case_split; [done|]. destruct (digits_value 0 s) as [z|] eqn:E; [|done].
  apply digits_value_nonneg in E; [|done]. destruct (Z.ltb_spec z (2 ^ 64)); [|done].
  intros [= <-]. lia.
Qed.

Lemma meminfo_range lines acc :
  (0 ≤ acc.1 < 2 ^ 64)%Z → (0 ≤ (foldl meminfo_line acc lines).1 < 2 ^ 64)%Z.
Proof.
  revert acc. induction lines as [|line lines IH]; intros acc Hacc; [done|]. simpl. apply IH.
  unfold meminfo_line. destruct (Fields line) as [|name [|number ?]]; try done.
  destruct (ParseUint number) as [v|] eqn:E; [|done]. apply ParseUint_range in E.
  by repeat case_match.
Qed.

Section snapshot_props.
Context {W} `{OS W} (Statfs : string → IO W Statfs_t) (wait : IO W ()).

Lemma cpuPercent_ok (w w' : W) v : cpuPercent wait w = (w', Ok v) → percentage v.
Proof.
  unfold cpuPercent. rewrite io_bind_Ok. intros (w1 & first & _ & H1).
  apply io_bind_Ok in H1 as (w2 & [] & _ & H2). apply io_bind_Ok in H2 as (w3 & second & _ & H3).
  destruct (Z.eqb _ 0) eqn:Hz; injection H3 as _ <-; [by split|].
  apply percent_of_uint64; [apply uint64_range|done].
Qed.

Lemma memoryPercent_ok (w w' : W) v : memoryPercent w = (w', Ok v) → percentage v.
Proof.
  unfold memoryPercent. rewrite io_bind_Ok. intros (w1 & text & _ & H1).
  apply io_bind_Ok in H1 as (w2 & [total available] & Hp & H2).
  injection Hp as _ Hp. unfold parse_meminfo in Hp.
  destruct (scan_lines text) as [lines|]; [|done]. injection Hp as Hp.
  pose proof (meminfo_range lines (0, 0)%Z) as Hr. rewrite Hp in Hr. simpl in Hr.
  destruct (Z.eqb total 0) eqn:Hz; [done|]. injection H2 as _ <-.
  apply percent_of_uint64; [lia|done].
Qed.

Lemma diskPercent_ok path (w w' : W) v : diskPercent Statfs path w = (w', Ok v) → percentage v.
Proof.
  unfold diskPercent. rewrite io_bind_Ok. intros (w1 & stat & _ & H1).
  destruct (Z.eqb _ 0) eqn:Hz; injection H1 as _ <-; [by split|].
  apply percent_of_uint64; [apply uint64_range|done].
Qed.

(** C23. A snapshot of the host's load never holds anything but percentages,
    whatever the kernel reports: counters that run backwards or wrap around,
    more free memory than there is, a file system of any size; and it fails
    with the error of the first of the three measurements that failed. *)
Theorem Snapshot_percentages w :
  match Snapshot Statfs wait w with
  | (_, Ok r) =>
      ∃ cpu memory disk, percentage cpu ∧ percentage memory ∧ percentage disk ∧
        res_CPUPercent r = float_bits cpu ∧ res_MemoryPercent r = float_bits memory ∧
        res_DiskPercent r = float_bits disk
  | (w3, Err e) =>
      ∃ w1 w2 cpu memory disk,
        cpuPercent wait w = (w1, cpu) ∧ memoryPercent w1 = (w2, memory) ∧
        diskPercent Statfs "/" w2 = (w3, disk) ∧
        match cpu with
        | Err e' => e = e'
        | Ok _ => match memory with
                  | Err e' => e = e'
                  | Ok _ => disk = Err e
                  end
        end
  end.
Proof.
  unfold Snapshot. destruct (cpuPercent wait w) as [w1 cpu] eqn:E1.
  destruct (memoryPercent w1) as [w2 memory] eqn:E2.
  destruct (diskPercent Statfs "/" w2) as [w3 disk] eqn:E3.
  destruct cpu as [cpu|e]; [|by exists w1, w2, (Err e), memory, disk].
  destruct memory as [memory|e]; [|by exists w1, w2, (Ok cpu), (Err e), disk].
  destruct disk as [disk|e]; [|by exists w1, w2, (Ok cpu), (Ok memory), (Err e)].
  destruct (Now w3) as [w4 now]. exists cpu, memory, disk. split_and!; try done.
  - by eapply cpuPercent_ok.
  - by eapply memoryPercent_ok.
  - by eapply diskPercent_ok.
Qed.
End snapshot_props.

(** ** Examples *)
Example Fields_example : Fields "  cpu  10 20	30 " = ["cpu"; "10"; "20"; "30"].
Proof. reflexivity. Qed.

Example parse_cpu_example :
  parse_cpu ("cpu 100 0 50 800 50 0" +:+ newline +:+ "cpu0 1 2 3 4") =
  Ok {| cpu_idle := 850; cpu_total := 1000 |} ∧
  parse_cpu "cpu 1 2 3" = Err (Enew "read /proc/stat: invalid cpu line").
Proof. by vm_compute. Qed.

(** 50 percent, its bits as in [math.Float64bits(50)], and a counter that ran
    backwards. *)
Example percent_example :
  float_bits (percent_of 500 1000) = 4632233691727265792%Z ∧
  percent_of (uint64 (10 - 30)) 10 = fhundred.
Proof. by vm_compute. Qed.
