(* ===== verification/Lifecycle.v ===== *)
(** What runs for as long as the program does: the watch on a container
    runtime's events ([Watch] in [src/internal/discovery/docker/client.go]) and
    the goroutine that refreshes the routes on them ([startRouteWatchers] in
    [src/cmd/domux/main.go]), as a transition system over their two channels;
    and how the server program ends ([serveServer], [shutdownServers] and the
    end of [runServerWithContext]). *)

From S2P Require Import Prelude GoStrings GoRuntime Core Registry Config Store Proxy Sys Discovery Agent Routes Main.

(** ** Watching a runtime *)

(** What the event stream of the runtime delivers. *)
Inductive stream_event :=
  | Message (msg : EventMessage)
  | MessagesClosed
  | StreamError (err : option error)
  | StreamErrorsClosed.

(** Where the goroutine of [Watch] is, and the one of [startRouteWatchers]. *)
Inductive producer := Streaming | Retrying | Stopped.
Inductive consumer := Idle | Refreshing | Exited.

(** The two channels have room for one value each; both are closed when the
    producer stops.  [wt_seen] counts the messages that ask for a refresh,
    [wt_covered] is the value it had when the latest refresh began,
    [wt_refreshes] counts the refreshes: the code does not keep these three. *)
Record watcher := {
  wt_cancelled : bool;
  wt_producer : producer;
  wt_refreshCh : bool;
  wt_errCh : option error;
  wt_consumer : consumer;
  wt_seen : nat;
  wt_covered : nat;
  wt_refreshes : nat
}.

Definition new_watcher : watcher :=
  {| wt_cancelled := false; wt_producer := Streaming; wt_refreshCh := false; wt_errCh := None;
     wt_consumer := Idle; wt_seen := 0; wt_covered := 0; wt_refreshes := 0 |}.

Definition set_producer (p : producer) (s : watcher) : watcher :=
  {| wt_cancelled := wt_cancelled s; wt_producer := p; wt_refreshCh := wt_refreshCh s;
     wt_errCh := wt_errCh s; wt_consumer := wt_consumer s; wt_seen := wt_seen s;
     wt_covered := wt_covered s; wt_refreshes := wt_refreshes s |}.
Definition set_consumer (c : consumer) (s : watcher) : watcher :=
  {| wt_cancelled := wt_cancelled s; wt_producer := wt_producer s;
     wt_refreshCh := wt_refreshCh s; wt_errCh := wt_errCh s; wt_consumer := c;
     wt_seen := wt_seen s; wt_covered := wt_covered s; wt_refreshes := wt_refreshes s |}.
Definition cancel (s : watcher) : watcher :=
  {| wt_cancelled := true; wt_producer := wt_producer s; wt_refreshCh := wt_refreshCh s;
     wt_errCh := wt_errCh s; wt_consumer := wt_consumer s; wt_seen := wt_seen s;
     wt_covered := wt_covered s; wt_refreshes := wt_refreshes s |}.

(** A send that gives up when the channel is full. *)
Definition offer_error (e : error) (s : watcher) : watcher :=
  {| wt_cancelled := wt_cancelled s; wt_producer := wt_producer s;
     wt_refreshCh := wt_refreshCh s;
     wt_errCh := match wt_errCh s with None => Some e | full => full end;
     wt_consumer := wt_consumer s; wt_seen := wt_seen s; wt_covered := wt_covered s;
     wt_refreshes := wt_refreshes s |}.
Definition offer_refresh (s : watcher) : watcher :=
  {| wt_cancelled := wt_cancelled s; wt_producer := wt_producer s; wt_refreshCh := true;
     wt_errCh := wt_errCh s; wt_consumer := wt_consumer s; wt_seen := S (wt_seen s);
     wt_covered := wt_covered s; wt_refreshes := wt_refreshes s |}.
Definition take_error (s : watcher) : watcher :=
  {| wt_cancelled := wt_cancelled s; wt_producer := wt_producer s;
     wt_refreshCh := wt_refreshCh s; wt_errCh := None; wt_consumer := wt_consumer s;
     wt_seen := wt_seen s; wt_covered := wt_covered s; wt_refreshes := wt_refreshes s |}.
Definition take_refresh (s : watcher) : watcher :=
  {| wt_cancelled := wt_cancelled s; wt_producer := wt_producer s; wt_refreshCh := false;
     wt_errCh := wt_errCh s; wt_consumer := Refreshing; wt_seen := wt_seen s;
     wt_covered := wt_seen s; wt_refreshes := S (wt_refreshes s) |}.

(** The two inner cases of [Watch]'s select. *)
Definition on_stream (ev : stream_event) (s : watcher) : watcher :=
  match ev with
  | Message msg => if shouldRefreshOnEvent msg then offer_refresh s else s
  | MessagesClosed =>
      set_producer Retrying (offer_error (Esentinel ContextCanceled "context canceled") s)
  | StreamError None => s
  | StreamError (Some e) => set_producer Retrying (offer_error e s)
  | StreamErrorsClosed => set_producer Retrying s
  end.

(** Whether the error is logged. *)
Definition watch_warning (e : error) : bool := negb (errors_is ContextCanceled e).

Inductive watch_step : watcher → watcher → Prop :=
| step_cancel s : watch_step s (cancel s)
| step_stream ev s : wt_producer s = Streaming → watch_step s (on_stream ev s)
| step_retry s : wt_producer s = Retrying → watch_step s (set_producer Streaming s)
| step_stop s :
    wt_cancelled s = true → wt_producer s ≠ Stopped → watch_step s (set_producer Stopped s)
| step_take_refresh s :
    wt_consumer s = Idle → wt_refreshCh s = true → watch_step s (take_refresh s)
| step_refreshed s : wt_consumer s = Refreshing → watch_step s (set_consumer Idle s)
| step_take_error s e :
    wt_consumer s = Idle → wt_errCh s = Some e → watch_step s (take_error s)
| step_errors_closed s :
    wt_consumer s = Idle → wt_errCh s = None → wt_producer s = Stopped → watch_step s s
| step_refreshes_closed s :
    wt_consumer s = Idle → wt_refreshCh s = false → wt_producer s = Stopped →
    watch_step s (set_consumer Exited s)
| step_consumer_done s :
    wt_consumer s = Idle → wt_cancelled s = true → watch_step s (set_consumer Exited s).

(** ** The end of the server program *)

(** [serveServer]: what a server that has stopped leaves in the channel of
    errors, which has room for three. *)
Definition serveServer (result : option error) (errCh : list error) : list error :=
  match result with
  | None => errCh
  | Some e => if errors_is ErrServerClosed e then errCh
              else if (length errCh <? 3)%nat then errCh ++ [e] else errCh
  end.

(** The addresses of the servers that are started, in order. *)
Definition started_servers (cfg : Config) : list string :=
  sv_APIAddr (c_Server cfg) ::
  (if String.eqb (sv_HTTPAddr (c_Server cfg)) "" then [] else [sv_HTTPAddr (c_Server cfg)]) ++
  (if String.eqb (sv_HTTPSAddr (c_Server cfg)) "" then [] else [sv_HTTPSAddr (c_Server cfg)]).

(** [shutdownServers], on each server's address and what [Shutdown] returns. *)
Definition shutdown_error (server : string * option error) : option error :=
  if String.eqb server.1 "" then None
  else match server.2 with
       | Some e => if errors_is ErrServerClosed e then None else Some e
       | None => None
       end.
Definition shutdownServers (servers : list (string * option error)) : option error :=
  join_errs (omap shutdown_error servers).

(** What [runServerWithContext] returns: [first] is the first error of the
    servers, or none when the program was asked to stop. *)
Definition exit_error (first : option error) (servers : list (string * option error))
  : option error :=
  match shutdownServers servers with
  | None => first
  | Some e => match first with
              | Some runErr => errors_join [Some runErr; Some e]
              | None => Some e
              end
  end.

(** * Properties *)

(** A relevant message that no refresh has started after waits in the channel;
    every refresh was asked for by a message of its own; the watch ends only
    when it is cancelled. *)
Record watch_ok (s : watcher) : Prop := {
  watch_pending : wt_covered s < wt_seen s → wt_refreshCh s = true;
  watch_covered : wt_covered s ≤ wt_seen s;
  watch_count : wt_refreshes s + (if wt_refreshCh s then 1 else 0) ≤ wt_seen s;
  watch_stopped : wt_cancelled s = false → wt_producer s ≠ Stopped ∧ wt_consumer s ≠ Exited
}.

Lemma watch_ok_new : watch_ok new_watcher.
Proof. split; simpl; lia || done. Qed.

Lemma on_stream_ok ev s : watch_ok s → wt_producer s = Streaming → watch_ok (on_stream ev s).
Proof.
  intros [H1 H2 H3 H4] Hp. destruct ev as [msg| |[e|]|]; simpl; try (by split);
    try (by split; simpl; try done; intros Hc; split; [done|]; by apply H4).
  destruct (shouldRefreshOnEvent msg); [|by split]. split; simpl; try done; [lia|].
  destruct (wt_refreshCh s); lia.
Qed.

Lemma watch_step_ok s s' : watch_ok s → watch_step s s' → watch_ok s'.
Proof.
  intros Hs Hstep. pose proof Hs as [H1 H2 H3 H4].
  destruct Hstep as [s|ev s Hp|s Hp|s Hc Hp|s Hc Hr|s Hc|s e Hc He|s Hc He Hp|s Hc Hr Hp|s Hc Hx];
    try (by apply on_stream_ok); try done; split; simpl; try done; try lia;
    try (intros Hn; by destruct (H4 Hn)); try (intros Hn; congruence).
  rewrite Hr in H3. lia.
Qed.

Lemma reachable_watch_ok s : rtc watch_step new_watcher s → watch_ok s.
Proof.
  apply (rtc_ind_r (R:=watch_step) watch_ok new_watcher watch_ok_new).
  intros s1 s2 _ Hstep Hs. by eapply watch_step_ok.
Qed.

(** C14. No event of a runtime is lost between the two goroutines, however they
    interleave: in every reachable state, a message that asks for a refresh
    and that no refresh has begun after is still pending, and as long as the
    watch is not cancelled the refresh loop gets to a refresh that begins
    after it; the next refresh to begin covers all of them at once, and there
    are never more refreshes than messages. *)
Theorem watch_no_event_lost s :
  rtc watch_step new_watcher s →
  wt_refreshes s ≤ wt_seen s ∧
  (wt_covered s < wt_seen s → wt_refreshCh s = true) ∧
  (∀ s', watch_step s s' → wt_refreshes s' ≠ wt_refreshes s → wt_covered s' = wt_seen s) ∧
  (wt_cancelled s = false →
     ∃ s', rtc watch_step s s' ∧ wt_covered s' = wt_seen s ∧ wt_seen s' = wt_seen s ∧
           wt_cancelled s' = false).
Proof.
  intros Hr. pose proof (reachable_watch_ok s Hr) as [H1 H2 H3 H4]. split_and!.
  - lia.
  - done.
  - destruct 1 as [|ev s| | | | | | | |]; simpl; try done.
    destruct ev as [msg| |[e|]|]; simpl; try done. by destruct (shouldRefreshOnEvent msg).
  - intros Hc. destruct (H4 Hc) as [_ Hx].
    destruct (decide (wt_covered s = wt_seen s)) as [E|E]; [by exists s|].
    assert (wt_refreshCh s = true) as Hch by (apply H1; lia).
    destruct (wt_consumer s) eqn:Hcons; [| |done].
    + exists (take_refresh s). split_and!; [|done..]. apply rtc_once. by constructor.
    + exists (take_refresh (set_consumer Idle s)). split_and!; [|done..].
      eapply rtc_l; [by apply step_refreshed|]. apply rtc_once. by constructor.
Qed.

(** Reconnecting to the event stream asks for no refresh: what happened while
    the stream was down is only seen by the next message or the timer. *)
Lemma reconnect_asks_nothing s :
  wt_producer s = Retrying → wt_refreshCh (set_producer Streaming s) = wt_refreshCh s.
Proof. done. Qed.

(** A message about a network is not about a container, whatever its action. *)
Example connect_of_network_ignored :
  shouldRefreshOnEvent {| ev_Type := "network"; ev_Action := "connect" |} = false.
Proof. reflexivity. Qed.

Definition start_message : stream_event :=
  Message {| ev_Type := "container"; ev_Action := "start" |}.

(** A refresh is running when two more messages arrive. *)
Definition busy_watcher : watcher :=
  on_stream start_message (on_stream start_message
    (take_refresh (on_stream start_message new_watcher))).

Lemma busy_reachable : rtc watch_step new_watcher busy_watcher.
Proof.
  eapply rtc_l; [by apply (step_stream start_message)|].
  eapply rtc_l; [by apply step_take_refresh|].
  eapply rtc_l; [by apply (step_stream start_message)|].
  apply rtc_once. by apply (step_stream start_message).
Qed.

Example watch_no_event_lost_witness :
  wt_covered busy_watcher = 1 ∧ wt_seen busy_watcher = 3 ∧ wt_refreshCh busy_watcher = true ∧
  ∃ s', rtc watch_step busy_watcher s' ∧ wt_covered s' = 3.
Proof.
  destruct (watch_no_event_lost busy_watcher busy_reachable) as (_ & Hp & _ & Hl).
  split; [reflexivity|]. split; [reflexivity|].
  split; [apply Hp; vm_compute; lia|].
  destruct (Hl eq_refl) as (s' & Hr & Hc & _). exists s'. split; [exact Hr|exact Hc].
Defined.

Lemma omap_nil_iff {A B} (f : A → option B) l : omap f l = [] ↔ ∀ x, x ∈ l → f x = None.
Proof.
  induction l as [|x l IH]; simpl.
  - split; [|done]. intros _ x Hx. by apply elem_of_nil in Hx.
  - destruct (f x) eqn:E.
    + split; [done|]. intros Hall. specialize (Hall x (list_elem_of_here _ _)). congruence.
    + rewrite IH. split; intros Hall y; [|intros Hy; apply Hall; by right].
      intros [->|Hy]%elem_of_cons; [done|]. by apply Hall.
Qed.

(** The program ends without an error exactly if no server failed before it
    was asked to stop and every server with an address shut down in order. *)
Theorem exit_error_None first servers :
  exit_error first servers = None ↔
  first = None ∧
  ∀ addr e, (addr, Some e) ∈ servers → addr ≠ "" → errors_is ErrServerClosed e = true.
Proof.
  assert (shutdownServers servers = None ↔
    ∀ addr e, (addr, Some e) ∈ servers → addr ≠ "" → errors_is ErrServerClosed e = true) as Hs.
  { unfold shutdownServers. rewrite join_errs_None, omap_nil_iff. unfold shutdown_error. split.
    - intros Hall addr e Hin Hne%String.eqb_neq. specialize (Hall _ Hin). simpl in Hall.
      rewrite Hne in Hall. by destruct (errors_is ErrServerClosed e).
    - intros Hall [addr [e|]] Hin; simpl; destruct (String.eqb addr "") eqn:Ea; try done.
      apply String.eqb_neq in Ea. by rewrite (Hall addr e Hin Ea). }
  rewrite <-Hs. unfold exit_error. destruct (shutdownServers servers), first; naive_solver.
Qed.
